(* ===== verification/_CoqProject ===== *)
-Q . S2P
Prelude.v
GoStrings.v
GoTime.v
Api.v
DeepCopy.v
Sdk.v
Effects.v
Crd.v
GoTemplate.v
AddonText.v
Utils.v
Provider.v
Rest.v
NodeInfo.v
Help.v
Sign.v
RestConfig.v
Etcd.v
Triple.v
Operation.v
Healet.v
MasterSet.v
Hash.v
Index.v
Alibaba.v
Oss.v
UserData.v
UserDataTpl.v
AliGroups.v
AliEvents.v
Monit.v
Iaas.v
NodePoolCtl.v
BackupCtl.v
ApiServer.v
Actions.v
NodeActions.v
Post.v
Manifests.v
Boot.v
GoRegexp.v
Unstructed.v
GoJson.v
Stack.v
StackTpl.v
KubeClient.v
Operator.v
Build.v
Monkey.v
Auth.v
Commands.v
