(* ===== verification/Prelude.v ===== *)
(** * wdrip: a verification library

    wdrip bootstraps a Kubernetes cluster on a cloud provider and keeps it
    running: an operator in the cluster watches the instances of the scaling
    groups, the nodes and the custom resources, repairs the ones that disagree,
    scales the control plane without losing the etcd quorum, backs etcd up to
    object storage, and serves the boot configuration to nodes that join.  This
    library models that Go code and proves what makes it correct; where it is not
    correct, it proves what it does instead.

    ** How Go is rendered

    Code that talks to nothing is a Coq function.  Code with effects is a
    computation [M S A := S -> outcome A * S]: it returns, panics, or hangs.  The
    state is a world together with the log of the calls made on it ([Effects.St]);
    the code reaches the world through values of [Effects.call] only (Kubernetes
    API, drain helper, commands, files, clock, randomness, X.509, and the methods
    of [provider.Interface]), and an instance of [Effects.Env] answers them.
    Theorems hold for every environment and every world; the laws an individual
    theorem needs (a clock that does not go back, an object store that returns
    what was put, a JSON codec that decodes what it encoded) are classes, each
    with an instance in a [Sim] module on which the theorems are exercised.
    Errors are [option goerr]; a Go [int] that can overflow is wrapped to 64 bits
    where it is computed; [for range] over a slice is [range] with break, continue
    and return as values; iteration order over a map is a parameter ([MapRange])
    bound by no more than being a permutation.  A mutex is not a state: the code
    under it runs as one computation; where two loops compete for one
    ([BackupCtl], [Healet]) their order is an explicit schedule of events.

    ** Files, in dependency order

    - [Prelude]: the monad, Go errors, loops.  [GoStrings], [GoTime]: the parts of
      strings, path and time the code uses, with the calendar; formatting is
      inverted by parsing and keeps the order of instants.
    - [Api]: pkg/apis/alibabacloud.com/v1/types.go, the objects as values.
      [DeepCopy]: types.go and kubeletconfig.go with zz_generated.deepcopy.go, the
      objects as graphs in a store, and their copies.  [Sdk]: the requests made to
      the cloud's SDK.  [Effects]: the calls, and the reasoning about which calls
      a computation makes ([emits], [run_emits], [calls]) with its tactics and
      hint database.
    - [GoTemplate]: text/template and html/template as far as the embedded
      templates use them, with a type check of templates.  [AddonText]: the
      templates of pkg/actions/post and pkg/actions/kubeadm/tpl, in full.
    - [Crd]: pkg/utils/crd.  [Utils]: pkg/utils.  [Provider]:
      pkg/iaas/provider/provider.go.  [Rest], [RestConfig]: pkg/client, the client
      of the boot server and its configuration.  [NodeInfo]: pkg/node, the metadata
      of a machine.  [Help]: pkg/operator/controllers/help.  [Sign]:
      pkg/utils/sign/sign.go.
    - [Etcd]: pkg/actions/etcd: membership, health, unit file, backup and restore.
    - [Triple]: pkg/operator/heal/triple.go: the join of instances, nodes and
      custom resources, and the differences computed from it.
    - [Operation]: pkg/operator/heal/operation.go: admission, reset, drain.
      [Healet]: pkg/operator/heal/healet.go and infra.go: the repair passes and the
      event loop.
    - [MasterSet]: the reconcilers of masterset.go and node_controller.go.
    - [Hash]: pkg/utils/hash.  [Index]: pkg/index, the saved copies in object
      storage.
    - [Alibaba], [Oss], [UserData], [UserDataTpl], [AliGroups], [AliEvents],
      [Stack], [StackTpl], [Auth]: pkg/iaas/provider/alibaba, the implementation of [provider.Interface]:
      machines, commands and scaling; object storage; the scripts machines boot
      with; node groups, stack resources and recovery; stack events; the creation
      and watching of stacks with the progress bar of pkg/utils/log; the embedded
      stack template of tpl.go, in full; credentials.
    - [Monit]: pkg/operator/monit, the monitor and its etcd check.  [Iaas]:
      pkg/iaas/iaas.go, the cluster commands.
    - [NodePoolCtl]: np_controller.go and noderepair.  [BackupCtl]:
      backup_runner.go.
    - [ApiServer]: pkg/context, pkg/apiserver and master.go: the node cache and
      its HTTP handlers.
    - [Actions]: pkg/context/nodecontext.go and pkg/actions/action.go, the runner
      of actions and the concurrent one.  [NodeActions]: pkg/actions/file, runtime,
      kern and kubeadm.  [Post]: pkg/actions/post, addons and deployments.
      [Manifests]: what is rendered from their templates.  [Boot]: pkg/boot, the
      roles of a node.
    - [GoRegexp]: package regexp, as far as the one expression of the code needs:
      its syntax, what it matches and the match that is found.  [Unstructed]:
      pkg/utils/unstructed, documents by path.  [GoJson]:
      encoding/json on generic documents, the codec [StackTpl] runs them with.
    - [KubeClient]: pkg/utils/kubeclient, the application of objects.  [Operator]:
      pkg/operator/operator.go and controller.go, apiserver/server.go and the addon
      controller.
    - [Build]: cmd/wdrip/build and pkg/actions/file/transfer.go.  [Monkey]:
      cmd/wdrip/monkey and pkg/operator/monit/client.go.  [Commands]:
      cmd/wdrip/token and cmd/wdrip/operator.

    Components use each other the way the packages do: [Operator] starts
    [Healet], the controllers and the server of [ApiServer]; the reconcilers call
    [Healet], which builds triples from [Triple] and acts through [Operation] and
    [Etcd]; [NodePoolCtl], [BackupCtl] and [Iaas] store through [Index]; [Boot]
    runs [NodeActions] and [Post] through [Actions] with what it got through
    [Rest]; [Build] publishes what the steps of [Boot] download; [Monkey] backs up
    through [BackupCtl].  A definition has the name of its function; a suffix or a
    prefix is added where two packages use the same name ([si_Backup],
    [br_Backup], [etcd_Join], [Reset_]).

    ** What the theorems show

    - Repair is safe: only objects without an instance are deleted
      ([Healet.repair_deletes_only_dead], [Triple.node_deletion_safe]), at most
      half of the etcd members are ever proposed for removal and only those
      without an instance ([Triple.EtcdMemDiff_safe],
      [Healet.FixUpEtcd_removes_diff]), one pass touches one machine
      ([Healet.FixUpNode_one_machine]), and a machine is re-imaged only when both
      admissions let it ([Operation.Reset_admitted]).
    - The consistency test means what it says ([Triple.consistent_iff]).
    - Scaling keeps the quorum and terminates ([MasterSet.quorum_batch],
      [MasterSet.quorum_batches_converge],
      [MasterSet.reconcile_scales_within_quorum],
      [Healet.removeFollower_not_leader]).
    - etcd membership: joining adds the own member, and removes at most one, which
      etcd had just listed under the own peer address
      ([Etcd.Join_touches_only_me]); waiting returns and succeeds only on three
      healthy readings ([Etcd]).
    - Node pools: when groups are created, changed and deleted, and the order of
      deletion ([NodePoolCtl]); what the hash of a specification depends on
      ([Hash]).
    - Saved copies: round trips, ordering and garbage collection ([Index],
      [BackupCtl]).
    - The Alibaba provider: a system disk is replaced only on a machine seen
      stopped ([Alibaba.replace_after_stop]), rules run only when a group is idle
      ([Alibaba.ScaleMasterGroup_waits]), waits return ([Alibaba.WaitECS_returns]),
      recovery re-images one machine, the one the master group of the stack
      consists of ([AliGroups.Recover_one_master]), a stack is created from the
      template file named or else the embedded text, with the user data spliced
      in, the ten parameters of the specification and nothing else changed, and
      recorded ([Stack.Create_records],
      [Stack.RenderUserData_frame]), and the object storage refines the store
      [Index] assumes ([Oss.ossProvider_store]): every theorem of [Index] about an
      environment with an object store holds of the environment
      [Oss.ossProvider].
    - The embedded stack template is a well-formed document: rendering it always
      succeeds and gives a JSON text in which every reference resolves and whose
      resources can be made in some order ([StackTpl.RenderUserData_Template]);
      the parameters passed with it are declared and the others have defaults
      ([StackTpl.Create_Template]); and the resources the provider later looks for
      are among those the service makes ([StackTpl.GetInfraStack_Template]).
    - Embedded manifests: a template that passes the type check executes on all
      data of its type ([GoTemplate.Tmpl.exec_sound]), which all installed ones do,
      so the default addons and the kubeadm configuration are always rendered
      ([Manifests.DefaultAddons_complete], [Manifests.Config_rendered]);
      the scripts machines boot with are what their embedded texts give
      ([UserDataTpl.scripts_are_templates]).
    - A deep copy of an API object reads the same and shares no cell with it
      ([DeepCopy.DeepCopy_independent]), which is what lets the other files treat
      objects as values.
    - JSON: what is written is read back ([GoJson.read_write],
      [GoJson.ToUnstructured_ToJson]).
    - The cluster commands: creating writes the record that was looked for and
      missed and no other ([Iaas.Create_after_miss]), deleting removes the stack
      of the record read and forgets it last ([Iaas.Delete_record_last]),
      recovering rebuilds under the own identity ([Iaas.Recover_keeps_identity]).
      The monitor acts after streaks of failures, and then the actions do run
      ([Monit.failing_checks_act]).
    - The API server: the cache follows the cluster in every reachable state, and
      exactly which requests crash ([ApiServer]).
    - A node: actions run in order and stop at an error, the concurrent action
      returns nil exactly when all did, although errors can get lost
      ([Actions.concurrent_nil_iff]), kubeadm runs last, and the authorities are
      those of the file before those of an earlier run
      ([Boot.InitFromCfg_authorities]).
    - Applying objects: a patch is retried, deletion is the last resort and what
      was deleted is made anew or put back ([KubeClient]); addons are marked only
      when all are applied ([Operator.addons_marked_after_applied]).
    - What the steps of a node download is what a finished build packed and then
      uploaded, key by key and in every region
      ([Build.uploaded_where_downloaded]); encryption undoes itself
      ([Commands.crypt_twice]); values set by path are read back ([Unstructed.SetValue_GetValue]), and
      the parts of a path are the groups of the regular expression of the source,
      read from its text ([Unstructed.loadPath_regexp]).
    - Faults are theorems too: the aliased loop variable of the worker triple, the
      reset admission that is inverted, the label that is lost, the channel that
      is never signalled, the wrapped nil error, the scaling rule that is not the
      one created, the download that keeps a stale tail, the count that never
      comes down, the backup without a client that stops the chaos monkey
      ([Monkey.monkey_never_harms]), the configuration that is served stale
      ([Operator.Start_serves_first_reading]), the first application that records
      nothing ([KubeClient.first_apply_unrecorded]), the YAML that is rendered as
      HTML ([Manifests.operator_image_escaped]), and others.

    ** Fuel

    [Etcd.wait_fuel] bounds the rounds of waiting for endpoints: each sleeps two
    seconds of a limit of three minutes, so 91 rounds are one more than fit, and
    [Etcd.WaitEndpoints_returns] proves that the loop returns within them on any
    clock that moves by the time slept.  The PEM readers of [Sign] use the length
    of their input, which every decoded block shortens ([Sign.ParseCertsPEM_total],
    [Sign.ParsePrivateKeyPEM_total]).  [Stack.listEvents] reads the pages of a
    stack's events, as many as its argument, and [Stack.listEvents_returns] that
    it returns when the pages end within it.  The readers of [GoJson] and
    [GoTemplate] use a bound on the length of their input, and their answers do not
    depend on it ([GoJson.readValue_fuel], [GoTemplate.Tmpl.parse_enough]).  Endless loops ([Monkey.forever], the
    waits of [Crd]) run for a number of rounds given as an argument.  The polling
    functions of the Kubernetes libraries are a class whose law is the relation
    [poll_run].

    ** What is not modelled

    pkg/generated (client sets, informers and listers, generated); pkg/utils/vz and the virtual
    machine commands (bindings of the macOS virtualization framework); scheme
    registration; the meaning the orchestration service gives to a stack template,
    of which only the conditions are used, as a class ([StackTpl.RosConditions]);
    the actions of the template language that no embedded template has; numbers
    that are not integers of 53 bits in JSON; the Windows stubs; pkg/message and pkg/utils/rate, which nothing uses;
    client construction and watch registration (client-go and
    controller-runtime glue); flag parsing and help texts of cmd/. *)
From stdpp Require Import base list gmap strings pretty.

Declare Scope go_scope.
Delimit Scope go_scope with go.

(** ** Results of Go code

    A call either returns a value, panics with a message, or (for a loop run
    with a step budget) has not returned within the budget. *)
Inductive outcome (A : Type) : Type :=
| Ret (a : A)
| Panic (msg : string)
| Hang.
Arguments Ret {A} a.
Arguments Panic {A} msg.
Arguments Hang {A}.

(** A non-nil Go [error]: its text, and whether [apierrors.IsNotFound] holds of
    it (the only dynamic classification the code makes besides the text). *)
Record goerr : Type := GoErr { Error : string; IsNotFound : bool }.

(** A Go [error] value; [None] is [nil]. *)
Abbreviation error := (option goerr).

(** [fmt.Errorf(text)] with the text already formatted. *)
Definition Errorf (text : string) : error := Some (GoErr text false).

(** [err.Error()] of a possibly nil error; the callers test for nil first. *)
Definition errText (e : error) : string :=
  match e with Some g => Error g | None => "<nil>" end.

(** ** The effect monad: state passing with panics *)
Definition M (S A : Type) : Type := S → outcome A * S.

#[global] Instance M_ret {S} : MRet (M S) := λ A a s, (Ret a, s).
#[global] Instance M_bind {S} : MBind (M S) := λ A B f m s,
  match m s with
  | (Ret a, s') => f a s'
  | (Panic msg, s') => (Panic msg, s')
  | (Hang, s') => (Hang, s')
  end.
Definition panic {S A} (msg : string) : M S A := λ s, (Panic msg, s).
Definition hang {S A} : M S A := λ s, (Hang, s).

(** A pure result as a computation. *)
Definition lift {S A} (o : outcome A) : M S A := λ s, (o, s).

(** Loop control of a [for ... range] body: go on, [break], or [return]. *)
Inductive ctl (L R : Type) : Type :=
| Next (l : L)
| Break (l : L)
| Return (r : R).
Arguments Next {L R} l.
Arguments Break {L R} l.
Arguments Return {L R} r.

(** [for _, x := range xs { body }] with the loop variables threaded as [l];
    [inr r] is an early [return r] from the enclosing function. *)
Fixpoint range {S A L R} (xs : list A) (l : L) (body : A → L → M S (ctl L R))
    : M S (L + R) :=
  match xs with
  | [] => mret (inl l)
  | x :: xs' =>
      c ← body x l;
      match c with
      | Next l' => range xs' l' body
      | Break l' => mret (inl l')
      | Return r => mret (inr r)
      end
  end.

(** ** github.com/pkg/errors, a third-party package: a parameter. *)
Class PkgErrors : Type := Wrapf : error → string → error.

(** What its documentation says of [Wrap] and [Wrapf]: nil stays nil, and a
    non-nil error gets the message put before its text. *)
Class PkgErrorsSpec `{PkgErrors} : Prop := {
  Wrapf_nil m : Wrapf None m = None;
  Wrapf_some e m : ∃ e', Wrapf (Some e) m = Some e' ∧
                         Error e' = m +:+ ": " +:+ Error e }.

(** [fmt]'s rendering of composite values ([%v], [%+v]) inside error texts. *)
Class GoFmt : Type := pp : ∀ A : Type, A → string.
Arguments pp {_ A} _.

(** ** Equations of the monad *)
Section monad.
Context {S A B C : Type}.
Implicit Types (m : M S A) (s : S).

Lemma bind_ret_l (a : A) (f : A → M S B) s : (mret a ≫= f) s = f a s.
Proof. reflexivity. Qed.

Lemma bind_unfold m (f : A → M S B) s :
  (m ≫= f) s = match m s with
               | (Ret a, s') => f a s'
               | (Panic msg, s') => (Panic msg, s')
               | (Hang, s') => (Hang, s')
               end.
Proof. reflexivity. Qed.

Lemma bind_Ret m (f : A → M S B) s a s' :
  m s = (Ret a, s') → (m ≫= f) s = f a s'.
Proof. intros H. by rewrite bind_unfold, H. Qed.

Lemma bind_Ret_inv m (f : A → M S B) s b s' :
  (m ≫= f) s = (Ret b, s') → ∃ a s1, m s = (Ret a, s1) ∧ f a s1 = (Ret b, s').
Proof. rewrite bind_unfold. destruct (m s) as [[a| |] s1]; naive_solver. Qed.

Lemma range_nil (l : A) (body : B → A → M S (ctl A C)) s :
  range [] l body s = (Ret (inl l), s).
Proof. reflexivity. Qed.
End monad.

(** ** A concrete reading of the parameters, for evaluation *)
Module Sim.
(** The documented [Wrapf], as a function. *)
#[export] Instance pkg_errors : PkgErrors := λ e m,
  match e with
  | None => None
  | Some g => Some (GoErr (m +:+ ": " +:+ Error g) (IsNotFound g))
  end.

#[export] Instance pkg_errors_spec : PkgErrorsSpec.
Proof. split; [done|]. intros e m. by eexists. Qed.

#[export] Instance go_fmt : GoFmt := λ _ _, "{...}".
End Sim.
