(* ===== verification/GoStrings.v ===== *)
(** * The parts of Go's [strings] and [fmt] packages the code uses

    [Contains], [HasPrefix], [Split] (non-empty separator), [Join] and
    [Replace] with [n = -1], on byte strings; [%d], [%x] and zero-padded
    decimals.  The lemmas characterise [Contains] by concatenation and give the
    round trip of [Split] after [Join]. *)
From S2P Require Import Prelude.
From stdpp Require Import base list strings pretty.
From Stdlib Require Import Ascii.

#[global] Arguments String.append : simpl nomatch.

(** [strings.HasPrefix(s, pre)] *)
Definition HasPrefix (s pre : string) : bool := String.prefix pre s.

(** [strings.Contains(s, sub)] *)
Fixpoint Contains (s sub : string) : bool :=
  String.prefix sub s
  || match s with
     | EmptyString => false
     | String _ s' => Contains s' sub
     end.

(** [strings.Split(s, sep)] for a non-empty [sep]: [cur] is the piece being
    read, [skip] the bytes of a separator still to be dropped. *)
Fixpoint split_go (sep s cur : string) (skip : nat) : list string :=
  match s with
  | EmptyString => [cur]
  | String c s' =>
      match skip with
      | S k => split_go sep s' cur k
      | O => if String.prefix sep s
             then cur :: split_go sep s' "" (Nat.pred (String.length sep))
             else split_go sep s' (cur +:+ String c "") 0
      end
  end.
Definition Split (s sep : string) : list string := split_go sep s "" 0.

(** [strings.Join(l, sep)] *)
Definition Join (l : list string) (sep : string) : string := String.concat sep l.

(** [strings.Replace(s, old, new, -1)] for a non-empty [old]. *)
Fixpoint replace_go (old new s : string) (skip : nat) : string :=
  match s with
  | EmptyString => ""
  | String c s' =>
      match skip with
      | S k => replace_go old new s' k
      | O => if String.prefix old s
             then new +:+ replace_go old new s' (Nat.pred (String.length old))
             else String c (replace_go old new s' 0)
      end
  end.
Definition ReplaceAll (s old new : string) : string := replace_go old new s 0.

(** [fmt.Sprintf("%d", z)] *)
Definition fmt_d (z : Z) : string := pretty z.

(** [fmt.Sprintf("%x", b)] of a non-negative [*big.Int]. *)
Definition hex_digit (n : N) : ascii :=
  match n with
  | 0 => "0" | 1 => "1" | 2 => "2" | 3 => "3" | 4 => "4" | 5 => "5"
  | 6 => "6" | 7 => "7" | 8 => "8" | 9 => "9" | 10 => "a" | 11 => "b"
  | 12 => "c" | 13 => "d" | 14 => "e" | _ => "f"
  end%N%char.
Fixpoint hex_go (fuel : nat) (n : N) (acc : string) : string :=
  match fuel with
  | O => acc
  | S k => let acc' := String (hex_digit (n `mod` 16)) acc in
           if (n <? 16)%N then acc' else hex_go k (n `div` 16) acc'
  end.
Definition fmt_x (n : N) : string := hex_go (S (N.to_nat (N.log2 n))) n "".

(** [fmt]'s rendering of a [[]string] with [%v] or [%s]. *)
Definition fmt_strs (l : list string) : string := "[" +:+ Join l " " +:+ "]".

(** [fmt]'s [%v] of a bool ([%t]). *)
Definition fmt_t (b : bool) : string := if b then "true" else "false".

(** [strings.TrimSpace(s) == ""]: nothing is left when the leading white space
    is skipped; besides the ASCII spaces, the UTF-8 encodings of the Unicode
    ones count. *)
Definition isSpaceByte (c : ascii) : bool :=
  let n := N_of_ascii c in ((9 <=? n) && (n <=? 13) || (n =? 32))%N.
Fixpoint isBlank (s : string) : bool :=
  match s with
  | "" => true
  | String c r =>
      if isSpaceByte c then isBlank r
      else
        match N_of_ascii c, r with
        | 194%N, String d r' => (* U+0085, U+00A0 *)
            let n := N_of_ascii d in
            ((n =? 133) || (n =? 160))%N && isBlank r'
        | 225%N, String d (String e r') => (* U+1680 *)
            ((N_of_ascii d =? 154) && (N_of_ascii e =? 128))%N && isBlank r'
        | 226%N, String d (String e r') => (* U+2000..200A, 2028, 2029, 202F, 205F *)
            let m := N_of_ascii d in
            let n := N_of_ascii e in
            ((m =? 128) && ((128 <=? n) && (n <=? 138) || (n =? 168) || (n =? 169) || (n =? 175))
             || (m =? 129) && (n =? 159))%N && isBlank r'
        | 227%N, String d (String e r') => (* U+3000 *)
            ((N_of_ascii d =? 128) && (N_of_ascii e =? 128))%N && isBlank r'
        | _, _ => false
        end
  end.

(** ** path/filepath on Unix *)

(** The stack of path elements, top first; [rooted] paths drop a leading [..]. *)
Definition clean_step (rooted : bool) (out : list string) (seg : string) : list string :=
  if bool_decide (seg = "") || bool_decide (seg = ".") then out
  else if bool_decide (seg = "..") then
    match out with
    | top :: rest => if bool_decide (top = "..") then ".." :: out else rest
    | [] => if rooted then [] else [".."]
    end
  else seg :: out.

(** [filepath.Clean] *)
Definition Clean (p : string) : string :=
  if bool_decide (p = "") then "."
  else
    let rooted := HasPrefix p "/" in
    let segs := rev (fold_left (clean_step rooted) (Split p "/") []) in
    let r := (if rooted then "/" else "") +:+ Join segs "/" in
    if bool_decide (r = "") then "." else r.

(** [filepath.Join]: empty elements are skipped. *)
Definition JoinPath (elems : list string) : string :=
  match List.filter (λ e, negb (bool_decide (e = ""))) elems with
  | [] => ""
  | l => Clean (Join l "/")
  end.

(** The path up to and including its last separator. *)
Definition dirPart (p : string) : string :=
  match rev (Split p "/") with
  | [] | [_] => ""
  | _ :: front => Join (rev front) "/" +:+ "/"
  end.
(** [filepath.Dir] *)
Definition Dir (p : string) : string := Clean (dirPart p).

Lemma string_app_assoc (a b c : string) : (a +:+ b) +:+ c = a +:+ (b +:+ c).
Proof. induction a as [|x a IH]; cbn; [done|]. f_equal. apply IH. Qed.

Lemma string_app_nil_r (a : string) : a +:+ "" = a.
Proof. induction a as [|x a IH]; cbn; [done|]. f_equal. apply IH. Qed.

Lemma string_prefix_app (p s : string) : String.prefix p (p +:+ s) = true.
Proof.
  induction p as [|c p IH]; simpl; [by destruct s|].
  destruct (ascii_dec c c); congruence.
Qed.

Lemma string_prefix_spec (p s : string) :
  String.prefix p s = true ↔ ∃ q, s = p +:+ q.
Proof.
  split; [|intros [q ->]; apply string_prefix_app].
  revert s. induction p as [|c p IH]; intros [|d s]; simpl; try (by eauto); try done.
  destruct (ascii_dec c d) as [->|]; [|done].
  intros [q ->]%IH. by exists q.
Qed.

Lemma Contains_prefix (s sub : string) :
  String.prefix sub s = true → Contains s sub = true.
Proof. destruct s; intros H; cbn [Contains]; by rewrite H. Qed.

(** [Contains s sub] holds exactly when [sub] is a contiguous part of [s]. *)
Lemma Contains_spec (s sub : string) :
  Contains s sub = true ↔ ∃ p q, s = p +:+ sub +:+ q.
Proof.
  split.
  - induction s as [|c s IH]; simpl; rewrite orb_true_iff; intros [H|H].
    + destruct sub; [|done]. by exists "", "".
    + done.
    + apply (string_prefix_spec sub (String c s)) in H as [q ->]. by exists "", q.
    + apply IH in H as (p & q & ->). by exists (String c p), q.
  - intros (p & q & ->). induction p as [|c p IH]; simpl.
    + apply Contains_prefix, string_prefix_app.
    + rewrite IH. apply orb_true_r.
Qed.

Lemma Contains_refl (s : string) : Contains s s = true.
Proof. apply Contains_spec. exists "", "". simpl. by rewrite string_app_nil_r. Qed.

Lemma Contains_app_r (p s sub : string) :
  Contains s sub = true → Contains (p +:+ s) sub = true.
Proof.
  rewrite !Contains_spec. intros (a & b & ->). exists (p +:+ a), b.
  by rewrite string_app_assoc.
Qed.

Lemma Contains_app_l (s q sub : string) :
  Contains s sub = true → Contains (s +:+ q) sub = true.
Proof.
  rewrite !Contains_spec. intros (a & b & ->). exists a, (b +:+ q).
  by rewrite !string_app_assoc.
Qed.

(** Every string contains the empty string. *)
Lemma Contains_empty (s : string) : Contains s "" = true.
Proof. apply Contains_spec. by exists "", s. Qed.

(** The byte [c] does not occur in [s]. *)
Fixpoint no_byte (c : ascii) (s : string) : Prop :=
  match s with
  | EmptyString => True
  | String d s' => d ≠ c ∧ no_byte c s'
  end.

Lemma split_go_no_byte c sep s cur rest :
  no_byte c s →
  split_go (String c sep) (s +:+ rest) cur 0 = split_go (String c sep) rest (cur +:+ s) 0.
Proof.
  revert cur. induction s as [|d s IH]; intros cur; simpl.
  - by rewrite string_app_nil_r.
  - intros [Hd Hs]. destruct (ascii_dec c d) as [->|]; [done|].
    rewrite IH by done. by rewrite string_app_assoc.
Qed.

Lemma split_go_join c l cur :
  Forall (no_byte c) l → l ≠ [] →
  split_go (String c "") (String.concat (String c "") l) cur 0
  = match l with [] => [cur] | x :: l' => (cur +:+ x) :: l' end.
Proof.
  revert cur. induction l as [|x l IH]; intros cur; [done|].
  intros [Hx Hl]%Forall_cons _. destruct l as [|y l].
  - simpl. rewrite <- (string_app_nil_r x) at 1. rewrite split_go_no_byte by done. done.
  - change (String.concat (String c "") (x :: y :: l))
      with (x +:+ (String c "" +:+ String.concat (String c "") (y :: l))).
    rewrite split_go_no_byte by done.
    cbn [String.append split_go]. cbn [String.prefix].
    destruct (ascii_dec c c) as [_|]; [|done].
    replace (String.prefix "" (String.concat (String c "") (y :: l))) with true
      by (by destruct (String.concat _ _)).
    simpl Nat.pred. by rewrite IH.
Qed.

(** Splitting what [Join] built gives the pieces back, when the one-byte
    separator occurs in none of them. *)
Lemma Split_Join (c : ascii) (l : list string) :
  Forall (no_byte c) l → l ≠ [] → Split (Join l (String c "")) (String c "") = l.
Proof.
  intros Hl Hn. unfold Split, Join. rewrite split_go_join by done.
  by destruct l.
Qed.

Example Clean_ex : map Clean ["/a//b/./c/"; "/../x"; "a/../.."; ""; "/"] = ["/a/b/c"; "/x"; ".."; "."; "/"].
Proof. reflexivity. Qed.
Example Dir_ex : map Dir ["/var/tmp/snap/etcd.db"; "x"; "/a"; "b/"] = ["/var/tmp/snap"; "."; "/"; "b"].
Proof. reflexivity. Qed.

(** *** Paths of ordinary elements *)
Definition plain (s : string) : Prop := no_byte "/" s ∧ s ≠ "" ∧ s ≠ "." ∧ s ≠ "..".

Lemma clean_step_plain rooted out s : plain s → clean_step rooted out s = s :: out.
Proof.
  intros (_ & H1 & H2 & H3). unfold clean_step.
  rewrite (bool_decide_eq_false_2 (s = "")), (bool_decide_eq_false_2 (s = ".")), (bool_decide_eq_false_2 (s = "..")); done.
Qed.
Lemma clean_plain rooted l out : Forall plain l → fold_left (clean_step rooted) l out = rev l ++ out.
Proof.
  intros Hl. revert out. induction Hl as [|s l Hs _ IH]; intros out; [done|].
  cbn [fold_left rev]. rewrite clean_step_plain, IH by done. by rewrite <- app_assoc.
Qed.
Lemma HasPrefix_plain s t : no_byte "/" s → s ≠ "" → HasPrefix (s +:+ t) "/" = false.
Proof.
  destruct s as [|c s]; [done|]. intros [Hc _] _. unfold HasPrefix. cbn [String.append String.prefix].
  destruct (ascii_dec "/" c) as [<-|]; done.
Qed.
Lemma Join_cons s l sep : Join (s :: l) sep = s +:+ match l with [] => "" | _ => sep +:+ Join l sep end.
Proof. destruct l; [by rewrite string_app_nil_r|done]. Qed.
Lemma Join_plain_nonempty s l : s ≠ "" → Join (s :: l) "/" ≠ "".
Proof. rewrite Join_cons. by destruct s. Qed.
Lemma Join_app l1 l2 sep : l1 ≠ [] → l2 ≠ [] → Join (l1 ++ l2) sep = Join l1 sep +:+ sep +:+ Join l2 sep.
Proof.
  intros H1 H2. induction l1 as [|s l IH]; [done|]. rewrite <- app_comm_cons, Join_cons.
  destruct l as [|s' l]; [by destruct l2|]. rewrite IH by done.
  change ((s' :: l) ++ l2) with (s' :: (l ++ l2)). cbv iota. rewrite (Join_cons s). by rewrite !string_app_assoc.
Qed.

(** Ordinary elements are joined by the separator and nothing else happens. *)
Lemma Clean_plain l : l ≠ [] → Forall plain l → Clean (Join l "/") = Join l "/".
Proof.
  intros Hn Hl. unfold Clean. destruct l as [|s l]; [done|]. inversion Hl as [|? ? Hs Hl']; subst.
  destruct Hs as (Hb & He & Hd & Hdd).
  rewrite bool_decide_eq_false_2 by (by apply Join_plain_nonempty).
  rewrite Split_Join; [|eapply Forall_impl; [exact Hl|]; by intros x (? & _)|done].
  rewrite Join_cons, HasPrefix_plain, <- Join_cons by done. cbv zeta.
  rewrite clean_plain, app_nil_r, rev_involutive by done. cbn [String.append].
  rewrite bool_decide_eq_false_2; [done|]. by apply Join_plain_nonempty.
Qed.
Lemma filter_plain l : Forall plain l → List.filter (λ e, negb (bool_decide (e = ""))) l = l.
Proof.
  induction 1 as [|s l (_ & Hs & _) _ IH]; [done|]. cbn. rewrite bool_decide_eq_false_2 by done.
  cbn. by rewrite IH.
Qed.
Lemma JoinPath_plain l : l ≠ [] → Forall plain l → JoinPath l = Join l "/".
Proof.
  intros Hn Hl. unfold JoinPath. rewrite filter_plain by done. destruct l; [done|]. by apply Clean_plain.
Qed.
(** A directory of ordinary elements and a name in it. *)
Lemma JoinPath_in l s : l ≠ [] → Forall plain l → plain s → JoinPath [Join l "/"; s] = Join l "/" +:+ "/" +:+ s.
Proof.
  intros Hn Hl Hs. unfold JoinPath. destruct l as [|x l]; [done|].
  pose proof Hs as (_ & He & _). inversion Hl as [|? ? (_ & Hx & _) _]; subst. cbn [List.filter].
  rewrite !bool_decide_eq_false_2 by first [done | by apply Join_plain_nonempty]. cbn [negb].
  change (Join [Join (x :: l) "/"; s] "/") with (Join (x :: l) "/" +:+ "/" +:+ Join [s] "/").
  change (Join (x :: l) "/" +:+ "/" +:+ s) with (Join (x :: l) "/" +:+ "/" +:+ Join [s] "/").
  rewrite <- !Join_app by done. apply Clean_plain; [done|].
  apply Forall_app; split; [done|]. by constructor.
Qed.

(** [filepath.Base] *)
Definition Base (p : string) : string :=
  match rev (List.filter (λ e, negb (bool_decide (e = ""))) (Split p "/")) with
  | x :: _ => x
  | [] => if bool_decide (p = "") then "." else "/"
  end.

Lemma split_go_app_sep c s cur t :
  split_go (String c "") (s +:+ String c "" +:+ t) cur 0
  = split_go (String c "") s cur 0 ++ split_go (String c "") t "" 0.
Proof.
  revert cur. induction s as [|d s IH]; intros cur; cbn [String.append split_go String.prefix].
  - destruct (ascii_dec c c); [|done]. by destruct t.
  - destruct (ascii_dec c d) as [->|].
    + cbn [String.length Nat.pred].
      replace (String.prefix "" (s +:+ String d t)) with true by (by destruct s).
      replace (String.prefix "" s) with true by (by destruct s). cbn. f_equal. apply IH.
    + apply IH.
Qed.
Lemma no_byte_app c s t : no_byte c s → no_byte c t → no_byte c (s +:+ t).
Proof. induction s as [|d s IH]; [done|]. intros [Hd Hs] Ht. split; [done|]. by apply IH. Qed.
Lemma Split_no_byte c s cur : no_byte c cur → Forall (no_byte c) (split_go (String c "") s cur 0).
Proof.
  revert cur. induction s as [|d s IH]; intros cur Hc; cbn [split_go String.prefix]; [by repeat constructor|].
  destruct (ascii_dec c d) as [->|Hd].
  - replace (String.prefix "" s) with true by (by destruct s). constructor; [done|]. by apply IH.
  - apply IH. by apply no_byte_app.
Qed.
Lemma clean_no_byte rooted l out :
  Forall (no_byte "/") l → Forall (no_byte "/") out → Forall (no_byte "/") (fold_left (clean_step rooted) l out).
Proof.
  intros Hl. revert out. induction Hl as [|s l Hs _ IH]; intros out Ho; [done|]. cbn. apply IH.
  assert (no_byte "/" "..") as Hup by (by split_and!).
  unfold clean_step. repeat case_match; subst; try done; first [by apply Forall_cons | by apply Forall_cons in Ho as [_ ?]].
Qed.

(** The last element of a directory and a name in it is the name. *)
Lemma Base_JoinPath d s : plain s → Base (JoinPath [d; s]) = s.
Proof.
  intros Hs. pose proof Hs as (Hb & He & Hd & Hdd). unfold JoinPath. cbn [List.filter].
  rewrite (bool_decide_eq_false_2 (s = "")) by done. cbn [negb].
  assert (Base s = s) as Hone.
  { unfold Base. change s with (Join [s] "/") at 1. rewrite Split_Join; [|by constructor|done].
    cbn. by rewrite bool_decide_eq_false_2. }
  case_bool_decide as Hed; cbn [negb].
  { rewrite (Clean_plain [s]); [exact Hone|done|by constructor]. }
  change (Join [d; s] "/") with (d +:+ String "/" "" +:+ s). unfold Clean.
  rewrite bool_decide_eq_false_2 by (by destruct d). cbv zeta. set (rooted := HasPrefix _ _).
  set (out := fold_left (clean_step rooted) (split_go "/" d "" 0) []).
  assert (fold_left (clean_step rooted) (Split (d +:+ "/" +:+ s) "/") [] = s :: out) as ->.
  { unfold Split. rewrite split_go_app_sep, fold_left_app. fold out.
    assert (split_go "/" s "" 0 = [s]) as -> by (apply (Split_Join "/" [s]); [by constructor|done]).
    by apply clean_step_plain. }
  assert (Forall (no_byte "/") (rev out)) as Ho.
  { apply Forall_rev. apply clean_no_byte; [by apply Split_no_byte|done]. }
  cbn [rev]. set (r := (if rooted then "/" else "") +:+ _).
  assert (Split r "/" = (if rooted then [""] else []) ++ rev out ++ [s]) as Hr.
  { assert (Split (Join (rev out ++ [s]) "/") "/" = rev out ++ [s]) as HJ.
    { apply Split_Join; [|by destruct (rev out)]. apply Forall_app; split; [done|by constructor]. }
    subst r. destruct rooted; [|exact HJ].
    etransitivity; [apply (split_go_app_sep "/" "" "")|]. cbn [split_go app]. f_equal. exact HJ. }
  rewrite bool_decide_eq_false_2.
  2:{ intros E. rewrite E in Hr. cbn in Hr. destruct rooted; cbn in Hr; [by destruct (rev out)|].
      destruct (rev out) as [|? [|? ?]]; cbn in Hr; congruence. }
  unfold Base. rewrite Hr, !List.filter_app. cbn [List.filter]. rewrite (bool_decide_eq_false_2 (s = "")) by done.
  cbn [negb]. by rewrite !rev_app_distr.
Qed.
