(* ===== verification/GoTime.v ===== *)
(** * The parts of Go's [time] package the code uses

    An instant is its number of nanoseconds since the Unix epoch, a
    [time.Duration] a number of nanoseconds.  [time.Local] is a zone with a
    constant offset from UTC (a parameter).  [Format] and [ParseInLocation] are
    given for the layouts of the sources, with the calendar arithmetic between
    day numbers and civil dates; the main lemma is that parsing what was
    formatted gives the instant back, truncated to the second. *)
From stdpp Require Import base list strings numbers.
From Stdlib Require Import Ascii Lia.
From S2P Require Import Prelude GoStrings.
Local Open Scope Z_scope.

#[local] Ltac Zify.zify_post_hook ::= Z.to_euclidean_division_equations.

Definition Second : Z := 1000000000.
Definition Minute : Z := 60 * Second.
Definition Hour : Z := 60 * Minute.

(** [time.Local]: seconds east of UTC. *)
Class LocalZone : Type := zone_offset : Z.

(** [t.After(u)] and [t.Before(u)] *)
Definition TimeAfter (t u : Z) : bool := u <? t.
Definition TimeBefore (t u : Z) : bool := t <? u.

(** ** Calendar *)

(** Day number (day 0 is 1970-01-01) to year, month, day of the proleptic
    Gregorian calendar; years are counted from March inside an era of 400. *)
Definition civil_of_days (z0 : Z) : Z * Z * Z :=
  let z := z0 + 719468 in
  let era := z `div` 146097 in
  let doe := z `mod` 146097 in
  let yoe := (doe - doe `div` 1460 + doe `div` 36524 - doe `div` 146096) `div` 365 in
  let doy := doe - (365 * yoe + yoe `div` 4 - yoe `div` 100) in
  let mp := (5 * doy + 2) `div` 153 in
  let d := doy - (153 * mp + 2) `div` 5 + 1 in
  let m := if mp <? 10 then mp + 3 else mp - 9 in
  let y := yoe + era * 400 + (if m <=? 2 then 1 else 0) in
  (y, m, d).

Definition days_of_civil (y m d : Z) : Z :=
  let y' := if m <=? 2 then y - 1 else y in
  let era := y' `div` 400 in
  let yoe := y' `mod` 400 in
  let mp := if 2 <? m then m - 3 else m + 9 in
  let doy := (153 * mp + 2) `div` 5 + d - 1 in
  let doe := yoe * 365 + yoe `div` 4 - yoe `div` 100 + doy in
  era * 146097 + doe - 719468.

Definition isLeap (y : Z) : bool :=
  (y `mod` 4 =? 0) && (negb (y `mod` 100 =? 0) || (y `mod` 400 =? 0)).

Definition daysIn (m y : Z) : Z :=
  if m =? 2 then (if isLeap y then 29 else 28)
  else if (m =? 4) || (m =? 6) || (m =? 9) || (m =? 11) then 30 else 31.

(** ** Digits *)
Definition digit (d : Z) : ascii := ascii_of_nat (48 + Z.to_nat d).
Definition isDigit (c : ascii) : option Z :=
  let n := nat_of_ascii c in
  if ((48 <=? n) && (n <=? 57))%nat then Some (Z.of_nat n - 48) else None.
#[global] Arguments digit : simpl never.
#[global] Arguments isDigit : simpl never.
Definition pad2 (n : Z) : string := String (digit (n `div` 10)) (String (digit (n `mod` 10)) "").
Definition pad4 (n : Z) : string := pad2 (n `div` 100) +:+ pad2 (n `mod` 100).

(** Wall-clock fields of an instant in a zone. *)
Record wall : Type := Wall { w_days : Z; w_hour : Z; w_min : Z; w_sec : Z }.
Definition wall_of (offset t : Z) : wall :=
  let s := t `div` Second + offset in
  let r := s `mod` 86400 in
  Wall (s `div` 86400) (r `div` 3600) ((r `mod` 3600) `div` 60) (r `mod` 60).

(** [Format("2006-01-02" + sep + "15:04:05" + suffix)] in a zone. *)
Definition format_at (offset : Z) (sep suffix : string) (t : Z) : string :=
  let w := wall_of offset t in
  let '(y, m, d) := civil_of_days (w_days w) in
  pad4 y +:+ "-" +:+ pad2 m +:+ "-" +:+ pad2 d +:+ sep +:+
  pad2 (w_hour w) +:+ ":" +:+ pad2 (w_min w) +:+ ":" +:+ pad2 (w_sec w) +:+ suffix.

(** [t.Format("20060102-1504")] in a zone. *)
Definition format_compact (offset : Z) (t : Z) : string :=
  let w := wall_of offset t in
  let '(y, m, d) := civil_of_days (w_days w) in
  pad4 y +:+ pad2 m +:+ pad2 d +:+ "-" +:+ pad2 (w_hour w) +:+ pad2 (w_min w).

(** ** Parsing *)

(** Two digits. *)
Definition take2 (s : string) : option (Z * string) :=
  match s with
  | String a (String b s') =>
      x ← isDigit a; y ← isDigit b; Some (10 * x + y, s')
  | _ => None
  end.

(** The hour field, for which Go also accepts a single digit. *)
Definition takeHour (s : string) : option (Z * string) :=
  match s with
  | String a s1 =>
      x ← isDigit a;
      match s1 with
      | String b s2 =>
          match isDigit b with
          | Some y => Some (10 * x + y, s2)
          | None => Some (x, s1)
          end
      | EmptyString => Some (x, s1)
      end
  | EmptyString => None
  end.

(** A literal of the layout. *)
Definition lit (l s : string) : option string :=
  if String.prefix l s
  then Some (String.substring (String.length l) (String.length s - String.length l) s)
  else None.

(** Leading digits and their value. *)
Fixpoint digits (s : string) : list Z * string :=
  match s with
  | String a s' =>
      match isDigit a with
      | Some x => let '(l, r) := digits s' in (x :: l, r)
      | None => ([], s)
      end
  | EmptyString => ([], s)
  end.

(** The fraction of a second Go accepts after the seconds even when the layout
    has none; at most nine digits. *)
Definition takeFraction (s : string) : option (Z * string) :=
  match s with
  | String "." s' =>
      let '(l, r) := digits s' in
      match l with
      | [] => Some (0, s)
      | _ => if (length l <=? 9)%nat
             then Some (foldl (λ acc x, 10 * acc + x) 0 l * 10 ^ (9 - Z.of_nat (length l)), r)
             else None
      end
  | _ => Some (0, s)
  end.

(** [ParseInLocation("2006-01-02" + sep + "15:04:05" + suffix, s, zone)];
    [None] stands for a parse error, whose text the callers only log. *)
Definition parse_at (offset : Z) (sep suffix s : string) : option Z :=
  '(hi, s) ← take2 s; '(lo, s) ← take2 s; s ← lit "-" s;
  '(mo, s) ← take2 s; s ← lit "-" s;
  '(d, s) ← take2 s; s ← lit sep s;
  '(h, s) ← takeHour s; s ← lit ":" s;
  '(mi, s) ← take2 s; s ← lit ":" s;
  '(se, s) ← take2 s; '(ns, s) ← takeFraction s; s ← lit suffix s;
  let y := 100 * hi + lo in
  if bool_decide (s = "")
     && (1 <=? mo) && (mo <=? 12) && (1 <=? d) && (d <=? daysIn mo y)
     && (h <? 24) && (mi <? 60) && (se <? 60)
  then Some ((days_of_civil y mo d * 86400 + h * 3600 + mi * 60 + se - offset) * Second + ns)
  else None.

(** ** Lemmas *)

(** The fields of the March-based year inside an era: their bounds, and that
    the 366th day exists only in leap years. *)
Lemma era_fields doe :
  0 ≤ doe < 146097 →
  let yoe := (doe - doe `div` 1460 + doe `div` 36524 - doe `div` 146096) `div` 365 in
  let doy := doe - (365 * yoe + yoe `div` 4 - yoe `div` 100) in
  0 ≤ yoe ≤ 399 ∧ 0 ≤ doy ≤ 365 ∧
  (doy = 365 → (yoe + 1) `mod` 4 = 0 ∧ ((yoe + 1) `mod` 100 ≠ 0 ∨ (yoe + 1) `mod` 400 = 0)).
Proof. cbv zeta. intros H. split_and!; lia. Qed.

(** The month and day of a day of the March-based year. *)
Lemma month_fields doy :
  0 ≤ doy ≤ 365 →
  let mp := (5 * doy + 2) `div` 153 in
  let d := doy - (153 * mp + 2) `div` 5 + 1 in
  0 ≤ mp ≤ 11 ∧ 1 ≤ d ≤ 31 ∧
  (mp = 1 ∨ mp = 3 ∨ mp = 6 ∨ mp = 8 → d ≤ 30) ∧ (mp = 11 → d ≤ 29 ∧ (d = 29 → doy = 365)).
Proof. cbv zeta. intros H. split_and!; lia. Qed.

Lemma days_civil_days z :
  let '(y, m, d) := civil_of_days z in days_of_civil y m d = z.
Proof.
  unfold civil_of_days, days_of_civil.
  pose proof (era_fields ((z + 719468) `mod` 146097) ltac:(lia)) as H. cbv zeta in H.
  set (doe := (z + 719468) `mod` 146097) in *.
  set (yoe := (doe - doe `div` 1460 + doe `div` 36524 - doe `div` 146096) `div` 365) in *.
  clearbody yoe. destruct H as (Hyoe & Hdoy & _).
  set (doy := doe - (365 * yoe + yoe `div` 4 - yoe `div` 100)) in *.
  pose proof (month_fields doy Hdoy) as H. cbv zeta in H.
  set (mp := (5 * doy + 2) `div` 153) in *. clearbody mp.
  destruct H as (Hmp & _).
  set (era := (z + 719468) `div` 146097).
  assert (z = 146097 * era + doe - 719468) as Hz by (unfold era, doe; lia).
  clearbody era.
  destruct (Z.ltb_spec mp 10).
  - replace (mp + 3 <=? 2) with false by lia. replace (2 <? mp + 3) with true by lia.
    rewrite Z.add_0_r, Z.div_add, Z.mod_add, Z.div_small, Z.mod_small by lia. lia.
  - replace (mp - 9 <=? 2) with true by lia. replace (2 <? mp - 9) with false by lia.
    replace (yoe + era * 400 + 1 - 1) with (yoe + era * 400) by lia.
    rewrite Z.div_add, Z.mod_add, Z.div_small, Z.mod_small by lia. lia.
Qed.

Lemma civil_bounds z :
  let '(y, m, d) := civil_of_days z in 1 ≤ m ≤ 12 ∧ 1 ≤ d ≤ daysIn m y.
Proof.
  unfold civil_of_days.
  pose proof (era_fields ((z + 719468) `mod` 146097) ltac:(lia)) as H. cbv zeta in H.
  set (doe := (z + 719468) `mod` 146097) in *.
  set (yoe := (doe - doe `div` 1460 + doe `div` 36524 - doe `div` 146096) `div` 365) in *.
  clearbody yoe. destruct H as (Hyoe & Hdoy & Hleap).
  set (doy := doe - (365 * yoe + yoe `div` 4 - yoe `div` 100)) in *. clearbody doy.
  pose proof (month_fields doy Hdoy) as H. cbv zeta in H.
  set (mp := (5 * doy + 2) `div` 153) in *. clearbody mp.
  set (d := doy - (153 * mp + 2) `div` 5 + 1) in *. clearbody d.
  destruct H as (Hmp & Hd & H30 & Hfeb).
  unfold daysIn, isLeap. destruct (Z.ltb_spec mp 10).
  - split; [lia|]. replace (mp + 3 =? 2) with false by lia. case_match; lia.
  - replace (mp - 9 <=? 2) with true by lia. split; [lia|].
    assert (mp = 10 ∨ mp = 11) as [->| ->] by lia; [change (10 - 9) with 1; simpl; lia|].
    change (11 - 9 =? 2) with true. cbv iota.
    destruct Hfeb as [Hd29 Hfeb]; [done|].
    destruct (decide (d = 29)) as [->|]; [|case_match; lia].
    destruct (Hleap (Hfeb eq_refl)) as [Ha Hb].
    set (era := (z + 719468) `div` 146097). clearbody era.
    replace (yoe + era * 400 + 1) with (yoe + 1 + era * 400) by lia.
    assert ((yoe + 1 + era * 400) `mod` 4 = (yoe + 1) `mod` 4) as -> by lia.
    assert ((yoe + 1 + era * 400) `mod` 100 = (yoe + 1) `mod` 100) as -> by lia.
    assert ((yoe + 1 + era * 400) `mod` 400 = (yoe + 1) `mod` 400) as -> by lia.
    case_match; lia.
Qed.

Lemma isDigit_digit d : 0 ≤ d < 10 → isDigit (digit d) = Some d.
Proof.
  intros H. assert (d = 0 ∨ d = 1 ∨ d = 2 ∨ d = 3 ∨ d = 4 ∨ d = 5 ∨ d = 6 ∨ d = 7 ∨ d = 8 ∨ d = 9)
    as Hd by lia.
  by repeat destruct Hd as [->|Hd]; subst.
Qed.

Lemma take2_pad2 n s : 0 ≤ n < 100 → take2 (pad2 n +:+ s) = Some (n, s).
Proof.
  intros H. unfold take2, pad2. cbn [String.append].
  rewrite !isDigit_digit by lia. cbn. f_equal. f_equal. lia.
Qed.

Lemma takeHour_pad2 n s : 0 ≤ n < 100 → takeHour (pad2 n +:+ s) = Some (n, s).
Proof.
  intros H. unfold takeHour, pad2. cbn [String.append].
  rewrite !isDigit_digit by lia. cbn. f_equal. f_equal. lia.
Qed.

Lemma substring_all s : String.substring 0 (String.length s) s = s.
Proof. induction s as [|c s IH]; simpl; [done|by rewrite IH]. Qed.

Lemma substring_drop l s :
  String.substring (String.length l) (String.length s) (l +:+ s) = s.
Proof. induction l as [|c l IH]; simpl; [apply substring_all|apply IH]. Qed.

Lemma length_string_app a b : String.length (a +:+ b) = (String.length a + String.length b)%nat.
Proof. induction a as [|c a IH]; simpl; [done|by rewrite IH]. Qed.

Lemma lit_app l s : lit l (l +:+ s) = Some s.
Proof.
  unfold lit. rewrite string_prefix_app, length_string_app.
  replace (_ + _ - _)%nat with (String.length s) by lia. by rewrite substring_drop.
Qed.

Lemma wall_bounds offset t :
  let w := wall_of offset t in
  0 ≤ w_hour w < 24 ∧ 0 ≤ w_min w < 60 ∧ 0 ≤ w_sec w < 60 ∧
  w_days w * 86400 + w_hour w * 3600 + w_min w * 60 + w_sec w = t `div` Second + offset.
Proof. unfold wall_of. simpl. lia. Qed.

Definition local_year (offset t : Z) : Z := (civil_of_days (w_days (wall_of offset t))).1.1.

(** A suffix that can follow the seconds: it does not start a fraction. *)
Definition plain_suffix (s : string) : bool :=
  match s with String "." _ => false | _ => true end.

Lemma takeFraction_plain s : plain_suffix s = true → takeFraction s = Some (0, s).
Proof.
  destruct s as [|[b0 b1 b2 b3 b4 b5 b6 b7] s]; [done|].
  by destruct b0, b1, b2, b3, b4, b5, b6, b7.
Qed.

Lemma pad4_app n s : pad4 n +:+ s = pad2 (n `div` 100) +:+ (pad2 (n `mod` 100) +:+ s).
Proof. reflexivity. Qed.

Lemma some_bind {A B} (x : A) (f : A → option B) : (Some x ≫= f) = f x.
Proof. reflexivity. Qed.

(** Parsing a formatted instant in the zone it was formatted in gives the
    instant truncated to the second. *)
Lemma parse_format offset sep suffix t :
  0 ≤ local_year offset t ≤ 9999 → plain_suffix suffix = true →
  parse_at offset sep suffix (format_at offset sep suffix t)
  = Some (t `div` Second * Second).
Proof.
  intros Hy Hs. unfold parse_at, format_at, local_year in *.
  pose proof (civil_bounds (w_days (wall_of offset t))) as Hc.
  pose proof (days_civil_days (w_days (wall_of offset t))) as Hd.
  destruct (civil_of_days _) as [[y m] d]. simpl in Hy.
  destruct (wall_bounds offset t) as (Hh & Hmi & Hse & Hsum).
  assert (daysIn m y ≤ 31) by (unfold daysIn; repeat case_match; lia).
  rewrite pad4_app.
  rewrite take2_pad2, some_bind by lia. cbv beta iota.
  rewrite take2_pad2, some_bind by lia. cbv beta iota.
  rewrite (lit_app "-"), some_bind. cbv beta iota.
  rewrite take2_pad2, some_bind by lia. cbv beta iota.
  rewrite (lit_app "-"), some_bind. cbv beta iota.
  rewrite take2_pad2, some_bind by lia. cbv beta iota.
  rewrite lit_app, some_bind. cbv beta iota.
  rewrite takeHour_pad2, some_bind by lia. cbv beta iota.
  rewrite (lit_app ":"), some_bind. cbv beta iota.
  rewrite take2_pad2, some_bind by lia. cbv beta iota.
  rewrite (lit_app ":"), some_bind. cbv beta iota.
  rewrite take2_pad2, some_bind by lia. cbv beta iota.
  rewrite takeFraction_plain, some_bind by done. cbv beta iota.
  rewrite <- (string_app_nil_r suffix) at 2. rewrite lit_app, some_bind. cbv beta iota zeta.
  replace (100 * (y `div` 100) + y `mod` 100) with y by lia.
  repeat match goal with
  | |- context [?a <=? ?b] => replace (a <=? b) with true by lia
  | |- context [?a <? ?b] => replace (a <? b) with true by lia
  end. cbv beta iota delta [andb]. f_equal. rewrite Hd, Z.add_0_r. f_equal. lia.
Qed.

(** ** Order of formatted instants *)

Lemma daysIn_31 m y : daysIn m y ≤ 31.
Proof. unfold daysIn. repeat case_match; lia. Qed.

Lemma days_of_civil_eq y m d :
  let y' := if m <=? 2 then y - 1 else y in
  let mp := if 2 <? m then m - 3 else m + 9 in
  days_of_civil y m d
  = 365 * y' + y' `div` 4 - y' `div` 100 + y' `div` 400 + (153 * mp + 2) `div` 5 + d - 719469.
Proof.
  unfold days_of_civil. cbv zeta.
  set (y' := if m <=? 2 then y - 1 else y). set (mp := if 2 <? m then m - 3 else m + 9).
  clearbody y' mp. lia.
Qed.

(** The days of a date, counted from the first day of its year. *)
Definition yearStart (y : Z) : Z := 365 * y + (y - 1) `div` 4 - (y - 1) `div` 100 + (y - 1) `div` 400.
Definition monthStart (m y : Z) : Z :=
  if m <=? 2 then 31 * (m - 1)
  else (153 * (m - 3) + 2) `div` 5 + 59 + (if isLeap y then 1 else 0).

Lemma pred_div k y :
  0 < k → (y - 1) `div` k = y `div` k - (if y `mod` k =? 0 then 1 else 0).
Proof.
  intros Hk. destruct (Z.eqb_spec (y `mod` k) 0) as [E|E].
  - symmetry. apply Z.div_unique with (k - 1); [lia|]. pose proof (Z.div_mod y k). lia.
  - symmetry. apply Z.div_unique with (y `mod` k - 1); [|pose proof (Z.div_mod y k); lia].
    pose proof (Z.mod_pos_bound y k). lia.
Qed.

Lemma isLeap_div y :
  y `div` 4 - y `div` 100 + y `div` 400
  = (y - 1) `div` 4 - (y - 1) `div` 100 + (y - 1) `div` 400 + (if isLeap y then 1 else 0).
Proof.
  rewrite !pred_div by lia. unfold isLeap.
  assert (y `mod` 100 = 0 → y `mod` 4 = 0) by lia.
  assert (y `mod` 400 = 0 → y `mod` 100 = 0) by lia.
  generalize dependent (y `mod` 400). generalize dependent (y `mod` 100).
  generalize dependent (y `mod` 4). intros p q Hpq r Hqr.
  destruct (Z.eqb_spec p 0), (Z.eqb_spec q 0), (Z.eqb_spec r 0); simpl; lia.
Qed.

Lemma days_split y m d :
  1 ≤ m ≤ 12 → days_of_civil y m d = yearStart y + monthStart m y + d - 719528.
Proof.
  intros Hm. rewrite days_of_civil_eq. unfold yearStart, monthStart. pose proof (isLeap_div y) as Hl.
  destruct (Z.leb_spec m 2), (Z.ltb_spec 2 m); [lia| |lia|lia].
  assert (m = 1 ∨ m = 2) as [->| ->] by lia; simpl; [change (1532 `div` 5) with 306|change (1685 `div` 5) with 337]; lia.
Qed.

Lemma yearStart_step y : yearStart (y + 1) = yearStart y + 365 + (if isLeap y then 1 else 0).
Proof.
  unfold yearStart. pose proof (isLeap_div y). replace (y + 1 - 1) with y by lia. lia.
Qed.

Lemma yearStart_mono y1 y2 : y1 ≤ y2 → yearStart y1 ≤ yearStart y2.
Proof.
  intros Hle. replace y2 with (y1 + Z.of_nat (Z.to_nat (y2 - y1))) by lia.
  induction (Z.to_nat (y2 - y1)) as [|n IH]; [rewrite Z.add_0_r; lia|].
  replace (y1 + Z.of_nat (S n)) with (y1 + Z.of_nat n + 1) by lia. rewrite yearStart_step.
  case_match; lia.
Qed.

Lemma monthStart_mono m1 m2 y :
  1 ≤ m1 < m2 → m2 ≤ 12 → monthStart m1 y + daysIn m1 y ≤ monthStart m2 y.
Proof.
  intros H1 H2. unfold monthStart, daysIn.
  destruct (isLeap y); destruct (Z.leb_spec m1 2), (Z.leb_spec m2 2), (Z.eqb_spec m1 2);
    destruct (Z.eqb_spec m1 4), (Z.eqb_spec m1 6), (Z.eqb_spec m1 9), (Z.eqb_spec m1 11);
    simpl; lia.
Qed.

Lemma monthStart_end m y :
  1 ≤ m ≤ 12 → monthStart m y + daysIn m y ≤ 365 + (if isLeap y then 1 else 0).
Proof.
  intros H.
  assert (monthStart 12 y = 334 + (if isLeap y then 1 else 0)) as H12.
  { unfold monthStart. change ((153 * (12 - 3) + 2) `div` 5) with 275. simpl. lia. }
  destruct (Z.eq_dec m 12) as [->|]; [rewrite H12; unfold daysIn; simpl; lia|].
  pose proof (monthStart_mono m 12 y). lia.
Qed.

(** Dates compare as their day numbers. *)
Lemma date_lex y1 m1 d1 y2 m2 d2 :
  1 ≤ m1 ≤ 12 → 1 ≤ d1 ≤ daysIn m1 y1 → 1 ≤ m2 ≤ 12 → 1 ≤ d2 ≤ daysIn m2 y2 →
  days_of_civil y1 m1 d1 < days_of_civil y2 m2 d2 →
  y1 < y2 ∨ y1 = y2 ∧ (m1 < m2 ∨ m1 = m2 ∧ d1 < d2).
Proof.
  intros Hm1 Hd1 Hm2 Hd2. rewrite !days_split by done. intros Hlt.
  destruct (Z.lt_trichotomy y1 y2) as [|[->|Hy]]; [by left|right; split; [done|]|exfalso].
  - destruct (Z.lt_trichotomy m1 m2) as [|[->|Hm]]; [by left|right; lia|].
    pose proof (monthStart_mono m2 m1 y2). lia.
  - pose proof (yearStart_mono (y2 + 1) y1 ltac:(lia)) as Hys. rewrite yearStart_step in Hys.
    pose proof (monthStart_end m2 y2 Hm2).
    assert (0 ≤ monthStart m1 y1); [|lia]. unfold monthStart. clear - Hm1. destruct (Z.leb_spec m1 2), (isLeap y1); lia.
Qed.

Lemma digit_compare x y : 0 ≤ x < 10 → 0 ≤ y < 10 → Ascii.compare (digit x) (digit y) = Z.compare x y.
Proof.
  intros Hx Hy.
  assert (∀ d, 0 ≤ d < 10 → d = 0 ∨ d = 1 ∨ d = 2 ∨ d = 3 ∨ d = 4 ∨ d = 5 ∨ d = 6 ∨ d = 7 ∨ d = 8 ∨ d = 9)
    as Hd by lia.
  destruct (Hd x Hx) as [->|Hx']; [|repeat destruct Hx' as [->|Hx']; subst];
    (destruct (Hd y Hy) as [->|Hy']; [|repeat destruct Hy' as [->|Hy']; subst]); reflexivity.
Qed.

Lemma pad2_compare a b s t :
  0 ≤ a < 100 → 0 ≤ b < 100 →
  String.compare (pad2 a +:+ s) (pad2 b +:+ t)
  = match Z.compare a b with Eq => String.compare s t | c => c end.
Proof.
  intros Ha Hb. unfold pad2. cbn [String.append String.compare].
  rewrite !digit_compare by lia.
  destruct (Z.compare_spec (a `div` 10) (b `div` 10)), (Z.compare_spec (a `mod` 10) (b `mod` 10)),
    (Z.compare_spec a b); try done; lia.
Qed.

Lemma pad4_compare a b s t :
  0 ≤ a < 10000 → 0 ≤ b < 10000 →
  String.compare (pad4 a +:+ s) (pad4 b +:+ t)
  = match Z.compare a b with Eq => String.compare s t | c => c end.
Proof.
  intros Ha Hb. rewrite !pad4_app, !pad2_compare by lia.
  destruct (Z.compare_spec (a `div` 100) (b `div` 100)), (Z.compare_spec (a `mod` 100) (b `mod` 100)),
    (Z.compare_spec a b); try done; lia.
Qed.

(** Formatting to the minute with fixed-width fields keeps the order of time. *)
Lemma format_compact_mono offset t u :
  0 ≤ local_year offset t ≤ 9999 → 0 ≤ local_year offset u ≤ 9999 → t ≤ u →
  (format_compact offset t ≤ format_compact offset u)%string.
Proof.
  unfold local_year, format_compact. intros Hyt Hyu Htu. unfold String.le, String.leb.
  pose proof (civil_bounds (w_days (wall_of offset t))) as Hct.
  pose proof (days_civil_days (w_days (wall_of offset t))) as Hdt.
  pose proof (civil_bounds (w_days (wall_of offset u))) as Hcu.
  pose proof (days_civil_days (w_days (wall_of offset u))) as Hdu.
  destruct (wall_bounds offset t) as (Hh & Hmi & Hse & Hsum).
  destruct (wall_bounds offset u) as (Hh' & Hmi' & Hse' & Hsum').
  assert (t `div` Second ≤ u `div` Second) as Hs by (apply Z.div_le_mono; [done|lia]).
  generalize dependent (u `div` Second). generalize dependent (t `div` Second).
  intros st Hst su Hsu Hs.
  destruct (Z.eq_dec (w_days (wall_of offset t)) (w_days (wall_of offset u))) as [He|He].
  - rewrite <- He in *. destruct (civil_of_days _) as [[y m] d]. simpl in Hyt.
    pose proof (daysIn_31 m y).
    rewrite pad4_compare, !Z.compare_refl, !pad2_compare, !Z.compare_refl by lia.
    cbn [String.append String.compare]. change (Ascii.compare "-" "-") with Eq. cbv iota.
    rewrite <- (string_app_nil_r (pad2 (w_min (wall_of offset t)))).
    rewrite <- (string_app_nil_r (pad2 (w_min (wall_of offset u)))).
    rewrite !pad2_compare by lia.
    destruct (Z.compare_spec (w_hour (wall_of offset t)) (w_hour (wall_of offset u)));
      [|done|lia].
    destruct (Z.compare_spec (w_min (wall_of offset t)) (w_min (wall_of offset u)));
      [done|done|lia].
  - destruct (civil_of_days (w_days (wall_of offset t))) as [[y m] d].
    destruct (civil_of_days (w_days (wall_of offset u))) as [[y' m'] d']. simpl in Hyt, Hyu.
    pose proof (daysIn_31 m y). pose proof (daysIn_31 m' y').
    rewrite pad4_compare, !pad2_compare by lia.
    assert (days_of_civil y m d < days_of_civil y' m' d') as Hlt by (rewrite Hdt, Hdu; lia).
    destruct Hct as [Hm Hd], Hcu as [Hm' Hd'].
    destruct (date_lex y m d y' m' d' Hm Hd Hm' Hd' Hlt) as [Hy|[-> [Hm2|[-> Hd2]]]];
      rewrite ?Z.compare_refl; by rewrite (proj2 (Z.compare_lt_iff _ _)) by eassumption.
Qed.
