(* ===== verification/Api.v ===== *)
(** * The API objects (pkg/apis/alibabacloud.com/v1/types.go)

    One record per Go struct, with the source's fields in order; the Kubernetes
    meta types and the core [Node] and [Deployment] objects are given by the
    fields the code reads or writes.  A Go [[]byte] is a [string], a Go [int] a
    [Z], a pointer field an [option], a map that the code compares with nil an
    [option] of a map. *)
From stdpp Require Import base list gmap strings.
From S2P Require Import Prelude GoStrings.

(** A JSON value as [json.Unmarshal] gives it in an [interface{}]: a number is
    [m * 10^e]; an object is a Go map, here the list of its entries. *)
Inductive json : Type :=
| JNull
| JBool (b : bool)
| JNum (m e : Z)
| JStr (s : string)
| JArr (l : list json)
| JObj (l : list (string * json)).

(** ** Kubernetes objects *)
Record TypeMeta : Type := MkTypeMeta { tm_Kind : string; tm_APIVersion : string }.

Record ObjectMeta : Type := MkObjectMeta {
  om_Name : string;
  om_Namespace : string;
  om_UID : string;
  om_Labels : option (gmap string string);
  om_Finalizers : list string;
  om_CreationTimestamp : option Z;
  om_DeletionTimestamp : option Z }.

Definition noType : TypeMeta := MkTypeMeta "" "".
Definition metaNamed (name : string) : ObjectMeta := MkObjectMeta name "" "" None [] None None.
Definition metaIn (ns name : string) : ObjectMeta := MkObjectMeta name ns "" None [] None None.
Definition noMeta : ObjectMeta := metaNamed "".

Definition set_Labels (l : option (gmap string string)) (m : ObjectMeta) : ObjectMeta :=
  MkObjectMeta (om_Name m) (om_Namespace m) (om_UID m) l (om_Finalizers m)
    (om_CreationTimestamp m) (om_DeletionTimestamp m).
Definition set_Finalizers (l : list string) (m : ObjectMeta) : ObjectMeta :=
  MkObjectMeta (om_Name m) (om_Namespace m) (om_UID m) (om_Labels m) l
    (om_CreationTimestamp m) (om_DeletionTimestamp m).
Definition set_CreationTimestamp (t : option Z) (m : ObjectMeta) : ObjectMeta :=
  MkObjectMeta (om_Name m) (om_Namespace m) (om_UID m) (om_Labels m) (om_Finalizers m)
    t (om_DeletionTimestamp m).

(** A read of a possibly nil map. *)
Definition label (l : option (gmap string string)) (k : string) : option string :=
  match l with Some g => g !! k | None => None end.

Record NodeCondition : Type := MkNodeCondition {
  nc_Type : string;
  nc_Status : string;
  nc_LastHeartbeatTime : Z;
  nc_Reason : string }.

Record Node : Type := MkNode {
  n_Meta : ObjectMeta;
  n_ProviderID : string;
  n_Conditions : list NodeCondition;
  n_Addresses : list string }.
Definition n_Name (n : Node) : string := om_Name (n_Meta n).
Definition n_Labels (n : Node) : option (gmap string string) := om_Labels (n_Meta n).
Definition zeroNode : Node := MkNode noMeta "" [] [].
Definition node_with_labels (l : option (gmap string string)) (n : Node) : Node :=
  MkNode (set_Labels l (n_Meta n)) (n_ProviderID n) (n_Conditions n) (n_Addresses n).

Record Deployment : Type := MkDeployment {
  dp_Meta : ObjectMeta;
  dp_ReadyReplicas : Z }.

(** ** types.go *)
Record KeyCert : Type := MkKeyCert { kc_Key : string; kc_Cert : string }.

Record Host : Type := MkHost { h_ID : string; h_IP : string }.

Definition NODE_ROLE_MASTER : string := "Master".
Definition NODE_ROLE_ETCD : string := "ETCD".
Definition NODE_ROLE_WORKER : string := "Worker".
Definition NODE_ROLE_HYBRID : string := "Hybrid".
Definition KUBERNETES_CLUSTER : string := "kubernetes-cluster".

Record Provider : Type := MkProvider { pv_Name : string; pv_Value : string }.

Record Disk : Type := MkDisk { dk_Size : string; dk_Type : string }.
Record SecretValue : Type := MkSecretValue { sv_Name : string; sv_Password : string }.
Record Secret : Type := MkSecret { sec_Type : string; sec_Value : SecretValue }.
Record Kernel : Type := MkKernel { kn_Sysctl : list string }.

Record BindInfra : Type := MkBindInfra {
  bi_Image : string;
  bi_Disk : Disk;
  bi_Secret : Secret;
  bi_Kernel : Kernel;
  bi_Region : string;
  bi_ZoneId : string;
  bi_Instance : string;
  bi_WorkerCount : Z;
  bi_Provider : option Provider;
  bi_ResourceId : string }.

Record Unit_ : Type := MkUnit {
  un_Name : string;
  un_Version : string;
  un_Paras : gmap string string }.

Record Endpoint : Type := MkEndpoint { ep_Intranet : string; ep_Internet : string }.

Record Network : Type := MkNetwork {
  nw_Mode : string;
  nw_PodCIDR : string;
  nw_SVCCIDR : string;
  nw_Domain : string;
  nw_NetMask : string }.

Record Kubernetes : Type := MkKubernetes {
  ku_Unit : Unit_;
  ku_KubeadmToken : string;
  ku_RootCA : option KeyCert;
  ku_FrontProxyCA : option KeyCert;
  ku_SvcAccountCA : option KeyCert;
  ku_ControlRoot : option KeyCert }.

Record EtcdSpec : Type := MkEtcdSpec {
  es_Unit : Unit_;
  es_Endpoints : string;
  es_InitToken : string;
  es_PeerCA : option KeyCert;
  es_ServerCA : option KeyCert }.

Record ContainerRuntime : Type := MkContainerRuntime { cr_Unit : Unit_ }.

Record ClusterSpec : Type := MkClusterSpec {
  cs_Bind : BindInfra;
  cs_ClusterID : string;
  cs_Namespace : string;
  cs_CloudType : string;
  cs_Network : Network;
  cs_Etcd : EtcdSpec;
  cs_Runtime : ContainerRuntime;
  cs_Kubernetes : Kubernetes;
  cs_AddonInitialized : bool;
  cs_Sans : list string;
  cs_Token : string;
  cs_Registry : string;
  cs_Endpoint : Endpoint;
  cs_SilentTime : Z }.

Record ClusterStatus : Type := MkClusterStatus { ct_Peers : list Host }.

Record Cluster : Type := MkCluster {
  cl_Type : TypeMeta;
  cl_Meta : ObjectMeta;
  cl_Spec : ClusterSpec;
  cl_Status : ClusterStatus }.
Definition cl_Name (c : Cluster) : string := om_Name (cl_Meta c).

Record MasterSpec : Type := MkMasterSpec {
  ms_IP : string;
  ms_ID : string;
  ms_Role : string }.

Record MasterStatus : Type := MkMasterStatus {
  mt_Peer : list Host;
  mt_BootCFG : option Cluster;
  mt_InstanceId : string }.

Record Master : Type := MkMaster {
  m_Type : TypeMeta;
  m_Meta : ObjectMeta;
  m_Spec : MasterSpec;
  m_Status : MasterStatus }.
Definition m_Name (m : Master) : string := om_Name (m_Meta m).

(** [func (m *Master) String() string] *)
Definition Master_String (m : Master) : string :=
  "master://" +:+ m_Name m +:+ "/" +:+ ms_ID (m_Spec m) +:+ "/" +:+
  ms_IP (m_Spec m) +:+ "/" +:+ mt_InstanceId (m_Status m).

Definition ToMasterStringList (m : list Master) : list string := map Master_String m.

Record MasterSetSpec : Type := MkMasterSetSpec { mss_Replicas : Z }.
Record MasterSetStatus : Type := MkMasterSetStatus {
  mst_InstanceIDS : list string;
  mst_BootCFG : option Cluster }.
Record MasterSet : Type := MkMasterSet {
  mset_Type : TypeMeta;
  mset_Meta : ObjectMeta;
  mset_Spec : MasterSetSpec;
  mset_Status : MasterSetStatus }.

Record BindID : Type := MkBindID {
  b_VswitchIDS : list string;
  b_ScalingGroupId : string;
  b_ConfigurationId : string }.

Record Infra : Type := MkInfra {
  in_DesiredCapacity : Z;
  in_ImageId : string;
  in_CPU : Z;
  in_Mem : Z;
  in_Tags : gmap string string;
  in_Bind : option BindID }.

Record NodePoolSpec : Type := MkNodePoolSpec {
  ns_NodePoolID : string;
  ns_AutoHeal : bool;
  ns_Infra : Infra }.

Record NodePool : Type := MkNodePool {
  np_Type : TypeMeta;
  np_Meta : ObjectMeta;
  np_Spec : NodePoolSpec }.
Definition np_Name (np : NodePool) : string := om_Name (np_Meta np).
Definition np_Bind (np : NodePool) : option BindID := in_Bind (ns_Infra (np_Spec np)).

(** [np.Spec.Infra.Bind = b] *)
Definition set_Bind (b : option BindID) (np : NodePool) : NodePool :=
  let i := ns_Infra (np_Spec np) in
  MkNodePool (np_Type np) (np_Meta np)
    (MkNodePoolSpec (ns_NodePoolID (np_Spec np)) (ns_AutoHeal (np_Spec np))
       (MkInfra (in_DesiredCapacity i) (in_ImageId i) (in_CPU i) (in_Mem i) (in_Tags i) b)).
Definition np_with_meta (m : ObjectMeta) (np : NodePool) : NodePool :=
  MkNodePool (np_Type np) m (np_Spec np).

Definition NodePoolHashLabel : string := "alibabacloud.com/nodepool.hash".

(** The provider contexts of the command line (~/.wdrip/config). *)
Record ContextItem : Type := MkContextItem {
  ci_Name : string;
  ci_Context : option string }. (* the [ProviderKey] behind the pointer *)
Record ProviderItem : Type := MkProviderItem {
  pi_Name : string;
  pi_Provider : option Provider }.
Record ContextCFG : Type := MkContextCFG {
  cc_Kind : string;
  cc_APIVersion : string;
  cc_CurrentContext : string;
  cc_Contexts : list ContextItem;
  cc_Providers : list ProviderItem }.

(** [CurrentPrvdCFG]: of every context named like the current one, in order,
    the first provider whose name is the context's key.  The key is read
    through a pointer, once per provider looked at. *)
Fixpoint CurrentPrvdCFG_go (cur : string) (provs : list ProviderItem)
    (ctxs : list ContextItem) : outcome (option Provider) :=
  match ctxs with
  | [] => Ret None
  | v :: rest =>
      if bool_decide (ci_Name v = cur) then
        match provs, ci_Context v with
        | [], _ => CurrentPrvdCFG_go cur provs rest
        | _ :: _, None => Panic "nil pointer dereference"
        | _ :: _, Some key =>
            match List.find (λ p, bool_decide (pi_Name p = key)) provs with
            | Some p => Ret (pi_Provider p)
            | None => CurrentPrvdCFG_go cur provs rest
            end
        end
      else CurrentPrvdCFG_go cur provs rest
  end.
Definition CurrentPrvdCFG (in_ : ContextCFG) : outcome (option Provider) :=
  CurrentPrvdCFG_go (cc_CurrentContext in_) (cc_Providers in_) (cc_Contexts in_).

Record CommandLineArgs : Type := MkCommandLineArgs {
  ca_ForceDelete : bool;
  ca_WriteTo : string;
  ca_OutPutFormat : string;
  ca_InstanceID : string;
  ca_Command : string;
  ca_NodePoolID : string }.

Record OperatorFlag : Type := MkOperatorFlag {
  of_MetricsAddr : string;
  of_EnableLeader : bool;
  of_BindAddr : string;
  of_Token : string;
  of_MetaConfig : string;
  of_InitialCount : Z }.

Record WdripOptions : Type := MkWdripOptions {
  wo_Endpoint : string;
  wo_Role : string;
  wo_Token : string;
  wo_Config : string;
  wo_Bucket : string;
  wo_BootType : string;
  wo_Resource : string;
  wo_TargetCount : Z;
  wo_RecoverFrom : string;
  wo_ClusterName : string;
  wo_Default : option ContextCFG;
  wo_Addons : string;
  wo_ExpectedMasterCnt : Z;
  wo_RecoverMode : string;
  wo_OperatorCFG : OperatorFlag }.

Record ClusterIdSpec : Type := MkClusterIdSpec {
  cis_ResourceId : string;
  cis_ExtraRIDs : list string;
  cis_CreatedAt : string;
  cis_UpdatedAt : string;
  cis_Options : option WdripOptions;
  cis_Cluster : ClusterSpec }.

Record ClusterId : Type := MkClusterId {
  cid_Type : TypeMeta;
  cid_Meta : ObjectMeta;
  cid_Spec : ClusterIdSpec }.
Definition cid_Name (c : ClusterId) : string := om_Name (cid_Meta c).

(** ** Zero values and constructors *)
Definition zeroUnit : Unit_ := MkUnit "" "" ∅.
Definition zeroBindInfra : BindInfra :=
  MkBindInfra "" (MkDisk "" "") (MkSecret "" (MkSecretValue "" "")) (MkKernel [])
    "" "" "" 0 None "".
Definition zeroClusterSpec : ClusterSpec :=
  MkClusterSpec zeroBindInfra "" "" "" (MkNetwork "" "" "" "" "")
    (MkEtcdSpec zeroUnit "" "" None None) (MkContainerRuntime zeroUnit)
    (MkKubernetes zeroUnit "" None None None None) false [] "" "" (MkEndpoint "" "") 0.
Definition zeroCluster : Cluster := MkCluster noType noMeta zeroClusterSpec (MkClusterStatus []).
Definition zeroMaster : Master :=
  MkMaster noType noMeta (MkMasterSpec "" "" "") (MkMasterStatus [] None "").
Definition zeroClusterIdSpec : ClusterIdSpec :=
  MkClusterIdSpec "" [] "" "" None zeroClusterSpec.
Definition zeroClusterId : ClusterId := MkClusterId noType noMeta zeroClusterIdSpec.

(** Setters for the fields the code assigns. *)
Definition set_Bind_Region (r : string) (b : BindInfra) : BindInfra :=
  MkBindInfra (bi_Image b) (bi_Disk b) (bi_Secret b) (bi_Kernel b) r (bi_ZoneId b)
    (bi_Instance b) (bi_WorkerCount b) (bi_Provider b) (bi_ResourceId b).
Definition set_Bind_Provider (p : option Provider) (b : BindInfra) : BindInfra :=
  MkBindInfra (bi_Image b) (bi_Disk b) (bi_Secret b) (bi_Kernel b) (bi_Region b) (bi_ZoneId b)
    (bi_Instance b) (bi_WorkerCount b) p (bi_ResourceId b).
Definition set_Bind_ResourceId (r : string) (b : BindInfra) : BindInfra :=
  MkBindInfra (bi_Image b) (bi_Disk b) (bi_Secret b) (bi_Kernel b) (bi_Region b) (bi_ZoneId b)
    (bi_Instance b) (bi_WorkerCount b) (bi_Provider b) r.
Definition cs_with_Bind (b : BindInfra) (s : ClusterSpec) : ClusterSpec :=
  MkClusterSpec b (cs_ClusterID s) (cs_Namespace s) (cs_CloudType s) (cs_Network s) (cs_Etcd s)
    (cs_Runtime s) (cs_Kubernetes s) (cs_AddonInitialized s) (cs_Sans s) (cs_Token s)
    (cs_Registry s) (cs_Endpoint s) (cs_SilentTime s).
Definition cs_with_ClusterID (i : string) (s : ClusterSpec) : ClusterSpec :=
  MkClusterSpec (cs_Bind s) i (cs_Namespace s) (cs_CloudType s) (cs_Network s) (cs_Etcd s)
    (cs_Runtime s) (cs_Kubernetes s) (cs_AddonInitialized s) (cs_Sans s) (cs_Token s)
    (cs_Registry s) (cs_Endpoint s) (cs_SilentTime s).
(** [mid.Spec.Cluster = spec] *)
Definition cid_with_Cluster (spec : ClusterSpec) (c : ClusterId) : ClusterId :=
  let x := cid_Spec c in
  MkClusterId (cid_Type c) (cid_Meta c)
    (MkClusterIdSpec (cis_ResourceId x) (cis_ExtraRIDs x) (cis_CreatedAt x) (cis_UpdatedAt x)
       (cis_Options x) spec).
Definition cs_with_Endpoint (e : Endpoint) (s : ClusterSpec) : ClusterSpec :=
  MkClusterSpec (cs_Bind s) (cs_ClusterID s) (cs_Namespace s) (cs_CloudType s) (cs_Network s)
    (cs_Etcd s) (cs_Runtime s) (cs_Kubernetes s) (cs_AddonInitialized s) (cs_Sans s) (cs_Token s)
    (cs_Registry s) e (cs_SilentTime s).
Definition cs_with_Sans (l : list string) (s : ClusterSpec) : ClusterSpec :=
  MkClusterSpec (cs_Bind s) (cs_ClusterID s) (cs_Namespace s) (cs_CloudType s) (cs_Network s)
    (cs_Etcd s) (cs_Runtime s) (cs_Kubernetes s) (cs_AddonInitialized s) l (cs_Token s)
    (cs_Registry s) (cs_Endpoint s) (cs_SilentTime s).
Definition cs_with_Etcd (e : EtcdSpec) (s : ClusterSpec) : ClusterSpec :=
  MkClusterSpec (cs_Bind s) (cs_ClusterID s) (cs_Namespace s) (cs_CloudType s) (cs_Network s)
    e (cs_Runtime s) (cs_Kubernetes s) (cs_AddonInitialized s) (cs_Sans s) (cs_Token s)
    (cs_Registry s) (cs_Endpoint s) (cs_SilentTime s).
Definition cs_with_AddonInitialized (b : bool) (s : ClusterSpec) : ClusterSpec :=
  MkClusterSpec (cs_Bind s) (cs_ClusterID s) (cs_Namespace s) (cs_CloudType s) (cs_Network s)
    (cs_Etcd s) (cs_Runtime s) (cs_Kubernetes s) b (cs_Sans s) (cs_Token s)
    (cs_Registry s) (cs_Endpoint s) (cs_SilentTime s).
Definition cl_with_Spec (s : ClusterSpec) (c : Cluster) : Cluster :=
  MkCluster (cl_Type c) (cl_Meta c) s (cl_Status c).
Definition m_with_Status (s : MasterStatus) (m : Master) : Master :=
  MkMaster (m_Type m) (m_Meta m) (m_Spec m) s.
Definition mt_with_BootCFG (c : option Cluster) (s : MasterStatus) : MasterStatus :=
  MkMasterStatus (mt_Peer s) c (mt_InstanceId s).

(** [NewRecoverCluster(id, region, prvdCfg)] *)
Definition NewRecoverCluster (id region : string) (prvdCfg : option Provider) : Cluster :=
  MkCluster (MkTypeMeta "Cluster" "alibabacloud.com/v1") (metaNamed "kubernetes-cluster")
    (cs_with_ClusterID id
       (cs_with_Bind (set_Bind_Provider prvdCfg (set_Bind_Region region zeroBindInfra))
          zeroClusterSpec))
    (MkClusterStatus []).

(** [NewDefaultCluster(name, spec)] *)
Definition NewDefaultCluster (name : string) (spec : ClusterSpec) : Cluster :=
  MkCluster (MkTypeMeta "Cluster" "alibabacloud.com/v1") (metaNamed name) spec
    (MkClusterStatus []).

(** The provider found is one of the configuration's, registered under the key
    of a context named like the current one. *)
Lemma CurrentPrvdCFG_sound (c : ContextCFG) (p : Provider) :
  CurrentPrvdCFG c = Ret (Some p) →
  ∃ v it, v ∈ cc_Contexts c ∧ ci_Name v = cc_CurrentContext c ∧
          it ∈ cc_Providers c ∧ ci_Context v = Some (pi_Name it) ∧ pi_Provider it = Some p.
Proof.
  unfold CurrentPrvdCFG. generalize (cc_Contexts c). induction l as [|v l IH]; simpl; [done|].
  assert (CurrentPrvdCFG_go (cc_CurrentContext c) (cc_Providers c) l = Ret (Some p) →
    ∃ v' it, v' ∈ v :: l ∧ ci_Name v' = cc_CurrentContext c ∧ it ∈ cc_Providers c ∧
             ci_Context v' = Some (pi_Name it) ∧ pi_Provider it = Some p) as Hrest.
  { intros H. destruct (IH H) as (v' & it & ? & ?). exists v', it. split; [by right|done]. }
  case_bool_decide as Hn; [|done].
  destruct (cc_Providers c) as [|q0 q] eqn:Hp; [done|].
  destruct (ci_Context v) as [key|] eqn:Hk; [|done].
  destruct (List.find _ _) as [it|] eqn:Hf; [|done].
  intros [= Hq]. apply List.find_some in Hf as [Hin Hb]. apply bool_decide_eq_true in Hb.
  exists v, it. split_and!; [by left|done|by apply list_elem_of_In|congruence|done].
Qed.
