(* ===== verification/DeepCopy.v ===== *)
(** * Copies of the API objects (pkg/apis/alibabacloud.com/v1)

    The rest of the development treats an API object as a value.  In the program
    it is a graph in a store: structs with pointers, slices and maps, which an
    assignment shares; what makes the value reading right is that the code works
    on [DeepCopy] of an object it must not change.  Here the objects are graphs:
    the types are those of types.go and kubeletconfig.go, field by field, and
    the copying methods are those of zz_generated.deepcopy.go, statement by
    statement.

    The facts: a copying method that fits its type, as every one of them does,
    gives a graph that reads the same, shares no cell with the old store, and
    leaves the old store as it was; so nothing done to the copy is seen by the
    original. *)
From stdpp Require Import base list gmap strings.
From Stdlib Require Import Lia.
From S2P Require Import Prelude.

(** ** The store *)

(** A pointer, slice or map that is not nil is the address of its cell. *)
Inductive gval : Type :=
| GPlain (s : string)
| GNil
| GRef (l : nat)
| GStruct (fields : list (string * gval)).
Inductive cell : Type :=
| CPtr (v : gval)
| CSlice (l : list gval)
| CMap (l : list (string * gval)).
(** Cells are allocated in order. *)
Record store : Type := MkStore { next : nat; cells : gmap nat cell }.

Definition proper_store (h : store) : Prop := ∀ l, is_Some (cells h !! l) → l < next h.
Definition alloc (c : cell) (h : store) : gval * store :=
  (GRef (next h), MkStore (S (next h)) (<[next h := c]> (cells h))).
(** A store in which more was allocated. *)
Definition grows (h h' : store) : Prop :=
  next h ≤ next h' ∧ ∀ l, l < next h → cells h' !! l = cells h !! l.

#[export] Instance grows_preorder : PreOrder grows.
Proof.
  split; [by intros h|]. intros a b c [Hn1 H1] [Hn2 H2]. split; [lia|].
  intros l Hl. rewrite H2 by lia. by apply H1.
Qed.

(** ** Types *)
Inductive gty : Type :=
| Scalar                                  (* strings, numbers, booleans, durations *)
| PtrT (t : gty)
| SliceT (t : gty)
| MapT (t : gty)
| StructT (fields : list (string * gty))
| ExtT (name : string).                   (* a type of Kubernetes *)

(** What a value of a type is, its store read through. *)
Inductive tree : Type :=
| LPlain (s : string)
| LNil
| LPtr (t : tree)
| LSlice (l : list tree)
| LMap (l : list (string * tree))
| LStruct (l : list (string * tree))
| LExt (s : string).

(** The Kubernetes types that hold references, with the copying methods of their
    packages. *)
Class ExtTypes : Type := {
  ext_tree : string → store → gval → option string;
  ext_reach : string → store → gval → list nat;
  ext_copy : string → gval → store → gval * store }.

(** Their copies are deep, as [DeepCopyInto] is documented, and what a value is
    depends on its own cells only. *)
Class ExtTypesSpec `{ExtTypes} : Prop := {
  ext_deep n v h x : proper_store h → ext_tree n h v = Some x →
    let '(v', h') := ext_copy n v h in
    proper_store h' ∧ grows h h' ∧ ext_tree n h' v' = Some x ∧
    Forall (λ l, next h ≤ l < next h') (ext_reach n h' v');
  ext_frame n v h h' x : ext_tree n h v = Some x →
    (∀ l, l ∈ ext_reach n h v → cells h' !! l = cells h !! l) →
    ext_tree n h' v = Some x ∧ ext_reach n h' v = ext_reach n h v;
  ext_inside n v h x : proper_store h → ext_tree n h v = Some x → Forall (λ l, l < next h) (ext_reach n h v) }.

Section copying.
Context `{ExtTypes}.

(** The value read through the store; [None] when it is not of the type. *)
Fixpoint reads (t : gty) (h : store) (v : gval) : option tree :=
  match t with
  | Scalar => match v with GPlain s => Some (LPlain s) | _ => None end
  | PtrT t =>
      match v with
      | GNil => Some LNil
      | GRef l => match cells h !! l with Some (CPtr w) => LPtr <$> reads t h w | _ => None end
      | _ => None
      end
  | SliceT t =>
      match v with
      | GNil => Some LNil
      | GRef l => match cells h !! l with Some (CSlice ws) => LSlice <$> mapM (reads t h) ws | _ => None end
      | _ => None
      end
  | MapT t =>
      match v with
      | GNil => Some LNil
      | GRef l =>
          match cells h !! l with
          | Some (CMap ws) => LMap <$> mapM (λ kv, pair kv.1 <$> reads t h kv.2) ws
          | _ => None
          end
      | _ => None
      end
  | StructT fs =>
      match v with
      | GStruct vs =>
          LStruct <$>
          (fix go (fs : list (string * gty)) (vs : list (string * gval)) : option (list (string * tree)) :=
             match fs, vs with
             | [], [] => Some []
             | ft :: fs, fv :: vs =>
                 if decide (ft.1 = fv.1)
                 then x ← reads ft.2 h fv.2; r ← go fs vs; Some ((ft.1, x) :: r)
                 else None
             | _, _ => None
             end) fs vs
      | _ => None
      end
  | ExtT n => LExt <$> ext_tree n h v
  end.

(** The cells a value reaches. *)
Fixpoint reach (t : gty) (h : store) (v : gval) : list nat :=
  match t with
  | Scalar => []
  | PtrT t =>
      match v with
      | GRef l => l :: match cells h !! l with Some (CPtr w) => reach t h w | _ => [] end
      | _ => []
      end
  | SliceT t =>
      match v with
      | GRef l => l :: match cells h !! l with Some (CSlice ws) => flat_map (reach t h) ws | _ => [] end
      | _ => []
      end
  | MapT t =>
      match v with
      | GRef l =>
          l :: match cells h !! l with Some (CMap ws) => flat_map (λ kv, reach t h kv.2) ws | _ => [] end
      | _ => []
      end
  | StructT fs =>
      match v with
      | GStruct vs =>
          (fix go (fs : list (string * gty)) (vs : list (string * gval)) : list nat :=
             match fs, vs with
             | ft :: fs, fv :: vs => reach ft.2 h fv.2 ++ go fs vs
             | _, _ => []
             end) fs vs
      | _ => []
      end
  | ExtT n => ext_reach n h v
  end.

(** ** The statements of the copying methods *)
Inductive how : Type :=
| Assign                                       (* out.F = in.F, or copy( *out, *in) of elements *)
| Into (fields : list (string * how))          (* in.F.DeepCopyInto(&out.F): *out = *in, then the fields *)
| New (e : how)                                (* if in.F != nil: *out = new(T), then what it points to *)
| Make (e : how)                               (* if in.F != nil: make([]T), then every element *)
| MakeMap (e : how)                            (* if in.F != nil: make(map), then every value *)
| ExtInto (name : string).                     (* the copying method of a Kubernetes type *)

Definition set_field (f : string) (v : gval) : list (string * gval) → list (string * gval) :=
  map (λ fv, if decide (fv.1 = f) then (f, v) else fv).
Definition get_field (f : string) (vs : list (string * gval)) : option gval :=
  option_map snd (List.find (λ fv, bool_decide (fv.1 = f)) vs).

(** One after the other, with the store. *)
Fixpoint each {A B} (f : A → store → B * store) (l : list A) (h : store) : list B * store :=
  match l with
  | [] => ([], h)
  | x :: l => let '(y, h) := f x h in let '(ys, h) := each f l h in (y :: ys, h)
  end.

Fixpoint run (e : how) (v : gval) (h : store) : gval * store :=
  match e with
  | Assign => (v, h)
  | Into p =>
      match v with
      | GStruct ins =>
          let '(outs, h) :=
            (fix go (p : list (string * how)) (outs : list (string * gval)) (h : store) :=
               match p with
               | [] => (outs, h)
               | fe :: p =>
                   match get_field fe.1 ins with
                   | Some w => let '(w, h) := run fe.2 w h in go p (set_field fe.1 w outs) h
                   | None => go p outs h
                   end
               end) p ins h in
          (GStruct outs, h)
      | _ => (v, h)
      end
  | New e =>
      match v with
      | GRef l => match cells h !! l with
                  | Some (CPtr w) => let '(w, h) := run e w h in alloc (CPtr w) h
                  | _ => (v, h)
                  end
      | _ => (v, h)
      end
  | Make e =>
      match v with
      | GRef l => match cells h !! l with
                  | Some (CSlice ws) => let '(ws, h) := each (run e) ws h in alloc (CSlice ws) h
                  | _ => (v, h)
                  end
      | _ => (v, h)
      end
  | MakeMap e =>
      match v with
      | GRef l => match cells h !! l with
                  | Some (CMap ws) =>
                      let '(ws, h) := each (λ kv h, let '(w, h) := run e kv.2 h in ((kv.1, w), h)) ws h in
                      alloc (CMap ws) h
                  | _ => (v, h)
                  end
      | _ => (v, h)
      end
  | ExtInto n => ext_copy n v h
  end.

(** [in.DeepCopy()]: a pointer to a new copy, nil for nil; and
    [in.DeepCopyObject()]. *)
Definition DeepCopy (p : how) (v : gval) (h : store) : gval * store := run (New p) v h.
Definition DeepCopyObject (p : how) (v : gval) (h : store) : gval * store :=
  let '(c, h) := DeepCopy p v h in
  match c with GNil => (GNil, h) | _ => (c, h) end.

(** ** Methods that fit a type *)

(** No references inside. *)
Fixpoint plainTy (t : gty) : bool :=
  match t with
  | Scalar => true
  | StructT fs => forallb (λ ft, plainTy ft.2) fs
  | _ => false
  end.
Definition typeOfField (f : string) (fs : list (string * gty)) : option gty :=
  option_map snd (List.find (λ ft, bool_decide (ft.1 = f)) fs).

(** Every reference a value of the type can hold is copied, and nothing else is
    touched. *)
Fixpoint fits (e : how) (t : gty) : bool :=
  match e, t with
  | Assign, t => plainTy t
  | Into p, StructT fs =>
      bool_decide (NoDup p.*1) && bool_decide (NoDup fs.*1) &&
      forallb (λ ft, bool_decide (ft.1 ∈ p.*1) || plainTy ft.2) fs &&
      forallb (λ fe, match typeOfField fe.1 fs with Some t => fits fe.2 t | None => false end) p
  | New e, PtrT t => fits e t
  | Make e, SliceT t => fits e t
  | MakeMap e, MapT t => fits e t
  | ExtInto n, ExtT m => bool_decide (n = m)
  | _, _ => false
  end.
End copying.

(** ** The types *)
Definition MasterSpecTy : gty := StructT [
  ("IP", Scalar); ("ID", Scalar); ("Role", Scalar)].
Definition DiskTy : gty := StructT [
  ("Size", Scalar); ("Type", Scalar)].
Definition KernelTy : gty := StructT [
  ("Sysctl", SliceT Scalar)].
Definition ProviderTy : gty := StructT [
  ("Name", Scalar); ("Value", SliceT Scalar)].
Definition ValueTy : gty := StructT [
  ("Name", Scalar); ("Password", Scalar)].
Definition SecretTy : gty := StructT [
  ("Type", Scalar); ("Value", ValueTy)].
Definition BindInfraTy : gty := StructT [
  ("Image", Scalar); ("Disk", DiskTy); ("Secret", SecretTy); ("Kernel", KernelTy); ("Region", Scalar);
  ("ZoneId", Scalar); ("Instance", Scalar); ("WorkerCount", Scalar); ("Provider", PtrT ProviderTy);
  ("ResourceId", Scalar)].
Definition UnitTy : gty := StructT [
  ("Name", Scalar); ("Version", Scalar); ("Paras", MapT Scalar)].
Definition ContainerRuntimeTy : gty := StructT [
  ("Unit", UnitTy)].
Definition EndpointTy : gty := StructT [
  ("Intranet", Scalar); ("Internet", Scalar)].
Definition KeyCertTy : gty := StructT [
  ("Key", SliceT Scalar); ("Cert", SliceT Scalar)].
Definition EtcdTy : gty := StructT [
  ("Unit", UnitTy); ("Endpoints", Scalar); ("InitToken", Scalar); ("PeerCA", PtrT KeyCertTy);
  ("ServerCA", PtrT KeyCertTy)].
Definition KubernetesTy : gty := StructT [
  ("Unit", UnitTy); ("KubeadmToken", Scalar); ("RootCA", PtrT KeyCertTy); ("FrontProxyCA", PtrT KeyCertTy);
  ("SvcAccountCA", PtrT KeyCertTy); ("ControlRoot", PtrT KeyCertTy)].
Definition NetworkTy : gty := StructT [
  ("Mode", Scalar); ("PodCIDR", Scalar); ("SVCCIDR", Scalar); ("Domain", Scalar); ("NetMask", Scalar)].
Definition ClusterSpecTy : gty := StructT [
  ("Bind", BindInfraTy); ("ClusterID", Scalar); ("Namespace", Scalar); ("CloudType", Scalar);
  ("Network", NetworkTy); ("Etcd", EtcdTy); ("Runtime", ContainerRuntimeTy); ("Kubernetes", KubernetesTy);
  ("AddonInitialized", Scalar); ("Sans", SliceT Scalar); ("Token", Scalar); ("Registry", Scalar);
  ("Endpoint", EndpointTy); ("SilentTime", Scalar)].
Definition HostTy : gty := StructT [
  ("ID", Scalar); ("IP", Scalar)].
Definition ClusterStatusTy : gty := StructT [
  ("Peers", SliceT HostTy)].
Definition ClusterTy : gty := StructT [
  ("TypeMeta", Scalar); ("ObjectMeta", ExtT "ObjectMeta"); ("Spec", ClusterSpecTy); ("Status", ClusterStatusTy)].
Definition MasterStatusTy : gty := StructT [
  ("Peer", SliceT HostTy); ("BootCFG", PtrT ClusterTy); ("InstanceId", Scalar)].
Definition MasterTy : gty := StructT [
  ("TypeMeta", Scalar); ("ObjectMeta", ExtT "ObjectMeta"); ("Spec", MasterSpecTy); ("Status", MasterStatusTy)].
Definition MasterListTy : gty := StructT [
  ("TypeMeta", Scalar); ("ListMeta", ExtT "ListMeta"); ("Items", SliceT MasterTy)].
Definition MasterSetSpecTy : gty := StructT [
  ("Replicas", Scalar)].
Definition MasterSetStatusTy : gty := StructT [
  ("InstanceIDS", SliceT Scalar); ("BootCFG", PtrT ClusterTy)].
Definition MasterSetTy : gty := StructT [
  ("TypeMeta", Scalar); ("ObjectMeta", ExtT "ObjectMeta"); ("Spec", MasterSetSpecTy);
  ("Status", MasterSetStatusTy)].
Definition MasterSetListTy : gty := StructT [
  ("TypeMeta", Scalar); ("ListMeta", ExtT "ListMeta"); ("Items", SliceT MasterSetTy)].
Definition ContextTy : gty := StructT [
  ("ProviderKey", Scalar)].
Definition ContextItemTy : gty := StructT [
  ("Name", Scalar); ("Context", PtrT ContextTy)].
Definition ProviderItemTy : gty := StructT [
  ("Name", Scalar); ("Provider", PtrT ProviderTy)].
Definition ContextCFGTy : gty := StructT [
  ("Kind", Scalar); ("APIVersion", Scalar); ("CurrentContext", Scalar); ("Contexts", SliceT ContextItemTy);
  ("Providers", SliceT ProviderItemTy)].
Definition OperatorFlagTy : gty := StructT [
  ("MetricsAddr", Scalar); ("EnableLeader", Scalar); ("BindAddr", Scalar); ("Token", Scalar);
  ("MetaConfig", Scalar); ("InitialCount", Scalar)].
Definition WdripOptionsTy : gty := StructT [
  ("Endpoint", Scalar); ("Role", Scalar); ("Token", Scalar); ("Config", Scalar); ("Bucket", Scalar);
  ("BootType", Scalar); ("Resource", Scalar); ("TargetCount", Scalar); ("RecoverFrom", Scalar);
  ("ClusterName", Scalar); ("Default", PtrT ContextCFGTy); ("Addons", Scalar); ("ExpectedMasterCnt", Scalar);
  ("RecoverMode", Scalar); ("OperatorCFG", OperatorFlagTy)].
Definition ClusterIdSpecTy : gty := StructT [
  ("ResourceId", Scalar); ("ExtraRIDs", SliceT Scalar); ("CreatedAt", Scalar); ("UpdatedAt", Scalar);
  ("Options", PtrT WdripOptionsTy); ("Cluster", ClusterSpecTy)].
Definition ClusterIdTy : gty := StructT [
  ("TypeMeta", Scalar); ("ObjectMeta", ExtT "ObjectMeta"); ("Spec", ClusterIdSpecTy)].
Definition PreemptTy : gty := StructT [
  ("Detached", Scalar); ("AttachName", Scalar); ("AttachedId", Scalar)].
Definition CommandLineArgsTy : gty := StructT [
  ("ForceDelete", Scalar); ("WriteTo", Scalar); ("OutPutFormat", Scalar); ("InstanceID", Scalar);
  ("Command", Scalar); ("NodePoolID", Scalar)].
Definition CATy : gty := StructT [
  ("Root", KeyCertTy); ("FrontRoot", KeyCertTy)].
Definition ImmutableTy : gty := StructT [
  ("CAs", CATy)].
Definition ClusterListTy : gty := StructT [
  ("TypeMeta", Scalar); ("ListMeta", ExtT "ListMeta"); ("Items", SliceT ClusterTy)].
Definition BindIDTy : gty := StructT [
  ("VswitchIDS", SliceT Scalar); ("ScalingGroupId", Scalar); ("ConfigurationId", Scalar)].
Definition InfraTy : gty := StructT [
  ("DesiredCapacity", Scalar); ("ImageId", Scalar); ("CPU", Scalar); ("Mem", Scalar); ("Tags", MapT Scalar);
  ("Bind", PtrT BindIDTy)].
Definition NodePoolSpecTy : gty := StructT [
  ("NodePoolID", Scalar); ("AutoHeal", Scalar); ("Infra", InfraTy)].
Definition MemoryReservationTy : gty := StructT [
  ("NumaNode", Scalar); ("Limits", MapT (ExtT "Quantity"))].
Definition KubeletConfigurationTy : gty := StructT [
  ("TypeMeta", Scalar); ("EnableServer", Scalar); ("StaticPodPath", Scalar); ("SyncFrequency", Scalar);
  ("FileCheckFrequency", Scalar); ("HTTPCheckFrequency", Scalar); ("StaticPodURL", Scalar);
  ("StaticPodURLHeader", MapT (SliceT Scalar)); ("Address", Scalar); ("Port", Scalar); ("ReadOnlyPort", Scalar);
  ("VolumePluginDir", Scalar); ("ProviderID", Scalar); ("TLSCertFile", Scalar); ("TLSPrivateKeyFile", Scalar);
  ("TLSCipherSuites", SliceT Scalar); ("TLSMinVersion", Scalar); ("RotateCertificates", Scalar);
  ("ServerTLSBootstrap", Scalar); ("RegistryPullQPS", Scalar); ("RegistryBurst", Scalar);
  ("EventRecordQPS", Scalar); ("EventBurst", Scalar); ("EnableDebuggingHandlers", Scalar);
  ("EnableContentionProfiling", Scalar); ("HealthzPort", Scalar); ("HealthzBindAddress", Scalar);
  ("OOMScoreAdj", Scalar); ("ClusterDomain", Scalar); ("ClusterDNS", SliceT Scalar);
  ("StreamingConnectionIdleTimeout", Scalar); ("NodeStatusUpdateFrequency", Scalar);
  ("NodeStatusReportFrequency", Scalar); ("NodeLeaseDurationSeconds", Scalar); ("ImageMinimumGCAge", Scalar);
  ("ImageGCHighThresholdPercent", Scalar); ("ImageGCLowThresholdPercent", Scalar);
  ("VolumeStatsAggPeriod", Scalar); ("KubeletCgroups", Scalar); ("SystemCgroups", Scalar);
  ("CgroupRoot", Scalar); ("CgroupsPerQOS", Scalar); ("CgroupDriver", Scalar); ("CPUManagerPolicy", Scalar);
  ("CPUManagerPolicyOptions", MapT Scalar); ("CPUManagerReconcilePeriod", Scalar);
  ("MemoryManagerPolicy", Scalar); ("TopologyManagerPolicy", Scalar); ("TopologyManagerScope", Scalar);
  ("QOSReserved", MapT Scalar); ("RuntimeRequestTimeout", Scalar); ("HairpinMode", Scalar); ("MaxPods", Scalar);
  ("PodCIDR", Scalar); ("PodPidsLimit", Scalar); ("ResolverConfig", Scalar); ("RunOnce", Scalar);
  ("CPUCFSQuota", Scalar); ("CPUCFSQuotaPeriod", Scalar); ("MaxOpenFiles", Scalar);
  ("NodeStatusMaxImages", Scalar); ("ContentType", Scalar); ("KubeAPIQPS", Scalar); ("KubeAPIBurst", Scalar);
  ("SerializeImagePulls", Scalar); ("EvictionHard", MapT Scalar); ("EvictionSoft", MapT Scalar);
  ("EvictionSoftGracePeriod", MapT Scalar); ("EvictionPressureTransitionPeriod", Scalar);
  ("EvictionMaxPodGracePeriod", Scalar); ("EvictionMinimumReclaim", MapT Scalar); ("PodsPerCore", Scalar);
  ("EnableControllerAttachDetach", Scalar); ("ProtectKernelDefaults", Scalar);
  ("MakeIPTablesUtilChains", Scalar); ("IPTablesMasqueradeBit", Scalar); ("IPTablesDropBit", Scalar);
  ("FeatureGates", MapT Scalar); ("FailSwapOn", Scalar); ("ContainerLogMaxSize", Scalar);
  ("ContainerLogMaxFiles", Scalar); ("AllowedUnsafeSysctls", SliceT Scalar);
  ("KernelMemcgNotification", Scalar); ("SystemReserved", MapT Scalar); ("KubeReserved", MapT Scalar);
  ("SystemReservedCgroup", Scalar); ("KubeReservedCgroup", Scalar); ("EnforceNodeAllocatable", SliceT Scalar);
  ("ReservedSystemCPUs", Scalar); ("ShowHiddenMetricsForVersion", Scalar); ("EnableSystemLogHandler", Scalar);
  ("ShutdownGracePeriod", Scalar); ("ShutdownGracePeriodCriticalPods", Scalar);
  ("ReservedMemory", SliceT MemoryReservationTy); ("EnableProfilingHandler", Scalar);
  ("EnableDebugFlagsHandler", Scalar); ("SeccompDefault", Scalar); ("MemoryThrottlingFactor", PtrT Scalar);
  ("RegisterWithTaints", SliceT (ExtT "Taint")); ("RegisterNode", Scalar)].
Definition OSConfigurationTy : gty := StructT [].
Definition ConfigTy : gty := StructT [
  ("OSConfig", OSConfigurationTy); ("KubeletConfig", KubeletConfigurationTy)].
Definition NodePoolStatusTy : gty := StructT [].
Definition NodePoolTy : gty := StructT [
  ("TypeMeta", Scalar); ("ObjectMeta", ExtT "ObjectMeta"); ("Spec", NodePoolSpecTy);
  ("Status", NodePoolStatusTy)].
Definition NodePoolListTy : gty := StructT [
  ("TypeMeta", Scalar); ("ListMeta", ExtT "ListMeta"); ("Items", SliceT NodePoolTy)].
Definition RuntimeTy : gty := StructT [
  ("Name", Scalar); ("Version", Scalar)].
Definition ConfigTplTy : gty := StructT [
  ("ImageId", Scalar); ("Runtime", RuntimeTy); ("Kubernetes", UnitTy)].
Definition ProgressTy : gty := StructT [
  ("Step", Scalar); ("Description", Scalar)].
Definition TaskStatusTy : gty := StructT [
  ("Phase", Scalar); ("Reason", Scalar); ("Hash", Scalar); ("Log", SliceT Scalar);
  ("Progress", SliceT ProgressTy)].

(** ** The methods

    The first statement of each, [*out = *in], is the struct [Into] starts from. *)
Definition MasterSpec_DeepCopyInto : how := Into [].
Definition Disk_DeepCopyInto : how := Into [].
Definition Kernel_DeepCopyInto : how := Into [
  ("Sysctl", Make Assign)].
Definition Provider_DeepCopyInto : how := Into [
  ("Value", Make Assign)].
Definition Value_DeepCopyInto : how := Into [].
Definition Secret_DeepCopyInto : how := Into [
  ("Value", Assign)].
Definition BindInfra_DeepCopyInto : how := Into [
  ("Disk", Assign); ("Secret", Assign); ("Kernel", Kernel_DeepCopyInto); ("Provider", New Provider_DeepCopyInto)].
Definition Unit_DeepCopyInto : how := Into [
  ("Paras", MakeMap Assign)].
Definition ContainerRuntime_DeepCopyInto : how := Into [
  ("Unit", Unit_DeepCopyInto)].
Definition Endpoint_DeepCopyInto : how := Into [].
Definition KeyCert_DeepCopyInto : how := Into [
  ("Key", Make Assign); ("Cert", Make Assign)].
Definition Etcd_DeepCopyInto : how := Into [
  ("Unit", Unit_DeepCopyInto); ("PeerCA", New KeyCert_DeepCopyInto); ("ServerCA", New KeyCert_DeepCopyInto)].
Definition Kubernetes_DeepCopyInto : how := Into [
  ("Unit", Unit_DeepCopyInto); ("RootCA", New KeyCert_DeepCopyInto); ("FrontProxyCA", New KeyCert_DeepCopyInto);
  ("SvcAccountCA", New KeyCert_DeepCopyInto); ("ControlRoot", New KeyCert_DeepCopyInto)].
Definition Network_DeepCopyInto : how := Into [].
Definition ClusterSpec_DeepCopyInto : how := Into [
  ("Bind", BindInfra_DeepCopyInto); ("Network", Assign); ("Etcd", Etcd_DeepCopyInto);
  ("Runtime", ContainerRuntime_DeepCopyInto); ("Kubernetes", Kubernetes_DeepCopyInto); ("Sans", Make Assign);
  ("Endpoint", Assign)].
Definition Host_DeepCopyInto : how := Into [].
Definition ClusterStatus_DeepCopyInto : how := Into [
  ("Peers", Make Assign)].
Definition Cluster_DeepCopyInto : how := Into [
  ("TypeMeta", Assign); ("ObjectMeta", ExtInto "ObjectMeta"); ("Spec", ClusterSpec_DeepCopyInto);
  ("Status", ClusterStatus_DeepCopyInto)].
Definition MasterStatus_DeepCopyInto : how := Into [
  ("Peer", Make Assign); ("BootCFG", New Cluster_DeepCopyInto)].
Definition Master_DeepCopyInto : how := Into [
  ("TypeMeta", Assign); ("ObjectMeta", ExtInto "ObjectMeta"); ("Spec", Assign);
  ("Status", MasterStatus_DeepCopyInto)].
Definition MasterList_DeepCopyInto : how := Into [
  ("TypeMeta", Assign); ("ListMeta", ExtInto "ListMeta"); ("Items", Make Master_DeepCopyInto)].
Definition MasterSetSpec_DeepCopyInto : how := Into [].
Definition MasterSetStatus_DeepCopyInto : how := Into [
  ("InstanceIDS", Make Assign); ("BootCFG", New Cluster_DeepCopyInto)].
Definition MasterSet_DeepCopyInto : how := Into [
  ("TypeMeta", Assign); ("ObjectMeta", ExtInto "ObjectMeta"); ("Spec", Assign);
  ("Status", MasterSetStatus_DeepCopyInto)].
Definition MasterSetList_DeepCopyInto : how := Into [
  ("TypeMeta", Assign); ("ListMeta", ExtInto "ListMeta"); ("Items", Make MasterSet_DeepCopyInto)].
Definition Context_DeepCopyInto : how := Into [].
Definition ContextItem_DeepCopyInto : how := Into [
  ("Context", New Assign)].
Definition ProviderItem_DeepCopyInto : how := Into [
  ("Provider", New Provider_DeepCopyInto)].
Definition ContextCFG_DeepCopyInto : how := Into [
  ("Contexts", Make ContextItem_DeepCopyInto); ("Providers", Make ProviderItem_DeepCopyInto)].
Definition OperatorFlag_DeepCopyInto : how := Into [].
Definition WdripOptions_DeepCopyInto : how := Into [
  ("Default", New ContextCFG_DeepCopyInto); ("OperatorCFG", Assign)].
Definition ClusterIdSpec_DeepCopyInto : how := Into [
  ("ExtraRIDs", Make Assign); ("Options", New WdripOptions_DeepCopyInto); ("Cluster", ClusterSpec_DeepCopyInto)].
Definition ClusterId_DeepCopyInto : how := Into [
  ("TypeMeta", Assign); ("ObjectMeta", ExtInto "ObjectMeta"); ("Spec", ClusterIdSpec_DeepCopyInto)].
Definition Preempt_DeepCopyInto : how := Into [].
Definition CommandLineArgs_DeepCopyInto : how := Into [].
Definition CA_DeepCopyInto : how := Into [
  ("Root", KeyCert_DeepCopyInto); ("FrontRoot", KeyCert_DeepCopyInto)].
Definition Immutable_DeepCopyInto : how := Into [
  ("CAs", CA_DeepCopyInto)].
Definition ClusterList_DeepCopyInto : how := Into [
  ("TypeMeta", Assign); ("ListMeta", ExtInto "ListMeta"); ("Items", Make Cluster_DeepCopyInto)].
Definition BindID_DeepCopyInto : how := Into [
  ("VswitchIDS", Make Assign)].
Definition Infra_DeepCopyInto : how := Into [
  ("Tags", MakeMap Assign); ("Bind", New BindID_DeepCopyInto)].
Definition NodePoolSpec_DeepCopyInto : how := Into [
  ("Infra", Infra_DeepCopyInto)].
Definition MemoryReservation_DeepCopyInto : how := Into [
  ("Limits", MakeMap (ExtInto "Quantity"))].
Definition KubeletConfiguration_DeepCopyInto : how := Into [
  ("TypeMeta", Assign); ("SyncFrequency", Assign); ("FileCheckFrequency", Assign);
  ("HTTPCheckFrequency", Assign); ("StaticPodURLHeader", MakeMap (Make Assign));
  ("TLSCipherSuites", Make Assign); ("ClusterDNS", Make Assign); ("StreamingConnectionIdleTimeout", Assign);
  ("NodeStatusUpdateFrequency", Assign); ("NodeStatusReportFrequency", Assign); ("ImageMinimumGCAge", Assign);
  ("VolumeStatsAggPeriod", Assign); ("CPUManagerPolicyOptions", MakeMap Assign);
  ("CPUManagerReconcilePeriod", Assign); ("QOSReserved", MakeMap Assign); ("RuntimeRequestTimeout", Assign);
  ("CPUCFSQuotaPeriod", Assign); ("EvictionHard", MakeMap Assign); ("EvictionSoft", MakeMap Assign);
  ("EvictionSoftGracePeriod", MakeMap Assign); ("EvictionPressureTransitionPeriod", Assign);
  ("EvictionMinimumReclaim", MakeMap Assign); ("FeatureGates", MakeMap Assign);
  ("AllowedUnsafeSysctls", Make Assign); ("SystemReserved", MakeMap Assign); ("KubeReserved", MakeMap Assign);
  ("EnforceNodeAllocatable", Make Assign); ("ShutdownGracePeriod", Assign);
  ("ShutdownGracePeriodCriticalPods", Assign); ("ReservedMemory", Make MemoryReservation_DeepCopyInto);
  ("MemoryThrottlingFactor", New Assign); ("RegisterWithTaints", Make (ExtInto "Taint"))].
Definition OSConfiguration_DeepCopyInto : how := Into [].
Definition Config_DeepCopyInto : how := Into [
  ("OSConfig", Assign); ("KubeletConfig", KubeletConfiguration_DeepCopyInto)].
Definition NodePoolStatus_DeepCopyInto : how := Into [].
Definition NodePool_DeepCopyInto : how := Into [
  ("TypeMeta", Assign); ("ObjectMeta", ExtInto "ObjectMeta"); ("Spec", NodePoolSpec_DeepCopyInto);
  ("Status", Assign)].
Definition NodePoolList_DeepCopyInto : how := Into [
  ("TypeMeta", Assign); ("ListMeta", ExtInto "ListMeta"); ("Items", Make NodePool_DeepCopyInto)].
Definition Runtime_DeepCopyInto : how := Into [].
Definition ConfigTpl_DeepCopyInto : how := Into [
  ("Runtime", Assign); ("Kubernetes", Unit_DeepCopyInto)].
Definition Progress_DeepCopyInto : how := Into [].
Definition TaskStatus_DeepCopyInto : how := Into [
  ("Log", Make Assign); ("Progress", Make Assign)].

Section methods.
Context `{ExtTypes}.
Definition MasterSpec_DeepCopy : gval → store → gval * store := DeepCopy MasterSpec_DeepCopyInto.
Definition Disk_DeepCopy : gval → store → gval * store := DeepCopy Disk_DeepCopyInto.
Definition Kernel_DeepCopy : gval → store → gval * store := DeepCopy Kernel_DeepCopyInto.
Definition Provider_DeepCopy : gval → store → gval * store := DeepCopy Provider_DeepCopyInto.
Definition Value_DeepCopy : gval → store → gval * store := DeepCopy Value_DeepCopyInto.
Definition Secret_DeepCopy : gval → store → gval * store := DeepCopy Secret_DeepCopyInto.
Definition BindInfra_DeepCopy : gval → store → gval * store := DeepCopy BindInfra_DeepCopyInto.
Definition Unit_DeepCopy : gval → store → gval * store := DeepCopy Unit_DeepCopyInto.
Definition ContainerRuntime_DeepCopy : gval → store → gval * store := DeepCopy ContainerRuntime_DeepCopyInto.
Definition Endpoint_DeepCopy : gval → store → gval * store := DeepCopy Endpoint_DeepCopyInto.
Definition KeyCert_DeepCopy : gval → store → gval * store := DeepCopy KeyCert_DeepCopyInto.
Definition Etcd_DeepCopy : gval → store → gval * store := DeepCopy Etcd_DeepCopyInto.
Definition Kubernetes_DeepCopy : gval → store → gval * store := DeepCopy Kubernetes_DeepCopyInto.
Definition Network_DeepCopy : gval → store → gval * store := DeepCopy Network_DeepCopyInto.
Definition ClusterSpec_DeepCopy : gval → store → gval * store := DeepCopy ClusterSpec_DeepCopyInto.
Definition Host_DeepCopy : gval → store → gval * store := DeepCopy Host_DeepCopyInto.
Definition ClusterStatus_DeepCopy : gval → store → gval * store := DeepCopy ClusterStatus_DeepCopyInto.
Definition Cluster_DeepCopy : gval → store → gval * store := DeepCopy Cluster_DeepCopyInto.
Definition Cluster_DeepCopyObject : gval → store → gval * store := DeepCopyObject Cluster_DeepCopyInto.
Definition MasterStatus_DeepCopy : gval → store → gval * store := DeepCopy MasterStatus_DeepCopyInto.
Definition Master_DeepCopy : gval → store → gval * store := DeepCopy Master_DeepCopyInto.
Definition Master_DeepCopyObject : gval → store → gval * store := DeepCopyObject Master_DeepCopyInto.
Definition MasterList_DeepCopy : gval → store → gval * store := DeepCopy MasterList_DeepCopyInto.
Definition MasterList_DeepCopyObject : gval → store → gval * store := DeepCopyObject MasterList_DeepCopyInto.
Definition MasterSetSpec_DeepCopy : gval → store → gval * store := DeepCopy MasterSetSpec_DeepCopyInto.
Definition MasterSetStatus_DeepCopy : gval → store → gval * store := DeepCopy MasterSetStatus_DeepCopyInto.
Definition MasterSet_DeepCopy : gval → store → gval * store := DeepCopy MasterSet_DeepCopyInto.
Definition MasterSet_DeepCopyObject : gval → store → gval * store := DeepCopyObject MasterSet_DeepCopyInto.
Definition MasterSetList_DeepCopy : gval → store → gval * store := DeepCopy MasterSetList_DeepCopyInto.
Definition MasterSetList_DeepCopyObject : gval → store → gval * store := DeepCopyObject MasterSetList_DeepCopyInto.
Definition Context_DeepCopy : gval → store → gval * store := DeepCopy Context_DeepCopyInto.
Definition ContextItem_DeepCopy : gval → store → gval * store := DeepCopy ContextItem_DeepCopyInto.
Definition ProviderItem_DeepCopy : gval → store → gval * store := DeepCopy ProviderItem_DeepCopyInto.
Definition ContextCFG_DeepCopy : gval → store → gval * store := DeepCopy ContextCFG_DeepCopyInto.
Definition OperatorFlag_DeepCopy : gval → store → gval * store := DeepCopy OperatorFlag_DeepCopyInto.
Definition WdripOptions_DeepCopy : gval → store → gval * store := DeepCopy WdripOptions_DeepCopyInto.
Definition ClusterIdSpec_DeepCopy : gval → store → gval * store := DeepCopy ClusterIdSpec_DeepCopyInto.
Definition ClusterId_DeepCopy : gval → store → gval * store := DeepCopy ClusterId_DeepCopyInto.
Definition Preempt_DeepCopy : gval → store → gval * store := DeepCopy Preempt_DeepCopyInto.
Definition CommandLineArgs_DeepCopy : gval → store → gval * store := DeepCopy CommandLineArgs_DeepCopyInto.
Definition CA_DeepCopy : gval → store → gval * store := DeepCopy CA_DeepCopyInto.
Definition Immutable_DeepCopy : gval → store → gval * store := DeepCopy Immutable_DeepCopyInto.
Definition ClusterList_DeepCopy : gval → store → gval * store := DeepCopy ClusterList_DeepCopyInto.
Definition ClusterList_DeepCopyObject : gval → store → gval * store := DeepCopyObject ClusterList_DeepCopyInto.
Definition BindID_DeepCopy : gval → store → gval * store := DeepCopy BindID_DeepCopyInto.
Definition Infra_DeepCopy : gval → store → gval * store := DeepCopy Infra_DeepCopyInto.
Definition NodePoolSpec_DeepCopy : gval → store → gval * store := DeepCopy NodePoolSpec_DeepCopyInto.
Definition MemoryReservation_DeepCopy : gval → store → gval * store := DeepCopy MemoryReservation_DeepCopyInto.
Definition KubeletConfiguration_DeepCopy : gval → store → gval * store := DeepCopy KubeletConfiguration_DeepCopyInto.
Definition OSConfiguration_DeepCopy : gval → store → gval * store := DeepCopy OSConfiguration_DeepCopyInto.
Definition Config_DeepCopy : gval → store → gval * store := DeepCopy Config_DeepCopyInto.
Definition NodePoolStatus_DeepCopy : gval → store → gval * store := DeepCopy NodePoolStatus_DeepCopyInto.
Definition NodePool_DeepCopy : gval → store → gval * store := DeepCopy NodePool_DeepCopyInto.
Definition NodePool_DeepCopyObject : gval → store → gval * store := DeepCopyObject NodePool_DeepCopyInto.
Definition NodePoolList_DeepCopy : gval → store → gval * store := DeepCopy NodePoolList_DeepCopyInto.
Definition NodePoolList_DeepCopyObject : gval → store → gval * store := DeepCopyObject NodePoolList_DeepCopyInto.
Definition Runtime_DeepCopy : gval → store → gval * store := DeepCopy Runtime_DeepCopyInto.
Definition ConfigTpl_DeepCopy : gval → store → gval * store := DeepCopy ConfigTpl_DeepCopyInto.
Definition Progress_DeepCopy : gval → store → gval * store := DeepCopy Progress_DeepCopyInto.
Definition TaskStatus_DeepCopy : gval → store → gval * store := DeepCopy TaskStatus_DeepCopyInto.
End methods.

(** Every method with the type it copies. *)
Definition methods : list (how * gty) :=
  [(MasterSpec_DeepCopyInto, MasterSpecTy); (Disk_DeepCopyInto, DiskTy); (Kernel_DeepCopyInto, KernelTy);
   (Provider_DeepCopyInto, ProviderTy); (Value_DeepCopyInto, ValueTy); (Secret_DeepCopyInto, SecretTy);
   (BindInfra_DeepCopyInto, BindInfraTy); (Unit_DeepCopyInto, UnitTy);
   (ContainerRuntime_DeepCopyInto, ContainerRuntimeTy); (Endpoint_DeepCopyInto, EndpointTy);
   (KeyCert_DeepCopyInto, KeyCertTy); (Etcd_DeepCopyInto, EtcdTy); (Kubernetes_DeepCopyInto, KubernetesTy);
   (Network_DeepCopyInto, NetworkTy); (ClusterSpec_DeepCopyInto, ClusterSpecTy); (Host_DeepCopyInto, HostTy);
   (ClusterStatus_DeepCopyInto, ClusterStatusTy); (Cluster_DeepCopyInto, ClusterTy);
   (MasterStatus_DeepCopyInto, MasterStatusTy); (Master_DeepCopyInto, MasterTy);
   (MasterList_DeepCopyInto, MasterListTy); (MasterSetSpec_DeepCopyInto, MasterSetSpecTy);
   (MasterSetStatus_DeepCopyInto, MasterSetStatusTy); (MasterSet_DeepCopyInto, MasterSetTy);
   (MasterSetList_DeepCopyInto, MasterSetListTy); (Context_DeepCopyInto, ContextTy);
   (ContextItem_DeepCopyInto, ContextItemTy); (ProviderItem_DeepCopyInto, ProviderItemTy);
   (ContextCFG_DeepCopyInto, ContextCFGTy); (OperatorFlag_DeepCopyInto, OperatorFlagTy);
   (WdripOptions_DeepCopyInto, WdripOptionsTy); (ClusterIdSpec_DeepCopyInto, ClusterIdSpecTy);
   (ClusterId_DeepCopyInto, ClusterIdTy); (Preempt_DeepCopyInto, PreemptTy);
   (CommandLineArgs_DeepCopyInto, CommandLineArgsTy); (CA_DeepCopyInto, CATy);
   (Immutable_DeepCopyInto, ImmutableTy); (ClusterList_DeepCopyInto, ClusterListTy);
   (BindID_DeepCopyInto, BindIDTy); (Infra_DeepCopyInto, InfraTy); (NodePoolSpec_DeepCopyInto, NodePoolSpecTy);
   (MemoryReservation_DeepCopyInto, MemoryReservationTy);
   (KubeletConfiguration_DeepCopyInto, KubeletConfigurationTy);
   (OSConfiguration_DeepCopyInto, OSConfigurationTy); (Config_DeepCopyInto, ConfigTy);
   (NodePoolStatus_DeepCopyInto, NodePoolStatusTy); (NodePool_DeepCopyInto, NodePoolTy);
   (NodePoolList_DeepCopyInto, NodePoolListTy); (Runtime_DeepCopyInto, RuntimeTy);
   (ConfigTpl_DeepCopyInto, ConfigTplTy); (Progress_DeepCopyInto, ProgressTy);
   (TaskStatus_DeepCopyInto, TaskStatusTy)].

(** ** Facts *)
Section type_induction.
Context (P : gty → Prop) (Hs : P Scalar) (Hp : ∀ t, P t → P (PtrT t)) (Hl : ∀ t, P t → P (SliceT t)).
Context (Hm : ∀ t, P t → P (MapT t)) (Ht : ∀ fs, Forall (λ ft, P ft.2) fs → P (StructT fs)) (He : ∀ n, P (ExtT n)).
Fixpoint gty_full_ind (t : gty) : P t :=
  match t with
  | Scalar => Hs
  | PtrT t => Hp t (gty_full_ind t)
  | SliceT t => Hl t (gty_full_ind t)
  | MapT t => Hm t (gty_full_ind t)
  | StructT fs => Ht fs ((fix go (fs : list (string * gty)) : Forall (λ ft, P ft.2) fs :=
                            match fs with
                            | [] => List.Forall_nil _
                            | ft :: fs => List.Forall_cons _ ft fs (gty_full_ind ft.2) (go fs)
                            end) fs)
  | ExtT n => He n
  end.
End type_induction.

Section how_induction.
Context (P : how → Prop) (Ha : P Assign) (Hi : ∀ p, Forall (λ fe, P fe.2) p → P (Into p)).
Context (Hn : ∀ e, P e → P (New e)) (Hk : ∀ e, P e → P (Make e)) (Hm : ∀ e, P e → P (MakeMap e)).
Context (He : ∀ n, P (ExtInto n)).
Fixpoint how_full_ind (e : how) : P e :=
  match e with
  | Assign => Ha
  | Into p => Hi p ((fix go (p : list (string * how)) : Forall (λ fe, P fe.2) p :=
                       match p with
                       | [] => List.Forall_nil _
                       | fe :: p => List.Forall_cons _ fe p (how_full_ind fe.2) (go p)
                       end) p)
  | New e => Hn e (how_full_ind e)
  | Make e => Hk e (how_full_ind e)
  | MakeMap e => Hm e (how_full_ind e)
  | ExtInto n => He n
  end.
End how_induction.

Section facts.
Context `{ExtTypes, !ExtTypesSpec}.

(** The fields of a struct with their types and what they are. *)
Definition fieldsRead (h : store) (fs : list (string * gty)) (vs : list (string * gval)) (ts : list (string * tree)) : Prop :=
  Forall3 (λ ft fv fx, ft.1 = fv.1 ∧ ft.1 = fx.1 ∧ reads ft.2 h fv.2 = Some fx.2) fs vs ts.

Lemma reads_struct fs h vs T :
  reads (StructT fs) h (GStruct vs) = Some T ↔ ∃ ts, T = LStruct ts ∧ fieldsRead h fs vs ts.
Proof.
  cbn [reads]. match goal with |- context [LStruct <$> ?x] => set (r := x) end.
  assert (∀ ts, r = Some ts ↔ fieldsRead h fs vs ts) as Hr.
  { unfold r, fieldsRead. clear r. revert vs. induction fs as [|ft fs IH]; intros [|fv vs] ts; cbn.
    - split; [intros [= <-]; constructor|by inversion 1].
    - split; [done|inversion 1].
    - split; [done|inversion 1].
    - case_decide as Hk; [|split; [done|inversion 1; naive_solver]].
      destruct (reads ft.2 h fv.2) as [x|] eqn:Ex; cbn; [|split; [done|inversion 1; naive_solver]].
      split.
      + intros Hb. apply bind_Some in Hb as (r & Hr & [= <-]). constructor; [done|by apply IH].
      + inversion 1 as [|? ? fx ? ? ts' (? & Hf & Hx) Hrest]; subst. apply IH in Hrest. rewrite Hrest. cbn.
        rewrite Hx in Ex. injection Ex as <-. destruct fx. cbn in *. by subst. }
  destruct r as [ts|]; cbn; split.
  - intros [= <-]. exists ts. split; [done|]. by apply Hr.
  - intros (ts' & -> & HF). by apply Hr in HF as [= <-].
  - done.
  - intros (ts' & -> & HF). by apply Hr in HF.
Qed.

(** The cells of the fields. *)
Definition fieldsReach (h : store) (fs : list (string * gty)) (vs : list (string * gval)) : list nat :=
  concat (zip_with (λ ft fv, reach ft.2 h fv.2) fs vs).
Lemma reach_struct fs h vs : reach (StructT fs) h (GStruct vs) = fieldsReach h fs vs.
Proof.
  cbn [reach]. unfold fieldsReach. revert vs. induction fs as [|ft fs IH]; intros [|fv vs]; [done..|].
  cbn. f_equal. apply IH.
Qed.

Lemma reads_map t h ws L :
  mapM (λ kv : string * gval, pair kv.1 <$> reads t h kv.2) ws = Some L ↔
  ∃ ts, L = zip ws.*1 ts ∧ mapM (reads t h) ws.*2 = Some ts.
Proof.
  revert L. induction ws as [|[k w] ws IH]; intros L; cbn.
  - split; [intros [= <-]; by exists []|]. by intros (ts & -> & [= <-]).
  - destruct (reads t h w) as [x|]; cbn; [|split; [done|by intros (ts & _ & ?)]].
    destruct (mapM (reads t h) ws.*2) as [ts|] eqn:E.
    + assert (mapM (λ kv : string * gval, pair kv.1 <$> reads t h kv.2) ws = Some (zip ws.*1 ts)) as -> by (apply IH; eauto).
      cbn. split; [intros [= <-]; by exists (x :: ts)|]. by intros (ts' & -> & [= <-]).
    + destruct (mapM (λ kv : string * gval, _) ws) as [L'|] eqn:E'.
      { destruct (proj1 (IH L') eq_refl) as (ts & _ & ?). done. }
      cbn. split; [done|]. by intros (ts & _ & ?).
Qed.

Lemma reach_pairs t h (ws : list (string * gval)) :
  flat_map (λ kv : string * gval, reach t h kv.2) ws = flat_map (reach t h) ws.*2.
Proof. induction ws as [|w ws IH]; [done|]. cbn. by f_equal. Qed.

(** What is not reached does not matter. *)
Lemma reads_frame t : ∀ h h' v T,
  reads t h v = Some T → (∀ l, l ∈ reach t h v → cells h' !! l = cells h !! l) →
  reads t h' v = Some T ∧ reach t h' v = reach t h v.
Proof.
  assert (∀ t, (∀ h h' v T, reads t h v = Some T → (∀ l, l ∈ reach t h v → cells h' !! l = cells h !! l) →
                 reads t h' v = Some T ∧ reach t h' v = reach t h v) →
          ∀ h h' ws ts, mapM (reads t h) ws = Some ts → (∀ l, l ∈ flat_map (reach t h) ws → cells h' !! l = cells h !! l) →
            mapM (reads t h') ws = Some ts ∧ flat_map (reach t h') ws = flat_map (reach t h) ws) as Hseq.
  { intros t0 IH h h' ws. induction ws as [|w ws IHw]; intros ts; cbn; [done|].
    intros Hb Hl. apply bind_Some in Hb as (x & Hx & Hb). apply bind_Some in Hb as (xs & Hxs & [= <-]).
    destruct (IH h h' w x Hx) as [-> ->]; [intros l Hin; apply Hl, elem_of_app; by left|].
    destruct (IHw xs Hxs) as [-> ->]; [intros l Hin; apply Hl, elem_of_app; by right|]. done. }
  induction t as [|t IH|t IH|t IH|fs IH|n] using gty_full_ind; intros h h' v T.
  - done.
  - destruct v as [| |l|]; try done. cbn [reads reach]. destruct (cells h !! l) as [c|] eqn:E; [|done].
    destruct c as [w| |]; try done. intros Hr Hl. rewrite (Hl l) by (by left). rewrite E.
    apply fmap_Some in Hr as (x & Hx & ->). destruct (IH h h' w x Hx) as [-> ->]; [|done].
    intros l' Hin. apply Hl. by right.
  - destruct v as [| |l|]; try done. cbn [reads reach]. destruct (cells h !! l) as [c|] eqn:E; [|done].
    destruct c as [|ws|]; try done. intros Hr Hl. rewrite (Hl l) by (by left). rewrite E.
    apply fmap_Some in Hr as (x & Hx & ->). destruct (Hseq t IH h h' ws x Hx) as [-> ->]; [|done].
    intros l' Hin. apply Hl. by right.
  - destruct v as [| |l|]; try done. cbn [reads reach]. destruct (cells h !! l) as [c|] eqn:E; [|done].
    destruct c as [| |ws]; try done. intros Hr Hl. rewrite (Hl l) by (by left). rewrite E.
    apply fmap_Some in Hr as (x & Hx & ->). apply reads_map in Hx as (ts & -> & Hts).
    rewrite !reach_pairs in *. destruct (Hseq t IH h h' ws.*2 ts Hts) as [Hts' ->]; [intros l' Hin; apply Hl; by right|].
    split; [|done]. assert (mapM (λ kv : string * gval, pair kv.1 <$> reads t h' kv.2) ws = Some (zip ws.*1 ts)) as ->
      by (apply reads_map; eauto). done.
  - destruct v as [| | |vs]; try done. rewrite !reach_struct. intros (ts & -> & HF)%reads_struct Hl.
    assert (fieldsRead h' fs vs ts ∧ fieldsReach h' fs vs = fieldsReach h fs vs) as [HF' ->];
      [|split; [apply reads_struct; eauto|done]].
    unfold fieldsRead, fieldsReach in *. induction HF as [|ft fv fx fs vs ts (Hk & Hk' & Hx) _ IHF]; [split; [constructor|done]|].
    inversion IH as [|? ? IHt IHfs]; subst. cbn in Hl |- *.
    destruct (IHt h h' fv.2 fx.2 Hx) as [Hx' ->]; [intros l Hin; apply Hl, elem_of_app; by left|].
    destruct IHF as [HF' ->]; [done|intros l Hin; apply Hl, elem_of_app; by right|]. split; [|done]. by constructor.
  - cbn [reads reach]. intros Hr Hl. apply fmap_Some in Hr as (x & Hx & ->).
    destruct (ext_frame n v h h' x Hx Hl) as [-> ->]. done.
Qed.

Lemma flat_map_Forall {A B} (P : B → Prop) (f : A → list B) l : Forall (λ x, Forall P (f x)) l → Forall P (flat_map f l).
Proof. induction 1; [constructor|]. cbn. by apply Forall_app_2. Qed.

(** All cells of a value are in its store. *)
Lemma reads_inside t : ∀ h v T, proper_store h → reads t h v = Some T → Forall (λ l, l < next h) (reach t h v).
Proof.
  assert (∀ t h ws ts,
            (∀ v T, reads t h v = Some T → Forall (λ l, l < next h) (reach t h v)) →
            mapM (reads t h) ws = Some ts → Forall (λ l, l < next h) (flat_map (reach t h) ws)) as Hseq.
  { intros t0 h ws ts IH Hm. apply flat_map_Forall. apply mapM_Some in Hm.
    induction Hm; constructor; eauto. }
  induction t as [|t IH|t IH|t IH|fs IH|n] using gty_full_ind; intros h v T Hh.
  - constructor.
  - destruct v as [| |l|]; try by (intros; constructor). cbn [reads reach]. destruct (cells h !! l) as [[w| |]|] eqn:E; try done.
    intros Hr. apply fmap_Some in Hr as (x & Hx & _). constructor; [by apply Hh; rewrite E|by eapply IH].
  - destruct v as [| |l|]; try by (intros; constructor). cbn [reads reach]. destruct (cells h !! l) as [[|ws|]|] eqn:E; try done.
    intros Hr. apply fmap_Some in Hr as (x & Hx & _). constructor; [by apply Hh; rewrite E|].
    eapply Hseq; [by eauto|done].
  - destruct v as [| |l|]; try by (intros; constructor). cbn [reads reach]. destruct (cells h !! l) as [[| |ws]|] eqn:E; try done.
    intros Hr. apply fmap_Some in Hr as (x & Hx & _). constructor; [by apply Hh; rewrite E|].
    apply reads_map in Hx as (ts & _ & Hts). apply flat_map_Forall. apply mapM_Some, Forall2_fmap_l in Hts.
    clear E. induction Hts; constructor; eauto.
  - destruct v as [| | |vs]; try done. rewrite reach_struct. intros (ts & -> & HF)%reads_struct.
    unfold fieldsRead, fieldsReach in *. induction HF as [|ft fv fx fs vs ts (_ & _ & Hx) _ IHF]; [constructor|].
    inversion IH; subst. cbn. apply Forall_app_2; eauto.
  - cbn [reads reach]. intros Hr. apply fmap_Some in Hr as (x & Hx & _). by eapply ext_inside.
Qed.

Lemma reads_grows t h h' v T : proper_store h → grows h h' → reads t h v = Some T →
  reads t h' v = Some T ∧ reach t h' v = reach t h v.
Proof.
  intros Hh [_ Hg] Hr. apply (reads_frame _ _ _ _ _ Hr). intros l Hl. apply Hg.
  pose proof (reads_inside _ _ _ _ Hh Hr) as HF. rewrite Forall_forall in HF. auto.
Qed.

Lemma plain_reach t : plainTy t = true → ∀ h v, reach t h v = [].
Proof.
  induction t as [|t IH|t IH|t IH|fs IH|n] using gty_full_ind; intros Hp h v; try done.
  destruct v as [| | |vs]; try done. rewrite reach_struct. unfold fieldsReach. cbn [plainTy] in Hp.
  revert vs Hp. induction IH as [|ft fs Hft _ IHfs]; intros [|fv vs]; try done. cbn. rewrite andb_true_iff.
  intros [H1 H2]. by rewrite Hft, IHfs.
Qed.

(** ** Deep copies *)

(** A copy that reads the same, in new cells only, of a store that is otherwise
    as it was. *)
Definition deepCopied (t : gty) (T : tree) (h : store) (r : gval * store) : Prop :=
  proper_store r.2 ∧ grows h r.2 ∧ reads t r.2 r.1 = Some T ∧ Forall (λ l, next h ≤ l) (reach t r.2 r.1).
Definition deep (e : how) (t : gty) : Prop :=
  ∀ v h T, proper_store h → reads t h v = Some T → deepCopied t T h (run e v h).

Lemma alloc_proper c h : proper_store h → proper_store (alloc c h).2 ∧ grows h (alloc c h).2.
Proof.
  intros Hh. split.
  - intros l. cbn. destruct (decide (l = next h)) as [->|Hne]; [lia|]. rewrite lookup_insert_ne by done.
    intros Hl%Hh. lia.
  - split; cbn; [lia|]. intros l Hl. rewrite lookup_insert_ne by lia. done.
Qed.

(** Allocation keeps what was read, and where. *)
Lemma reads_alloc t c h v T : proper_store h → reads t h v = Some T →
  reads t (alloc c h).2 v = Some T ∧ reach t (alloc c h).2 v = reach t h v.
Proof. intros Hh. apply reads_grows; [done|]. by apply alloc_proper. Qed.

Lemma mapM_grows t h h' ws ts : proper_store h → grows h h' → mapM (reads t h) ws = Some ts →
  mapM (reads t h') ws = Some ts ∧ flat_map (reach t h') ws = flat_map (reach t h) ws.
Proof.
  intros Hh Hg Hm. apply mapM_Some in Hm. rewrite mapM_Some.
  induction Hm as [|w T ws ts Hw _ [IH1 IH2]]; [split; [constructor|done]|].
  destruct (reads_grows _ _ _ _ _ Hh Hg Hw) as [H1 H2]. split; [by constructor|]. cbn. by rewrite H2, IH2.
Qed.

Lemma each_deep e t ws : deep e t → ∀ h ts, proper_store h → mapM (reads t h) ws = Some ts →
  let r := each (run e) ws h in
  proper_store r.2 ∧ grows h r.2 ∧ mapM (reads t r.2) r.1 = Some ts ∧
  Forall (λ l, next h ≤ l) (flat_map (reach t r.2) r.1) ∧ length r.1 = length ws.
Proof.
  intros He. induction ws as [|w ws IH]; intros h ts Hh Hm; cbn in *.
  { split_and!; [done|done|done|constructor|done]. }
  apply bind_Some in Hm as (x & Hx & Hm). apply bind_Some in Hm as (xs & Hxs & [= <-]).
  destruct (He w h x Hh Hx) as (Hh1 & Hg1 & Hr1 & Hf1). destruct (run e w h) as [w1 h1]. cbn [fst snd] in *.
  destruct (mapM_grows _ _ _ _ _ Hh Hg1 Hxs) as [Hxs1 _].
  destruct (IH h1 xs Hh1 Hxs1) as (Hh2 & Hg2 & Hr2 & Hf2 & Hlen). destruct (each (run e) ws h1) as [ws2 h2]. cbn [fst snd] in *.
  destruct (reads_grows _ _ _ _ _ Hh1 Hg2 Hr1) as [Hr1' Hreach].
  split_and!; [done|by etrans| | |cbn; lia].
  - cbn. rewrite Hr1'. cbn. by rewrite Hr2.
  - cbn. apply Forall_app_2; [by rewrite Hreach|]. eapply Forall_impl; [exact Hf2|]. cbn. destruct Hg1. lia.
Qed.

Lemma each_map_pairs e (ws : list (string * gval)) : ∀ h,
  each (λ kv h, let '(w, h) := run e kv.2 h in ((kv.1, w), h)) ws h =
  (zip ws.*1 (each (run e) ws.*2 h).1, (each (run e) ws.*2 h).2).
Proof.
  induction ws as [|[k w] ws IH]; intros h; [done|]. cbn. destruct (run e w h) as [w1 h1]. rewrite IH.
  by destruct (each (run e) ws.*2 h1).
Qed.

(** The loop over the statements of a method. *)
Fixpoint runFields (ins : list (string * gval)) (p : list (string * how)) (outs : list (string * gval)) (h : store)
    : list (string * gval) * store :=
  match p with
  | [] => (outs, h)
  | fe :: p =>
      match get_field fe.1 ins with
      | Some w => let '(w, h) := run fe.2 w h in runFields ins p (set_field fe.1 w outs) h
      | None => runFields ins p outs h
      end
  end.
Lemma run_into p ins h :
  run (Into p) (GStruct ins) h = (GStruct (runFields ins p ins h).1, (runFields ins p ins h).2).
Proof.
  cbn [run]. generalize ins at 2 4 6 as outs. revert h. induction p as [|fe p IH]; intros h outs; [done|]. cbn [runFields].
  destruct (get_field fe.1 ins) as [w|]; [|apply IH]. destruct (run fe.2 w h). apply IH.
Qed.

(** The fields copied so far, [seen], and those without references are in cells
    from [n] on; all read the same. *)
Definition copiedSoFar (n : nat) (seen : list string) (h : store) fs outs ts : Prop :=
  Forall3 (λ ft fv fx, ft.1 = fv.1 ∧ ft.1 = fx.1 ∧ reads ft.2 h fv.2 = Some fx.2 ∧
             (ft.1 ∈ seen ∨ plainTy ft.2 = true → Forall (λ l, n ≤ l) (reach ft.2 h fv.2))) fs outs ts.

Lemma copied_start h fs ins ts : fieldsRead h fs ins ts → copiedSoFar (next h) [] h fs ins ts.
Proof.
  intros HF. eapply Forall3_impl; [exact HF|]. intros ft fv fx (? & ? & ?). split_and!; try done.
  intros [Hd|Hp]; [by apply elem_of_nil in Hd|]. rewrite plain_reach by done. constructor.
Qed.

Lemma copied_step n seen h h1 fs outs ts f t x w :
  copiedSoFar n seen h fs outs ts → proper_store h → grows h h1 →
  Forall2 (λ ft fx, ft.1 = f → ft.2 = t ∧ fx.2 = x) fs ts →
  reads t h1 w = Some x → Forall (λ l, n ≤ l) (reach t h1 w) →
  copiedSoFar n (f :: seen) h1 fs (set_field f w outs) ts.
Proof.
  intros HF Hh Hg Hu Hw Hn. unfold copiedSoFar in *. induction HF as [|ft fv fx fs outs ts (Hk & Hk' & Hx & Hd) HF IH];
    [constructor|]. inversion Hu as [|? ? ? ? Hft Hu']; subst. cbn [set_field map]. constructor; [|by apply IH].
  destruct (decide (fv.1 = f)) as [Hf|Hf]; cbn [fst snd].
  - assert (ft.1 = f) as Hft1 by congruence. destruct (Hft Hft1) as [-> ->]. split_and!; [done|done|done|done].
  - destruct (reads_grows _ _ _ _ _ Hh Hg Hx) as [Hx' Hr]. split_and!; [done|done|done|]. rewrite Hr.
    intros [Hin|Hp]; [|by apply Hd; right]. apply Hd. left. apply elem_of_cons in Hin as [Hin|Hin]; [congruence|done].
Qed.

Lemma field_found h fs ins ts f t :
  fieldsRead h fs ins ts → NoDup fs.*1 → typeOfField f fs = Some t →
  ∃ w x, get_field f ins = Some w ∧ reads t h w = Some x ∧
         Forall2 (λ ft fx, ft.1 = f → ft.2 = t ∧ fx.2 = x) fs ts.
Proof.
  unfold typeOfField, get_field. induction 1 as [|ft fv fx fs ins ts (Hk & Hk' & Hx) HF IH]; [done|].
  cbn. intros [Hne Hn]%NoDup_cons. rewrite <- Hk. case_bool_decide as Hf; cbn.
  - intros [= <-]. exists fv.2, fx.2. split_and!; [done|done|]. constructor; [done|].
    clear -HF Hne Hf. induction HF as [|ft' fv' fx' fs ins ts _ _ IH]; [constructor|].
    cbn in Hne. rewrite not_elem_of_cons in Hne. destruct Hne as [Hne1 Hne2]. constructor; [|by apply IH].
    intros Hf'. congruence.
  - intros Ht. destruct (IH Hn Ht) as (w & x & Hw & Hr & HF2). exists w, x. split_and!; [done|done|].
    by constructor.
Qed.

Lemma runFields_deep fs ins ts h0 p :
  proper_store h0 → fieldsRead h0 fs ins ts → NoDup fs.*1 →
  Forall (λ fe, ∃ t, typeOfField fe.1 fs = Some t ∧ deep fe.2 t) p →
  ∀ seen outs h, proper_store h → grows h0 h → copiedSoFar (next h0) seen h fs outs ts →
  let r := runFields ins p outs h in
  proper_store r.2 ∧ grows h0 r.2 ∧ copiedSoFar (next h0) (rev p.*1 ++ seen) r.2 fs r.1 ts.
Proof.
  intros Hh0 Hins Hn. induction 1 as [|fe p (t & Ht & Hdeep) _ IH]; intros seen outs h Hh Hg HF; [done|]. cbn [runFields].
  destruct (field_found _ _ _ _ _ _ Hins Hn Ht) as (w & x & -> & Hw & Hu).
  destruct (reads_grows _ _ _ _ _ Hh0 Hg Hw) as [Hw' _].
  destruct (Hdeep w h x Hh Hw') as (Hh1 & Hg1 & Hr1 & Hf1). destruct (run fe.2 w h) as [w1 h1]. cbn [fst snd] in *.
  assert (copiedSoFar (next h0) (fe.1 :: seen) h1 fs (set_field fe.1 w1 outs) ts) as HF1.
  { eapply copied_step; [done..|]. eapply Forall_impl; [exact Hf1|]. cbn. destruct Hg. lia. }
  destruct (IH (fe.1 :: seen) (set_field fe.1 w1 outs) h1 Hh1 (transitivity Hg Hg1) HF1) as (H1 & H2 & H3).
  split; [exact H1|]. split; [exact H2|]. cbn [fmap list_fmap rev]. rewrite <- app_assoc. exact H3.
Qed.

Lemma deep_into p fs :
  NoDup fs.*1 → Forall (λ ft, ft.1 ∈ p.*1 ∨ plainTy ft.2 = true) fs →
  Forall (λ fe, ∃ t, typeOfField fe.1 fs = Some t ∧ deep fe.2 t) p → deep (Into p) (StructT fs).
Proof.
  intros Hn Hall Hp v h T Hh Hr. destruct v as [| | |ins]; try done.
  apply reads_struct in Hr as (ts & -> & HF). rewrite run_into.
  destruct (runFields_deep fs ins ts h p Hh HF Hn Hp [] ins h Hh (reflexivity h) (copied_start _ _ _ _ HF)) as (H1 & H2 & H3).
  rewrite app_nil_r in H3. unfold deepCopied. cbn [fst snd]. split_and!; [done|done| |].
  - apply reads_struct. exists ts. split; [done|]. eapply Forall3_impl; [exact H3|]. naive_solver.
  - rewrite reach_struct. unfold fieldsReach, copiedSoFar in *. clear HF Hn Hp H1 H2.
    generalize dependent (runFields ins p ins h). intros [outs h'] H3. cbn [fst snd] in *.
    induction H3 as [|ft fv fx fs outs ts (_ & _ & _ & Hd) HF IHF]; [constructor|]. inversion Hall as [|? ? Hft Hfs]; subst.
    cbn. apply Forall_app_2; [|by apply IHF]. apply Hd. destruct Hft as [Hin|Hpl]; [left|by right].
    by rewrite list_elem_of_In, <- in_rev, <- list_elem_of_In.
Qed.

(** A cell allocated for a copy: what it holds was copied before. *)
Lemma deep_cell t h h1 c x :
  proper_store h1 → grows h h1 → reads t (alloc c h1).2 (GRef (next h1)) = Some x →
  Forall (λ l, next h ≤ l) (reach t (alloc c h1).2 (GRef (next h1))) → deepCopied t x h (alloc c h1).
Proof.
  intros H1 H2 Hr Hf. destruct (alloc_proper c h1 H1) as [Ha Hg]. split; [done|]. split; [by etrans|]. done.
Qed.

Lemma deep_new e t : deep e t → deep (New e) (PtrT t).
Proof.
  intros He v h T Hh Hr. destruct v as [| |l|]; try done.
  cbn [reads] in Hr. cbn [run]. destruct (cells h !! l) as [[w| |]|]; try done. apply fmap_Some in Hr as (x & Hx & ->).
  destruct (He w h x Hh Hx) as (H1 & H2 & H3 & H4). destruct (run e w h) as [w1 h1]. cbn [fst snd] in *.
  destruct (reads_alloc t (CPtr w1) h1 w1 x H1 H3) as [Hr' Hreach]. apply deep_cell; [done|done|..];
    cbn [reads reach alloc snd cells] in *; rewrite lookup_insert_eq; [by rewrite Hr'|].
  rewrite Hreach. constructor; [|done]. destruct H2. lia.
Qed.

Lemma deep_make e t : deep e t → deep (Make e) (SliceT t).
Proof.
  intros He v h T Hh Hr. destruct v as [| |l|]; try done.
  cbn [reads] in Hr. cbn [run]. destruct (cells h !! l) as [[|ws|]|]; try done. apply fmap_Some in Hr as (x & Hx & ->).
  destruct (each_deep e t ws He h x Hh Hx) as (H1 & H2 & H3 & H4 & _).
  destruct (each (run e) ws h) as [ws1 h1]. cbn [fst snd] in *. destruct (alloc_proper (CSlice ws1) h1 H1) as [_ Hg].
  destruct (mapM_grows t h1 _ ws1 x H1 Hg H3) as [Hr' Hreach]. apply deep_cell; [done|done|..];
    cbn [reads reach alloc snd cells] in *; rewrite lookup_insert_eq; [by rewrite Hr'|].
  rewrite Hreach. constructor; [|done]. destruct H2. lia.
Qed.

Lemma deep_makemap e t : deep e t → deep (MakeMap e) (MapT t).
Proof.
  intros He v h T Hh Hr. destruct v as [| |l|]; try done.
  cbn [reads] in Hr. cbn [run]. destruct (cells h !! l) as [[| |ws]|]; try done. apply fmap_Some in Hr as (x & Hx & ->).
  apply reads_map in Hx as (ts & -> & Hts). rewrite each_map_pairs.
  destruct (each_deep e t ws.*2 He h ts Hh Hts) as (H1 & H2 & H3 & H4 & Hlen).
  destruct (each (run e) ws.*2 h) as [ws1 h1]. cbn [fst snd] in *. rewrite length_fmap in Hlen.
  set (kvs := zip ws.*1 ws1). assert (kvs.*1 = ws.*1 ∧ kvs.*2 = ws1) as [Hk1 Hk2].
  { split; [apply fst_zip|apply snd_zip]; rewrite length_fmap; lia. }
  destruct (alloc_proper (CMap kvs) h1 H1) as [_ Hg]. destruct (mapM_grows t h1 _ ws1 ts H1 Hg H3) as [Hr' Hreach].
  apply deep_cell; [done|done|..]; cbn [reads reach alloc snd cells] in *; rewrite lookup_insert_eq.
  - match goal with |- LMap <$> ?m = _ => assert (m = Some (zip ws.*1 ts)) as ->; [|done] end.
    apply reads_map. exists ts. by rewrite Hk1, Hk2.
  - constructor; [destruct H2; lia|]. rewrite reach_pairs, Hk2, Hreach. done.
Qed.

(** Every statement list that fits a type copies deeply. *)
Lemma run_deep e : ∀ t, fits e t = true → deep e t.
Proof.
  induction e as [|p IH|e IH|e IH|e IH|n] using how_full_ind; intros t Hfit; destruct t as [|t|t|t|fs|m]; try done;
    cbn [fits] in Hfit.
  - intros v h T Hh Hr. split_and!; [done|done|done|]. by rewrite plain_reach.
  - rewrite !andb_true_iff, !bool_decide_eq_true, !forallb_forall in Hfit. destruct Hfit as [[[_ Hn] Hall] Hp].
    apply deep_into; [done|..]; apply Forall_forall.
    + intros ft Hft%list_elem_of_In. specialize (Hall ft Hft). by rewrite orb_true_iff, bool_decide_eq_true in Hall.
    + intros fe Hfe. rewrite Forall_forall in IH. specialize (Hp fe (proj1 (list_elem_of_In _ _) Hfe)).
      destruct (typeOfField fe.1 fs) as [t|]; [|done]. exists t. split; [done|]. by apply IH.
  - by apply deep_new, IH.
  - by apply deep_make, IH.
  - by apply deep_makemap, IH.
  - apply bool_decide_eq_true in Hfit as <-. intros v h T Hh Hr. cbn [reads run] in *.
    apply fmap_Some in Hr as (x & Hx & ->). pose proof (ext_deep n v h x Hh Hx) as Hd.
    destruct (ext_copy n v h) as [v' h']. destruct Hd as (H1 & H2 & H3 & H4). split_and!; [done|done| |].
    + cbn. by rewrite H3.
    + cbn. eapply Forall_impl; [exact H4|]. cbn. lia.
Qed.
End facts.

(** All of them fit. *)
Lemma methods_fit : forallb (λ m, fits m.1 m.2) methods = true.
Proof. by vm_compute. Qed.

(** What is assigned through a pointer: a cell gets another content. *)
Definition assign (l : nat) (c : cell) (h : store) : store := MkStore (next h) (<[l := c]> (cells h)).

Section independence.
Context `{ExtTypes, !ExtTypesSpec}.

(** C19: [DeepCopy] of any API object gives an object that reads the same, leaves
    the original and the rest of the store as they were, and shares nothing with
    the original: whatever is assigned to a cell of the copy, the original reads
    as before, and the other way round. *)
Theorem DeepCopy_independent p t v h T :
  (p, t) ∈ methods → proper_store h → reads (PtrT t) h v = Some T →
  ∃ v' h', DeepCopy p v h = (v', h') ∧ grows h h' ∧
    reads (PtrT t) h' v' = Some T ∧ reads (PtrT t) h' v = Some T ∧
    (∀ l c, l ∈ reach (PtrT t) h' v' → reads (PtrT t) (assign l c h') v = Some T) ∧
    (∀ l c, l ∈ reach (PtrT t) h' v → reads (PtrT t) (assign l c h') v' = Some T).
Proof.
  intros Hm Hh Hr. pose proof methods_fit as Hfit. rewrite forallb_forall in Hfit.
  specialize (Hfit (p, t) (proj1 (list_elem_of_In _ _) Hm)).
  destruct (run_deep (New p) (PtrT t) Hfit v h T Hh Hr) as (H1 & H2 & H3 & H4).
  unfold DeepCopy. destruct (run (New p) v h) as [v' h'] eqn:E. cbn [fst snd] in *. exists v', h'.
  destruct (reads_grows _ _ _ _ _ Hh H2 Hr) as [Hr' Hreach].
  pose proof (reads_inside _ _ _ _ Hh Hr) as Hin. rewrite <- Hreach in Hin. rewrite Forall_forall in H4, Hin.
  assert (∀ a b l c, reads (PtrT t) h' a = Some T → l ∈ reach (PtrT t) h' b →
            (∀ x, x ∈ reach (PtrT t) h' a → x ≠ l) → reads (PtrT t) (assign l c h') a = Some T) as Hkeep.
  { intros a b l c Ha _ Hne. apply (reads_frame _ h' _ _ _ Ha). intros x Hx. cbn. rewrite lookup_insert_ne; [done|].
    intros <-. by apply (Hne l). }
  split; [done|]. split; [done|]. split; [done|]. split; [done|]. split.
  - intros l c Hl. eapply Hkeep; [done|exact Hl|]. intros x Hx ->. specialize (H4 l Hl). specialize (Hin l Hx). cbn in *. lia.
  - intros l c Hl. eapply Hkeep; [done|exact Hl|]. intros x Hx ->. specialize (H4 l Hx). specialize (Hin l Hl). cbn in *. lia.
Qed.

(** A nil object is copied to nil, and nothing is allocated. *)
Lemma DeepCopyObject_nil p h : DeepCopyObject p GNil h = (GNil, h).
Proof. done. Qed.

Lemma DeepCopyObject_eq p v h : DeepCopyObject p v h = DeepCopy p v h.
Proof. unfold DeepCopyObject. by destruct (DeepCopy p v h) as [[] h']. Qed.
End independence.

(** ** Metadata without references, for evaluation *)
Module SimMeta.
#[export] Instance plain_meta : ExtTypes := {|
  ext_tree _ _ v := match v with GPlain s => Some s | _ => None end;
  ext_reach _ _ _ := [];
  ext_copy _ v h := (v, h) |}.
#[export] Instance plain_meta_spec : ExtTypesSpec.
Proof.
  split.
  - intros n v h x Hh Hx. cbn. split_and!; [done|done|done|constructor].
  - done.
  - intros. constructor.
Qed.

(** A provider with its settings, and a context that names it. *)
Definition store0 : store :=
  MkStore 3 {[ 0 := CPtr (GStruct [("Name", GPlain "alibaba"); ("Value", GRef 1)]);
               1 := CSlice [GPlain "123"; GPlain "125"];
               2 := CPtr (GStruct [("Name", GPlain "p"); ("Provider", GRef 0)]) ]}.
End SimMeta.

Import SimMeta.

Lemma DeepCopy_independent_witness :
  ∃ v' h', ProviderItem_DeepCopy (GRef 2) SimMeta.store0 = (v', h') ∧
    reads (PtrT ProviderItemTy) h' v' = reads (PtrT ProviderItemTy) SimMeta.store0 (GRef 2) ∧
    reads (PtrT ProviderItemTy) (assign 1 (CSlice []) h') v' =
      reads (PtrT ProviderItemTy) SimMeta.store0 (GRef 2).
Proof.
  destruct (reads (PtrT ProviderItemTy) SimMeta.store0 (GRef 2)) as [T|] eqn:E; [|vm_compute in E; discriminate].
  destruct (DeepCopy_independent ProviderItem_DeepCopyInto ProviderItemTy (GRef 2) SimMeta.store0 T)
    as (v' & h' & Hc & _ & Hr & _ & _ & Ho).
  - apply (list_elem_of_lookup_2 _ 27). vm_compute. reflexivity.
  - intros l [c Hc]. destruct (decide (l < 3)) as [Hlt|Hge]; [exact Hlt|]. exfalso.
    assert (cells SimMeta.store0 !! l = None) as Hn by (cbn; simplify_map_eq by lia; done).
    rewrite Hn in Hc. discriminate.
  - exact E.
  - exists v', h'. split; [exact Hc|]. split; [exact Hr|]. apply Ho.
    vm_compute in Hc. injection Hc as <- <-. vm_compute. right. right. left.
Defined.
