(* ===== verification/Sdk.v ===== *)
(** * The cloud provider's SDK

    The requests pkg/iaas/provider/alibaba makes through the clients of
    alibaba-cloud-sdk-go (ESS: scaling groups, ECS: machines) and aliyungo (ROS:
    resource stacks, OSS: object storage), with the fields the code sets, and the
    parts of the responses it reads. *)
From stdpp Require Import base list gmap strings.
From S2P Require Import Prelude GoStrings GoTime.

(** A Go [interface{}] holding one of the values the code stores in it. *)
Inductive any : Type :=
| AStr (s : string)
| ANil
| AOther (desc : string).

Record EssGroup : Type := MkEssGroup { eg_Id : string; eg_VpcId : string }.

Record EcsInstance : Type := MkEcsInstance {
  ei_InstanceId : string;
  ei_RegionId : string;
  ei_IpAddress : list string;
  ei_CreationTime : string;
  ei_Status : string;
  ei_Tags : list (string * string);
  ei_ImageId : string;
  ei_KeyPairName : string }.

Record EssRule : Type := MkEssRule {
  er_Ari : string;
  er_Id : string;
  er_GroupId : string;
  er_Name : string }.

Record EcsInvocation : Type := MkEcsInvocation { iv_Id : string; iv_CommandId : string; iv_Status : string }.

(** One record of an invocation: its status and its output, in base64. *)
Record EcsResult : Type := MkEcsResult { ir_Status : string; ir_Output : string }.

Record ScalingConfig : Type := MkScalingConfig {
  sc_Name : string;
  sc_SecurityGroupId : string;
  sc_RamRoleName : string;
  sc_ImageId : string;
  sc_UserData : string;
  sc_Cpu : Z;
  sc_Memory : Z;
  sc_Tags : string }.

Record RosEvent : Type := MkRosEvent {
  ev_CreateTime : string;
  ev_EventId : string;
  ev_LogicalResourceId : string;
  ev_ResourceType : string;
  ev_StackName : string;
  ev_Status : string;
  ev_StatusReason : string }.

(** A stack: name, status, reason and outputs (key and value). *)
Record RosStack : Type := MkRosStack {
  rst_Name : string;
  rst_Status : string;
  rst_StatusReason : string;
  rst_Outputs : list (string * any) }.

Inductive sdk : Type :=
(* ESS *)
| ModifyScalingConfiguration (id userdata : string)
| DescribeScalingGroups (region : string) (ids : list string) (name : string)
| DescribeScalingInstances (region gid : string)
| DescribeScalingActivities (region gid status : string)
| DescribeScalingRules (region : string) (ids : list string) (gid : string)
| ModifyScalingRule (region id adjustment : string) (value : Z)
| CreateScalingRule (region gid name adjustment : string) (value : Z)
| ExecuteScalingRule (ari : string)
| RemoveInstances (gid : string) (ids : list string)
| CreateScalingGroup (region name : string) (vswitches : list string) (min max desired : Z)
| DescribeScalingConfigurations (region gid name : string)
| CreateScalingConfiguration (region gid : string) (cfg : ScalingConfig)
| EnableScalingGroup (gid cfg : string)
| ModifyScalingGroup (gid : string) (desired : Z)
| DeleteScalingGroup (region gid : string) (force : bool)
(* ECS *)
| DescribeInstances (region : string) (ids : list string)
| DescribeInstanceAttribute (id : string)
| StopInstance (id : string) (force : bool)
| StartInstance (id : string)
| ModifyInstanceAttribute (id userdata : string)
| SdkReplaceSystemDisk (id image : string)
| AttachKeyPair (region name : string) (ids : list string)
| UntagResources (region id : string) (keys : list string)
| TagResources (region id : string) (tags : list (string * string))
| DescribeInvocations (region id status type : string)
| SdkRunCommand (id content : string)
| DescribeInvocationResults (id invoke : string)
| DeleteInstance (region id : string) (force : bool)
| DescribeVSwitches (region id : string)
(* ROS *)
| ListStacks (region : string) (names : list string)
| GetStack (region id : string)
| ListStackResources (region id : string)
| CreateStack (region name template : string) (disableRollback : bool) (timeout : Z)
    (params : list (string * string))
| DeleteStack (id : string)
| ListStackEvents (region id : string) (page : Z)
(* OSS *)
| BucketInfo (bucket : string)
| PutBucket (bucket : string)
| BucketGet (bucket path : string)
| BucketGetReader (bucket path : string)
| BucketPutFile (bucket path src : string)
| BucketPut (bucket path data : string)
| BucketDel (bucket path : string)
| BucketList (bucket prefix : string) (max : Z).

Definition sdk_reply (c : sdk) : Type :=
  match c with
  | ModifyScalingConfiguration _ _ | ModifyScalingRule _ _ _ _ | ExecuteScalingRule _
  | RemoveInstances _ _ | EnableScalingGroup _ _ | ModifyScalingGroup _ _ | DeleteScalingGroup _ _ _
  | StopInstance _ _ | StartInstance _ | ModifyInstanceAttribute _ _ | SdkReplaceSystemDisk _ _
  | AttachKeyPair _ _ _ | UntagResources _ _ _ | TagResources _ _ _ | DeleteInstance _ _ _
  | DeleteStack _ | BucketInfo _ | PutBucket _ | BucketPutFile _ _ _
  | BucketPut _ _ _ | BucketDel _ _ => error
  | DescribeScalingGroups _ _ _ => (list EssGroup * error)%type
  | DescribeScalingInstances _ _ => (list string * error)%type
  | DescribeScalingActivities _ _ _ => (nat * error)%type
  | DescribeScalingRules _ _ _ => (list EssRule * error)%type
  | CreateScalingRule _ _ _ _ _ => (string * string * error)%type
  | CreateScalingGroup _ _ _ _ _ _ => (string * error)%type
  | DescribeScalingConfigurations _ _ _ => (list string * error)%type
  | CreateScalingConfiguration _ _ _ => (string * error)%type
  | DescribeInstances _ _ => (list EcsInstance * error)%type
  | DescribeInstanceAttribute _ => (string * error)%type
  | DescribeInvocations _ _ _ _ => (Z * list EcsInvocation * error)%type
  | SdkRunCommand _ _ => (string * error)%type
  | DescribeInvocationResults _ _ => (string * list EcsResult * error)%type
  | DescribeVSwitches _ _ => (list string * error)%type
  | ListStacks _ _ => (list (string * string) * error)%type
  | GetStack _ _ => (RosStack * error)%type
  | ListStackResources _ _ => (list (string * string) * error)%type
  | CreateStack _ _ _ _ _ _ => (string * error)%type
  | ListStackEvents _ _ _ => (list RosEvent * option Z * error)%type
  | BucketGet _ _ | BucketGetReader _ _ => (string * error)%type
  | BucketList _ _ _ => (list string * error)%type
  end.

(** Success with empty values. *)
Definition sdk_quiet (c : sdk) : sdk_reply c :=
  match c with
  | ModifyScalingConfiguration _ _ | ModifyScalingRule _ _ _ _ | ExecuteScalingRule _
  | RemoveInstances _ _ | EnableScalingGroup _ _ | ModifyScalingGroup _ _ | DeleteScalingGroup _ _ _
  | StopInstance _ _ | StartInstance _ | ModifyInstanceAttribute _ _ | SdkReplaceSystemDisk _ _
  | AttachKeyPair _ _ _ | UntagResources _ _ _ | TagResources _ _ _ | DeleteInstance _ _ _
  | DeleteStack _ | BucketInfo _ | PutBucket _ | BucketPutFile _ _ _
  | BucketPut _ _ _ | BucketDel _ _ => None
  | DescribeScalingGroups _ _ _ => ([], None)
  | DescribeScalingInstances _ _ => ([], None)
  | DescribeScalingActivities _ _ _ => (0, None)
  | DescribeScalingRules _ _ _ => ([], None)
  | CreateScalingRule _ _ _ _ _ => ("", "", None)
  | CreateScalingGroup _ _ _ _ _ _ => ("", None)
  | DescribeScalingConfigurations _ _ _ => ([], None)
  | CreateScalingConfiguration _ _ _ => ("", None)
  | DescribeInstances _ _ => ([], None)
  | DescribeInstanceAttribute _ => ("", None)
  | DescribeInvocations _ _ _ _ => (0%Z, [], None)
  | SdkRunCommand _ _ => ("", None)
  | DescribeInvocationResults _ _ => ("", [], None)
  | DescribeVSwitches _ _ => ([], None)
  | ListStacks _ _ => ([], None)
  | GetStack _ _ => (MkRosStack "" "" "" [], None)
  | ListStackResources _ _ => ([], None)
  | CreateStack _ _ _ _ _ _ => ("", None)
  | ListStackEvents _ _ _ => ([], None, None)
  | BucketGet _ _ | BucketGetReader _ _ => ("", None)
  | BucketList _ _ _ => ([], None)
  end.
