(* ===== verification/Effects.v ===== *)
(** * The outside world

    What the program calls and does not implement: the Kubernetes API through
    controller-runtime's client, the node drainer, commands, files, the clock,
    the random source, and, for the code written against [provider.Interface],
    the cloud provider.  Each such call is a value of [call]; an environment
    answers it from a world state of any type, and every call made is appended
    to a log.  Theorems quantify over the world and the environment, and speak
    about results and about the calls made.

    The data types of pkg/iaas/provider/provider.go are here too, since the
    calls carry them, and the polling functions of
    k8s.io/apimachinery/pkg/util/wait as a class with their documented laws. *)
From stdpp Require Import base list gmap strings.
From Stdlib Require Import Lia.
From S2P Require Import Prelude GoStrings GoTime Api Sdk.

(** ** pkg/iaas/provider/provider.go: data *)

(** [type Value struct { Key string; Val interface{} }] *)
Record Value : Type := MkValue { v_Key : string; v_Val : any }.
Definition zeroValue : Value := MkValue "" ANil.

(** [type Option struct { Action string; Value Value }] *)
Record Option : Type := MkOption { o_Action : string; o_Value : Value }.

(** [type Result struct { Status, OutPut string }] *)
Record Result : Type := MkResult { r_Status : string; r_OutPut : string }.

(** [type Instance struct {...}] (the [GetNodeName] hook is never set). *)
Record Instance : Type := MkInstance {
  i_Region : string;
  i_Id : string;
  i_Ip : string;
  i_Tags : list Value;
  i_CreatedAt : string;
  i_UpdatedAt : string;
  i_Status : string }.

#[global] Instance any_eq_dec : EqDecision any.
Proof. solve_decision. Defined.
#[global] Instance Value_eq_dec : EqDecision Value.
Proof. solve_decision. Defined.
#[global] Instance Instance_eq_dec : EqDecision Instance.
Proof. solve_decision. Defined.

(** [type ScaleGroupDetail struct { GroupId string; Instances map[string]Instance }] *)
Record ScaleGroupDetail : Type := MkScaleGroupDetail {
  sg_GroupId : string;
  sg_Instances : gmap string Instance }.

Definition MasterUserdata : string := "Master".
Definition WorkerUserdata : string := "Worker".
Definition RecoverUserdata : string := "Recover".
Definition JoinMasterUserdata : string := "JoinMaster".

(** [provider.Context] is a [sync.Map]; the keys the code uses are fields.  The
    outer option says whether the key was stored; for ["BootCFG"] the inner one
    is the stored pointer. *)
Record Context_ : Type := MkContext {
  x_BootCFG : option (option ClusterSpec);
  x_WdripOptions : option WdripOptions;
  x_Stack : option (gmap string Value);
  x_Provider : bool }.

(** ** Calls *)
Inductive kind : Type :=
| KNode | KMaster | KCluster | KMasterSet | KNodePool | KDeployment.

Definition obj (k : kind) : Type :=
  match k with
  | KNode => Node
  | KMaster => Master
  | KCluster => Cluster
  | KMasterSet => MasterSet
  | KNodePool => NodePool
  | KDeployment => Deployment
  end.

(** An object handed to Create, Delete or Patch. *)
Inductive object : Type :=
| ONode (n : Node)
| OMaster (m : Master)
| OCluster (c : Cluster)
| OMasterSet (m : MasterSet)
| ONodePool (n : NodePool)
| ODeployment (d : Deployment).

(** The object of a kind as an [object], and its metadata. *)
Definition to_object (k : kind) : obj k → object :=
  match k with
  | KNode => ONode
  | KMaster => OMaster
  | KCluster => OCluster
  | KMasterSet => OMasterSet
  | KNodePool => ONodePool
  | KDeployment => ODeployment
  end.
Definition obj_meta (k : kind) : obj k → ObjectMeta :=
  match k with
  | KNode => n_Meta
  | KMaster => m_Meta
  | KCluster => cl_Meta
  | KMasterSet => mset_Meta
  | KNodePool => np_Meta
  | KDeployment => dp_Meta
  end.

(** crypto/x509, as far as pkg/utils/sign fills it in.  A private key is its
    PKCS#1 (RSA) or SEC 1 (EC) encoding; an [net.IP] the address text. *)
Record Certificate : Type := MkCertificate {
  x_CommonName : string;
  x_Organization : list string;
  x_DNSNames : list string;
  x_IPAddresses : list (option string);
  x_SerialNumber : Z;
  x_NotBefore : Z;
  x_NotAfter : Z;
  x_KeyUsage : list string;
  x_ExtKeyUsage : list string;
  x_BasicConstraintsValid : bool;
  x_IsCA : bool }.
Inductive PrivateKey : Type :=
| RSAKey (der : string)
| ECKey (der : string).

(** [gcmd.Status] of a finished command. *)
Record CmdStatus : Type := MkCmdStatus {
  c_Exit : Z;
  c_Error : error;
  c_Stdout : list string;
  c_Stderr : list string }.

(** What [os.Stat] says about a path. *)
Inductive stat : Type :=
| StatOk
| StatNotExist
| StatErr (e : goerr).

(** A pod to evict: namespace and name. *)
Abbreviation pod := (string * string)%type.

(** A custom resource definition; the subresources are the status flag and
    whether there is a scale configuration. *)
Record CustomResourceDefinition : Type := MkCRD {
  crd_Name : string;
  crd_Group : string;
  crd_Version : string;
  crd_Scope : string;
  crd_Plural : string;
  crd_Kind : string;
  crd_ShortNames : list string;
  crd_Categories : list string;
  crd_Subresources : option (bool * bool) }.

(** What comes of an HTTP request: an error of the client, or a status with the
    body as far as it could be read (the flag says whether an error of reading
    is one of the transient ones).  The reply to a request also tells what is
    left of the reader given as the request's body. *)
Inductive http_result : Type :=
| HttpError (e : goerr)
| HttpAnswer (status : Z) (body : string) (read_err : option (goerr * bool)).

(** Why the API server refused a request, as far as the code asks. *)
Inductive reason : Type := OtherReason | Conflict | Invalid | AlreadyExists.
Record apierr : Type := ApiErr { ae_err : goerr; ae_reason : reason }.

(** Which cluster a REST client talks to: the one it runs in, or that of a
    kubeconfig file. *)
Inductive getter : Type := InCluster | FromConfig (file : string).

(** [resource.Info] as the builder yields it: what it was read from, its kind
    (the REST mapping), where it goes and what it is. *)
Record Info : Type := MkInfo {
  ri_Source : string;
  ri_Kind : string;
  ri_Namespace : string;
  ri_Name : string;
  ri_Object : json }.

Inductive call : Type :=
(* clock, randomness, process environment *)
| Now
| Sleep (d : Z)
| RandIntn (n : Z)
| Getenv (k : string)
(* files *)
| Stat (f : string)
| MkdirAll (d : string)
| WriteFile (f content : string)
| ReadFile (f : string)
| Rename (a b : string)
| RemoveAll (d : string)
| OpenFile (f : string) (create : bool)
| Overwrite (f data : string)  (* from the start of the file, not truncating it *)
| ReadDir (d : string)  (* names, and whether they are directories *)
| Remove (f : string)
| UnTar (dst src : string)  (* tarinator-go *)
(* libraries that draw identities *)
| GenerateBootstrapToken
| GenerateUUID
(* apiextensions: the client from a kubeconfig file, and its operations; the
   flag of a failed creation says that the definition exists already *)
| BuildConfigFromFlags (file : string)
| NewApiext
| ServerVersion
| CrdCreate (c : CustomResourceDefinition)
| CrdGet (name : string)
| CrdDelete (name : string)
(* net/http: a request *)
| Http (verb url : string) (body : option string)
(* crypto/rand, crypto/rsa, crypto/x509 *)
| CryptoRandInt (max : Z)
| GenerateKey (bits : Z)
| CreateCertificate (tmpl parent : Certificate) (pub priv : string)
(* commands: name, arguments, extra environment *)
| Run (name : string) (args env : list string)
(* Kubernetes API *)
| KGet (k : kind) (ns name : string)
| KList (k : kind) (selector : option (string * string))
| KCreate (o : object)
| KDelete (o : object)
| KPatch (o : object)
| KStatusPatch (o : object)
(* objects of any kind, through kubectl's resource builder, helper and dynamic
   client; client-go's typed clients for config maps, secrets and namespaces *)
| LoadKubeconfig (file : string)  (* whether there is a configuration *)
| ResValidator (g : getter)
| ResNamespace (g : getter)
| ResBuild (g : getter) (ns yml : string)
| ResDynamic (g : getter)
| ResGet (kind ns name : string)
| ResPatch (kind ns name : string) (strategic : bool) (patch : string)
| ResCreate (kind ns : string) (o : json)
| ResUpdate (kind ns : string) (o : json)
| ResDelete (kind ns name : string) (grace : option Z) (foreground : bool)
| ResList (kind selector : string)
(* controller-runtime and the http listener, by what is asked of them *)
| Manager (step : string)
| Listen (addr : string)
(* kubectl drain helper *)
| DrainCordon (n : Node) (cordon : bool)
| DrainGetPods (node : string)
| DrainEvict (pods : list pod)
(* provider.Interface *)
| PGetStackOutPuts (ctx : Context_) (id : ClusterId)
| PGetInfraStack (ctx : Context_) (id : ClusterId)
| PVSwitchs (ctx : Context_)
| PModifyScalingConfig (ctx : Context_) (gid : string) (opts : list Option)
| PScalingGroupDetail (ctx : Context_) (gid : string) (opt : Option)
| PScaleNodeGroup (ctx : Context_) (gid : string) (desired : Z)
| PScaleMasterGroup (ctx : Context_) (gid : string) (desired : Z)
| PRemoveScalingGroupECS (ctx : Context_) (gid ecs : string)
| PBucketName
| PEnsureBucket (name : string)
| PGetFile (src dst : string)
| PPutFile (src dst : string)
| PDeleteObject (f : string)
| PGetObject (src : string)
| PPutObject (b dst : string)
| PListObject (prefix : string)
| PTagECS (ctx : Context_) (id : string) (vals : list Value)
| PInstanceDetail (ctx : Context_) (ids : list string)
| PStopECS (ctx : Context_) (id : string)
| PDeleteECS (ctx : Context_) (id : string)
| PRestartECS (ctx : Context_) (id : string)
| PReplaceSystemDisk (ctx : Context_) (id userdata : string) (opt : Option)
| PRunCommand (ctx : Context_) (id cmd : string)
| PCreateNodeGroup (ctx : Context_) (np : NodePool)
| PDeleteNodeGroup (ctx : Context_) (np : NodePool)
| PModifyNodeGroup (ctx : Context_) (np : NodePool)
| PInitialize (ctx : Context_)
| PUserData (ctx : Context_) (category : string)
| PCreate (ctx : Context_)
| PRecover (ctx : Context_) (id : ClusterId)
| PWatchResult (ctx : Context_) (id : ClusterId)
| PDelete (ctx : Context_) (id : ClusterId)
(* the cloud SDK, from the implementation of provider.Interface *)
| Sdk (c : sdk).

(** The type of the answer to a call. *)
Definition reply (c : call) : Type :=
  match c with
  | Now | RandIntn _ => Z
  | Sleep _ => unit
  | Getenv _ | PBucketName => string
  | Stat _ => stat
  | MkdirAll _ | WriteFile _ _ | Rename _ _ | RemoveAll _ | OpenFile _ _ | Overwrite _ _ => error
  | ReadDir _ => (list (string * bool) * error)%type
  | Remove _ | UnTar _ _ => error
  | GenerateBootstrapToken => (string * error)%type
  | GenerateUUID => string
  | BuildConfigFromFlags _ | NewApiext | ServerVersion | CrdGet _ | CrdDelete _ => error
  | CrdCreate _ => option (goerr * bool)
  | Http _ _ _ => (http_result * option string)%type
  | ReadFile _ => (string * error)%type
  | CryptoRandInt _ => (Z * error)%type
  | GenerateKey _ | CreateCertificate _ _ _ _ => (string * error)%type
  | Run _ _ _ => CmdStatus
  | KGet k _ _ => (obj k * error)%type
  | KList k _ => (list (obj k) * error)%type
  | KCreate _ | KDelete _ | KPatch _ | KStatusPatch _ => error
  | LoadKubeconfig _ => (bool * error)%type
  | ResValidator _ | ResDynamic _ => error
  | ResNamespace _ => (string * error)%type
  | ResBuild _ _ _ => (list (Info * error) * error)%type
  | ResGet _ _ _ => (json * error)%type
  | ResPatch _ _ _ _ _ | ResCreate _ _ _ => (json * option apierr)%type
  | ResUpdate _ _ _ | ResDelete _ _ _ _ _ => error
  | ResList _ _ => (list json * error)%type
  | Manager _ | Listen _ => error
  | DrainCordon _ _ => (error * error)%type
  | DrainGetPods _ => (option (list pod) * list goerr)%type
  | DrainEvict _ => error
  | PGetStackOutPuts _ _ | PGetInfraStack _ _ => (gmap string Value * error)%type
  | PVSwitchs _ => (string * error)%type
  | PModifyScalingConfig _ _ _ => error
  | PScalingGroupDetail _ _ _ => (ScaleGroupDetail * error)%type
  | PScaleNodeGroup _ _ _ | PScaleMasterGroup _ _ _ | PRemoveScalingGroupECS _ _ _ => error
  | PEnsureBucket _ | PGetFile _ _ | PPutFile _ _ | PDeleteObject _ => error
  | PGetObject _ => (string * error)%type
  | PPutObject _ _ => error
  | PListObject _ => (list string * error)%type
  | PTagECS _ _ _ => error
  | PInstanceDetail _ _ => (list Instance * error)%type
  | PStopECS _ _ | PDeleteECS _ _ | PRestartECS _ _ | PReplaceSystemDisk _ _ _ _ => error
  | PRunCommand _ _ _ => (Result * error)%type
  | PCreateNodeGroup _ _ => (option BindID * error)%type
  | PDeleteNodeGroup _ _ | PModifyNodeGroup _ _ => error
  | PInitialize _ => (Context_ * error)%type
  | PUserData _ _ => (string * error)%type
  | PCreate _ => (option ClusterId * error)%type
  | PRecover _ _ => (option ClusterId * error)%type
  | PWatchResult _ _ => (ClusterId * error)%type
  | PDelete _ _ => error
  | Sdk c => sdk_reply c
  end.

(** Calls that stay on the machine: clock, randomness, environment variables,
    files, commands, cryptography. *)
Definition local_call (c : call) : Prop :=
  match c with
  | Now | Sleep _ | RandIntn _ | Getenv _ | Stat _ | MkdirAll _ | WriteFile _ _ | ReadFile _
  | Rename _ _ | RemoveAll _ | OpenFile _ _ | Overwrite _ _ | ReadDir _ | Remove _ | UnTar _ _ | CryptoRandInt _ | GenerateKey _ | CreateCertificate _ _ _ _
  | Run _ _ _ => True
  | _ => False
  end.

(** ** Environments *)
Class Env (W : Type) : Type := env_step : ∀ c : call, W → reply c * W.

Record St (W : Type) : Type := MkSt { world : W; log : list call }.
Arguments MkSt {W} world log.
Arguments world {W} _.
Arguments log {W} _.

(** A computation over the world [W]. *)
Abbreviation IO W := (M (St W)).

Definition perform {W} `{Env W} (c : call) : IO W (reply c) := λ st,
  let '(r, w') := env_step c (world st) in (Ret r, MkSt w' (log st ++ [c])).

(** [v.(string)] *)
Definition as_string {W} (v : any) : IO W string :=
  match v with
  | AStr s => mret s
  | _ => panic "interface conversion: interface {} is not string"
  end.

Lemma perform_eq {W} `{Env W} (c : call) (s : St W) :
  perform c s = (Ret (env_step c (world s)).1,
                 MkSt (env_step c (world s)).2 (log s ++ [c])).
Proof. unfold perform. by destruct (env_step c (world s)). Qed.

Lemma perform_bind {W B} `{Env W} (c : call) (f : reply c → IO W B) (s : St W) :
  (perform c ≫= f) s = f (env_step c (world s)).1 (MkSt (env_step c (world s)).2 (log s ++ [c])).
Proof. by rewrite bind_unfold, perform_eq. Qed.

(** The world after a sequence of calls. *)
Definition after {W} `{Env W} (cs : list call) (w : W) : W :=
  foldl (λ w c, (env_step c w).2) w cs.

Lemma after_app {W} `{Env W} (a b : list call) (w : W) : after (a ++ b) w = after b (after a w).
Proof. apply foldl_app. Qed.

(** ** Variables captured by a closure

    A closure that assigns to a variable of the enclosing function runs in a
    world with the variable beside it; the function reads it back afterwards. *)
Section captured.
Context {W V : Type}.

#[local] Instance var_env `{Env W} : Env (W * V) := λ c w,
  let '(r, w') := env_step c w.1 in (r, (w', w.2)).

Definition set_var (v : V) : IO (W * V) unit := λ s,
  (Ret tt, MkSt ((world s).1, v) (log s)).
Definition get_var : IO (W * V) V := λ s, (Ret (world s).2, s).

Definition with_var {A} (v : V) (m : IO (W * V) A) : IO W (A * V) := λ s,
  let '(o, s') := m (MkSt (world s, v) (log s)) in
  (match o with
   | Ret a => Ret (a, (world s').2)
   | Panic msg => Panic msg
   | Hang => Hang
   end, MkSt (world s').1 (log s')).

Lemma var_perform `{Env W} (c : call) (s : St (W * V)) :
  perform c s = (Ret (env_step c (world s).1).1,
                 MkSt ((env_step c (world s).1).2, (world s).2) (log s ++ [c])).
Proof. unfold perform, env_step at 1, var_env. by destruct (env_step c (world s).1). Qed.
End captured.

(** Runs the call at the head of a computation. *)
Ltac step_perform :=
  match goal with
  | |- context [(perform ?c ≫= ?f) ?s] => rewrite (perform_bind c f s)
  end; cbn [world log].
Ltac step_perform_in H :=
  match type of H with
  | context [(perform ?c ≫= ?f) ?s] => rewrite (perform_bind c f s) in H
  end; cbn [world log] in H.

(** ** Iteration order of Go maps

    A [for range] over a map visits its entries in an order the language does
    not fix; [n] tells the loops of one function apart. *)
Class MapRange : Type := range_order : nat → ∀ A : Type, gmap string A → list (string * A).
Arguments range_order {_} n {A} _.
Class MapRangeSpec `{MapRange} : Prop :=
  range_order_perm n A (m : gmap string A) : range_order n m ≡ₚ map_to_list m.

(** The values of a map in iteration order. *)
Definition range_vals `{MapRange} (n : nat) {A} (m : gmap string A) : list A :=
  (range_order n m).*2.

(** ** encoding/json for one type *)
Class Json (A : Type) : Type := {
  Marshal : A → string;
  Unmarshal : string → A → A * error }.

(** The same for github.com/ghodss/yaml. *)
Class Yaml (A : Type) : Type := {
  YamlMarshal : A → string;
  YamlUnmarshal : string → A → A * error }.

(** ** Clocks

    An environment whose world has a clock that never goes back, that [Now]
    reads and that [Sleep d] advances by at least [d]. *)
Class Clock (W : Type) `{Env W} : Type := clock : W → Z.
Class ClockSpec (W : Type) `{Clock W} : Prop := {
  clock_mono c w : (clock w ≤ clock (env_step c w).2)%Z;
  clock_now w : (clock w ≤ (env_step Now w).1 ≤ clock (env_step Now w).2)%Z;
  clock_sleep d w : (clock w + d ≤ clock (env_step (Sleep d) w).2)%Z }.

(** ** k8s.io/apimachinery/pkg/util/wait *)

(** [wait.ErrWaitTimeout] *)
Definition ErrWaitTimeout : goerr := GoErr "timed out waiting for the condition" false.

(** Time passing between two attempts: nothing is called. *)
Definition idle {W} (s s' : St W) : Prop := log s = log s'.

(** One run of a polling loop over [cond], at least one attempt: it ends when an
    attempt says done, fails, or panics, or when the time is up after an
    attempt that said "not yet".  [R] relates the states before and after the
    pause between two attempts. *)
Inductive poll_run_on {W} (R : St W → St W → Prop) (cond : IO W (bool * error))
    : St W → outcome error → St W → Prop :=
| poll_done s s' :
    cond s = (Ret (true, None), s') → poll_run_on R cond s (Ret None) s'
| poll_err s b e s' :
    cond s = (Ret (b, Some e), s') → poll_run_on R cond s (Ret (Some e)) s'
| poll_panic s msg s' :
    cond s = (Panic msg, s') → poll_run_on R cond s (Panic msg) s'
| poll_hang s s' :
    cond s = (Hang, s') → poll_run_on R cond s Hang s'
| poll_timeout s s1 s' :
    cond s = (Ret (false, None), s1) → R s1 s' →
    poll_run_on R cond s (Ret (Some ErrWaitTimeout)) s'
| poll_again s s1 s2 o s' :
    cond s = (Ret (false, None), s1) → R s1 s2 → poll_run_on R cond s2 o s' →
    poll_run_on R cond s o s'.
Abbreviation poll_run := (poll_run_on idle).

(** [wait.PollImmediate(interval, timeout, cond)] and [wait.Poll], which waits
    for the interval before the first attempt and may run out of time there. *)
Class WaitLib (W : Type) : Type := {
  PollImmediate : Z → Z → IO W (bool * error) → IO W error;
  Poll : Z → Z → IO W (bool * error) → IO W error }.

Class WaitSpec (W : Type) `{WaitLib W} : Prop := {
  PollImmediate_run i t cond s :
    poll_run cond s (PollImmediate i t cond s).1 (PollImmediate i t cond s).2;
  Poll_run i t cond s :
    (∃ s0, idle s s0 ∧ poll_run cond s0 (Poll i t cond s).1 (Poll i t cond s).2) ∨
    (Poll i t cond s).1 = Ret (Some ErrWaitTimeout) ∧ idle s (Poll i t cond s).2 }.

(** The same when the closure captures a variable: a pause does not change it. *)
Definition idle_var {W V} (s s' : St (W * V)) : Prop := idle s s' ∧ (world s).2 = (world s').2.
Class VarWaitSpec (W V : Type) `{WaitLib (W * V)} : Prop :=
  PollImmediate_var_run i t cond (s : St (W * V)) :
    poll_run_on idle_var cond s (PollImmediate i t cond s).1 (PollImmediate i t cond s).2.

Class VarPollSpec (W V : Type) `{WaitLib (W * V)} : Prop :=
  Poll_var_run i t cond (s : St (W * V)) :
    (∃ s0, idle_var s s0 ∧
       poll_run_on idle_var cond s0 (Poll i t cond s).1 (Poll i t cond s).2) ∨
    (Poll i t cond s).1 = Ret (Some ErrWaitTimeout) ∧ idle_var s (Poll i t cond s).2.

(** ** Which calls a computation makes *)
Section emits.
Context {W : Type} `{Env W}.

(** Whatever the state, [m] only appends calls satisfying [P] to the log. *)
Definition emits {A} (P : call → Prop) (m : IO W A) : Prop :=
  ∀ st, ∃ new, log (m st).2 = log st ++ new ∧ Forall P new.

Lemma emits_ret {A} P (a : A) : emits P (mret a).
Proof. intros st. exists []. by rewrite app_nil_r. Qed.

Lemma emits_panic {A} P msg : emits P (panic msg : IO W A).
Proof. intros st. exists []. by rewrite app_nil_r. Qed.

Lemma emits_hang {A} P : emits P (hang : IO W A).
Proof. intros st. exists []. by rewrite app_nil_r. Qed.

Lemma emits_lift {A} P (o : outcome A) : emits P (lift o : IO W A).
Proof. intros st. exists []. by rewrite app_nil_r. Qed.

Lemma emits_perform P (c : call) : P c → emits P (perform c).
Proof.
  intros HP st. exists [c]. unfold perform.
  destruct (env_step c (world st)) as [r w']. simpl. auto.
Qed.

Lemma emits_bind {A B} P (m : IO W A) (f : A → IO W B) :
  emits P m → (∀ a, emits P (f a)) → emits P (m ≫= f).
Proof.
  intros Hm Hf st. rewrite bind_unfold.
  destruct (Hm st) as (n1 & E1 & F1). destruct (m st) as [[a|msg|] s1]; simpl in *; eauto.
  destruct (Hf a s1) as (n2 & E2 & F2). exists (n1 ++ n2).
  by rewrite E2, E1, app_assoc, Forall_app.
Qed.

Lemma emits_range {A L R} P (xs : list A) (l : L) (body : A → L → IO W (ctl L R)) :
  (∀ x l, x ∈ xs → emits P (body x l)) → emits P (range xs l body).
Proof.
  revert l. induction xs as [|x xs IH]; intros l Hb; simpl; [apply emits_ret|].
  apply emits_bind; [apply Hb; by left|].
  intros []; [|apply emits_ret..]. apply IH. intros. apply Hb. by right.
Qed.

(** The same of a single run. *)
Definition run_emits {A} (P : call → Prop) (m : IO W A) (s : St W) : Prop :=
  ∃ new, log (m s).2 = log s ++ new ∧ Forall P new.

Lemma run_emits_bind {A B} P (m : IO W A) (f : A → IO W B) s :
  run_emits P m s → (∀ a s1, m s = (Ret a, s1) → run_emits P (f a) s1) → run_emits P (m ≫= f) s.
Proof.
  intros (n1 & E1 & F1) Hf. unfold run_emits. rewrite bind_unfold.
  destruct (m s) as [[a|msg|] s1] eqn:E; simpl in *; eauto.
  destruct (Hf a s1 eq_refl) as (n2 & E2 & F2). exists (n1 ++ n2).
  by rewrite E2, E1, app_assoc, Forall_app.
Qed.

Lemma run_emits_weaken {A} (P Q : call → Prop) (m : IO W A) s :
  (∀ c, P c → Q c) → run_emits P m s → run_emits Q m s.
Proof.
  intros HPQ (n & ? & ?). exists n. split; [done|]. by eapply Forall_impl.
Qed.

Lemma run_emits_calls {A} (P : call → Prop) (m : IO W A) s c :
  run_emits P m s → (∃ new, log (m s).2 = log s ++ new ∧ c ∈ new) → P c.
Proof.
  intros (n & E & F) (new & E' & Hc). rewrite E in E'. apply app_inv_head in E' as ->.
  rewrite Forall_forall in F. auto.
Qed.

(** [m], run from [s], makes the call [c]. *)
Definition calls {A} (m : IO W A) (s : St W) (c : call) : Prop :=
  ∃ new, log (m s).2 = log s ++ new ∧ c ∈ new.

Lemma calls_emits {A} P (m : IO W A) s c : emits P m → calls m s c → P c.
Proof.
  intros Hm (new & Hn & Hc). destruct (Hm s) as (new' & Hn' & HF).
  rewrite Hn' in Hn. apply app_inv_head in Hn as ->. rewrite Forall_forall in HF. auto.
Qed.

(** A call that the first part of a sequence cannot make was made by the rest. *)
Lemma calls_bind_inv {A B} P (m : IO W A) (f : A → IO W B) s c :
  emits P m → ¬ P c → (∀ a, emits (λ _, True) (f a)) → calls (m ≫= f) s c →
  ∃ a s1, m s = (Ret a, s1) ∧ calls (f a) s1 c.
Proof.
  intros Hm HP Hf (new & Hn & Hc). destruct (Hm s) as (n1 & E1 & F1).
  assert (c ∉ n1) as Hno by (intros Hx; rewrite Forall_forall in F1; by apply F1 in Hx).
  rewrite bind_unfold in Hn. destruct (m s) as [[a|msg|] s1] eqn:E; simpl in *;
    [|rewrite E1 in Hn; apply app_inv_head in Hn as ->; done..].
  exists a, s1. split; [done|]. destruct (Hf a s1) as (n2 & E2 & _). exists n2. split; [done|].
  rewrite E2, E1, <- app_assoc in Hn. apply app_inv_head in Hn as <-.
  apply elem_of_app in Hc as [?|?]; done.
Qed.

(** A call that the rest of a sequence cannot make was made by the first part. *)
Lemma calls_bind_first {A B} P (m : IO W A) (f : A → IO W B) s c :
  emits (λ _, True) m → (∀ a, emits P (f a)) → ¬ P c → calls (m ≫= f) s c → calls m s c.
Proof.
  intros Hm Hf HP (new & Hn & Hc). destruct (Hm s) as (n1 & E1 & _). exists n1. split; [done|].
  rewrite bind_unfold in Hn. destruct (m s) as [[a|msg|] s1] eqn:E; simpl in *;
    [|rewrite E1 in Hn; by apply app_inv_head in Hn as ->..].
  destruct (Hf a s1) as (n2 & E2 & F2). rewrite E2, E1, <- app_assoc in Hn.
  apply app_inv_head in Hn as <-. apply elem_of_app in Hc as [?|Hc]; [done|].
  rewrite Forall_forall in F2. by apply F2 in Hc.
Qed.

(** The calls of the first part of a sequence, and those of what follows it. *)
Lemma calls_bind_l {A B} (m : IO W A) (f : A → IO W B) s c :
  (∀ a, emits (λ _, True) (f a)) → calls m s c → calls (m ≫= f) s c.
Proof.
  intros Hf (new & Hn & Hc). unfold calls. rewrite bind_unfold.
  destruct (m s) as [[a|msg|] s1]; cbn [snd] in *; [|by exists new..].
  destruct (Hf a s1) as (n2 & E2 & _). exists (new ++ n2). rewrite E2, Hn, app_assoc.
  split; [done|]. apply elem_of_app. by left.
Qed.
Lemma calls_perform (c : call) (s : St W) : calls (perform c) s c.
Proof.
  exists [c]. unfold perform. destruct (env_step c (world s)). split; [done|]. by apply list_elem_of_singleton.
Qed.

Lemma calls_bind_ret {A B} (a : A) (f : A → IO W B) s c : calls (mret a ≫= f) s c ↔ calls (f a) s c.
Proof. done. Qed.
Lemma calls_perform_next {B} (c0 : call) (f : reply c0 → IO W B) s c :
  calls (f (env_step c0 (world s)).1) (MkSt (env_step c0 (world s)).2 (log s ++ [c0])) c → calls (perform c0 ≫= f) s c.
Proof.
  intros (new & Hn & Hc). exists (c0 :: new). rewrite perform_bind, Hn. cbn [log]. rewrite <- app_assoc.
  split; [done|]. by right.
Qed.

Lemma calls_ret {A} (a : A) s c : ¬ calls (mret a : IO W A) s c.
Proof.
  intros (new & Hn & Hc). change (log s = log s ++ new) in Hn.
  destruct new; [set_solver|]. apply (f_equal length) in Hn. rewrite length_app in Hn. simpl in Hn. lia.
Qed.

(** The call is the first one or made by the rest. *)
Lemma calls_perform_bind {B} (c0 : call) (f : reply c0 → IO W B) s c :
  (∀ a, emits (λ _, True) (f a)) → calls (perform c0 ≫= f) s c →
  c = c0 ∨ calls (f (env_step c0 (world s)).1) (MkSt (env_step c0 (world s)).2 (log s ++ [c0])) c.
Proof.
  intros Hf (new & Hn & Hc). rewrite perform_bind in Hn.
  destruct (Hf (env_step c0 (world s)).1 (MkSt (env_step c0 (world s)).2 (log s ++ [c0]))) as (n2 & E2 & _).
  rewrite E2 in Hn. cbn [log] in Hn. rewrite <- app_assoc in Hn. apply app_inv_head in Hn as <-.
  apply elem_of_app in Hc as [Hc|Hc]; [left; by apply list_elem_of_singleton in Hc|].
  right. by exists n2.
Qed.

Lemma emits_weaken {A} (P Q : call → Prop) (m : IO W A) :
  (∀ c, P c → Q c) → emits P m → emits Q m.
Proof.
  intros HPQ Hm st. destruct (Hm st) as (n & ? & ?). exists n. split; [done|].
  by eapply Forall_impl.
Qed.

Lemma emits_poll_run_on R P (cond : IO W (bool * error)) s o s' :
  (∀ s1 s2, R s1 s2 → idle s1 s2) → emits P cond → poll_run_on R cond s o s' →
  ∃ new, log s' = log s ++ new ∧ Forall P new.
Proof.
  intros HR Hc. induction 1 as [s s' E|s b e s' E|s msg s' E|s s' E|s s1 s' E I|s s1 s2 o s' E I _ IH];
    destruct (Hc s) as (n & E1 & F1); rewrite E in E1; simpl in E1; eauto.
  - apply HR in I. exists n. by rewrite <- I.
  - apply HR in I. destruct IH as (n2 & E2 & F2). exists (n ++ n2).
    rewrite E2, <- I, E1, app_assoc. by rewrite Forall_app.
Qed.
Lemma emits_poll_run P (cond : IO W (bool * error)) s o s' :
  emits P cond → poll_run cond s o s' → ∃ new, log s' = log s ++ new ∧ Forall P new.
Proof. by apply emits_poll_run_on. Qed.

Lemma emits_PollImmediate `{!WaitLib W, !WaitSpec W} P i t (cond : IO W (bool * error)) :
  emits P cond → emits P (PollImmediate i t cond).
Proof. intros Hc st. eapply emits_poll_run; [done|]. apply PollImmediate_run. Qed.

Lemma emits_Poll `{!WaitLib W, !WaitSpec W} P i t (cond : IO W (bool * error)) :
  emits P cond → emits P (Poll i t cond).
Proof.
  intros Hc st. destruct (Poll_run i t cond st) as [(s0 & I & R)|[_ I]].
  - destruct (emits_poll_run P cond _ _ _ Hc R) as (n & E & F).
    exists n. by rewrite E, I.
  - exists []. by rewrite app_nil_r, I.
Qed.

(** A successful poll ended on an attempt that said done. *)
Lemma poll_run_success (cond : IO W (bool * error)) s s' :
  poll_run cond s (Ret None) s' → ∃ s0, cond s0 = (Ret (true, None), s').
Proof. intros H'. remember (Ret None) as o eqn:E. induction H'; naive_solver. Qed.

(** A successful poll whose first attempt said "not yet" went on. *)
Lemma poll_run_next R (cond : IO W (bool * error)) s s1 s' :
  poll_run_on R cond s (Ret None) s' → cond s = (Ret (false, None), s1) →
  ∃ s2, R s1 s2 ∧ poll_run_on R cond s2 (Ret None) s'.
Proof.
  intros H' E. inversion H' as [? ? E1|? ? ? ? E1|? ? ? E1|? ? E1|? ? ? E1 ?|? s2 s3 ? ? E1 HR Hr]; subst;
    rewrite E in E1; try congruence.
  injection E1 as <-. by exists s3.
Qed.
End emits.

Lemma emits_set_var {W V} P (v : V) : emits P (set_var v : IO (W * V) unit).
Proof. intros st. exists []. by rewrite app_nil_r. Qed.
Lemma emits_get_var {W V} P : emits P (get_var : IO (W * V) V).
Proof. intros st. exists []. by rewrite app_nil_r. Qed.
Lemma emits_with_var {W V A} P (v : V) (m : IO (W * V) A) : emits P m → emits P (with_var v m).
Proof.
  intros Hm st. destruct (Hm (MkSt (world st, v) (log st))) as (new & E & F).
  exists new. unfold with_var. by destruct (m _) as [o s'].
Qed.

(** The first call of a sequence is not the one looked for. *)
Ltac calls_step H :=
  match type of H with
  | calls (perform ?c ≫= ?f) _ _ => apply (calls_perform_bind c f) in H
  end.

Create HintDb emits.
#[export] Hint Resolve emits_ret emits_panic emits_hang emits_lift emits_perform emits_bind emits_range
  emits_PollImmediate emits_Poll emits_set_var emits_get_var emits_with_var : emits.

(** A single call. *)
Ltac emits_call :=
  match goal with |- emits ?P (perform ?c) => refine (emits_perform P c _) end.

(** Reduces [emits P m] along the syntax of [m], down to [P] of single calls;
    named computations are left alone. *)
Ltac solve_emits :=
  repeat first
    [ progress intros
    | match goal with
      | |- emits _ (_ ≫= _) => apply emits_bind
      | |- emits _ (mret _) => apply emits_ret
      | |- emits _ (panic _) => apply emits_panic
      | |- emits _ hang => apply emits_hang
      | |- emits _ (lift _) => apply emits_lift
      | |- emits _ (range _ _ _) => apply emits_range
      | |- emits _ (PollImmediate _ _ _) => apply emits_PollImmediate
      | |- emits _ (Poll _ _ _) => apply emits_Poll
      | |- emits _ (set_var _) => apply emits_set_var
      | |- emits _ get_var => apply emits_get_var
      | |- emits _ (with_var _ _) => apply emits_with_var
      | |- emits _ (perform _) => emits_call
      | |- emits _ (match ?x with _ => _ end) => destruct x
      | |- emits _ (let '(_, _) := ?x in _) => destruct x
      end
    | progress cbv zeta ].

(** Case analysis on a call, and on the request when it is one to the SDK. *)
Ltac case_sdk c := destruct c; try done; match goal with x : sdk |- _ => destruct x; try done end.

(** ** Concrete environments, for evaluation *)
Module SimEnv.
(** The zero object of each kind, as a failed or empty Get leaves it. *)
Definition zero_obj (k : kind) : obj k :=
  match k with
  | KNode => zeroNode
  | KMaster => zeroMaster
  | KCluster => zeroCluster
  | KMasterSet => MkMasterSet noType noMeta (MkMasterSetSpec 0) (MkMasterSetStatus [] None)
  | KNodePool => MkNodePool noType noMeta (MkNodePoolSpec "" false (MkInfra 0 "" 0 0 ∅ None))
  | KDeployment => MkDeployment noMeta 0
  end.
Definition zero_cert : Certificate := MkCertificate "" [] [] [] 0 0 0 [] [] false false.

(** Every call succeeds and yields a zero value. *)
Definition quiet (c : call) : reply c :=
  match c with
  | Now | RandIntn _ => 0%Z
  | Sleep _ => tt
  | Getenv _ | PBucketName => ""
  | Stat _ => StatOk
  | MkdirAll _ | WriteFile _ _ | Rename _ _ | RemoveAll _ | OpenFile _ _ | Overwrite _ _ => None
  | ReadDir _ => ([], None)
  | Remove _ | UnTar _ _ => None
  | GenerateBootstrapToken => ("", None)
  | GenerateUUID => ""
  | BuildConfigFromFlags _ | NewApiext | ServerVersion | CrdGet _ | CrdDelete _ => None
  | CrdCreate _ => None
  | Http _ _ _ => (HttpAnswer 200 "" None, None)
  | ReadFile _ => ("", None)
  | CryptoRandInt _ => (0%Z, None)
  | GenerateKey _ | CreateCertificate _ _ _ _ => ("", None)
  | Run _ _ _ => MkCmdStatus 0 None [] []
  | KGet k _ _ => (zero_obj k, None)
  | KList k _ => ([], None)
  | KCreate _ | KDelete _ | KPatch _ | KStatusPatch _ => None
  | LoadKubeconfig _ => (true, None)
  | ResValidator _ | ResDynamic _ => None
  | ResNamespace _ => ("default", None)
  | ResBuild _ _ _ => ([], None)
  | ResGet _ _ _ => (JNull, None)
  | ResPatch _ _ _ _ _ | ResCreate _ _ _ => (JNull, None)
  | ResUpdate _ _ _ | ResDelete _ _ _ _ _ => None
  | ResList _ _ => ([], None)
  | Manager _ | Listen _ => None
  | DrainCordon _ _ => (None, None)
  | DrainGetPods _ => (None, [])
  | DrainEvict _ => None
  | PGetStackOutPuts _ _ | PGetInfraStack _ _ => (∅, None)
  | PVSwitchs _ => ("", None)
  | PModifyScalingConfig _ _ _ => None
  | PScalingGroupDetail _ _ _ => (MkScaleGroupDetail "" ∅, None)
  | PScaleNodeGroup _ _ _ | PScaleMasterGroup _ _ _ | PRemoveScalingGroupECS _ _ _ => None
  | PEnsureBucket _ | PGetFile _ _ | PPutFile _ _ | PDeleteObject _ => None
  | PGetObject _ => ("", None)
  | PPutObject _ _ => None
  | PListObject _ => ([], None)
  | PTagECS _ _ _ => None
  | PInstanceDetail _ _ => ([], None)
  | PStopECS _ _ | PDeleteECS _ _ | PRestartECS _ _ | PReplaceSystemDisk _ _ _ _ => None
  | PRunCommand _ _ _ => (MkResult "" "", None)
  | PCreateNodeGroup _ _ => (None, None)
  | PDeleteNodeGroup _ _ | PModifyNodeGroup _ _ => None
  | PInitialize ctx => (ctx, None)
  | PUserData _ _ => ("", None)
  | PCreate _ => (None, None)
  | PRecover _ _ => (None, None)
  | PWatchResult _ id => (id, None)
  | PDelete _ _ => None
  | Sdk c => sdk_quiet c
  end.

(** The world is a clock in nanoseconds; calls not answered by [script] are
    quiet. *)
Definition scripted (script : ∀ c : call, Z → option (reply c)) : Env Z := λ c w,
  (match script c w with
   | Some r => r
   | None => match c return reply c with Now => w | c' => quiet c' end
   end,
   match c with Sleep d => w + Z.max 0 d | _ => w end)%Z.

#[export] Instance local_zone : LocalZone := 28800%Z.

Definition start_at (t : Z) : St Z := MkSt t [].

(** Nothing scripted: the clock laws hold. *)
Definition no_script : ∀ c : call, Z → option (reply c) := λ _ _, None.
#[export] Instance quiet_env : Env Z | 100 := scripted no_script.
#[export] Instance quiet_clock : Clock Z | 100 := λ w, w.
#[export] Instance quiet_clock_spec : ClockSpec Z.
Proof.
  split; unfold clock, quiet_clock.
  - intros c w. destruct c; simpl; lia.
  - intros w. simpl. lia.
  - intros d w. simpl. lia.
Qed.
End SimEnv.

(** ** A concrete polling library and iteration order, for evaluation *)
Module SimWait.
Section sim.
Context {W : Type}.
Fixpoint attempts (n : nat) (cond : IO W (bool * error)) : IO W error :=
  '(done, e) ← cond;
  match e with
  | Some g => mret (Some g)
  | None =>
      if done : bool then mret None
      else match n with
           | O => mret (Some ErrWaitTimeout)
           | S k => attempts k cond
           end
  end.
#[export] Instance wait_lib : WaitLib W :=
  {| PollImmediate i t := attempts (Z.to_nat (Z.min 5 (t `div` i)));
     Poll i t := attempts (Z.to_nat (Z.min 5 (t `div` i))) |}.

Lemma attempts_run_on R n cond s :
  (∀ s, R s s) → poll_run_on R cond s (attempts n cond s).1 (attempts n cond s).2.
Proof.
  intros HR.
  revert s. induction n as [|n IH]; intros s; simpl; rewrite bind_unfold;
    destruct (cond s) as [[[b [e|]]|msg|] s1] eqn:E; simpl;
    try (by econstructor); destruct b; simpl;
    try (by econstructor).
Qed.
Lemma attempts_run n cond s : poll_run cond s (attempts n cond s).1 (attempts n cond s).2.
Proof. by apply attempts_run_on. Qed.

#[export] Instance wait_spec : WaitSpec W.
Proof.
  split; intros; [apply attempts_run|]. left. exists s. split; [done|]. apply attempts_run.
Qed.
End sim.

#[export] Instance var_wait_spec {W V} : VarWaitSpec W V.
Proof. intros i t cond s. by apply attempts_run_on. Qed.

#[export] Instance var_poll_spec {W V} : VarPollSpec W V.
Proof. intros i t cond s. left. exists s. split; [done|]. by apply attempts_run_on. Qed.

#[export] Instance map_range : MapRange := λ _ A m, map_to_list m.
#[export] Instance map_range_spec : MapRangeSpec.
Proof. intros n A m. reflexivity. Qed.
End SimWait.
