(* ===== verification/Crd.v ===== *)
(** * Registration of the custom resources (pkg/utils/crd)

    Every definition is created and then waited for. *)
From stdpp Require Import base list gmap strings.
From Stdlib Require Import Lia.
From S2P Require Import Prelude GoStrings GoTime Api Effects.
Local Open Scope Z_scope.

Definition checkCRDInterval : Z := 2 * Second.
Definition crdReadyTimeout : Z := 3 * Minute.
Definition defCategories : list string := ["all"; "kooper"].

Record Conf : Type := MkConf {
  cf_Kind : string;
  cf_NamePlural : string;
  cf_ShortNames : list string;
  cf_Group : string;
  cf_Version : string;
  cf_Scope : string;
  cf_Categories : list string;
  cf_EnableStatusSubresource : bool;
  cf_EnableScaleSubresource : bool }.
Definition getName (c : Conf) : string := cf_NamePlural c +:+ "." +:+ cf_Group c.

Definition createSubresources (conf : Conf) : option (bool * bool) :=
  if negb (cf_EnableStatusSubresource conf) && negb (cf_EnableScaleSubresource conf) then None
  else Some (cf_EnableStatusSubresource conf, cf_EnableScaleSubresource conf).
Definition addDefaultCaregories (categories : list string) : list string :=
  categories ++ List.filter (λ ca, negb (bool_decide (ca ∈ categories))) defCategories.

Section operations.
Context {W : Type} `{Env W}.

Definition validateCRD : IO W error :=
  err ← perform ServerVersion;
  mret (match (err : error) with Some e => Errorf ("get server version: " +:+ Error e) | None => None end).

(** The loop of [WaitToBePresent], [n] turns of it.  Every turn makes a new
    timer for the timeout, so between the next tick of the ticker and it, the
    shorter comes first. *)
Fixpoint waitPresent (n : nat) (name : string) (timeout : Z) : IO W error :=
  match n with
  | O => hang
  | S n =>
      if checkCRDInterval <? timeout then
        _ ← perform (Sleep checkCRDInterval);
        err ← perform (CrdGet name);
        match (err : error) with
        | None => mret None
        | Some _ => waitPresent n name timeout
        end
      else
        _ ← perform (Sleep timeout);
        mret (Errorf "timeout waiting for CRD")
  end.
Definition WaitToBePresent (n : nat) (name : string) (timeout : Z) : IO W error :=
  err ← validateCRD;
  match (err : error) with
  | Some e => mret (Errorf ("wait validate crd: " +:+ Error e))
  | None => waitPresent n name timeout
  end.

Definition EnsurePresent (n : nat) (conf : Conf) : IO W error :=
  err ← validateCRD;
  match (err : error) with
  | Some e => mret (Errorf ("validate crd: " +:+ Error e))
  | None =>
      let crdName := getName conf in
      let crd := MkCRD crdName (cf_Group conf) (cf_Version conf) (cf_Scope conf) (cf_NamePlural conf) (cf_Kind conf)
                   (cf_ShortNames conf) (addDefaultCaregories (cf_Categories conf)) (createSubresources conf) in
      err ← perform (CrdCreate crd);
      match (err : option (goerr * bool)) with
      | Some (e, exists_) =>
          if exists_ : bool then mret None
          else mret (Errorf ("error creating crd " +:+ crdName +:+ ": " +:+ Error e))
      | None => WaitToBePresent n crdName crdReadyTimeout
      end
  end.

Definition crd_Delete (name : string) : IO W error :=
  err ← validateCRD;
  match (err : error) with
  | Some e => mret (Errorf ("validate crd: " +:+ Error e))
  | None => perform (CrdDelete name)
  end.

(** register.go *)
Definition groupConf (kind plural : string) : Conf :=
  MkConf kind plural [] "alibabacloud.com" "v1" "Cluster" [] false false.
Definition ClusterCRD : Conf := groupConf "Cluster" "clusters".
Definition MasterCRD : Conf := groupConf "Master" "masters".
Definition MasterSetCRD : Conf := groupConf "MasterSet" "mastersets".
Definition NodePoolCRD : Conf := groupConf "NodePool" "nodepools".

Fixpoint initializeAll (n : nat) (crds : list Conf) : IO W error :=
  match crds with
  | [] => mret None
  | crd :: rest =>
      err ← EnsurePresent n crd;
      match (err : error) with
      | Some e => mret (Errorf ("initialize crd: *crd." +:+ cf_Kind crd +:+ "CRD, " +:+ Error e))
      | None => initializeAll n rest
      end
  end.
Definition doRegisterCRD (n : nat) : IO W error :=
  err ← perform NewApiext;
  match (err : error) with
  | Some e => mret (Errorf ("error create incluster client: " +:+ Error e))
  | None => initializeAll n [ClusterCRD; MasterCRD; MasterSetCRD; NodePoolCRD]
  end.
Definition RegisterFromKubeconfig (n : nat) (name : string) : IO W error :=
  err ← perform (BuildConfigFromFlags name);
  match (err : error) with
  | Some e => mret (Errorf ("register crd: build rest.config, " +:+ Error e))
  | None => doRegisterCRD n
  end.

(** Registering only talks to the server about definitions, and waits. *)
Definition crd_call (c : call) : Prop :=
  match c with NewApiext | ServerVersion | Sleep _ | CrdGet _ | CrdCreate _ => True | _ => False end.
Lemma emits_waitPresent n name t : emits crd_call (waitPresent n name t).
Proof.
  induction n as [|n IH]; cbn [waitPresent]; [apply emits_hang|].
  repeat first [ exact IH | progress solve_emits ]; exact I.
Qed.
Lemma emits_doRegisterCRD n : emits crd_call (doRegisterCRD n).
Proof.
  assert (∀ l, emits crd_call (initializeAll n l)) as Hi.
  { induction l as [|c l IH]; cbn [initializeAll]; [apply emits_ret|].
    unfold EnsurePresent, WaitToBePresent, validateCRD.
    repeat first [ exact IH | apply emits_waitPresent | progress solve_emits ]; exact I. }
  unfold doRegisterCRD. repeat first [ apply Hi | progress solve_emits ]; exact I.
Qed.
End operations.

(** ** Facts *)
Section facts.
Context {W : Type} `{Env W}.

Lemma waitPresent_result n name timeout (s : St W) :
  checkCRDInterval < timeout →
  (waitPresent n name timeout s).1 = Ret None ∨ (waitPresent n name timeout s).1 = Hang.
Proof.
  intros Ht. revert s. induction n as [|n IH]; intros s; [by right|]. cbn [waitPresent].
  apply Z.ltb_lt in Ht as Hlt. rewrite Hlt. step_perform. step_perform.
  destruct (env_step (CrdGet name) _).1; [apply IH|by left].
Qed.

Lemma waitPresent_absent n name timeout (s : St W) :
  checkCRDInterval < timeout → (∀ w, (env_step (W:=W) (CrdGet name) w).1 ≠ None) →
  (waitPresent n name timeout s).1 = Hang.
Proof.
  intros Ht Habs. revert s. induction n as [|n IH]; intros s; [done|]. cbn [waitPresent].
  apply Z.ltb_lt in Ht as Hlt. rewrite Hlt. step_perform. step_perform.
  destruct (env_step (CrdGet name) _).1 as [e|] eqn:E; [apply IH|]. by destruct (Habs _ E).
Qed.
End facts.

(** ** Properties *)
Section properties.
Context {W : Type} `{Env W}.

(** Waiting for a definition never times out: the timer is made anew at
    every tick, so a definition that never shows up is waited for without end,
    however many ticks pass, and the three minutes are never enforced. *)
Theorem WaitToBePresent_never_times_out name (s : St W) :
  (∀ w, (env_step (W:=W) ServerVersion w).1 = None) → (∀ w, (env_step (W:=W) (CrdGet name) w).1 ≠ None) →
  ∀ n, (WaitToBePresent n name crdReadyTimeout s).1 = Hang.
Proof.
  intros Hv Habs n. unfold WaitToBePresent, validateCRD. rewrite bind_unfold. step_perform. rewrite Hv.
  by apply waitPresent_absent.
Qed.
End properties.

(** ** Witness *)
Import SimEnv.
Lemma WaitToBePresent_never_times_out_witness :
  let env : Env Z := scripted (λ c _, match c return option (reply c) with
                                      | CrdGet _ => Some (Errorf "not found") | _ => None end) in
  (WaitToBePresent (H:=env) 200 "clusters.alibabacloud.com" crdReadyTimeout (start_at 0)).1 = Hang.
Proof.
  intros env. refine (WaitToBePresent_never_times_out (H:=env) "clusters.alibabacloud.com" (start_at 0) _ _ 200).
  - intros w. reflexivity.
  - intros w. discriminate.
Defined.
