(* ===== verification/GoTemplate.v ===== *)
(** * text/template and html/template, as far as the embedded templates use them

    A template is cut at its delimiters, the actions are read into words, the
    words into a tree, and the tree is executed on a value.  The actions are
    those that occur: [{{ .A.B }}], [{{ $v }}], [if] on a value or on
    [eq a b], [else], [range $i, $v := a] and [end], with the trim markers;
    every other action is rejected.  A string constant of an action has no space,
    quote or delimiter in it, and only strings and integers are printed.

    The types of this file are those of the data: a template checked against
    the type of its data executes without error on all data of that type, see
    [exec_sound]. *)
From stdpp Require Import base list strings.
From Stdlib Require Import Lia Ascii.
From S2P Require Import Prelude GoStrings.

(** The text of a Go raw string, in which no backtick can occur: here a backtick
    stands for the double quote. *)
Definition quoteMark : ascii := "034"%char.
Fixpoint raw (s : string) : string :=
  match s with
  | EmptyString => EmptyString
  | String c s => String (if Ascii.eqb c "`" then quoteMark else c) (raw s)
  end.

Module Tmpl.

(** ** Values *)
Inductive value : Type :=
| VStr (s : string)
| VInt (z : Z)
| VList (l : list value)
| VRec (fields : list (string * value)).

(** ** The lexer *)

(** The text before the first action, and then action and text in turn. *)
Fixpoint pieces (action : bool) (s : string) : string * list string :=
  match s with
  | EmptyString => (EmptyString, [])
  | String c r =>
      let delim := if action then "}"%char else "{"%char in
      match r with
      | String d r' =>
          if Ascii.eqb c delim && Ascii.eqb d delim
          then let '(x, l) := pieces (negb action) r' in (EmptyString, x :: l)
          else let '(x, l) := pieces action r in (String c x, l)
      | EmptyString => (String c EmptyString, [])
      end
  end.

Definition isWhitespace (c : ascii) : bool :=
  Ascii.eqb c " " || Ascii.eqb c "009" || Ascii.eqb c "010" || Ascii.eqb c "013".
Fixpoint trimLeft (s : string) : string :=
  match s with
  | String c r => if isWhitespace c then trimLeft r else s
  | EmptyString => EmptyString
  end.
Fixpoint trimRight (s : string) : string :=
  match s with
  | EmptyString => EmptyString
  | String c r =>
      match trimRight r with
      | EmptyString => if isWhitespace c then EmptyString else String c EmptyString
      | t => String c t
      end
  end.

(** [{{- ] and [ -}}]: the action without its markers, and whether it had them. *)
Definition leftMarker (a : string) : bool * string :=
  match a with
  | String "-" (String c r) => if isWhitespace c then (true, r) else (false, a)
  | _ => (false, a)
  end.
Fixpoint rightMarker (a : string) : bool * string :=
  match a with
  | EmptyString => (false, EmptyString)
  | String c r =>
      if isWhitespace c && bool_decide (r = "-") then (true, EmptyString)
      else let '(m, r) := rightMarker r in (m, String c r)
  end.

(** The words of an action. *)
Fixpoint wordsFrom (cur : string) (s : string) : list string :=
  let word := if decide (cur = EmptyString) then [] else [cur] in
  match s with
  | EmptyString => word
  | String c r => if isWhitespace c then word ++ wordsFrom EmptyString r
                  else wordsFrom (cur +:+ String c EmptyString) r
  end.
Definition words (s : string) : list string := wordsFrom EmptyString s.

(** ** Operands and actions *)
Inductive arg : Type :=
| AField (path : list string)
| AVar (name : string)
| ALit (s : string).
Inductive cond : Type :=
| CTruth (a : arg)
| CEq (a b : arg).
Inductive item : Type :=
| IText (s : string)
| IPrint (a : arg)
| IIf (c : cond)
| IRange (i v : string) (a : arg)
| IElse
| IEnd.

Definition isAlnum (c : ascii) : bool :=
  let n := N_of_ascii c in
  ((48 <=? n) && (n <=? 57) || (65 <=? n) && (n <=? 90) || (97 <=? n) && (n <=? 122) || (n =? 95))%N.
Fixpoint all (p : ascii → bool) (s : string) : bool :=
  match s with EmptyString => true | String c r => p c && all p r end.
Definition identifier (s : string) : bool := all isAlnum s && negb (bool_decide (s = EmptyString)).

(** A string constant up to its closing quote. *)
Fixpoint constant (s : string) : option string :=
  match s with
  | EmptyString => None
  | String c r =>
      if Ascii.eqb c quoteMark then match r with EmptyString => Some EmptyString | _ => None end
      else if Ascii.eqb c "\" then None
      else option_map (String c) (constant r)
  end.
Definition readArg (w : string) : option arg :=
  match w with
  | String c r =>
      if Ascii.eqb c "." then
        let path := Split r "." in if forallb identifier path then Some (AField path) else None
      else if Ascii.eqb c "$" then if identifier r then Some (AVar r) else None
      else if Ascii.eqb c quoteMark then option_map ALit (constant r)
      else None
  | EmptyString => None
  end.
(** [$i,] *)
Definition readIndex (w : string) : option string :=
  match w with
  | String "$" r =>
      match trimRight (ReplaceAll r "," " ") with
      | n => if identifier n && bool_decide (r = n +:+ ",") then Some n else None
      end
  | _ => None
  end.
Definition readAction (a : string) : option item :=
  match words a with
  | ["end"] => Some IEnd
  | ["else"] => Some IElse
  | ["if"; x] => x ← readArg x; Some (IIf (CTruth x))
  | ["if"; "eq"; x; y] => x ← readArg x; y ← readArg y; Some (IIf (CEq x y))
  | ["range"; i; v; ":="; x] =>
      i ← readIndex i; v ← readArg v; x ← readArg x;
      match v with AVar v => Some (IRange i v x) | _ => None end
  | [x] => x ← readArg x; Some (IPrint x)
  | _ => None
  end.

(** The items of a template; [before] is the text not yet trimmed. *)
Definition text (s : string) : list item := if decide (s = EmptyString) then [] else [IText s].
Fixpoint items (before : string) (l : list string) : option (list item) :=
  match l with
  | [] => Some (text before)
  | a :: t :: rest =>
      let '(lm, a) := leftMarker a in
      let '(rm, a) := rightMarker a in
      x ← readAction a;
      r ← items (if rm then trimLeft t else t) rest;
      Some (text (if lm then trimRight before else before) ++ x :: r)
  | [_] => None
  end.

(** ** The tree *)
Inductive node : Type :=
| NText (s : string)
| NPrint (a : arg)
| NIf (c : cond) (t e : list node)
| NRange (i v : string) (a : arg) (body e : list node).

Inductive stop : Type := SEof | SElse | SEnd.

(** A variable is known in the body of its range only. *)
Definition knownArg (vars : list string) (a : arg) : bool :=
  match a with AVar n => bool_decide (n ∈ vars) | _ => true end.
Definition knownCond (vars : list string) (c : cond) : bool :=
  match c with CTruth a => knownArg vars a | CEq a b => knownArg vars a && knownArg vars b end.

(** The nodes up to what stops them, and the items after that. *)
Fixpoint parse (n : nat) (vars : list string) (l : list item) : option (list node * stop * list item) :=
  match n with
  | O => None
  | S n =>
      match l with
      | [] => Some ([], SEof, [])
      | IElse :: l => Some ([], SElse, l)
      | IEnd :: l => Some ([], SEnd, l)
      | x :: l =>
          '(x, l) ← (match x with
                     | IText s => Some (NText s, l)
                     | IPrint a => if knownArg vars a then Some (NPrint a, l) else None
                     | IIf c => if knownCond vars c then '(t, e, l) ← block n vars vars l; Some (NIf c t e, l) else None
                     | IRange i v a =>
                         if knownArg vars a then '(t, e, l) ← block n (i :: v :: vars) vars l; Some (NRange i v a t e, l)
                         else None
                     | _ => None
                     end);
          '(xs, s, l) ← parse n vars l;
          Some (x :: xs, s, l)
      end
  end
(** The body of an action, with an [else] or not. *)
with block (n : nat) (inner vars : list string) (l : list item) : option (list node * list node * list item) :=
  match n with
  | O => None
  | S n =>
      '(t, s, l) ← parse n inner l;
      match s with
      | SEof => None
      | SEnd => Some (t, [], l)
      | SElse => '(e, s, l) ← parse n vars l; match s with SEnd => Some (t, e, l) | _ => None end
      end
  end.

(** [template.New(name).Parse(tpl)] *)
Definition Parse (tpl : string) : option (list node) :=
  let '(t, l) := pieces false tpl in
  l ← items t l;
  '(t, s, l) ← parse (S (2 * length l)) [] l;
  match s with SEof => Some t | _ => None end.

(** ** Execution *)
Fixpoint fieldOf (v : value) (path : list string) : option value :=
  match path with
  | [] => Some v
  | k :: path =>
      match v with
      | VRec fs => match List.find (λ kv, bool_decide (kv.1 = k)) fs with
                   | Some kv => fieldOf kv.2 path
                   | None => None
                   end
      | _ => None
      end
  end.
Definition eval (vars : list (string * value)) (dot : value) (a : arg) : option value :=
  match a with
  | AField p => fieldOf dot p
  | AVar n => option_map snd (List.find (λ kv, bool_decide (kv.1 = n)) vars)
  | ALit s => Some (VStr s)
  end.
Definition truth (v : value) : bool :=
  match v with
  | VStr s => negb (bool_decide (s = EmptyString))
  | VInt z => negb (bool_decide (z = 0%Z))
  | VList l => negb (bool_decide (length l = 0))
  | VRec _ => true
  end.
Definition test (vars : list (string * value)) (dot : value) (c : cond) : option bool :=
  match c with
  | CTruth a => option_map truth (eval vars dot a)
  | CEq a b =>
      match eval vars dot a, eval vars dot b with
      | Some (VStr x), Some (VStr y) => Some (bool_decide (x = y))
      | _, _ => None
      end
  end.
Definition printed (v : value) : option string :=
  match v with VStr s => Some s | VInt z => Some (fmt_d z) | _ => None end.

(** The output up to an error, and the error. *)
Definition failed : error := Errorf "template: can't evaluate".
Definition andThen (a b : string * error) : string * error :=
  match a.2 with Some _ => a | None => (a.1 +:+ b.1, b.2) end.
Definition inTurn {A} (f : A → string * error) : list A → string * error :=
  foldr (λ x r, andThen (f x) r) (EmptyString, None).

Section execution.
(** What is done to a printed value: nothing, or HTML escaping. *)
Context (escape : string → string).
Fixpoint exec (vars : list (string * value)) (dot : value) (n : node) : string * error :=
  match n with
  | NText s => (s, None)
  | NPrint a =>
      match eval vars dot a ≫= printed with
      | Some s => (escape s, None)
      | None => (EmptyString, failed)
      end
  | NIf c t e =>
      match test vars dot c with
      | Some true => inTurn (exec vars dot) t
      | Some false => inTurn (exec vars dot) e
      | None => (EmptyString, failed)
      end
  | NRange i v a body e =>
      match eval vars dot a with
      | Some (VList []) => inTurn (exec vars dot) e
      | Some (VList l) =>
          inTurn (λ x : nat * value,
                    inTurn (exec ((i, VInt (Z.of_nat x.1)) :: (v, x.2) :: vars) x.2) body)
                 (imap pair l)
      | _ => (EmptyString, failed)
      end
  end.
(** [t.Execute(&buff, data)] of the parsed template. *)
Definition Execute (tpl : string) (data : value) : string * error :=
  match Parse tpl with
  | None => (EmptyString, Errorf "failed to parse config template")
  | Some nodes => inTurn (exec [] data) nodes
  end.
End execution.

Definition ExecuteText : string → value → string * error := Execute id.

(** html/template: a text without [<] is all in the context of HTML text, where
    a printed value has these bytes replaced. *)
Fixpoint htmlEscape (s : string) : string :=
  match s with
  | EmptyString => EmptyString
  | String c r =>
      (if Ascii.eqb c quoteMark then "&#34;"
       else if Ascii.eqb c "&" then "&amp;"
       else if Ascii.eqb c "'" then "&#39;"
       else if Ascii.eqb c "+" then "&#43;"
       else if Ascii.eqb c "<" then "&lt;"
       else if Ascii.eqb c ">" then "&gt;"
       else String c EmptyString) +:+ htmlEscape r
  end.
Definition ExecuteHTML : string → value → string * error := Execute htmlEscape.

(** ** Types *)
Inductive ty : Type :=
| TStr
| TInt
| TList (t : ty)
| TRec (fields : list (string * ty)).

Fixpoint hasTy (t : ty) (v : value) : Prop :=
  match t, v with
  | TStr, VStr _ => True
  | TInt, VInt _ => True
  | TList t, VList l => Forall (hasTy t) l
  | TRec ts, VRec fs =>
      (fix go (ts : list (string * ty)) (fs : list (string * value)) : Prop :=
         match ts, fs with
         | [], [] => True
         | kt :: ts, kv :: fs => kt.1 = kv.1 ∧ hasTy kt.2 kv.2 ∧ go ts fs
         | _, _ => False
         end) ts fs
  | _, _ => False
  end.
Fixpoint tyField (t : ty) (path : list string) : option ty :=
  match path with
  | [] => Some t
  | k :: path =>
      match t with
      | TRec ts => match List.find (λ kt, bool_decide (kt.1 = k)) ts with
                   | Some kt => tyField kt.2 path
                   | None => None
                   end
      | _ => None
      end
  end.
Definition typeOf (vars : list (string * ty)) (dot : ty) (a : arg) : option ty :=
  match a with
  | AField p => tyField dot p
  | AVar n => option_map snd (List.find (λ kt, bool_decide (kt.1 = n)) vars)
  | ALit s => Some TStr
  end.
Definition checkCond (vars : list (string * ty)) (dot : ty) (c : cond) : bool :=
  match c with
  | CTruth a => match typeOf vars dot a with Some _ => true | None => false end
  | CEq a b => match typeOf vars dot a, typeOf vars dot b with Some TStr, Some TStr => true | _, _ => false end
  end.
Fixpoint check (vars : list (string * ty)) (dot : ty) (n : node) : bool :=
  match n with
  | NText _ => true
  | NPrint a => match typeOf vars dot a with Some TStr | Some TInt => true | _ => false end
  | NIf c t e => checkCond vars dot c && forallb (check vars dot) t && forallb (check vars dot) e
  | NRange i v a body e =>
      match typeOf vars dot a with
      | Some (TList t) => forallb (check ((i, TInt) :: (v, t) :: vars) t) body && forallb (check vars dot) e
      | _ => false
      end
  end.
(** A template against the type of its data. *)
Definition checkTpl (t : ty) (tpl : string) : bool :=
  match Parse tpl with Some nodes => forallb (check [] t) nodes | None => false end.

Section node_induction.
Context (P : node → Prop) (Htext : ∀ s, P (NText s)) (Hprint : ∀ a, P (NPrint a)).
Context (Hif : ∀ c t e, Forall P t → Forall P e → P (NIf c t e)).
Context (Hrange : ∀ i v a body e, Forall P body → Forall P e → P (NRange i v a body e)).
Fixpoint node_full_ind (n : node) : P n :=
  let go := fix go (l : list node) : Forall P l :=
              match l with
              | [] => List.Forall_nil _
              | x :: rest => List.Forall_cons _ x rest (node_full_ind x) (go rest)
              end in
  match n with
  | NText s => Htext s
  | NPrint a => Hprint a
  | NIf c t e => Hif c t e (go t) (go e)
  | NRange i v a body e => Hrange i v a body e (go body) (go e)
  end.
End node_induction.

(** Variables of the types they are given. *)
Definition hasTys (ts : list (string * ty)) (vs : list (string * value)) : Prop :=
  Forall2 (λ kt kv, kt.1 = kv.1 ∧ hasTy kt.2 kv.2) ts vs.

Lemma hasTy_rec ts fs : hasTy (TRec ts) (VRec fs) ↔ hasTys ts fs.
Proof.
  unfold hasTys. revert fs. induction ts as [|kt ts IH]; intros [|kv fs]; cbn.
  - by split.
  - split; [done|]. by inversion 1.
  - split; [done|]. by inversion 1.
  - rewrite Forall2_cons. specialize (IH fs). cbn in IH. rewrite <- IH. tauto.
Qed.

Lemma hasTys_find ts vs k kt :
  hasTys ts vs → List.find (λ kt, bool_decide (kt.1 = k)) ts = Some kt →
  ∃ kv, List.find (λ kv, bool_decide (kv.1 = k)) vs = Some kv ∧ hasTy kt.2 kv.2.
Proof.
  intros HF. induction HF as [|x y ts vs [Hk Ht] _ IH]; [done|]. cbn. rewrite Hk.
  destruct (bool_decide (y.1 = k)); [|done]. intros [= <-]. eauto.
Qed.

Lemma fieldOf_ty p : ∀ t v t', hasTy t v → tyField t p = Some t' → ∃ v', fieldOf v p = Some v' ∧ hasTy t' v'.
Proof.
  induction p as [|k p IH]; intros t v t' Hv; cbn [tyField fieldOf]; [intros [= <-]; eauto|].
  destruct t as [| | |ts]; try done. destruct v as [| | |fs]; try done. apply hasTy_rec in Hv.
  destruct (List.find _ ts) as [kt|] eqn:E; [|done]. apply (hasTys_find ts fs) in E as (kv & -> & Hkv); [|done].
  by apply IH.
Qed.

Lemma eval_ty ts vars t dot a t' : hasTys ts vars → hasTy t dot → typeOf ts t a = Some t' →
  ∃ v, eval vars dot a = Some v ∧ hasTy t' v.
Proof.
  intros Hvs Hd. destruct a as [p|n|s]; cbn [typeOf eval].
  - by apply fieldOf_ty.
  - destruct (List.find _ ts) as [kt|] eqn:E; [|done]. intros [= <-].
    apply (hasTys_find ts vars) in E as (kv & -> & Hkv); [|done]. eauto.
  - intros [= <-]. by exists (VStr s).
Qed.

Lemma test_ty ts vars t dot c : hasTys ts vars → hasTy t dot → checkCond ts t c = true →
  ∃ b, test vars dot c = Some b.
Proof.
  intros Hvs Hd. destruct c as [a|a b]; cbn [checkCond test].
  - destruct (typeOf ts t a) as [t'|] eqn:E; [|done]. eapply eval_ty in E as (v & -> & _); [|done..]. eauto.
  - destruct (typeOf ts t a) as [[]|] eqn:Ea; try done. destruct (typeOf ts t b) as [[]|] eqn:Eb; try done.
    eapply eval_ty in Ea as (x & -> & Hx); [|done..]. eapply eval_ty in Eb as (y & -> & Hy); [|done..].
    destruct x; try done. destruct y; try done. eauto.
Qed.

Lemma inTurn_ok {A} (f : A → string * error) l : Forall (λ x, (f x).2 = None) l → (inTurn f l).2 = None.
Proof.
  induction 1 as [|x l Hx _ IH]; [done|]. cbn. unfold andThen. rewrite Hx. exact IH.
Qed.

(** A checked template executes without error on all data of its type, whatever
    is done to what it prints. *)
Theorem exec_sound escape n : ∀ ts vars t dot, hasTys ts vars → hasTy t dot → check ts t n = true →
  (exec escape vars dot n).2 = None.
Proof.
  assert (∀ l ts vars t dot,
            Forall (λ n, ∀ ts vars t dot, hasTys ts vars → hasTy t dot → check ts t n = true →
                         (exec escape vars dot n).2 = None) l →
            hasTys ts vars → hasTy t dot → forallb (check ts t) l = true →
            (inTurn (exec escape vars dot) l).2 = None) as Hlist.
  { intros l ts vars t dot IH Hvs Hd Hc. apply inTurn_ok. rewrite forallb_forall in Hc.
    rewrite Forall_forall in *. intros x Hx. eapply IH; [done..|]. apply Hc. by apply list_elem_of_In. }
  induction n as [s|a|c t e IHt IHe|i v a body e IHb IHe] using node_full_ind; intros ts vars t0 dot Hvs Hd;
    cbn [check exec].
  - done.
  - destruct (typeOf ts t0 a) as [t|] eqn:E; [|done].
    eapply eval_ty in E as (x & -> & Hx); [|done..]. by destruct t, x.
  - rewrite !andb_true_iff. intros [[Hc Ht] He]. eapply test_ty in Hc as (b & ->); [|done..].
    destruct b; by eapply Hlist.
  - destruct (typeOf ts t0 a) as [[| |t|]|] eqn:E; try done. rewrite andb_true_iff. intros [Hb He].
    eapply eval_ty in E as (x & -> & Hx); [|done..]. destruct x as [| |l|]; try done.
    destruct l as [|y l]; [by eapply Hlist|]. apply inTurn_ok. apply Forall_forall. intros [k z] Hz.
    apply list_elem_of_lookup in Hz as (j & Hj). rewrite list_lookup_imap in Hj. cbn [hasTy] in Hx.
    destruct ((y :: l) !! j) as [w|] eqn:Ej; [|done]. injection Hj as <- <-.
    assert (hasTy t w) as Hw by (rewrite Forall_forall in Hx; apply Hx; by eapply list_elem_of_lookup_2).
    eapply Hlist; [done| |done|done]. by repeat constructor.
Qed.

Lemma Execute_ok escape tpl t data :
  checkTpl t tpl = true → hasTy t data → ∃ out, Execute escape tpl data = (out, None).
Proof.
  unfold checkTpl, Execute. destruct (Parse tpl) as [nodes|]; [|done]. intros Hc Hd.
  assert ((inTurn (exec escape [] data) nodes).2 = None) as E.
  { apply inTurn_ok. rewrite forallb_forall in Hc. apply Forall_forall. intros x Hx%list_elem_of_In.
    eapply exec_sound; [constructor|done|]. by apply Hc. }
  destruct (inTurn _ nodes) as [out err]. cbn in E. subst. eauto.
Qed.

(** What one part writes is a part of what all write. *)
Lemma inTurn_part {A} (f : A → string * error) l x :
  x ∈ l → (inTurn f l).2 = None → ∃ p q, (inTurn f l).1 = p +:+ (f x).1 +:+ q.
Proof.
  induction l as [|y l IH]; [by intros ?%elem_of_nil|]. rewrite elem_of_cons. cbn. unfold andThen.
  destruct (f y) as [out [e|]] eqn:Ey; [done|]. cbn. intros [->|Hin] Hn.
  - rewrite Ey. by exists EmptyString, (inTurn f l).1.
  - destruct (IH Hin Hn) as (p & q & E). exists (out +:+ p), q. rewrite string_app_assoc. f_equal. exact E.
Qed.

(** ** The fuel of the parser is enough *)
Lemma parse_length n :
  (∀ vars l xs s l', parse n vars l = Some (xs, s, l') → length l' ≤ length l) ∧
  (∀ inner vars l t e l', block n inner vars l = Some (t, e, l') → length l' ≤ length l).
Proof.
  induction n as [|n [IHp IHb]]; [done|]. split.
  - intros vars l xs s l'. cbn [parse].
    destruct l as [|x l]; [by intros [= <- <- <-]|].
    assert (∀ r, match r with
                 | Some (y, l1) => length l1 ≤ length l
                 | None => True
                 end → ('(y, l1) ← r; '(ys, s, l2) ← parse n vars l1; Some (y :: ys, s, l2)) = Some (xs, s, l') →
                 length l' ≤ length (x :: l)) as step.
    { intros [[y l1]|] Hl; [|done]. cbn. destruct (parse n vars l1) as [[[ys s1] l2]|] eqn:E; [|done].
      cbn. intros [= <- <- <-]. apply IHp in E. lia. }
    destruct x as [t|a|c|i v a| |]; try (by intros [= <- <- <-]; cbn; lia); apply step.
    + done.
    + by destruct (knownArg vars a).
    + destruct (knownCond vars c); [|done]. destruct (block n vars vars l) as [[[t e] l1]|] eqn:E; [|done]. cbn. by apply IHb in E.
    + destruct (knownArg vars a); [|done]. destruct (block n _ vars l) as [[[t e] l1]|] eqn:E; [|done]. cbn. by apply IHb in E.
  - intros inner vars l t e l'. cbn [block].
    destruct (parse n inner l) as [[[t1 s1] l1]|] eqn:E1; [|done]. apply IHp in E1. cbn.
    destruct s1; [done| |by intros [= <- <- <-]].
    destruct (parse n vars l1) as [[[t2 s2] l2]|] eqn:E2; [|done]. apply IHp in E2. cbn.
    destruct s2; try done. intros [= <- <- <-]. lia.
Qed.

Lemma parse_fuel n :
  (∀ vars l m, 2 * length l < n → n ≤ m → parse m vars l = parse n vars l) ∧
  (∀ inner vars l m, S (2 * length l) < n → n ≤ m → block m inner vars l = block n inner vars l).
Proof.
  induction n as [|n [IHp IHb]]; [split; intros; lia|]. split; intros.
  - destruct m as [|m]; [lia|]. cbn [parse]. destruct l as [|x l]; [done|]. cbn [length] in *.
    assert (∀ r, match r with Some (y, l1) => length l1 ≤ length l | None => True end →
                 ('(y, l1) ← r; '(ys, s, l2) ← parse m vars l1; Some (y :: ys, s, l2)) =
                 ('(y, l1) ← r; '(ys, s, l2) ← parse n vars l1; Some (y :: ys, s, l2) : option (list node * stop * list item)))
      as step.
    { intros [[y l1]|] Hl; [|done]. cbn. by rewrite IHp by lia. }
    destruct x as [t|a|c|i v a| |]; try done; rewrite ?IHb by lia; apply step.
    + done.
    + by destruct (knownArg vars a).
    + destruct (knownCond vars c); [|done]. destruct (block n vars vars l) as [[[t e] l1]|] eqn:E; [|done]. cbn.
      by apply (proj2 (parse_length n)) in E.
    + destruct (knownArg vars a); [|done]. destruct (block n _ vars l) as [[[t e] l1]|] eqn:E; [|done]. cbn.
      by apply (proj2 (parse_length n)) in E.
  - destruct m as [|m]; [lia|]. cbn [block]. rewrite IHp by lia.
    destruct (parse n inner l) as [[[t1 s1] l1]|] eqn:E1; [|done]. apply (proj1 (parse_length n)) in E1. cbn.
    destruct s1; try done. by rewrite IHp by lia.
Qed.

(** What the parser answers does not depend on the fuel it is given. *)
Theorem parse_enough vars l n : S (2 * length l) ≤ n → parse n vars l = parse (S (2 * length l)) vars l.
Proof. intros. apply parse_fuel; lia. Qed.
End Tmpl.
