(* ===== verification/AddonText.v ===== *)
(** * The texts the actions install (pkg/actions/post, pkg/actions/kubeadm/tpl)

    The manifests of the addons, of the operator and of the monitor, and the
    configuration of kubeadm, as templates.  A text longer than a screen is given
    in parts. *)
From stdpp Require Import base strings.
From S2P Require Import Prelude GoTemplate.

(** The cloud controller manager. *)
Definition ccmtpl_1 : string := raw "
{{ if eq .Action `Install` }}
apiVersion: v1
kind: ServiceAccount
metadata:
  name: cloud-controller-manager
  namespace: kube-system
---
kind: ClusterRole
apiVersion: rbac.authorization.k8s.io/v1
metadata:
  name: system:cloud-controller-manager
rules:
  - apiGroups:
      - ``
    resources:
      - persistentvolumes
      - services
      - secrets
      - endpoints
      - serviceaccounts
    verbs:
      - get
      - list
      - watch
      - create
      - update
      - patch
  - apiGroups:
      - ``
    resources:
      - nodes
    verbs:
      - get
      - list
      - watch
      - delete
      - patch
      - update
  - apiGroups:
      - ``
    resources:
      - services/status
    verbs:
      - update
      - patch
  - apiGroups:
      - ``
    resources:
      - nodes/status
    verbs:
      - patch
      - update
  - apiGroups:
      - ``
    resources:
      - events
      - endpoints
    verbs:
      - create
      - patch
      - update
  - apiGroups:
      - coordination.k8s.io
    resources:
      - leases
    verbs:
      - get
      - update
      - create
      - delete
---
kind: ClusterRoleBinding
apiVersion: rbac.authorization.k8s.io/v1
metadata:
  name: system:cloud-controller-manager
roleRef:
  apiGroup: rbac.authorization.k8s.io
  kind: ClusterRole
  name: system:cloud-controller-manager
subjects:
- kind: ServiceAccount
  name: cloud-controller-manager
  namespace: kube-system
---
kind: ClusterRoleBinding
apiVersion: rbac.authorization.k8s.io/v1
metadata:
  name: system:shared-informers
roleRef:
  apiGroup: rbac.authorization.k8s.io
  kind: ClusterRole
  name: system:cloud-controller-manager
subjects:
- kind: ServiceAccount
  name: shared-informers
  namespace: kube-system
---
kind: ClusterRoleBinding
apiVersion: rbac.authorization.k8s.io/v1
metadata:
  name: system:cloud-node-controller
roleRef:
  apiGroup: rbac.authorization.k8s.io
  kind: ClusterRole
  name: system:cloud-controller-manager
subjects:
- kind: ServiceAccount
  name: cloud-node-controller
  namespace: kube-system
---
kind: ClusterRoleBinding
apiVersion: rbac.authorization.k8s.io/v1
metadata:
  name: system:pvl-controller
roleRef:
  apiGroup: rbac.authorization.k8s.io
  kind: ClusterRole
  name: system:cloud-controller-manager
subjects:
- kind: ServiceAccount
  name: pvl-controller
  namespace: kube-system
---
kind: ClusterRoleBinding
apiVersion: rbac.authorization.k8s.io/v1
metadata:
  name: system:route-controller
roleRef:
  apiGroup: rbac.authorization.k8s.io
  kind: ClusterRole
  name: system:cloud-controller-manager
subjects:
- kind: ServiceAccount
  name: route-controller
  namespace: kube-system
".

Definition ccmtpl_2 : string := raw "---
{{ end }}
apiVersion: apps/v1
kind: DaemonSet
metadata:
  labels:
    app: cloud-controller-manager
    tier: control-plane
  name: cloud-controller-manager
  namespace: kube-system
spec:
  selector:
    matchLabels:
      app: cloud-controller-manager
      tier: control-plane
  updateStrategy:
    rollingUpdate:
      maxUnavailable: 1
    type: RollingUpdate
  template:
    metadata:
      labels:
        app: cloud-controller-manager
        tier: control-plane
      annotations:
        scheduler.alpha.kubernetes.io/critical-pod: ''
    spec:
      serviceAccountName: cloud-controller-manager
      tolerations:
      - operator: Exists
      nodeSelector:
        node-role.kubernetes.io/master: ``
      containers:
      - command:
        -  /cloud-controller-manager
        - --kubeconfig=/etc/kubernetes/cloud-controller-manager.conf
        - --address=127.0.0.1
{{ if eq .CIDR `` }}
        - --configure-cloud-routes=false
{{ else }}
        - --cluster-cidr={{.CIDR}}
        - --configure-cloud-routes=true
        - --route-reconciliation-period=3m
{{ end }}
        - --allow-untagged-cloud=true
        - --leader-elect=true
        - --cloud-provider=alicloud
        - --allocate-node-cidrs=true
        - --use-service-account-credentials=true
        - --v=5
        - --feature-gates=ServiceNodeExclusion=true
        image: registry-vpc.{{.Region}}.aliyuncs.com/acs/cloud-controller-manager-amd64:{{.ImageVersion}}
        livenessProbe:
          failureThreshold: 8
          httpGet:
            host: 127.0.0.1
            path: /healthz
            port: 10258
            scheme: HTTP
          initialDelaySeconds: 15
          timeoutSeconds: 15
        name: cloud-controller-manager
        resources:
          requests:
            cpu: 200m
        volumeMounts:
        - mountPath: /etc/kubernetes/
          name: k8s
          readOnly: true
        - mountPath: /etc/ssl/certs
          name: certs
        - mountPath: /etc/pki
          name: pki
      hostNetwork: true
      volumes:
      - hostPath:
          path: /etc/kubernetes
        name: k8s
      - hostPath:
          path: /etc/ssl/certs
        name: certs
      - hostPath:
          path: /etc/pki
        name: pki
".

Definition ccmtpl : string := ccmtpl_1 +:+ ccmtpl_2.

(** The name server. *)
Definition coredns_1 : string := raw "
apiVersion: apps/v1
kind: Deployment
metadata:
  name: coredns
  namespace: kube-system
  labels:
    k8s-app: kube-dns
spec:
{{ if eq .Action `Install` }}
  replicas: 2
{{ end }}
  strategy:
    type: RollingUpdate
    rollingUpdate:
      maxUnavailable: 1
  selector:
    matchLabels:
      k8s-app: kube-dns
  template:
    metadata:
      labels:
        k8s-app: kube-dns
    spec:
      priorityClassName: system-cluster-critical
      affinity:
        nodeAffinity:
          requiredDuringSchedulingIgnoredDuringExecution:
            nodeSelectorTerms:
            - matchExpressions:
              - key: type
                operator: NotIn
                values:
                - virtual-kubelet
        podAntiAffinity:
          preferredDuringSchedulingIgnoredDuringExecution:
          - weight: 100
            podAffinityTerm:
              labelSelector:
                matchExpressions:
                  - key: k8s-app
                    operator: In
                    values: [`kube-dns`]
              topologyKey: kubernetes.io/hostname
      serviceAccountName: coredns
      tolerations:
      - key: CriticalAddonsOnly
        operator: Exists
      - key: node-role.kubernetes.io/master
        effect: NoSchedule
      nodeSelector:
        beta.kubernetes.io/os: linux
      containers:
      - name: coredns
        image: registry-vpc.{{.Region}}.aliyuncs.com/acs/coredns:{{.ImageVersion}}
        imagePullPolicy: IfNotPresent
        resources:
          limits:
            memory: 170Mi
          requests:
            cpu: 100m
            memory: 70Mi
        args: [ `-conf`, `/etc/coredns/Corefile` ]
        volumeMounts:
        - name: config-volume
          mountPath: /etc/coredns
          readOnly: true
        ports:
        - containerPort: 53
          name: dns
          protocol: UDP
        - containerPort: 53
          name: dns-tcp
          protocol: TCP
        - containerPort: 9153
          name: metrics
          protocol: TCP
        livenessProbe:
          httpGet:
            path: /health
            port: 8080
            scheme: HTTP
          initialDelaySeconds: 60
          timeoutSeconds: 5
          successThreshold: 1
          failureThreshold: 5
        readinessProbe:
          httpGet:
            path: /health
            port: 8080
            scheme: HTTP
        securityContext:
          allowPrivilegeEscalation: false
          capabilities:
            add:
            - NET_BIND_SERVICE
            drop:
            - all
          readOnlyRootFilesystem: true
      dnsPolicy: Default
      volumes:
        - name: config-volume
          configMap:
            name: coredns
            items:
            - key: Corefile
              path: Corefile
{{ if eq .Action `Install` }}
---
apiVersion: v1
kind: ConfigMap
metadata:
  name: coredns
  namespace: kube-system
data:
  Corefile: |
    .:53 {
        errors
        health {
            lameduck 5s
        }
        kubernetes cluster.local in-addr.arpa ip6.arpa {
           pods insecure
           fallthrough in-addr.arpa ip6.arpa
           ttl 30
        }
        prometheus :9153
        forward . /etc/resolv.conf
        cache 30
        loop
        reload
        loadbalance
    }
".

Definition coredns_2 : string := raw "---
apiVersion: v1
kind: Service
metadata:
  labels:
    k8s-app: kube-dns
    kubernetes.io/cluster-service: `true`
    kubernetes.io/name: `KubeDNS`
  name: kube-dns
  namespace: kube-system
  annotations:
    prometheus.io/port: `9153`
    prometheus.io/scrape: `true`
  # Without this resourceVersion value, an update of the Service between versions will yield:
  #   Service `kube-dns` is invalid: metadata.resourceVersion: Invalid value: ``: must be specified for an update
  resourceVersion: `0`
spec:
  sessionAffinity: ClientIP
  clusterIP: {{.KubeDnsClusterIp}}
  ports:
  - name: dns
    port: 53
    protocol: UDP
    targetPort: 53
  - name: dns-tcp
    port: 53
    protocol: TCP
    targetPort: 53
  - name: metrics
    port: 9153
    protocol: TCP
    targetPort: 9153
  selector:
    k8s-app: kube-dns
---
apiVersion: rbac.authorization.k8s.io/v1
kind: ClusterRole
metadata:
  name: system:coredns
rules:
- apiGroups:
  - ``
  resources:
  - endpoints
  - services
  - pods
  - namespaces
  verbs:
  - list
  - watch
- apiGroups:
  - ``
  resources:
  - nodes
  verbs:
  - get
---
apiVersion: rbac.authorization.k8s.io/v1
kind: ClusterRoleBinding
metadata:
  name: system:coredns
roleRef:
  apiGroup: rbac.authorization.k8s.io
  kind: ClusterRole
  name: system:coredns
subjects:
- kind: ServiceAccount
  name: coredns
  namespace: kube-system
---
apiVersion: v1
kind: ServiceAccount
metadata:
  name: coredns
  namespace: kube-system
{{ end }}
".

Definition coredns : string := coredns_1 +:+ coredns_2.

(** The storage plugin of the nodes. *)
Definition csi_plugin_1 : string := raw "
---
apiVersion: v1
kind: ServiceAccount
metadata:
  name: csi-admin
  namespace: kube-system
---
kind: ClusterRole
apiVersion: rbac.authorization.k8s.io/v1
metadata:
  name: alicloud-csi-plugin
rules:
  - apiGroups: [``]
    resources: [`secrets`]
    verbs: [`get`, `list`]
  - apiGroups: [``]
    resources: [`persistentvolumes`]
    verbs: [`get`, `list`, `watch`, `update`, `create`, `delete`, `patch`]
  - apiGroups: [``]
    resources: [`persistentvolumeclaims`]
    verbs: [`get`, `list`, `watch`, `update`]
  - apiGroups: [``]
    resources: [`persistentvolumeclaims/status`]
    verbs: [`get`, `list`, `watch`, `update`, `patch`]
  - apiGroups: [`storage.k8s.io`]
    resources: [`storageclasses`]
    verbs: [`get`, `list`, `watch`]
  - apiGroups: [`storage.k8s.io`]
    resources: [`csinodes`]
    verbs: [`get`, `list`, `watch`]
  - apiGroups: [``]
    resources: [`events`]
    verbs: [`get`, `list`, `watch`, `create`, `update`, `patch`]
  - apiGroups: [``]
    resources: [`endpoints`]
    verbs: [`get`, `watch`, `list`, `delete`, `update`, `create`]
  - apiGroups: [``]
    resources: [`configmaps`]
    verbs: [`get`, `watch`, `list`, `delete`, `update`, `create`]
  - apiGroups: [``]
    resources: [`nodes`]
    verbs: [`get`, `list`, `watch`, `update`]
  - apiGroups: [`csi.storage.k8s.io`]
    resources: [`csinodeinfos`]
    verbs: [`get`, `list`, `watch`]
  - apiGroups: [`storage.k8s.io`]
    resources: [`volumeattachments`]
    verbs: [`get`, `list`, `watch`, `update`, `patch`]
  - apiGroups: [`snapshot.storage.k8s.io`]
    resources: [`volumesnapshotclasses`]
    verbs: [`get`, `list`, `watch`]
  - apiGroups: [`snapshot.storage.k8s.io`]
    resources: [`volumesnapshotcontents`]
    verbs: [`create`, `get`, `list`, `watch`, `update`, `delete`]
  - apiGroups: [`snapshot.storage.k8s.io`]
    resources: [`volumesnapshots`]
    verbs: [`get`, `list`, `watch`, `update`]
  - apiGroups: [`apiextensions.k8s.io`]
    resources: [`customresourcedefinitions`]
    verbs: [`create`, `list`, `watch`, `delete`, `get`, `update`, `patch`]
  - apiGroups: [`coordination.k8s.io`]
    resources: [`leases`]
    verbs: [`get`, `create`, `list`, `watch`, `delete`, `update`]
  - apiGroups: [`snapshot.storage.k8s.io`]
    resources: [`volumesnapshotcontents/status`]
    verbs: [`update`]
  - apiGroups: [`storage.k8s.io`]
    resources: [`volumeattachments/status`]
    verbs: [`patch`]
  - apiGroups: [`snapshot.storage.k8s.io`]
    resources: [`volumesnapshots/status`]
    verbs: [`update`]
  - apiGroups: [`storage.k8s.io`]
    resources: [`storageclasses`]
    verbs: [`get`, `list`, `watch`]
  - apiGroups: [``]
    resources: [`namespaces`]
    verbs: [`get`, `list`]
  - apiGroups: [``]
    resources: [`pods`,`pods/exec`]
    verbs: [`create`, `delete`, `get`, `post`, `list`, `watch`, `patch`, `udpate`]
  - apiGroups: [`storage.alibabacloud.com`]
    resources: [`rules`]
    verbs: [`get`]
  - apiGroups: [`storage.alibabacloud.com`]
    resources: [`containernetworkfilesystems`]
    verbs: [`get`,`list`, `watch`]
---
kind: ClusterRoleBinding
apiVersion: rbac.authorization.k8s.io/v1
metadata:
  name: alicloud-csi-plugin
subjects:
  - kind: ServiceAccount
    name: csi-admin
    namespace: kube-system
roleRef:
  kind: ClusterRole
  name: alicloud-csi-plugin
  apiGroup: rbac.authorization.k8s.io
---
apiVersion: storage.k8s.io/v1beta1
kind: CSIDriver
metadata:
  name: diskplugin.csi.alibabacloud.com
spec:
  attachRequired: true
  podInfoOnMount: true
---
apiVersion: storage.k8s.io/v1beta1
kind: CSIDriver
metadata:
  name: nasplugin.csi.alibabacloud.com
spec:
  attachRequired: false
  podInfoOnMount: true
---
apiVersion: storage.k8s.io/v1beta1
kind: CSIDriver
metadata:
  name: ossplugin.csi.alibabacloud.com
spec:
  attachRequired: false
  podInfoOnMount: true
".

Definition csi_plugin_2 : string := raw "---
kind: DaemonSet
apiVersion: apps/v1
metadata:
  name: csi-plugin
  namespace: kube-system
spec:
  selector:
    matchLabels:
      app: csi-plugin
  template:
    metadata:
      labels:
        app: csi-plugin
        random.uuid: `{{ .UUID }}`
    spec:
      tolerations:
        - operator: Exists
      affinity:
        nodeAffinity:
          requiredDuringSchedulingIgnoredDuringExecution:
            nodeSelectorTerms:
            - matchExpressions:
              - key: type
                operator: NotIn
                values:
                - virtual-kubelet
      nodeSelector:
        beta.kubernetes.io/os: linux
      serviceAccount: csi-admin
      priorityClassName: system-node-critical
      hostNetwork: true
      hostPID: true
      containers:
        - name: disk-driver-registrar
          image: registry-vpc.{{.Region}}.aliyuncs.com/acs/csi-node-driver-registrar:v1.3.0-6e9fff3-aliyun
          imagePullPolicy: Always
          resources:
            requests:
              cpu: 10m
              memory: 16Mi
          args:
            - `--v=5`
            - `--csi-address=/var/lib/kubelet/csi-plugins/diskplugin.csi.alibabacloud.com/csi.sock`
            - `--kubelet-registration-path=/var/lib/kubelet/csi-plugins/diskplugin.csi.alibabacloud.com/csi.sock`
          volumeMounts:
            - name: kubelet-dir
              mountPath: /var/lib/kubelet
            - name: registration-dir
              mountPath: /registration
        - name: nas-driver-registrar
          image: registry-vpc.{{.Region}}.aliyuncs.com/acs/csi-node-driver-registrar:v1.3.0-6e9fff3-aliyun
          imagePullPolicy: Always
          resources:
            requests:
              cpu: 10m
              memory: 16Mi
          args:
            - `--v=5`
            - `--csi-address=/var/lib/kubelet/csi-plugins/nasplugin.csi.alibabacloud.com/csi.sock`
            - `--kubelet-registration-path=/var/lib/kubelet/csi-plugins/nasplugin.csi.alibabacloud.com/csi.sock`
          volumeMounts:
            - name: kubelet-dir
              mountPath: /var/lib/kubelet/
            - name: registration-dir
              mountPath: /registration
        - name: oss-driver-registrar
          image: registry-vpc.{{.Region}}.aliyuncs.com/acs/csi-node-driver-registrar:v1.3.0-6e9fff3-aliyun
          imagePullPolicy: Always
          resources:
            requests:
              cpu: 10m
              memory: 16Mi
          args:
            - `--v=5`
            - `--csi-address=/var/lib/kubelet/csi-plugins/ossplugin.csi.alibabacloud.com/csi.sock`
            - `--kubelet-registration-path=/var/lib/kubelet/csi-plugins/ossplugin.csi.alibabacloud.com/csi.sock`
          volumeMounts:
            - name: kubelet-dir
              mountPath: /var/lib/kubelet/
            - name: registration-dir
              mountPath: /registration
        - name: csi-plugin
          securityContext:
            privileged: true
            capabilities:
              add: [`SYS_ADMIN`]
            allowPrivilegeEscalation: true
          image: registry-vpc.{{.Region}}.aliyuncs.com/acs/csi-plugin:{{.ImageVersion}}
          imagePullPolicy: `Always`
          args:
            - `--endpoint=$(CSI_ENDPOINT)`
            - `--v=2`
            - `--driver=oss,nas,disk`
          env:
            - name: KUBE_NODE_NAME
              valueFrom:
                fieldRef:
                  apiVersion: v1
                  fieldPath: spec.nodeName
            - name: CSI_ENDPOINT
              value: unix://var/lib/kubelet/csi-plugins/driverplugin.csi.alibabacloud.com-replace/csi.sock
            - name: MAX_VOLUMES_PERNODE
              value: `15`
            - name: SERVICE_TYPE
              value: `plugin`
          resources:
            requests:
              cpu: 100m
              memory: 128Mi
            limits:
              cpu: 500m
              memory: 1024Mi
          livenessProbe:
            httpGet:
              path: /healthz
              port: healthz
              scheme: HTTP
            initialDelaySeconds: 10
            periodSeconds: 30
            timeoutSeconds: 5
            failureThreshold: 5
          readinessProbe:
            httpGet:
              path: /healthz
              port: healthz
            initialDelaySeconds: 10
            periodSeconds: 30
            timeoutSeconds: 5
            failureThreshold: 5
          ports:
            - name: healthz
              containerPort: 11260
          volumeMounts:
            - name: kubelet-dir
".

Definition csi_plugin_3 : string := raw "              mountPath: /var/lib/kubelet/
              mountPropagation: `Bidirectional`
            - name: etc
              mountPath: /host/etc
            - name: host-log
              mountPath: /var/log/
            - name: ossconnectordir
              mountPath: /host/usr/
            - name: container-dir
              mountPath: /var/lib/container
              mountPropagation: `Bidirectional`
            - name: host-dev
              mountPath: /dev
              mountPropagation: `HostToContainer`
            - mountPath: /var/addon
              name: addon-token
              readOnly: true
      volumes:
        - name: registration-dir
          hostPath:
            path: /var/lib/kubelet/plugins_registry
            type: DirectoryOrCreate
        - name: container-dir
          hostPath:
            path: /var/lib/container
            type: DirectoryOrCreate
        - name: kubelet-dir
          hostPath:
            path: /var/lib/kubelet
            type: Directory
        - name: host-dev
          hostPath:
            path: /dev
        - name: host-log
          hostPath:
            path: /var/log/
        - name: etc
          hostPath:
            path: /etc
        - name: ossconnectordir
          hostPath:
            path: /usr/
        - name: addon-token
          secret:
            defaultMode: 420
            optional: true
            items:
            - key: addon.token.config
              path: token-config
            secretName: addon.csi.token
  updateStrategy:
    rollingUpdate:
      maxUnavailable: 10%
    type: RollingUpdate
".

Definition csi_plugin : string := csi_plugin_1 +:+ csi_plugin_2 +:+ csi_plugin_3.

(** The storage provisioner. *)
Definition csi_provision_1 : string := raw "
---
apiVersion: storage.k8s.io/v1
kind: StorageClass
metadata:
   name: alicloud-disk-available
provisioner: diskplugin.csi.alibabacloud.com
parameters:
    type: available
reclaimPolicy: Delete
allowVolumeExpansion: true
---
apiVersion: storage.k8s.io/v1
kind: StorageClass
metadata:
   name: alicloud-disk-essd
provisioner: diskplugin.csi.alibabacloud.com
parameters:
    type: cloud_essd
reclaimPolicy: Delete
allowVolumeExpansion: true
---
apiVersion: storage.k8s.io/v1
kind: StorageClass
metadata:
   name: alicloud-disk-ssd
provisioner: diskplugin.csi.alibabacloud.com
parameters:
    type: cloud_ssd
reclaimPolicy: Delete
allowVolumeExpansion: true
---
apiVersion: storage.k8s.io/v1
kind: StorageClass
metadata:
   name: alicloud-disk-efficiency
provisioner: diskplugin.csi.alibabacloud.com
parameters:
    type: cloud_efficiency
reclaimPolicy: Delete
allowVolumeExpansion: true
---
apiVersion: storage.k8s.io/v1
kind: StorageClass
metadata:
   name: alicloud-disk-topology
provisioner: diskplugin.csi.alibabacloud.com
parameters:
    type: available
reclaimPolicy: Delete
volumeBindingMode: WaitForFirstConsumer
allowVolumeExpansion: true
---
kind: Deployment
apiVersion: apps/v1
metadata:
  name: csi-provisioner
  namespace: kube-system
spec:
  selector:
    matchLabels:
      app: csi-provisioner
  strategy:
    rollingUpdate:
      maxSurge: 0
      maxUnavailable: 1
    type: RollingUpdate
  replicas: 2
  template:
    metadata:
      labels:
        app: csi-provisioner
    spec:
      affinity:
        nodeAffinity:
          preferredDuringSchedulingIgnoredDuringExecution:
          - weight: 1
            preference:
              matchExpressions:
              - key: node-role.kubernetes.io/master
                operator: Exists
          requiredDuringSchedulingIgnoredDuringExecution:
            nodeSelectorTerms:
            - matchExpressions:
              - key: type
                operator: NotIn
                values:
                - virtual-kubelet
        podAntiAffinity:
          requiredDuringSchedulingIgnoredDuringExecution:
          - labelSelector:
              matchExpressions:
              - key: app
                operator: In
                values:
                - csi-provisioner
            topologyKey: kubernetes.io/hostname
      tolerations:
      - effect: NoSchedule
        operator: Exists
        key: node-role.kubernetes.io/master
      - effect: NoSchedule
        operator: Exists
        key: node.cloudprovider.kubernetes.io/uninitialized
      serviceAccount: csi-admin
      priorityClassName: system-node-critical
      containers:
        - name: external-disk-provisioner
          image: registry-vpc.{{.Region}}.aliyuncs.com/acs/csi-provisioner:v1.6.0-71838bd-aliyun
          resources:
            requests:
              cpu: 10m
              memory: 16Mi
            limits:
              cpu: 500m
              memory: 1024Mi
          args:
            - `--provisioner=diskplugin.csi.alibabacloud.com`
            - `--csi-address=$(ADDRESS)`
            - `--feature-gates=Topology=True`
            - `--volume-name-prefix=disk`
            - `--strict-topology=true`
            - `--timeout=150s`
            - `--enable-leader-election=true`
            - `--leader-election-type=leases`
            - `--retry-interval-start=500ms`
            - `--v=5`
          env:
            - name: ADDRESS
              value: /var/lib/kubelet/csi-provisioner/diskplugin.csi.alibabacloud.com/csi.sock
          imagePullPolicy: `Always`
          volumeMounts:
            - name: disk-provisioner-dir
              mountPath: /var/lib/kubelet/csi-provisioner/diskplugin.csi.alibabacloud.com
        - name: external-disk-attacher
".

Definition csi_provision_2 : string := raw "          image: registry-vpc.{{.Region}}.aliyuncs.com/acs/csi-attacher:v2.1.0-b330d29-aliyun
          resources:
            requests:
              cpu: 10m
              memory: 16Mi
            limits:
              cpu: 500m
              memory: 1024Mi
          args:
            - `--v=5`
            - `--csi-address=$(ADDRESS)`
            - `--leader-election=true`
          env:
            - name: ADDRESS
              value: /var/lib/kubelet/csi-provisioner/diskplugin.csi.alibabacloud.com/csi.sock
          imagePullPolicy: `Always`
          volumeMounts:
            - name: disk-provisioner-dir
              mountPath: /var/lib/kubelet/csi-provisioner/diskplugin.csi.alibabacloud.com
        - name: external-disk-resizer
          image: registry-vpc.{{.Region}}.aliyuncs.com/acs/csi-resizer:v1.1.0-7b30758-aliyun
          resources:
            requests:
              cpu: 10m
              memory: 16Mi
            limits:
              cpu: 500m
              memory: 1024Mi
          args:
            - `--v=5`
            - `--csi-address=$(ADDRESS)`
            - `--leader-election`
          env:
            - name: ADDRESS
              value: /var/lib/kubelet/csi-provisioner/diskplugin.csi.alibabacloud.com/csi.sock
          imagePullPolicy: `Always`
          volumeMounts:
            - name: disk-provisioner-dir
              mountPath: /var/lib/kubelet/csi-provisioner/diskplugin.csi.alibabacloud.com
        - name: external-nas-provisioner
          image: registry-vpc.{{.Region}}.aliyuncs.com/acs/csi-provisioner:v1.6.0-71838bd-aliyun
          resources:
            requests:
              cpu: 10m
              memory: 16Mi
            limits:
              cpu: 500m
              memory: 1024Mi
          args:
            - `--provisioner=nasplugin.csi.alibabacloud.com`
            - `--csi-address=$(ADDRESS)`
            - `--volume-name-prefix=nas`
            - `--timeout=150s`
            - `--enable-leader-election=true`
            - `--leader-election-type=leases`
            - `--retry-interval-start=500ms`
            - `--v=5`
          env:
            - name: ADDRESS
              value: /var/lib/kubelet/csi-provisioner/nasplugin.csi.alibabacloud.com/csi.sock
          imagePullPolicy: `Always`
          volumeMounts:
            - name: nas-provisioner-dir
              mountPath: /var/lib/kubelet/csi-provisioner/nasplugin.csi.alibabacloud.com
        - name: external-nas-resizer
          image: registry-vpc.{{.Region}}.aliyuncs.com/acs/csi-resizer:v1.1.0-7b30758-aliyun
          resources:
            requests:
              cpu: 10m
              memory: 16Mi
            limits:
              cpu: 500m
              memory: 1024Mi
          args:
            - `--v=5`
            - `--csi-address=$(ADDRESS)`
            - `--leader-election`
          env:
            - name: ADDRESS
              value: /var/lib/kubelet/csi-provisioner/nasplugin.csi.alibabacloud.com/csi.sock
          imagePullPolicy: `Always`
          volumeMounts:
            - name: nas-provisioner-dir
              mountPath: /var/lib/kubelet/csi-provisioner/nasplugin.csi.alibabacloud.com
        - name: external-csi-snapshotter
          image: registry-vpc.{{.Region}}.aliyuncs.com/acs/csi-snapshotter:v4.0.0-5cbf27e-aliyun
          resources:
            requests:
              cpu: 10m
              memory: 16Mi
            limits:
              cpu: 500m
              memory: 1024Mi
          args:
            - `--v=5`
            - `--csi-address=$(ADDRESS)`
            - `--leader-election=true`
            - `--extra-create-metadata=true`
          env:
            - name: ADDRESS
              value: /csi/csi.sock
          imagePullPolicy: Always
          volumeMounts:
            - name: disk-provisioner-dir
              mountPath: /csi
        - name: external-snapshot-controller
          image: registry-vpc.{{.Region}}.aliyuncs.com/acs/snapshot-controller:v4.0.0-5cbf27e-aliyun
          resources:
            requests:
              cpu: 10m
              memory: 16Mi
            limits:
              cpu: 500m
              memory: 1024Mi
          args:
            - `--v=5`
            - `--leader-election=true`
          imagePullPolicy: Always
        - name: csi-provisioner
          securityContext:
            privileged: true
          image: registry-vpc.{{.Region}}.aliyuncs.com/acs/csi-plugin:{{.ImageVersion}}
          imagePullPolicy: `Always`
          args:
            - `--endpoint=$(CSI_ENDPOINT)`
            - `--v=2`
            - `--driver=nas,disk`
          env:
            - name: CSI_ENDPOINT
              value: unix://var/lib/kubelet/csi-provisioner/driverplugin.csi.alibabacloud.com-replace/csi.sock
            - name: MAX_VOLUMES_PERNODE
              value: `15`
            - name: SERVICE_TYPE
              value: `provisioner`
            - name: `CLUSTER_ID`
".

Definition csi_provision_3 : string := raw "              value: `empty.cluster.id`
          livenessProbe:
            httpGet:
              path: /healthz
              port: healthz
              scheme: HTTP
            initialDelaySeconds: 10
            periodSeconds: 30
            timeoutSeconds: 5
            failureThreshold: 5
          readinessProbe:
            httpGet:
              path: /healthz
              port: healthz
            initialDelaySeconds: 5
            periodSeconds: 20
          ports:
            - name: healthz
              containerPort: 11270
          volumeMounts:
            - name: host-log
              mountPath: /var/log/
            - name: disk-provisioner-dir
              mountPath: /var/lib/kubelet/csi-provisioner/diskplugin.csi.alibabacloud.com
            - name: nas-provisioner-dir
              mountPath: /var/lib/kubelet/csi-provisioner/nasplugin.csi.alibabacloud.com
            - mountPath: /var/addon
              name: addon-token
              readOnly: true
          resources:
            limits:
              cpu: 500m
              memory: 1024Mi
            requests:
              cpu: 100m
              memory: 128Mi
      volumes:
        - name: disk-provisioner-dir
          emptyDir: {}
        - name: nas-provisioner-dir
          emptyDir: {}
        - name: host-log
          hostPath:
            path: /var/log/
        - name: addon-token
          secret:
            defaultMode: 420
            optional: true
            items:
            - key: addon.token.config
              path: token-config
            secretName: addon.csi.token
".

Definition csi_provision : string := csi_provision_1 +:+ csi_provision_2 +:+ csi_provision_3.

(** An overlay network, not among the addons installed. *)
Definition flannel : string := raw "
---
kind: ClusterRole
apiVersion: rbac.authorization.k8s.io/v1
metadata:
  name: flannel
rules:
  - apiGroups:
      - ``
    resources:
      - pods
    verbs:
      - get
  - apiGroups:
      - ``
    resources:
      - nodes
    verbs:
      - list
      - watch
      - put
  - apiGroups:
      - ``
    resources:
      - nodes/status
    verbs:
      - patch
---
kind: ClusterRoleBinding
apiVersion: rbac.authorization.k8s.io/v1
metadata:
  name: flannel
roleRef:
  apiGroup: rbac.authorization.k8s.io
  kind: ClusterRole
  name: flannel
subjects:
- kind: ServiceAccount
  name: flannel
  namespace: kube-system

---
apiVersion: v1
kind: ServiceAccount
metadata:
  name: flannel
  namespace: kube-system
---
kind: ConfigMap
apiVersion: v1
metadata:
  name: kube-flannel-cfg
  namespace: kube-system
  labels:
    tier: node
    app: flannel
data:
  cni-conf.json: |
    {
      `name`: `cb0`,
      `cniVersion`:`0.3.0`,
      `type`: `flannel`,
      `delegate`: {
        `isDefaultGateway`: true
      }
    }
  net-conf.json: |
    {
      `Network`: `{{.CIDR}}`,
      `Backend`: {
        `Type`: `alloc`
      }
    }
---
apiVersion: apps/v1
kind: DaemonSet
metadata:
  name: kube-flannel-ds
  namespace: kube-system
  labels:
    tier: node
    app: flannel
spec:
  selector:
    matchLabels:
      tier: node
      app: flannel
  template:
    metadata:
      labels:
        tier: node
        app: flannel
      annotations:
        scheduler.alpha.kubernetes.io/critical-pod: ''
    spec:
      tolerations:
      - operator: Exists
      serviceAccountName: flannel
      hostNetwork: true
      nodeSelector:
        kubernetes.io/arch: amd64
        kubernetes.io/os: linux
      containers:
      - name: kube-flannel
        image: registry-vpc.{{.Region}}.aliyuncs.com/acs/flannel:{{.ImageVersion}}
        command: [ `/opt/bin/flanneld`, `--ip-masq`, `--kube-subnet-mgr` ]
        securityContext:
          privileged: true
        env:
        - name: POD_NAME
          valueFrom:
            fieldRef:
              fieldPath: metadata.name
        - name: POD_NAMESPACE
          valueFrom:
            fieldRef:
              fieldPath: metadata.namespace
        volumeMounts:
        - name: run
          mountPath: /run
        - name: flannel-cfg
          mountPath: /etc/kube-flannel/
      - name: install-cni
        image: registry-vpc.{{.Region}}.aliyuncs.com/acs/flannel:{{.ImageVersion}}
        command: [ `/bin/sh`, `-c`, `set -e -x; cp -f /etc/kube-flannel/cni-conf.json /etc/cni/net.d/10-flannel.conf; while true; do sleep 3600; done` ]
        volumeMounts:
        - name: cni
          mountPath: /etc/cni/net.d
        - name: flannel-cfg
          mountPath: /etc/kube-flannel/
      volumes:
        - name: run
          hostPath:
            path: /run
        - name: cni
          hostPath:
            path: /etc/cni/net.d
        - name: flannel-cfg
          configMap:
            name: kube-flannel-cfg
".

(** The ingress controller. *)
Definition ingress_1 : string := raw "
{{ if eq .Action `Install` }}
---
apiVersion: v1
kind: Service
metadata:
  name: nginx-ingress-lb
  namespace: {{.Namespace}}
  labels:
    app: nginx-ingress-lb
  {{ if .IngressSlbNetworkType }}
  annotations:
    service.beta.kubernetes.io/alicloud-loadbalancer-address-type: `{{.IngressSlbNetworkType}}`
  {{ end }}
spec:
  type: LoadBalancer
  externalTrafficPolicy: `Local`
  ports:
  - port: 80
    name: http
    targetPort: 80
  - port: 443
    name: https
    targetPort: 443
  selector:
    app: ingress-nginx
---
apiVersion: v1
kind: ConfigMap
metadata:
  name: nginx-configuration
  namespace: {{.Namespace}}
  labels:
    app: ingress-nginx
data:
    log-format-upstream: '$the_real_ip - [$the_real_ip] - $remote_user [$time_local] `$request` $status $body_bytes_sent `$http_referer` `$http_user_agent` $request_length $request_time [$proxy_upstream_name] $upstream_addr $upstream_response_length $upstream_response_time $upstream_status $req_id $host'
    proxy-body-size: 20m
    proxy-connect-timeout: `10`
    max-worker-connections: `65536`
    enable-underscores-in-headers: `true`
    reuse-port: `true`
    worker-cpu-affinity: `auto`
    server-tokens: `false`
    ssl-redirect: `false`
    allow-backend-server-header: `true`
    ignore-invalid-headers: `true`
    generate-request-id: `true`
    #forwarded-for-header: `X-Real-IP`
    #compute-full-forwarded-for: `true`
    #hsts: `false`
    #enable-vts-status: `true`
    #use-proxy-protocol: `true`
---
kind: ConfigMap
apiVersion: v1
metadata:
  name: tcp-services
  namespace: {{.Namespace}}
---
kind: ConfigMap
apiVersion: v1
metadata:
  name: udp-services
  namespace: {{.Namespace}}
{{ end }}
---
apiVersion: v1
kind: ServiceAccount
metadata:
  name: nginx-ingress-controller
  namespace: {{.Namespace}}
---
apiVersion: rbac.authorization.k8s.io/v1
kind: ClusterRole
metadata:
  name: nginx-ingress-controller
rules:
  - apiGroups:
      - ``
    resources:
      - configmaps
      - endpoints
      - nodes
      - pods
      - secrets
      - namespaces
      - services
    verbs:
      - get
      - list
      - watch
  - apiGroups:
      - `extensions`
    resources:
      - ingresses
    verbs:
      - get
      - list
      - watch
  - apiGroups:
      - ``
    resources:
      - events
    verbs:
      - create
      - patch
  - apiGroups:
      - `extensions`
    resources:
      - ingresses/status
    verbs:
      - update
  - apiGroups:
      - ``
    resources:
      - configmaps
    verbs:
      - create
  - apiGroups:
      - ``
    resources:
      - configmaps
    resourceNames:
      - `ingress-controller-leader-nginx`
    verbs:
      - get
      - update
---
apiVersion: rbac.authorization.k8s.io/v1
kind: ClusterRoleBinding
metadata:
  name: nginx-ingress-controller
roleRef:
  apiGroup: rbac.authorization.k8s.io
  kind: ClusterRole
  name: nginx-ingress-controller
subjects:
  - kind: ServiceAccount
    name: nginx-ingress-controller
    namespace: {{.Namespace}}
".

Definition ingress_2 : string := raw "---
apiVersion: apps/v1
kind: Deployment
metadata:
  name: nginx-ingress-controller
  labels:
    app: ingress-nginx
  namespace: {{.Namespace}}
  annotations:
    component.version: `{{.ComponentRevision}}`
    component.revision: `{{.ComponentRevision}}`
spec:
  replicas: {{.Replicas}}
  selector:
    matchLabels:
      app: ingress-nginx
  template:
    metadata:
      labels:
        app: ingress-nginx
      annotations:
        scheduler.alpha.kubernetes.io/critical-pod: ''
        prometheus.io/port: `10254`
        prometheus.io/scrape: `true`
    spec:
      #tolerations:
      #  - key: node-role.kubernetes.io/master
      #    effect: NoSchedule
      affinity:
        podAntiAffinity:
          preferredDuringSchedulingIgnoredDuringExecution:
          - weight: 100
            podAffinityTerm:
              labelSelector:
                matchExpressions:
                - key: app
                  operator: In
                  values:
                  - ingress-nginx
              topologyKey: `kubernetes.io/hostname`
      serviceAccountName: nginx-ingress-controller
      initContainers:
      - name: init-sysctl
        image: registry-vpc.{{.Region}}.aliyuncs.com/acs/busybox:v1.29.2
        command:
        - /bin/sh
        - -c
        - |
          mount -o remount rw /proc/sys
          sysctl -w net.core.somaxconn=65535
          sysctl -w net.ipv4.ip_local_port_range=`1024 65535`
          sysctl -w fs.file-max=1048576
          sysctl -w fs.inotify.max_user_instances=16384
          sysctl -w fs.inotify.max_user_watches=524288
          sysctl -w fs.inotify.max_queued_events=16384
        securityContext:
          capabilities:
              drop:
              - ALL
              add:
              - SYS_ADMIN
      containers:
      - name: nginx-ingress-controller
        image: registry-vpc.{{.Region}}.aliyuncs.com/acs/aliyun-ingress-controller:{{.ImageVersion}}
        args:
          - /nginx-ingress-controller
          - --configmap=$(POD_NAMESPACE)/nginx-configuration
          - --tcp-services-configmap=$(POD_NAMESPACE)/tcp-services
          - --udp-services-configmap=$(POD_NAMESPACE)/udp-services
          - --annotations-prefix=nginx.ingress.kubernetes.io
          - --publish-service=$(POD_NAMESPACE)/nginx-ingress-lb
          - --v=2
        env:
          - name: POD_NAME
            valueFrom:
              fieldRef:
                fieldPath: metadata.name
          - name: POD_NAMESPACE
            valueFrom:
              fieldRef:
                fieldPath: metadata.namespace
        ports:
        - name: http
          containerPort: 80
        - name: https
          containerPort: 443
        resources:
          requests:
            cpu: 100m
            memory: 70Mi
        livenessProbe:
          failureThreshold: 3
          httpGet:
            path: /healthz
            port: 10254
            scheme: HTTP
          initialDelaySeconds: 10
          periodSeconds: 10
          successThreshold: 1
          timeoutSeconds: 10
        readinessProbe:
          failureThreshold: 3
          httpGet:
            path: /healthz
            port: 10254
            scheme: HTTP
          periodSeconds: 10
          successThreshold: 1
          timeoutSeconds: 10
        securityContext:
          capabilities:
              drop:
              - ALL
              add:
              - NET_BIND_SERVICE
          runAsUser: 33
        volumeMounts:
        - name: localtime
          mountPath: /etc/localtime
          readOnly: true
      nodeSelector:
        beta.kubernetes.io/os: linux
      volumes:
        - name: localtime
          hostPath:
            path: /etc/localtime
            type: File
".

Definition ingress : string := ingress_1 +:+ ingress_2.

(** The service proxy of the masters, *)
Definition kubeproxyMaster : string := raw "
apiVersion: apps/v1
kind: DaemonSet
metadata:
  labels:
    k8s-app: kube-proxy-master
  name: kube-proxy-master
  namespace: kube-system
spec:
  selector:
    matchLabels:
      k8s-app: kube-proxy-master
  template:
    metadata:
      labels:
        k8s-app: kube-proxy-master
        random.uuid: `{{ .UUID }}`
    spec:
      priorityClassName: system-node-critical
      containers:
      - command:
        - /usr/local/bin/kube-proxy
{{if .ProxyMode }}
        - --proxy-mode={{.ProxyMode}}
{{end}}
        - --kubeconfig=/var/lib/kube-proxy/kubeconfig.conf
        - --cluster-cidr={{.CIDR}}
        - --hostname-override=$(NODE_NAME)
        image: registry-vpc.{{.Region}}.aliyuncs.com/acs/kube-proxy:{{.ImageVersion}}
        imagePullPolicy: IfNotPresent
        name: kube-proxy-master
        resources: {}
        securityContext:
          privileged: true
        terminationMessagePath: /alibaba/termination-log
        terminationMessagePolicy: File
        env:
        - name: NODE_NAME
          valueFrom:
            fieldRef:
              fieldPath: spec.nodeName
        volumeMounts:
        - mountPath: /var/lib/kube-proxy
          name: kube-proxy-master
        - mountPath: /run/xtables.lock
          name: xtables-lock
        - mountPath: /lib/modules
          name: lib-modules
          readOnly: true
      dnsPolicy: ClusterFirst
      hostNetwork: true
      restartPolicy: Always
      serviceAccountName: kube-proxy
      terminationGracePeriodSeconds: 30
      tolerations:
      - operator: Exists
      nodeSelector:
        node-role.kubernetes.io/master: ``
      volumes:
      - configMap:
          defaultMode: 420
          name: kube-proxy-master
        name: kube-proxy-master
      - hostPath:
          path: /run/xtables.lock
          type: FileOrCreate
        name: xtables-lock
      - hostPath:
          path: /lib/modules
          type: ``
        name: lib-modules
  updateStrategy:
    type: RollingUpdate

{{ if eq .Action `Install` }}
---
apiVersion: v1
kind: ServiceAccount
metadata:
  name: kube-proxy
  namespace: kube-system
---
apiVersion: rbac.authorization.k8s.io/v1
kind: ClusterRoleBinding
metadata:
  name: kubeadm:node-proxier
roleRef:
  apiGroup: rbac.authorization.k8s.io
  kind: ClusterRole
  name: system:node-proxier
subjects:
- kind: ServiceAccount
  name: kube-proxy
  namespace: kube-system
---
## deploy kube-proxy on master with apiserver connect to 127.0.0.1:6443
apiVersion: v1
data:
  kubeconfig.conf: |
    apiVersion: v1
    kind: Config
    clusters:
    - cluster:
        server: https://127.0.0.1:6443
        insecure-skip-tls-verify: true
      name: default
    contexts:
    - context:
        cluster: default
        namespace: default
        user: default
      name: default
    current-context: default
    users:
    - name: default
      user:
        tokenFile: /var/run/secrets/kubernetes.io/serviceaccount/token
kind: ConfigMap
metadata:
  labels:
    app: kube-proxy-master
  name: kube-proxy-master
  namespace: kube-system
{{ end }}
".

(** and of the workers. *)
Definition kubeproxyWorker : string := raw "
## Avoid SLB loopback. make this change .
---
apiVersion: apps/v1
kind: DaemonSet
metadata:
  labels:
    k8s-app: kube-proxy-worker
    random.uuid: `{{ .UUID }}`
  name: kube-proxy-worker
  namespace: kube-system
spec:
  selector:
    matchLabels:
      k8s-app: kube-proxy-worker
  template:
    metadata:
      labels:
        k8s-app: kube-proxy-worker
        random.uuid: `{{ .UUID }}`
    spec:
      priorityClassName: system-node-critical
      containers:
      - command:
        - /usr/local/bin/kube-proxy
{{if .ProxyMode }}
        - --proxy-mode={{.ProxyMode}}
{{end}}
        - --kubeconfig=/var/lib/kube-proxy/kubeconfig.conf
        - --cluster-cidr={{.CIDR}}
        - --hostname-override=$(NODE_NAME)
        image: registry-vpc.{{.Region}}.aliyuncs.com/acs/kube-proxy:{{.ImageVersion}}
        imagePullPolicy: IfNotPresent
        name: kube-proxy-worker
        resources: {}
        securityContext:
          privileged: true
        terminationMessagePath: /alibaba/termination-log
        terminationMessagePolicy: File
        env:
        - name: NODE_NAME
          valueFrom:
            fieldRef:
              fieldPath: spec.nodeName
        volumeMounts:
        - mountPath: /var/lib/kube-proxy
          name: kube-proxy-worker
        - mountPath: /run/xtables.lock
          name: xtables-lock
        - mountPath: /lib/modules
          name: lib-modules
          readOnly: true
      dnsPolicy: ClusterFirst
      hostNetwork: true
      restartPolicy: Always
      serviceAccountName: kube-proxy
      terminationGracePeriodSeconds: 30
      affinity:
        nodeAffinity:
          requiredDuringSchedulingIgnoredDuringExecution:
            nodeSelectorTerms:
            - matchExpressions:
              - key: node-role.kubernetes.io/master
                operator: DoesNotExist
      tolerations:
      - operator: Exists
      volumes:
      - configMap:
          defaultMode: 420
          name: kube-proxy-worker
        name: kube-proxy-worker
      - hostPath:
          path: /run/xtables.lock
          type: FileOrCreate
        name: xtables-lock
      - hostPath:
          path: /lib/modules
          type: ``
        name: lib-modules
  updateStrategy:
    type: RollingUpdate
{{ if eq .Action `Install` }}
---
apiVersion: v1
kind: ServiceAccount
metadata:
  name: kube-proxy
  namespace: kube-system
---
apiVersion: rbac.authorization.k8s.io/v1
kind: ClusterRoleBinding
metadata:
  name: kubeadm:node-proxier
roleRef:
  apiGroup: rbac.authorization.k8s.io
  kind: ClusterRole
  name: system:node-proxier
subjects:
- kind: ServiceAccount
  name: kube-proxy
  namespace: kube-system

  ## deploy kube-proxy on worker with apiserver point to apiserver_lb.
---
apiVersion: v1
data:
  kubeconfig.conf: |
    apiVersion: v1
    kind: Config
    clusters:
    - cluster:
        certificate-authority: /var/run/secrets/kubernetes.io/serviceaccount/ca.crt
        server: {{.IntranetApiServerEndpoint}}
      name: default
    contexts:
    - context:
        cluster: default
        namespace: default
        user: default
      name: default
    current-context: default
    users:
    - name: default
      user:
        tokenFile: /var/run/secrets/kubernetes.io/serviceaccount/token
kind: ConfigMap
metadata:
  labels:
    app: kube-proxy-worker
  name: kube-proxy-worker
  namespace: kube-system
{{ end }}
".

(** The metrics collector. *)
Definition metrics : string := raw "
apiVersion: apps/v1
kind: Deployment
metadata:
  name: ags-metrics-collector
  labels:
    owner: aliyun
    app: ags-metrics-collector
  namespace: kube-system
spec:
  replicas: 1
  selector:
    matchLabels:
      owner: aliyun
      app: ags-metrics-collector
  template:
    metadata:
      labels:
        owner: aliyun
        app: ags-metrics-collector
    spec:
      affinity:
        nodeAffinity:
          requiredDuringSchedulingIgnoredDuringExecution:
            nodeSelectorTerms:
              - matchExpressions:
                  - key: k8s.io/cluster-autoscaler
                    operator: DoesNotExist
      containers:
        - name: ags-metrics-collector
          image: registry-vpc.{{.Region}}.aliyuncs.com/acs/ags-metrics-collector:{{.ImageVersion}}
          imagePullPolicy: Always
      serviceAccount: admin
      serviceAccountName: admin
".

(** The network plugin. *)
Definition terway_1 : string := raw "
apiVersion: v1
kind: ServiceAccount
metadata:
  name: terway
  namespace: kube-system

---

kind: ClusterRole
apiVersion: rbac.authorization.k8s.io/v1
metadata:
  name: terway-pod-reader
  namespace: kube-system
rules:
- apiGroups: [``]
  resources: [`pods`, `nodes`, `namespaces`, `configmaps`, `serviceaccounts`, `endpoints`, `services`]
  verbs: [`get`, `watch`, `list`, `update`, `patch`]
- apiGroups: [``]
  resources:
    - nodes
    - nodes/status
  verbs:
    - patch
- apiGroups: [ `coordination.k8s.io` ]
  resources: [ `leases` ]
  verbs: [ `get`, `watch`, `update`, `create` ]
- apiGroups: [``]
  resources:
    - events
  verbs:
    - create
    - patch
- apiGroups: [`discovery.k8s.io`]
  resources:
    - endpointslices
  verbs:
    - get
    - list
    - watch
- apiGroups: [`networking.k8s.io`]
  resources:
  - networkpolicies
  verbs:
  - get
  - list
  - watch
- apiGroups: [`extensions`]
  resources:
  - networkpolicies
  verbs:
  - get
  - list
  - watch
- apiGroups: [``]
  resources:
  - pods/status
  verbs:
  - update
- apiGroups: [`crd.projectcalico.org`]
  resources: [`*`]
  verbs: [`*`]
- apiGroups:
  - apiextensions.k8s.io
  resources:
  - customresourcedefinitions
  verbs:
  - create
  - get
  - list
  - watch
  - update
- apiGroups:
  - cilium.io
  resources:
  - `*`
  verbs:
  - `*`
- apiGroups: [ `network.alibabacloud.com` ]
  resources: [ `*` ]
  verbs: [ `*` ]
---

apiVersion: rbac.authorization.k8s.io/v1
kind: ClusterRoleBinding
metadata:
  name: terway-binding
  namespace: kube-system
roleRef:
  apiGroup: rbac.authorization.k8s.io
  kind: ClusterRole
  name: terway-pod-reader
subjects:
- kind: ServiceAccount
  name: terway
  namespace: kube-system

---
{{ if eq .Action `Install` }}
kind: ConfigMap
apiVersion: v1
metadata:
  name: eni-config
  namespace: kube-system
data:
  eni_conf: |
    {
      `version`: `1`,
      `max_pool_size`: 5,
      `min_pool_size`: 0,
      `vswitches`: {{.PodVswitchId}},
      `eni_tags`: {`wdrip.io`:`orz`},
      `service_cidr`: `{{.ServiceCIDR}}`,
      `security_group`: `{{.SecurityGroupID}}`,
      `ip_stack`: `{{.IPStack}}`,
      `vswitch_selection_policy`: `ordered`
    }
  10-terway.conf: |
    {
      `cniVersion`: `0.3.1`,
      `name`: `terway`,
      `type`: `terway`
    }
  disable_network_policy: `false`
  in_cluster_loadbalance: `true`
{{ end }}
".

Definition terway_2 : string := raw "---

apiVersion: apps/v1
kind: DaemonSet
metadata:
  name: terway-eniip
  namespace: kube-system
spec:
  selector:
    matchLabels:
      app: terway-eniip
  template:
    metadata:
      labels:
        app: terway-eniip
        random.uuid: `{{ .UUID }}`
      annotations:
        scheduler.alpha.kubernetes.io/critical-pod: ``
    spec:
      hostPID: true
      priorityClassName: system-node-critical
      affinity:
        nodeAffinity:
          requiredDuringSchedulingIgnoredDuringExecution:
            nodeSelectorTerms:
            - matchExpressions:
              - key: type
                operator: NotIn
                values:
                - virtual-kubelet
              - key: beta.kubernetes.io/arch
                operator: In
                values:
                - amd64
                - arm64
              - key: beta.kubernetes.io/os
                operator: In
                values:
                - linux
            - matchExpressions:
              - key: type
                operator: NotIn
                values:
                - virtual-kubelet
              - key: kubernetes.io/arch
                operator: In
                values:
                - amd64
                - arm64
              - key: kubernetes.io/os
                operator: In
                values:
                - linux
      tolerations:
      - operator: `Exists`
      terminationGracePeriodSeconds: 0
      serviceAccountName: terway
      hostNetwork: true
      initContainers:
      - name: terway-init
        image: registry-vpc.{{.Region}}.aliyuncs.com/acs/terway:{{.ImageVersion}}
        imagePullPolicy: IfNotPresent
        securityContext:
          privileged: true
        command:
        - /bin/init.sh
        volumeMounts:
        - name: configvolume
          mountPath: /etc/eni
        - name: cni-bin
          mountPath: /opt/cni/bin/
        - name: cni
          mountPath: /etc/cni/net.d/
        - mountPath: /lib/modules
          name: lib-modules
        - mountPath: /host
          name: host-root
      containers:
      - name: terway
        image: registry-vpc.{{.Region}}.aliyuncs.com/acs/terway:{{.ImageVersion}}
        imagePullPolicy: IfNotPresent
        command: [`/usr/bin/terwayd`, `-log-level`, `info`, `-daemon-mode`, `ENIMultiIP`]
        securityContext:
          privileged: true
        resources:
          requests:
            cpu: `100m`
            memory: `100Mi`
          limits:
            cpu: `100m`
            memory: `256Mi`
        env:
        - name: NODE_NAME
          valueFrom:
            fieldRef:
              fieldPath: spec.nodeName
        - name: POD_NAMESPACE
          valueFrom:
              fieldRef:
                fieldPath: metadata.namespace
        volumeMounts:
        - name: configvolume
          mountPath: /etc/eni
        - mountPath: /var/run/
          name: eni-run
        - mountPath: /opt/cni/bin/
          name: cni-bin
        - mountPath: /lib/modules
          name: lib-modules
        - mountPath: /var/lib/cni/networks
          name: cni-networks
        - mountPath: /var/lib/cni/terway
          name: cni-terway
        - mountPath: /var/lib/kubelet/device-plugins
          name: device-plugin-path
        - name: addon-token
          mountPath: `/var/addon`
          readOnly: true
      - name: policy
        image: registry-vpc.{{.Region}}.aliyuncs.com/acs/terway:{{.ImageVersion}}
        imagePullPolicy: IfNotPresent
        command: [`/bin/policyinit.sh`]
        env:
        - name: NODENAME
          valueFrom:
            fieldRef:
              fieldPath: spec.nodeName
        - name: DISABLE_POLICY
          valueFrom:
            configMapKeyRef:
              name: eni-config
              key: disable_network_policy
              optional: true
        - name: FELIX_TYPHAK8SSERVICENAME
          valueFrom:
".

Definition terway_3 : string := raw "            configMapKeyRef:
              name: eni-config
              key: felix_relay_service
              optional: true
        - name: K8S_NODE_NAME
          valueFrom:
            fieldRef:
              apiVersion: v1
              fieldPath: spec.nodeName
        - name: CILIUM_K8S_NAMESPACE
          valueFrom:
            fieldRef:
              apiVersion: v1
              fieldPath: metadata.namespace
        - name: CILIUM_CNI_CHAINING_MODE
          value: terway-chainer
        - name: IN_CLUSTER_LOADBALANCE
          valueFrom:
            configMapKeyRef:
              name: eni-config
              key: in_cluster_loadbalance
              optional: true
        securityContext:
          privileged: true
        resources:
          requests:
            cpu: `250m`
            memory: `100Mi`
          limits:
            cpu: `1`
        livenessProbe:
          httpGet: null
          tcpSocket:
            port: 9099
            host: localhost
          periodSeconds: 10
          initialDelaySeconds: 10
          failureThreshold: 6
        readinessProbe:
          httpGet: null
          tcpSocket:
            port: 9099
            host: localhost
          periodSeconds: 10
        volumeMounts:
        - mountPath: /lib/modules
          name: lib-modules
        - mountPath: /etc/cni/net.d
          name: cni
        - mountPath: /etc/eni
          name: configvolume
        # volumes use by cilium
        - mountPath: /sys/fs
          name: sys-fs
        - mountPath: /var/run/cilium
          name: cilium-run
        - mountPath: /host/opt/cni/bin
          name: cni-bin
        - mountPath: /host/etc/cni/net.d
          name: cni
          # Needed to be able to load kernel modules
        - mountPath: /run/xtables.lock
          name: xtables-lock
      volumes:
      - name: configvolume
        configMap:
          name: eni-config
          items:
          - key: eni_conf
            path: eni.json
          - key: 10-terway.conf
            path: 10-terway.conf
      - name: cni-bin
        hostPath:
          path: /opt/cni/bin
          type: `Directory`
      - name: cni
        hostPath:
          path: /etc/cni/net.d
      - name: eni-run
        hostPath:
          path: /var/run/
          type: `Directory`
      - name: lib-modules
        hostPath:
          path: /lib/modules
      - name: cni-networks
        hostPath:
          path: /var/lib/cni/networks
      - name: cni-terway
        hostPath:
          path: /var/lib/cni/terway
      - name: device-plugin-path
        hostPath:
          path: /var/lib/kubelet/device-plugins
          type: `Directory`
      - name: host-root
        hostPath:
          path: /
          type: `Directory`
      - name: addon-token
        secret:
          secretName: addon.network.token
          items:
          - key: addon.token.config
            path: token-config
          optional: true
      # used by cilium
      # To keep state between restarts / upgrades
      - hostPath:
          path: /var/run/cilium
          type: DirectoryOrCreate
        name: cilium-run
      # To keep state between restarts / upgrades for bpf maps
      - hostPath:
          path: /sys/fs/
          type: DirectoryOrCreate
        name: sys-fs
        # To access iptables concurrently with other processes (e.g. kube-proxy)
      - hostPath:
          path: /run/xtables.lock
          type: FileOrCreate
        name: xtables-lock

".

Definition terway_4 : string := raw "---

apiVersion: apiextensions.k8s.io/v1
kind: CustomResourceDefinition
metadata:
  name: felixconfigurations.crd.projectcalico.org
spec:
  scope: Cluster
  group: crd.projectcalico.org
  versions:
  - name: v1
    served: true
    storage: true
    schema:
      openAPIV3Schema:
        type: object
        properties:
          apiVersion:
            type: string
  names:
    kind: FelixConfiguration
    plural: felixconfigurations
    singular: felixconfiguration

---

apiVersion: apiextensions.k8s.io/v1
kind: CustomResourceDefinition
metadata:
  name: bgpconfigurations.crd.projectcalico.org
spec:
  scope: Cluster
  group: crd.projectcalico.org
  versions:
  - name: v1
    served: true
    storage: true
    schema:
      openAPIV3Schema:
        type: object
        properties:
          apiVersion:
            type: string
  names:
    kind: BGPConfiguration
    plural: bgpconfigurations
    singular: bgpconfiguration

---

apiVersion: apiextensions.k8s.io/v1
kind: CustomResourceDefinition
metadata:
  name: ippools.crd.projectcalico.org
spec:
  scope: Cluster
  group: crd.projectcalico.org
  versions:
  - name: v1
    served: true
    storage: true
    schema:
      openAPIV3Schema:
        type: object
        properties:
          apiVersion:
            type: string
  names:
    kind: IPPool
    plural: ippools
    singular: ippool

---

apiVersion: apiextensions.k8s.io/v1
kind: CustomResourceDefinition
metadata:
  name: hostendpoints.crd.projectcalico.org
spec:
  scope: Cluster
  group: crd.projectcalico.org
  versions:
  - name: v1
    served: true
    storage: true
    schema:
      openAPIV3Schema:
        type: object
        properties:
          apiVersion:
            type: string
  names:
    kind: HostEndpoint
    plural: hostendpoints
    singular: hostendpoint

---

apiVersion: apiextensions.k8s.io/v1
kind: CustomResourceDefinition
metadata:
  name: clusterinformations.crd.projectcalico.org
spec:
  scope: Cluster
  group: crd.projectcalico.org
  versions:
  - name: v1
    served: true
    storage: true
    schema:
      openAPIV3Schema:
        type: object
        properties:
          apiVersion:
            type: string
  names:
    kind: ClusterInformation
    plural: clusterinformations
    singular: clusterinformation

".

Definition terway_5 : string := raw "---

apiVersion: apiextensions.k8s.io/v1
kind: CustomResourceDefinition
metadata:
  name: globalnetworkpolicies.crd.projectcalico.org
spec:
  scope: Cluster
  group: crd.projectcalico.org
  versions:
  - name: v1
    served: true
    storage: true
    schema:
      openAPIV3Schema:
        type: object
        properties:
          apiVersion:
            type: string
  names:
    kind: GlobalNetworkPolicy
    plural: globalnetworkpolicies
    singular: globalnetworkpolicy

---

apiVersion: apiextensions.k8s.io/v1
kind: CustomResourceDefinition
metadata:
  name: globalnetworksets.crd.projectcalico.org
spec:
  scope: Cluster
  group: crd.projectcalico.org
  versions:
  - name: v1
    served: true
    storage: true
    schema:
      openAPIV3Schema:
        type: object
        properties:
          apiVersion:
            type: string
  names:
    kind: GlobalNetworkSet
    plural: globalnetworksets
    singular: globalnetworkset

---

apiVersion: apiextensions.k8s.io/v1
kind: CustomResourceDefinition
metadata:
  name: networkpolicies.crd.projectcalico.org
spec:
  scope: Namespaced
  group: crd.projectcalico.org
  versions:
  - name: v1
    served: true
    storage: true
    schema:
      openAPIV3Schema:
        type: object
        properties:
          apiVersion:
            type: string
  names:
    kind: NetworkPolicy
    plural: networkpolicies
    singular: networkpolicy
".

Definition terway : string := terway_1 +:+ terway_2 +:+ terway_3 +:+ terway_4 +:+ terway_5.

(** The operator itself. *)
Definition wdripf : string := raw "
---
apiVersion: v1
kind: ServiceAccount
metadata:
  name: admin
  namespace: kube-system
---
apiVersion: rbac.authorization.k8s.io/v1
kind: ClusterRoleBinding
metadata:
  name: admin
roleRef:
  apiGroup: rbac.authorization.k8s.io
  kind: ClusterRole
  name: cluster-admin
subjects:
- kind: ServiceAccount
  name: admin
  namespace: kube-system
---
apiVersion: v1
kind: Service
metadata:
  labels:
    app: wdrip
  name: wdrip
  namespace: kube-system
spec:
  ports:
    - name: tcp
      nodePort: 32443
      port: 9443
      protocol: TCP
      targetPort: 443
  selector:
    app: wdrip
  sessionAffinity: None
  type: NodePort
---
apiVersion: apps/v1
kind: Deployment
metadata:
  labels:
    app: wdrip
    random.uuid: `{{ .UUID }}`
  name: wdrip
  namespace: kube-system
spec:
  replicas: 1
  selector:
    matchLabels:
      app: wdrip
  template:
    metadata:
      labels:
        app: wdrip
        random.uuid: `{{ .UUID }}`
    spec:
      hostNetwork: true
      priorityClassName: system-node-critical
      serviceAccount: admin
      containers:
        - image: {{ .Registry }}/wdrip:{{ .Version }}
          imagePullPolicy: Always
          name: wdrip-net
          command:
            - /wdrip
            - operator
            # - --bootcfg=/etc/wdrip/boot.cfg
          volumeMounts:
            - name: bootcfg
              mountPath: /etc/wdrip/
              readOnly: true
      nodeSelector:
        node-role.kubernetes.io/master: ``
      tolerations:
      - effect: NoSchedule
        operator: Exists
        key: node-role.kubernetes.io/master
      - effect: NoSchedule
        operator: Exists
        key: node.cloudprovider.kubernetes.io/uninitialized
      - effect: NoSchedule
        key: node.kubernetes.io/not-ready
        operator: Exists
      - effect: NoSchedule
        key: node.kubernetes.io/unreachable
        operator: Exists
      volumes:
        - name: bootcfg
          secret:
            secretName: bootcfg
            items:
              - key: bootcfg
                path: boot.cfg
".

(** The monitor. *)
Definition monitor : string := raw "
---
apiVersion: apps/v1
kind: Deployment
metadata:
  labels:
    app: wdrip-monitor
  name: wdrip-monitor
  namespace: kube-system
spec:
  replicas: 1
  selector:
    matchLabels:
      app: wdrip-monitor
  template:
    metadata:
      labels:
        app: wdrip-monitor
    spec:
      affinity:
        nodeAffinity:
          requiredDuringSchedulingIgnoredDuringExecution:
            nodeSelectorTerms:
            - matchExpressions:
              - key: `node-role.kubernetes.io/master`
                operator: DoesNotExist
      hostNetwork: true
      serviceAccount: admin
      priorityClassName: system-node-critical
      containers:
        - image: {{ .Registry }}/wdrip:{{ .Version }}
          imagePullPolicy: Always
          name: wdrip-monitor-net
          command:
            - /wdrip
            - monit
            - -n=`{{.ClusterName}}`
          volumeMounts:
            - name: bootcfg
              mountPath: /etc/wdrip/
              readOnly: true
      tolerations:
        - operator: Exists
      volumes:
        - name: bootcfg
          secret:
            secretName: bootcfg
            items:
              - key: bootcfg
                path: boot.cfg
".

(** The configuration of kubeadm. *)
Definition Tplv1 : string := raw "
apiVersion: kubeadm.k8s.io/v1beta1
kind: InitConfiguration
metadata:
  name: `initconfig`
bootstrapTokens:
- token: `{{ .Kubernetes.KubeadmToken }}`
  ttl: 0s
nodeRegistration:
  kubeletExtraArgs:
    cloud-provider: external
  name: `{{ .NodeName }}`
---
apiVersion: kubeadm.k8s.io/v1beta1
kind: ClusterConfiguration
metadata:
  name: `clusterconfig`
apiServer:
  extraArgs:
    profiling: `false`
    cloud-provider: external
    #service-node-port-range: `$NODE_PORT_RANGE`
    feature-gates: VolumeSnapshotDataSource=true,CSINodeInfo=true,CSIDriverRegistry=true
  extraVolumes:
  - hostPath: /etc/localtime
    mountPath: /etc/localtime
    name: localtime
  certSANs:
{{ range $_, $v := .Sans }}
  - {{$v}} 
{{ end }}
  - 127.0.0.1
controllerManager:
  extraArgs:
    profiling: `false`
    cloud-provider: external
    horizontal-pod-autoscaler-use-rest-clients: `true`
{{ if .Network.NetMask }}
    node-cidr-mask-size: `{{ .Network.NetMask }}`
{{ end }}
  extraVolumes:
  - hostPath: /etc/localtime
    mountPath: /etc/localtime
    name: localtime
scheduler:
  extraArgs:
    profiling: `false`
  extraVolumes:
  - hostPath: /etc/localtime
    mountPath: /etc/localtime
    name: localtime
etcd:
  external:
    caFile: /var/lib/etcd/cert/server-ca.crt
    certFile: /var/lib/etcd/cert/client.crt
    keyFile: /var/lib/etcd/cert/client.key
    endpoints:
{{ range $_, $v := .EtcdEndpoints }}
    - {{$v}} 
{{ end }}
networking:
  podSubnet: `{{ .Network.PodCIDR }}`
  dnsDomain: {{ .Network.Domain }}
  serviceSubnet: {{ .Network.SVCCIDR }}
imageRepository: {{ .Registry }}
kubernetesVersion: v{{ .Kubernetes.Version }}
clusterName: `{{ .ClusterID }}`
".

(** An older one of it, which nothing reads. *)
Definition ConfigTemplateBetaV1 : string := raw "# config generated by kind
apiVersion: kubeadm.k8s.io/v1beta1
kind: ClusterConfiguration
metadata:
  name: config
kubernetesVersion: {{.Config.Kubernetes.Version}}
clusterName: `{{.Config.Kubernetes.Name}}`
{{ if .Config.Endpoint -}}
controlPlaneEndpoint: {{ .Config.Endpoint }}
{{- end }}
# on runtime for mac we have to expose the api server via port forward,
# so we need to ensure the cert is valid for localhost so we can talk
# to the cluster after rewriting the kubeconfig to point to localhost
apiServer:
  certSANs:
{{ range $_, $v := .Config.Sans }}  - {{$v}} {{ end }}
controllerManager:
  extraArgs:
    enable-hostpath-provisioner: `true`
networking:
  podSubnet: `{{ .Config.Network.PodCIDR }}`
---
apiVersion: kubeadm.k8s.io/v1beta1
kind: InitConfiguration
metadata:
  name: config
# we use a well know token for TLS bootstrap
bootstrapTokens:
- token: `{{ .Config.Token }}`
# we use a well know port for making the API server discoverable inside runtime network. 
# from the host machine such port will be accessible via a random local port instead.
localAPIEndpoint:
  bindPort: 6443
nodeRegistration:
  criSocket: `/run/containerd/containerd.sock`
---
# no-op entry that exists solely so it can be patched
apiVersion: kubeadm.k8s.io/v1beta1
kind: JoinConfiguration
metadata:
  name: config
nodeRegistration:
  criSocket: `/run/containerd/containerd.sock`
---
apiVersion: kubelet.config.k8s.io/v1beta1
kind: KubeletConfiguration
metadata:
  name: config
# disable disk resource management by default
# kubelet will see the host disk that the inner container runtime
# is ultimately backed by and attempt to recover disk space. we don't want that.
imageGCHighThresholdPercent: 100
evictionHard:
  nodefs.available: `0%`
  nodefs.inodesFree: `0%`
  imagefs.available: `0%`
---
# no-op entry that exists solely so it can be patched
apiVersion: kubeproxy.config.k8s.io/v1alpha1
kind: KubeProxyConfiguration
metadata:
  name: config
".

(** Another one, which nothing reads. *)
Definition ConfigTemplateAlphaV3 : string := raw "
apiVersion: kubeadm.k8s.io/v1alpha3
kind: ClusterConfiguration
metadata:
  name: config
kubernetesVersion: v{{ .Kubernetes.Version }}
clusterName: `{{ .ClusterID }}`
{{ if .Endpoint.Intranet -}}
controlPlaneEndpoint: {{ .Endpoint.Intranet }}
{{- end }}
# we need nsswitch.conf so we use /etc/hosts
# https://github.com/kubernetes/kubernetes/issues/69195
apiServerExtraVolumes:
- name: nsswitch
  mountPath: /etc/nsswitch.conf
  hostPath: /etc/nsswitch.conf
  writeable: false
  pathType: FileOrCreate
- hostPath: /etc/localtime
  mountPath: /etc/localtime
  name: localtime
controllerManagerExtraVolumes:
- hostPath: /etc/localtime
  mountPath: /etc/localtime
  name: localtime
schedulerExtraVolumes:
- hostPath: /etc/localtime
  mountPath: /etc/localtime
  name: localtime
# on runtime for mac we have to expose the api server via port forward,
# so we need to ensure the cert is valid for localhost so we can talk
# to the cluster after rewriting the kubeconfig to point to localhost
apiServerCertSANs: 
- 127.0.0.1
{{ range $_, $v := .Sans }}
- {{$v}} 
{{ end }}
controllerManagerExtraArgs:
  enable-hostpath-provisioner: `true`
  cloud-provider: external
  horizontal-pod-autoscaler-use-rest-clients: `true`
  node-cidr-mask-size: `{{ .Network.NetMask }}`
apiServerExtraArgs:
  cloud-provider: external
  feature-gates: VolumeSnapshotDataSource=true,CSINodeInfo=true,CSIDriverRegistry=true
networking:
  podSubnet: `{{ .Network.PodCIDR }}`
  dnsDomain: {{ .Network.Domain }}
  serviceSubnet: {{ .Network.SVCCIDR }}
etcd:
  external:
    caFile: /var/lib/etcd/cert/server-ca.crt
    certFile: /var/lib/etcd/cert/client.crt
    keyFile: /var/lib/etcd/cert/client.key
    endpoints:
{{ range $_, $v := .EtcdEndpoints }}
    - {{$v}} 
{{ end }}
imageRepository: {{ .Registry }}
---
apiVersion: kubeadm.k8s.io/v1alpha3
kind: InitConfiguration
metadata:
  name: config
# we use a well know token for TLS bootstrap
bootstrapTokens:
- token: `{{ .Kubernetes.KubeadmToken }}`
  ttl: 0s
# we use a well know port for making the API server discoverable inside runtime network. 
# from the host machine such port will be accessible via a random local port instead.
apiEndpoint:
  bindPort: 6443
nodeRegistration:
  kubeletExtraArgs:
    cloud-provider: external
  name: {{ .NodeName }}
  criSocket: `/run/containerd/containerd.sock`
---
# no-op entry that exists solely so it can be patched
apiVersion: kubeadm.k8s.io/v1alpha3
kind: JoinConfiguration
metadata:
  name: config
nodeRegistration:
  criSocket: `/run/containerd/containerd.sock`
---
apiVersion: kubelet.config.k8s.io/v1beta1
kind: KubeletConfiguration
metadata:
  name: config
# disable disk resource management by default
# kubelet will see the host disk that the inner container runtime
# is ultimately backed by and attempt to recover disk space. we don't want that.
imageGCHighThresholdPercent: 100
evictionHard:
  nodefs.available: `0%`
  nodefs.inodesFree: `0%`
  imagefs.available: `0%`
---
# no-op entry that exists solely so it can be patched
apiVersion: kubeproxy.config.k8s.io/v1alpha1
kind: KubeProxyConfiguration
metadata:
  name: config
proxyMode: {{ .Network.Mode }}
".
