(* ===== verification/Utils.v ===== *)
(** * Small utilities (pkg/utils/util.go)

    Lists of errors, indented JSON, rendered configuration templates and the
    addresses of a service network. *)
From stdpp Require Import base list gmap strings.
From Stdlib Require Import Lia ZArith Ascii.
From S2P Require Import Prelude GoStrings Api Effects GoTemplate.
Local Open Scope Z_scope.

(** ** Errors *)

(** The string of one new line. *)
Definition newline : string := String (ascii_of_nat 10) EmptyString.

Abbreviation Errors := (list error).
Definition Errors_Error (e : Errors) : string :=
  foldl (λ result err, match err with Some x => result +:+ Error x +:+ newline | None => result end) "" e.
(** A list of errors as an [error]. *)
Definition as_error (e : Errors) : error := Errorf (Errors_Error e).
Definition HasError (e : Errors) : error := match e with [] => None | _ => as_error e end.

(** ** encoding/json: Indent

    [json.Indent(dst, src, prefix, indent)] with an empty prefix, of the valid
    JSON text [Marshal] gives. *)
Fixpoint indents (indent : string) (depth : nat) : string :=
  match depth with O => EmptyString | S d => indent +:+ indents indent d end.
Definition dquote : ascii := "034"%char.
Definition backslash : ascii := "092"%char.
Definition isJsonSpace (c : ascii) : bool :=
  let n := nat_of_ascii c in
  (n =? 32)%nat || (n =? 9)%nat || (n =? 10)%nat || (n =? 13)%nat.

(** Where the scanner is: outside strings, in one, after a backslash in one. *)
Inductive scan : Type := Outside | InString | Escaped.
Definition scan_step (st : scan) (c : ascii) : scan :=
  match st with
  | Outside => if Ascii.eqb c dquote then InString else Outside
  | InString => if Ascii.eqb c dquote then Outside else if Ascii.eqb c backslash then Escaped else InString
  | Escaped => InString
  end.

Fixpoint indent_go (indent : string) (s : string) (st : scan) (need : bool) (depth : nat) : string :=
  match s with
  | EmptyString => EmptyString
  | String c r =>
      match st with
      | Outside =>
          if isJsonSpace c then indent_go indent r st need depth
          else
            let '(pre, need, depth) :=
              if need && negb (Ascii.eqb c "]") && negb (Ascii.eqb c "}")
              then (newline +:+ indents indent (S depth), false, S depth) else (EmptyString, need, depth) in
            pre +:+
            (if Ascii.eqb c "{" || Ascii.eqb c "[" then String c (indent_go indent r st true depth)
             else if Ascii.eqb c "," then String c (newline +:+ indents indent depth +:+ indent_go indent r st need depth)
             else if Ascii.eqb c ":" then String c (" " +:+ indent_go indent r st need depth)
             else if Ascii.eqb c "}" || Ascii.eqb c "]" then
               if need then String c (indent_go indent r st false depth)
               else newline +:+ indents indent (Nat.pred depth) +:+ String c (indent_go indent r st need (Nat.pred depth))
             else String c (indent_go indent r (scan_step st c) need depth))
      | _ => String c (indent_go indent r (scan_step st c) need depth)
      end
  end.
Definition Indent (indent s : string) : string := indent_go indent s Outside false 0.

Definition PrettyJson {A} `{Json A} (obj : A) : string := Indent "    " (Marshal obj).
Definition PrettyYaml {A} `{Yaml A} (obj : A) : string := YamlMarshal obj.

(** encoding/base64 *)
Class Base64 : Type := {
  EncodeToString : string → string;
  DecodeString : string → string * error }.
Class Base64Spec `{Base64} : Prop :=
  DecodeString_EncodeToString s : DecodeString (EncodeToString s) = (s, None).

(** ** Templates *)

(** [RenderConfig(tplName, tpl, data)] of a struct whose fields are strings. *)
Definition fieldsOf (data : list (string * string)) : Tmpl.value :=
  Tmpl.VRec (map (λ kv, (kv.1, Tmpl.VStr kv.2)) data).
Definition RenderConfig (tpl : string) (data : list (string * string)) : string * error :=
  Tmpl.ExecuteText tpl (fieldsOf data).

(** The type of such a struct. *)
Definition stringsTy (names : list string) : Tmpl.ty := Tmpl.TRec (map (λ k, (k, Tmpl.TStr)) names).

Lemma fieldsOf_ty data : Tmpl.hasTy (stringsTy data.*1) (fieldsOf data).
Proof. apply Tmpl.hasTy_rec. induction data as [|kv data IH]; constructor; [done|exact IH]. Qed.

(** A template that only names fields of the struct is rendered. *)
Lemma RenderConfig_ok tpl data :
  Tmpl.checkTpl (stringsTy data.*1) tpl = true → ∃ out, RenderConfig tpl data = (out, None).
Proof. intros Hc. eapply Tmpl.Execute_ok; [exact Hc|apply fieldsOf_ty]. Qed.

Definition KubeConfigTpl : string := "
apiVersion: v1
clusters:
- cluster:
    certificate-authority-data: {{ .AuthCA }}
    server: https://{{ .Address }}:6443
  name: kubernetes-clusterid-demo
contexts:
- context:
    cluster: kubernetes-clusterid-demo
    user: kubernetes-admin
  name: kubernetes-admin@kubernetes-clusterid-demo
current-context: kubernetes-admin@kubernetes-clusterid-demo
kind: Config
preferences: {}
users:
- name: kubernetes-admin
  user:
    client-certificate-data: {{ .ClientCRT }}
    client-key-data: {{ .ClientKey }}
".

(** ** math/big and net *)

(** [big.Int.SetBytes] *)
Definition SetBytes (l : list Z) : Z := foldl (λ a b, a * 256 + b) 0 l.
(** [big.Int.Bytes]: the absolute value, most significant byte first, without
    leading zeros. *)
Fixpoint bytes_go (fuel : nat) (z : Z) (acc : list Z) : list Z :=
  match fuel with
  | O => acc
  | S n => if z =? 0 then acc else bytes_go n (z / 256) (z mod 256 :: acc)
  end.
Definition Bytes (z : Z) : list Z := bytes_go (S (Z.to_nat (Z.log2 (Z.abs z)))) (Z.abs z) [].

Record IPNet : Type := MkIPNet { in_IP : list Z; in_Mask : list Z }.

(** [ip.To4()] *)
Definition v4InV6Prefix : list Z := [0; 0; 0; 0; 0; 0; 0; 0; 0; 0; 255; 255].
Definition To4 (ip : list Z) : option (list Z) :=
  if (length ip =? 4)%nat then Some ip
  else if (length ip =? 16)%nat && bool_decide (take 12 ip = v4InV6Prefix) then Some (drop 12 ip)
  else None.

(** [n.Contains(ip)], of a network of one kind with a mask of its length. *)
Definition masked (ip mask : list Z) : list Z := zip_with Z.land ip mask.
Definition net_Contains (n : IPNet) (ip : list Z) : bool :=
  let ip := default ip (To4 ip) in
  let nn := default (in_IP n) (To4 (in_IP n)) in
  (length ip =? length nn)%nat && bool_decide (masked nn (in_Mask n) = masked ip (in_Mask n)).

(** [net.ParseCIDR]: the network only. *)
Class ParseCIDR : Type := parseCIDR : string → option IPNet * error.

Definition GetDNSIP `{ParseCIDR} (subnet : string) (index : Z) : outcome (option (list Z) * error) :=
  match parseCIDR subnet with
  | (_, Some e) => Ret (None, Errorf ("couldn't parse service subnet CIDR " +:+ subnet +:+ ": " +:+ Error e))
  | (None, None) => Panic "nil pointer dereference"
  | (Some cidr, None) =>
      let bip := SetBytes (default [] (To4 (in_IP cidr))) in
      let ip := Bytes (bip + index) in
      if net_Contains cidr ip then Ret (Some ip, None)
      else Ret (None, Errorf ("can't generate IP with index " +:+ fmt_d index
                              +:+ " from subnet. subnet too small. subnet: " +:+ subnet))
  end.

(** ** Small helpers *)
Definition NODE_MASTER_LABEL : string := "node-role.kubernetes.io/master".
Definition NodeIsMaster (node : Node) : bool :=
  bool_decide (is_Some (default ∅ (n_Labels node) !! NODE_MASTER_LABEL)).
Definition DefaultImage (id : string) : string := if decide (id ≠ EmptyString) then id else EmptyString.
(** The check of the name changes nothing: both branches keep the prefix. *)
Definition GetNamePrefix (NameIsDNSSubdomain : string → bool → list string) (p : string) : string :=
  let prefix := p +:+ "-" in
  let prefix := match NameIsDNSSubdomain prefix true with [] => prefix | _ => prefix end in
  prefix.
(** [in.Decode(i)], and [ToRawMessage(i)]: the message read back is the text
    written. *)
Definition Provider_Decode {A} `{Json A} (p : Provider) (i : A) : A * error := Unmarshal (pv_Value p) i.
Definition ToRawMessage {A} `{Json A} (i : A) : string * error := (Marshal i, None).

(** ** Facts *)

Definition byte_range (b : Z) : Prop := 0 <= b < 256.

Lemma SetBytes_snoc l b : SetBytes (l ++ [b]) = SetBytes l * 256 + b.
Proof. unfold SetBytes. by rewrite foldl_app. Qed.

Lemma SetBytes_bound l : Forall byte_range l → 0 <= SetBytes l < 256 ^ Z.of_nat (length l).
Proof.
  induction l as [|b l IH] using rev_ind; intros Hl; [done|].
  apply Forall_app in Hl as [Hl Hb]. rewrite Forall_singleton in Hb. unfold byte_range in Hb.
  rewrite SetBytes_snoc, length_app, Nat2Z.inj_add, Z.pow_add_r by lia.
  specialize (IH Hl). simpl length. rewrite Z.pow_1_r. lia.
Qed.

Lemma bytes_go_spec fuel : ∀ z acc, 0 <= z < 2 ^ Z.of_nat fuel →
  ∃ l, bytes_go fuel z acc = l ++ acc ∧ Forall byte_range l ∧ SetBytes l = z ∧
       256 ^ Z.of_nat (length l) <= Z.max 1 (256 * z).
Proof.
  induction fuel as [|n IH]; intros z acc Hz; cbn [bytes_go].
  { exists []. change (2 ^ Z.of_nat 0) with 1 in Hz. assert (z = 0) as -> by lia. done. }
  destruct (Z.eqb_spec z 0) as [->|Hz0]; [by exists []|].
  rewrite Nat2Z.inj_succ, Z.pow_succ_r in Hz by lia.
  pose proof (Z.div_mod z 256 ltac:(lia)) as Hdm. pose proof (Z.mod_pos_bound z 256 ltac:(lia)) as Hm.
  destruct (IH (z / 256) (z mod 256 :: acc)) as (l & -> & Hb & Hs & Hp); [lia|].
  exists (l ++ [z mod 256]). split_and!.
  - by rewrite <- app_assoc.
  - apply Forall_app. split; [done|]. by apply Forall_singleton.
  - rewrite SetBytes_snoc, Hs. lia.
  - rewrite length_app, Nat2Z.inj_add, Z.pow_add_r by lia. simpl length. rewrite Z.pow_1_r. lia.
Qed.

Lemma Bytes_spec z : 0 <= z →
  Forall byte_range (Bytes z) ∧ SetBytes (Bytes z) = z ∧
  256 ^ Z.of_nat (length (Bytes z)) <= Z.max 1 (256 * z).
Proof.
  intros Hz. unfold Bytes. rewrite Z.abs_eq by done.
  destruct (bytes_go_spec (S (Z.to_nat (Z.log2 z))) z []) as (l & -> & H); [|by rewrite app_nil_r].
  split; [done|]. rewrite Nat2Z.inj_succ, Z2Nat.id by apply Z.log2_nonneg.
  destruct (Z.eq_dec z 0) as [->|]; [done|]. apply Z.log2_spec. lia.
Qed.

(** The number of bytes is the least that hold the value. *)
Lemma Bytes_length z n : 256 ^ Z.of_nat n <= z < 256 ^ Z.of_nat (S n) → length (Bytes z) = S n.
Proof.
  intros [Hlo Hhi]. assert (0 < 256 ^ Z.of_nat n) as Hp by (apply Z.pow_pos_nonneg; lia).
  destruct (Bytes_spec z) as (Hb & Hs & Hl); [lia|].
  pose proof (SetBytes_bound _ Hb) as [_ Hub]. rewrite Hs in Hub.
  assert (Z.of_nat n < Z.of_nat (length (Bytes z))) by (apply (Z.pow_lt_mono_r_iff 256); lia).
  assert (Z.of_nat (length (Bytes z)) < Z.of_nat (S (S n))) by
    (apply (Z.pow_lt_mono_r_iff 256); [lia..|]; rewrite (Nat2Z.inj_succ (S n)), Z.pow_succ_r; lia).
  lia.
Qed.

Lemma land_byte a b m c : byte_range b → byte_range c →
  Z.land (a * 256 + b) (m * 256 + c) = Z.land a m * 256 + Z.land b c.
Proof.
  unfold byte_range. intros Hb Hc.
  assert (∀ x y, 0 <= y < 256 → (x * 256 + y) / 256 = x ∧ (x * 256 + y) mod 256 = y) as Hdm.
  { intros x y Hy. split; [rewrite Z.div_add_l by lia; rewrite Z.div_small by lia; lia|].
    rewrite Z.add_comm, Z.mod_add by lia. by apply Z.mod_small. }
  set (x := a * 256 + b). set (y := m * 256 + c).
  rewrite (Z.div_mod (Z.land x y) 256) by lia. change 256 with (2 ^ 8).
  rewrite <- Z.shiftr_div_pow2, Z.shiftr_land, !Z.shiftr_div_pow2 by lia.
  rewrite <- (Z.land_ones (Z.land x y)) by lia.
  replace (Z.land (Z.land x y) (Z.ones 8)) with (Z.land (Z.land x (Z.ones 8)) (Z.land y (Z.ones 8))).
  2:{ apply Z.bits_inj'. intros i Hi. rewrite !Z.land_spec. by destruct (Z.testbit x i), (Z.testbit y i), (Z.testbit _ i). }
  rewrite !Z.land_ones by lia. change (2 ^ 8) with 256. subst x y.
  destruct (Hdm a b Hb) as [-> ->]. destruct (Hdm m c Hc) as [-> ->]. lia.
Qed.

Lemma SetBytes_masked ip mask :
  length ip = length mask → Forall byte_range ip → Forall byte_range mask →
  SetBytes (masked ip mask) = Z.land (SetBytes ip) (SetBytes mask) ∧ length (masked ip mask) = length ip.
Proof.
  revert mask. induction ip as [|b ip IH] using rev_ind; intros mask Hl Hi Hm.
  { by destruct mask. }
  destruct (exists_last (l:=mask)) as (mask' & c & ->).
  { intros ->. rewrite length_app in Hl. simpl in Hl. lia. }
  rewrite !length_app in Hl. simpl in Hl.
  apply Forall_app in Hi as [Hi Hb]. apply Forall_app in Hm as [Hm Hc].
  rewrite Forall_singleton in Hb, Hc. destruct (IH mask') as [E1 E2]; [lia|done..|].
  unfold masked in *. rewrite zip_with_app by lia. cbn [zip_with].
  rewrite !SetBytes_snoc, length_app, land_byte, E1 by done. split; [done|]. rewrite length_app. simpl. lia.
Qed.

Lemma SetBytes_inj l1 l2 :
  Forall byte_range l1 → Forall byte_range l2 → length l1 = length l2 → SetBytes l1 = SetBytes l2 → l1 = l2.
Proof.
  revert l2. induction l1 as [|b l1 IH] using rev_ind; intros l2 H1 H2 Hl Hs; [by destruct l2|].
  destruct (exists_last (l:=l2)) as (l2' & c & ->).
  { intros ->. rewrite length_app in Hl. simpl in Hl. lia. }
  rewrite !length_app in Hl. simpl in Hl. rewrite !SetBytes_snoc in Hs.
  apply Forall_app in H1 as [H1 Hb]. apply Forall_app in H2 as [H2 Hc].
  rewrite Forall_singleton in Hb, Hc. unfold byte_range in *.
  rewrite (IH l2') by (done || lia). f_equal. f_equal. lia.
Qed.

Lemma masked_bytes ip mask : Forall byte_range ip → Forall byte_range mask → Forall byte_range (masked ip mask).
Proof.
  intros Hi Hm. unfold masked. revert mask Hm. induction Hi as [|b l Hb Hi IH]; intros mask Hm; [by destruct mask|].
  destruct Hm as [|c mask Hc Hm]; cbn [zip_with]; constructor; [|by apply IH].
  unfold byte_range in *. split; [by apply Z.land_nonneg; left; lia|].
  pose proof (Z.land_ones c 8 ltac:(lia)) as Hc8. change (2 ^ 8) with 256 in Hc8. rewrite Z.mod_small in Hc8 by lia.
  rewrite <- Hc8, Z.land_assoc, Z.land_ones by lia. by apply Z.mod_pos_bound.
Qed.

(** Masking with the ones above bit [k] drops the bits below it. *)
Lemma land_mask x k : 0 <= x < 2 ^ 32 → 0 <= k <= 32 → Z.land x (2 ^ 32 - 2 ^ k) = x / 2 ^ k * 2 ^ k.
Proof.
  intros Hx Hk. replace (2 ^ 32 - 2 ^ k) with (Z.ldiff (Z.ones 32) (Z.ones k)).
  - rewrite Z.ldiff_land, Z.land_assoc, Z.land_ones, Z.mod_small by lia.
    rewrite <- Z.ldiff_land, Z.ldiff_ones_r by lia. by rewrite Z.shiftl_mul_pow2, Z.shiftr_div_pow2 by lia.
  - rewrite Z.ldiff_ones_r, Z.shiftl_mul_pow2, Z.shiftr_div_pow2, Z.ones_equiv by lia.
    replace 32 with (k + (32 - k)) at 1 2 by lia. rewrite Z.pow_add_r by lia.
    assert (0 < 2 ^ k) by (apply Z.pow_pos_nonneg; lia).
    replace (Z.pred (2 ^ k * 2 ^ (32 - k))) with ((2 ^ (32 - k) - 1) * 2 ^ k + (2 ^ k - 1)) by lia.
    rewrite Z.div_add_l, (Z.div_small (2 ^ k - 1)) by lia. lia.
Qed.

(** An IPv4 network with [k] host bits, as [ParseCIDR] gives it. *)
Record v4net (n : IPNet) (k : Z) : Prop := {
  v4_ip : Forall byte_range (in_IP n) ∧ length (in_IP n) = 4%nat;
  v4_mask : Forall byte_range (in_Mask n) ∧ length (in_Mask n) = 4%nat;
  v4_bits : 0 <= k <= 32 ∧ SetBytes (in_Mask n) = 2 ^ 32 - 2 ^ k;
  v4_base : SetBytes (in_IP n) mod 2 ^ k = 0 }.

(** Which four bytes such a network contains. *)
Lemma v4_contains n k ip : v4net n k → Forall byte_range ip → length ip = 4%nat →
  net_Contains n ip = bool_decide (SetBytes ip / 2 ^ k = SetBytes (in_IP n) / 2 ^ k).
Proof.
  intros [[Hi Hil] [Hm Hml] [Hk Hbits] _] Hb Hl. unfold net_Contains, To4.
  rewrite Hl, Hil. cbn [Nat.eqb from_option id]. rewrite Hl, Hil. cbn [Nat.eqb andb].
  assert (0 < 2 ^ k) by (apply Z.pow_pos_nonneg; lia).
  pose proof (SetBytes_bound _ Hi) as Bi. pose proof (SetBytes_bound _ Hb) as Bb.
  rewrite Hil in Bi. rewrite Hl in Bb. change (256 ^ Z.of_nat 4) with (2 ^ 32) in *.
  destruct (SetBytes_masked (in_IP n) (in_Mask n)) as [E1 L1]; [congruence|done..|].
  destruct (SetBytes_masked ip (in_Mask n)) as [E2 L2]; [congruence|done..|].
  rewrite Hbits, land_mask in E1, E2 by lia.
  apply bool_decide_ext. split.
  - intros E. rewrite E, E2 in E1. apply Z.mul_reg_r in E1; lia.
  - intros E. apply SetBytes_inj; [by apply masked_bytes..|lia|]. by rewrite E1, E2, E.
Qed.

(** A number outside the network is outside it in bytes. *)
Lemma v4_outside n k z : v4net n k → 2 ^ 24 <= z < 2 ^ 64 → z / 2 ^ k ≠ SetBytes (in_IP n) / 2 ^ k →
  net_Contains n (Bytes z) = false.
Proof.
  intros Hn Hz Hne. destruct (Bytes_spec z) as (Hb & Hs & Hlen); [lia|].
  destruct (decide (z < 2 ^ 32)) as [Hlt|Hge].
  - rewrite (v4_contains n k) by (done || apply (Bytes_length z 3); change (2 ^ 24 <= z < 2 ^ 32); lia).
    rewrite Hs. by apply bool_decide_eq_false.
  - destruct Hn as [[Hi Hil] _ _ _]. pose proof (SetBytes_bound _ Hb) as [_ Hub]. rewrite Hs in Hub.
    assert (Z.of_nat 4 < Z.of_nat (length (Bytes z))).
    { apply (Z.pow_lt_mono_r_iff 256); [lia..|]. change (256 ^ Z.of_nat 4) with (2 ^ 32). lia. }
    assert (Z.of_nat (length (Bytes z)) < Z.of_nat 10).
    { apply (Z.pow_lt_mono_r_iff 256); [lia..|]. change (256 ^ Z.of_nat 10) with (2 ^ 80). lia. }
    unfold net_Contains, To4. rewrite Hil. cbn [Nat.eqb from_option id].
    assert ((length (Bytes z) =? 4)%nat = false) as E4 by (apply Nat.eqb_neq; lia).
    assert ((length (Bytes z) =? 16)%nat = false) as E16 by (apply Nat.eqb_neq; lia).
    by rewrite E4, E16; cbn [andb from_option id]; rewrite Hil, E4.
Qed.

(** The text without the white space outside strings. *)
Fixpoint compact (s : string) (st : scan) : string :=
  match s with
  | EmptyString => EmptyString
  | String c r =>
      match st with
      | Outside => if isJsonSpace c then compact r st else String c (compact r (scan_step st c))
      | _ => String c (compact r (scan_step st c))
      end
  end.

Fixpoint allSpace (s : string) : bool :=
  match s with EmptyString => true | String c r => isJsonSpace c && allSpace r end.

Lemma compact_space a b : allSpace a = true → compact (a +:+ b) Outside = compact b Outside.
Proof.
  induction a as [|c a IH]; [done|]. cbn [allSpace]. intros [Hc Ha]%andb_prop.
  cbn [String.append compact]. by rewrite Hc, IH.
Qed.

Lemma allSpace_app a b : allSpace (a +:+ b) = allSpace a && allSpace b.
Proof. induction a as [|c a IH]; [done|]. cbn [String.append allSpace]. by rewrite IH, andb_assoc. Qed.

Lemma allSpace_indents ind d : allSpace ind = true → allSpace (newline +:+ indents ind d) = true.
Proof.
  intros Hi. rewrite allSpace_app. cbn. induction d as [|d IH]; [done|].
  cbn [indents]. by rewrite allSpace_app, Hi.
Qed.

Lemma punct_outside c : Ascii.eqb c dquote = false → scan_step Outside c = Outside.
Proof. intros Hc. cbn. by rewrite Hc. Qed.

Lemma compact_indent_go ind s : allSpace ind = true → ∀ st need depth,
  compact (indent_go ind s st need depth) st = compact s st.
Proof.
  intros Hi. induction s as [|c r IH]; intros st need depth; [done|].
  destruct st; cbn [indent_go]; [|cbn [compact]; by rewrite IH..].
  destruct (isJsonSpace c) eqn:Hc; [cbn [compact]; by rewrite Hc, IH|].
  destruct (if need && _ && _ then _ else _) as [[pre need'] depth'] eqn:Ep.
  assert (allSpace pre = true) as Hpre.
  { destruct (need && _ && _); injection Ep as <- _ _; [|done]. exact (allSpace_indents ind (S depth) Hi). }
  rewrite compact_space by done. clear Ep.
  assert (∀ t d, compact (String c (newline +:+ indents ind d +:+ t)) Outside
                 = String c (compact (newline +:+ indents ind d +:+ t) (scan_step Outside c))) as Hcomma.
  { intros t d. cbn [compact]. by rewrite Hc. }
  destruct (Ascii.eqb c dquote) eqn:Hq.
  { apply Ascii.eqb_eq in Hq as ->. unfold dquote. cbn. by rewrite IH. }
  assert (∀ t, compact (String c t) Outside = String c (compact t Outside)) as Hstep.
  { intros t. cbn [compact]. rewrite Hc, punct_outside; done. }
  rewrite (Hstep r). rewrite punct_outside by done.
  destruct (_ || _); [by rewrite Hstep, IH|].
  destruct (Ascii.eqb c ","); [by rewrite Hstep, <- string_app_assoc, compact_space, IH by by apply allSpace_indents|].
  destruct (Ascii.eqb c ":"); [by rewrite Hstep, compact_space, IH|].
  destruct (_ || _); [|by rewrite Hstep, IH].
  destruct need'; [by rewrite Hstep, IH|].
  by rewrite <- string_app_assoc, compact_space, Hstep, IH by by apply allSpace_indents.
Qed.

(** ** Properties *)
Section properties.

(** Indenting JSON text changes nothing but the white space between its
    tokens: what is inside strings stays as it is. *)
Theorem PrettyJson_compact `{Json A} (x : A) : compact (PrettyJson x) Outside = compact (Marshal x) Outside.
Proof. by apply compact_indent_go. Qed.

(** C26: the service address with number [index] of an IPv4 network with [k] host
    bits: when the network holds that many addresses it is the base address
    plus the number, in four bytes; otherwise the answer is an error, never an
    address outside the network.  The network must not start below 1.0.0.0,
    whose addresses [big.Int.Bytes] renders in fewer bytes. *)
Theorem GetDNSIP_in_subnet `{ParseCIDR} subnet index n k :
  parseCIDR subnet = (Some n, None) → v4net n k → 2 ^ 24 <= SetBytes (in_IP n) →
  0 <= index < 2 ^ 63 →
  (index < 2 ^ k → ∃ ip, GetDNSIP subnet index = Ret (Some ip, None) ∧ length ip = 4%nat ∧
                         SetBytes ip = SetBytes (in_IP n) + index) ∧
  (2 ^ k <= index → ∃ e, GetDNSIP subnet index = Ret (None, Some e)).
Proof.
  intros Hp Hn Hlow Hidx. unfold GetDNSIP. rewrite Hp.
  pose proof Hn as [[Hi Hil] _ [Hk _] Hbase].
  assert (default [] (To4 (in_IP n)) = in_IP n) as -> by (unfold To4; by rewrite Hil).
  set (base := SetBytes (in_IP n)) in *.
  assert (0 < 2 ^ k) as Hpk by (apply Z.pow_pos_nonneg; lia).
  pose proof (SetBytes_bound _ Hi) as [_ Hub]. rewrite Hil in Hub.
  change (256 ^ Z.of_nat 4) with (2 ^ 32) in Hub. fold base in Hub.
  apply Z.div_exact in Hbase; [|lia]. split; intros Hroom.
  - assert (base + index < 2 ^ 32) as Hfit.
    { assert (2 ^ 32 = 2 ^ k * 2 ^ (32 - k)) as E32 by (rewrite <- Z.pow_add_r by lia; f_equal; lia).
      assert (base / 2 ^ k < 2 ^ (32 - k)) by nia. nia. }
    assert (length (Bytes (base + index)) = 4%nat) as Hlen.
    { apply (Bytes_length _ 3). change (2 ^ 24 <= base + index < 2 ^ 32). lia. }
    destruct (Bytes_spec (base + index)) as (Hb & Hs & _); [lia|].
    rewrite (v4_contains n k), bool_decide_eq_true_2; [by eexists| |done..].
    rewrite Hs. fold base. rewrite Hbase at 1. rewrite Z.mul_comm, Z.div_add_l by lia.
    rewrite (Z.div_small index) by lia. lia.
  - rewrite (v4_outside n k); [by eexists|done|lia|]. fold base.
    intros E. assert (base + index < 2 ^ k * (base / 2 ^ k) + 2 ^ k).
    { rewrite <- E. pose proof (Z.mul_succ_div_gt (base + index) (2 ^ k) Hpk). lia. }
    lia.
Qed.
End properties.

(** ** Witness *)
Module SimNet.
(** 172.16.0.0/16 *)
Definition services : IPNet := MkIPNet [172; 16; 0; 0] [255; 255; 0; 0].
#[export] Instance parse : ParseCIDR := λ _, (Some services, None).
Lemma services_v4 : v4net services 16.
Proof.
  split; [split; [|done]|split; [|done]|split; [lia|done]|done];
    repeat constructor; unfold byte_range; lia.
Qed.
End SimNet.

Lemma GetDNSIP_in_subnet_witness :
  (∃ ip, GetDNSIP (H := SimNet.parse) "172.16.0.0/16" 10 = Ret (Some ip, None) ∧ length ip = 4%nat ∧
         SetBytes ip = SetBytes (in_IP SimNet.services) + 10) ∧
  (∃ e, GetDNSIP (H := SimNet.parse) "172.16.0.0/16" 65536 = Ret (None, Some e)).
Proof.
  split.
  - refine (proj1 (GetDNSIP_in_subnet (H := SimNet.parse) "172.16.0.0/16" 10 SimNet.services 16 eq_refl
      SimNet.services_v4 _ _) _); [vm_compute; discriminate|lia|lia].
  - refine (proj2 (GetDNSIP_in_subnet (H := SimNet.parse) "172.16.0.0/16" 65536 SimNet.services 16 eq_refl
      SimNet.services_v4 _ _) _); [vm_compute; discriminate|lia|lia].
Defined.
