(* ===== verification/Provider.v ===== *)
(** * The provider context (pkg/iaas/provider/provider.go)

    The context every provider call carries, how it is built from the command
    line options and the cluster specification, and the choice of the provider
    configuration.  Options and specification are shared by pointer between the
    context and the caller; [Initialize] returns the context and the options as
    they are after the assignments made through these pointers. *)
From stdpp Require Import base list gmap strings.
From S2P Require Import Prelude GoStrings GoTime Api Effects.

(** ** The context *)
Definition NewEmptyContext : Context_ := MkContext None None None false.

Definition NewContextWithCluster (spec : ClusterSpec) : Context_ :=
  MkContext (Some (Some spec)) None None false.

Definition WithStack (stack : gmap string Value) (n : Context_) : Context_ :=
  MkContext (x_BootCFG n) (x_WdripOptions n) (Some stack) (x_Provider n).

(** [SetKV] at the keys the code uses. *)
Definition set_BootCFG (spec : option ClusterSpec) (n : Context_) : Context_ :=
  MkContext (Some spec) (x_WdripOptions n) (x_Stack n) (x_Provider n).
Definition set_WdripOptions (o : WdripOptions) (n : Context_) : Context_ :=
  MkContext (x_BootCFG n) (Some o) (x_Stack n) (x_Provider n).
Definition set_Provider (n : Context_) : Context_ :=
  MkContext (x_BootCFG n) (x_WdripOptions n) (x_Stack n) true.

Definition zeroWdripOptions : WdripOptions :=
  MkWdripOptions "" "" "" "" "" "" "" 0 "" "" None "" 0 "" (MkOperatorFlag "" false "" "" "" 0).

(** [n.BootCFG()]: the stored pointer, or a fresh zero specification. *)
Definition BootCFG (n : Context_) : option ClusterSpec :=
  match x_BootCFG n with Some p => p | None => Some zeroClusterSpec end.
(** The specification is shared by pointer with the context, when the context
    holds one. *)
Definition write_BootCFG (spec : ClusterSpec) (ctx : Context_) : Context_ :=
  match x_BootCFG ctx with Some _ => set_BootCFG (Some spec) ctx | None => ctx end.
Definition getWdripOptions (n : Context_) : WdripOptions :=
  match x_WdripOptions n with Some o => o | None => zeroWdripOptions end.
Definition getStack (n : Context_) : gmap string Value :=
  match x_Stack n with Some s => s | None => ∅ end.

(** The providers registered by the [init] functions of the packages. *)
Definition Providers : list string := ["alibaba"].

Definition wo_with_Default (d : option ContextCFG) (o : WdripOptions) : WdripOptions :=
  MkWdripOptions (wo_Endpoint o) (wo_Role o) (wo_Token o) (wo_Config o) (wo_Bucket o)
    (wo_BootType o) (wo_Resource o) (wo_TargetCount o) (wo_RecoverFrom o) (wo_ClusterName o)
    d (wo_Addons o) (wo_ExpectedMasterCnt o) (wo_RecoverMode o) (wo_OperatorCFG o).

(** ** utils.FileExist and cmd.CmdError, which several packages use *)
Section operations.
Context {W : Type} `{Env W} `{PkgErrors} `{Yaml ClusterSpec} `{Yaml ContextCFG}.

(** [GetProvider(key)] *)
Definition GetProvider (key : string) : IO W string :=
  if decide (key ∈ Providers) then mret key
  else panic ("provider " +:+ key +:+ " not supported").

(** pkg/utils/util.go: [FileExist] *)
Definition FileExist (file : string) : IO W (bool * error) :=
  st ← perform (Stat file);
  match st with
  | StatOk => mret (true, None)
  | StatNotExist => mret (false, None)
  | StatErr e => mret (false, Some e)
  end.

(** pkg/utils/cmd/cmd.go: [CmdError] *)
Definition CmdError (sta : CmdStatus) : error :=
  if (c_Exit sta =? 0)%Z && bool_decide (c_Error sta = None) then None
  else Errorf ("exit=" +:+ fmt_d (c_Exit sta) +:+ ", error: " +:+ errText (c_Error sta) +:+
               ". stderr: " +:+ fmt_strs (c_Stderr sta) +:+ ", out: " +:+ fmt_strs (c_Stdout sta)).

(** pkg/utils/cmd/cmd.go: [Systemctl] (the exit status is not looked at). *)
Definition Systemctl (ops : list string) : IO W error :=
  result ← perform (Run "systemctl" ops []);
  mret (c_Error result).

(** [os.UserHomeDir()] on Unix *)
Definition UserHomeDir : IO W (string * error) :=
  home ← perform (Getenv "HOME");
  mret (if decide (home = "") then ("", Errorf "$HOME is not defined") else (home, None)).

Definition HomeDir : IO W (string * error) :=
  '(home, err) ← UserHomeDir;
  match err with
  | None => mret (home, None)
  | Some _ =>
      result ← perform (Run "whoami" [] []);
      match CmdError result with
      | Some e => mret ("", Wrapf (Some e) "read home dir by $(pwd ~)")
      | None =>
          match c_Stdout result with
          | [] => mret ("", None)
          | who :: _ =>
              if decide (who = "root") then mret ("/root", None)
              else mret ("/home/" +:+ who, None)
          end
      end
  end.

(** [LoadBootCFG(name)] *)
Definition LoadBootCFG (name : string) : IO W (option ClusterSpec * error) :=
  if decide (name = "") then
    mret (None, Errorf "cluster config file must be specified with --config")
  else
    '(data, err) ← perform (ReadFile name);
    match err with
    | Some e => mret (None, Errorf ("read boot config file: " +:+ Error e))
    | None =>
        match YamlUnmarshal data zeroClusterSpec with
        | (_, Some e) => mret (None, Errorf ("unmarshal bootcfg: " +:+ Error e))
        | (spec, None) => mret (Some spec, None)
        end
    end.

(** [BuildContexCFG(spec)]: ~/.wdrip/config first, then the specification's
    own provider on top of it. *)
Definition BuildContexCFG (spec : option ClusterSpec) : IO W ContextCFG :=
  '(home, _) ← HomeDir;
  let cacheDir := JoinPath [home; ".wdrip/"] in
  let mctx := MkContextCFG "Config" "alibabacloud.com/v1" "" [] [] in
  let mfi := JoinPath [cacheDir; "config"] in
  '(found, err) ← FileExist mfi;
  mctx ← (if bool_decide (err = None) && (found : bool) then
            '(cfg, _) ← perform (ReadFile mfi);
            mret (YamlUnmarshal cfg mctx).1
          else mret mctx);
  match spec with
  | Some sp =>
      match bi_Provider (cs_Bind sp) with
      | Some p =>
          let pkey := "provider01" in
          mret (MkContextCFG (cc_Kind mctx) (cc_APIVersion mctx) (cs_ClusterID sp)
                  [MkContextItem (cs_ClusterID sp) (Some pkey)]
                  [MkProviderItem pkey (Some p)])
      | None => mret mctx
      end
  | None => mret mctx
  end.

(** [n.Initialize(opts)]: the context and the options afterwards. *)
Definition Initialize (n : Context_) (opts : WdripOptions)
    : IO W (Context_ * WdripOptions * error) :=
  opts ← (match wo_Default opts with
          | None => d ← BuildContexCFG (BootCFG n); mret (wo_with_Default (Some d) opts)
          | Some _ => mret opts
          end);
  let n := set_WdripOptions opts n in
  dprvd ← (match wo_Default opts with
           | Some d => lift (CurrentPrvdCFG d)
           | None => panic "nil pointer dereference"
           end);
  step ← (if decide (wo_Config opts = "") then mret (inl (n, dprvd))
          else
            '(bootcfg, err) ← LoadBootCFG (wo_Config opts);
            match err, bootcfg with
            | Some e, _ => mret (inr (Errorf ("load bootcfg: " +:+ Error e)))
            | None, None => panic "nil pointer dereference"
            | None, Some b =>
                let b := match bi_Provider (cs_Bind b) with
                         | None => cs_with_Bind (set_Bind_Provider dprvd (cs_Bind b)) b
                         | Some _ => b
                         end in
                match bi_Provider (cs_Bind b) with
                | None => panic "nil pointer dereference" (* dprvd.Name in the log call *)
                | Some p => mret (inl (set_BootCFG (Some b) n, Some p))
                end
            end);
  match step with
  | inr err => mret (n, opts, err)
  | inl (n, None) => panic "nil pointer dereference" (* dprvd.Name *)
  | inl (n, Some p) =>
      _ ← GetProvider (pv_Name p);
      '(n, err) ← perform (PInitialize n);
      match err with
      | Some e => mret (n, opts, Errorf ("initialize provider: " +:+ Error e))
      | None => mret (set_Provider n, opts, None)
      end
  end.

(** [NewContext(options, spec)] *)
Definition NewContext (options : WdripOptions) (spec : option ClusterSpec)
    : IO W (Context_ * WdripOptions * error) :=
  Initialize (set_WdripOptions options (set_BootCFG spec NewEmptyContext)) options.
End operations.

(** ** Lemmas *)
Lemma BootCFG_NewContextWithCluster spec : BootCFG (NewContextWithCluster spec) = Some spec.
Proof. reflexivity. Qed.

Section facts.
Context {W : Type} `{Env W} `{PkgErrors} `{Yaml ClusterSpec} `{Yaml ContextCFG}.

(** The context built from a specification that carries a provider selects
    that provider, whatever the files on disk say. *)
Lemma BuildContexCFG_spec_wins sp p s c s' :
  bi_Provider (cs_Bind sp) = Some p →
  BuildContexCFG (Some sp) s = (Ret c, s') → CurrentPrvdCFG c = Ret (Some p).
Proof.
  intros Hp Hr. unfold BuildContexCFG in Hr. rewrite Hp in Hr.
  apply bind_Ret_inv in Hr as ([home e] & s1 & _ & Hr).
  apply bind_Ret_inv in Hr as ([ex e2] & s2 & _ & Hr).
  apply bind_Ret_inv in Hr as (mctx & s3 & _ & Hr).
  injection Hr as <- _. unfold CurrentPrvdCFG. simpl.
  by rewrite bool_decide_true.
Qed.

Lemma CmdError_nil sta : CmdError sta = None ↔ c_Exit sta = 0%Z ∧ c_Error sta = None.
Proof.
  unfold CmdError. destruct (Z.eqb_spec (c_Exit sta) 0) as [E|E]; simpl;
    [|split; [done|naive_solver]].
  case_bool_decide; naive_solver.
Qed.
End facts.
