(* ===== verification/Rest.v ===== *)
(** * The HTTP client of the boot server (pkg/client/rest, pkg/client/wdrip)

    Requests with retries, their decoding, and the clients of the clusters,
    nodes and credentials the API server of the operator serves. *)
From stdpp Require Import base list gmap strings.
From Stdlib Require Import Lia.
From S2P Require Import Prelude GoStrings GoTime Api Effects Utils.
Local Open Scope Z_scope.

(** [wait.ExponentialBackoff] with the given duration, factor and steps: what its
    documentation says of the runs of the condition. *)
Class BackoffLib (W : Type) : Type :=
  ExponentialBackoff : Z → Z → nat → IO W (bool * error) → IO W error.
Class VarBackoffSpec (W V : Type) `{BackoffLib (W * V)} : Prop :=
  ExponentialBackoff_run d f n cond (s : St (W * V)) :
    poll_run_on idle_var cond s (ExponentialBackoff d f (S n) cond s).1 (ExponentialBackoff d f (S n) cond s).2.

(** An error of [send] with what [shouldRetry] sees of its dynamic type: every
    error of [http.Client.Do] is a [*url.Error], which has a [Timeout] method;
    reading a body fails in a transient way or not; the other errors are made
    here. *)
Inductive send_error : Type :=
| UrlError (e : goerr)
| ReadError (e : goerr) (transient : bool)
| PlainError (e : goerr).
Definition shouldRetry (err : option send_error) : bool :=
  match err with
  | None => false
  | Some (UrlError _) => true
  | Some (ReadError _ b) => b
  | Some (PlainError _) => false
  end.

(** net/url: scheme, host and path. *)
Class UrlLib : Type := url_Parse : string → (string * string * string) + goerr.

(** [RESTClientFor] of a configuration with a host and no certificates: the
    scheme and host of the server. *)
Definition DefaultServerURL `{UrlLib} (host : string) : (string * string) + goerr :=
  let again :=
    match url_Parse ("http://" +:+ host) with
    | inr e => inr e
    | inl (scheme, h, path) =>
        if bool_decide (path ≠ "") && bool_decide (path ≠ "/")
        then inr (GoErr ("host must be a URL or a host:port pair: " +:+ host) false)
        else inl (scheme, h)
    end in
  if decide (host = "") then inr (GoErr "host must be a URL or a host:port pair" false)
  else
    match url_Parse host with
    | inl (scheme, h, _) =>
        if bool_decide (scheme = "") || bool_decide (h = "") then again else inl (scheme, h)
    | inr _ => again
    end.
Definition defaultServerUrlFor `{UrlLib} (host : string) : (string * string) + goerr :=
  DefaultServerURL (if decide (host = "") then "localhost" else host).

(** A client: its base URL. *)
Record RESTClient : Type := MkRESTClient { rc_Scheme : string; rc_Host : string }.
Definition RESTClientFor `{UrlLib} (host : string) : RESTClient + goerr :=
  match defaultServerUrlFor host with
  | inl (scheme, h) => inl (MkRESTClient scheme h)
  | inr e => inr e
  end.
Definition RestClientForWDRIP `{UrlLib} (endpoint : string) : RESTClient + goerr := RESTClientFor endpoint.

Record Request : Type := MkRequest {
  rq_client : RESTClient;
  rq_verb : string;
  rq_pathPrefix : string;
  rq_resource : string;
  rq_resourceName : string;
  rq_body : option string }.

Section operations.
Context {W : Type} `{Env W}.

(** [Url()] *)
Definition rest_Url (req : Request) : IO W (string + goerr) :=
  if decide (rq_resource req = "") then mret (inr (GoErr "the resource you want to visit must not be nil" false))
  else
    env ← perform (Getenv "ENDPOINT");
    let endpoint := if decide (env = "") then rc_Scheme (rq_client req) +:+ "://" +:+ rc_Host (rq_client req) else env in
    mret (inl (endpoint +:+ JoinPath [rq_pathPrefix req; rq_resource req; rq_resourceName req])).

(** [send()], which reads the body of the request: what is left of it comes
    back. *)
Definition rest_send (req : Request) (body : option string) : IO W ((string * option send_error) * option string) :=
  url ← rest_Url req;
  match url with
  | inr e => mret (("", Some (PlainError e)), body)
  | inl url =>
      '(resp, body) ← perform (Http (rq_verb req) url body);
      match resp with
      | HttpError e => mret (("", Some (UrlError e)), body)
      | HttpAnswer status data rerr =>
          if negb (status =? 200) then
            match rerr with
            | Some (e, _) => mret (("", Some (PlainError (GoErr ("request code: " +:+ fmt_d status +:+ ", " +:+ Error e) false))), body)
            | None => mret (("", Some (PlainError (GoErr ("request: StatusBar Code: " +:+ fmt_d status +:+ ", data " +:+ data) false))), body)
            end
          else
            match rerr with
            | Some (e, transient) => mret (("", Some (ReadError e transient)), body)
            | None => mret ((data, None), body)
            end
      end
  end.
End operations.

Section requests.
Context {W : Type} `{Env W} `{BackoffLib (W * (string * option string))}.
Existing Instance var_env.

(** The attempt of [Do]: the captured variables are the text received and the
    reader of the body.  An error that is not worth another try ends the
    attempts as a success. *)
Definition rest_attempt (req : Request) : IO (W * (string * option string)) (bool * error) :=
  '(_, body) ← get_var;
  '((res, err), body) ← rest_send req body;
  _ ← set_var (res, body);
  if shouldRetry err then mret (false, None) else mret (true, None).

(** [Do(api)] with [Decode]: an empty text leaves the object as it is. *)
Definition rest_Do {A} `{Json A} (req : Request) (api : A) : IO W (A * error) :=
  '(err, (res, _)) ← with_var ("", rq_body req) (ExponentialBackoff (Second / 2) 1 4 (rest_attempt req));
  match err with
  | Some e => mret (api, Some e)
  | None => mret (if decide (res = "") then (api, None) else Unmarshal res api)
  end.

(** ** pkg/client/wdrip *)
Definition getRequest (c : RESTClient) (resource name : string) : Request :=
  MkRequest c "GET" "/api/v1" resource name None.
Definition postRequest (c : RESTClient) (resource body : string) : Request :=
  MkRequest c "POST" "/api/v1" resource "" (Some body).

Definition cluster_Get `{Json Cluster} (c : RESTClient) (name : string) : IO W (Cluster * error) :=
  rest_Do (getRequest c "clusters" name) zeroCluster.
(** The answer is decoded into a pointer to the argument: what is returned is
    empty. *)
Definition cluster_Create `{Json Cluster} (c : RESTClient) (node : Cluster) : IO W (Cluster * error) :=
  '(_, err) ← rest_Do (postRequest c "clusters" (Marshal node)) node;
  mret (zeroCluster, err).

Definition credential_Get `{Json Master} (c : RESTClient) (name : string) : IO W (Master * error) :=
  rest_Do (getRequest c "credentials" name) zeroMaster.
Definition credential_Create `{Json Master} (c : RESTClient) (node : Master) : IO W (Master * error) :=
  '(_, err) ← rest_Do (postRequest c "credentials" (Marshal node)) node;
  mret (zeroMaster, err).

Definition node_Get `{Json Master} (c : RESTClient) (name : string) : IO W (Master * error) :=
  rest_Do (getRequest c "nodes" name) zeroMaster.
Definition node_Create `{Json Master} (c : RESTClient) (node : Master) : IO W (Master * error) :=
  rest_Do (postRequest c "nodes" (Marshal node)) zeroMaster.
End requests.

(** Methods that answer an error only (List, Delete and Update of the three). *)
Definition unimplemented : error := Errorf "unimplemented".

(** ** Facts *)
Section facts.
Context {W : Type} `{Env W}.

(** A run whose first attempt says done is that attempt. *)
Lemma poll_run_first R (cond : IO W (bool * error)) s s1 o s' :
  cond s = (Ret (true, None), s1) → poll_run_on R cond s o s' → o = Ret None ∧ s' = s1.
Proof.
  intros E Hr. inversion Hr as [? ? E1|? ? ? ? E1|? ? ? E1|? ? E1|? ? ? E1 ?|? ? ? ? ? E1 ? ?]; subst;
    rewrite E in E1; try congruence. by injection E1 as <-.
Qed.

(** What [send] gives: with an answer of status 200, its text. *)
Lemma rest_send_text req body res err rest (s s' : St W) :
  rest_send req body s = (Ret ((res, err), rest), s') → res ≠ "" →
  ∃ url w, (env_step (Http (rq_verb req) url body) w).1.1 = HttpAnswer 200 res None ∧ err = None.
Proof.
  unfold rest_send. intros HB Hne. apply bind_Ret_inv in HB as ([url|e] & s1 & _ & HB); [|by injection HB as <- _ _ _].
  step_perform_in HB. destruct (env_step (Http (rq_verb req) url body) (world s1)) as [[r b] w] eqn:E.
  cbn [fst snd] in HB. destruct r as [e|status data rerr]; [by injection HB as <- _ _ _|].
  destruct (Z.eqb_spec status 200) as [->|Hs]; cbn [negb] in HB.
  - destruct rerr as [[e t]|]; injection HB as <- <- _ _; [done|]. exists url, (world s1). by rewrite E.
  - destruct rerr as [[e t]|]; by injection HB as <- _ _ _.
Qed.
(** The URL of a request. *)
Definition request_url (req : Request) (env : string) : string :=
  (if decide (env = "") then rc_Scheme (rq_client req) +:+ "://" +:+ rc_Host (rq_client req) else env)
  +:+ JoinPath [rq_pathPrefix req; rq_resource req; rq_resourceName req].

Lemma rest_Url_eq req (s : St W) :
  rq_resource req ≠ "" →
  rest_Url req s = (Ret (inl (request_url req (env_step (Getenv "ENDPOINT") (world s)).1)),
                    MkSt (env_step (Getenv "ENDPOINT") (world s)).2 (log s ++ [Getenv "ENDPOINT"])).
Proof. intros Hne. unfold rest_Url. rewrite decide_False by done. by step_perform. Qed.

(** An answer of another status is a plain error of [send]. *)
Lemma rest_send_status req body status data (s : St W) :
  rq_resource req ≠ "" → status ≠ 200 →
  (env_step (Http (rq_verb req) (request_url req (env_step (Getenv "ENDPOINT") (world s)).1) body)
     (env_step (Getenv "ENDPOINT") (world s)).2).1.1 = HttpAnswer status data None →
  ∃ e rest s', rest_send req body s = (Ret (("", Some (PlainError e)), rest), s').
Proof.
  intros Hne Hst Eh. unfold rest_send. rewrite (bind_Ret _ _ _ _ _ (rest_Url_eq req s Hne)).
  step_perform. apply Z.eqb_neq in Hst.
  destruct (env_step (Http _ _ _) _) as [[r b] w]. cbn [fst snd] in Eh |- *. subst r. rewrite Hst. cbn [negb].
  by do 3 eexists.
Qed.
End facts.

Section request_facts.
Context {W : Type} `{Env W} `{BackoffLib (W * (string * option string)), !VarBackoffSpec W (string * option string)}.
Existing Instance var_env.

Lemma rest_attempt_text req (s s' : St (W * (string * option string))) :
  rest_attempt req s = (Ret (true, None), s') → (world s').2.1 ≠ "" →
  ∃ url w body, (env_step (Http (rq_verb req) url body) w).1.1 = HttpAnswer 200 (world s').2.1 None.
Proof.
  unfold rest_attempt. intros E Hne. apply bind_Ret_inv in E as ([old body] & s1 & _ & E).
  apply bind_Ret_inv in E as ([[res err] rest] & s2 & Es & E).
  apply bind_Ret_inv in E as (u & s3 & Ev & E). unfold set_var in Ev. injection Ev as _ Ev.
  destruct (shouldRetry err); [done|]. injection E as <-. subst s3. cbn [world snd fst] in Hne |- *.
  apply rest_send_text in Es as (url & w & Ew & _); [|done].
  exists url, w.1, body. unfold env_step, var_env in Ew. by destruct (env_step (Http (rq_verb req) url body) w.1).
Qed.

(** An object obtained without an error and changed by the answer was decoded
    from an answer of status 200. *)
Lemma rest_Do_decoded {A} `{Json A} req (api x : A) (s s' : St W) :
  rest_Do req api s = (Ret (x, None), s') →
  x = api ∨ ∃ url w body data, (env_step (Http (rq_verb req) url body) w).1.1 = HttpAnswer 200 data None ∧
                               Unmarshal data api = (x, None).
Proof.
  unfold rest_Do. intros HB. apply bind_Ret_inv in HB as ([err [res rest]] & s1 & Ew & HB).
  destruct err; [done|]. case_decide as Hr; [injection HB as <- _; by left|].
  right. injection HB as HB _. unfold with_var in Ew. set (s0 := MkSt _ _) in Ew.
  pose proof (ExponentialBackoff_run (Second / 2) 1 3 (rest_attempt req) s0) as Hrun.
  destruct (ExponentialBackoff _ _ _ _ s0) as [[o|msg|] sx]; [|done..]. cbn [fst snd] in Hrun.
  injection Ew as -> Evar _. remember (Ret None) as out eqn:Eout.
  induction Hrun as [s2 s3 E| | | |? ? ? ? ?|? ? ? ? ? ? ? ? IH]; try done; [|by apply IH].
  assert ((world s3).2.1 = res) as Hres by (by rewrite Evar).
  destruct (rest_attempt_text _ _ _ E) as (url & w & body & Eh); [by rewrite Hres|].
  rewrite Hres in Eh. by exists url, w, body, res.
Qed.

(** An answer with another status than 200 is no error: the object comes back as
    it was given. *)
Lemma rest_Do_hides_status {A} `{Json A} req (api : A) (s : St W) status data :
  rq_resource req ≠ "" → status ≠ 200 →
  (env_step (Http (rq_verb req) (request_url req (env_step (Getenv "ENDPOINT") (world s)).1) (rq_body req))
     (env_step (Getenv "ENDPOINT") (world s)).2).1.1 = HttpAnswer status data None →
  ∃ s', rest_Do req api s = (Ret (api, None), s').
Proof.
  intros Hres Hst Eh. unfold rest_Do, with_var. rewrite bind_unfold. set (s0 := MkSt _ _).
  assert (∃ s1, rest_attempt req s0 = (Ret (true, None), s1) ∧ (world s1).2.1 = "") as (s1 & E & Hv).
  { unfold rest_attempt. rewrite (bind_Ret get_var _ s0 ("", rq_body req) s0) by done.
    destruct (rest_send_status req (rq_body req) status data s0) as (e & rest & s2 & Es); [done..| |].
    { subst s0. cbn [world]. unfold env_step, var_env. cbn [fst snd].
      destruct (env_step (Getenv "ENDPOINT") (world s)) as [env w]. cbn [fst snd] in Eh |- *.
      by destruct (env_step (Http _ _ _) w) as [[r b] w']. }
    rewrite (bind_Ret _ _ _ _ _ Es). by eexists. }
  pose proof (ExponentialBackoff_run (Second / 2) 1 3 (rest_attempt req) s0) as Hrun.
  destruct (ExponentialBackoff _ _ _ _ s0) as [o sx]. cbn [fst snd] in Hrun.
  apply (poll_run_first _ _ _ _ _ _ E) in Hrun as [-> ->]. cbn [world snd fst].
  destruct ((world s1).2) as [res rest]. cbn [fst] in Hv. subst res.
  rewrite decide_True by done. by eexists.
Qed.
End request_facts.

(** *** What a request calls *)
Section request_calls.
Context {W : Type} `{Env W}.
Existing Instance var_env.

Lemma emits_backoff {V} `{BackoffLib (W * V), !VarBackoffSpec W V} P (v : V) d f n (cond : IO (W * V) (bool * error)) :
  emits P cond → emits P (with_var v (ExponentialBackoff d f (S n) cond)).
Proof.
  intros Hc. apply emits_with_var. intros st. eapply emits_poll_run_on; [|exact Hc|apply ExponentialBackoff_run].
  by intros s1 s2 [? _].
Qed.

Lemma emits_rest_Do {A} `{Json A} `{BackoffLib (W * (string * option string)), !VarBackoffSpec W (string * option string)}
    (P : call → Prop) req (api : A) :
  (∀ k, P (Getenv k)) → (∀ v u b, P (Http v u b)) → emits P (rest_Do (W:=W) req api).
Proof.
  intros HG HH. unfold rest_Do. apply emits_bind; [apply emits_backoff|solve_emits].
  unfold rest_attempt, rest_send, rest_Url. solve_emits; done.
Qed.
End request_calls.

(** ** A concrete backoff, for evaluation *)
Module SimBackoff.
#[export] Instance backoff_lib {W} : BackoffLib W := λ _ _ n, SimWait.attempts (Nat.pred n).
#[export] Instance var_backoff_spec {W V} : VarBackoffSpec W V.
Proof. intros d f n cond s. by apply SimWait.attempts_run_on. Qed.
End SimBackoff.
