(* ===== verification/NodeInfo.v ===== *)
(** * What a machine knows of itself (pkg/node, pkg/node/meta/alibaba)

    The metadata service of the cloud, asked over HTTP with retries, and the
    identity of a node made of its answers. *)
From stdpp Require Import base list gmap strings.
From Stdlib Require Import Lia.
From S2P Require Import Prelude GoStrings GoTime Api Effects Utils Provider Rest.
Local Open Scope Z_scope.

Definition ENDPOINT : string := "http://100.100.100.200".

(** [MetaDataRequest] *)
Record MetaDataRequest : Type := MkMetaDataRequest {
  mr_version : string;
  mr_resourceType : string;
  mr_resource : string;
  mr_subResource : string }.
Definition newRequest (resource : string) : MetaDataRequest := MkMetaDataRequest "" "" resource "".
Definition SubResource (sub : string) (vpc : MetaDataRequest) : MetaDataRequest :=
  MkMetaDataRequest (mr_version vpc) (mr_resourceType vpc) (mr_resource vpc) sub.

Section operations.
Context {W : Type} `{Env W}.

(** [Url()]: the request with its defaults filled in, too. *)
Definition Url (vpc : MetaDataRequest) : IO W (string * error) :=
  let version := if decide (mr_version vpc = "") then "latest" else mr_version vpc in
  let rtype := if decide (mr_resourceType vpc = "") then "meta-data" else mr_resourceType vpc in
  if decide (mr_resource vpc = "") then mret ("", Errorf "the resource you want to visit must not be nil")
  else
    env ← perform (Getenv "METADATA_ENDPOINT");
    let endpoint := if decide (env = "") then ENDPOINT else env in
    let r := endpoint +:+ "/" +:+ version +:+ "/" +:+ rtype +:+ "/" +:+ mr_resource vpc in
    mret (if decide (mr_subResource vpc = "") then r else r +:+ "/" +:+ mr_subResource vpc, None).

(** [send()]: the body of the answer to a GET. *)
Definition meta_send (vpc : MetaDataRequest) : IO W (string * option send_error) :=
  '(url, err) ← Url vpc;
  match err with
  | Some e => mret ("", Some (PlainError e))
  | None =>
      '(resp, _) ← perform (Http "GET" url None);
      match resp with
      | HttpError e => mret ("", Some (UrlError e))
      | HttpAnswer status data rerr =>
          if negb (status =? 200)
          then mret ("", Some (PlainError (GoErr ("aliyun metadata API Error: Status Code: " +:+ fmt_d status) false)))
          else
            match rerr with
            | Some (e, transient) => mret ("", Some (ReadError e transient))
            | None => mret (data, None)
            end
      end
  end.
End operations.

Section requests.
Context {W : Type} `{Env W} `{BackoffLib (W * string)}.
Existing Instance var_env.

(** The attempt of [Do]: [res] is the captured variable. *)
Definition meta_attempt (vpc : MetaDataRequest) : IO (W * string) (bool * error) :=
  '(res, err) ← meta_send vpc;
  _ ← set_var res;
  if shouldRetry err then mret (false, None) else mret (true, None).

Definition Do (vpc : MetaDataRequest) : IO W (string * error) :=
  '(err, res) ← with_var "" (ExponentialBackoff (Second / 2) 2 4 (meta_attempt vpc));
  mret (res, err).

(** [Decode] into a [ResultList]. *)
Definition DecodeList (vpc : MetaDataRequest) (data : string) : IO W (list string * error) :=
  if decide (data = "") then
    '(url, _) ← Url vpc;
    mret ([], Errorf ("metadata: alivpc decode data must not be nil. url=[" +:+ url +:+ "]" +:+ newline))
  else mret (Split data newline, None).

Definition metaList (resource : string) : IO W (list string * error) :=
  let vpc := newRequest resource in
  '(res, err) ← Do vpc;
  match err with
  | Some e => mret ([], Some e)
  | None => DecodeList vpc res
  end.

(** The getters that take the first line of the answer. *)
Definition metaFirst (resource : string) : IO W (string * error) :=
  '(l, err) ← metaList resource;
  match err, l with
  | Some e, _ => mret ("", Some e)
  | None, v :: _ => mret (v, None)
  | None, [] => panic "index out of range [0] with length 0"
  end.
Definition HostName := metaFirst "hostname".
Definition ImageID := metaFirst "image-id".
Definition InstanceID := metaFirst "instance-id".
Definition Mac := metaFirst "mac".
Definition NetworkType := metaFirst "network-type".
Definition OwnerAccountID := metaFirst "owner-account-id".
Definition PrivateIPv4 := metaFirst "private-ipv4".
Definition Region := metaFirst "region-id".
Definition SerialNumber := metaFirst "serial-number".
Definition SourceAddress := metaFirst "source-address".
Definition VpcCIDRBlock := metaFirst "vpc-cidr-block".
Definition VpcID := metaFirst "vpc-id".
Definition VswitchCIDRBlock := metaFirst "vswitch-cidr-block".
Definition VswitchID := metaFirst "vswitch-id".
Definition EIPv4 := metaFirst "eipv4".
Definition Zone := metaFirst "zone-id".
Definition RoleName := metaFirst "ram/security-credentials/".
Definition DNSNameServers := metaList "dns-conf/nameservers".
Definition NTPConfigServers := metaList "ntp-conf/ntp-servers".

(** [meta.RoleAuth] is decoded as JSON. *)
Definition RamRoleToken {A} `{Json A} (zero : A) (role : string) : IO W (A * error) :=
  let vpc := SubResource role (newRequest "ram/security-credentials") in
  '(res, err) ← Do vpc;
  match err with
  | Some e => mret (zero, Some e)
  | None =>
      if decide (res = "") then
        '(url, _) ← Url vpc;
        mret (zero, Errorf ("metadata: alivpc decode data must not be nil. url=[" +:+ url +:+ "]" +:+ newline))
      else
        match Unmarshal res zero with
        | (_, Some e) => mret (zero, Some e)
        | (a, None) => mret (a, None)
        end
  end.

(** ** nodeinfo.go *)
Definition NodeID : IO W (string * error) :=
  '(id, err) ← InstanceID;
  match err with
  | Some e => mret ("", Some e)
  | None =>
      '(region, err) ← Region;
      match err with
      | Some e => mret ("", Some e)
      | None => mret (region +:+ "." +:+ id, None)
      end
  end.
Definition NodeIP : IO W (string * error) := PrivateIPv4.
Definition NodeRegion : IO W (string * error) := Region.
Definition Arch : string * error := ("amd64", None).
Definition OS : string * error := ("centos", None).
End requests.

(** ** Facts *)
Section facts.
Context {W : Type} `{Env W} `{BackoffLib (W * string), !VarBackoffSpec W string}.
Existing Instance var_env.

(** What [send] gives: with a text, it is an answer of status 200. *)
Lemma meta_send_text {V} `{Env V} vpc res err (s s' : St V) :
  meta_send vpc s = (Ret (res, err), s') → res ≠ "" →
  ∃ url w, (env_step (Http "GET" url None) w).1.1 = HttpAnswer 200 res None.
Proof.
  unfold meta_send. intros HB Hne. apply bind_Ret_inv in HB as ([url [e|]] & s1 & _ & HB); [by injection HB as <- _ _|].
  step_perform_in HB. destruct (env_step (Http "GET" url None) (world s1)) as [[r b] w] eqn:E.
  cbn [fst snd] in HB. destruct r as [e|status data rerr]; [by injection HB as <- _ _|].
  destruct (Z.eqb_spec status 200) as [->|Hs]; cbn [negb] in HB; [|by injection HB as <- _ _].
  destruct rerr as [[e t]|]; injection HB as <- _ _; [done|]. exists url, (world s1). by rewrite E.
Qed.

Lemma meta_attempt_text vpc (s s' : St (W * string)) :
  meta_attempt vpc s = (Ret (true, None), s') → (world s').2 ≠ "" →
  ∃ url w, (env_step (W:=W) (Http "GET" url None) w).1.1 = HttpAnswer 200 (world s').2 None.
Proof.
  unfold meta_attempt. intros E Hne. apply bind_Ret_inv in E as ([res err] & s1 & Es & E).
  apply bind_Ret_inv in E as (u & s2 & Ev & E). unfold set_var in Ev. injection Ev as _ Ev.
  destruct (shouldRetry err); [done|]. injection E as <-. subst s2. cbn [world snd] in Hne |- *.
  apply meta_send_text in Es as (url & w & Ew); [|done]. exists url, w.1.
  unfold env_step, var_env in Ew. by destruct (env_step (Http "GET" url None) w.1).
Qed.

(** A text [Do] gives without an error is an answer of status 200. *)
Lemma Do_answer vpc res (s s' : St W) :
  Do vpc s = (Ret (res, None), s') → res ≠ "" →
  ∃ url w, (env_step (Http "GET" url None) w).1.1 = HttpAnswer 200 res None.
Proof.
  unfold Do. intros HB Hne. apply bind_Ret_inv in HB as ([err r] & s1 & Ew & HB). injection HB as -> -> _.
  unfold with_var in Ew. set (s0 := MkSt _ _) in Ew.
  pose proof (ExponentialBackoff_run (Second / 2) 2 3 (meta_attempt vpc) s0) as Hrun.
  destruct (ExponentialBackoff _ _ _ _ s0) as [[o|msg|] sx]; [|done..]. cbn [fst snd] in Hrun.
  injection Ew as -> <- _. remember (Ret None) as out eqn:Eout.
  induction Hrun as [s2 s3 E| | | |? ? ? ? ?|? ? ? ? ? ? ? ? IH]; try done; [|by apply IH].
  by apply meta_attempt_text in E.
Qed.

Lemma split_nonempty sep s cur skip : split_go sep s cur skip ≠ [].
Proof.
  revert cur skip. induction s as [|c s IH]; intros cur skip; cbn [split_go]; [done|].
  destruct skip; [|apply IH]. destruct (String.prefix _ _); [done|apply IH].
Qed.

(** What a getter gives is the first line of an answer of status 200; it never
    panics, an answer always has a first line. *)
Lemma metaFirst_first r v (s s' : St W) :
  metaFirst r s = (Ret (v, None), s') →
  ∃ data url w rest, (env_step (Http "GET" url None) w).1.1 = HttpAnswer 200 data None ∧
    data ≠ "" ∧ Split data newline = v :: rest.
Proof.
  unfold metaFirst. intros HB. apply bind_Ret_inv in HB as ([l [e|]] & s1 & E & HB); [done|].
  destruct l as [|x l]; [done|]. injection HB as -> _. unfold metaList in E.
  apply bind_Ret_inv in E as ([res [e|]] & s2 & Ed & E); [done|].
  unfold DecodeList in E. case_decide as Hne.
  - by apply bind_Ret_inv in E as ([url ?] & s5 & _ & E).
  - apply Do_answer in Ed as (url & w & Es); [|done]. injection E as E _. by exists res, url, w, l.
Qed.
End facts.
