(* ===== verification/Help.v ===== *)
(** * Shared helpers of the controllers (pkg/operator/controllers/help)

    helper.go: typed reads from the Kubernetes API, the stack outputs of a
    cluster, time stamps and small list functions; node.go: node conditions,
    heartbeats and waiting for them; patch.go: the read-modify-patch cycle. *)
From stdpp Require Import base list gmap strings.
From Stdlib Require Import Lia.
From S2P Require Import Prelude GoStrings GoTime Api Sdk Effects Provider.

(** ** helper.go: pure helpers *)
Definition MASTER_LABEL : string := "node-role.kubernetes.io/master".
Definition NODEPOOL_LABEL : string := "np.wdrip.io/id".

Definition HasNodePoolID (node : Node) (npid : string) : bool :=
  match n_Labels node with
  | None => false
  | Some l =>
      match l !! NODEPOOL_LABEL with
      | None => false
      | Some id => bool_decide (id = npid)
      end
  end.

Definition IsMaster (node : Node) : bool :=
  bool_decide (is_Some (label (n_Labels node) MASTER_LABEL)).

Definition HasMasterRole (lbl : option (gmap string string)) : bool :=
  bool_decide (is_Some (label lbl MASTER_LABEL)).

Definition Condition (node : Node) : option NodeCondition :=
  List.find (λ v, bool_decide (nc_Type v = "Ready")) (n_Conditions node).

(** [reconcile.Result]; [NewDelay(i)] multiplies in [int64]. *)
Record ReconcileResult : Type := MkResult_ { rr_Requeue : bool; rr_RequeueAfter : Z }.
Definition wrap64 (z : Z) : Z := ((z + 2^63) `mod` 2^64 - 2^63)%Z.
Definition NewDelay (i : Z) : ReconcileResult := MkResult_ true (wrap64 (i * Second)).

Fixpoint Has (m : list string) (tar : string) : bool :=
  match m with
  | [] => false
  | v :: m' => if decide (v = tar) then true else Has m' tar
  end.

Fixpoint Remove (m : list string) (tar : string) : list string :=
  match m with
  | [] => []
  | v :: m' => if decide (v = tar) then Remove m' tar else v :: Remove m' tar
  end.

Definition Max (x y : Z) : Z := if (x <? y)%Z then y else x.

Definition MasterNames (nodes : list Master) : list string := map m_Name nodes.
Definition NodeNames (nodes : list Node) : list string := map n_Name nodes.
Definition ECSNames `{MapRange} (ecss : gmap string Instance) : list string :=
  map i_Ip (range_vals 0 ecss).

(** ** node.go: conditions *)
Definition HeartBeatTimeOut : Z := 2 * Minute.

Definition zeroCondition : NodeCondition := MkNodeCondition "" "" 0 "".

Definition findCondition (conds : list NodeCondition) (typ : string) : NodeCondition :=
  match List.find (λ c, bool_decide (nc_Type c = typ)) conds with
  | Some c => c
  | None => zeroCondition
  end.

(** [NodesReady]: no "Ready" condition of any node is other than "True". *)
Fixpoint NodesReady (nodes : list Node) : bool :=
  match nodes with
  | [] => true
  | n :: rest =>
      if existsb (λ con, bool_decide (nc_Type con = "Ready") && negb (bool_decide (nc_Status con = "True")))
           (n_Conditions n)
      then false
      else NodesReady rest
  end.
Definition NodeReady (n : Node) : bool := NodesReady [n].

(** ** encoding/json and strategicpatch, as [Patch] uses them *)
Class PatchLib : Type := {
  marshal_object : object → string * error;
  CreateTwoWayMergePatch : string → string → object → string * error }.

(** An unchanged document has the empty patch. *)
Class PatchLibSpec `{PatchLib} : Prop :=
  merge_patch_same d o : CreateTwoWayMergePatch d d o = ("{}", None).

Definition PatchAll : string := "All".
Definition PatchStatus : string := "Status".
Definition PatchSpec : string := "Spec".

Definition stamp_sep : string := "T".
Definition stamp_suffix : string := "Z".

Section operations.
Context {W : Type} `{Env W} `{PkgErrors} `{LocalZone} `{WaitLib W} `{PatchLib}.

(** *** helper.go *)

(** [After(t, duration)]: the stamp is read in the local zone. *)
Definition After (t : string) (duration : Z) : IO W bool :=
  match parse_at zone_offset stamp_sep stamp_suffix t with
  | None => mret false
  | Some me =>
      now ← perform Now;
      mret (TimeAfter now (me + duration))
  end.

(** [Now()]: local wall time, with a literal Z. *)
Definition NowStamp : IO W string :=
  now ← perform Now;
  mret (format_at zone_offset stamp_sep stamp_suffix now).

Definition h_Cluster (name : string) : IO W (Cluster * error) := perform (KGet KCluster "" name).

Definition MyCluster : IO W (ClusterSpec * error) :=
  '(c, err) ← perform (KGet KCluster "kube-system" "kubernetes-cluster");
  mret (cl_Spec c, err).

Definition h_MasterSet (name : string) : IO W (MasterSet * error) :=
  perform (KGet KMasterSet "" name).

Definition NodePoolItems (np : NodePool) : IO W (list Node * error) :=
  perform (KList KNode (Some (NODEPOOL_LABEL, ns_NodePoolID (np_Spec np)))).

Definition MasterNodes : IO W (list Node * error) :=
  perform (KList KNode (Some (MASTER_LABEL, ""))).

Definition NodeItems : IO W (list Node * error) := perform (KList KNode None).

Definition Workers : IO W (list Node * error) :=
  '(nodes, err) ← NodeItems;
  match err with
  | Some e => mret (nodes, Some e)
  | None => mret (List.filter (λ n, negb (IsMaster n)) nodes, None)
  end.

Definition MasterCRDS : IO W (list Master * error) := perform (KList KMaster None).

Definition h_Master (name : string) : IO W (Master * error) := perform (KGet KMaster "" name).
Definition h_Node (name : string) : IO W (Node * error) := perform (KGet KNode "" name).

Definition InCluster : IO W bool :=
  v ← perform (Getenv "KUBERNETES_SERVICE_HOST");
  mret (negb (bool_decide (v = ""))).

(** [resource[alibaba.StackID].Val.(string)] *)
Definition stackID (resource : gmap string Value) : IO W string :=
  match v_Val (default zeroValue (resource !! "StackID")) with
  | AStr s => mret s
  | _ => panic "interface conversion: interface {} is not string"
  end.

(** [LoadStackFromSpec(prvd, ctx, spec)].  The resource id is written back
    through [spec], which the caller's context may point to: [ctx] gives the
    context for the specification as it then is.  The result carries the
    specification afterwards. *)
Definition LoadStackFromSpec (ctx : ClusterSpec → Context_) (spec : ClusterSpec)
    : IO W (ClusterSpec * (gmap string Value * error)) :=
  r ← (if decide (bi_ResourceId (cs_Bind spec) = "") then
         '(resource, err) ← perform (PGetStackOutPuts (NewContextWithCluster spec)
                              (MkClusterId noType (metaNamed (cs_ClusterID spec)) zeroClusterIdSpec));
         match err with
         | Some e => mret (inr (Errorf ("provider: list resource fail, " +:+ Error e)))
         | None =>
             id ← stackID resource;
             mret (inl (cs_with_Bind (set_Bind_ResourceId id (cs_Bind spec)) spec))
         end
       else mret (inl spec));
  match r with
  | inr err => mret (spec, (∅, err))
  | inl spec =>
      let id := MkClusterId noType noMeta
                  (MkClusterIdSpec (bi_ResourceId (cs_Bind spec)) [] "" "" None zeroClusterSpec) in
      res ← perform (PGetInfraStack (ctx spec) id);
      mret (spec, res)
  end.

(** [LoadStack(prvd, ctx, spec)] does the same through a [Cluster]. *)
Definition LoadStack (ctx : ClusterSpec → Context_) (spec : Cluster)
    : IO W (Cluster * (gmap string Value * error)) :=
  '(s, res) ← LoadStackFromSpec ctx (cl_Spec spec);
  mret (cl_with_Spec s spec, res).

(** [WaitMasterReady(client, id)] *)
Definition WaitMasterReady (id : string) : IO W error :=
  Poll (5 * Second) (4 * Minute)
    ('(nodes, err) ← MasterNodes;
     match err with
     | Some _ => mret (false, None)
     | None =>
         match List.find (λ n, Contains (n_ProviderID n) id) nodes with
         | Some n => mret (NodeReady n, None)
         | None => mret (false, None)
         end
     end).

(** *** node.go *)
Definition isHeartbeatNormal (cond : NodeCondition) (timeout : Z) : IO W bool :=
  let duration := if (timeout =? 0)%Z then HeartBeatTimeOut else timeout in
  now ← perform Now;
  mret (negb (TimeBefore (nc_LastHeartbeatTime cond) (now - duration))).

Definition nodeHeartbeatReady (node : Node) (timeout : Z) : IO W (bool * string) :=
  let cond := findCondition (n_Conditions node) "Ready" in
  if decide (nc_Type cond = "Ready") then
    if decide (nc_Status cond = "True") then
      ok ← isHeartbeatNormal cond timeout;
      mret (ok, nc_Reason cond)
    else mret (false, nc_Reason cond)
  else mret (true, "ConditionNotFound").

Definition NodeHeartbeatReady (node : Node) (timeout : Z) : IO W (bool * string) :=
  nodeHeartbeatReady node timeout.

(** The closure [waitReady] of [WaitHeartbeat]. *)
Definition waitReady (nodeName : string) : IO W (bool * error) :=
  '(node, err) ← h_Node nodeName;
  match err with
  | Some _ => mret (false, None)
  | None =>
      '(ready, _) ← nodeHeartbeatReady node 0;
      mret (ready, None)
  end.

(** One turn of the loop in the second closure of [WaitHeartbeat]. *)
Definition steadyTurn (nodeName : string) (_ : nat) (_ : unit)
    : IO W (ctl unit (bool * error)) :=
  '(ready, err) ← waitReady nodeName;
  if negb (bool_decide (err = None)) || negb ready then mret (Return (ready, err))
  else
    _ ← perform (Sleep (2 * Second));
    mret (Next tt).

(** [WaitHeartbeat]: an attempt succeeds after three good readings two
    seconds apart. *)
Definition WaitHeartbeat (nodeName : string) (timeout : Z) : IO W error :=
  PollImmediate (10 * Second) timeout
    (r ← range (seq 0 3) tt (steadyTurn nodeName);
     match r with
     | inr res => mret res
     | inl _ => mret (true, None)
     end).

(** *** patch.go *)

(** [Patch(client, target, setter, resource)]: the first component is what
    the Get left in [target]. *)
Definition Patch (k : kind) (target : obj k) (setter : obj k → obj k * error)
    (resource : string) : IO W (obj k * error) :=
  let m := obj_meta k target in
  got ← perform (KGet k (om_Namespace m) (om_Name m));
  let target := got.1 in
  match got.2 with
  | Some e => mret (target, Errorf ("get origin object: " +:+ Error e))
  | None =>
      let '(ntarget, err) := setter target in
      match err with
      | Some e => mret (target, Errorf ("get object diff patch: " +:+ Error e))
      | None =>
          match marshal_object (to_object k target) with
          | (_, Some e) => mret (target, Errorf ("ensure marshal: " +:+ Error e))
          | (oldData, None) =>
              match marshal_object (to_object k ntarget) with
              | (_, Some e) => mret (target, Errorf ("ensure marshal: " +:+ Error e))
              | (newData, None) =>
                  match CreateTwoWayMergePatch oldData newData (to_object k target) with
                  | (_, Some e) => mret (target, Errorf ("create merge patch: " +:+ Error e))
                  | (patchBytes, None) =>
                      if decide (patchBytes = "{}") then mret (target, None)
                      else
                        e1 ← (if bool_decide (resource = PatchSpec) || bool_decide (resource = PatchAll)
                              then perform (KPatch (to_object k ntarget)) else mret None);
                        match (e1 : error) with
                        | Some e => mret (target, Errorf ("patch spec: " +:+ Error e))
                        | None =>
                            if bool_decide (resource = PatchStatus) || bool_decide (resource = PatchAll)
                            then e2 ← perform (KStatusPatch (to_object k ntarget)); mret (target, e2)
                            else mret (target, None)
                        end
                  end
              end
          end
      end
  end.
End operations.

(** ** Lemmas *)
Lemma Has_spec m tar : Has m tar = true ↔ tar ∈ m.
Proof.
  induction m as [|v m IH]; simpl; [by rewrite elem_of_nil|].
  rewrite elem_of_cons. case_decide; naive_solver.
Qed.

Lemma Remove_filter m tar : Remove m tar = filter (λ v, v ≠ tar) m.
Proof.
  induction m as [|v m IH]; [done|]. simpl. rewrite filter_cons.
  repeat case_decide; try done; by rewrite IH.
Qed.

Lemma Remove_spec m tar v : v ∈ Remove m tar ↔ v ∈ m ∧ v ≠ tar.
Proof. rewrite Remove_filter, list_elem_of_filter. naive_solver. Qed.

Lemma Remove_absent m tar : tar ∉ m → Remove m tar = m.
Proof.
  rewrite Remove_filter. induction m as [|v m IH]; [done|]. rewrite elem_of_cons. intros Hn.
  rewrite filter_cons_True, IH by naive_solver. done.
Qed.

Lemma Max_max x y : Max x y = Z.max x y.
Proof. unfold Max. destruct (Z.ltb_spec x y); lia. Qed.

(** A node is ready unless it reports a Ready condition that is not "True". *)
Lemma NodeReady_spec n :
  NodeReady n = true ↔ ∀ c, c ∈ n_Conditions n → nc_Type c = "Ready" → nc_Status c = "True".
Proof.
  unfold NodeReady. simpl. destruct (existsb _ _) eqn:E.
  - split; [done|]. intros Hall. apply List.existsb_exists in E as (c & Hin & Hc).
    apply andb_true_iff in Hc as [Ht Hs]. apply bool_decide_eq_true in Ht.
    rewrite negb_true_iff in Hs. apply bool_decide_eq_false in Hs.
    destruct Hs. apply Hall; [by apply list_elem_of_In|done].
  - split; [|done]. intros _ c Hin Ht. destruct (decide (nc_Status c = "True")) as [|Hs]; [done|].
    assert (existsb (λ con, bool_decide (nc_Type con = "Ready") &&
      negb (bool_decide (nc_Status con = "True"))) (n_Conditions n) = true) as E'; [|congruence].
    apply List.existsb_exists. exists c. split; [by apply list_elem_of_In|].
    by rewrite bool_decide_true, bool_decide_false.
Qed.

Lemma IsMaster_spec n : IsMaster n = true ↔ ∃ l v, n_Labels n = Some l ∧ l !! MASTER_LABEL = Some v.
Proof.
  unfold IsMaster, label. rewrite bool_decide_eq_true.
  destruct (n_Labels n) as [l|]; split.
  - intros [v Hv]. eauto.
  - intros (l' & v & [= <-] & ?). eauto.
  - intros [v Hv]. done.
  - naive_solver.
Qed.

Section facts.
Context {W : Type} `{Env W} `{PkgErrors} `{LocalZone} `{!WaitLib W} `{PatchLib}.

(** What [After] answers for a stamp that parses: whether the clock is
    strictly past it by the duration. *)
Lemma After_parsed t me duration (s : St W) :
  parse_at zone_offset stamp_sep stamp_suffix t = Some me →
  (After t duration s).1 = Ret (bool_decide (me + duration < (env_step Now (world s)).1)%Z).
Proof.
  intros Hp. unfold After. rewrite Hp, bind_unfold. unfold perform.
  destruct (env_step Now (world s)) as [now w]. simpl. unfold TimeAfter.
  by destruct (Z.ltb_spec (me + duration) now); [rewrite bool_decide_true|rewrite bool_decide_false by lia].
Qed.

(** A heartbeat judged good is of a node whose Ready condition is "True" and
    recent, or of a node without a Ready condition. *)
Lemma nodeHeartbeatReady_true node timeout (s : St W) reason s' :
  nodeHeartbeatReady node timeout s = (Ret (true, reason), s') →
  let cond := findCondition (n_Conditions node) "Ready" in
  nc_Type cond ≠ "Ready" ∧ reason = "ConditionNotFound" ∨
  nc_Status cond = "True" ∧
  ((env_step Now (world s)).1 - (if (timeout =? 0)%Z then HeartBeatTimeOut else timeout)
   ≤ nc_LastHeartbeatTime cond)%Z.
Proof.
  unfold nodeHeartbeatReady. simpl. case_decide; [|intros [= <- _]; by left].
  case_decide; [|done]. unfold isHeartbeatNormal. rewrite !bind_unfold. unfold perform.
  destruct (env_step Now (world s)) as [now w]. simpl. intros [= Hb Hr Hs].
  right. split; [done|]. unfold TimeBefore in Hb. apply negb_true_iff in Hb.
  apply Z.ltb_ge in Hb. lia.
Qed.

(** How a turn of the steady loop ends: either it returns, and then not with
    success, or a good reading was followed by the pause. *)
Lemma steadyTurn_inv name i u (s : St W) c s' :
  steadyTurn name i u s = (Ret c, s') →
  (∃ r, c = Return r ∧ r ≠ (true, None)) ∨
  c = Next tt ∧ ∃ s1, waitReady name s = (Ret (true, None), s1) ∧
                      perform (Sleep (2 * Second)) s1 = (Ret tt, s').
Proof.
  intros Hb. apply bind_Ret_inv in Hb as ([ready err] & s1 & Hwr & Hb).
  destruct err as [e|], ready; simpl in Hb; try (injection Hb as <- <-; left; by eexists).
  apply bind_Ret_inv in Hb as ([] & s2 & Hsl & Hb). injection Hb as <- <-. eauto.
Qed.

Lemma steady_range xs name (s : St W) res s' :
  range xs tt (steadyTurn name) s = (Ret res, s') → res ≠ inr (true, None).
Proof.
  revert s. induction xs as [|x xs IH]; intros s Hr; simpl in Hr; [by injection Hr as <- _|].
  apply bind_Ret_inv in Hr as (c & s1 & Hb & Hr).
  apply steadyTurn_inv in Hb as [(r & -> & Hne)|(-> & _)]; [|by eapply IH].
  injection Hr as <- _. congruence.
Qed.

Lemma steady_range_step x xs name (s : St W) s' :
  range (x :: xs) tt (steadyTurn name) s = (Ret (inl tt), s') →
  ∃ s1 s2, waitReady name s = (Ret (true, None), s1) ∧
           perform (Sleep (2 * Second)) s1 = (Ret tt, s2) ∧
           range xs tt (steadyTurn name) s2 = (Ret (inl tt), s').
Proof.
  intros Hr. simpl in Hr. apply bind_Ret_inv in Hr as (c & s1 & Hb & Hr).
  apply steadyTurn_inv in Hb as [(r & -> & Hne)|(-> & s0 & ? & ?)]; [by injection Hr|].
  by exists s0, s1.
Qed.

(** Waiting succeeds only after three good readings in a row. *)
Lemma WaitHeartbeat_success `{!WaitSpec W} name timeout s s' :
  WaitHeartbeat name timeout s = (Ret None, s') →
  ∃ r1 r1' r2 r2' r3 r3',
    waitReady name r1 = (Ret (true, None), r1') ∧
    waitReady name r2 = (Ret (true, None), r2') ∧
    waitReady name r3 = (Ret (true, None), r3') ∧
    perform (Sleep (2 * Second)) r1' = (Ret tt, r2) ∧
    perform (Sleep (2 * Second)) r2' = (Ret tt, r3) ∧
    perform (Sleep (2 * Second)) r3' = (Ret tt, s').
Proof.
  intros Hw. unfold WaitHeartbeat in Hw.
  match type of Hw with PollImmediate ?i ?t ?c _ = _ =>
    pose proof (PollImmediate_run i t c s) as Hrun; rewrite Hw in Hrun end.
  apply poll_run_success in Hrun as [s0 Hc].
  apply bind_Ret_inv in Hc as (res & s1 & Hr & Hc).
  pose proof (steady_range _ _ _ _ _ Hr) as Hne.
  destruct res as [[]|res]; [|injection Hc as -> _; done].
  injection Hc as ->.
  apply steady_range_step in Hr as (a1 & b1 & W1 & S1 & Hr).
  apply steady_range_step in Hr as (a2 & b2 & W2 & S2 & Hr).
  apply steady_range_step in Hr as (a3 & b3 & W3 & S3 & Hr).
  injection Hr as <-. by exists s0, a1, b1, a2, b2, a3.
Qed.

(** [Patch] reads the object and patches it, nothing else. *)
Definition patch_kind (c : call) : Prop :=
  match c with KGet _ _ _ | KPatch _ | KStatusPatch _ => True | _ => False end.
Lemma emits_Patch (P : call → Prop) k target setter resource :
  (∀ c, patch_kind c → P c) → emits P (Patch (W:=W) k target setter resource).
Proof. intros HP. unfold Patch. solve_emits; by apply HP. Qed.

(** [Patch] writes only what the setter made of the object it read, only when
    that is different, and only to the parts asked for. *)
Definition patch_call (k : kind) (setter : obj k → obj k * error) (resource : string)
    (c : call) : Prop :=
  match c with
  | KGet _ _ _ => True
  | KPatch o =>
      (resource = PatchSpec ∨ resource = PatchAll) ∧
      ∃ x, o = to_object k (setter x).1 ∧ (setter x).2 = None ∧ (setter x).1 ≠ x
  | KStatusPatch o =>
      (resource = PatchStatus ∨ resource = PatchAll) ∧
      ∃ x, o = to_object k (setter x).1 ∧ (setter x).2 = None ∧ (setter x).1 ≠ x
  | _ => False
  end.

Lemma Patch_emits `{!PatchLibSpec} k target setter resource :
  emits (patch_call k setter resource) (Patch (W:=W) k target setter resource).
Proof.
  unfold Patch. apply emits_bind; [by emits_call|]. intros [x e]. simpl.
  destruct e; [apply emits_ret|]. destruct (setter x) as [y e] eqn:E.
  destruct e; [apply emits_ret|].
  destruct (marshal_object (to_object k x)) as [d1 [?|]] eqn:E1; [apply emits_ret|].
  destruct (marshal_object (to_object k y)) as [d2 [?|]] eqn:E2; [apply emits_ret|].
  destruct (CreateTwoWayMergePatch _ _ _) as [p [?|]] eqn:E3; [apply emits_ret|].
  case_decide as Hp; [apply emits_ret|].
  assert (y ≠ x) as Hxy.
  { intros ->. assert (d1 = d2) as -> by congruence. rewrite merge_patch_same in E3. congruence. }
  assert (∃ x, to_object k y = to_object k (setter x).1 ∧ (setter x).2 = None ∧ (setter x).1 ≠ x)
    as Hx by (exists x; by rewrite E).
  apply emits_bind.
  - destruct (_ || _) eqn:B; [|apply emits_ret]. emits_call. simpl. split; [|done].
    apply orb_true_iff in B as [B|B]; apply bool_decide_eq_true in B; auto.
  - intros e1. destruct e1; [apply emits_ret|].
    destruct (_ || _) eqn:B; [|apply emits_ret]. apply emits_bind; [|intros; apply emits_ret].
    emits_call. simpl. split; [|done].
    apply orb_true_iff in B as [B|B]; apply bool_decide_eq_true in B; auto.
Qed.
End facts.

(** ** A concrete patch library, for evaluation *)
Module SimPatch.
(** Documents are rendered by name and labels (and, of a node pool, finalizers
    and group) only; the patch of two equal
    documents is empty, of different ones the new document. *)
Definition render (o : object) : string :=
  match o with
  | ONode n => n_Name n +:+ Join (map (λ kv, kv.1 +:+ "=" +:+ kv.2)
                 (map_to_list (default ∅ (n_Labels n)))) ","
  | ONodePool n => np_Name n +:+ Join (map (λ kv, kv.1 +:+ "=" +:+ kv.2)
                 (map_to_list (default ∅ (om_Labels (np_Meta n))))) "," +:+
                 Join (om_Finalizers (np_Meta n)) "," +:+ from_option b_ScalingGroupId "" (np_Bind n)
  | OMaster m => m_Name m
  | OCluster c => cl_Name c
  | OMasterSet m => om_Name (mset_Meta m)
  | ODeployment d => om_Name (dp_Meta d)
  end.
#[export] Instance patch_lib : PatchLib :=
  {| marshal_object o := (render o, None);
     CreateTwoWayMergePatch a b _ := (if decide (a = b) then "{}" else b, None) |}.
#[export] Instance patch_lib_spec : PatchLibSpec.
Proof. intros d o. simpl. by rewrite decide_True. Qed.
End SimPatch.
