(* ===== verification/Sign.v ===== *)
(** * Certificates (pkg/utils/sign/sign.go)

    Parsing of PEM bundles and private keys, and the signing of etcd and
    Kubernetes certificates.  PEM framing, ASN.1 and the cryptography are Go's
    standard library and are parameters; what the file itself decides (which
    PEM blocks count, in which order keys are tried, names, usages, validity,
    error texts) is modelled. *)
From stdpp Require Import base list strings.
From Stdlib Require Import Lia.
From S2P Require Import Prelude GoStrings GoTime Api Effects Provider.

(** [pem.Block]; only the number of headers is looked at. *)
Record Block : Type := MkBlock { bk_Type : string; bk_Headers : nat; bk_Bytes : string }.

Class CryptoLib : Type := {
  pem_Decode : string → option (Block * string);
  pem_Encode : Block → string * error;
  ParseCertificate : string → Certificate + goerr;
  ParseECPrivateKey : string → option PrivateKey;
  ParsePKCS1PrivateKey : string → option PrivateKey;
  ParsePKCS8PrivateKey : string → option PrivateKey;
  ParseIP : string → option string }.

(** [pem.Decode] consumes input when it finds a block. *)
Class CryptoLibSpec `{CryptoLib} : Prop :=
  pem_Decode_shorter s b r : pem_Decode s = Some (b, r) → String.length r < String.length s.

(** [type Config struct] with its [AltNames]. *)
Record Config : Type := MkConfig {
  cf_CN : string;
  cf_O : list string;
  cf_DNSNames : list string;
  cf_IPs : list (option string);
  cf_Usage : list string }.

Definition DEFAULT_CA_CONFIG : Config :=
  MkConfig "kubernetes" ["alibaba cloud"; "hangzhou"] ["localhost"] [] ["Any"].

Definition duration365d : Z := Hour * 24 * 365 * 10.

Section parse.
Context `{CryptoLib}.

(** [ParseCertsPEM]: one turn of the loop per fuel unit. *)
Fixpoint ParseCertsPEM_go (fuel : nat) (pemCerts : string) (certs : list Certificate) (ok : bool)
    : outcome (list Certificate * error) :=
  let finish := Ret (certs, if ok then None
                            else Errorf "data does not contain any valid RSA or ECDSA certificates") in
  match fuel with
  | O => Hang
  | S k =>
      if decide (pemCerts = "") then finish
      else
        match pem_Decode pemCerts with
        | None => finish
        | Some (block, rest) =>
            if negb (bool_decide (bk_Type block = "CERTIFICATE"))
               || negb (bool_decide (bk_Headers block = 0))
            then ParseCertsPEM_go k rest certs ok
            else
              match ParseCertificate (bk_Bytes block) with
              | inr e => Ret (certs, Some e)
              | inl cert => ParseCertsPEM_go k rest (certs ++ [cert]) true
              end
        end
  end.
Definition ParseCertsPEM (pemCerts : string) : outcome (list Certificate * error) :=
  ParseCertsPEM_go (S (String.length pemCerts)) pemCerts [] false.

(** The key a block holds, by its type. *)
Definition block_key (b : Block) : option PrivateKey :=
  if decide (bk_Type b = "EC PRIVATE KEY") then ParseECPrivateKey (bk_Bytes b)
  else if decide (bk_Type b = "RSA PRIVATE KEY") then ParsePKCS1PrivateKey (bk_Bytes b)
  else if decide (bk_Type b = "PRIVATE KEY") then ParsePKCS8PrivateKey (bk_Bytes b)
  else None.

Fixpoint ParsePrivateKeyPEM_go (fuel : nat) (keyData : string)
    : outcome (option PrivateKey * error) :=
  match fuel with
  | O => Hang
  | S k =>
      match pem_Decode keyData with
      | None => Ret (None, Errorf "data does not contain a valid RSA or ECDSA private key")
      | Some (b, rest) =>
          match block_key b with
          | Some key => Ret (Some key, None)
          | None => ParsePrivateKeyPEM_go k rest
          end
      end
  end.
Definition ParsePrivateKeyPEM (keyData : string) : outcome (option PrivateKey * error) :=
  ParsePrivateKeyPEM_go (S (String.length keyData)) keyData.

(** [EncodePem(cert, key)]: the key first. *)
Definition EncodePem (cert key : string) : string * string * error :=
  match pem_Encode (MkBlock "CERTIFICATE" 0 cert) with
  | (_, Some e) => ("", "", Some e)
  | (cbuff, None) =>
      match pem_Encode (MkBlock "RSA PRIVATE KEY" 0 key) with
      | (_, Some e) => ("", "", Some e)
      | (kbuff, None) => (kbuff, cbuff, None)
      end
  end.
End parse.

Section operations.
Context {W : Type} `{Env W} `{CryptoLib}.
Local Open Scope Z_scope.

Definition NewSignedCert (cfg : Config) (caCert : Certificate) (caKey : string)
    : IO W (string * string * error) :=
  '(serial, err) ← perform (CryptoRandInt (2^63 - 1));
  match err with
  | Some e => mret ("", "", Some e)
  | None =>
      if decide (cf_CN cfg = "") then mret ("", "", Errorf "must specify a CommonName")
      else if decide (cf_Usage cfg = []) then
        mret ("", "", Errorf "must specify at least one ExtKeyUsage")
      else
        '(key, err) ← perform (GenerateKey 2048);
        match err with
        | Some e => mret ("", "", Some e)
        | None =>
            now ← perform Now;
            let certTmpl :=
              MkCertificate (cf_CN cfg) (cf_O cfg) (cf_DNSNames cfg) (cf_IPs cfg) serial
                (x_NotBefore caCert) (now + duration365d * 10)
                ["KeyEncipherment"; "DigitalSignature"] (cf_Usage cfg) false false in
            '(derbyte, err) ← perform (CreateCertificate certTmpl caCert key caKey);
            match err with
            | Some e => mret ("", "", Some e)
            | None => mret (EncodePem derbyte key)
            end
        end
  end.

(** [SelfSignedPair()] *)
Definition SelfSignedPair : IO W (string * string * error) :=
  '(key, err) ← perform (GenerateKey 2048);
  match err with
  | Some e => mret ("", "", Some e)
  | None =>
      now ← perform Now;
      let tmpl :=
        MkCertificate (cf_CN DEFAULT_CA_CONFIG) (cf_O DEFAULT_CA_CONFIG) [] [] 0 now
          (now + duration365d * 10) ["KeyEncipherment"; "DigitalSignature"; "CertSign"] []
          true true in
      '(derBytes, err) ← perform (CreateCertificate tmpl tmpl key key);
      match err with
      | Some e => mret ("", "", Some e)
      | None => mret (EncodePem derBytes key)
      end
  end.

(** The part shared by [SignEtcd] and [SignKubernetes]: the CA pair is parsed,
    then the configuration is signed with the first certificate; a key that
    is not RSA fails the type assertion. *)
Definition sign_with (ca ckey : string) (cfg : Config) : IO W (string * string * error) :=
  '(cap, err) ← lift (ParseCertsPEM ca);
  match err, cap with
  | None, c0 :: _ =>
      '(cakey, err) ← lift (ParsePrivateKeyPEM ckey);
      match err, cakey with
      | Some e, _ => mret ("", "", Errorf ("key parse error: " +:+ Error e))
      | None, Some (RSAKey k) => NewSignedCert cfg c0 k
      | None, _ => panic "interface conversion: interface {} is not *rsa.PrivateKey"
      end
  | _, _ => mret ("", "", Errorf ("ca cert parse error: len(cap)=" +:+
              fmt_d (Z.of_nat (length cap)) +:+ ", " +:+ errText err))
  end.

Definition SignEtcd (ca ckey : string) (ips : list string) (name idx : string)
    : IO W (string * string * error) :=
  let netips := ParseIP "127.0.0.1" :: map ParseIP ips in
  sign_with ca ckey
    (MkConfig ("etcd-" +:+ idx +:+ "." +:+ name) ["alibaba cloud"; "hangzhou"]
       (ips ++ ["localhost"; "etcd-" +:+ idx +:+ ".local"; "etcd-" +:+ idx +:+ ".member"])
       netips ["Any"; "ServerAuth"; "ClientAuth"]).

Definition SignKubernetes (ca ckey : string) (ips : list string)
    : IO W (string * string * error) :=
  let netips := ParseIP "127.0.0.1" :: map ParseIP ips in
  sign_with ca ckey
    (MkConfig "kubernetes-admin" ["system:masters"] (ips ++ ["localhost"]) netips ["Any"]).

Definition SignEtcdMember (ca ckey : string) (ips : list string) (idx : string) :=
  SignEtcd ca ckey ips "member" idx.
Definition SignEtcdServer (ca ckey : string) (ips : list string) (idx : string) :=
  SignEtcd ca ckey ips "server" idx.
Definition SignEtcdClient (ca ckey : string) (ips : list string) (idx : string) :=
  SignEtcd ca ckey ips "client" idx.
Definition SignKubernetesClient (ca ckey : string) (ips : list string) :=
  SignKubernetes ca ckey ips.
End operations.

(** [x509.MarshalPKIXPublicKey] of the public half of a key. *)
Class PKIX : Type := MarshalPKIXPublicKey : string → string * error.

(** Pairs of the control plane (pkg/context/credential.go). *)
Section key_pairs.
Context {W : Type} `{Env W} `{CryptoLib} `{PKIX}.

(** [pem.EncodeToMemory]: nothing on an error. *)
Definition EncodeToMemory (b : Block) : string :=
  match pem_Encode b with (s, None) => s | (_, Some _) => "" end.

Definition SelfSignedPairSA : IO W (string * string * error) :=
  '(key, err) ← perform (GenerateKey 2048);
  match err with
  | Some e => mret ("", "", Some e)
  | None =>
      match MarshalPKIXPublicKey key with
      | (_, Some e) => mret ("", "", Some e)
      | (der, None) =>
          mret (EncodeToMemory (MkBlock "RSA PRIVATE KEY" 0 key), EncodeToMemory (MkBlock "PUBLIC KEY" 0 der), None)
      end
  end.

Definition NewKeyCert : IO W (option KeyCert * error) :=
  '(key, crt, err) ← SelfSignedPair;
  match err with
  | Some e => mret (None, Errorf ("self signed cert fail, " +:+ Error e))
  | None => mret (Some (MkKeyCert key crt), None)
  end.
Definition NewKeyCertForSA : IO W (option KeyCert * error) :=
  '(key, crt, err) ← SelfSignedPairSA;
  match err with
  | Some e => mret (None, Errorf ("self signed sa cert fail, " +:+ Error e))
  | None => mret (Some (MkKeyCert key crt), None)
  end.
End key_pairs.

(** ** Lemmas *)
Section facts.
Context `{CryptoLib}.

(** Both parsers return: every turn that goes on has consumed input. *)
Lemma ParseCertsPEM_total `{!CryptoLibSpec} pemCerts : ∃ r, ParseCertsPEM pemCerts = Ret r.
Proof.
  unfold ParseCertsPEM.
  assert (∀ n s certs ok, String.length s < n → ∃ r, ParseCertsPEM_go n s certs ok = Ret r) as Hgo;
    [|apply Hgo; lia].
  induction n as [|n IH]; intros s certs ok Hn; [lia|]. simpl.
  case_decide; [eauto|]. destruct (pem_Decode s) as [[b r]|] eqn:E; [|eauto].
  apply pem_Decode_shorter in E.
  destruct (_ || _); [apply IH; lia|].
  destruct (ParseCertificate _); [apply IH; lia|eauto].
Qed.

Lemma ParsePrivateKeyPEM_total `{!CryptoLibSpec} keyData : ∃ r, ParsePrivateKeyPEM keyData = Ret r.
Proof.
  unfold ParsePrivateKeyPEM.
  assert (∀ n s, String.length s < n → ∃ r, ParsePrivateKeyPEM_go n s = Ret r) as Hgo;
    [|apply Hgo; lia].
  induction n as [|n IH]; intros s Hn; [lia|]. simpl.
  destruct (pem_Decode s) as [[b r]|] eqn:E; [|eauto].
  apply pem_Decode_shorter in E. destruct (block_key b); [eauto|apply IH; lia].
Qed.

(** Without an error, at least one certificate was found. *)
Lemma ParseCertsPEM_nonempty pemCerts certs :
  ParseCertsPEM pemCerts = Ret (certs, None) → certs ≠ [].
Proof.
  unfold ParseCertsPEM. generalize (S (String.length pemCerts)) as n. intros n.
  assert (∀ n s cs ok, (ok = true → cs ≠ []) →
    ParseCertsPEM_go n s cs ok = Ret (certs, None) → certs ≠ []) as Hgo; [|by apply Hgo].
  clear n pemCerts. induction n as [|n IH]; intros s cs ok Hok; simpl; [done|].
  assert (Ret (cs, if ok then None
            else Errorf "data does not contain any valid RSA or ECDSA certificates")
          = Ret (certs, None) → certs ≠ []) as Hfin.
  { destruct ok; [|done]. intros [= <-]. auto. }
  case_decide; [done|]. destruct (pem_Decode s) as [[b r]|]; [|done].
  destruct (_ || _); [by apply IH|]. destruct (ParseCertificate _); [|done].
  apply IH. intros _. by destruct cs.
Qed.
End facts.
