(* ===== verification/RestConfig.v ===== *)
(** * Configuration of the boot server's client (pkg/client/rest)

    config.go, client.go and the building of requests in request.go, in full:
    certificates, in-cluster settings, headers and bodies.  [Rest] models what
    the program uses of them, a host and no certificates; the theorems relate
    the two.  net/url, crypto/tls and x509 are parameters; rates and transport
    hooks are passed on and never read. *)
From stdpp Require Import base list gmap strings.
From Stdlib Require Import Lia.
From S2P Require Import Prelude GoStrings GoTime Api Effects Utils Rest Sign.
Local Open Scope Z_scope.

(** [fmt.Sprintf("%q", s)], and [tls.X509KeyPair(cert, key)]. *)
Class TlsLib : Type := {
  fmt_q : string → string;
  X509KeyPair : string → string → error }.

Record TLSClientConfig : Type := MkTLSClientConfig {
  tl_Insecure : bool;
  tl_ServerName : string;
  tl_CertFile : string;
  tl_KeyFile : string;
  tl_CAFile : string;
  tl_CertData : string;
  tl_KeyData : string;
  tl_CAData : string }.
Definition zeroTLS : TLSClientConfig :=
  MkTLSClientConfig false EmptyString EmptyString EmptyString EmptyString EmptyString EmptyString EmptyString.
Record RestCfg : Type := MkRestCfg {
  rf_ContentType : string;
  rf_Host : string;
  rf_APIPath : string;
  rf_BearerToken : string;
  rf_TLS : TLSClientConfig;
  rf_UserAgent : string;
  rf_Burst : Z;
  rf_Timeout : Z }.
Definition rf_with_TLS (t : TLSClientConfig) (c : RestCfg) : RestCfg :=
  MkRestCfg (rf_ContentType c) (rf_Host c) (rf_APIPath c) (rf_BearerToken c) t (rf_UserAgent c) (rf_Burst c) (rf_Timeout c).
Definition rf_with_UserAgent (a : string) (c : RestCfg) : RestCfg :=
  MkRestCfg (rf_ContentType c) (rf_Host c) (rf_APIPath c) (rf_BearerToken c) (rf_TLS c) a (rf_Burst c) (rf_Timeout c).
Definition rf_with_ContentType (t : string) (c : RestCfg) : RestCfg :=
  MkRestCfg t (rf_Host c) (rf_APIPath c) (rf_BearerToken c) (rf_TLS c) (rf_UserAgent c) (rf_Burst c) (rf_Timeout c).

Definition SetDefaultUserAgent (c : RestCfg) : RestCfg :=
  if decide (rf_UserAgent c = EmptyString) then rf_with_UserAgent "wdrip for kubernetes" c else c.
Definition AddUserAgent (c : RestCfg) (userAgent : string) : RestCfg := rf_with_UserAgent ("wdrip/" +:+ userAgent) c.

(** [net.JoinHostPort] *)
Definition JoinHostPort (host port : string) : string :=
  if Contains host ":" || Contains host "%" then "[" +:+ host +:+ "]:" +:+ port else host +:+ ":" +:+ port.

(** A base URL: scheme, host and path; [http.Transport] by its roots and the key
    pair, if it has any. *)
Definition baseURL : Type := string * string * string.
Definition transport : Type := option (list Certificate * (string * string)).
Record HttpClient : Type := MkHttpClient { hc_Transport : transport; hc_Timeout : Z }.
Record FullClient : Type := MkFullClient { fl_ContentType : string; fl_base : baseURL; fl_Client : HttpClient }.

Section urls.
Context `{UrlLib} `{TlsLib}.

(** [DefaultServerURL(host, apiPath, groupVersion, defaultTLS)] *)
Definition ServerURL (host : string) (defaultTLS : bool) : baseURL + goerr :=
  let again :=
    match url_Parse ((if defaultTLS then "https://" else "http://") +:+ host) with
    | inr e => inr e
    | inl (scheme, h, path) =>
        if bool_decide (path ≠ EmptyString) && bool_decide (path ≠ "/")
        then inr (GoErr ("host must be a URL or a host:port pair: " +:+ fmt_q host) false)
        else inl (scheme, h, path)
    end in
  if decide (host = EmptyString) then inr (GoErr "host must be a URL or a host:port pair" false)
  else
    match url_Parse host with
    | inl (scheme, h, path) =>
        if bool_decide (scheme = EmptyString) || bool_decide (h = EmptyString) then again else inl (scheme, h, path)
    | inr _ => again
    end.
Definition hasTLS (t : TLSClientConfig) : bool :=
  negb (bool_decide (tl_CAFile t = EmptyString)) || negb (bool_decide (tl_CAData t = EmptyString))
  || (negb (bool_decide (tl_CertFile t = EmptyString)) || negb (bool_decide (tl_CertData t = EmptyString)))
  || tl_Insecure t.
Definition serverUrlFor (c : RestCfg) : baseURL + goerr :=
  ServerURL (if decide (rf_Host c = EmptyString) then "localhost" else rf_Host c) (hasTLS (rf_TLS c)).
Definition IsConfigTransportTLS (c : RestCfg) : bool :=
  match serverUrlFor c with
  | inl (scheme, _, _) => bool_decide (scheme = "https")
  | inr _ => false
  end.

(** [NewRESTClient(baseURL, contentType, ...)] *)
Definition HasSuffix (s suf : string) : bool :=
  bool_decide (String.substring (String.length s - String.length suf) (String.length suf) s = suf).
Definition NewRESTClient (base : baseURL) (contentType : string) (client : HttpClient) : FullClient :=
  let '(scheme, h, path) := base in
  MkFullClient contentType (scheme, h, if HasSuffix path "/" then path else path +:+ "/") client.
End urls.

Section files.
Context {W : Type} `{Env W} `{CryptoLib} `{UrlLib} `{TlsLib}.

Definition dataFromSliceOrFile (data file : string) : IO W (string * error) :=
  if decide (data ≠ EmptyString) then mret (data, None)
  else if decide (file ≠ EmptyString) then
    '(fileData, err) ← perform (ReadFile file);
    match (err : error) with Some e => mret (EmptyString, Some e) | None => mret (fileData, None) end
  else mret (EmptyString, None).

(** [LoadTLSFiles(c)]: the settings as far as they were assigned. *)
Definition LoadTLSFiles (c : RestCfg) : IO W (RestCfg * error) :=
  let t := rf_TLS c in
  '(ca, err) ← dataFromSliceOrFile (tl_CAData t) (tl_CAFile t);
  let c1 := rf_with_TLS (MkTLSClientConfig (tl_Insecure t) (tl_ServerName t) (tl_CertFile t) (tl_KeyFile t) (tl_CAFile t)
                           (tl_CertData t) (tl_KeyData t) ca) c in
  match (err : error) with
  | Some e => mret (c1, Some e)
  | None =>
      '(cert, err) ← dataFromSliceOrFile (tl_CertData t) (tl_CertFile t);
      let c2 := rf_with_TLS (MkTLSClientConfig (tl_Insecure t) (tl_ServerName t) (tl_CertFile t) (tl_KeyFile t) (tl_CAFile t)
                               cert (tl_KeyData t) ca) c in
      match (err : error) with
      | Some e => mret (c2, Some e)
      | None =>
          '(key, err) ← dataFromSliceOrFile (tl_KeyData t) (tl_KeyFile t);
          mret (rf_with_TLS (MkTLSClientConfig (tl_Insecure t) (tl_ServerName t) (tl_CertFile t) (tl_KeyFile t) (tl_CAFile t)
                               cert key ca) c, err)
      end
  end.

(** [CertsFromFile(file)] with this package's copy of [ParseCertsPEM], and
    [NewPool(filename)]. *)
Definition CertsFromFile (file : string) : IO W (list Certificate * error) :=
  '(pemBlock, err) ← perform (ReadFile file);
  match (err : error) with
  | Some e => mret ([], Some e)
  | None =>
      '(certs, err) ← lift (ParseCertsPEM pemBlock);
      match (err : error) with
      | Some e => mret ([], Errorf ("error reading " +:+ file +:+ ": " +:+ Error e))
      | None => mret (certs, None)
      end
  end.
Definition NewPool (filename : string) : IO W (option (list Certificate) * error) :=
  '(certs, err) ← CertsFromFile filename;
  match (err : error) with Some e => mret (None, Some e) | None => mret (Some certs, None) end.

(** [TransportFor(config)]: nil, or the transport; without a certificate file
    there is nothing in it. *)
Definition TransportFor (c : RestCfg) : IO W (RestCfg * (option transport * error)) :=
  if decide (tl_CertFile (rf_TLS c) = EmptyString) then mret (c, (Some None, None))
  else
    '(c, err) ← LoadTLSFiles c;
    match (err : error) with
    | Some e => mret (c, (None, Some e))
    | None =>
        '(pool, err) ← NewPool (tl_CAFile (rf_TLS c));
        match (err : error) with
        | Some e => mret (c, (None, Some e))
        | None =>
            let t := rf_TLS c in
            match X509KeyPair (tl_CertData t) (tl_KeyData t) with
            | Some e => mret (c, (None, Some e))
            | None => mret (c, (Some (Some (default [] pool, (tl_CertData t, tl_KeyData t))), None))
            end
        end
    end.

(** [RESTClientFor(config)]: the settings, which it fills in, and the client. *)
Definition FullClientFor (c : RestCfg) : IO W (RestCfg * (option FullClient * error)) :=
  match serverUrlFor c with
  | inr e => mret (c, (None, Some e))
  | inl base =>
      '(c, (tr, err)) ← TransportFor c;
      match (err : error), tr with
      | Some e, _ => mret (c, (None, Some e))
      | None, None => panic "nil pointer dereference"
      | None, Some tr =>
          let c := if decide (rf_ContentType c = EmptyString) then rf_with_ContentType "application/json" c else c in
          let c := SetDefaultUserAgent c in
          let timeout := if decide (0 < rf_Timeout c) then rf_Timeout c else 0 in
          mret (c, (Some (NewRESTClient base (rf_ContentType c) (MkHttpClient tr timeout)), None))
      end
  end.

(** [InClusterConfig()] *)
Definition serviceAccount : string := "/var/run/secrets/kubernetes.io/serviceaccount/".
Definition InClusterConfig : IO W (option RestCfg * error) :=
  host ← perform (Getenv "KUBERNETES_SERVICE_HOST");
  port ← perform (Getenv "KUBERNETES_SERVICE_PORT");
  if bool_decide (host = EmptyString) || bool_decide (port = EmptyString) then
    mret (None, Errorf "unable to load in-cluster configuration, KUBERNETES_SERVICE_HOST and KUBERNETES_SERVICE_PORT must be defined")
  else
    '(token, err) ← perform (ReadFile (serviceAccount +:+ "token"));
    match (err : error) with
    | Some e => mret (None, Some e)
    | None =>
        let rootCAFile := serviceAccount +:+ "ca.crt" in
        '(_, err) ← NewPool rootCAFile;
        let tls := match (err : error) with
                   | Some _ => zeroTLS
                   | None => MkTLSClientConfig false EmptyString EmptyString EmptyString rootCAFile EmptyString EmptyString EmptyString
                   end in
        mret (Some (MkRestCfg EmptyString ("https://" +:+ JoinHostPort host port) EmptyString token tls EmptyString 0 0), None)
    end.
End files.

(** ** request.go: building a request *)
Record FullRequest : Type := MkFullRequest {
  fr_verb : string;
  fr_base : baseURL;
  fr_pathPrefix : string;
  fr_headers : gmap string (list string);
  fr_resource : string;
  fr_resourceName : string;
  fr_subresource : string;
  fr_err : error;
  fr_body : option string }.
Definition PathPrefix (prefix : string) (r : FullRequest) : FullRequest :=
  MkFullRequest (fr_verb r) (fr_base r) prefix (fr_headers r) (fr_resource r) (fr_resourceName r) (fr_subresource r) (fr_err r) (fr_body r).
Definition rq_Resource (resource : string) (r : FullRequest) : FullRequest :=
  MkFullRequest (fr_verb r) (fr_base r) (fr_pathPrefix r) (fr_headers r) resource (fr_resourceName r) (fr_subresource r) (fr_err r) (fr_body r).
Definition rq_ResourceName (name : string) (r : FullRequest) : FullRequest :=
  MkFullRequest (fr_verb r) (fr_base r) (fr_pathPrefix r) (fr_headers r) (fr_resource r) name (fr_subresource r) (fr_err r) (fr_body r).
Definition rq_SubResource (sub : string) (r : FullRequest) : FullRequest :=
  MkFullRequest (fr_verb r) (fr_base r) (fr_pathPrefix r) (fr_headers r) (fr_resource r) (fr_resourceName r) sub (fr_err r) (fr_body r).
(** [SetHeader(key, values...)]; the keys are given in canonical form. *)
Definition SetHeader (key : string) (values : list string) (r : FullRequest) : FullRequest :=
  MkFullRequest (fr_verb r) (fr_base r) (fr_pathPrefix r)
    (match values with [] => delete key (fr_headers r) | _ => <[key := values]> (fr_headers r) end)
    (fr_resource r) (fr_resourceName r) (fr_subresource r) (fr_err r) (fr_body r).
Definition withBody (body : option string) (err : error) (r : FullRequest) : FullRequest :=
  MkFullRequest (fr_verb r) (fr_base r) (fr_pathPrefix r) (fr_headers r) (fr_resource r) (fr_resourceName r)
    (fr_subresource r) err body.

(** [NewRequest(client, verb, baseURL, versionedAPIPath, contentType)] *)
Definition rq_NewRequest (verb : string) (base : baseURL) (versionedAPIPath contentType : string) : FullRequest :=
  let pathPrefix := JoinPath ["/"; base.2] in
  SetHeader "Accept" [contentType +:+ ", */*"]
    (MkFullRequest verb base (JoinPath [pathPrefix; versionedAPIPath]) ∅ EmptyString EmptyString EmptyString None None).
Definition rc_Verb (verb : string) (c : FullClient) : FullRequest := rq_NewRequest verb (fl_base c) "nil" (fl_ContentType c).
Definition rc_Patch (pt : string) (c : FullClient) : FullRequest := SetHeader "Content-Type" [pt] (rc_Verb "PATCH" c).

(** What [Body] is given: the name of a file, bytes or what a reader holds, or
    another value with its encoding, nil or not. *)
Inductive bodyArg : Type :=
| BodyFile (name : string)
| BodyBytes (data : string)
| BodyObject (encoded : option (string + goerr)).
Definition rq_Body {W} `{Env W} (obj : bodyArg) (r : FullRequest) : IO W FullRequest :=
  match fr_err r with
  | Some _ => mret r
  | None =>
      match obj with
      | BodyFile name =>
          '(data, err) ← perform (ReadFile name);
          match (err : error) with
          | Some e => mret (withBody (fr_body r) (Some e) r)
          | None => mret (withBody (Some data) None r)
          end
      | BodyBytes data => mret (withBody (Some data) None r)
      | BodyObject None => mret r
      | BodyObject (Some (inr e)) => mret (withBody (fr_body r) (Some e) r)
      | BodyObject (Some (inl data)) => mret (SetHeader "Content-Type" ["application/json"] (withBody (Some data) None r))
      end
  end.

(** ** Properties *)
Section properties.
Context {W : Type} `{Env W} `{CryptoLib} `{UrlLib} `{TlsLib}.

(** What [Rest] says of the base URL is what the full code does with a host and
    no certificates. *)
Lemma ServerURL_plain host scheme h :
  Rest.DefaultServerURL host = inl (scheme, h) ↔ ∃ path, ServerURL host false = inl (scheme, h, path).
Proof.
  unfold Rest.DefaultServerURL, ServerURL. case_decide; [naive_solver|].
  destruct (url_Parse host) as [[[s1 h1] p1]|e1]; [destruct (_ || _); [|naive_solver]|];
    destruct (url_Parse ("http://" +:+ host)) as [[[s2 h2] p2]|e2]; try naive_solver;
    destruct (_ && _); naive_solver.
Qed.

(** The client of a host without certificates is the one [Rest] makes: the same
    scheme and host, no TLS settings, JSON. *)
Theorem FullClientFor_plain host token c0 (s : St W) :
  c0 = MkRestCfg EmptyString host EmptyString token zeroTLS EmptyString 0 0 →
  match Rest.RESTClientFor host with
  | inl rc => ∃ c client path,
      FullClientFor c0 s = (Ret (c, (Some client, None)), s) ∧
      fl_base client = (rc_Scheme rc, rc_Host rc, path) ∧ hc_Transport (fl_Client client) = None ∧
      fl_ContentType client = "application/json" ∧ rf_UserAgent c = "wdrip for kubernetes"
  | inr _ => ∃ e, FullClientFor c0 s = (Ret (c0, (None, Some e)), s)
  end.
Proof.
  intros ->. unfold Rest.RESTClientFor, Rest.defaultServerUrlFor, FullClientFor, serverUrlFor.
  cbn [rf_Host rf_TLS]. change (hasTLS zeroTLS) with false. set (h := if decide (host = "") then _ else _).
  destruct (Rest.DefaultServerURL h) as [[scheme hh]|e] eqn:E.
  - apply ServerURL_plain in E as [path ->]. destruct (HasSuffix path "/") eqn:Es;
      do 3 eexists; (split; [unfold TransportFor; cbn; rewrite Es; reflexivity|]); done.
  - destruct (ServerURL h false) as [[[scheme hh] path]|e'] eqn:E'; [|by eexists].
    assert (Rest.DefaultServerURL h = inl (scheme, hh)) as Hx by (apply ServerURL_plain; by eexists).
    by rewrite E in Hx.
Qed.

(** Authorities and key pairs given without a certificate file are not used: the
    connection is to an https server, with the system's roots and no client
    certificate. *)
Theorem TransportFor_ignores_CA c (s : St W) :
  tl_CertFile (rf_TLS c) = EmptyString → TransportFor c s = (Ret (c, (Some None, None)), s).
Proof. intros Hc. unfold TransportFor. by rewrite decide_True. Qed.

(** After [LoadTLSFiles] each of the three is what was given, or else the content
    of its file, or nothing when there was neither. *)
Theorem LoadTLSFiles_fills c c' (s s' : St W) :
  LoadTLSFiles c s = (Ret (c', None), s') →
  let t := rf_TLS c in let t' := rf_TLS c' in
  Forall (λ x, let '(before, file, after) := x in
    (before ≠ EmptyString → after = before) ∧
    (before = EmptyString → file = EmptyString → after = EmptyString) ∧
    (before = EmptyString → file ≠ EmptyString → ∃ w, (env_step (ReadFile file) w).1 = (after, None)))
    [(tl_CAData t, tl_CAFile t, tl_CAData t'); (tl_CertData t, tl_CertFile t, tl_CertData t');
     (tl_KeyData t, tl_KeyFile t, tl_KeyData t')].
Proof.
  assert (∀ data file out (s s' : St W), dataFromSliceOrFile data file s = (Ret (out, None), s') →
    (data ≠ EmptyString → out = data) ∧ (data = EmptyString → file = EmptyString → out = EmptyString) ∧
    (data = EmptyString → file ≠ EmptyString → ∃ w, (env_step (ReadFile file) w).1 = (out, None))) as Hd.
  { intros data file out s1 s2. unfold dataFromSliceOrFile. case_decide as Hx; [intros [= -> _]; naive_solver|].
    case_decide as Hy; [|intros [= <- _]; naive_solver]. intros HB. step_perform_in HB.
    destruct (env_step (ReadFile file) (world s1)) as [[d [e|]] w] eqn:E; [done|]. injection HB as <- _.
    split_and!; [naive_solver..|]. intros _ _. exists (world s1). by rewrite E. }
  unfold LoadTLSFiles. intros ([ca [e|]] & s1 & E1 & HB)%bind_Ret_inv; [done|].
  apply bind_Ret_inv in HB as ([cert [e|]] & s2 & E2 & HB); [done|].
  apply bind_Ret_inv in HB as ([key err] & s3 & E3 & [= <- -> _]).
  cbn. repeat (apply Forall_cons; split; [by eapply Hd|]). constructor.
Qed.
End properties.
