(* ===== verification/Etcd.v ===== *)
(** * The etcd client (pkg/actions/etcd/etcd.go and types.go)

    Everything goes through the [etcdctl] command: listing, adding and removing
    members, snapshots, health, and the systemd unit that runs a member.  The
    JSON decoder is a parameter; a command is a [Run] call whose result is the
    environment's. *)
From stdpp Require Import base list gmap strings.
From Stdlib Require Import Ascii Lia Sorted.
From S2P Require Import Prelude GoStrings GoTime Api Effects Provider Sign.

Definition ETCD_USER : string := "etcd".
Definition ETCD_HOME : string := "/var/lib/etcd".
Definition ETCD_TMP : string := "/var/tmp/etcd".
Definition ETCD_UNIT_FILE : string := "/lib/systemd/system/etcd.service".
Definition DataDir : string := "data.etcd".
Definition SnapshotTMP : string := "/tmp/snapshot.db".
Definition BootTypeLocal : string := "local".
Definition BootTypeRecover : string := "recover".
Definition BootTypeCoord : string := "coordinator".
Definition BootTypeOperator : string := "operator".

(** ** types.go; a [*big.Int] is an [option Z]. *)
Record Header : Type := MkHeader {
  hd_ClusterID : option Z;
  hd_MemberID : option Z;
  hd_Revision : option Z;
  hd_RaftTerm : option Z }.

Record Status : Type := MkStatus {
  sta_Header : Header;
  sta_Version : string;
  sta_DBsize : option Z;
  sta_Leader : option Z;
  sta_RaftIndex : option Z;
  sta_RaftTerm : option Z }.

Record EndpointStatus : Type := MkEndpointStatus {
  eps_Endpoint : string;
  eps_Status : Status }.

Record Member : Type := MkMember {
  mem_ID : option Z;
  mem_IP : string;
  mem_State : string;
  mem_Name : string;
  mem_PeerURLs : list string;
  mem_ClientURLs : list string }.

Record Members : Type := MkMembers {
  mb_Header : Header;
  mb_Members : list Member }.

Definition zeroMember : Member := MkMember None "" "" "" [] [].
Definition zeroMembers : Members := MkMembers (MkHeader None None None None) [].
Definition mem_with_IP (ip : string) (m : Member) : Member :=
  MkMember (mem_ID m) ip (mem_State m) (mem_Name m) (mem_PeerURLs m) (mem_ClientURLs m).

(** [type Etcd struct] *)
Record Etcd : Type := MkEtcd {
  e_home : string;
  e_me : string;
  e_peer : list string }.

(** ** Pure parts of etcd.go *)
Definition Home (m : Etcd) : string :=
  if decide (e_home m = "") then ETCD_HOME else e_home m.

Definition certHome (home name : string) : string :=
  (if decide (home = "") then ETCD_HOME else home) +:+ "/cert/" +:+ name.

Definition memberName (ip : string) : string := "etcd-" +:+ ip +:+ ".member".

Definition advertise (ip port : string) : string := "https://" +:+ ip +:+ ":" +:+ port.

Definition advertises (ips : list string) (port : string) : string :=
  Join (map (λ ip, advertise ip port) ips) ",".

Definition NewEmptyMembers : list Member := [].

(** [InitialEtcdCluster(node, mem)] *)
Definition InitialEtcdCluster (node : Master) (mem : list Member) : string :=
  match mem with
  | [] => let ip := ms_IP (m_Spec node) in "etcd-" +:+ ip +:+ ".member=" +:+ advertise ip "2380"
  | _ =>
      Join (omap (λ m, match mem_PeerURLs m with
                       | [] => None
                       | u :: _ => Some ("etcd-" +:+ mem_IP m +:+ ".member=" +:+ u)
                       end) mem) ","
  end.

(** [FindMemberByIP(mems, ip)] *)
Definition FindMemberByIP (mems : list Member) (ip : string) : Member :=
  match List.find (λ m, match mem_PeerURLs m with
                        | [] => false
                        | u :: _ => bool_decide (u = advertise ip "2380")
                        end) mems with
  | Some m => m
  | None => zeroMember
  end.

(** [memAdvertise(mems)]: the first client URL of each, which must exist. *)
Fixpoint memAdvertise_go (mems : list Member) : outcome (list string) :=
  match mems with
  | [] => Ret []
  | m :: rest =>
      match mem_ClientURLs m with
      | [] => Panic "index out of range [0] with length 0"
      | u :: _ =>
          match memAdvertise_go rest with
          | Ret us => Ret (u :: us)
          | o => o
          end
      end
  end.
Definition memAdvertise (mems : list Member) : outcome string :=
  match memAdvertise_go mems with
  | Ret us => Ret (Join us ",")
  | Panic msg => Panic msg
  | Hang => Hang
  end.

(** [fmt]'s [%x] of a [*big.Int]. *)
Definition fmt_xZ (z : Z) : string :=
  if (z <? 0)%Z then "-" +:+ fmt_x (Z.to_N (- z)) else fmt_x (Z.to_N z).

(** [NewEtcd(node)] *)
Definition NewEtcd (node : Master) : Etcd :=
  MkEtcd "" (ms_IP (m_Spec node)) (map h_IP (mt_Peer (m_Status node))).

(** The environment of the unit file; the boot configuration is read through a
    pointer. *)
Definition etcd_Env (m : Etcd) (node : Master) (mems : list Member) (state : string)
    : outcome (gmap string string) :=
  match mt_BootCFG (m_Status node) with
  | None => Panic "nil pointer dereference"
  | Some cfg =>
      let ip := ms_IP (m_Spec node) in
      Ret (list_to_map [
        ("ETCD_INITIAL_CLUSTER_TOKEN", es_InitToken (cs_Etcd (cl_Spec cfg)));
        ("ETCD_PEER_TRUSTED_CA_FILE", certHome (Home m) "peer-ca.crt");
        ("ETCD_PEER_CERT_FILE", certHome (Home m) "peer.crt");
        ("ETCD_PEER_KEY_FILE", certHome (Home m) "peer.key");
        ("ETCD_NAME", memberName ip);
        ("ETCD_DATA_DIR", DataDir);
        ("ETCD_ELECTION_TIMEOUT", "3000");
        ("ETCD_HEARTBEAT_INTERVAL", "500");
        ("ETCD_SNAPSHOT_COUNT", "50000");
        ("ETCD_CLIENT_CERT_AUTH", "true");
        ("ETCD_TRUSTED_CA_FILE", certHome (Home m) "server-ca.crt");
        ("ETCD_CERT_FILE", certHome (Home m) "server.crt");
        ("ETCD_KEY_FILE", certHome (Home m) "server.key");
        ("ETCD_PEER_CLIENT_CERT_AUTH", "true");
        ("ETCD_INITIAL_ADVERTISE_PEER_URLS", advertise ip "2380");
        ("ETCD_LISTEN_PEER_URLS", advertise ip "2380");
        ("ETCD_ADVERTISE_CLIENT_URLS", advertise ip "2379");
        ("ETCD_LISTEN_CLIENT_URLS", advertise ip "2379");
        ("ETCD_INITIAL_CLUSTER", InitialEtcdCluster node mems);
        ("ETCD_INITIAL_CLUSTER_STATE", state)])
  end.

(** [EtcdUnitFileContent]: the environment lines come in map order. *)
Definition EtcdUnitFileContent `{MapRange} (m : Etcd) (node : Master) (mems : list Member)
    (state : string) : outcome string :=
  match etcd_Env m node mems state with
  | Ret env =>
      let mid := map (λ kv, "Environment=" +:+ String (Ascii.ascii_of_nat 34)
                       (kv.1 +:+ "=" +:+ kv.2 +:+ String (Ascii.ascii_of_nat 34) ""))
                     (range_order 1 env) in
      Ret (Join ([ "[Unit]"; "Description=etcd service"; "After=network.target"; "";
                   "[Service]"; "WorkingDirectory=" +:+ Home m; "User=etcd" ]
                 ++ mid ++
                 [ "ExecStart=/usr/bin/etcd"; "LimitNOFILE=65536"; "Restart=always";
                   "RestartSec=15s"; "OOMScoreAdjust=-999"; "[Install]";
                   "WantedBy=multi-user.target" ])
             (String (Ascii.ascii_of_nat 10) ""))
  | Panic msg => Panic msg
  | Hang => Hang
  end.

(** The loop of [MemberList] that fills in the IPs from the peer URLs; members
    before the offending one keep the IP they got. *)
Fixpoint memberIPs `{GoFmt} (hdr : Header) (acc rest : list Member) : list Member * error :=
  match rest with
  | [] => (acc, None)
  | p :: rest' =>
      match mem_PeerURLs p with
      | [] => (acc ++ rest, Errorf ("empty peer url: " +:+ pp (MkMembers hdr (acc ++ rest))))
      | url :: _ =>
          match Split url "//" with
          | _ :: ip1 :: _ =>
              match Split ip1 ":" with
              | ip :: _ :: _ => memberIPs hdr (acc ++ [mem_with_IP ip p]) rest'
              | addr => (acc ++ rest, Errorf ("member list: unkown addr format, " +:+ fmt_strs addr))
              end
          | _ => (acc ++ rest, Errorf ("member list: unknown Advertise addr format, " +:+
                    fmt_strs (mem_ClientURLs p) +:+ ". skip"))
          end
      end
  end.

(** types.go [Load]: the lines of output decoded into [o]. *)
Definition Load {A} `{Json A} (r : list string) (o : A) : A * error :=
  let result := Join r (String (Ascii.ascii_of_nat 10) "") in
  if isBlank result then (o, Errorf "etcd command result, empty string")
  else Unmarshal result o.

(** The command line of [etcdctl] against [endpoints], as every function below
    writes it out. *)
Definition etcdctl_args (m : Etcd) (endpoints : string) (rest : list string) : list string :=
  ["--endpoints"; endpoints;
   "--cacert"; certHome (Home m) "server-ca.crt";
   "--cert"; certHome (Home m) "client.crt";
   "--key"; certHome (Home m) "client.key"] ++ rest.
Definition etcdctl (m : Etcd) (endpoints : string) (rest : list string) : call :=
  Run "etcdctl" (etcdctl_args m endpoints rest) ["ETCDCTL_API=3"].

(** Rounds of [WaitEndpoints] that fit into its three minutes, and one more. *)
Definition wait_fuel : nat := 91.

Section operations.
Context {W : Type} `{Env W} `{PkgErrors} `{GoFmt} `{MapRange} `{WaitLib W}.
Context `{Json Members} `{Json (list EndpointStatus)} `{CryptoLib}.

(** One attempt of [TryEachPeer] on the peer [p]; [L] is what the closure
    [mfunc] captures and changes, the error is [lastError]. *)
Definition peerTurn {L} (interval : Z) (mfunc : string → L → IO W (L * error)) (p : string)
    (_ : nat) (st : L * error) : IO W (ctl (L * error) (L * error)) :=
  '(l, err) ← mfunc p st.1;
  match err with
  | None => mret (Return (l, None))
  | Some e =>
      _ ← (if (interval =? 0)%Z then mret tt else perform (Sleep interval));
      mret (Next (l, Some e))
  end.
(** Two attempts on the peer [p]. *)
Definition peerLoop {L} (interval : Z) (mfunc : string → L → IO W (L * error)) (p : string)
    (st : L * error) : IO W (ctl (L * error) (L * error)) :=
  r ← range (seq 0 2) st (peerTurn interval mfunc p);
  match r with
  | inl st => mret (Next st)
  | inr res => mret (Return res)
  end.
(** [TryEachPeer(peer, interval, mfunc)] *)
Definition TryEachPeer {L} (peer : list string) (interval : Z)
    (mfunc : string → L → IO W (L * error)) (l : L) : IO W (L * error) :=
  r ← range peer (l, None) (peerLoop interval mfunc);
  match r with
  | inr res => mret res
  | inl (l, lastError) => mret (l, Wrapf lastError "NoMoreEndpointsToTry")
  end.

(** The closure [fortry] of [MemberList]. *)
Definition fortry (m : Etcd) (ip : string) (mems : Members) : IO W (Members * error) :=
  result ← perform (etcdctl m (advertise ip "2379") ["-w"; "json"; "member"; "list"]);
  match CmdError result with
  | Some e => mret (mems, Errorf ("peer list error: " +:+ Error e))
  | None =>
      let '(mems, err) := Load (c_Stdout result) mems in
      match err with
      | Some e => mret (mems, Errorf ("unmarshal member: " +:+ Error e))
      | None =>
          let '(l, err) := memberIPs (mb_Header mems) [] (mb_Members mems) in
          mret (MkMembers (mb_Header mems) l, err)
      end
  end.
Definition MemberList (m : Etcd) : IO W (Members * error) :=
  TryEachPeer (e_peer m) (2 * Second) (fortry m) zeroMembers.

(** [RemoveMember(mem)] *)
Definition RemoveMember (m : Etcd) (mem : Member) : IO W error :=
  match mem_ID mem with
  | None | Some 0%Z => mret None
  | Some id =>
      '(_, err) ← TryEachPeer (e_peer m) (2 * Second) (λ ip _,
          result ← perform (etcdctl m (advertise ip "2379") ["member"; "remove"; fmt_xZ id]);
          mret (tt, CmdError result)) tt;
      mret err
  end.

(** [WaitEndpoints(endpoints)]: [start] is when the timer was set, [cnt] the
    good rounds so far. *)
Fixpoint WaitEndpoints_go (fuel : nat) (m : Etcd) (endpints : string) (start : Z) (cnt : nat)
    : IO W error :=
  match fuel with
  | O => hang
  | S k =>
      now ← perform Now;
      if (start + 3 * Minute <=? now)%Z then
        mret (Errorf "wait for etcd ready timeout, <nil>")
      else
        _ ← perform (Sleep (2 * Second));
        result ← perform (etcdctl m endpints ["endpoint"; "health"]);
        match CmdError result with
        | Some _ => WaitEndpoints_go k m endpints start cnt
        | None =>
            if decide (S cnt = 3) then mret None
            else WaitEndpoints_go k m endpints start (S cnt)
        end
  end.
Definition WaitEndpoints (m : Etcd) (endpints : string) : IO W error :=
  start ← perform Now;
  WaitEndpoints_go wait_fuel m endpints start 0.

Definition EndpointHealth (m : Etcd) (ip : string) : IO W error :=
  result ← perform (etcdctl m (advertise ip "2379") ["endpoint"; "health"]);
  mret (CmdError result).

Definition Endpoints (m : Etcd) : IO W (list EndpointStatus * error) :=
  result ← perform (etcdctl m (advertises (e_peer m) "2379") ["-w"; "json"; "endpoint"; "status"]);
  match CmdError result with
  | Some e => mret ([], Errorf ("endpoint status error: " +:+ Error e))
  | None => mret (Load (c_Stdout result) [])
  end.

(** The closure of [JoinMe]. *)
Definition tryJoin (m : Etcd) (ip : string) (_ : unit) : IO W (unit * error) :=
  '(mems, err) ← MemberList m;
  match err with
  | Some e => mret (tt, Errorf ("join me: " +:+ Error e))
  | None =>
      if existsb (λ v, negb (bool_decide (mem_IP v = "")) && bool_decide (mem_IP v = e_me m))
           (mb_Members mems)
      then mret (tt, None)
      else
        result ← perform (etcdctl m (advertise ip "2379")
                   ["member"; "add"; memberName (e_me m); "--peer-urls"; advertise (e_me m) "2380"]);
        mret (tt, CmdError result)
  end.
Definition JoinMe (m : Etcd) : IO W error :=
  if decide (e_peer m = []) then
    mret (Errorf ("major master does not exists: " +:+ fmt_strs (e_peer m)))
  else
    '(_, err) ← TryEachPeer (e_peer m) (3 * Second) (tryJoin m) tt;
    mret err.

(** [Join()], the entry of the join method. *)
Definition etcd_Join (m : Etcd) : IO W error :=
  '(omems, err) ← MemberList m;
  match err with
  | Some e => mret (Errorf ("peer: " +:+ Error e))
  | None =>
      eps ← lift (memAdvertise (mb_Members omems));
      err ← WaitEndpoints m eps;
      match err with
      | Some e => mret (Errorf ("wait etcd ready: " +:+ Error e))
      | None =>
          err ← JoinMe m;
          match err with
          | Some e => mret (Errorf ("join peer[" +:+ e_me m +:+ "] fail, " +:+ Error e))
          | None =>
              '(nmems, err) ← MemberList m;
              match err with
              | Some e => mret (Errorf ("try list peer: " +:+ Error e))
              | None =>
                  if decide (length (mb_Members omems) + 1 < length (mb_Members nmems)) then
                    err ← RemoveMember m (FindMemberByIP (mb_Members nmems) (e_me m));
                    match err with
                    | Some e => mret (Errorf ("remove myself error: " +:+ Error e))
                    | None => mret (Errorf ("concurrent etcd peer join: old=[" +:+ pp omems +:+
                                            "], new=[" +:+ pp nmems +:+ "]"))
                    end
                  else mret None
              end
          end
      end
  end.

(** [BackOffJoinMember(etcd)] *)
Definition BackOffJoinMember (m : Etcd) : IO W error :=
  Poll (5 * Second) (5 * Minute)
    (err ← etcd_Join m;
     match err with
     | Some _ => mret (false, None)
     | None => mret (true, None)
     end).

(** [Restore(node, dir)] *)
Definition Restore (m : Etcd) (node : Master) (dir : string) : IO W error :=
  if decide (dir = "") then mret (Errorf "empty snapshot path")
  else
    let dataDir := JoinPath [Home m; DataDir] in
    let bakDir := JoinPath ["/root"; "db.bak"] in
    '(found, err) ← FileExist bakDir;
    match err with
    | Some e => mret (Wrapf (Some e) "etcd backup file check")
    | None =>
        _ ← (if found : bool then mret None else perform (Rename dataDir bakDir));
        _ ← perform (RemoveAll dataDir);
        match mt_BootCFG (m_Status node) with
        | None => panic "nil pointer dereference"
        | Some cfg =>
            result ← perform (Run "etcdctl"
              [ "snapshot"; "restore"; dir;
                "--data-dir"; dataDir;
                "--skip-hash-check=true";
                "--name"; memberName (ms_IP (m_Spec node));
                "--initial-cluster"; InitialEtcdCluster node NewEmptyMembers;
                "--initial-cluster-token"; es_InitToken (cs_Etcd (cl_Spec cfg));
                "--initial-advertise-peer-urls"; advertise (ms_IP (m_Spec node)) "2380";
                "--cacert"; certHome (Home m) "server-ca.crt";
                "--cert"; certHome (Home m) "server.crt" ] ["ETCDCTL_API=3"]);
            mret (CmdError result)
        end
    end.

(** [Snapshot(dir)] *)
Definition Snapshot (m : Etcd) (dir : string) : IO W error :=
  if decide (dir = "") then mret (Errorf "empty snapshot target path")
  else
    match e_peer m with
    | [] => mret (Errorf "empty peer endpoint, can not snapshot")
    | p0 :: _ =>
        err ← perform (MkdirAll (Dir dir));
        match (err : error) with
        | Some e => mret (Wrapf (Some e) ("make dir: " +:+ Dir dir))
        | None =>
            result ← perform (etcdctl m (advertises [p0] "2379") ["snapshot"; "save"; dir]);
            mret (CmdError result)
        end
    end.

(** [AddUser()]: failures are only logged. *)
Definition AddUser (m : Etcd) : IO W unit :=
  _ ← perform (Run "groupadd" ["-r"; ETCD_USER] []);
  _ ← perform (Run "useradd" ["-r"; "-g"; ETCD_USER; "-d"; Home m; "-s"; "/sbin/nologin";
                              "-c"; "etcd user"; ETCD_USER] []);
  _ ← perform (Run "chown" ["-R"; "etcd:etcd"; Home m] []);
  mret tt.

(** A CA pair read through its pointer. *)
Definition deref_ca (ca : option KeyCert) : IO W KeyCert :=
  match ca with Some kc => mret kc | None => panic "nil pointer dereference" end.

(** [LoadOrSign(node, home)]: signs three pairs and writes the ten files. *)
Definition LoadOrSign (node : Master) (home : string) : IO W error :=
  let ip := ms_IP (m_Spec node) in
  match mt_BootCFG (m_Status node) with
  | None => panic "nil pointer dereference"
  | Some cfg =>
      let spec := cs_Etcd (cl_Spec cfg) in
      peerCA ← deref_ca (es_PeerCA spec);
      '(key, cert, err) ← SignEtcdMember (kc_Cert peerCA) (kc_Key peerCA) [ip] ip;
      match err with
      | Some e => mret (Errorf ("sign etcd peer cert fail, " +:+ Error e))
      | None =>
          serverCA ← deref_ca (es_ServerCA spec);
          '(skey, scert, err) ← SignEtcdServer (kc_Cert serverCA) (kc_Key serverCA) [ip] ip;
          match err with
          | Some e => mret (Errorf ("sign etcd server cert fail, " +:+ Error e))
          | None =>
              '(ckey, ccert, err) ← SignEtcdClient (kc_Cert serverCA) (kc_Key serverCA) [] ip;
              match err with
              | Some e => mret (Errorf ("sign etcd client cert fail, " +:+ Error e))
              | None =>
                  err ← perform (MkdirAll (home +:+ "/cert"));
                  match (err : error) with
                  | Some e => mret (Errorf ("mkdir etcd home dir: " +:+ Error e))
                  | None =>
                      let files : gmap string string := list_to_map [
                        ("server.crt", scert);
                        ("server.key", skey);
                        ("server-ca.crt", kc_Cert serverCA);
                        ("server-ca.key", kc_Key serverCA);
                        ("client.crt", ccert);
                        ("client.key", ckey);
                        ("peer.crt", cert);
                        ("peer.key", key);
                        ("peer-ca.crt", kc_Cert peerCA);
                        ("peer-ca.key", kc_Key peerCA)] in
                      r ← range (range_order 0 files) tt (λ kv _,
                            err ← perform (WriteFile (certHome home kv.1) kv.2);
                            match (err : error) with
                            | Some e => mret (Return (Errorf ("write file " +:+ kv.1 +:+ ": " +:+ Error e)))
                            | None => mret (Next tt)
                            end);
                      match r with
                      | inr err => mret err
                      | inl _ => mret None
                      end
                  end
              end
          end
      end
  end.

(** [NewEtcdFromCRD(nodes, spec, home)]: the client certificate is signed on
    first use, with the first master's IP and the cluster's CAs (which the
    code stores into that master's status for the purpose). *)
Definition NewEtcdFromCRD (nodes : list Master) (spec : option Cluster) (home : string)
    : IO W (option Etcd * error) :=
  '(found, err) ← FileExist (certHome home "client.key");
  match err with
  | Some e => mret (None, Some e)
  | None =>
      err ← (if found : bool then mret None
             else match nodes with
                  | [] => panic "index out of range [0] with length 0"
                  | n0 :: _ =>
                      err ← LoadOrSign (m_with_Status (mt_with_BootCFG spec (m_Status n0)) n0) home;
                      match err with
                      | Some e => mret (Errorf ("try sign etcd, " +:+ Error e))
                      | None => mret None
                      end
                  end);
      match (err : error) with
      | Some e => mret (None, Some e)
      | None =>
          let peer := map (λ n, ms_IP (m_Spec n)) nodes in
          mret (Some (MkEtcd home (default "" (last peer)) peer), None)
      end
  end.

(** [FlushEtcdContent(node, state)] *)
Definition FlushEtcdContent (m : Etcd) (node : Master) (state : string) : IO W error :=
  '(mems, err) ← (if decide (state = "new") then mret (zeroMembers, None) else MemberList m);
  match (err : error) with
  | Some e => mret (Errorf ("member list: on etcd content, " +:+ Error e))
  | None =>
      content ← lift (EtcdUnitFileContent m node (mb_Members mems) state);
      perform (WriteFile ETCD_UNIT_FILE content)
  end.

(** [Execute(ctx)] of the etcd action; [node] and [bootType] are what the
    action context holds. *)
Definition etcd_Execute (node : option Master) (bootType : string) : IO W error :=
  match node with
  | None => mret (Errorf "can not get node info from ActionContex")
  | Some node =>
      let etcd := NewEtcd node in
      err ← LoadOrSign node (Home etcd);
      match err with
      | Some e => mret (Errorf ("sign: " +:+ Error e))
      | None =>
          err ← FlushEtcdContent etcd node "new";
          match err with
          | Some e => mret (Errorf ("flush etcd content file " +:+ ETCD_UNIT_FILE +:+ ": " +:+ Error e))
          | None =>
              joined ←
                (if decide (bootType = BootTypeOperator) then
                   err ← BackOffJoinMember etcd;
                   match err with
                   | Some e => mret (inr (Errorf ("join etcd peer on bootType=" +:+ bootType +:+
                                                  ": " +:+ Error e)))
                   | None => mret (inl "existing")
                   end
                 else if decide (bootType = BootTypeRecover) then
                   err ← Restore etcd node SnapshotTMP;
                   match err with
                   | Some e => mret (inr (Wrapf (Some e) "restore snapshot"))
                   | None => mret (inl "new")
                   end
                 else mret (inl "new"));
              match joined with
              | inr err => mret err
              | inl state =>
                  err ← FlushEtcdContent etcd node state;
                  match err with
                  | Some e => mret (Errorf ("write file " +:+ ETCD_UNIT_FILE +:+ ": " +:+ Error e))
                  | None =>
                      _ ← AddUser etcd;
                      r ← range [["enable"; "etcd"]; ["daemon-reload"]; ["restart"; "etcd"]] tt
                            (λ ops _,
                               err ← Systemctl ops;
                               match err with
                               | Some e => mret (Return (Errorf ("systecmctl enable etcd error," +:+
                                                           Error e +:+ " ")))
                               | None => mret (Next tt)
                               end);
                      match r with
                      | inr err => mret err
                      | inl _ => WaitEndpoints etcd (advertise (ms_IP (m_Spec node)) "2379")
                      end
                  end
              end
          end
      end
  end.
End operations.

(** ** Lemmas *)

(** *** Addresses *)

(** The host of an advertised URL is read back by [MemberList]. *)
Lemma advertise_host ip port :
  no_byte "/"%char ip → no_byte ":"%char ip → no_byte "/"%char port →
  ∃ rest, Split (advertise ip port) "//" = ["https:"; rest] ∧
          ∃ tl, Split rest ":" = ip :: tl ∧ tl ≠ [].
Proof.
  intros Hs Hc Hp. exists (ip +:+ ":" +:+ port). split.
  - unfold Split, advertise.
    change (split_go "//" ("https://" +:+ ip +:+ ":" +:+ port) "" 0)
      with (if String.prefix "" (ip +:+ ":" +:+ port)
            then "https:" :: split_go "//" (ip +:+ ":" +:+ port) "" 0
            else split_go "//" ("/" +:+ ip +:+ ":" +:+ port) "https:/" 0).
    replace (String.prefix "" (ip +:+ ":" +:+ port)) with true
      by (by destruct (ip +:+ ":" +:+ port)).
    rewrite split_go_no_byte by done.
    change (split_go "//" (":" +:+ port) ("" +:+ ip) 0)
      with (split_go "//" port (ip +:+ ":") 0).
    rewrite <- (string_app_nil_r port) at 1.
    rewrite split_go_no_byte by done. simpl. by rewrite string_app_assoc.
  - unfold Split. rewrite split_go_no_byte by done.
    exists (split_go ":" port "" 0). split; [by destruct port|].
    assert (∀ s cur k, split_go ":" s cur k ≠ []) as Hne; [|apply Hne].
    induction s as [|c s IH]; intros cur k; [done|]. cbn [split_go].
    destruct k; [|apply IH]. case_match; [done|apply IH].
Qed.

(** What [MemberList] reads off a peer URL. *)
Definition url_host (url ip : string) : Prop :=
  ∃ x a r tl, Split url "//" = x :: a :: r ∧ Split a ":" = ip :: tl ∧ tl ≠ [].

Lemma url_host_advertise ip port :
  no_byte "/"%char ip → no_byte ":"%char ip → no_byte "/"%char port → url_host (advertise ip port) ip.
Proof.
  intros H1 H2 H3. destruct (advertise_host ip port H1 H2 H3) as (r & Hs & tl & Ht & Hn).
  by exists "https:", r, [], tl.
Qed.

Lemma url_host_fun url a b : url_host url a → url_host url b → a = b.
Proof.
  intros (x & r & q & tl & H1 & H2 & _) (x' & r' & q' & tl' & H1' & H2' & _). congruence.
Qed.

(** The member [q] is [p] with its IP taken from the first peer URL. *)
Definition with_host (p q : Member) : Prop :=
  q = mem_with_IP (mem_IP q) p ∧
  ∃ url us, mem_PeerURLs p = url :: us ∧ url_host url (mem_IP q).

Lemma memberIPs_ok `{GoFmt} hdr acc rest l :
  memberIPs hdr acc rest = (l, None) → ∃ l', l = acc ++ l' ∧ Forall2 with_host rest l'.
Proof.
  revert acc. induction rest as [|p rest IH]; intros acc; simpl.
  { intros [= <-]. exists []. by rewrite app_nil_r. }
  destruct (mem_PeerURLs p) as [|url us] eqn:Hp; [done|].
  destruct (Split url "//") as [|x [|a r]] eqn:H1; [done..|].
  destruct (Split a ":") as [|ip [|y tl]] eqn:H2; [done..|].
  intros Hr. apply IH in Hr as (l' & -> & Hl').
  exists (mem_with_IP ip p :: l'). split; [by rewrite <- app_assoc|].
  constructor; [|done]. split; [done|]. simpl. exists url, us. split; [done|].
  by exists x, a, r, (y :: tl).
Qed.

(** *** Trying each peer *)
Section try.
Context {W : Type} `{Env W} `{PkgErrors} {L : Type}.
Implicit Types (f : string → L → IO W (L * error)) (peer : list string) (l : L).

(** With no peer to try there is no error to wrap: the answer is success and
    nothing has been called. *)
Lemma TryEachPeer_nobody `{!PkgErrorsSpec} i f l s :
  TryEachPeer [] i f l s = (Ret (l, None), s).
Proof. unfold TryEachPeer. rewrite bind_unfold. simpl. by rewrite Wrapf_nil. Qed.

(** A turn that goes on leaves an error behind; one that returns comes from a
    successful call. *)
Lemma peerTurn_inv i f p n st s c s' :
  peerTurn i f p n st s = (Ret c, s') →
  (∃ l' e, c = Next (l', Some e)) ∨
  (∃ l', c = Return (l', None) ∧ f p st.1 s = (Ret (l', None), s')).
Proof.
  intros Hb. apply bind_Ret_inv in Hb as ([l' err] & s1 & Hf & Hb). destruct err as [e|].
  - apply bind_Ret_inv in Hb as (u & s2 & _ & Hb). injection Hb as <- _. eauto.
  - injection Hb as <- <-. eauto.
Qed.

(** How the loop over the peers ends: with success from one of them, or with
    the error of the last attempt; no error only when there was no peer. *)
Lemma peers_inv peer i f l e0 s r s1 :
  range peer (l, e0) (peerLoop i f) s = (Ret r, s1) →
  match r with
  | inl (_, None) => peer = [] ∧ e0 = None
  | inl (_, Some _) => True
  | inr (l', e) => e = None ∧ ∃ p l0 s0, p ∈ peer ∧ f p l0 s0 = (Ret (l', None), s1)
  end.
Proof.
  revert l e0 s. induction peer as [|p peer IH]; intros l e0 s Hr; simpl in Hr.
  { injection Hr as <- _. by destruct e0. }
  apply bind_Ret_inv in Hr as (c & s2 & Hb & Hr).
  apply bind_Ret_inv in Hb as (r0 & s3 & Hin & Hb).
  apply bind_Ret_inv in Hin as (c1 & s4 & H1 & Hin).
  apply peerTurn_inv in H1 as [(l1 & e1 & ->)|(l1 & -> & Hf1)].
  2:{ injection Hin as <- <-. injection Hb as <- <-. injection Hr as <- <-.
      split; [done|]. exists p. eexists _, _. split; [by left|done]. }
  apply bind_Ret_inv in Hin as (c2 & s5 & H2 & Hin).
  apply peerTurn_inv in H2 as [(l2 & e2 & ->)|(l2 & -> & Hf2)].
  2:{ injection Hin as <- <-. injection Hb as <- <-. injection Hr as <- <-.
      split; [done|]. exists p. eexists _, _. split; [by left|done]. }
  injection Hin as <- <-. injection Hb as <- <-.
  specialize (IH _ _ _ Hr). destruct r as [[lr [er|]]|[lr er]]; [done|by destruct IH|].
  destruct IH as (-> & q & l0 & s0 & ? & ?). split; [done|].
  exists q, l0, s0. split; [by right|done].
Qed.

(** Success with peers is the success of the closure on one of them. *)
Lemma TryEachPeer_inv `{!PkgErrorsSpec} peer i f l s l' s' :
  peer ≠ [] → TryEachPeer peer i f l s = (Ret (l', None), s') →
  ∃ p l0 s0, p ∈ peer ∧ f p l0 s0 = (Ret (l', None), s').
Proof.
  intros Hne Ht. apply bind_Ret_inv in Ht as (r & s1 & Hr & Ht).
  apply peers_inv in Hr. destruct r as [[l1 [e|]]|[l1 e]].
  - destruct (Wrapf_some e "NoMoreEndpointsToTry") as (e' & Hw & _).
    rewrite Hw in Ht. by injection Ht.
  - by destruct Hr.
  - destruct Hr as (-> & p & l0 & s0 & ? & ?). injection Ht as <- <-. eauto 6.
Qed.

Lemma emits_TryEachPeer P peer i f l :
  (∀ p l, p ∈ peer → emits P (f p l)) → P (Sleep i) → emits P (TryEachPeer peer i f l).
Proof.
  intros Hf Hs. apply emits_bind; [|intros [[]|]; apply emits_ret].
  apply emits_range. intros p st Hp. apply emits_bind; [|intros []; apply emits_ret].
  apply emits_range. intros n st' _. apply emits_bind; [by apply Hf|].
  intros [l' [e|]]; [|apply emits_ret]. apply emits_bind; [|intros; apply emits_ret].
  destruct (i =? 0)%Z; [apply emits_ret|by emits_call].
Qed.
End try.

Section facts.
Context {W : Type} `{Env W} `{PkgErrors} `{GoFmt} `{MapRange} `{!WaitLib W}.
Context `{Json Members} `{Json (list EndpointStatus)} `{CryptoLib}.

(** *** Listing members *)
Lemma fortry_ok m ip mems s mems' s' :
  fortry m ip mems s = (Ret (mems', None), s') →
  ∃ r, perform (etcdctl m (advertise ip "2379") ["-w"; "json"; "member"; "list"]) s = (Ret r, s') ∧
       CmdError r = None ∧
       (Load (c_Stdout r) mems).2 = None ∧
       Forall2 with_host (mb_Members (Load (c_Stdout r) mems).1) (mb_Members mems').
Proof.
  intros Hf. apply bind_Ret_inv in Hf as (r & s1 & Hp & Hf).
  destruct (CmdError r) as [e|] eqn:Hc; [done|].
  destruct (Load (c_Stdout r) mems) as [m1 e1] eqn:Hl. destruct e1 as [e|]; [done|].
  destruct (memberIPs _ _ _) as [l e] eqn:Hm. injection Hf as <- -> <-.
  exists r. rewrite Hl. split_and!; [done..|].
  by apply memberIPs_ok in Hm as (l' & -> & ?).
Qed.

(** *** Waiting for endpoints *)
Lemma WaitEndpoints_go_returns `{!Clock W, !ClockSpec W} fuel m eps start cnt s :
  (start + 3 * Minute ≤ clock (world s) + 2 * Second * (Z.of_nat fuel - 1))%Z →
  fuel ≠ 0 → ∃ e, (WaitEndpoints_go fuel m eps start cnt s).1 = Ret e.
Proof.
  revert cnt s. induction fuel as [|k IH]; intros cnt s Hc Hk; [done|].
  cbn [WaitEndpoints_go]. step_perform.
  pose proof (clock_now (world s)) as Hnow.
  destruct (Z.leb_spec (start + 3 * Minute) (env_step Now (world s)).1) as [|Hlt]; [by eexists|].
  step_perform.
  set (w1 := (env_step Now (world s)).2) in *.
  pose proof (clock_sleep (2 * Second) w1) as Hsl.
  set (w2 := (env_step (Sleep (2 * Second)) w1).2) in *.
  step_perform.
  set (c := etcdctl m eps ["endpoint"; "health"]).
  pose proof (clock_mono c w2) as Hrun.
  assert (k ≠ 0) as Hk' by (intros ->; unfold Second, Minute in *; lia).
  assert (start + 3 * Minute ≤ clock (env_step c w2).2 + 2 * Second * (Z.of_nat k - 1))%Z
    as Hnext by (unfold Second, Minute in *; lia).
  destruct (CmdError _); [by apply IH|]. case_decide; [by eexists|by apply IH].
Qed.

(** A healthy reading of the endpoints. *)
Definition healthy_at (m : Etcd) (eps : string) (s : St W) : Prop :=
  CmdError (env_step (etcdctl m eps ["endpoint"; "health"]) (world s)).1 = None.

Lemma WaitEndpoints_go_ok fuel m eps start cnt s s' :
  cnt < 3 → WaitEndpoints_go fuel m eps start cnt s = (Ret None, s') →
  ∃ hs, length hs = 3 - cnt ∧ Forall (healthy_at m eps) hs ∧
        StronglySorted (λ a b, length (log a) < length (log b)) hs ∧
        Forall (λ h, length (log s) < length (log h)) hs.
Proof.
  revert cnt s. induction fuel as [|k IH]; intros cnt s Hcnt Hr; [done|].
  cbn [WaitEndpoints_go] in Hr. step_perform_in Hr.
  destruct (_ <=? _)%Z; [done|]. do 2 step_perform_in Hr.
  match type of Hr with context [CmdError (env_step ?c ?w).1] =>
    set (s1 := MkSt w ((log s ++ [Now]) ++ [Sleep (2 * Second)])) in Hr end.
  assert (length (log s) < length (log s1)) as Hlen by (simpl; rewrite !length_app; simpl; lia).
  destruct (CmdError _) as [e|] eqn:Hc.
  - apply IH in Hr as (hs & ? & ? & ? & Hall); [|done]. exists hs. split_and!; try done.
    eapply Forall_impl; [exact Hall|]. intros h Hh. simpl in Hh. rewrite !length_app in Hh.
    simpl in Hh. lia.
  - assert (healthy_at m eps s1) as Hh1 by exact Hc. case_decide as Hd.
    + exists [s1]. split_and!; [simpl; lia|by constructor|repeat constructor|by constructor].
    + apply IH in Hr as (hs & Hl & Hhs & Hsort & Hall); [|lia].
      assert (Forall (λ h, length (log s1) < length (log h)) hs) as Hall1.
      { eapply Forall_impl; [exact Hall|]. intros h Hh. simpl in Hh |- *.
        rewrite !length_app in *. simpl in *. lia. }
      exists (s1 :: hs). split_and!; [simpl; lia|by constructor|by constructor|].
      constructor; [done|]. eapply Forall_impl; [exact Hall1|]. intros h Hh. cbn beta in *. lia.
Qed.

(** *** What is called *)

(** Signing reads and writes files and uses the clock and the random source, but
    runs no command. *)
Definition sign_call (c : call) : Prop :=
  local_call c ∧ match c with Run _ _ _ => False | _ => True end.
Lemma emits_SignEtcd (P : call → Prop) ca ckey ips name idx :
  (∀ c, sign_call c → P c) → emits P (SignEtcd (W:=W) ca ckey ips name idx).
Proof.
  intros HP. unfold SignEtcd, sign_with, NewSignedCert. solve_emits; by apply HP.
Qed.

Lemma emits_LoadOrSign (P : call → Prop) node home :
  (∀ c, sign_call c → P c) → emits P (LoadOrSign (W:=W) node home).
Proof.
  intros HP. unfold LoadOrSign, SignEtcdMember, SignEtcdServer, SignEtcdClient, deref_ca.
  destruct (mt_BootCFG _) as [cfg|]; [|apply emits_panic].
  repeat first [apply emits_SignEtcd; done | progress solve_emits]; by apply HP.
Qed.

Lemma emits_NewEtcdFromCRD (P : call → Prop) nodes spec home :
  (∀ c, sign_call c → P c) → emits P (NewEtcdFromCRD (W:=W) nodes spec home).
Proof.
  intros HP. unfold NewEtcdFromCRD, FileExist.
  apply emits_bind; [solve_emits; by apply HP|]. intros [found err].
  destruct err; [apply emits_ret|]. apply emits_bind; [|intros err; destruct err; apply emits_ret].
  destruct found; [apply emits_ret|]. destruct nodes as [|n0 nodes]; [apply emits_panic|].
  apply emits_bind; [by apply emits_LoadOrSign|]. intros err; destruct err; apply emits_ret.
Qed.

(** *** Which commands joining runs *)
Definition list_cmd (m : Etcd) (c : call) : Prop :=
  ∃ ip, ip ∈ e_peer m ∧ c = etcdctl m (advertise ip "2379") ["-w"; "json"; "member"; "list"].
Definition add_cmd (m : Etcd) (c : call) : Prop :=
  ∃ ip, ip ∈ e_peer m ∧
    c = etcdctl m (advertise ip "2379")
          ["member"; "add"; memberName (e_me m); "--peer-urls"; advertise (e_me m) "2380"].
(** Removal of a member that advertises the peer address of [ip0]. *)
Definition remove_cmd (m : Etcd) (ip0 : string) (c : call) : Prop :=
  ∃ ip mem id us, ip ∈ e_peer m ∧ mem_ID mem = Some id ∧ id ≠ 0%Z ∧
    mem_PeerURLs mem = advertise ip0 "2380" :: us ∧
    c = etcdctl m (advertise ip "2379") ["member"; "remove"; fmt_xZ id].
Definition pause (c : call) : Prop := match c with Now | Sleep _ => True | _ => False end.

Lemma FindMemberByIP_spec mems ip :
  FindMemberByIP mems ip = zeroMember ∨
  FindMemberByIP mems ip ∈ mems ∧
  ∃ us, mem_PeerURLs (FindMemberByIP mems ip) = advertise ip "2380" :: us.
Proof.
  unfold FindMemberByIP. destruct (List.find _ mems) as [m|] eqn:E; [right|by left].
  apply List.find_some in E as [Hin Hm]. split; [by apply list_elem_of_In|].
  destruct (mem_PeerURLs m) as [|u us]; [done|]. apply bool_decide_eq_true in Hm as ->. eauto.
Qed.

Lemma emits_MemberList (P : call → Prop) m :
  (∀ c, list_cmd m c → P c) → (∀ d, P (Sleep d)) → emits P (MemberList (W:=W) m).
Proof.
  intros HP HS. apply emits_TryEachPeer; [|done]. intros p l Hp.
  apply emits_bind; [emits_call; apply HP; by exists p|].
  intros r. destruct (CmdError r); [apply emits_ret|].
  destruct (Load _ _) as [? []]; [apply emits_ret|]. destruct (memberIPs _ _ _). apply emits_ret.
Qed.

Lemma emits_RemoveMember (P : call → Prop) m mem :
  (∀ ip id, ip ∈ e_peer m → mem_ID mem = Some id → id ≠ 0%Z →
     P (etcdctl m (advertise ip "2379") ["member"; "remove"; fmt_xZ id])) →
  (∀ d, P (Sleep d)) → emits P (RemoveMember (W:=W) m mem).
Proof.
  intros HP HS. unfold RemoveMember. destruct (mem_ID mem) as [[|id|id]|] eqn:E;
    try apply emits_ret; (apply emits_bind; [|intros []; apply emits_ret]);
    (apply emits_TryEachPeer; [|done]); intros p l Hp;
    (apply emits_bind; [emits_call; by apply HP|intros; apply emits_ret]).
Qed.

Lemma emits_WaitEndpoints (P : call → Prop) m eps :
  P Now → P (Sleep (2 * Second)) → P (etcdctl m eps ["endpoint"; "health"]) →
  emits P (WaitEndpoints (W:=W) m eps).
Proof.
  intros H1' H2' H3'. apply emits_bind; [by emits_call|]. intros start.
  generalize 0 as cnt. generalize wait_fuel as n. induction n as [|n IH]; intros cnt; simpl.
  { apply emits_hang. }
  apply emits_bind; [by emits_call|]. intros now. destruct (_ <=? _)%Z; [apply emits_ret|].
  apply emits_bind; [by emits_call|]. intros _. apply emits_bind; [by emits_call|].
  intros r. destruct (CmdError r); [apply IH|]. case_decide; [apply emits_ret|apply IH].
Qed.

(** All that a join does to the cluster: list it, check its health, add the
    own member, and remove a member registered under the own address. *)
Definition join_call (m : Etcd) (c : call) : Prop :=
  pause c ∨ list_cmd m c ∨ add_cmd m c ∨ remove_cmd m (e_me m) c ∨
  ∃ eps, c = etcdctl m eps ["endpoint"; "health"].

Lemma emits_Join m : emits (join_call m) (etcd_Join (W:=W) m).
Proof.
  assert (emits (join_call m) (MemberList (W:=W) m)) as Hml.
  { apply emits_MemberList; [unfold join_call; auto|]. intros d. by left. }
  apply emits_bind; [done|]. intros [omems err]. destruct err; [apply emits_ret|].
  apply emits_bind; [apply emits_lift|].
  intros eps. apply emits_bind.
  { apply emits_WaitEndpoints; [by left|by left|]. do 4 right. by exists eps. }
  intros err. destruct err; [apply emits_ret|]. apply emits_bind.
  { unfold JoinMe. case_decide; [apply emits_ret|].
    apply emits_bind; [|intros []; apply emits_ret].
    apply emits_TryEachPeer; [|by left]. intros p l Hp. apply emits_bind; [done|].
    intros [mems err]. destruct err; [apply emits_ret|]. destruct (existsb _ _); [apply emits_ret|].
    apply emits_bind; [emits_call; right; right; left; by exists p|intros; apply emits_ret]. }
  intros err. destruct err; [apply emits_ret|]. apply emits_bind; [done|].
  intros [nmems err]. destruct err; [apply emits_ret|]. case_decide; [|apply emits_ret].
  apply emits_bind; [|intros []; apply emits_ret].
  apply emits_RemoveMember; [|by left]. intros ip id Hip Hid Hnz. do 3 right. left.
  destruct (FindMemberByIP_spec (mb_Members nmems) (e_me m)) as [E|[_ [us Hus]]].
  - rewrite E in Hid. done.
  - by exists ip, (FindMemberByIP (mb_Members nmems) (e_me m)), id, us.
Qed.
(** The calls of a join before the removal it may end with. *)
Definition preparing_call (m : Etcd) (c : call) : Prop :=
  pause c ∨ list_cmd m c ∨ add_cmd m c ∨ ∃ eps, c = etcdctl m eps ["endpoint"; "health"].

(** The calls of one removal: the member with the number [id] is removed
    through some peer. *)
Definition removal_of (m : Etcd) (id : Z) (c : call) : Prop :=
  pause c ∨
  ∃ ip, ip ∈ e_peer m ∧ c = etcdctl m (advertise ip "2379") ["member"; "remove"; fmt_xZ id].

(** In the state [s4] a listing of the members has just been answered, and
    [id] is the number of a listed member whose first peer URL is the one of
    the own address. *)
Definition listed_as_me (m : Etcd) (id : Z) (s4 : St W) : Prop :=
  ∃ ip s r old p us, ip ∈ e_peer m ∧
    perform (etcdctl m (advertise ip "2379") ["-w"; "json"; "member"; "list"]) s = (Ret r, s4) ∧
    CmdError r = None ∧ p ∈ mb_Members (Load (c_Stdout r) old).1 ∧
    mem_ID p = Some id ∧ mem_PeerURLs p = advertise (e_me m) "2380" :: us.

(** The members grew by more than one since the join listed them first, in
    the state [s]. *)
Definition grown (m : Etcd) (s s4 : St W) : Prop :=
  ∃ omems s1 nmems s3, MemberList m s = (Ret (omems, None), s1) ∧
    MemberList m s3 = (Ret (nmems, None), s4) ∧
    length (mb_Members omems) + 1 < length (mb_Members nmems).

(** A join from [s0] as seen in the middle of it: what is left to run, from
    [s], prepares, and then possibly removes one member. *)
Definition join_run {A} (m : Etcd) (s0 s : St W) (k : IO W A) : Prop :=
  ∃ new rm, log (k s).2 = log s ++ new ++ rm ∧ Forall (preparing_call m) new ∧
    (rm = [] ∨ ∃ id s4, log s4 = log s ++ new ∧ grown m s0 s4 ∧ listed_as_me m id s4 ∧
       Forall (removal_of m id) rm).

Lemma join_run_emits {A} m s0 s (k : IO W A) : emits (preparing_call m) k → join_run m s0 s k.
Proof.
  intros Hk. destruct (Hk s) as (new & E & F). exists new, [].
  rewrite app_nil_r. split_and!; [done|done|by left].
Qed.

Lemma join_run_bind {A B} m s0 s (k : IO W A) (f : A → IO W B) :
  emits (preparing_call m) k → (∀ a s1, k s = (Ret a, s1) → join_run m s0 s1 (f a)) →
  join_run m s0 s (k ≫= f).
Proof.
  intros Hk Hf. destruct (Hk s) as (n1 & E1 & F1). unfold join_run. rewrite bind_unfold.
  destruct (k s) as [[a|msg|] s1] eqn:E; cbn [snd] in *;
    [|exists n1, []; rewrite app_nil_r; split_and!; [done|done|by left]..].
  destruct (Hf a s1 eq_refl) as (n2 & rm & E2 & F2 & Hrm). exists (n1 ++ n2), rm.
  rewrite E2, E1, Forall_app, <- !app_assoc. split_and!; [done..|].
  destruct Hrm as [->|(id & s4 & E4 & Hrest)]; [by left|]. right. exists id, s4.
  by rewrite E4, E1, <- app_assoc.
Qed.

Lemma prepares_MemberList m : emits (preparing_call m) (MemberList (W:=W) m).
Proof. apply emits_MemberList; [unfold preparing_call; auto|]. intros d. by left. Qed.

Lemma prepares_JoinMe m : emits (preparing_call m) (JoinMe (W:=W) m).
Proof.
  unfold JoinMe. case_decide; [apply emits_ret|]. apply emits_bind; [|intros []; apply emits_ret].
  apply emits_TryEachPeer; [|by left]. intros p l Hp.
  apply emits_bind; [apply prepares_MemberList|].
  intros [mems err]. destruct err; [apply emits_ret|]. destruct (existsb _ _); [apply emits_ret|].
  apply emits_bind; [emits_call; right; right; left; by exists p|intros; apply emits_ret].
Qed.

Lemma JoinMe_peers m s s' : JoinMe m s = (Ret None, s') → e_peer m ≠ [].
Proof. unfold JoinMe. by case_decide. Qed.

(** Listing finds the numbers of members in the answer of etcd. *)
Lemma MemberList_listed `{!PkgErrorsSpec} m s mems s' mem id us :
  e_peer m ≠ [] → MemberList m s = (Ret (mems, None), s') → mem ∈ mb_Members mems →
  mem_ID mem = Some id → mem_PeerURLs mem = advertise (e_me m) "2380" :: us → listed_as_me m id s'.
Proof.
  intros Hp Hm Hin Hid Hus. apply TryEachPeer_inv in Hm as (ip & old & s0 & Hip & Hf); [|done].
  apply fortry_ok in Hf as (r & Hr & Hc & _ & Hh).
  apply list_elem_of_lookup in Hin as [i Hi].
  destruct (Forall2_lookup_r _ _ _ _ _ Hh Hi) as (p & Hpl & Heq & _).
  exists ip, s0, r, old, p, us. rewrite Heq in Hid, Hus.
  split_and!; [done..| |done|done]. by eapply list_elem_of_lookup_2.
Qed.

Lemma removal_RemoveMember m mem s :
  (RemoveMember m mem s).2 = s ∨
  ∃ id rm, mem_ID mem = Some id ∧ log (RemoveMember m mem s).2 = log s ++ rm ∧
    Forall (removal_of m id) rm.
Proof.
  destruct (mem_ID mem) as [id|] eqn:Hid; [right|left; unfold RemoveMember; by rewrite Hid].
  assert (emits (removal_of m id) (RemoveMember (W:=W) m mem)) as He.
  { apply emits_RemoveMember; [|by left]. intros ip id' Hip Hid' _.
    assert (id' = id) as -> by congruence. right. by exists ip. }
  destruct (He s) as (rm & E & F). by exists id, rm.
Qed.

Lemma join_run_Join `{!PkgErrorsSpec} m s : join_run m s s (etcd_Join m).
Proof.
  unfold etcd_Join. apply join_run_bind; [apply prepares_MemberList|].
  intros [omems err] s1 Hold. destruct err; [apply join_run_emits, emits_ret|].
  apply join_run_bind; [apply emits_lift|]. intros eps s1' _. apply join_run_bind.
  { apply emits_WaitEndpoints; [by left|by left|]. do 3 right. by exists eps. }
  intros err s2 _. destruct err; [apply join_run_emits, emits_ret|].
  apply join_run_bind; [apply prepares_JoinMe|].
  intros err s3 Hjm. destruct err; [apply join_run_emits, emits_ret|].
  apply JoinMe_peers in Hjm as Hpeer. apply join_run_bind; [apply prepares_MemberList|].
  intros [nmems err] s4 Hnew. destruct err; [apply join_run_emits, emits_ret|].
  case_decide as Hgrown; [|apply join_run_emits, emits_ret].
  set (mem := FindMemberByIP _ _).
  assert (∀ err s, ∃ r, (match err with
    | Some e => mret (Errorf ("remove myself error: " +:+ Error e))
    | None => mret (Errorf ("concurrent etcd peer join: old=[" +:+ pp omems +:+ "], new=[" +:+
                            pp nmems +:+ "]")) end : IO W error) s = (Ret r, s)) as Hend
    by (intros [] ?; by eexists).
  assert (log ((err ← RemoveMember m mem; match err with
    | Some e => mret (Errorf ("remove myself error: " +:+ Error e))
    | None => mret (Errorf ("concurrent etcd peer join: old=[" +:+ pp omems +:+ "], new=[" +:+
                            pp nmems +:+ "]")) end : IO W error) s4).2
    = log (RemoveMember m mem s4).2) as Hlog.
  { rewrite bind_unfold. destruct (RemoveMember m mem s4) as [[err|msg|] s5]; [|done..].
    by destruct (Hend err s5) as (r & ->). }
  unfold join_run. rewrite Hlog. destruct (removal_RemoveMember m mem s4) as [E|(id & rm & Hid & E & F)].
  { exists [], []. rewrite E, app_nil_r. split_and!; [done|by constructor|by left]. }
  exists [], rm. rewrite E. split_and!; [done|by constructor|]. right. exists id, s4.
  rewrite app_nil_r. split_and!; [done|by exists omems, s1, nmems, s3| |done].
  destruct (FindMemberByIP_spec (mb_Members nmems) (e_me m)) as [Ez|[Hin [us Hus]]].
  - unfold mem in Hid. by rewrite Ez in Hid.
  - by eapply MemberList_listed.
Qed.
End facts.

(** ** Concrete parameters, for evaluation *)
Module SimEtcd.
(** A listing is the peer URLs separated by commas; every member has the
    number of its place and its peer URL as client URL. *)
Fixpoint numbered (n : Z) (urls : list string) : list Member :=
  match urls with
  | [] => []
  | u :: us => MkMember (Some n) "" "" "" [u] [u] :: numbered (n + 1) us
  end.
#[export] Instance json_members : Json Members :=
  {| Marshal m := Join (map (λ x, Join (mem_PeerURLs x) "") (mb_Members m)) ",";
     Unmarshal s old := (MkMembers (mb_Header old) (numbered 1 (Split s ",")), None) |}.
#[export] Instance json_endpoints : Json (list EndpointStatus) :=
  {| Marshal _ := ""; Unmarshal s old := (old, None) |}.
#[export] Instance crypto_lib : CryptoLib :=
  {| pem_Decode s := match s with "" => None | String _ r => Some (MkBlock "CERTIFICATE" 0 s, r) end;
     pem_Encode b := (bk_Bytes b, None);
     ParseCertificate _ := inl SimEnv.zero_cert;
     ParseECPrivateKey _ := None;
     ParsePKCS1PrivateKey s := Some (RSAKey s);
     ParsePKCS8PrivateKey _ := None;
     ParseIP s := Some s |}.
#[export] Instance crypto_lib_spec : CryptoLibSpec.
Proof. intros [|c s] b r; simpl; [done|]. intros [= _ <-]. lia. Qed.

(** An etcd cluster of one member; every command succeeds. *)
Definition one_member : ∀ c : call, Z → option (reply c) := λ c _,
  match c with
  | Run _ args _ =>
      Some (if decide ("list" ∈ args) then MkCmdStatus 0 None ["https://10.0.0.1:2380"] []
            else MkCmdStatus 0 None [] [])
  | _ => None
  end.
#[export] Instance env : Env Z := SimEnv.scripted one_member.
#[export] Instance clk : Clock Z := λ w, w.
#[export] Instance clk_spec : ClockSpec Z.
Proof.
  split; unfold clock, clk; intros.
  - destruct c; simpl; lia.
  - simpl. lia.
  - simpl. lia.
Qed.
Definition me : Etcd := MkEtcd "" "10.0.0.2" ["10.0.0.1"].
End SimEtcd.

(** ** Properties *)
Section properties.
Context {W : Type} `{Env W} `{PkgErrors} `{GoFmt} `{MapRange} `{!WaitLib W}.
Context `{Json Members} `{Json (list EndpointStatus)} `{CryptoLib}.

(** A member list read without error from a non-empty set of peers is the
    decoded output of a successful [member list] command against one of these
    peers, and the IP of every member is the host part of its first peer
    URL. *)
Theorem MemberList_sound `{!PkgErrorsSpec} m s mems s' :
  e_peer m ≠ [] → MemberList m s = (Ret (mems, None), s') →
  ∃ ip s0 r old, ip ∈ e_peer m ∧
    perform (etcdctl m (advertise ip "2379") ["-w"; "json"; "member"; "list"]) s0 = (Ret r, s') ∧
    CmdError r = None ∧
    (Load (c_Stdout r) old).2 = None ∧
    Forall2 with_host (mb_Members (Load (c_Stdout r) old).1) (mb_Members mems).
Proof.
  intros Hp Hm. apply TryEachPeer_inv in Hm as (ip & old & s0 & Hin & Hf); [|done].
  apply fortry_ok in Hf as (r & ? & ? & ? & ?). by exists ip, s0, r, old.
Qed.

(** In such a member list the member found by an IP is the one with that
    IP: [FindMemberByIP], which compares peer URLs, agrees with the [IP]
    fields [MemberList] fills in. *)
Theorem FindMemberByIP_by_ip mems0 mems ip :
  no_byte "/"%char ip → no_byte ":"%char ip →
  Forall2 with_host mems0 mems →
  FindMemberByIP mems ip = zeroMember ∨
  FindMemberByIP mems ip ∈ mems ∧ mem_IP (FindMemberByIP mems ip) = ip.
Proof.
  intros H1' H2' Hf. destruct (FindMemberByIP_spec mems ip) as [?|[Hin [us Hus]]]; [by left|].
  right. split; [done|]. apply list_elem_of_lookup in Hin as [i Hi].
  destruct (Forall2_lookup_r _ _ _ _ _ Hf Hi) as (p & _ & Heq & url & us' & Hurl & Hh).
  rewrite Heq in Hus. simpl in Hus. rewrite Hurl in Hus. injection Hus as -> ->.
  eapply url_host_fun; [exact Hh|]. by apply url_host_advertise.
Qed.

(** Waiting for endpoints always returns when the clock advances: the 91
    rounds of two seconds cover the three minutes of its timer. *)
Theorem WaitEndpoints_returns `{!Clock W, !ClockSpec W} m eps s :
  ∃ e s', WaitEndpoints m eps s = (Ret e, s').
Proof.
  assert (∃ e, (WaitEndpoints m eps s).1 = Ret e) as [e He].
  { unfold WaitEndpoints. step_perform. apply WaitEndpoints_go_returns; [|done].
    cbn [world]. pose proof (clock_now (world s)) as Hn.
    destruct (env_step Now (world s)) as [t w]. simpl in Hn |- *. unfold wait_fuel, Minute, Second. lia. }
  exists e, (WaitEndpoints m eps s).2. rewrite <- He. by destruct (WaitEndpoints m eps s).
Qed.

(** Waiting succeeds only after three healthy readings of the endpoints,
    at three different moments of the run. *)
Theorem WaitEndpoints_three_healthy m eps s s' :
  WaitEndpoints m eps s = (Ret None, s') →
  ∃ h1 h2 h3, healthy_at m eps h1 ∧ healthy_at m eps h2 ∧ healthy_at m eps h3 ∧
    length (log s) < length (log h1) < length (log h2) ∧
    length (log h2) < length (log h3).
Proof.
  intros Hw. unfold WaitEndpoints in Hw. step_perform_in Hw.
  apply WaitEndpoints_go_ok in Hw as (hs & Hl & Hh & Hs & Ha); [|lia].
  destruct hs as [|h1 [|h2 [|h3 [|]]]]; try discriminate Hl.
  exists h1, h2, h3. repeat match goal with
    | Hf : Forall _ (_ :: _) |- _ => apply Forall_cons in Hf as [? ?]
    | Hf : StronglySorted _ (_ :: _) |- _ => inversion_clear Hf
    end.
  cbn [log] in *. rewrite length_app in *. simpl in *. repeat split; try done; lia.
Qed.

(** C6: whatever the environment answers, joining a cluster lists members,
    checks health and adds the own member under the own address, and removes
    at most one member: one that etcd itself, in the listing answered right
    before, reported under the own peer address, with the number it was
    reported with; and only after the members grew by more than one since the
    join began.  Nobody else's membership is touched. *)
Theorem Join_touches_only_me `{!PkgErrorsSpec} m s :
  ∃ new rm, log (etcd_Join m s).2 = log s ++ new ++ rm ∧
    Forall (λ c, pause c ∨ list_cmd m c ∨ add_cmd m c ∨
                 ∃ eps, c = etcdctl m eps ["endpoint"; "health"]) new ∧
    (rm = [] ∨
     ∃ id omems s1 s3 nmems s4,
       MemberList m s = (Ret (omems, None), s1) ∧
       MemberList m s3 = (Ret (nmems, None), s4) ∧ log s4 = log s ++ new ∧
       length (mb_Members omems) + 1 < length (mb_Members nmems) ∧
       (∃ ip s3' r old p us, ip ∈ e_peer m ∧
          perform (etcdctl m (advertise ip "2379") ["-w"; "json"; "member"; "list"]) s3' = (Ret r, s4) ∧
          CmdError r = None ∧ p ∈ mb_Members (Load (c_Stdout r) old).1 ∧
          mem_ID p = Some id ∧ mem_PeerURLs p = advertise (e_me m) "2380" :: us) ∧
       Forall (λ c, pause c ∨ ∃ ip, ip ∈ e_peer m ∧
                 c = etcdctl m (advertise ip "2379") ["member"; "remove"; fmt_xZ id]) rm).
Proof.
  destruct (join_run_Join m s) as (new & rm & E & F & Hrm). exists new, rm. split_and!; [done..|].
  destruct Hrm as [->|(id & s4 & E4 & (omems & s1 & nmems & s3 & ? & ? & ?) & Hl & Fr)]; [by left|].
  right. by exists id, omems, s1, s3, nmems, s4.
Qed.

(** Joining panics when the cluster has a member that reports no client
    URL, as etcd does for a member that was added and has not started. *)
Theorem Join_unstarted_member_panics m s mems s' x :
  MemberList m s = (Ret (mems, None), s') →
  x ∈ mb_Members mems → mem_ClientURLs x = [] →
  ∃ msg, etcd_Join m s = (Panic msg, s').
Proof.
  intros Hm Hin Hx. unfold etcd_Join. rewrite bind_unfold, Hm, bind_unfold.
  assert (∃ msg, memAdvertise (mb_Members mems) = Panic msg) as [msg Hp].
  { unfold memAdvertise. clear Hm. induction (mb_Members mems) as [|y l IH]; simpl.
    - by apply elem_of_nil in Hin.
    - destruct (mem_ClientURLs y) as [|u us] eqn:Hy; [by eexists|].
      apply elem_of_cons in Hin as [->|Hin]; [congruence|].
      destruct (IH Hin) as [msg Hmsg]. destruct (memAdvertise_go l); try done. by eexists. }
  unfold lift. rewrite Hp. by exists msg.
Qed.

(** Without any peer, listing the members reports success and an empty
    list, although nothing was asked ([errors.Wrapf] of no error is nil). *)
Theorem MemberList_without_peers `{!PkgErrorsSpec} m s :
  e_peer m = [] → MemberList m s = (Ret (zeroMembers, None), s).
Proof. intros Hp. unfold MemberList. rewrite Hp. apply TryEachPeer_nobody. Qed.
End properties.

(** ** Witnesses *)
Import Sim SimEnv SimWait SimEtcd.

Lemma MemberList_sound_witness :
  let s' := (MemberList me (start_at 0)).2 in
  ∃ ip s0 r old, ip ∈ e_peer me ∧
    perform (etcdctl me (advertise ip "2379") ["-w"; "json"; "member"; "list"]) s0 = (Ret r, s') ∧
    CmdError r = None ∧ (Load (c_Stdout r) old).2 = None ∧
    Forall2 with_host (mb_Members (Load (c_Stdout r) old).1)
      [MkMember (Some 1%Z) "10.0.0.1" "" "" ["https://10.0.0.1:2380"] ["https://10.0.0.1:2380"]].
Proof.
  intros s'.
  refine (MemberList_sound me (start_at 0)
    (MkMembers (MkHeader None None None None)
       [MkMember (Some 1%Z) "10.0.0.1" "" "" ["https://10.0.0.1:2380"] ["https://10.0.0.1:2380"]])
    s' _ _); [discriminate|vm_compute; reflexivity].
Defined.

Lemma FindMemberByIP_by_ip_witness :
  let raw := [MkMember (Some 1%Z) "" "" "" ["https://10.0.0.1:2380"] []] in
  let l := [MkMember (Some 1%Z) "10.0.0.1" "" "" ["https://10.0.0.1:2380"] []] in
  FindMemberByIP l "10.0.0.1" = zeroMember ∨
  FindMemberByIP l "10.0.0.1" ∈ l ∧ mem_IP (FindMemberByIP l "10.0.0.1") = "10.0.0.1".
Proof.
  intros raw l. refine (FindMemberByIP_by_ip raw l "10.0.0.1" _ _ _).
  - repeat split; discriminate.
  - repeat split; discriminate.
  - constructor; [|constructor]. split; [reflexivity|].
    exists "https://10.0.0.1:2380", []. split; [reflexivity|].
    exists "https:", "10.0.0.1:2380", [], ["2380"].
    split_and!; [vm_compute; reflexivity..|discriminate].
Defined.

Lemma WaitEndpoints_returns_witness :
  ∃ e s', WaitEndpoints me "https://10.0.0.1:2379" (start_at 0) = (Ret e, s').
Proof. exact (WaitEndpoints_returns (W:=Z) me "https://10.0.0.1:2379" (start_at 0)). Defined.

Lemma WaitEndpoints_three_healthy_witness :
  ∃ h1 h2 h3 : St Z, healthy_at me "https://10.0.0.1:2379" h1 ∧
    healthy_at me "https://10.0.0.1:2379" h2 ∧ healthy_at me "https://10.0.0.1:2379" h3 ∧
    0 < length (log h1) < length (log h2) ∧ length (log h2) < length (log h3).
Proof.
  refine (WaitEndpoints_three_healthy me "https://10.0.0.1:2379" (start_at 0)
    (WaitEndpoints me "https://10.0.0.1:2379" (start_at 0)).2 _).
  vm_compute. reflexivity.
Defined.

Lemma Join_unstarted_member_panics_witness :
  let script := λ c (_ : Z), match c return option (reply c) with
    | Run _ _ _ => Some (MkCmdStatus 0 None ["https://10.0.0.9:2380"] [])
    | _ => None end in
  let dec : Json Members := {| Marshal _ := "";
    Unmarshal s old := (MkMembers (mb_Header old) [MkMember (Some 5%Z) "" "" "" [s] []], None) |} in
  ∃ msg, @etcd_Join Z (scripted script) _ _ dec me (start_at 0)
         = (Panic msg, (@MemberList Z (scripted script) _ _ dec me (start_at 0)).2).
Proof.
  intros script dec.
  refine (@Join_unstarted_member_panics Z (scripted script) _ _ dec me (start_at 0)
    (MkMembers (MkHeader None None None None)
       [MkMember (Some 5%Z) "10.0.0.9" "" "" ["https://10.0.0.9:2380"] []]) _
    (MkMember (Some 5%Z) "10.0.0.9" "" "" ["https://10.0.0.9:2380"] []) _ _ _).
  - vm_compute. reflexivity.
  - by left.
  - reflexivity.
Defined.

Lemma MemberList_without_peers_witness :
  MemberList (MkEtcd "" "10.0.0.2" []) (start_at 0) = (Ret (zeroMembers, None), start_at 0).
Proof. exact (MemberList_without_peers (MkEtcd "" "10.0.0.2" []) (start_at 0) eq_refl). Defined.

(** A cluster whose second listing has two members more, the last of them
    the own one: it is the one removed, by its number. *)
Lemma Join_touches_only_me_witness :
  let script := λ c (n : Z), match c return option (reply c) with
    | Run _ args _ =>
        Some (if decide ("list" ∈ args)
              then MkCmdStatus 0 None [if (n <? 14)%Z then "https://10.0.0.1:2380" else
                     "https://10.0.0.1:2380,https://10.0.0.3:2380,https://10.0.0.2:2380"] []
              else MkCmdStatus 0 None [] [])
    | _ => None
    end in
  let s' := (@etcd_Join Z (scripted script) _ _ _ me (start_at 0)).2 in
  (∃ new rm, log s' = new ++ rm ∧ (rm = [] ∨ ∃ id : Z, True)) ∧
  last (log s') = Some (etcdctl me (advertise "10.0.0.1" "2379") ["member"; "remove"; "3"]).
Proof.
  intros script s'. split; [|vm_compute; reflexivity].
  destruct (@Join_touches_only_me Z (scripted script) _ _ _ _ me (start_at 0)) as (new & rm & E & _ & H).
  exists new, rm. split; [exact E|]. destruct H as [->|(id & _)]; [by left|right; by exists id].
Defined.
