(* ===== verification/Triple.v ===== *)
(** * Instances, nodes and master resources side by side (pkg/operator/heal/triple.go)

    The healing loop compares three views of the cluster: the cloud instances of
    a scaling group, the Kubernetes nodes, and the Master custom resources.  A
    [Triple] joins them into one [NodeInfo] per machine and computes what is
    missing where.

    The module declares [go 1.16], so a [for range] variable is one variable
    for the whole loop: the pointers [&d] and [&n] that [NewTripleWorker],
    [NewTripleWorkerB] and [NewTripleMasterB] store all point to the value of
    the last iteration.  [NewTripleMaster] copies the loop variables first. *)
From stdpp Require Import base list gmap strings.
From Stdlib Require Import Lia.
From S2P Require Import Prelude GoStrings GoTime Api Effects Provider Help Sign Etcd.

(** healet.go: [type NodeInfo struct] ([GetName] is never set). *)
Record NodeInfo : Type := MkNodeInfo {
  ni_Role : string;
  ni_Instance : option Instance;
  ni_Node : option Node;
  ni_Resource : option Master }.

(** healet.go: [func (n NodeInfo) String() string] *)
Definition NodeInfo_String (n : NodeInfo) : string :=
  let id := match ni_Instance n with Some i => ["instance=" +:+ i_Ip i] | None => [] end
         ++ match ni_Node n with Some x => ["node=" +:+ n_Name x] | None => [] end
         ++ match ni_Resource n with Some r => ["mcrd=" +:+ m_Name r] | None => [] end
         ++ [ni_Role n] in
  "[NodeINFO](" +:+ Join id "," +:+ ")".

(** healet.go: [GetNodeName]; a description without node falls back to the
    instance, which it dereferences. *)
Definition GetNodeName (n : NodeInfo) : outcome string :=
  match ni_Node n with
  | Some x => Ret (n_Name x)
  | None =>
      match ni_Instance n with
      | Some i => Ret (i_Ip i +:+ "." +:+ i_Id i)
      | None => Panic "nil pointer dereference"
      end
  end.

(** [type Triple struct] (the getter is not needed after construction). *)
Record Triple : Type := MkTriple {
  t_role : string;
  t_cluster : option Cluster;
  t_mCRDs : list Master;
  t_mnodes : list Node;
  t_instances : list Instance;
  t_nodeInfo : list NodeInfo }.

Definition Triple_String (t : Triple) : string :=
  "[crd=" +:+ fmt_d (Z.of_nat (length (t_mCRDs t))) +:+ ", mnodes=" +:+ fmt_d (Z.of_nat (length (t_mnodes t))) +:+
  ", instance=" +:+ fmt_d (Z.of_nat (length (t_instances t))) +:+ "]".

Definition With (ins : list Instance) (t : Triple) : Triple :=
  MkTriple (t_role t) (t_cluster t) (t_mCRDs t) (t_mnodes t) ins (t_nodeInfo t).

(** The first node whose provider id contains [id]. *)
Definition find_node (nodes : list Node) (id : string) : option Node :=
  List.find (λ n, Contains (n_ProviderID n) id) nodes.

Definition GetNode (t : Triple) (id : string) : option Node := find_node (t_mnodes t) id.

(** ** What the views lack *)
Definition has {A} (x : option A) : bool := match x with Some _ => true | None => false end.

Definition UnReadyNodeList (t : Triple) : list NodeInfo :=
  List.filter (λ n, match ni_Node n, ni_Instance n with
                    | Some x, Some _ => negb (NodeReady x)
                    | _, _ => false
                    end) (t_nodeInfo t).

(** Additions and deletions of the deprecated comparison. *)
Definition InstanceCRDiff (t : Triple) : list NodeInfo * list NodeInfo :=
  (List.filter (λ i, has (ni_Instance i) && negb (has (ni_Resource i))) (t_nodeInfo t),
   List.filter (λ i, negb (has (ni_Instance i)) && has (ni_Resource i)) (t_nodeInfo t)).

(** Additions (instance without node) and deletions (node without instance). *)
Definition InstanceNodeDiff (t : Triple) : list NodeInfo * list NodeInfo :=
  (List.filter (λ i, has (ni_Instance i) && negb (has (ni_Node i))) (t_nodeInfo t),
   List.filter (λ i, negb (has (ni_Instance i)) && has (ni_Node i)) (t_nodeInfo t)).

(** Resources to delete and resources to rebuild. *)
Fixpoint MasterCRDDiff_go (infos tdel missed : list NodeInfo) : list NodeInfo * list NodeInfo :=
  match infos with
  | [] => (tdel, missed)
  | i :: rest =>
      match ni_Resource i with
      | Some _ =>
          if has (ni_Instance i) then MasterCRDDiff_go rest tdel missed
          else MasterCRDDiff_go rest (tdel ++ [i]) missed
      | None =>
          if has (ni_Node i) then
            if has (ni_Instance i) then MasterCRDDiff_go rest tdel (missed ++ [i])
            else MasterCRDDiff_go rest tdel missed
          else MasterCRDDiff_go rest tdel missed
      end
  end.
Definition MasterCRDDiff (t : Triple) : list NodeInfo * list NodeInfo :=
  MasterCRDDiff_go (t_nodeInfo t) [] [].

(** Members whose IP is no instance's, none at all when they are more than half
    (the comparison of [float32] values is exact up to 2^24 members). *)
Definition EtcdMemDiff (t : Triple) (mems : list Member) : list Member :=
  let deletions :=
    List.filter (λ m, negb (existsb (λ e, bool_decide (mem_IP m = i_Ip e)) (t_instances t))) mems in
  if decide (length mems < 2 * length deletions) then [] else deletions.

Definition SystemInConsistency (t : Triple) : bool :=
  let uready := UnReadyNodeList t in
  let '(uiadd, uidel) := InstanceCRDiff t in
  let '(ucadd, ucdel) := InstanceNodeDiff t in
  let '(umadd, umdel) := MasterCRDDiff t in
  let addl := length uready + length uiadd + length uidel + length ucadd + length ucdel
              + length umadd + length umdel in
  bool_decide (addl = 0).

(** [BreakID(id)] *)
Definition BreakID (id : string) : string * string * error :=
  match Split id "." with
  | [region; i] => (region, i, None)
  | _ => ("", "", Errorf ("format error: " +:+ id))
  end.

(** ** Joining the views *)
Section master.
Variable role : string.
Variables (mCrds : list Master) (mNodes : list Node).

(** The entry of an instance: its resource and its node. *)
Definition masterInfo (i : Instance) : NodeInfo :=
  MkNodeInfo role (Some i) (find_node mNodes (i_Id i))
    (List.find (λ m, Contains (ms_ID (m_Spec m)) (i_Id i)) mCrds).

(** Is the resource [k] covered by an entry so far? *)
Definition crdFound (infos : list NodeInfo) (k : Master) : bool :=
  existsb (λ i,
    match ni_Instance i with Some x => Contains (ms_ID (m_Spec k)) (i_Id x) | None => false end
    || match ni_Node i with Some n => Contains (n_ProviderID n) (ms_ID (m_Spec k)) | None => false end)
    infos.
Definition addCrd (infos : list NodeInfo) (k : Master) : list NodeInfo :=
  if crdFound infos k then infos
  else infos ++ [MkNodeInfo role None (find_node mNodes (ms_ID (m_Spec k))) (Some k)].

Definition nodeFound (infos : list NodeInfo) (n : Node) : bool :=
  existsb (λ i,
    match ni_Instance i with Some x => Contains (n_ProviderID n) (i_Id x) | None => false end
    || match ni_Resource i with Some r => Contains (n_ProviderID n) (ms_ID (m_Spec r)) | None => false end)
    infos.
Definition addNode (infos : list NodeInfo) (n : Node) : list NodeInfo :=
  if nodeFound infos n then infos
  else infos ++ [MkNodeInfo "" None (Some n)
                   (List.find (λ m, Contains (n_ProviderID n) (ms_ID (m_Spec m))) mCrds)].

Definition masterInfos (detail : list Instance) : list NodeInfo :=
  fold_left addNode mNodes (fold_left addCrd mCrds (map masterInfo detail)).
End master.

(** The entries of [NewTripleWorker].  Every [&d] is the variable of the first
    loop, whose last value is the last instance; every [&n] of the second loop
    is its variable, whose last value is the last node. *)
Definition workerInfos (role : string) (mNodes : list Node) (detail : list Instance)
    : list NodeInfo :=
  let first := map (λ d, MkNodeInfo role (last detail) (find_node mNodes (i_Id d)) None) detail in
  let found (n : Node) :=
    existsb (λ i, match ni_Instance i with
                  | Some x => Contains (n_ProviderID n) (i_Id x)
                  | None => false
                  end) first in
  first ++ map (λ _, MkNodeInfo role None (last mNodes) None)
             (List.filter (λ n, negb (found n)) mNodes).

(** The extra nodes of [NewTripleWorkerB], which dereferences the instance of
    every entry it passes, the appended ones included. *)
Fixpoint derefFound (infos : list NodeInfo) (p : Instance → bool) : outcome bool :=
  match infos with
  | [] => Ret false
  | i :: rest =>
      match ni_Instance i with
      | None => Panic "nil pointer dereference"
      | Some x => if p x then Ret true else derefFound rest p
      end
  end.
Fixpoint extraB {A} (items : list A) (test : A → Instance → bool) (mk : A → NodeInfo)
    (infos : list NodeInfo) : outcome (list NodeInfo) :=
  match items with
  | [] => Ret infos
  | n :: rest =>
      match derefFound infos (test n) with
      | Ret true => extraB rest test mk infos
      | Ret false => extraB rest test mk (infos ++ [mk n])
      | Panic msg => Panic msg
      | Hang => Hang
      end
  end.

Definition workerInfosB (role : string) (mNodes : list Node) (detail : list Instance)
    : outcome (list NodeInfo) :=
  extraB mNodes (λ n x, Contains (n_ProviderID n) (i_Id x))
    (λ _, MkNodeInfo role None (last mNodes) None)
    (map (λ d, MkNodeInfo role (last detail) (find_node mNodes (i_Id d)) None) detail).

(** The entries of [NewTripleMasterB]: resources compared for equality. *)
Definition masterInfosB (role : string) (mCrds : list Master) (mNodes : list Node)
    (detail : list Instance) : outcome (list NodeInfo) :=
  let first := map (λ d, MkNodeInfo role (last detail) (find_node mNodes (i_Id d))
                           (List.find (λ m, bool_decide (ms_ID (m_Spec m) = i_Id d)) mCrds)) detail in
  match extraB mCrds (λ m x, bool_decide (ms_ID (m_Spec m) = i_Id x))
          (λ m, MkNodeInfo role None (find_node mNodes (ms_ID (m_Spec m))) (last mCrds)) first with
  | Ret infos =>
      extraB mNodes (λ n x, Contains (n_ProviderID n) (i_Id x))
        (λ n, MkNodeInfo "" None (last mNodes)
                (List.find (λ m, Contains (n_ProviderID n) (ms_ID (m_Spec m))) mCrds)) infos
  | o => o
  end.

(** healet.go: [ToList(i)]; a second loop over the same map. *)
Definition ToList `{MapRange} (i : gmap string Instance) : list Instance := range_vals 10 i.

(** ** The getter and the constructors *)

(** infra.go: [type Infra interface]; triple.go: [type TripleGetter interface] *)
Record InfraI (W : Type) : Type := MkInfraI {
  ControlPlaneECS : IO W (gmap string Instance * error);
  NodePoolECS : NodePool → IO W (gmap string Instance * error) }.
Arguments ControlPlaneECS {W} _.
Arguments NodePoolECS {W} _ _.

Record TripleGetter (W : Type) : Type := MkTripleGetter {
  GetClusterItem : IO W (Cluster * error);
  GetMasterNodeList : IO W (list Node * error);
  GetWorkerNodeList : NodePool → IO W (list Node * error);
  GetMasterCR : IO W (list Master * error);
  GetControlPlaneECS : IO W (gmap string Instance * error);
  GetNodePoolECS : NodePool → IO W (gmap string Instance * error) }.
Arguments GetClusterItem {W} _.
Arguments GetMasterNodeList {W} _.
Arguments GetWorkerNodeList {W} _ _.
Arguments GetMasterCR {W} _.
Arguments GetControlPlaneECS {W} _.
Arguments GetNodePoolECS {W} _ _.

Section constructors.
Context {W : Type} `{Env W} `{PkgErrors} `{MapRange}.

(** [NewTripleGetter(infra, client)] with the methods of [wTripleGetter]. *)
Definition NewTripleGetter (infra : InfraI W) : TripleGetter W :=
  {| GetClusterItem := h_Cluster KUBERNETES_CLUSTER;
     GetMasterNodeList := MasterNodes;
     GetWorkerNodeList := NodePoolItems;
     GetMasterCR := MasterCRDS;
     GetControlPlaneECS := ControlPlaneECS infra;
     GetNodePoolECS := NodePoolECS infra |}.

Definition NewTripleMaster (getter : TripleGetter W) : IO W (option Triple * error) :=
  let role := JoinMasterUserdata in
  '(spec, err) ← GetClusterItem getter;
  match err with
  | Some e => mret (Some (MkTriple role None [] [] [] []), Wrapf (Some e) "get cluster")
  | None =>
      '(mCrds, err) ← GetMasterCR getter;
      match err with
      | Some e => mret (Some (MkTriple role (Some spec) [] [] [] []), Wrapf (Some e) "get master")
      | None =>
          '(mNodes, err) ← GetMasterNodeList getter;
          match err with
          | Some e => mret (Some (MkTriple role (Some spec) mCrds [] [] []),
                            Wrapf (Some e) "master node")
          | None =>
              '(detail, err) ← GetControlPlaneECS getter;
              match err with
              | Some e => mret (None, Wrapf (Some e) "ess master")
              | None =>
                  mret (Some (MkTriple role (Some spec) mCrds mNodes (ToList detail)
                                (masterInfos role mCrds mNodes (range_vals 11 detail))), None)
              end
          end
      end
  end.

Definition NewTripleWorker (wgetter : TripleGetter W) (np : NodePool)
    : IO W (option Triple * error) :=
  let role := WorkerUserdata in
  '(spec, err) ← GetClusterItem wgetter;
  match err with
  | Some e => mret (Some (MkTriple role None [] [] [] []), Wrapf (Some e) "get cluster")
  | None =>
      '(mNodes, err) ← GetWorkerNodeList wgetter np;
      match err with
      | Some e => mret (Some (MkTriple role (Some spec) [] [] [] []), Wrapf (Some e) "master node")
      | None =>
          '(detail, err) ← GetNodePoolECS wgetter np;
          match err with
          | Some e => mret (None, Wrapf (Some e) "ess master")
          | None =>
              mret (Some (MkTriple role (Some spec) [] mNodes (ToList detail)
                            (workerInfos role mNodes (range_vals 12 detail))), None)
          end
      end
  end.

Definition NewTripleWorkerB (infra : InfraI W) (np : NodePool) : IO W (option Triple * error) :=
  let role := WorkerUserdata in
  '(spec, err) ← h_Cluster KUBERNETES_CLUSTER;
  match err with
  | Some e => mret (Some (MkTriple role None [] [] [] []), Wrapf (Some e) "get cluster")
  | None =>
      '(mNodes, err) ← NodePoolItems np;
      match err with
      | Some e => mret (Some (MkTriple role (Some spec) [] [] [] []), Wrapf (Some e) "master node")
      | None =>
          '(detail, err) ← NodePoolECS infra np;
          match err with
          | Some e => mret (None, Wrapf (Some e) "ess master")
          | None =>
              infos ← lift (workerInfosB role mNodes (range_vals 13 detail));
              mret (Some (MkTriple role (Some spec) [] mNodes (ToList detail) infos), None)
          end
      end
  end.

Definition NewTripleMasterB (infra : InfraI W) : IO W (option Triple * error) :=
  let role := JoinMasterUserdata in
  '(spec, err) ← h_Cluster KUBERNETES_CLUSTER;
  match err with
  | Some e => mret (Some (MkTriple role None [] [] [] []), Wrapf (Some e) "get cluster")
  | None =>
      '(mCrds, err) ← MasterCRDS;
      match err with
      | Some e => mret (Some (MkTriple role (Some spec) [] [] [] []), Wrapf (Some e) "get master")
      | None =>
          '(mNodes, err) ← MasterNodes;
          match err with
          | Some e => mret (Some (MkTriple role (Some spec) mCrds [] [] []),
                            Wrapf (Some e) "master node")
          | None =>
              '(detail, err) ← ControlPlaneECS infra;
              match err with
              | Some e => mret (None, Wrapf (Some e) "ess master")
              | None =>
                  infos ← lift (masterInfosB role mCrds mNodes (range_vals 14 detail));
                  mret (Some (MkTriple role (Some spec) mCrds mNodes (ToList detail) infos), None)
              end
          end
      end
  end.
End constructors.

(** ** Lemmas *)

(** [InstanceNodeDiff] and [MasterCRDDiff] as sets of entries. *)
Lemma elem_of_lfilter {A} (p : A → bool) (l : list A) x :
  x ∈ List.filter p l ↔ x ∈ l ∧ p x = true.
Proof. rewrite !list_elem_of_In, List.filter_In. done. Qed.

Lemma MasterCRDDiff_eq t :
  MasterCRDDiff t =
  (List.filter (λ i, has (ni_Resource i) && negb (has (ni_Instance i))) (t_nodeInfo t),
   List.filter (λ i, negb (has (ni_Resource i)) && has (ni_Node i) && has (ni_Instance i)) (t_nodeInfo t)).
Proof.
  unfold MasterCRDDiff. rewrite <- (app_nil_l (List.filter (λ i, has (ni_Resource i) && _) _)).
  rewrite <- (app_nil_l (List.filter (λ i, negb (has (ni_Resource i)) && _ && _) _)).
  generalize (@nil NodeInfo) at 1 3 as a. generalize (@nil NodeInfo) as b.
  induction (t_nodeInfo t) as [|i l IH]; intros b a; simpl; [by rewrite !app_nil_r|].
  destruct (ni_Resource i), (ni_Instance i), (ni_Node i); simpl; rewrite IH, <- ?app_assoc; done.
Qed.

Lemma lfilter_nil {A} (p : A → bool) (l : list A) :
  length (List.filter p l) = 0 ↔ ∀ x, x ∈ l → p x = false.
Proof.
  rewrite length_zero_iff_nil. split.
  - intros Hn x Hx. destruct (p x) eqn:Hp; [|done].
    assert (x ∈ List.filter p l) as Hin by (by apply elem_of_lfilter).
    rewrite Hn in Hin. by apply elem_of_nil in Hin.
  - intros Hall. destruct (List.filter p l) as [|x r] eqn:E; [done|].
    assert (x ∈ List.filter p l) as Hin by (rewrite E; by left).
    apply elem_of_lfilter in Hin as [Hx Hp]. rewrite Hall in Hp; done.
Qed.

(** Consistency, entry by entry. *)
Lemma SystemInConsistency_entries t :
  SystemInConsistency t = true ↔
  ∀ i, i ∈ t_nodeInfo t →
    match ni_Instance i, ni_Node i, ni_Resource i with
    | Some _, Some n, Some _ => NodeReady n = true
    | None, None, None => True
    | _, _, _ => False
    end.
Proof.
  unfold SystemInConsistency. rewrite MasterCRDDiff_eq. unfold InstanceCRDiff, InstanceNodeDiff, UnReadyNodeList.
  rewrite bool_decide_eq_true. split.
  - intros Hsum i Hi.
    assert (∀ p, length (List.filter p (t_nodeInfo t)) = 0 → p i = false) as Hz
      by (intros p Hp; by apply (proj1 (lfilter_nil p (t_nodeInfo t)) Hp)).
    repeat match type of Hsum with
    | ?a + length (List.filter ?p ?l) = 0 =>
        let Hp := fresh "Hp" in
        assert (length (List.filter p l) = 0) as Hp by lia; apply Hz in Hp;
        assert (a = 0) as Hsum' by lia; clear Hsum; rename Hsum' into Hsum
    end.
    apply Hz in Hsum.
    destruct (ni_Instance i), (ni_Node i), (ni_Resource i); simpl in *; try done.
    by apply negb_false_iff.
  - intros Hall.
    assert (∀ p : NodeInfo → bool, (∀ i, match ni_Instance i, ni_Node i, ni_Resource i with
        | Some _, Some n, Some _ => NodeReady n = true
        | None, None, None => True
        | _, _, _ => False end → p i = false) → length (List.filter p (t_nodeInfo t)) = 0) as Hz.
    { intros p Hp. apply lfilter_nil. intros x Hx. by apply Hp, Hall. }
    rewrite !Hz; [done|..];
      intros i; destruct (ni_Instance i), (ni_Node i), (ni_Resource i); simpl; try done.
    by intros ->.
Qed.

Section joining.
Variable role : string.
Variables (crds : list Master) (nodes : list Node).
Implicit Types (infos : list NodeInfo) (ds : list Instance).

(** The entries appended for resources: none for a resource already covered,
    each without instance. *)
Lemma addCrd_extends l infos :
  ∃ ext, fold_left (addCrd role nodes) l infos = infos ++ ext ∧
    Forall (λ i, ∃ k pre, k ∈ l ∧ ni_Instance i = None ∧ ni_Resource i = Some k ∧
                  ni_Node i = find_node nodes (ms_ID (m_Spec k)) ∧
                  crdFound (infos ++ pre) k = false) ext ∧
    (ext = [] → ∀ k, k ∈ l → crdFound infos k = true).
Proof.
  revert infos. induction l as [|k l IH]; intros infos; simpl.
  { exists []. rewrite app_nil_r. split_and!; [done..|]. intros _ k Hk. by apply elem_of_nil in Hk. }
  assert (∀ ext infos', Forall (λ i, ∃ k' pre, k' ∈ l ∧ ni_Instance i = None ∧
      ni_Resource i = Some k' ∧ ni_Node i = find_node nodes (ms_ID (m_Spec k')) ∧
      crdFound ((infos ++ infos') ++ pre) k' = false) ext →
    Forall (λ i, ∃ k' pre, k' ∈ k :: l ∧ ni_Instance i = None ∧ ni_Resource i = Some k' ∧
      ni_Node i = find_node nodes (ms_ID (m_Spec k')) ∧ crdFound (infos ++ pre) k' = false) ext) as Hw.
  { intros ext infos' Hf. eapply Forall_impl; [exact Hf|].
    intros i (k' & pre & ? & ? & ? & ? & Hc). exists k', (infos' ++ pre).
    rewrite app_assoc. split_and!; try done. by right. }
  unfold addCrd at 2. destruct (crdFound infos k) eqn:E.
  - destruct (IH infos) as (ext & He & Hf & Hn). exists ext. split_and!; [done| |].
    + apply (Hw ext []). by rewrite app_nil_r.
    + intros Hx k' [->|Hk']%elem_of_cons; [done|by apply Hn].
  - destruct (IH (infos ++ [MkNodeInfo role None (find_node nodes (ms_ID (m_Spec k))) (Some k)]))
      as (ext & He & Hf & _).
    eexists (_ :: ext). split_and!; [by rewrite He, <- app_assoc| |done].
    constructor; [|by eapply Hw].
    exists k, []. rewrite app_nil_r. split_and!; try done. by left.
Qed.

Lemma addNode_extends l infos :
  ∃ ext, fold_left (addNode crds) l infos = infos ++ ext ∧
    Forall (λ i, ∃ n pre, n ∈ l ∧ ni_Instance i = None ∧ ni_Node i = Some n ∧
                  ni_Resource i = List.find (λ m, Contains (n_ProviderID n) (ms_ID (m_Spec m))) crds ∧
                  nodeFound (infos ++ pre) n = false) ext ∧
    (ext = [] → ∀ n, n ∈ l → nodeFound infos n = true).
Proof.
  revert infos. induction l as [|k l IH]; intros infos; simpl.
  { exists []. rewrite app_nil_r. split_and!; [done..|]. intros _ k Hk. by apply elem_of_nil in Hk. }
  assert (∀ ext infos', Forall (λ i, ∃ n pre, n ∈ l ∧ ni_Instance i = None ∧
      ni_Node i = Some n ∧ ni_Resource i = List.find (λ m, Contains (n_ProviderID n) (ms_ID (m_Spec m))) crds ∧
      nodeFound ((infos ++ infos') ++ pre) n = false) ext →
    Forall (λ i, ∃ n pre, n ∈ k :: l ∧ ni_Instance i = None ∧ ni_Node i = Some n ∧
      ni_Resource i = List.find (λ m, Contains (n_ProviderID n) (ms_ID (m_Spec m))) crds ∧
      nodeFound (infos ++ pre) n = false) ext) as Hw.
  { intros ext infos' Hf. eapply Forall_impl; [exact Hf|].
    intros i (k' & pre & ? & ? & ? & ? & Hc). exists k', (infos' ++ pre).
    rewrite app_assoc. split_and!; try done. by right. }
  unfold addNode at 2. destruct (nodeFound infos k) eqn:E.
  - destruct (IH infos) as (ext & He & Hf & Hn). exists ext. split_and!; [done| |].
    + apply (Hw ext []). by rewrite app_nil_r.
    + intros Hx k' [->|Hk']%elem_of_cons; [done|by apply Hn].
  - match goal with |- context [fold_left _ l (infos ++ [?x])] => destruct (IH (infos ++ [x]))
      as (ext & He & Hf & _) end.
    eexists (_ :: ext). split_and!; [by rewrite He, <- app_assoc| |done].
    constructor; [|by eapply Hw].
    exists k, []. rewrite app_nil_r. split_and!; try done. by left.
Qed.

Lemma crdFound_app infos pre k : crdFound (infos ++ pre) k = crdFound infos k || crdFound pre k.
Proof. apply existsb_app. Qed.
Lemma nodeFound_app infos pre n : nodeFound (infos ++ pre) n = nodeFound infos n || nodeFound pre n.
Proof. apply existsb_app. Qed.

(** An instance covers a resource by its id, or through its node. *)
Definition covers_crd ds (k : Master) : Prop :=
  ∃ d, d ∈ ds ∧ (Contains (ms_ID (m_Spec k)) (i_Id d) = true ∨
    ∃ n, find_node nodes (i_Id d) = Some n ∧ Contains (n_ProviderID n) (ms_ID (m_Spec k)) = true).
Definition covers_node ds (n : Node) : Prop :=
  ∃ d, d ∈ ds ∧ (Contains (n_ProviderID n) (i_Id d) = true ∨
    ∃ m, List.find (λ m, Contains (ms_ID (m_Spec m)) (i_Id d)) crds = Some m ∧
         Contains (n_ProviderID n) (ms_ID (m_Spec m)) = true).

Lemma crdFound_first ds k :
  crdFound (map (masterInfo role crds nodes) ds) k = true ↔ covers_crd ds k.
Proof.
  unfold crdFound, covers_crd. rewrite existsb_exists. split.
  - intros (i & Hi & Hc). apply in_map_iff in Hi as (d & <- & Hd). exists d.
    split; [by apply list_elem_of_In|]. simpl in Hc. apply orb_true_iff in Hc as [Hc|Hc]; [by left|].
    right. destruct (find_node nodes (i_Id d)) as [n|]; [|done]. eauto.
  - intros (d & Hd & Hc). exists (masterInfo role crds nodes d).
    split; [apply in_map; by apply list_elem_of_In|]. simpl. apply orb_true_iff.
    destruct Hc as [Hc|(n & -> & Hc)]; auto.
Qed.
Lemma nodeFound_first ds n :
  nodeFound (map (masterInfo role crds nodes) ds) n = true ↔ covers_node ds n.
Proof.
  unfold nodeFound, covers_node. rewrite existsb_exists. split.
  - intros (i & Hi & Hc). apply in_map_iff in Hi as (d & <- & Hd). exists d.
    split; [by apply list_elem_of_In|]. simpl in Hc. apply orb_true_iff in Hc as [Hc|Hc]; [by left|].
    right. destruct (List.find _ crds) as [m|]; [|done]. eauto.
  - intros (d & Hd & Hc). exists (masterInfo role crds nodes d).
    split; [apply in_map; by apply list_elem_of_In|]. simpl. apply orb_true_iff.
    destruct Hc as [Hc|(m & -> & Hc)]; auto.
Qed.

(** The entries: those of the instances first, then entries without instance
    for uncovered resources, then for uncovered nodes. *)
Lemma masterInfos_shape ds :
  ∃ e1 e2, masterInfos role crds nodes ds = map (masterInfo role crds nodes) ds ++ e1 ++ e2 ∧
    Forall (λ i, ∃ k, k ∈ crds ∧ ni_Instance i = None ∧ ni_Resource i = Some k ∧
                  ni_Node i = find_node nodes (ms_ID (m_Spec k)) ∧ ¬ covers_crd ds k) e1 ∧
    Forall (λ i, ∃ n, n ∈ nodes ∧ ni_Instance i = None ∧ ni_Node i = Some n ∧
                  ni_Resource i = List.find (λ m, Contains (n_ProviderID n) (ms_ID (m_Spec m))) crds ∧
                  ¬ covers_node ds n) e2 ∧
    (e1 = [] → ∀ k, k ∈ crds → covers_crd ds k) ∧
    (e1 = [] → e2 = [] → ∀ n, n ∈ nodes → covers_node ds n).
Proof.
  unfold masterInfos.
  destruct (addCrd_extends crds (map (masterInfo role crds nodes) ds)) as (e1 & -> & H1 & N1).
  destruct (addNode_extends nodes (map (masterInfo role crds nodes) ds ++ e1)) as (e2 & -> & H2 & N2).
  exists e1, e2. rewrite <- app_assoc. split; [done|]. split_and!.
  - eapply Forall_impl; [exact H1|]. intros i (k & pre & ? & ? & ? & ? & Hc).
    exists k. split_and!; try done. rewrite crdFound_app, orb_false_iff in Hc.
    intros Hcov. apply crdFound_first in Hcov. by destruct Hc as [Hc _]; rewrite Hcov in Hc.
  - eapply Forall_impl; [exact H2|]. intros i (n & pre & ? & ? & ? & ? & Hc).
    exists n. split_and!; try done.
    rewrite <- app_assoc, nodeFound_app, orb_false_iff in Hc.
    intros Hcov. apply nodeFound_first in Hcov. by destruct Hc as [Hc _]; rewrite Hcov in Hc.
  - intros Hn k Hk. by apply crdFound_first, N1.
  - intros -> Hn n Hk. apply nodeFound_first. rewrite app_nil_r in N2. by apply N2.
Qed.

(** When everything is covered nothing is appended. *)
Lemma masterInfos_covered ds :
  (∀ k, k ∈ crds → covers_crd ds k) → (∀ n, n ∈ nodes → covers_node ds n) →
  masterInfos role crds nodes ds = map (masterInfo role crds nodes) ds.
Proof.
  intros H1 H2. destruct (masterInfos_shape ds) as (e1 & e2 & -> & F1 & F2 & _).
  assert (e1 = []) as ->.
  { destruct e1 as [|i e1]; [done|]. apply Forall_cons in F1 as [(k & Hk & _ & _ & _ & Hn) _].
    by destruct Hn; apply H1. }
  assert (e2 = []) as ->.
  { destruct e2 as [|i e2]; [done|]. apply Forall_cons in F2 as [(n & Hk & _ & _ & _ & Hn) _].
    by destruct Hn; apply H2. }
  by rewrite !app_nil_r.
Qed.

End joining.

Lemma Contains_trans a b c : Contains a b = true → Contains b c = true → Contains a c = true.
Proof.
  rewrite !Contains_spec. intros (p & q & ->) (p' & q' & ->).
  exists (p +:+ p'), (q' +:+ q). by rewrite !string_app_assoc.
Qed.

Lemma find_node_Some nodes id n :
  find_node nodes id = Some n → n ∈ nodes ∧ Contains (n_ProviderID n) id = true.
Proof. intros Hf. apply List.find_some in Hf as [??]. split; [by apply list_elem_of_In|done]. Qed.

Lemma find_node_elem nodes id n :
  n ∈ nodes → Contains (n_ProviderID n) id = true → ∃ n', find_node nodes id = Some n'.
Proof.
  intros Hin Hc. destruct (find_node nodes id) as [n'|] eqn:E; [by eexists|].
  apply list_elem_of_In in Hin. by rewrite (List.find_none _ _ E n Hin) in Hc.
Qed.

(** What a [Triple] built without error is made of. *)
Lemma NewTripleMaster_inv {W} `{Env W} `{!PkgErrors, !PkgErrorsSpec} `{!MapRange, !MapRangeSpec}
    (getter : TripleGetter W) s t s' :
  NewTripleMaster getter s = (Ret (Some t, None), s') →
  ∃ ds, ds ≡ₚ t_instances t ∧
        t_nodeInfo t = masterInfos JoinMasterUserdata (t_mCRDs t) (t_mnodes t) ds.
Proof.
  intros Hn. unfold NewTripleMaster in Hn.
  assert (∀ e m, Wrapf (Some e) m ≠ None) as Hw.
  { intros e m. destruct (Wrapf_some e m) as (e' & -> & _). done. }
  apply bind_Ret_inv in Hn as ([spec err] & s1 & _ & Hn). destruct err; [by injection Hn as _ ?%Hw|].
  apply bind_Ret_inv in Hn as ([crds err] & s2 & _ & Hn). destruct err; [by injection Hn as _ ?%Hw|].
  apply bind_Ret_inv in Hn as ([nodes err] & s3 & _ & Hn). destruct err; [by injection Hn as _ ?%Hw|].
  apply bind_Ret_inv in Hn as ([detail err] & s4 & _ & Hn). destruct err; [done|].
  injection Hn as <- _. exists (range_vals 11 detail). split; [|done].
  simpl. unfold ToList, range_vals. by rewrite !range_order_perm.
Qed.

(** ** Properties *)
Section properties.
Context {W : Type} `{Env W} `{!PkgErrors, !PkgErrorsSpec} `{!MapRange, !MapRangeSpec}.
Implicit Types (getter : TripleGetter W) (s : St W) (t : Triple).

(** C1: the control plane is reported consistent exactly when every instance
    of the scaling group has a Master resource and a ready node, every Master
    resource is covered by an instance (by id, or through the instance's
    node), and so is every node. *)
Theorem consistent_iff getter s t s' :
  NewTripleMaster getter s = (Ret (Some t, None), s') →
  SystemInConsistency t = true ↔
  (∀ d, d ∈ t_instances t →
     ∃ n m, find_node (t_mnodes t) (i_Id d) = Some n ∧ NodeReady n = true ∧
            List.find (λ m, Contains (ms_ID (m_Spec m)) (i_Id d)) (t_mCRDs t) = Some m) ∧
  (∀ k, k ∈ t_mCRDs t → covers_crd (t_mnodes t) (t_instances t) k) ∧
  (∀ n, n ∈ t_mnodes t → covers_node (t_mCRDs t) (t_instances t) n).
Proof.
  intros built. destruct (NewTripleMaster_inv _ _ _ _ built) as (ds & Hds & Hinfo).
  assert (∀ d, d ∈ t_instances t ↔ d ∈ ds) as Hel by (intros d; by rewrite Hds).
  setoid_rewrite Hel. unfold covers_crd, covers_node. setoid_rewrite Hel.
  rewrite SystemInConsistency_entries, Hinfo.
  fold (covers_crd (t_mnodes t) ds). split.
  - destruct (masterInfos_shape JoinMasterUserdata (t_mCRDs t) (t_mnodes t) ds)
      as (e1 & e2 & -> & F1 & F2 & N1 & N2). intros Hall.
    assert (e1 = []) as ->.
    { destruct e1 as [|i e1]; [done|]. apply Forall_cons in F1 as [(k & _ & Hi & Hr & _) _].
      exfalso. specialize (Hall i). rewrite Hi, Hr in Hall. destruct (ni_Node i); apply Hall; set_solver. }
    assert (e2 = []) as ->.
    { destruct e2 as [|i e2]; [done|]. apply Forall_cons in F2 as [(k & _ & Hi & Hr & _) _].
      exfalso. specialize (Hall i). rewrite Hi, Hr in Hall. apply Hall; set_solver. }
    split_and!; [|by apply N1|by apply N2].
    intros d Hd. specialize (Hall (masterInfo JoinMasterUserdata (t_mCRDs t) (t_mnodes t) d)).
    simpl in Hall. destruct (find_node _ _) as [n|], (List.find _ _) as [m|];
      try (exfalso; apply Hall; apply elem_of_app; left; by apply list_elem_of_fmap_2).
    exists n, m. split_and!; [done| |done]. apply Hall, elem_of_app. left. by apply list_elem_of_fmap_2.
  - intros (Hd & Hk & Hn). rewrite masterInfos_covered by done.
    intros i Hi. apply list_elem_of_fmap in Hi as (d & -> & Hin). simpl.
    by destruct (Hd d Hin) as (n & m & -> & Hr & ->).
Qed.

(** Each instance of the scaling group has exactly one entry. *)
Theorem instances_once getter s t s' :
  NewTripleMaster getter s = (Ret (Some t, None), s') →
  omap ni_Instance (t_nodeInfo t) ≡ₚ t_instances t.
Proof.
  intros built. destruct (NewTripleMaster_inv _ _ _ _ built) as (ds & <- & ->).
  destruct (masterInfos_shape JoinMasterUserdata (t_mCRDs t) (t_mnodes t) ds)
    as (e1 & e2 & -> & F1 & F2 & _). rewrite !omap_app.
  assert (∀ e : list NodeInfo, Forall (λ i, ni_Instance i = None) e → omap ni_Instance e = []) as Hz.
  { induction e as [|i e IH]; [done|]. intros [Hi He]%Forall_cons. simpl. rewrite Hi. exact (IH He). }
  rewrite (Hz e1), (Hz e2), !app_nil_r by (eapply Forall_impl; [eassumption|naive_solver]).
  clear. induction ds as [|d ds IH]; [done|]. simpl. constructor. exact IH.
Qed.

(** The entries proposed for deletion, from the shape of the triple. *)
Lemma crd_deletion_ok getter s t s' i :
  NewTripleMaster getter s = (Ret (Some t, None), s') →
  i ∈ (MasterCRDDiff t).1 →
  ∃ k, ni_Resource i = Some k ∧ k ∈ t_mCRDs t ∧
       ∀ d, d ∈ t_instances t → Contains (ms_ID (m_Spec k)) (i_Id d) = false.
Proof.
  intros built. destruct (NewTripleMaster_inv _ _ _ _ built) as (ds & Hds & Hinfo).
  rewrite MasterCRDDiff_eq. simpl. rewrite elem_of_lfilter, Hinfo. intros [Hi Hp].
  destruct (masterInfos_shape JoinMasterUserdata (t_mCRDs t) (t_mnodes t) ds)
    as (e1 & e2 & He & F1 & F2 & _). rewrite He in Hi.
  assert (∀ k, (∀ d, d ∈ ds → Contains (ms_ID (m_Spec k)) (i_Id d) ≠ true) →
    ∀ d, d ∈ t_instances t → Contains (ms_ID (m_Spec k)) (i_Id d) = false) as Hfin.
  { intros k Hk d Hd. apply not_true_iff_false, Hk. by rewrite Hds. }
  rewrite !elem_of_app in Hi. destruct Hi as [Hi|[Hi|Hi]].
  - apply list_elem_of_fmap in Hi as (d & -> & _). simpl in Hp. by rewrite andb_false_r in Hp.
  - rewrite Forall_forall in F1. destruct (F1 i Hi) as (k & Hk & _ & Hr & _ & Hc).
    exists k. split_and!; [done..|]. apply Hfin. intros d Hd Hcd. apply Hc. exists d. auto.
  - destruct (ni_Resource i) as [k|] eqn:Hr; [|done]. exists k. split; [done|].
    rewrite Forall_forall in F2. destruct (F2 i Hi) as (n & _ & _ & _ & Hf & Hn).
    rewrite Hr in Hf. symmetry in Hf. apply List.find_some in Hf as [Hk Hnk].
    apply list_elem_of_In in Hk.
    split; [done|]. apply Hfin. intros d Hd Hcd. apply Hn. exists d. split; [done|]. left.
    by eapply Contains_trans.
Qed.

(** A Master resource proposed for deletion belongs to no instance: its id
    contains the id of none of them. *)
Theorem crd_deletion_safe getter s t s' i :
  NewTripleMaster getter s = (Ret (Some t, None), s') →
  i ∈ (MasterCRDDiff t).1 →
  ∃ k, ni_Resource i = Some k ∧ k ∈ t_mCRDs t ∧
       ∀ d, d ∈ t_instances t → Contains (ms_ID (m_Spec k)) (i_Id d) = false.
Proof. apply crd_deletion_ok. Qed.

(** The entries proposed for deletion, from the shape of the triple. *)
Lemma node_deletion_ok getter s t s' i :
  NewTripleMaster getter s = (Ret (Some t, None), s') →
  (∀ d n n', d ∈ t_instances t → n ∈ t_mnodes t → n' ∈ t_mnodes t →
     Contains (n_ProviderID n) (i_Id d) = true → Contains (n_ProviderID n') (i_Id d) = true →
     n = n') →
  i ∈ (InstanceNodeDiff t).2 →
  ∃ n, ni_Node i = Some n ∧ n ∈ t_mnodes t ∧
       ∀ d, d ∈ t_instances t → Contains (n_ProviderID n) (i_Id d) = false.
Proof.
  intros built Huniq. destruct (NewTripleMaster_inv _ _ _ _ built) as (ds & Hds & Hinfo).
  unfold InstanceNodeDiff. simpl. rewrite elem_of_lfilter, Hinfo. intros [Hi Hp].
  destruct (masterInfos_shape JoinMasterUserdata (t_mCRDs t) (t_mnodes t) ds)
    as (e1 & e2 & He & F1 & F2 & _). rewrite He, !elem_of_app in Hi.
  destruct (ni_Node i) as [n|] eqn:Hn; [|by rewrite andb_false_r in Hp].
  destruct Hi as [Hi|[Hi|Hi]].
  - by apply list_elem_of_fmap in Hi as (d & -> & _).
  - rewrite Forall_forall in F1. destruct (F1 i Hi) as (k & Hk & _ & _ & Hf & Hc).
    rewrite Hn in Hf. symmetry in Hf. apply find_node_Some in Hf as [Hin Hnk].
    exists n. split_and!; [done..|]. intros d Hd. apply not_true_iff_false. intros Hcd.
    apply Hc. rewrite <- Hds in Hd. exists d. split; [done|]. right.
    destruct (find_node_elem _ _ _ Hin Hcd) as [n' Hn'].
    assert (n' = n) as ->; [|eauto].
    apply find_node_Some in Hn' as [? ?]. apply (Huniq d); try done. by rewrite <- Hds.
  - rewrite Forall_forall in F2. destruct (F2 i Hi) as (n' & Hin & _ & Hf & _ & Hc).
    rewrite Hn in Hf. injection Hf as <-. exists n. split_and!; [done..|].
    intros d Hd. apply not_true_iff_false. intros Hcd. apply Hc. exists d.
    split; [by rewrite Hds|by left].
Qed.

(** A node proposed for deletion belongs to no instance, when no instance
    id occurs in the provider ids of two nodes. *)
Theorem node_deletion_safe getter s t s' i :
  NewTripleMaster getter s = (Ret (Some t, None), s') →
  (∀ d n n', d ∈ t_instances t → n ∈ t_mnodes t → n' ∈ t_mnodes t →
     Contains (n_ProviderID n) (i_Id d) = true → Contains (n_ProviderID n') (i_Id d) = true →
     n = n') →
  i ∈ (InstanceNodeDiff t).2 →
  ∃ n, ni_Node i = Some n ∧ n ∈ t_mnodes t ∧
       ∀ d, d ∈ t_instances t → Contains (n_ProviderID n) (i_Id d) = false.
Proof. apply node_deletion_ok. Qed.
End properties.

(** C11: an etcd member proposed for removal has the IP of no instance, and never
    more than half of the members are proposed at once. *)
Theorem EtcdMemDiff_safe t mems :
  2 * length (EtcdMemDiff t mems) ≤ length mems ∧
  ∀ m, m ∈ EtcdMemDiff t mems →
    m ∈ mems ∧ ∀ e, e ∈ t_instances t → mem_IP m ≠ i_Ip e.
Proof.
  unfold EtcdMemDiff. case_decide as Hd; simpl.
  { split; [lia|]. intros m Hm. by apply elem_of_nil in Hm. }
  split; [lia|]. intros m [Hm Hf]%elem_of_lfilter. split; [done|].
  intros e He Heq. apply negb_true_iff in Hf.
  assert (existsb (λ e, bool_decide (mem_IP m = i_Ip e)) (t_instances t) = true) as Hx; [|congruence].
  apply existsb_exists. exists e. split; [by apply list_elem_of_In|by apply bool_decide_eq_true].
Qed.

(** In a worker triple all entries with an instance name the same instance,
    the last one iterated over: with two distinct instances one of them is in
    no entry. *)
Theorem worker_infos_alias role nodes ds d1 d2 :
  d1 ∈ ds → d2 ∈ ds → d1 ≠ d2 →
  ∃ d, d ∈ ds ∧ ∀ i, i ∈ workerInfos role nodes ds → ni_Instance i ≠ Some d.
Proof.
  intros H1 H2 Hne.
  assert (∀ i d, i ∈ workerInfos role nodes ds → ni_Instance i = Some d → last ds = Some d) as Hl.
  { intros i d Hi Hd. unfold workerInfos in Hi. apply elem_of_app in Hi as [Hi|Hi];
      apply list_elem_of_fmap in Hi as (x & -> & _); [done|]. done. }
  destruct (decide (last ds = Some d1)) as [E|E].
  - exists d2. split; [done|]. intros i Hi Hd. apply Hl in Hd; [congruence|done].
  - exists d1. split; [done|]. intros i Hi Hd. by apply Hl in Hd.
Qed.

(** In a node pool with a node that is not of the last instance, the last
    node of the list is proposed for deletion, whatever instance it runs on. *)
Theorem worker_deletes_last_node role c nodes ds ins n last_d last_n :
  last ds = Some last_d → last nodes = Some last_n →
  n ∈ nodes → Contains (n_ProviderID n) (i_Id last_d) = false →
  let t := MkTriple role c [] nodes ins (workerInfos role nodes ds) in
  ∃ i, i ∈ (InstanceNodeDiff t).2 ∧ ni_Node i = Some last_n.
Proof.
  intros Hd Hn Hin Hc. exists (MkNodeInfo role None (Some last_n) None). split; [|done].
  unfold InstanceNodeDiff. simpl. apply elem_of_lfilter. split; [|done].
  unfold workerInfos. rewrite Hn. apply elem_of_app. right.
  apply list_elem_of_fmap. exists n. split; [done|]. apply elem_of_lfilter. split; [done|].
  apply negb_true_iff. apply not_true_iff_false. intros Hx. apply existsb_exists in Hx as (i & Hi & Hci).
  apply in_map_iff in Hi as (d & <- & _). simpl in Hci. rewrite Hd in Hci. congruence.
Qed.

(** ** The cases of triple_test.go, evaluated *)
Module TripleTest.
Definition mknode (ip id : string) : Node :=
  MkNode (set_Labels (Some {[MASTER_LABEL := ""]}) (metaNamed (ip +:+ "." +:+ id)))
    ("cn-hangzhou." +:+ id) [] [].
Definition mkmaster (ip id : string) : Master :=
  MkMaster noType (metaNamed ("cn-hangzhou." +:+ id))
    (MkMasterSpec ip ("cn-hangzhou." +:+ id) "Hybrid") (MkMasterStatus [] None "").
Definition mkinst (ip id : string) : Instance :=
  MkInstance "cn-hangzhou" id ip [] "" "" "running".
Definition ip1 := "192.168.0.103".
Definition id1 := "i-bp1c65aivl1e4vkm9e2m".
Definition ip2 := "192.168.0.104".
Definition id2 := "i-bp1c65aivl1e4vkm9e2n".
Definition ip3 := "192.168.0.105".
Definition id3 := "i-bp1c65aivl1e4vkm9e2k".
Definition node1 := mknode ip1 id1.
Definition node2 := mknode ip2 id2.
Definition node3 := mknode ip3 id3.
Definition master1 := mkmaster ip1 id1.
Definition master2 := mkmaster ip2 id2.
Definition inst1 := mkinst ip1 id1.
Definition inst2 := mkinst ip2 id2.
Definition inst3 := mkinst ip3 id3.

(** [fakeTripleGetter] *)
Definition fake (nodes : list Node) (crds : list Master) (insts : list Instance)
    : TripleGetter Z :=
  let m : gmap string Instance := list_to_map (map (λ i, (i_Id i, i)) insts) in
  {| GetClusterItem := mret (zeroCluster, None);
     GetMasterNodeList := mret (nodes, None);
     GetWorkerNodeList _ := mret (nodes, None);
     GetMasterCR := mret (crds, None);
     GetControlPlaneECS := mret (m, None);
     GetNodePoolECS _ := mret (m, None) |}.

Import Sim SimEnv SimWait.
Definition trip (nodes : list Node) (crds : list Master) (insts : list Instance) : Triple :=
  match (NewTripleMaster (fake nodes crds insts) (start_at 0)).1 with
  | Ret (Some t, _) => t
  | _ => MkTriple "" None [] [] [] []
  end.

Example TestConsistency :
  map SystemInConsistency
    [ trip [node1] [master1] [inst1];
      trip [node1; node2] [master1; master2] [inst1; inst2] ] = [true; true].
Proof. vm_compute. reflexivity. Qed.

Example TestInConsistency :
  map SystemInConsistency
    [ trip [node1] [master1; master2] [inst1];
      trip [node1; node2] [master1; master2] [inst1];
      trip [node1; node2] [master1] [inst1];
      trip [node1; node2] [] [inst1];
      trip [node1; node2] [] [];
      trip [node1; node2] [master1; master2] [inst1; inst2; inst3] ]
  = repeat false 6.
Proof. vm_compute. reflexivity. Qed.

Example TestCRD :
  map (λ t, (length (MasterCRDDiff t).1, length (MasterCRDDiff t).2))
    [ trip [node1; node2] [] [inst1; inst2; inst3];
      trip [node1; node2] [] [inst1];
      trip [node1; node2] [master2] [inst1] ] = [(0, 2); (0, 1); (1, 1)].
Proof. vm_compute. reflexivity. Qed.

Example TestInstanceNode :
  map (λ t, (length (InstanceNodeDiff t).1, length (InstanceNodeDiff t).2))
    [ trip [node1; node2] [master2] [inst1];
      trip [node1; node2] [master2] [inst1; inst2];
      trip [node1; node2] [master2] [inst1; inst2; inst3] ] = [(0, 1); (0, 0); (1, 0)].
Proof. vm_compute. reflexivity. Qed.

Example TestNewTripleMaster :
  length (t_nodeInfo (trip [node1; node3] [master2; master1] [inst1])) = 3.
Proof. vm_compute. reflexivity. Qed.
End TripleTest.

(** ** Witnesses *)
Import Sim SimEnv SimWait TripleTest.

Lemma built_ok nodes crds insts :
  NewTripleMaster (fake nodes crds insts) (start_at 0)
  = (Ret (Some (trip nodes crds insts), None), start_at 0).
Proof. reflexivity. Qed.

Lemma consistent_iff_witness :
  let t := trip [node1; node2] [master1; master2] [inst1; inst2] in
  (∀ d, d ∈ t_instances t →
     ∃ n m, find_node (t_mnodes t) (i_Id d) = Some n ∧ NodeReady n = true ∧
            List.find (λ m, Contains (ms_ID (m_Spec m)) (i_Id d)) (t_mCRDs t) = Some m) ∧
  (∀ k, k ∈ t_mCRDs t → covers_crd (t_mnodes t) (t_instances t) k) ∧
  (∀ n, n ∈ t_mnodes t → covers_node (t_mCRDs t) (t_instances t) n).
Proof.
  intros t.
  apply (consistent_iff (fake [node1; node2] [master1; master2] [inst1; inst2])
           (start_at 0) t (start_at 0) (built_ok _ _ _)).
  vm_compute. reflexivity.
Defined.

Lemma instances_once_witness :
  let t := trip [node1] [master2] [inst1; inst2] in
  omap ni_Instance (t_nodeInfo t) ≡ₚ t_instances t.
Proof.
  intros t.
  exact (instances_once (fake [node1] [master2] [inst1; inst2])
           (start_at 0) t (start_at 0) (built_ok _ _ _)).
Defined.

Lemma crd_deletion_safe_witness :
  let t := trip [node1; node2] [master2] [inst1] in
  let i := MkNodeInfo JoinMasterUserdata None (Some node2) (Some master2) in
  ∃ k, ni_Resource i = Some k ∧ k ∈ t_mCRDs t ∧
       ∀ d, d ∈ t_instances t → Contains (ms_ID (m_Spec k)) (i_Id d) = false.
Proof.
  intros t i.
  refine (crd_deletion_safe (fake [node1; node2] [master2] [inst1])
           (start_at 0) t (start_at 0) i (built_ok _ _ _) _).
  vm_compute. by left.
Defined.

Lemma node_deletion_safe_witness :
  let t := trip [node1; node2] [master2] [inst1] in
  let i := MkNodeInfo JoinMasterUserdata None (Some node2) (Some master2) in
  ∃ n, ni_Node i = Some n ∧ n ∈ t_mnodes t ∧
       ∀ d, d ∈ t_instances t → Contains (n_ProviderID n) (i_Id d) = false.
Proof.
  intros t i.
  refine (node_deletion_safe (fake [node1; node2] [master2] [inst1])
           (start_at 0) t (start_at 0) i (built_ok _ _ _) _ _).
  - intros d n n' Hd Hn Hn'. vm_compute in Hd.
    apply list_elem_of_singleton in Hd as ->.
    apply elem_of_cons in Hn as [->|Hn%list_elem_of_singleton];
      apply elem_of_cons in Hn' as [->|Hn'%list_elem_of_singleton]; subst; vm_compute; done.
  - vm_compute. by left.
Defined.

Lemma worker_infos_alias_witness :
  ∃ d, d ∈ [inst1; inst2] ∧
    ∀ i, i ∈ workerInfos WorkerUserdata [node1; node2] [inst1; inst2] → ni_Instance i ≠ Some d.
Proof.
  refine (worker_infos_alias WorkerUserdata [node1; node2] [inst1; inst2] inst1 inst2 _ _ _).
  - by left.
  - right. by left.
  - discriminate.
Defined.

(** Two healthy workers: the node of the second is to be deleted. *)
Lemma worker_deletes_last_node_witness :
  let t := MkTriple WorkerUserdata None [] [node1; node2] [inst1; inst2]
             (workerInfos WorkerUserdata [node1; node2] [inst1; inst2]) in
  ∃ i, i ∈ (InstanceNodeDiff t).2 ∧ ni_Node i = Some node2.
Proof.
  refine (worker_deletes_last_node WorkerUserdata None [node1; node2] [inst1; inst2]
            [inst1; inst2] node1 inst2 node2 _ _ _ _); [reflexivity..|by left|reflexivity].
Defined.
