(* ===== verification/Operation.v ===== *)
(** * Repairing one machine (pkg/operator/heal/operation.go)

    [NodeOperation] restarts, re-images, drains and labels a machine.  The
    interface [Operation] is the record the healing loop is written against. *)
From stdpp Require Import base list gmap strings.
From Stdlib Require Import Lia.
From S2P Require Import Prelude GoStrings GoTime Api Sdk Effects Provider Help Sign Etcd Triple.

(** healet.go: the constants of the throttling. *)
Definition WdripLastUpdate : string := "wdrip.last.update.time".
Definition AdmitECSThrottleTime : Z := 3 * Minute.
Definition AdmitNodeThrottleTime : Z := 1 * Minute.
Definition AdmitCreateThrottleTime : Z := 5 * Minute.

(** [gerror.NewAggregate] of k8s.io/apimachinery: an error exactly when the
    list has one. *)
Class AggErrors : Type := NewAggregate : list error → error.
Class AggErrorsSpec `{AggErrors} : Prop :=
  NewAggregate_nil l : NewAggregate l = None ↔ ∀ e, e ∈ l → e = None.

(** [NewRetry(timeout)] as the error it is, with its [Error()] text. *)
Definition NewRetry (timeout : Z) : error :=
  Errorf ("RetryInNext " +:+ fmt_d (timeout `quot` Second) +:+ " Seconds").

(** [type Operation interface] *)
Record OperationI (W : Type) : Type := MkOperationI {
  op_Cordon : NodeInfo → bool → IO W error;
  op_Drain : NodeInfo → IO W error;
  op_Restart : NodeInfo → IO W error;
  op_Reset : NodeInfo → IO W error;
  op_RunCommand : NodeInfo → string → IO W error;
  op_LabelNode : NodeInfo → gmap string string → IO W error }.
Arguments op_Cordon {W} _ _ _.
Arguments op_Drain {W} _ _.
Arguments op_Restart {W} _ _.
Arguments op_Reset {W} _ _.
Arguments op_RunCommand {W} _ _ _.
Arguments op_LabelNode {W} _ _ _.

(** The setter [diff] of [LabelNode]: the labels are put into the map the node
    has; a map made for a node without labels is not stored in it. *)
Definition labelDiff (lbl : gmap string string) (np : Node) : Node * error :=
  match n_Labels np with
  | Some mlabels => (node_with_labels (Some (lbl ∪ mlabels)) np, None)
  | None => (np, None)
  end.

Section operations.
Context {W : Type} `{Env W} `{PkgErrors} `{GoFmt} `{MapRange} `{LocalZone} `{WaitLib W}.
Context `{PatchLib} `{AggErrors} `{Json Members} `{Json (list EndpointStatus)} `{CryptoLib}.

(** The cluster specification of the triple, read through its pointer. *)
Definition trip_spec (trip : Triple) : IO W ClusterSpec :=
  match t_cluster trip with
  | Some c => mret (cl_Spec c)
  | None => panic "nil pointer dereference"
  end.

Definition Restart (info : NodeInfo) : IO W error :=
  match ni_Instance info with
  | None => mret (Errorf ("empty instance id: " +:+ NodeInfo_String info))
  | Some inst =>
      err ← perform (PRestartECS NewEmptyContext (i_Id inst));
      match (err : error) with
      | Some e => mret (Wrapf (Some e) "restart ecs")
      | None =>
          name ← lift (GetNodeName info);
          err ← WaitHeartbeat name (3 * Minute);
          match err with
          | Some e => mret (Wrapf (Some e) ("wait node ready failed while restarting ecs: " +:+ i_Id inst))
          | None => mret None
          end
      end
  end.

(** [AdmitECS(info, duration)]: the first time tag decides; without one the
    instance is tagged now and not admitted.  The log call evaluates its
    arguments first. *)
Definition AdmitECS (info : NodeInfo) (duration : Z) : IO W bool :=
  match ni_Instance info with
  | None => mret false
  | Some eid =>
      match List.find (λ t, bool_decide (v_Key t = WdripLastUpdate)) (i_Tags eid) with
      | Some t =>
          _ ← NowStamp;
          v ← as_string (v_Val t);
          _ ← After v duration;
          After v duration
      | None =>
          now ← NowStamp;
          _ ← perform (PTagECS NewEmptyContext (i_Id eid) [MkValue WdripLastUpdate (AStr now)]);
          mret false
      end
  end.

(** [AdmitNode(info, duration)] *)
Definition AdmitNode (info : NodeInfo) (duration : Z) : IO W bool :=
  match ni_Instance info with
  | None => mret false
  | Some eid =>
      r ← (match ni_Node info with
           | Some n => mret (inl n)
           | None =>
               '(nodes, err) ← NodeItems;
               match err with
               | Some e => mret (inr (IsNotFound e))
               | None =>
                   match find_node nodes (i_Id eid) with
                   | Some n => mret (inl n)
                   | None => mret (inr true)
                   end
               end
           end);
      match r with
      | inr answer => mret answer
      | inl node =>
          '(ready, _) ← NodeHeartbeatReady node duration;
          mret ready
      end
  end.

Definition Cordon (info : NodeInfo) (cordon : bool) : IO W error :=
  match ni_Node info with
  | None => mret None
  | Some n =>
      '(err, patcherr) ← perform (DrainCordon n cordon);
      if bool_decide (err = None) && bool_decide (patcherr = None) then mret None
      else mret (NewAggregate [err; patcherr])
  end.

Definition Drain (info : NodeInfo) : IO W error :=
  match ni_Node info with
  | None => mret None
  | Some n =>
      err ← Cordon info true;
      match err with
      | Some e => mret (Errorf ("cordon node: " +:+ Error e))
      | None =>
          '(pods, errs) ← perform (DrainGetPods (n_Name n));
          match errs, pods with
          | _ :: _, _ => mret (NewAggregate (map Some errs))
          | [], None => panic "nil pointer dereference"
          | [], Some ps =>
              err ← perform (DrainEvict ps);
              match (err : error) with
              | Some e =>
                  _ ← perform (DrainGetPods (n_Name n));
                  mret (Some e)
              | None => mret None
              end
          end
      end
  end.

(** [removeEtcd(ip)] *)
Definition removeEtcd (trip : Triple) (ip : string) : IO W error :=
  '(metcd, err) ← NewEtcdFromCRD (t_mCRDs trip) (t_cluster trip) ETCD_TMP;
  match err, metcd with
  | Some e, _ => mret (Errorf ("new etcd: " +:+ Error e))
  | None, None => panic "nil pointer dereference"
  | None, Some metcd =>
      '(mems, err) ← MemberList metcd;
      match err with
      | Some e => mret (Errorf ("clean up etcd: member " +:+ Error e))
      | None => RemoveMember metcd (FindMemberByIP (mb_Members mems) ip)
      end
  end.

(** The part of [Reset] after the admission checks. *)
Definition doReset (trip : Triple) (info : NodeInfo) (eid : Instance) : IO W error :=
  _ ← Drain info;
  err ← (if decide (ni_Role info = JoinMasterUserdata) then
           err ← removeEtcd trip (i_Ip eid);
           mret (match err with
                 | Some e => Some (Wrapf (Some e) ("etcd: " +:+ i_Id eid +:+ ", " +:+ i_Ip eid))
                 | None => None
                 end)
         else mret None);
  match err with
  | Some err => mret err
  | None =>
      spec ← trip_spec trip;
      let spectx := NewContextWithCluster spec in
      '(data, err) ← perform (PUserData spectx (ni_Role info));
      match err with
      | Some e => mret (Wrapf (Some e) "new worker userdata")
      | None =>
          err ← perform (PReplaceSystemDisk spectx (i_Id eid) data (MkOption "" zeroValue));
          match (err : error) with
          | Some e =>
              _ ← perform (Sleep (15 * Second));
              mret (Errorf ("replace system disk failed: " +:+ Error e))
          | None =>
              now ← NowStamp;
              _ ← perform (PTagECS spectx (i_Id eid) [MkValue WdripLastUpdate (AStr now)]);
              let name := i_Ip eid +:+ "." +:+ i_Id eid in
              err ← WaitHeartbeat name (3 * Minute);
              match err with
              | Some e => mret (Errorf ("repair failed, continue on next node, " +:+ Error e))
              | None => mret None
              end
          end
      end
  end.

(** [Reset(info)]: three admission checks, then the repair. *)
Definition Reset_ (trip : Triple) (info : NodeInfo) : IO W error :=
  match ni_Instance info with
  | None => panic "nil pointer dereference"
  | Some eid =>
      let min := (1 * Minute)%Z in
      old ← After (i_CreatedAt eid) AdmitCreateThrottleTime;
      if negb old then
        _ ← perform (Sleep min);
        mret (NewRetry min)
      else
        ok ← AdmitECS info AdmitECSThrottleTime;
        if negb ok then mret (NewRetry min)
        else
          ok ← AdmitNode info AdmitNodeThrottleTime;
          if negb ok then mret (NewRetry min)
          else doReset trip info eid
  end.

Definition op_runCommand (trip : Triple) (info : NodeInfo) (cmd : string) : IO W error :=
  match ni_Instance info with
  | None => mret (Errorf ("empty instance information: " +:+ NodeInfo_String info))
  | Some eid =>
      spec ← trip_spec trip;
      '(_, err) ← perform (PRunCommand (NewContextWithCluster spec) (i_Id eid) cmd);
      match err with
      | Some e => mret (Wrapf (Some e) ("run command[" +:+ cmd +:+ "]"))
      | None =>
          name ← lift (GetNodeName info);
          WaitHeartbeat name (30 * Second)
      end
  end.

Definition LabelNode (info : NodeInfo) (lbl : gmap string string) : IO W error :=
  name ← lift (GetNodeName info);
  '(node, err) ← h_Node name;
  match err with
  | Some e => mret (Wrapf (Some e) ("[" +:+ name +:+ "] get node"))
  | None =>
      '(_, err) ← Patch KNode node (labelDiff lbl) PatchSpec;
      mret err
  end.

(** [NewOperation(trip)]: the interface filled in by [NodeOperation]. *)
Definition NewOperation (trip : Triple) : IO W (OperationI W * error) :=
  mret ({| op_Cordon := Cordon;
           op_Drain := Drain;
           op_Restart := Restart;
           op_Reset := Reset_ trip;
           op_RunCommand := op_runCommand trip;
           op_LabelNode := LabelNode |}, None).
End operations.

(** ** Lemmas *)
Section facts.
Context {W : Type} `{Env W} `{PkgErrors} `{GoFmt} `{MapRange} `{LocalZone} `{!WaitLib W}.
Context `{PatchLib} `{AggErrors} `{Json Members} `{Json (list EndpointStatus)} `{CryptoLib}.

Lemma emits_After (P : call → Prop) t d : P Now → emits P (After (W:=W) t d).
Proof. intros HP. unfold After. solve_emits. done. Qed.

Lemma emits_NowStamp (P : call → Prop) : P Now → emits P (NowStamp (W:=W)).
Proof. intros HP. unfold NowStamp. solve_emits. done. Qed.

(** The admission checks read the clock and the nodes, and tag at most. *)
Definition admit_call (c : call) : Prop :=
  match c with Now | PTagECS _ _ _ | KList _ _ => True | _ => False end.

Lemma emits_AdmitECS info d : emits admit_call (AdmitECS (W:=W) info d).
Proof.
  unfold AdmitECS, as_string. destruct (ni_Instance info); [|apply emits_ret].
  destruct (List.find _ _);
    repeat first [apply emits_After | apply emits_NowStamp | progress solve_emits]; done.
Qed.

Lemma emits_AdmitNode info d : emits admit_call (AdmitNode (W:=W) info d).
Proof.
  unfold AdmitNode, NodeHeartbeatReady, nodeHeartbeatReady, isHeartbeatNormal, NodeItems.
  solve_emits; done.
Qed.

Lemma emits_WaitHeartbeat `{!WaitSpec W} (P : call → Prop) name timeout :
  P Now → P (Sleep (2 * Second)) → P (KGet KNode "" name) →
  emits P (WaitHeartbeat (W:=W) name timeout).
Proof.
  intros H1' H2' H3'.
  unfold WaitHeartbeat, steadyTurn, waitReady, h_Node, nodeHeartbeatReady, isHeartbeatNormal.
  solve_emits; done.
Qed.

(** Re-imaging is asked for one instance only, with no option. *)
Definition replaces_only (eid : Instance) (c : call) : Prop :=
  match c with
  | PReplaceSystemDisk _ id _ opt => id = i_Id eid ∧ opt = MkOption "" zeroValue
  | _ => True
  end.

Lemma emits_removeEtcd (P : call → Prop) trip ip :
  (∀ c, local_call c → P c) → emits P (removeEtcd (W:=W) trip ip).
Proof.
  intros HP. unfold removeEtcd.
  apply emits_bind; [apply emits_NewEtcdFromCRD; intros c [Hc _]; by apply HP|].
  intros [metcd err]. destruct err; [apply emits_ret|]. destruct metcd as [m|]; [|apply emits_panic].
  apply emits_bind.
  { apply emits_MemberList; [|intros; by apply HP]. intros c (x & _ & ->). by apply HP. }
  intros [mems err]. destruct err; [apply emits_ret|].
  apply emits_RemoveMember; intros; by apply HP.
Qed.

Lemma emits_doReset `{!WaitSpec W} trip info eid :
  emits (replaces_only eid) (doReset (W:=W) trip info eid).
Proof.
  unfold doReset, Drain, Cordon, trip_spec.
  repeat first
    [ apply emits_NowStamp; exact I
    | apply emits_WaitHeartbeat; exact I
    | apply emits_removeEtcd; intros []; done
    | progress solve_emits ]; simpl; auto.
Qed.

(** Calls about the machine [id]: of the provider's operations only those on
    this instance and the rendering of user data; of the Kubernetes API only
    reads, patches and draining; and calls that stay on the machine. *)
Definition machine_call (id : string) (c : call) : Prop :=
  match c with
  | PRunCommand _ i _ | PReplaceSystemDisk _ i _ _ | PTagECS _ i _ | PRestartECS _ i => i = id
  | PUserData _ _ => True
  | KGet _ _ _ | KList _ _ | KPatch _ | KStatusPatch _ => True
  | DrainCordon _ _ | DrainGetPods _ | DrainEvict _ => True
  | c => local_call c
  end.

Lemma emits_runCommand_machine `{!WaitSpec W} trip info eid cmd :
  ni_Instance info = Some eid → emits (machine_call (i_Id eid)) (op_runCommand (W:=W) trip info cmd).
Proof.
  intros Hi. unfold op_runCommand, trip_spec. rewrite Hi.
  repeat first [apply emits_WaitHeartbeat; exact I | progress solve_emits]; done.
Qed.

Lemma emits_LabelNode_machine info id lbl :
  emits (machine_call id) (LabelNode (W:=W) info lbl).
Proof.
  unfold LabelNode, h_Node.
  repeat first [apply emits_Patch; by intros [] | progress solve_emits]; done.
Qed.

Lemma emits_Reset_machine `{!WaitSpec W} trip info eid :
  ni_Instance info = Some eid → emits (machine_call (i_Id eid)) (Reset_ (W:=W) trip info).
Proof.
  intros Hi. unfold Reset_. rewrite Hi.
  assert (emits (machine_call (i_Id eid)) (AdmitECS (W:=W) info AdmitECSThrottleTime)) as H1'.
  { unfold AdmitECS, as_string. rewrite Hi. destruct (List.find _ _);
      repeat first [apply emits_After; exact I | apply emits_NowStamp; exact I | progress solve_emits];
      done. }
  assert (emits (machine_call (i_Id eid)) (AdmitNode (W:=W) info AdmitNodeThrottleTime)) as H2'.
  { unfold AdmitNode, NodeHeartbeatReady, nodeHeartbeatReady, isHeartbeatNormal, NodeItems.
    rewrite Hi. solve_emits; done. }
  assert (emits (machine_call (i_Id eid)) (doReset (W:=W) trip info eid)) as H3'.
  { unfold doReset, Drain, Cordon, trip_spec.
    repeat first
      [ apply emits_NowStamp; exact I
      | apply emits_WaitHeartbeat; exact I
      | apply emits_removeEtcd; by intros []
      | progress solve_emits ]; done. }
  repeat first [apply emits_After; exact I | done | progress solve_emits]; done.
Qed.

(** Everything only appends to the log. *)
Lemma emits_doReset_any `{!WaitSpec W} trip info eid :
  emits (λ _, True) (doReset (W:=W) trip info eid).
Proof. eapply emits_weaken; [|apply emits_doReset]. done. Qed.
Lemma emits_AdmitECS_any info d : emits (λ _, True) (AdmitECS (W:=W) info d).
Proof. eapply emits_weaken; [|apply emits_AdmitECS]. done. Qed.
Lemma emits_AdmitNode_any info d : emits (λ _, True) (AdmitNode (W:=W) info d).
Proof. eapply emits_weaken; [|apply emits_AdmitNode]. done. Qed.
End facts.

#[export] Hint Resolve emits_doReset_any emits_AdmitECS_any emits_AdmitNode_any : emits.

(** ** Properties *)
Section properties.
Context {W : Type} `{Env W} `{PkgErrors} `{GoFmt} `{MapRange} `{LocalZone} `{!WaitLib W}.
Context `{PatchLib} `{AggErrors} `{Json Members} `{Json (list EndpointStatus)} `{CryptoLib}.

(** The calls of [Reset] that re-image. *)
Lemma Reset_admitted_aux `{!WaitSpec W} trip info eid s ctx id data opt :
  ni_Instance info = Some eid →
  calls (Reset_ trip info) s (PReplaceSystemDisk ctx id data opt) →
  id = i_Id eid ∧
  ∃ s1 s2 s3, After (i_CreatedAt eid) AdmitCreateThrottleTime s = (Ret true, s1) ∧
              AdmitECS info AdmitECSThrottleTime s1 = (Ret true, s2) ∧
              AdmitNode info AdmitNodeThrottleTime s2 = (Ret true, s3).
Proof.
  intros Hi Hc. unfold Reset_ in Hc. rewrite Hi in Hc.
  apply (calls_bind_inv admit_call) in Hc as (old & s1 & H1' & Hc);
    [|by apply emits_After|by intros []|intros; solve_emits; eauto with emits].
  destruct old; [|exfalso; refine (calls_emits local_call _ _ _ _ Hc); solve_emits; done]. simpl in Hc.
  apply (calls_bind_inv admit_call) in Hc as (ok & s2 & H2' & Hc);
    [|by apply emits_AdmitECS|by intros []|intros; solve_emits; eauto with emits].
  destruct ok; [|exfalso; refine (calls_emits local_call _ _ _ _ Hc); solve_emits; done]. simpl in Hc.
  apply (calls_bind_inv admit_call) in Hc as (ok & s3 & H3' & Hc);
    [|by apply emits_AdmitNode|by intros []|intros; solve_emits; eauto with emits].
  destruct ok; [|exfalso; refine (calls_emits local_call _ _ _ _ Hc); solve_emits; done]. simpl in Hc.
  apply (calls_emits (replaces_only eid)) in Hc as [-> _]; [|apply emits_doReset].
  split; [done|]. by exists s1, s2, s3.
Qed.

(** C5: a machine is re-imaged only after all three admission checks passed, and
    only the instance of the entry itself: whenever [Reset] calls
    [ReplaceSystemDisk], the instance is older than five minutes, its last
    repair is more than three minutes ago, and the node check agreed. *)
Theorem Reset_admitted `{!WaitSpec W} trip info eid s ctx id data opt :
  ni_Instance info = Some eid →
  calls (Reset_ trip info) s (PReplaceSystemDisk ctx id data opt) →
  id = i_Id eid ∧
  ∃ s1 s2 s3, After (i_CreatedAt eid) AdmitCreateThrottleTime s = (Ret true, s1) ∧
              AdmitECS info AdmitECSThrottleTime s1 = (Ret true, s2) ∧
              AdmitNode info AdmitNodeThrottleTime s2 = (Ret true, s3).
Proof. apply Reset_admitted_aux. Qed.

(** A machine that was tagged with the time of its last repair is not
    admitted again before the given duration has passed since then (to the
    second). *)
Theorem AdmitECS_throttle `{!Clock W, !ClockSpec W} info eid t t0 duration (s s' : St W) :
  ni_Instance info = Some eid →
  List.find (λ t, bool_decide (v_Key t = WdripLastUpdate)) (i_Tags eid) = Some t →
  v_Val t = AStr (format_at zone_offset stamp_sep stamp_suffix t0) →
  (0 ≤ local_year zone_offset t0 ≤ 9999)%Z →
  AdmitECS info duration s = (Ret true, s') →
  (t0 `div` Second * Second + duration < clock (world s'))%Z.
Proof.
  intros Hi Hf Hv Hy Ha. unfold AdmitECS in Ha. rewrite Hi, Hf in Ha.
  apply bind_Ret_inv in Ha as (n & s1 & _ & Ha). rewrite Hv in Ha.
  apply bind_Ret_inv in Ha as (v & s2 & [= <- <-] & Ha).
  apply bind_Ret_inv in Ha as (b & s3 & _ & Ha).
  unfold After in Ha. rewrite parse_format in Ha by done.
  step_perform_in Ha. pose proof (clock_now (world s3)) as Hc.
  destruct (env_step Now (world s3)) as [now w]. simpl in Ha, Hc. injection Ha as Hb <-.
  unfold TimeAfter in Hb. apply Z.ltb_lt in Hb. simpl. lia.
Qed.

(** A node that reports a Ready condition other than "True" is never
    re-imaged: the node check admits ready nodes and rejects the others. *)
Theorem unready_node_never_reset `{!WaitSpec W} trip info eid n s ctx id data opt :
  ni_Instance info = Some eid → ni_Node info = Some n →
  nc_Type (findCondition (n_Conditions n) "Ready") = "Ready" →
  nc_Status (findCondition (n_Conditions n) "Ready") ≠ "True" →
  ¬ calls (Reset_ trip info) s (PReplaceSystemDisk ctx id data opt).
Proof.
  intros Hi Hn Ht Hs Hc. apply (Reset_admitted_aux _ _ _ _ _ _ _ _ Hi) in Hc
    as (_ & s1 & s2 & s3 & _ & _ & Ha).
  unfold AdmitNode, NodeHeartbeatReady, nodeHeartbeatReady in Ha. rewrite Hi, Hn, bind_ret_l in Ha.
  rewrite decide_True, decide_False, bind_ret_l in Ha by done. done.
Qed.

(** What labelling writes to a node: the node it read, with the given labels
    set and the other labels kept; and nothing at all to a node that has no
    labels yet. *)
Theorem LabelNode_writes `{!PatchLibSpec} info lbl s o :
  calls (LabelNode info lbl) s (KPatch o) →
  ∃ n g, n_Labels n = Some g ∧ o = ONode (node_with_labels (Some (lbl ∪ g)) n).
Proof.
  intros Hc. refine (calls_emits (λ c, ∀ o, c = KPatch o → _) _ _ _ _ Hc o eq_refl).
  unfold LabelNode, h_Node. solve_emits; [done|].
  eapply emits_weaken; [|apply Patch_emits]. intros c Hp o' ->. destruct Hp as (_ & x & -> & _ & Hx).
  unfold labelDiff in *. destruct (n_Labels x) as [g|] eqn:Hg; [|done]. by exists x, g.
Qed.
End properties.

(** ** A concrete machine, for evaluation *)
Module SimOp.
#[export] Instance agg_errors : AggErrors := λ l,
  match omap (λ e, e) l with [] => None | g :: _ => Some g end.
#[export] Instance agg_errors_spec : AggErrorsSpec.
Proof.
  intros l. unfold NewAggregate, agg_errors. induction l as [|[g|] l IH]; simpl.
  - split; [|done]. intros _ e He. by apply elem_of_nil in He.
  - split; [done|]. intros Hall. by specialize (Hall (Some g) ltac:(by left)).
  - rewrite IH. split; intros Hall e He; [apply elem_of_cons in He as [->|He]; auto|].
    apply Hall. by right.
Qed.

(** An old worker without node object, last repaired long ago. *)
Definition stale : Instance :=
  MkInstance "cn-hangzhou" "i-1" "10.0.0.7"
    [MkValue WdripLastUpdate (AStr "2022-01-01T10:00:00Z")] "2021-12-01T00:00:00Z" "" "Running".
Definition lost : NodeInfo := MkNodeInfo WorkerUserdata (Some stale) None None.
Definition pool : Triple := MkTriple WorkerUserdata (Some zeroCluster) [] [] [stale] [lost].
(** 2023-11-15 06:13:20 local time. *)
Definition nov : Z := 1700000000000000000.
(** A node that stopped reporting. *)
Definition sick : Node :=
  MkNode (metaNamed "10.0.0.7.i-1") "cn-hangzhou.i-1" [MkNodeCondition "Ready" "Unknown" 0 ""] [].
End SimOp.

(** ** Witnesses *)
Import Sim SimEnv SimWait SimPatch SimEtcd SimOp.

Lemma Reset_admitted_witness :
  "i-1" = i_Id stale ∧
  ∃ s1 s2 s3, After (i_CreatedAt stale) AdmitCreateThrottleTime (start_at nov) = (Ret true, s1) ∧
              AdmitECS lost AdmitECSThrottleTime s1 = (Ret true, s2) ∧
              AdmitNode lost AdmitNodeThrottleTime s2 = (Ret true, s3).
Proof.
  refine (Reset_admitted (W:=Z) pool lost stale (start_at nov)
            (NewContextWithCluster zeroClusterSpec) "i-1" "" (MkOption "" zeroValue) eq_refl _).
  eexists. split; [vm_compute; reflexivity|].
  repeat (apply elem_of_cons; first [left; reflexivity | right]).
Defined.

Lemma AdmitECS_throttle_witness :
  let eid := MkInstance "cn-hangzhou" "i-1" "10.0.0.7"
    [MkValue WdripLastUpdate (AStr (format_at 28800%Z stamp_sep stamp_suffix 1600000000000000000%Z))]
    "" "" "Running" in
  (1600000000000000000 `div` Second * Second + AdmitECSThrottleTime < nov)%Z.
Proof.
  intros eid.
  refine (AdmitECS_throttle (W:=Z) (MkNodeInfo WorkerUserdata (Some eid) None None) eid
            (MkValue WdripLastUpdate (AStr (format_at 28800%Z stamp_sep stamp_suffix 1600000000000000000%Z)))
            1600000000000000000%Z AdmitECSThrottleTime (start_at nov)
            (AdmitECS (W:=Z) (MkNodeInfo WorkerUserdata (Some eid) None None)
               AdmitECSThrottleTime (start_at nov)).2 eq_refl eq_refl eq_refl _ _).
  - vm_compute. split; discriminate.
  - vm_compute. reflexivity.
Defined.

Lemma unready_node_never_reset_witness :
  ¬ calls (W:=Z) (Reset_ pool (MkNodeInfo WorkerUserdata (Some stale) (Some sick) None)) (start_at nov)
      (PReplaceSystemDisk (NewContextWithCluster zeroClusterSpec) "i-1" "" (MkOption "" zeroValue)).
Proof.
  refine (unready_node_never_reset (W:=Z) pool (MkNodeInfo WorkerUserdata (Some stale) (Some sick) None)
            stale sick (start_at nov) _ _ _ _ eq_refl eq_refl eq_refl _).
  discriminate.
Defined.

Lemma LabelNode_writes_witness :
  let n0 := MkNode (set_Labels (Some {["a" := "b"]}) (metaNamed "10.0.0.7.i-1")) "" [] [] in
  let script := λ c (_ : Z), match c return option (reply c) with
    | KGet KNode _ _ => Some (n0, None)
    | _ => None end in
  ∃ n g, n_Labels n = Some g ∧
    ONode (node_with_labels (Some ({[MASTER_LABEL := ""]} ∪ {["a" := "b"]})) n0)
    = ONode (node_with_labels (Some ({[MASTER_LABEL := ""]} ∪ g)) n).
Proof.
  intros n0 script.
  refine (@LabelNode_writes Z (scripted script) _ _ _ lost {[MASTER_LABEL := ""]} (start_at 0) _ _).
  eexists. split; [vm_compute; reflexivity|].
  repeat (apply elem_of_cons; first [left; vm_compute; reflexivity | right]).
Defined.
