(* ===== verification/Healet.v ===== *)
(** * The healing loop (pkg/operator/heal/healet.go and infra.go)

    [InfraManager] reads the instances of the control plane and of a node pool
    from the provider; [Healet] compares them with the cluster and repairs: it
    deletes resources and nodes without instance, rebuilds Master resources,
    removes etcd members of vanished machines, and restarts or re-images one
    machine at a time. *)
From stdpp Require Import base list gmap strings.
From Stdlib Require Import Lia.
From S2P Require Import Prelude GoStrings GoTime Api Effects Provider Help Sign Etcd Triple Operation.

(** The mutable fields of [type Healet struct]; the rest is fixed at creation. *)
Record Healet : Type := MkHealet {
  he_state : string;
  he_isCtrlPlanInChecking : bool }.

Definition StateClean : string := "Clean".
Definition StateDirty : string := "Healthy".
Definition ActionInstanceIDS : string := "InstanceIDS".

Definition mark (state : string) (m : Healet) : Healet := MkHealet state (he_isCtrlPlanInChecking m).
Definition Healet_String (m : Healet) : string := "member heal: " +:+ he_state m.

(** The objects of [InitializeDefaultCR]. *)
Definition defaultMasterSet : MasterSet :=
  MkMasterSet (MkTypeMeta "MasterSet" "v1") (metaIn "kube-system" "masterset")
    (MkMasterSetSpec 1) (MkMasterSetStatus [] None).
Definition defaultNodePool : NodePool :=
  MkNodePool (MkTypeMeta "NodePool" "v1") (metaIn "kube-system" "default-nodepool")
    (MkNodePoolSpec "default-nodepool" false
       (MkInfra 0 "centos_7_9_x64_20G_alibase_20210623.vhd" 4 8 ∅ None)).

(** The labels of a control plane node. *)
Definition masterLabels : gmap string string :=
  {["node-role.kubernetes.io/master" := ""; "node-role.kubernetes.io/control-plane" := ""]}.

(** The Master resource [FixMasterCRD] rebuilds for a node with an address. *)
Definition rebuiltMaster (n : Node) (addr : string) : Master :=
  MkMaster (MkTypeMeta "Master" "alibabacloud.com/v1") (metaNamed (n_ProviderID n))
    (MkMasterSpec addr (n_ProviderID n) "Hybrid") (MkMasterStatus [] None "").

(** The setter of [FixNodePool]. *)
Definition poolLabelDiff (pool : string) (node : Node) : Node * error :=
  let l := default ∅ (n_Labels node) in
  (node_with_labels (Some (<[NODEPOOL_LABEL := pool]> l)) node, None).

(** [leader.Cmp(memid) == 0] of two [*big.Int]; comparing with a nil pointer
    panics, except a pointer with itself. *)
Definition bigEq (a b : option Z) : outcome bool :=
  match a, b with
  | Some x, Some y => Ret (x =? y)%Z
  | None, None => Ret true
  | _, _ => Panic "nil pointer dereference"
  end.

(** The channels of the loop: what it can receive.  Both [NotifyNodeEvent] and
    [NotifyNodePoolEvent] send to the channel [nodes]. *)
Inductive heal_event : Type :=
| OnNodes
| OnNodePool (np : option NodePool) (* the object, when it is a NodePool *)
| OnTick.
Definition NotifyNodeEvent : heal_event := OnNodes.
Definition NotifyNodePoolEvent : heal_event := OnNodes.


(** Does the loop, having received the event, close or send on the [Done]
    channel it carries?  No branch of [run] touches [event.Done]. *)
Definition signalsDone (ev : heal_event) : bool :=
  match ev with
  | OnNodes => false
  | OnNodePool _ => false
  | OnTick => false
  end.

Section operations.
Context {W : Type} `{Env W} `{PkgErrors} `{GoFmt} `{MapRange} `{LocalZone} `{WaitLib W}.
Context `{PatchLib} `{AggErrors} `{Json Members} `{Json (list EndpointStatus)} `{CryptoLib}.

(** ** infra.go *)

(** [NewInfraManager(cluster, prvd)]: the methods close over the specification
    (with the resource id found) and the stack. *)
Definition infraMethods (spec : Cluster) (stack : gmap string Value) : InfraI W :=
  let cctx := WithStack stack (NewContextWithCluster (cl_Spec spec)) in
  {| ControlPlaneECS :=
       '(detail, err) ← perform (PScalingGroupDetail cctx "" (MkOption "InstanceIDS" zeroValue));
       match err with
       | Some e => mret (∅, Errorf ("scaling group: " +:+ Error e))
       | None => mret (sg_Instances detail, None)
       end;
     NodePoolECS nps :=
       match np_Bind nps with
       | None => mret (∅, None)
       | Some bind =>
           '(detail, err) ← perform (PScalingGroupDetail cctx (b_ScalingGroupId bind)
                                       (MkOption ActionInstanceIDS zeroValue));
           match err with
           | Some e => mret (sg_Instances detail,
                             Wrapf (Some e) ("group " +:+ b_ScalingGroupId bind +:+ " detail"))
           | None => mret (sg_Instances detail, None)
           end
       end |}.
Definition NewInfraManager (cluster : Cluster) : IO W (Cluster * (InfraI W * error)) :=
  let nostack (c : Cluster) := infraMethods c ∅ in
  r ← (if decide (bi_ResourceId (cs_Bind (cl_Spec cluster)) = "") then
         '(resource, err) ← perform (PGetStackOutPuts (NewContextWithCluster (cl_Spec cluster))
              (MkClusterId noType (metaNamed (cs_ClusterID (cl_Spec cluster))) zeroClusterIdSpec));
         match err with
         | Some e => mret (inr (Wrapf (Some e) "provider: list resource"))
         | None =>
             id ← stackID resource;
             mret (inl (cl_with_Spec (cs_with_Bind
               (set_Bind_ResourceId id (cs_Bind (cl_Spec cluster))) (cl_Spec cluster)) cluster))
         end
       else mret (inl cluster));
  match r with
  | inr err => mret (cluster, (nostack cluster, err))
  | inl cluster =>
      '(cluster, (stack, err)) ← LoadStack NewContextWithCluster cluster;
      mret (cluster, (infraMethods cluster stack, err))
  end.

(** ** healet.go *)

(** [NewHealet(spec, client, prvd, drain)]: the getter, or an error; the
    specification comes back with the resource id filled in. *)
Definition NewHealet (spec : option Cluster) : IO W (option (Cluster * TripleGetter W) * error) :=
  r ← (match spec with
       | Some c => mret (inl c)
       | None =>
           '(c, err) ← h_Cluster KUBERNETES_CLUSTER;
           match err with
           | Some e => mret (inr (Wrapf (Some e) "find cluster spec"))
           | None => mret (inl c)
           end
       end);
  match r with
  | inr err => mret (None, err)
  | inl c =>
      '(c, (infra, err)) ← NewInfraManager c;
      match err with
      | Some e => mret (None, Wrapf (Some e) "new infra manager")
      | None => mret (Some (c, NewTripleGetter infra), None)
      end
  end.

Definition Healthy (getter : TripleGetter W) : IO W bool :=
  '(trip, err) ← NewTripleMaster getter;
  match err, trip with
  | Some _, _ => mret false
  | None, Some t => mret (SystemInConsistency t)
  | None, None => panic "nil pointer dereference"
  end.

(** [InitializeDefaultCR(client)]: a default object is created when none is
    there; other errors are logged.  A Get that fails leaves the default. *)
Definition InitializeDefaultCR : IO W unit :=
  '(_, err) ← perform (KGet KMasterSet "" "masterset");
  _ ← (match err with
       | Some e => if IsNotFound e then perform (KCreate (OMasterSet defaultMasterSet)) else mret None
       | None => mret None
       end);
  '(_, err) ← perform (KGet KNodePool "" "default-nodepool");
  _ ← (match err with
       | Some e => if IsNotFound e then perform (KCreate (ONodePool defaultNodePool)) else mret None
       | None => mret None
       end);
  mret tt.

(** [randn(n)] *)
Definition randn (n : nat) : IO W nat :=
  if decide (n ≤ 1) then mret 0
  else r ← perform (RandIntn (Z.of_nat n - 1)); mret (Z.to_nat r).

(** [l[i]] *)
Definition index {A} (l : list A) (i : nat) : IO W A :=
  match l !! i with Some x => mret x | None => panic "index out of range" end.

(** [info.Instance.Id], read by the log calls. *)
Definition instanceId (info : NodeInfo) : IO W string :=
  match ni_Instance info with Some i => mret (i_Id i) | None => panic "nil pointer dereference" end.

Definition fixUpHard (nop : OperationI W) (info : NodeInfo) : IO W error :=
  _ ← instanceId info;
  err ← op_RunCommand nop info "systemctl restart kubelet";
  match err with
  | None =>
      if decide (ni_Role info = JoinMasterUserdata) then op_LabelNode nop info masterLabels
      else mret None
  | Some _ =>
      _ ← op_Reset nop info;
      mret None
  end.

(** [fixUpSoft], deprecated: restart the kubelet, then the machine, then reset. *)
Definition fixUpSoft (nop : OperationI W) (info : NodeInfo) : IO W error :=
  _ ← instanceId info;
  err ← op_RunCommand nop info "systemctl restart kubelet";
  match err with
  | None => mret None
  | Some _ =>
      err ← op_Restart nop info;
      match err with
      | None => mret None
      | Some _ =>
          _ ← op_Reset nop info;
          mret None
      end
  end.

(** The first half of [FixUpNode]: nodes whose instance is gone. *)
Definition deleteNodes (deletion : list NodeInfo) : IO W (unit + error) :=
  range deletion tt (λ n _,
    match ni_Node n with
    | None => panic "nil pointer dereference"
    | Some x =>
        err ← perform (KDelete (ONode x));
        match (err : error) with
        | Some e => mret (Return (Errorf ("clean up node: " +:+ Error e)))
        | None => mret (Next tt)
        end
    end).

(** The second half: one machine without node, or one that is not ready. *)
Definition repairOne (trip : Triple) (nop : OperationI W) (addition : list NodeInfo) : IO W error :=
  match addition with
  | [] =>
      let info := UnReadyNodeList trip in
      if decide (length info ≤ 0) then mret None
      else
        i ← randn (length info);
        x ← index info i;
        fixUpHard nop x
  | noinfo :: _ =>
      _ ← lift (GetNodeName noinfo);
      fixUpHard nop noinfo
  end.

(** [FixUpNode(trip)] *)
Definition FixUpNode (trip : Triple) : IO W error :=
  let '(addition, deletion) := InstanceNodeDiff trip in
  r ← deleteNodes deletion;
  match r with
  | inr err => mret err
  | inl _ =>
      '(nop, err) ← NewOperation trip;
      match err with
      | Some e => mret (Wrapf (Some e) ("new node operation: " +:+ Triple_String trip))
      | None => repairOne trip nop addition
      end
  end.

(** [FixMasterCRD(nodes)]: failures to create are logged. *)
Definition FixMasterCRD (nodes : list NodeInfo) : IO W error :=
  r ← range (R:=unit) nodes tt (λ n _,
        match ni_Node n with
        | None => panic "nil pointer dereference"
        | Some x =>
            match n_Addresses x with
            | [] => panic "index out of range [0] with length 0"
            | addr :: _ =>
                _ ← perform (KCreate (OMaster (rebuiltMaster x addr)));
                mret (Next tt)
            end
        end);
  mret None.

(** [FixUpMeta(trip)] *)
Definition FixUpMeta (trip : Triple) : IO W error :=
  let '(deletions, missed) := MasterCRDDiff trip in
  r ← range deletions tt (λ d _,
        match ni_Resource d with
        | None => panic "nil pointer dereference"
        | Some m =>
            err ← perform (KDelete (OMaster m));
            match (err : error) with
            | Some e => mret (Return (Errorf ("remove master object: " +:+ Error e)))
            | None => mret (Next tt)
            end
        end);
  match r with
  | inr err => mret err
  | inl _ => FixMasterCRD missed
  end.

(** [FixUpEtcd(trip)] *)
Definition FixUpEtcd (trip : Triple) : IO W error :=
  if decide (t_mCRDs trip = []) then mret (Errorf "empty master: abort etcd fix")
  else
    '(metcd, err) ← NewEtcdFromCRD (t_mCRDs trip) (t_cluster trip) ETCD_TMP;
    match err, metcd with
    | Some e, _ => mret (Errorf ("new etcd: " +:+ Error e))
    | None, None => panic "nil pointer dereference"
    | None, Some metcd =>
        '(mems, err) ← MemberList metcd;
        match err with
        | Some e => mret (Errorf ("clean up etcd: member " +:+ Error e))
        | None =>
            r ← range (EtcdMemDiff trip (mb_Members mems)) tt (λ m _,
                  err ← RemoveMember metcd m;
                  match err with
                  | Some e => mret (Return (Errorf ("member center: remove member, " +:+ Error e)))
                  | None => mret (Next tt)
                  end);
            match r with
            | inr err => mret err
            | inl _ => mret None
            end
        end
    end.

(** The body of [FixMasterNode] between taking and releasing the lock. *)
Definition masterRepair (getter : TripleGetter W) : IO W error :=
  '(trip, err) ← NewTripleMaster getter;
  match err, trip with
  | Some e, _ => mret (Wrapf (Some e) "get Triple")
  | None, None => panic "nil pointer dereference"
  | None, Some trip =>
      err ← FixUpMeta trip;
      match err with
      | Some e => mret (Errorf ("master repair: clean up meta faild, " +:+ Error e))
      | None =>
          err ← FixUpEtcd trip;
          match err with
          | Some e => mret (Errorf ("sync, etcd: " +:+ Error e))
          | None => FixUpNode trip
          end
      end
  end.

(** The nodes of the pool's instances that lack the pool label. *)
Definition unlabelledNodes (pool : string) (detail : list Instance) (nodes : list Node) : list Node :=
  omap (λ d, match find_node nodes (i_Id d) with
             | Some n => if HasNodePoolID n pool then None else Some n
             | None => None
             end) detail.

(** [FixNodePool(pool)] *)
Definition FixNodePool (m : Healet) (getter : TripleGetter W) (pool : NodePool) : IO W error :=
  if he_isCtrlPlanInChecking m then
    mret (Errorf ("control plane is in checking, wait for next tick to fix node pool: " +:+ np_Name pool))
  else
    '(detail, err) ← GetNodePoolECS getter pool;
    match err with
    | Some e => mret (Wrapf (Some e) "get nodepool ecs")
    | None =>
        '(nodes, err) ← NodeItems;
        match err with
        | Some e => mret (Wrapf (Some e) "get all nodes")
        | None =>
            r ← range (unlabelledNodes (np_Name pool) (range_vals 20 detail) nodes) tt (λ n _,
                  '(_, err) ← Patch KNode n (poolLabelDiff (np_Name pool)) PatchSpec;
                  match err with
                  | Some e => mret (Return (Wrapf (Some e) "patch nodepool labels"))
                  | None => mret (Next tt)
                  end);
            match r with
            | inr err => mret err
            | inl _ =>
                '(trip, err) ← NewTripleWorker getter pool;
                match err, trip with
                | Some e, _ => mret (Wrapf (Some e) "get Triple")
                | None, None => panic "nil pointer dereference"
                | None, Some trip => FixUpNode trip
                end
            end
        end
    end.

(** [FixWDRIP()] *)
Definition FixWDRIP (getter : TripleGetter W) : IO W error :=
  '(wdrip, err) ← perform (KGet KDeployment "kube-system" "wdrip");
  match err with
  | Some _ => mret None
  | None =>
      if negb (dp_ReadyReplicas wdrip =? 0)%Z then mret None
      else
        '(trip, err) ← NewTripleMaster getter;
        match err, trip with
        | Some e, _ => mret (Wrapf (Some e) "get Triple")
        | None, None => panic "nil pointer dereference"
        | None, Some trip =>
            err ← FixUpMeta trip;
            match err with
            | Some e => mret (Wrapf (Some e) "fix wdrip and meta")
            | None =>
                let additions := (InstanceNodeDiff trip).1 in
                if decide (0 < length additions) then
                  i ← randn (length additions);
                  info ← index additions i;
                  '(nop, err) ← NewOperation trip;
                  match err with
                  | Some e => mret (Wrapf (Some e) "[FixWDRIP] new operations")
                  | None =>
                      _ ← op_RunCommand nop info "systemctl restart kubelet";
                      op_LabelNode nop info masterLabels
                  end
                else mret None
            end
        end
  end.

(** [RemoveFollower()]: the loop over the two endpoints. *)
Definition removeFollower (metcd : Etcd) (endps : list EndpointStatus) : IO W (string * error) :=
  r ← range endps tt (λ end_ _,
        same ← lift (bigEq (sta_Leader (eps_Status end_)) (hd_MemberID (sta_Header (eps_Status end_))));
        if (same : bool) then mret (Next tt)
        else
          let id := hd_MemberID (sta_Header (eps_Status end_)) in
          err ← RemoveMember metcd (MkMember id "" "" "" [] []);
          match err with
          | Some e => mret (Return (eps_Endpoint end_,
              Errorf ("remove member: " +:+ match id with Some z => fmt_xZ z | None => "<nil>" end
                      +:+ ", " +:+ Error e)))
          | None => mret (Return (eps_Endpoint end_, None))
          end);
  match r with
  | inr res => mret res
  | inl _ => mret ("", Errorf ("empty endpoint: " +:+ pp endps))
  end.
Definition RemoveFollower : IO W (string * error) :=
  '(masters, err) ← MasterCRDS;
  match err with
  | Some e => mret ("", Errorf ("member master: " +:+ Error e))
  | None =>
      '(spec, err) ← h_Cluster KUBERNETES_CLUSTER;
      match err with
      | Some e => mret ("", Errorf ("member: spec not found," +:+ Error e))
      | None =>
          '(metcd, err) ← NewEtcdFromCRD masters (Some spec) ETCD_TMP;
          match err, metcd with
          | Some e, _ => mret ("", Errorf ("new etcd: " +:+ Error e))
          | None, None => panic "nil pointer dereference"
          | None, Some metcd =>
              '(endps, err) ← Endpoints metcd;
              match err with
              | Some e => mret ("", Errorf ("endpoint status fail: " +:+ Error e))
              | None =>
                  if negb (bool_decide (length endps = 2)) then
                    mret ("", Errorf "remove follower can only work with 2 etcd member")
                  else if bool_decide (length endps = 1) then mret ("", None)
                  else removeFollower metcd endps
              end
          end
      end
  end.

(** ** State: the healing center as a whole *)

(** [FixMasterNode()]: the flag is set while the repair runs and cleared by the
    deferred function, also when the repair panics. *)
Definition FixMasterNode (getter : TripleGetter W) (m : Healet) : IO W (Healet * error) :=
  err ← masterRepair getter;
  mret (MkHealet (he_state m) false, err).

(** One turn of the loop in [run]; [false]: the function returns (and is started
    again by [wait.Forever]). *)
Definition run_event (getter : TripleGetter W) (m : Healet) (ev : heal_event)
    : IO W (Healet * bool) :=
  match ev with
  | OnNodes => mret (m, true)
  | OnNodePool None => mret (m, false)
  | OnNodePool (Some np) => _ ← FixNodePool m getter np; mret (m, true)
  | OnTick => '(m, _) ← FixMasterNode getter m; mret (m, true)
  end.

(** [Start(ctx)] up to the loop. *)
Definition Start (getter : TripleGetter W) (initSpec : Cluster) (synced : bool) (m : Healet)
    : IO W (Healet * error) :=
  if negb synced then mret (m, Errorf "member heal wait for cache sync")
  else
    _ ← InitializeDefaultCR;
    incl ← InCluster;
    if (incl : bool) then
      let silent := if (cs_SilentTime (cl_Spec initSpec) =? 0)%Z then 60%Z
                    else cs_SilentTime (cl_Spec initSpec) in
      _ ← perform (Sleep (silent * Second));
      '(m, _) ← FixMasterNode getter m;
      mret (m, None)
    else mret (m, None).
End operations.

(** [rand.Intn(n)] is below [n]. *)
Class RandSpec (W : Type) `{Env W} : Prop :=
  rand_range n w : (0 < n)%Z → (0 ≤ (env_step (RandIntn n) w).1 < n)%Z.

(** ** Lemmas *)
Section facts.
Context {W : Type} `{Env W} `{PkgErrors} `{GoFmt} `{MapRange} `{LocalZone} `{!WaitLib W}.
Context `{PatchLib} `{AggErrors} `{Json Members} `{Json (list EndpointStatus)} `{CryptoLib}.

(** Building the triple only reads. *)
Definition read_call (c : call) : Prop :=
  match c with KGet _ _ _ | KList _ _ | PScalingGroupDetail _ _ _ => True | _ => False end.

Lemma emits_NewTripleMaster spec stack :
  emits read_call (NewTripleMaster (W:=W) (NewTripleGetter (infraMethods spec stack))).
Proof.
  unfold NewTripleMaster. cbn [NewTripleGetter infraMethods GetClusterItem GetMasterCR
    GetMasterNodeList GetControlPlaneECS ControlPlaneECS].
  unfold h_Cluster, MasterCRDS, MasterNodes. solve_emits; done.
Qed.

(** Fixing one machine concerns that machine only. *)
Lemma emits_fixUpHard `{!WaitSpec W} trip nop info eid :
  (NewOperation (W:=W) trip = mret (nop, None)) → ni_Instance info = Some eid →
  emits (machine_call (i_Id eid)) (fixUpHard nop info).
Proof.
  intros Hnop Hi. assert (∀ s : St W, (Ret (nop, None), s) = NewOperation trip s) as Hn
    by (intros s; by rewrite Hnop).
  unfold fixUpHard, instanceId. rewrite Hi. apply emits_bind; [apply emits_ret|]. intros _.
  apply emits_bind.
  { intros s. specialize (Hn s). injection Hn as ->. by apply emits_runCommand_machine. }
  intros [e|].
  - apply emits_bind; [|intros; apply emits_ret].
    intros s. specialize (Hn s). injection Hn as ->. by apply emits_Reset_machine.
  - case_decide; [|apply emits_ret].
    intros s. specialize (Hn s). injection Hn as ->. apply emits_LabelNode_machine.
Qed.

(** Deletions of the nodes of the given entries. *)
Definition node_delete (dels : list NodeInfo) (c : call) : Prop :=
  ∃ i n, i ∈ dels ∧ ni_Node i = Some n ∧ c = KDelete (ONode n).

Lemma emits_deleteNodes dels : emits (node_delete dels) (deleteNodes (W:=W) dels).
Proof.
  apply emits_range. intros i [] Hi. destruct (ni_Node i) as [n|] eqn:Hn; [|apply emits_panic].
  apply emits_bind; [emits_call; by exists i, n|]. intros e. destruct e; apply emits_ret.
Qed.

Lemma randn_eq n (s : St W) :
  randn n s = (Ret (if decide (n ≤ 1) then 0 else Z.to_nat (env_step (RandIntn (Z.of_nat n - 1)) (world s)).1),
               if decide (n ≤ 1) then s
               else MkSt (env_step (RandIntn (Z.of_nat n - 1)) (world s)).2
                         (log s ++ [RandIntn (Z.of_nat n - 1)])).
Proof. unfold randn. case_decide; [done|]. by step_perform. Qed.

(** The repair of a pass concerns one machine, an instance of the triple that
    has no node or a node that is not ready. *)
Lemma repairOne_machine `{!WaitSpec W} trip nop (s : St W) :
  NewOperation (W:=W) trip = mret (nop, None) →
  ∃ id, run_emits (machine_call id) (repairOne trip nop (InstanceNodeDiff trip).1) s.
Proof.
  intros Hnop. unfold repairOne.
  assert (∀ info, info ∈ (InstanceNodeDiff trip).1 ∨ info ∈ UnReadyNodeList trip →
    ∃ eid, ni_Instance info = Some eid) as Hinst.
  { intros info [Hin|Hin]; apply elem_of_lfilter in Hin as [_ Hb];
      destruct (ni_Instance info); eauto; [done|]. by destruct (ni_Node info). }
  destruct (InstanceNodeDiff trip).1 as [|noinfo rest].
  - case_decide; [exists ""; apply emits_ret|].
    set (i := if decide (length (UnReadyNodeList trip) ≤ 1) then 0
              else Z.to_nat (env_step (RandIntn (Z.of_nat (length (UnReadyNodeList trip)) - 1)) (world s)).1).
    destruct (UnReadyNodeList trip !! i) as [x|] eqn:Hx.
    + destruct (Hinst x) as [eid He]; [right; by eapply list_elem_of_lookup_2|].
      exists (i_Id eid). apply run_emits_bind.
      { unfold randn. case_decide; [apply emits_ret|].
        apply emits_bind; [by emits_call|intros; apply emits_ret]. }
      intros a s1 Ha. rewrite randn_eq in Ha. assert (a = i) as -> by (subst i; congruence). clear Ha.
      apply run_emits_bind; [unfold index; rewrite Hx; apply emits_ret|].
      intros y s2 Hy. unfold index in Hy. rewrite Hx in Hy. injection Hy as <- <-.
      by apply emits_fixUpHard with trip.
    + exists "". apply run_emits_bind.
      { unfold randn. case_decide; [apply emits_ret|].
        apply emits_bind; [by emits_call|intros; apply emits_ret]. }
      intros a s1 Ha. rewrite randn_eq in Ha. assert (a = i) as -> by (subst i; congruence). clear Ha.
      apply run_emits_bind; [unfold index; rewrite Hx; apply emits_panic|].
      intros y s2 Hy. unfold index in Hy. by rewrite Hx in Hy.
  - destruct (Hinst noinfo) as [eid He]; [left; by left|]. exists (i_Id eid).
    apply emits_bind; [apply emits_lift|]. intros _. by apply emits_fixUpHard with trip.
Qed.

Lemma FixUpNode_run `{!WaitSpec W} trip (s : St W) :
  ∃ id, run_emits (λ c, node_delete (InstanceNodeDiff trip).2 c ∨ machine_call id c) (FixUpNode trip) s.
Proof.
  unfold FixUpNode. pose proof (repairOne_machine trip) as Hrep.
  destruct (InstanceNodeDiff trip) as [addition deletion] eqn:HD. simpl in Hrep |- *.
  destruct (deleteNodes deletion s) as [[[[]|err]|msg|] s1] eqn:Hd.
  1: destruct (Hrep _ s1 eq_refl) as [id Hid]; exists id.
  2-4: exists "".
  all: apply run_emits_bind;
    [ eapply run_emits_weaken; [|apply emits_deleteNodes]; by left
    | intros a s2 Ha; rewrite Hd in Ha; try discriminate Ha; injection Ha as <- <- ].
  - apply run_emits_bind; [apply emits_ret|]. intros [nop e] s3 Hn. injection Hn as <- <- <-.
    eapply run_emits_weaken; [|exact Hid]. by right.
  - apply emits_ret.
Qed.
End facts.

Section facts2.
Context {W : Type} `{Env W} `{PkgErrors} `{GoFmt} `{MapRange} `{LocalZone} `{!WaitLib W}.
Context `{PatchLib} `{AggErrors} `{Json Members} `{Json (list EndpointStatus)} `{CryptoLib}.

(** Meta data repair deletes the resources the comparison names, and creates. *)
Definition meta_call (trip : Triple) (c : call) : Prop :=
  match c with
  | KDelete o => ∃ i m, i ∈ (MasterCRDDiff trip).1 ∧ ni_Resource i = Some m ∧ o = OMaster m
  | KCreate _ => True
  | _ => False
  end.

Lemma emits_FixUpMeta trip : emits (meta_call trip) (FixUpMeta (W:=W) trip).
Proof.
  unfold FixUpMeta. destruct (MasterCRDDiff trip) as [dels missed] eqn:HD.
  apply emits_bind.
  - apply emits_range. intros i [] Hi. destruct (ni_Resource i) as [m|] eqn:Hm; [|apply emits_panic].
    apply emits_bind; [|intros e; destruct e; apply emits_ret].
    emits_call. simpl. rewrite HD. by exists i, m.
  - intros r. destruct r; [|apply emits_ret]. unfold FixMasterCRD. solve_emits; done.
Qed.

(** Removal commands of the etcd repair. *)
Definition removal (c : call) : Prop :=
  ∃ m ep x, c = etcdctl m ep ["member"; "remove"; x].
Definition diff_removal (trip : Triple) (c : call) : Prop :=
  removal c → ∃ mems mem m ep id, mem ∈ EtcdMemDiff trip mems ∧ mem_ID mem = Some id ∧
                c = etcdctl m ep ["member"; "remove"; fmt_xZ id].

Lemma removal_id m ep x m' ep' x' :
  etcdctl m ep ["member"; "remove"; x] = etcdctl m' ep' ["member"; "remove"; x'] → x = x'.
Proof.
  intros Heq. apply (f_equal (λ c, match c with Run _ args _ => last args | _ => None end)) in Heq.
  by injection Heq.
Qed.

Lemma list_not_removal m c : list_cmd m c → ¬ removal c.
Proof. intros (ip & _ & ->) (m' & ep & x & Heq). done. Qed.

Lemma emits_FixUpEtcd trip :
  emits (λ c, local_call c ∧ diff_removal trip c) (FixUpEtcd (W:=W) trip).
Proof.
  unfold FixUpEtcd. case_decide; [apply emits_ret|]. apply emits_bind.
  { apply emits_NewEtcdFromCRD. intros c [Hl Hr]. split; [done|]. by intros (?&?&?&->). }
  intros [metcd err]. destruct err; [apply emits_ret|]. destruct metcd as [m|]; [|apply emits_panic].
  apply emits_bind.
  { apply emits_MemberList.
    - intros c Hc. split; [by destruct Hc as (?&_&->)|]. intros Hr. by destruct (list_not_removal _ _ Hc Hr).
    - intros d. split; [done|]. by intros (?&?&?&?). }
  intros [mems err]. destruct err; [apply emits_ret|].
  apply emits_bind; [|intros r; destruct r; apply emits_ret].
  apply emits_range. intros mem [] Hmem. apply emits_bind; [|intros e; destruct e; apply emits_ret].
  apply emits_RemoveMember.
  - intros ip id _ Hid _. split; [done|]. intros _. eauto 10.
  - intros d. split; [done|]. by intros (?&?&?&?).
Qed.
End facts2.

(** ** Properties *)
Section properties.
Context {W : Type} `{Env W} `{PkgErrors} `{GoFmt} `{MapRange} `{LocalZone} `{!WaitLib W}.
Context `{PatchLib} `{AggErrors} `{Json Members} `{Json (list EndpointStatus)} `{CryptoLib}.

(** C2: a repair pass over the control plane deletes only what has no instance
    any more: a deleted Master resource contains no instance id, and so does a
    deleted node, provided no instance id occurs in two provider ids. *)
Theorem repair_deletes_only_dead `{!WaitSpec W, !PkgErrorsSpec, !MapRangeSpec} spec stack s o :
  let getter := NewTripleGetter (infraMethods spec stack) in
  calls (masterRepair (W:=W) getter) s (KDelete o) →
  ∃ t s1, NewTripleMaster getter s = (Ret (Some t, None), s1) ∧
    ((∃ k, o = OMaster k ∧ k ∈ t_mCRDs t ∧
           ∀ d, d ∈ t_instances t → Contains (ms_ID (m_Spec k)) (i_Id d) = false) ∨
     (∃ n, o = ONode n ∧
           ((∀ d n1 n2, d ∈ t_instances t → n1 ∈ t_mnodes t → n2 ∈ t_mnodes t →
               Contains (n_ProviderID n1) (i_Id d) = true →
               Contains (n_ProviderID n2) (i_Id d) = true → n1 = n2) →
            ∀ d, d ∈ t_instances t → Contains (n_ProviderID n) (i_Id d) = false))).
Proof.
  intros getter Hc. destruct (NewTripleMaster getter s) as [o1 s1] eqn:HT.
  assert (run_emits (λ c, c = KDelete o → ∃ t, o1 = Ret (Some t, None) ∧
    (meta_call t c ∨ node_delete (InstanceNodeDiff t).2 c)) (masterRepair getter) s) as Hrun.
  { apply run_emits_bind.
    { eapply run_emits_weaken; [|apply emits_NewTripleMaster]. by intros c Hr ->. }
    intros [trip err] s2 Ha. rewrite HT in Ha. injection Ha as -> ->.
    destruct err; [apply emits_ret|]. destruct trip as [t|]; [|apply emits_panic].
    apply run_emits_bind.
    { eapply run_emits_weaken; [|apply emits_FixUpMeta]. intros c Hm ->. eauto. }
    intros err s3 _. destruct err; [apply emits_ret|]. apply run_emits_bind.
    { eapply run_emits_weaken; [|apply emits_FixUpEtcd]. by intros c [Hl _] ->. }
    intros err s4 _. destruct err; [apply emits_ret|].
    destruct (FixUpNode_run t s4) as [id Hid]. eapply run_emits_weaken; [|exact Hid].
    intros c [Hd|Hm] ->; [eauto|done]. }
  destruct (run_emits_calls _ _ _ _ Hrun Hc eq_refl) as (t & Ho & Hcase).
  rewrite Ho in HT. exists t, s1. split; [by rewrite Ho|]. 
  destruct Hcase as [(i & m & Hi & Hm & ->)|(i & n & Hi & Hn & [= ->])].
  - left. destruct (crd_deletion_ok _ _ _ _ _ HT Hi) as (k & Hk & ? & ?). exists k.
    split_and!; [congruence|done..].
  - right. exists n. split; [done|]. intros Hu d Hd.
    destruct (node_deletion_ok _ _ _ _ _ HT Hu Hi) as (n' & Hn' & _ & Hno).
    rewrite Hn in Hn'. injection Hn' as <-. auto.
Qed.

(** One pass over the nodes repairs at most one machine: apart from the
    deletions of nodes without instance, all its calls to the provider concern
    a single instance, and nothing is created. *)
Theorem FixUpNode_one_machine `{!WaitSpec W} trip (s : St W) :
  ∃ id new, log (FixUpNode trip s).2 = log s ++ new ∧
    Forall (λ c, node_delete (InstanceNodeDiff trip).2 c ∨ machine_call id c) new.
Proof. destruct (FixUpNode_run trip s) as [id (new & ? & ?)]. by exists id, new. Qed.

(** The etcd repair removes only members without instance, as computed by
    [EtcdMemDiff] from a member list it read. *)
Theorem FixUpEtcd_removes_diff trip (s : St W) m ep x :
  calls (FixUpEtcd trip) s (etcdctl m ep ["member"; "remove"; x]) →
  ∃ mems mem id, mem ∈ EtcdMemDiff trip mems ∧ mem_ID mem = Some id ∧ x = fmt_xZ id.
Proof.
  intros Hc. apply (calls_emits _ _ _ _ (emits_FixUpEtcd trip)) in Hc as [_ Hd].
  destruct Hd as (mems & mem & m' & ep' & id & ? & ? & Heq); [by exists m, ep, x|].
  apply removal_id in Heq as ->. by exists mems, mem, id.
Qed.

(** Removing a follower never removes the leader: the member removed is one
    of the endpoints and reports another member as leader. *)
Theorem removeFollower_not_leader metcd endps (s : St W) m ep x :
  calls (removeFollower metcd endps) s (etcdctl m ep ["member"; "remove"; x]) →
  ∃ e id l, e ∈ endps ∧ hd_MemberID (sta_Header (eps_Status e)) = Some id ∧
            sta_Leader (eps_Status e) = Some l ∧ l ≠ id ∧ x = fmt_xZ id.
Proof.
  intros Hc. refine (calls_emits (λ c, c = etcdctl m ep ["member"; "remove"; x] → _) _ _ _ _ Hc eq_refl).
  apply emits_bind; [|intros r; destruct r; apply emits_ret].
  apply emits_range. intros e [] He. unfold bigEq.
  destruct (sta_Leader (eps_Status e)) as [l|] eqn:Hl,
    (hd_MemberID (sta_Header (eps_Status e))) as [id|] eqn:Hid;
    [|intros st; exists []; by rewrite app_nil_r..].
  intros st. rewrite bind_unfold. simpl. destruct (Z.eqb_spec l id) as [|Hne].
  { exists []. by rewrite app_nil_r. }
  revert st. change (emits (λ c, c = etcdctl m ep ["member"; "remove"; x] →
    ∃ e0 id0 l0, e0 ∈ endps ∧ hd_MemberID (sta_Header (eps_Status e0)) = Some id0 ∧
      sta_Leader (eps_Status e0) = Some l0 ∧ l0 ≠ id0 ∧ x = fmt_xZ id0)
    (err ← RemoveMember (W:=W) metcd (MkMember (Some id) "" "" "" [] []);
     match err with
     | Some e0 => mret (Return (L:=unit) (eps_Endpoint e,
         Errorf ("remove member: " +:+ fmt_xZ id +:+ ", " +:+ Error e0)))
     | None => mret (Return (eps_Endpoint e, None))
     end)).
  apply emits_bind; [|intros err; destruct err; apply emits_ret].
  apply emits_RemoveMember; [|done]. intros ip id' _ [= <-] _ Heq. apply removal_id in Heq as <-.
  by exists e, id, l.
Qed.

(** The machine picked among several is never the last one: [randn] of
    [n > 1] stays below [n - 1]. *)
Theorem randn_skips_last `{!RandSpec W} n (s : St W) :
  1 < n → ∃ i s', randn n s = (Ret i, s') ∧ i < n - 1.
Proof.
  intros Hn. rewrite randn_eq. rewrite !decide_False by lia. eexists _, _. split; [done|].
  pose proof (rand_range (Z.of_nat n - 1) (world s) ltac:(lia)) as Hr.
  destruct (env_step (RandIntn _) _) as [r w]. simpl in *. lia.
Qed.
End properties.

(** ** Witnesses *)
Import Sim SimEnv SimWait SimPatch SimEtcd SimOp TripleTest.

(** One live control plane machine, and a node and a resource of a machine that
    is gone. *)
Module SimHeal.
Definition script : ∀ c : call, Z → option (reply c) := λ c _,
  match c with
  | KList KNode _ => Some ([node1; node2], None)
  | KList KMaster _ => Some ([master1; master2], None)
  | PScalingGroupDetail _ _ _ => Some (MkScaleGroupDetail "asg" {[id1 := inst1]}, None)
  | Run _ args _ =>
      Some (if decide ("list" ∈ args)
            then MkCmdStatus 0 None ["https://192.168.0.103:2380,https://192.168.0.104:2380"] []
            else MkCmdStatus 0 None [] [])
  | _ => None
  end.
#[export] Instance heal_env : Env Z := scripted script.
#[export] Instance heal_rand : RandSpec Z.
Proof. intros n w Hn. unfold env_step, heal_env, scripted. simpl. lia. Qed.
Definition getter : TripleGetter Z := NewTripleGetter (infraMethods zeroCluster ∅).
End SimHeal.
Import SimHeal.

Lemma repair_deletes_only_dead_witness :
  ∃ t s1, NewTripleMaster getter (start_at 0) = (Ret (Some t, None), s1) ∧
    ((∃ k, OMaster master2 = OMaster k ∧ k ∈ t_mCRDs t ∧
           ∀ d, d ∈ t_instances t → Contains (ms_ID (m_Spec k)) (i_Id d) = false) ∨
     (∃ n, OMaster master2 = ONode n ∧
           ((∀ d n1 n2, d ∈ t_instances t → n1 ∈ t_mnodes t → n2 ∈ t_mnodes t →
               Contains (n_ProviderID n1) (i_Id d) = true →
               Contains (n_ProviderID n2) (i_Id d) = true → n1 = n2) →
            ∀ d, d ∈ t_instances t → Contains (n_ProviderID n) (i_Id d) = false))).
Proof.
  refine (repair_deletes_only_dead (W:=Z) zeroCluster ∅ (start_at 0) (OMaster master2) _).
  eexists. split; [vm_compute; reflexivity|].
  repeat (apply elem_of_cons; first [left; vm_compute; reflexivity | right]).
Defined.

Lemma FixUpNode_one_machine_witness :
  ∃ id new, log (FixUpNode pool (start_at nov)).2 = [] ++ new ∧
    Forall (λ c, node_delete (InstanceNodeDiff pool).2 c ∨ machine_call id c) new.
Proof. exact (FixUpNode_one_machine (W:=Z) pool (start_at nov)). Defined.

Lemma FixUpEtcd_removes_diff_witness :
  ∃ mems mem id, mem ∈ EtcdMemDiff (trip [node1; node2] [master1; master2] [inst1]) mems ∧
                 mem_ID mem = Some id ∧ "2" = fmt_xZ id.
Proof.
  refine (FixUpEtcd_removes_diff (W:=Z) (trip [node1; node2] [master1; master2] [inst1]) (start_at 0)
            (MkEtcd ETCD_TMP ip2 [ip1; ip2]) "https://192.168.0.103:2379" "2" _).
  eexists. split; [vm_compute; reflexivity|].
  repeat (apply elem_of_cons; first [left; vm_compute; reflexivity | right]).
Defined.

Lemma removeFollower_not_leader_witness :
  let st (me : Z) := MkStatus (MkHeader None (Some me) None None) "" None (Some 1%Z) None None in
  let endps := [MkEndpointStatus "a" (st 1%Z); MkEndpointStatus "b" (st 2%Z)] in
  ∃ e id l, e ∈ endps ∧ hd_MemberID (sta_Header (eps_Status e)) = Some id ∧
            sta_Leader (eps_Status e) = Some l ∧ l ≠ id ∧ "2" = fmt_xZ id.
Proof.
  intros st endps.
  refine (removeFollower_not_leader (W:=Z) me endps (start_at 0) me "https://10.0.0.1:2379" "2" _).
  eexists. split; [vm_compute; reflexivity|].
  repeat (apply elem_of_cons; first [left; vm_compute; reflexivity | right]).
Defined.

Lemma randn_skips_last_witness : ∃ i s', randn (W:=Z) 3 (start_at 0) = (Ret i, s') ∧ i < 3 - 1.
Proof. refine (randn_skips_last (W:=Z) 3 (start_at 0) _). lia. Defined.
