(* ===== verification/MasterSet.v ===== *)
(** * The control plane size (pkg/operator/controllers/master)

    masterset.go: the reconciler that scales the scaling group of the control
    plane to the replicas of the MasterSet, in batches that keep a quorum of
    etcd members; node_controller.go: the reconciler of master nodes. *)
From stdpp Require Import base list gmap strings.
From Stdlib Require Import Lia.
From S2P Require Import Prelude GoStrings GoTime Api Sdk Effects Provider Help Sign Etcd Triple Operation.
From S2P Require Import Healet.
Local Open Scope Z_scope.

#[local] Ltac Zify.zify_post_hook ::= Z.to_euclidean_division_equations.

(** The size the next batch scales in to. *)
Definition quorumTarget (current expect : Z) : Z :=
  let max := Max ((current - 1) `quot` 2) 1 in
  Max (current - max) expect.

(** [findId(ecs, ip)]: [ip] is really the client URL of an endpoint. *)
Definition findId `{MapRange} (ecs : gmap string Instance) (ip : string) : string :=
  match List.find (λ i, bool_decide (ip = "https://" +:+ i_Ip i +:+ ":2379")) (range_vals 30 ecs) with
  | Some i => i_Id i
  | None => ""
  end.

(** [ctrl.Result{}] *)
Definition NoResult : ReconcileResult := MkResult_ false 0.

Section operations.
Context {W : Type} `{Env W} `{PkgErrors} `{GoFmt} `{MapRange} `{LocalZone} `{WaitLib W}.
Context `{PatchLib} `{AggErrors} `{Json Members} `{Json (list EndpointStatus)} `{CryptoLib}.

(** [QuorumScale(mfunc, current, expect)] *)
Definition QuorumScale (mfunc : Z → IO W error) (current expect : Z) : IO W error :=
  if expect =? current then mret None
  else if current <? expect then mfunc expect
  else
    err ← mfunc (quorumTarget current expect);
    match err with
    | Some e => mret (Some e)
    | None => mret (Errorf "RetryNextBatch")
    end.

(** The closure [scale] of [Reconcile].  When the control plane is not healthy
    it wraps the [err] of the enclosing function, which is nil by then. *)
Definition scale (getter : TripleGetter W) (cctx : Context_) (detail : ScaleGroupDetail)
    (expect : Z) : IO W error :=
  healthy ← Healthy getter;
  if negb healthy then mret (Wrapf None "[QuorumScale] controlplane not healthy, wait retry")
  else if expect =? 1 then
    '(ip, err) ← RemoveFollower;
    match err with
    | Some e => mret (Errorf ("quorum remove etcd member: " +:+ Error e))
    | None =>
        let id := findId (sg_Instances detail) ip in
        if decide (id = "") then mret (Errorf ("ecs not found by ip: " +:+ ip))
        else
          err ← perform (PRemoveScalingGroupECS cctx "" id);
          match (err : error) with
          | Some e => mret (Errorf ("remove ecs from scaling group: " +:+ Error e))
          | None => mret None
          end
    end
  else
    err ← perform (PScaleMasterGroup cctx "" expect);
    match (err : error) with
    | Some e =>
        _ ← perform (Sleep (30 * Second));
        mret (Errorf ("scale master group: " +:+ Error e))
    | None => mret None
    end.

(** [Reconcile(ctx, req)] of the MasterSet; [cctx] is the shared provider
    context. *)
Definition MasterSet_Reconcile (getter : TripleGetter W) (cctx : Context_) (h : Healet)
    : IO W (Healet * (ReconcileResult * error)) :=
  healthy ← Healthy getter;
  if negb healthy then
    '(h, _) ← FixMasterNode getter h;
    mret (h, (MkResult_ true (1 * Minute), None))
  else
    '(ms, err) ← h_MasterSet "masterset";
    match err with
    | Some _ => mret (h, (MkResult_ true (1 * Minute), None))
    | None =>
        let replicas := mss_Replicas (mset_Spec ms) in
        '(mnode, err) ← MasterNodes;
        match err with
        | Some e => mret (h, (NoResult, Errorf ("get nodes: " +:+ Error e)))
        | None =>
            if Z.of_nat (length mnode) =? replicas then mret (h, (NoResult, None))
            else
              '(detail, err) ← perform (PScalingGroupDetail cctx "" (MkOption "InstanceIDS" zeroValue));
              match err with
              | Some _ => mret (h, (MkResult_ true (15 * Second), None))
              | None =>
                  let current := Z.of_nat (size (sg_Instances detail)) in
                  if current =? replicas then mret (h, (NoResult, None))
                  else
                    '(ud, err) ← perform (PUserData cctx JoinMasterUserdata);
                    match err with
                    | Some e => mret (h, (NoResult, Wrapf (Some e) "join master userdata"))
                    | None =>
                        err ← perform (PModifyScalingConfig cctx ""
                                 [MkOption "UserData" (MkValue "" (AStr ud))]);
                        match (err : error) with
                        | Some _ => mret (h, (MkResult_ true (30 * Second), None))
                        | None =>
                            err ← QuorumScale (scale getter cctx detail) current replicas;
                            mret (h, (NoResult, err))
                        end
                    end
              end
        end
    end.

(** [res := <-done] on a fresh channel that only the receiver of [ev] knows. *)
Definition awaitDone (ev : heal_event) : IO W unit :=
  if signalsDone ev then mret tt else hang.

(** node_controller.go: [Reconcile(ctx, req)].  For a master that is not ready
    the event is handed to the healing loop and the reply awaited. *)
Definition RepairReconciler_Reconcile (reqName : string) : IO W (ReconcileResult * error) :=
  '(n, err) ← h_Node reqName;
  match err with
  | Some e => if IsNotFound e then mret (NoResult, None) else mret (NoResult, Some e)
  | None =>
      if negb (IsMaster n) then mret (NoResult, None)
      else if negb (NodeReady n) then
        _ ← awaitDone NotifyNodeEvent;
        mret (NoResult, None)
      else mret (NoResult, None)
  end.
End operations.

(** ** Lemmas *)
Lemma quorumTarget_bounds current expect :
  expect < current → expect ≤ quorumTarget current expect < current.
Proof.
  intros He. unfold quorumTarget. rewrite !Max_max. lia.
Qed.

(** ** Properties *)

(** C12: one batch of scaling in makes progress towards the expected size without
    passing it, and from three or more members it leaves a majority of the
    current ones; the size 1 is only ever the next step from 2, the case in
    which a follower is removed by hand. *)
Theorem quorum_batch current expect :
  expect < current →
  expect ≤ quorumTarget current expect < current ∧
  (3 ≤ current → current < 2 * quorumTarget current expect) ∧
  (1 ≤ expect → quorumTarget current expect = 1 → current = 2).
Proof.
  intros He. split; [by apply quorumTarget_bounds|].
  unfold quorumTarget. rewrite !Max_max. split; lia.
Qed.

(** Repeated batches reach the expected size: from [current] members at most
    [current - expect] batches are needed. *)
Theorem quorum_batches_converge current expect :
  0 ≤ expect ≤ current →
  ∃ n, (n ≤ Z.to_nat (current - expect))%nat ∧
       Nat.iter n (λ c, if c =? expect then c else quorumTarget c expect) current = expect.
Proof.
  intros [H0 He].
  remember (Z.to_nat (current - expect)) as k eqn:Hk. revert current He Hk.
  induction k as [k IH] using lt_wf_ind. intros current He ->.
  destruct (Z.eq_dec current expect) as [->|Hne]; [by exists 0%nat; split; [lia|]|].
  destruct (quorumTarget_bounds current expect) as [Hlo Hhi]; [lia|].
  destruct (IH (Z.to_nat (quorumTarget current expect - expect))) with (quorumTarget current expect)
    as (n & Hn & Hit); [lia|lia|done|].
  exists (S n). split; [lia|]. rewrite Nat.iter_succ_r. 
  destruct (Z.eqb_spec current expect); [done|]. done.
Qed.

Section properties.
Context {W : Type} `{Env W} `{PkgErrors} `{GoFmt} `{MapRange} `{LocalZone} `{!WaitLib W}.
Context `{PatchLib} `{AggErrors} `{Json Members} `{Json (list EndpointStatus)} `{CryptoLib}.

Lemma QuorumScale_eq (mfunc : Z → IO W error) current expect s :
  QuorumScale mfunc current expect s =
  match Z.compare current expect with
  | Eq => (Ret None, s)
  | Lt => mfunc expect s
  | Gt => match mfunc (quorumTarget current expect) s with
          | (Ret None, s') => (Ret (Errorf "RetryNextBatch"), s')
          | r => r
          end
  end.
Proof.
  unfold QuorumScale. destruct (Z.compare_spec current expect) as [->|Hlt|Hgt].
  - by rewrite Z.eqb_refl.
  - destruct (Z.eqb_spec expect current); [lia|]. destruct (Z.ltb_spec current expect); [done|lia].
  - destruct (Z.eqb_spec expect current); [lia|]. destruct (Z.ltb_spec current expect); [lia|].
    rewrite bind_unfold. by destruct (mfunc _ s) as [[[e|]|msg|] s'].
Qed.

(** The size the scaling group may be set to. *)
Definition scale_target (current expect n : Z) : Prop :=
  n ≠ 1 ∧ (current < expect ∧ n = expect ∨ expect < current ∧ n = quorumTarget current expect).

Lemma emits_Healthy spec stack :
  emits read_call (Healthy (W:=W) (NewTripleGetter (infraMethods spec stack))).
Proof.
  unfold Healthy. apply emits_bind; [apply emits_NewTripleMaster|].
  intros [trip err]. destruct err; [apply emits_ret|]. destruct trip; [apply emits_ret|apply emits_panic].
Qed.

(** Calls other than setting the size of the control plane. *)
Definition no_scale (c : call) : Prop :=
  match c with PScaleMasterGroup _ _ _ => False | _ => True end.

Lemma read_no_scale c : read_call c → no_scale c.
Proof. by destruct c. Qed.

Lemma emits_masterRepair_no_scale `{!WaitSpec W} spec stack :
  emits no_scale (masterRepair (W:=W) (NewTripleGetter (infraMethods spec stack))).
Proof.
  apply emits_bind.
  { eapply emits_weaken; [apply read_no_scale|apply emits_NewTripleMaster]. }
  intros [trip err]. destruct err; [apply emits_ret|]. destruct trip as [t|]; [|apply emits_panic].
  apply emits_bind; [eapply emits_weaken; [|apply emits_FixUpMeta]; by intros []|].
  intros err. destruct err; [apply emits_ret|].
  apply emits_bind; [eapply emits_weaken; [|apply emits_FixUpEtcd]; by intros [] []|].
  intros err. destruct err; [apply emits_ret|]. intros s.
  destruct (FixUpNode_run t s) as [id Hid]. eapply run_emits_weaken; [|exact Hid].
  intros c [(i & n & _ & _ & ->)|Hm]; [done|by destruct c].
Qed.

Lemma emits_RemoveFollower : emits no_scale (RemoveFollower (W:=W)).
Proof.
  unfold RemoveFollower, MasterCRDS, h_Cluster, Endpoints, removeFollower.
  repeat first
    [ apply emits_NewEtcdFromCRD; by intros [] []
    | apply emits_RemoveMember; done
    | progress solve_emits ]; done.
Qed.

Lemma emits_scale spec stack cctx detail expect :
  emits (λ c, ∀ ctx gid n, c = PScaleMasterGroup ctx gid n → n = expect ∧ n ≠ 1)
    (scale (W:=W) (NewTripleGetter (infraMethods spec stack)) cctx detail expect).
Proof.
  apply emits_bind.
  { eapply emits_weaken; [|apply emits_Healthy]. by intros c Hr ctx gid n ->. }
  intros healthy. destruct healthy; simpl; [|apply emits_ret].
  destruct (Z.eqb_spec expect 1) as [|Hne].
  - apply emits_bind.
    { eapply emits_weaken; [|apply emits_RemoveFollower]. by intros c Hr ctx gid n ->. }
    intros [ip err]. destruct err; [apply emits_ret|]. case_decide; [apply emits_ret|].
    apply emits_bind; [by emits_call|]. intros er. destruct er; apply emits_ret.
  - apply emits_bind; [emits_call; by intros ctx gid n [= _ _ <-]|].
    intros er. destruct er; [|apply emits_ret].
    apply emits_bind; [by emits_call|intros; apply emits_ret].
Qed.

(** A single call that the property of [HQ] lets through. *)
Ltac performs_quiet HQ :=
  first
    [ match goal with |- run_emits ?P (perform ?c) ?s => refine (emits_perform P c _ s); apply HQ end
    | unfold h_MasterSet, MasterNodes, h_Cluster in *; performs_quiet HQ ].

(** C4: whatever the reconciler of the MasterSet sets the size of the control
    plane to, it is the wanted size when scaling out, and the size of the next
    quorum-preserving batch when scaling in, computed from the number of
    instances it was told; size 1 is never asked for this way. *)
Theorem reconcile_scales_within_quorum `{!WaitSpec W} spec stack cctx h s ctx gid n :
  calls (MasterSet_Reconcile (W:=W) (NewTripleGetter (infraMethods spec stack)) cctx h) s
    (PScaleMasterGroup ctx gid n) →
  ∃ ms w1 detail w2,
    (env_step (KGet KMasterSet "" "masterset") w1).1 = (ms, None) ∧
    (env_step (PScalingGroupDetail cctx "" (MkOption "InstanceIDS" zeroValue)) w2).1 = (detail, None) ∧
    scale_target (Z.of_nat (size (sg_Instances detail))) (mss_Replicas (mset_Spec ms)) n.
Proof.
  intros Hc.
  match goal with |- ?G => refine (run_emits_calls (λ c, c = PScaleMasterGroup ctx gid n → G) _ _ _ _ Hc eq_refl) end.
  clear Hc. unfold MasterSet_Reconcile.
  match goal with |- run_emits ?P _ _ => set (Q := P) end.
  assert (∀ c, no_scale c → Q c) as HQ by (intros c Hc ->; done).
  apply run_emits_bind.
  { eapply run_emits_weaken; [|apply emits_Healthy]. intros c Hr. by apply HQ, read_no_scale. }
  intros healthy s1 _. destruct healthy; simpl.
  2:{ apply emits_bind; [|intros []; apply emits_ret]. apply emits_bind; [|intros; apply emits_ret].
      eapply emits_weaken; [apply HQ|apply emits_masterRepair_no_scale]. }
  apply run_emits_bind; [by performs_quiet HQ|]. intros [ms err] s2 Hms.
  destruct err; [apply emits_ret|]. unfold h_MasterSet in Hms. rewrite perform_eq in Hms. injection Hms as Hms _.
  apply run_emits_bind; [by performs_quiet HQ|]. intros [mnode err] s3 _.
  destruct err; [apply emits_ret|]. destruct (_ =? _); [apply emits_ret|].
  apply run_emits_bind; [by performs_quiet HQ|]. intros [detail err] s4 Hd.
  destruct err; [apply emits_ret|]. rewrite perform_eq in Hd. injection Hd as Hd _.
  destruct (_ =? _); [apply emits_ret|].
  apply run_emits_bind; [by performs_quiet HQ|]. intros [ud err] s5 _.
  destruct err; [apply emits_ret|].
  apply run_emits_bind; [by performs_quiet HQ|]. intros err s6 _.
  destruct err; [apply emits_ret|].
  apply run_emits_bind; [|intros; apply emits_ret].
  unfold QuorumScale.
  assert (∀ m, scale_target (Z.of_nat (size (sg_Instances detail))) (mss_Replicas (mset_Spec ms)) m ∨ m = 1 →
    run_emits Q (scale (NewTripleGetter (infraMethods spec stack)) cctx detail m) s6) as Hscale.
  { intros m Hm. eapply run_emits_weaken; [|apply emits_scale].
    intros c Hc' ->. destruct (Hc' _ _ _ eq_refl) as [-> Hne]. destruct Hm as [Hm|]; [|done].
    by exists ms, (world s1), detail, (world s3). }
  destruct (Z.eqb_spec (mss_Replicas (mset_Spec ms)) (Z.of_nat (size (sg_Instances detail)))); [apply emits_ret|].
  destruct (Z.ltb_spec (Z.of_nat (size (sg_Instances detail))) (mss_Replicas (mset_Spec ms))).
  - apply Hscale. destruct (Z.eq_dec (mss_Replicas (mset_Spec ms)) 1); [by right|].
    left. split; [done|]. by left.
  - apply run_emits_bind; [|intros er; destruct er; intros; apply emits_ret].
    apply Hscale.
    destruct (Z.eq_dec (quorumTarget (Z.of_nat (size (sg_Instances detail))) (mss_Replicas (mset_Spec ms))) 1);
      [by right|]. left. split; [done|]. right. split; [lia|done].
Qed.

(** When the control plane is not healthy, scaling reports success although
    nothing was scaled; scaling out then ends without error and without being
    scheduled again. *)
Theorem unhealthy_scale_reports_success `{!PkgErrorsSpec} getter cctx detail current expect s s1 :
  Healthy getter s = (Ret false, s1) → current < expect →
  QuorumScale (scale getter cctx detail) current expect s = (Ret None, s1).
Proof.
  intros Hh Hlt. unfold QuorumScale. destruct (Z.eqb_spec expect current); [lia|].
  destruct (Z.ltb_spec current expect); [|lia]. unfold scale. rewrite bind_unfold, Hh. simpl.
  by rewrite Wrapf_nil.
Qed.

(** The reconciler of a master node that is not ready never returns. *)
Theorem unready_master_blocks reqName n s s1 :
  h_Node reqName s = (Ret (n, None), s1) → IsMaster n = true → NodeReady n = false →
  RepairReconciler_Reconcile reqName s = (Hang, s1).
Proof.
  intros Hn Hm Hr. unfold RepairReconciler_Reconcile. by rewrite bind_unfold, Hn, Hm, Hr.
Qed.
End properties.

(** ** Witnesses *)
Import Sim SimEnv SimWait SimPatch SimEtcd SimOp TripleTest.

Lemma quorum_batch_witness :
  1 ≤ quorumTarget 5 1 < 5 ∧ (3 ≤ 5 → 5 < 2 * quorumTarget 5 1) ∧
  (1 ≤ 1 → quorumTarget 5 1 = 1 → 5 = 2).
Proof. apply (quorum_batch 5 1). lia. Defined.

Lemma quorum_batches_converge_witness :
  ∃ n, (n ≤ Z.to_nat (7 - 1))%nat ∧
       Nat.iter n (λ c, if c =? 1 then c else quorumTarget c 1) 7 = 1.
Proof. apply (quorum_batches_converge 7 1). lia. Defined.

Definition masterset3 : MasterSet :=
  MkMasterSet noType (metaNamed "masterset") (MkMasterSetSpec 3) (MkMasterSetStatus [] None).

(** A healthy control plane of one instance, scaled out to three. *)
Definition grow_script (c : call) (_ : Z) : option (reply c) :=
  match c return option (reply c) with
  | KList KNode _ => Some ([node1], None)
  | KList KMaster _ => Some ([master1], None)
  | PScalingGroupDetail _ _ _ => Some (MkScaleGroupDetail "" {[id1 := inst1]}, None)
  | KGet KMasterSet _ _ => Some (masterset3, None)
  | _ => None
  end.

Lemma reconcile_scales_within_quorum_witness :
  let E := scripted grow_script in
  ∃ ms w1 detail w2,
    (@env_step Z E (KGet KMasterSet "" "masterset") w1).1 = (ms, None) ∧
    (@env_step Z E (PScalingGroupDetail NewEmptyContext "" (MkOption "InstanceIDS" zeroValue)) w2).1
      = (detail, None) ∧
    scale_target (Z.of_nat (size (sg_Instances detail))) (mss_Replicas (mset_Spec ms)) 3.
Proof.
  intros E.
  refine (@reconcile_scales_within_quorum Z E _ _ _ _ _ _ _ _ _ _ _ zeroCluster ∅ NewEmptyContext
    (MkHealet StateClean false) (start_at 0) NewEmptyContext "" 3 _).
  eexists. split; [vm_compute; reflexivity|].
  repeat (apply elem_of_cons; first [left; vm_compute; reflexivity | right]).
Defined.

(** A node without instance: the control plane is not consistent. *)
Lemma unhealthy_scale_reports_success_witness :
  let getter := fake [node1; node2] [master1] [inst1] in
  QuorumScale (scale getter NewEmptyContext (MkScaleGroupDetail "" ∅)) 1 3 (start_at 0)
  = (Ret None, start_at 0).
Proof.
  intros getter.
  refine (unhealthy_scale_reports_success (W:=Z) getter NewEmptyContext (MkScaleGroupDetail "" ∅)
            1 3 (start_at 0) (start_at 0) _ _); [vm_compute; reflexivity|lia].
Defined.

Lemma unready_master_blocks_witness :
  let n := MkNode (set_Labels (Some {[MASTER_LABEL := ""]}) (metaNamed "m1")) ""
             [MkNodeCondition "Ready" "False" 0 ""] [] in
  let script := λ c (_ : Z), match c return option (reply c) with
    | KGet KNode _ _ => Some (n, None)
    | _ => None end in
  @RepairReconciler_Reconcile Z (scripted script) "m1" (start_at 0)
  = (Hang, MkSt 0 [KGet KNode "" "m1"]).
Proof.
  intros n script.
  refine (@unready_master_blocks Z (scripted script) "m1" n (start_at 0) _ _ _ _);
    vm_compute; reflexivity.
Defined.
