(* ===== verification/Hash.v ===== *)
(** * Object hashes (pkg/utils/hash/hash.go)

    The hash of an object is that of its JSON document without empty values.
    The JSON and YAML renderings and SHA-224 are parameters; the cleaning of the
    document is the code's own. *)
From stdpp Require Import base list gmap strings.
From Stdlib Require Import Lia.
From S2P Require Import Prelude GoStrings Api.
Local Open Scope Z_scope.

(** [isZeroOfUnderlyingType(x)] *)
Definition isZeroOfUnderlyingType (x : json) : bool :=
  match x with
  | JNull => true
  | JBool b => negb b
  | JNum m _ => m =? 0
  | JStr s => bool_decide (s = "")
  | JArr l => match l with [] => true | _ => false end
  | JObj l => match l with [] => true | _ => false end
  end.

(** [RemoveEmptyValues(m)], on the map under a value: nested maps are cleaned in
    place before they are tested for being empty.  Values inside arrays are left
    as they are. *)
Fixpoint RemoveEmptyValues (x : json) : json :=
  match x with
  | JObj l =>
      JObj ((fix go (l : list (string * json)) : list (string * json) :=
               match l with
               | [] => []
               | (k, v) :: rest =>
                   let v := RemoveEmptyValues v in
                   if isZeroOfUnderlyingType v then go rest else (k, v) :: go rest
               end) l)
  | _ => x
  end.

(** The libraries: [json.Marshal] followed by [json.Unmarshal] into a map,
    [yaml.Marshal], SHA-224 and hexadecimal. *)
Class HashLib (A : Type) : Type := {
  json_tree : A → json + goerr;
  PrettyYaml : json → string;
  sha224_hex : string → string }.

(** [HashObject(spec)]: only an object, or null, decodes into a map. *)
Definition HashObject {A} `{HashLib A} (spec : A) : string * error :=
  match json_tree spec with
  | inr e => ("", Errorf ("hash marshal error: " +:+ Error e))
  | inl (JObj l) => (sha224_hex (PrettyYaml (RemoveEmptyValues (JObj l))), None)
  | inl JNull => (sha224_hex (PrettyYaml (JObj [])), None)
  | inl _ => ("", Errorf "hash marshal error: json: cannot unmarshal")
  end.

(** ** Documents *)

(** The entries kept of a map. *)
Definition cleanEntries (l : list (string * json)) : list (string * json) :=
  omap (λ kv, let v := RemoveEmptyValues kv.2 in
              if isZeroOfUnderlyingType v then None else Some (kv.1, v)) l.

Lemma RemoveEmptyValues_obj l : RemoveEmptyValues (JObj l) = JObj (cleanEntries l).
Proof.
  simpl. f_equal. induction l as [|[k v] l IH]; [done|]. simpl.
  destruct (isZeroOfUnderlyingType (RemoveEmptyValues v)); by rewrite IH.
Qed.

(** Induction that reaches the values inside maps. *)
Section json_induction.
Context (P : json → Prop).
Context (Hscalar : ∀ x, (∀ l, x ≠ JObj l) → P x).
Context (Hobj : ∀ l, Forall (λ kv, P kv.2) l → P (JObj l)).
Fixpoint json_map_ind (x : json) : P x :=
  match x with
  | JObj l => Hobj l ((fix go (l : list (string * json)) : Forall (λ kv, P kv.2) l :=
                         match l with
                         | [] => List.Forall_nil _
                         | kv :: rest => List.Forall_cons _ kv rest (json_map_ind kv.2) (go rest)
                         end) l)
  | JNull => Hscalar JNull ltac:(done)
  | JBool b => Hscalar (JBool b) ltac:(done)
  | JNum m e => Hscalar (JNum m e) ltac:(done)
  | JStr s => Hscalar (JStr s) ltac:(done)
  | JArr l => Hscalar (JArr l) ltac:(done)
  end.
End json_induction.

Lemma RemoveEmptyValues_scalar x : (∀ l, x ≠ JObj l) → RemoveEmptyValues x = x.
Proof. intros Hx. destruct x as [| | | | |l]; [done..|]. by destruct (Hx l). Qed.

(** The value at a path of keys. *)
Fixpoint at_path (x : json) (p : list string) : option json :=
  match p with
  | [] => Some x
  | k :: p' =>
      match x with
      | JObj l => match List.find (λ kv, bool_decide (kv.1 = k)) l with
                  | Some kv => at_path kv.2 p'
                  | None => None
                  end
      | _ => None
      end
  end.

(** Every map of the document has distinct keys, as a Go map has. *)
Inductive proper_json : json → Prop :=
| proper_scalar x : (∀ l, x ≠ JObj l) → proper_json x
| proper_obj l : NoDup l.*1 → Forall (λ kv, proper_json kv.2) l → proper_json (JObj l).

(** A value that is not a map. *)
Definition leaf (x : json) : bool := match x with JObj _ => false | _ => true end.

Lemma find_clean k l :
  NoDup l.*1 →
  List.find (λ kv, bool_decide (kv.1 = k)) (cleanEntries l)
  = match List.find (λ kv : string * json, bool_decide (kv.1 = k)) l with
    | Some kv => let v := RemoveEmptyValues kv.2 in
                 if isZeroOfUnderlyingType v then None else Some (kv.1, v)
    | None => None
    end.
Proof.
  induction l as [|[k' v] l IH]; [done|]. intros [Hk Hnd]%NoDup_cons. simpl. simpl in Hk.
  destruct (bool_decide_reflect (k' = k)) as [->|Hne].
  - assert (List.find (λ kv, bool_decide (kv.1 = k)) l = None) as Hnone.
    { destruct (List.find _ l) as [[k2 v2]|] eqn:E; [|done].
      apply find_some in E as [Hin Hk2%bool_decide_eq_true]. simpl in Hk2. subst.
      destruct Hk. apply list_elem_of_fmap. exists (k, v2). split; [done|]. by apply list_elem_of_In. }
    cbn [fst snd]. destruct (isZeroOfUnderlyingType (RemoveEmptyValues v)); simpl.
    + rewrite IH, Hnone by done. done.
    + by rewrite bool_decide_eq_true_2.
  - destruct (isZeroOfUnderlyingType (RemoveEmptyValues v)); simpl; [by apply IH|].
    rewrite bool_decide_eq_false_2 by done. by apply IH.
Qed.

Lemma clean_leaf_paths x : proper_json x → ∀ p y, leaf y = true →
  at_path (RemoveEmptyValues x) p = Some y ↔
  at_path x p = Some y ∧ (p ≠ [] → isZeroOfUnderlyingType y = false).
Proof.
  induction x as [x Hx|l IH] using json_map_ind; intros Hp p y Hy.
  - rewrite RemoveEmptyValues_scalar by done.
    destruct p as [|k p]; [naive_solver|]. destruct x as [| | | | |l]; simpl; try naive_solver.
  - inversion Hp as [? Hno|? Hnd Hall]; subst; [by destruct (Hno l)|].
    rewrite RemoveEmptyValues_obj. destruct p as [|k p]; simpl; [naive_solver|].
    rewrite find_clean by done.
    destruct (List.find (λ kv, bool_decide (kv.1 = k)) l) as [[k' v]|] eqn:E; [|naive_solver].
    apply find_some in E as [Hin _]. apply list_elem_of_In in Hin.
    rewrite Forall_forall in IH, Hall. specialize (IH _ Hin (Hall _ Hin) p y Hy). simpl in IH.
    simpl. destruct (isZeroOfUnderlyingType (RemoveEmptyValues v)) eqn:Ez; simpl.
    + split; [done|]. intros [Ha Hz]. exfalso. destruct p as [|k2 p].
      * simpl in Ha. injection Ha as ->. specialize (Hz ltac:(done)).
        rewrite RemoveEmptyValues_scalar in Ez by (by destruct y). congruence.
      * assert (at_path (RemoveEmptyValues v) (k2 :: p) = Some y) as Hc
          by (apply IH; split; [done|]; intros; by apply Hz).
        destruct (RemoveEmptyValues v) as [| | | | |[|]]; done.
    + rewrite IH. split; intros [Ha Hz]; (split; [done|]).
      * intros _. destruct p as [|k2 p]; [|by apply Hz].
        simpl in Ha. injection Ha as ->. by rewrite RemoveEmptyValues_scalar in Ez by (by destruct y).
      * intros _. by apply Hz.
Qed.

(** ** Properties *)

(** The document that is hashed keeps exactly the values that are not empty:
    at every path below the root, a value that is not a map is there after the
    cleaning iff it was there before and is not null, false, zero, the empty
    string or the empty array. *)
Theorem RemoveEmptyValues_leaves x p y :
  proper_json x → p ≠ [] → leaf y = true →
  at_path (RemoveEmptyValues x) p = Some y ↔
  at_path x p = Some y ∧ isZeroOfUnderlyingType y = false.
Proof. intros Hx Hp Hy. rewrite clean_leaf_paths by done. naive_solver. Qed.

(** Cleaning again changes nothing. *)
Lemma RemoveEmptyValues_idem x : RemoveEmptyValues (RemoveEmptyValues x) = RemoveEmptyValues x.
Proof.
  induction x as [x Hx|l IH] using json_map_ind.
  - rewrite (RemoveEmptyValues_scalar x Hx). by apply RemoveEmptyValues_scalar.
  - rewrite !RemoveEmptyValues_obj. f_equal. induction IH as [|[k v] l Hv _ IHl]; [done|].
    simpl in *. destruct (isZeroOfUnderlyingType (RemoveEmptyValues v)) eqn:Ez; [done|].
    simpl. rewrite Hv, Ez. by f_equal.
Qed.

Lemma RemoveEmptyValues_leaves_witness :
  let x := JObj [("cpu", JNum 4 0); ("infra", JObj [("image", JStr ""); ("bind", JNull)])] in
  RemoveEmptyValues x = JObj [("cpu", JNum 4 0)] ∧
  (at_path (RemoveEmptyValues x) ["cpu"] = Some (JNum 4 0) ↔
   at_path x ["cpu"] = Some (JNum 4 0) ∧ isZeroOfUnderlyingType (JNum 4 0) = false).
Proof.
  intros x. split; [reflexivity|]. apply (RemoveEmptyValues_leaves x ["cpu"] (JNum 4 0)); [|done..].
  unfold x. repeat (first [ apply proper_obj; [repeat constructor; set_solver|] | constructor; try done ]).
Defined.
