(* ===== verification/Index.v ===== *)
(** * The cluster index in object storage (pkg/index)

    snapshot.go: the index of etcd backups of a cluster; cluster.go and
    nodepool.go: the saved cluster identities and node pools.  The object store
    is the [ObjectStorage] part of [provider.Interface]. *)
From stdpp Require Import base list gmap strings sorting.
From Stdlib Require Import Ascii Lia.
From S2P Require Import Prelude GoStrings GoTime Api Effects Provider.
Local Open Scope Z_scope.

Definition KEEP_COPIES_CNT : nat := 4.
Definition SnapshotTMP : string := "/tmp/snapshot.db".

Record Backup : Type := MkBackup { bk_Identity : string }.

Record Snapshot : Type := MkSnapshot {
  sn_Prefix : string;
  sn_Name : string;
  sn_Copies : list Backup;
  sn_Spec : option ClusterSpec }.

Definition newSnapshot (name : string) : Snapshot := MkSnapshot "wdrip/backup" name [] None.
Definition zeroSnapshot : Snapshot := MkSnapshot "" "" [] None.
Definition sn_set_Copies (l : list Backup) (i : Snapshot) : Snapshot :=
  MkSnapshot (sn_Prefix i) (sn_Name i) l (sn_Spec i).

Definition base_ (i : Snapshot) : string := sn_Prefix i +:+ "/" +:+ sn_Name i.
Definition IndexLocation (i : Snapshot) : string := base_ i +:+ "/index.json".
Definition Path (i : Snapshot) (b : Backup) : string :=
  base_ i +:+ "/" +:+ bk_Identity b +:+ "/snapshot.db".
Definition URI (i : Snapshot) (b : Backup) (bName : string) : string :=
  "oss://" +:+ bName +:+ "/" +:+ Path i b.

(** Newer first: the order [sort.Slice] is given. *)
Definition newer (a b : Backup) : Prop := (bk_Identity b ≤ bk_Identity a)%string.
#[global] Instance newer_dec a b : Decision (newer a b).
Proof. unfold newer. apply _. Defined.

(** [SortBackups]: [sort.Slice] is not stable, but backups with the same
    identity are equal, so the sorted list is unique. *)
Definition SortBackups (i : Snapshot) : Snapshot := sn_set_Copies (merge_sort newer (sn_Copies i)) i.

(** [LatestBackup] of a [Snapshot]: sorts the copies in place. *)
Definition sn_LatestBackup (i : Snapshot) : Snapshot * option Backup :=
  let i := SortBackups i in (i, head (sn_Copies i)).

(** [SnapshotIndex]: the mutex is held by every operation for its duration. *)
Record SnapshotIndex : Type := MkSnapshotIndex {
  si_load : bool;
  si_snapshot : option Snapshot }.
Definition NewSnapshotIndex (id : string) : SnapshotIndex :=
  MkSnapshotIndex false (Some (newSnapshot id)).

(** [NodePoolIndex] and [ClusterIndex] are the id they are created with. *)
Definition nPath (bucket id name : string) : string :=
  "oss://" +:+ bucket +:+ "/wdrip/nodepools/" +:+ id +:+ "/" +:+ name +:+ ".json".
Definition path (bucket name : string) : string :=
  "oss://" +:+ bucket +:+ "/wdrip/clusters/" +:+ name +:+ ".json".

(** [GenericIndexer]: embeds one index of each kind, all for the same id. *)
Record GenericIndexer : Type := MkGenericIndexer {
  gi_Snapshot : SnapshotIndex;
  gi_Cluster : string;
  gi_NodePool : string }.
Definition NewGenericIndexer (id : string) : GenericIndexer :=
  MkGenericIndexer (NewSnapshotIndex id) id id.

Definition noBucket : error := Errorf "oss bucket name should be provided in wdrip config".

Section operations.
Context {W : Type} `{Env W} `{PkgErrors} `{LocalZone}.
Context `{JS : Json Snapshot} `{JN : Json NodePool} `{JC : Json ClusterId}.

(** [Load(b)] *)
Definition sn_Load (b : string) (i : Snapshot) : Snapshot * error :=
  if decide (b = "") then (i, None) else Unmarshal b i.

Definition NewSnapshotFrom (data : string) : Snapshot * error := sn_Load data zeroSnapshot.

(** [utils.PrettyJson] is the encoder; its failures print and give "". *)
Definition sn_Bytes (i : Snapshot) : string := Marshal i.

Definition HourNow : IO W string :=
  now ← perform Now;
  mret (format_compact zone_offset now).

Definition LazyLoad (i : SnapshotIndex) : IO W (SnapshotIndex * error) :=
  if si_load i then mret (i, None)
  else
    match si_snapshot i with
    | None => mret (i, Errorf "snapshot not initialized: null")
    | Some sn =>
        let location := IndexLocation sn in
        '(data, err) ← perform (PGetObject location);
        match err with
        | Some e =>
            if Contains (Error e) "NoSuchKey" then mret (i, None)
            else mret (i, Wrapf (Some e) ("get snapshot: " +:+ location))
        | None =>
            let '(sn, err) := sn_Load data sn in
            mret (MkSnapshotIndex (si_load i) (Some sn), err)
        end
    end.

(** [Snapshot()]: the pointer returned is the index's own snapshot. *)
Definition si_Snapshot (i : SnapshotIndex) : IO W (SnapshotIndex * (option Snapshot * error)) :=
  '(i, err) ← LazyLoad i;
  mret (i, (si_snapshot i, err)).

(** [BootSpec()]: whether [i.snapshot.Spec] is read before or after the call of
    [LazyLoad] in the same return statement is left open by the language. *)
Definition BootSpec (early : bool) (i : SnapshotIndex)
    : IO W (SnapshotIndex * (option ClusterSpec * error)) :=
  match si_snapshot i with
  | None => panic "nil pointer dereference"
  | Some sn =>
      '(i', err) ← LazyLoad i;
      mret (i', (if early then sn_Spec sn else si_snapshot i' ≫= sn_Spec, err))
  end.

(** The snapshot, which every caller has found not to be nil. *)
Definition theSnapshot (i : SnapshotIndex) : IO W Snapshot :=
  match si_snapshot i with
  | Some sn => mret sn
  | None => panic "nil pointer dereference"
  end.

Definition LatestBackup (i : SnapshotIndex) (dir : string)
    : IO W (SnapshotIndex * (option ClusterSpec * error)) :=
  '(i, err) ← LazyLoad i;
  match err with
  | Some e => mret (i, (None, Wrapf (Some e) "load latest backup"))
  | None =>
      let dir := if decide (dir = "") then SnapshotTMP else dir in
      sn ← theSnapshot i;
      let '(sn, backup) := sn_LatestBackup sn in
      let i := MkSnapshotIndex (si_load i) (Some sn) in
      match backup with
      | None => mret (i, (sn_Spec sn, Errorf "BackupNotFound"))
      | Some b =>
          err ← perform (PGetFile (Path sn b) dir);
          match (err : error) with
          | Some e => mret (i, (None, Wrapf (Some e) "download latest backup"))
          | None => mret (i, (sn_Spec sn, None))
          end
      end
  end.

Definition si_Backup (i : SnapshotIndex) (id : ClusterSpec) : IO W (SnapshotIndex * error) :=
  '(i, err) ← LazyLoad i;
  match err with
  | Some e => mret (i, Wrapf (Some e) "load latest backup")
  | None =>
      identity ← HourNow;
      sn ← theSnapshot i;
      let backup := MkBackup identity in
      err ← perform (PPutFile SnapshotTMP (Path sn backup));
      match (err : error) with
      | Some e => mret (i, Wrapf (Some e) ("put file " +:+ SnapshotTMP +:+ ": " +:+ Path sn backup))
      | None =>
          let sn := MkSnapshot (sn_Prefix sn) (sn_Name sn) (sn_Copies sn ++ [backup]) (Some id) in
          let i := MkSnapshotIndex (si_load i) (Some sn) in
          err ← perform (PPutObject (sn_Bytes sn) (IndexLocation sn));
          match (err : error) with
          | Some e => mret (i, Wrapf (Some e) ("put snapshot object: " +:+ IndexLocation sn))
          | None => mret (i, None)
          end
      end
  end.

(** The copies beyond the kept ones are deleted; a failed deletion is logged. *)
Definition deleteCopies (sn : Snapshot) (old : list Backup) : IO W (unit + unit) :=
  range old tt (λ b _, _ ← perform (PDeleteObject (Path sn b)); mret (Next tt)).

Definition BackupGC (i : SnapshotIndex) : IO W (SnapshotIndex * error) :=
  '(i, err) ← LazyLoad i;
  match err with
  | Some e => mret (i, Wrapf (Some e) "load latest backup")
  | None =>
      sn ← theSnapshot i;
      if (length (sn_Copies sn) <=? KEEP_COPIES_CNT)%nat then mret (i, None)
      else
        let sn := SortBackups sn in
        let bck := take KEEP_COPIES_CNT (sn_Copies sn) in
        _ ← deleteCopies sn (drop KEEP_COPIES_CNT (sn_Copies sn));
        let sn := sn_set_Copies bck sn in
        _ ← perform (PPutObject (sn_Bytes sn) (IndexLocation sn));
        mret (MkSnapshotIndex (si_load i) (Some sn), None)
  end.

(** ** Node pools *)

(** Shared shape of [SaveNodePool] and [SaveCluster]: store the encoded object,
    creating the bucket once when it does not exist. *)
Definition putEnsured (bName data location : string) : IO W error :=
  err ← perform (PPutObject data location);
  match (err : error) with
  | None => mret None
  | Some e =>
      if Contains (Error e) "NoSuchBucket" then
        err ← perform (PEnsureBucket bName);
        match (err : error) with
        | Some e => mret (Wrapf (Some e) ("create bucket fail: " +:+ bName))
        | None => perform (PPutObject data location)
        end
      else mret (Some e)
  end.

Definition SaveNodePool (cid : string) (id : NodePool) : IO W error :=
  bName ← perform PBucketName;
  if decide (bName = "") then mret noBucket
  else putEnsured bName (Marshal id) (nPath bName cid (np_Name id)).

Definition zeroNodePool : NodePool :=
  MkNodePool noType noMeta (MkNodePoolSpec "" false (MkInfra 0 "" 0 0 ∅ None)).

Definition GetNodePool (cid id : string) : IO W (NodePool * error) :=
  bName ← perform PBucketName;
  if decide (bName = "") then mret (zeroNodePool, noBucket)
  else
    '(data, err) ← perform (PGetObject (nPath bName cid id));
    match err with
    | Some e => mret (zeroNodePool, Wrapf (Some e) ("get NodePoolIndex: " +:+ id))
    | None =>
        let '(np, err) := Unmarshal data zeroNodePool in
        match err with
        | Some e => mret (np, Wrapf (Some e) ("unmarshal NodePoolIndex: " +:+ id))
        | None => mret (np, None)
        end
    end.

Definition RemoveNodePool (cid id : string) : IO W error :=
  bName ← perform PBucketName;
  if decide (bName = "") then mret noBucket
  else perform (PDeleteObject (nPath bName cid id)).

(** Decodes the listed objects until one fails. *)
Fixpoint decodeAll {A} `{Json A} (zero : A) (what : string) (mlist : list string) (acc : list A)
    : list A * error :=
  match mlist with
  | [] => (acc, None)
  | v :: rest =>
      let '(x, err) := Unmarshal v zero in
      match err with
      | Some e => (acc, Wrapf (Some e) what)
      | None => decodeAll zero what rest (acc ++ [x])
      end
  end.

Definition ListNodePools (cid selector : string) : IO W (list NodePool * error) :=
  bName ← perform PBucketName;
  if decide (bName = "") then mret ([], noBucket)
  else
    '(mlist, err) ← perform (PListObject ("wdrip/nodepools/" +:+ cid));
    match err with
    | Some e => mret ([], Wrapf (Some e) ("list clusters: " +:+ bName))
    | None => mret (decodeAll zeroNodePool "unmarshal NodePoolIndex" mlist [])
    end.

(** ** Clusters.  [GetCluster] and [RemoveCluster] use the id of the index and
    not their argument. *)
Definition SaveCluster (nid : string) (id : ClusterId) : IO W error :=
  bName ← perform PBucketName;
  if decide (bName = "") then mret noBucket
  else putEnsured bName (Marshal id) (path bName (cid_Name id)).

Definition GetCluster (nid id : string) : IO W (ClusterId * error) :=
  bName ← perform PBucketName;
  if decide (bName = "") then mret (zeroClusterId, noBucket)
  else
    '(data, err) ← perform (PGetObject (path bName nid));
    match err with
    | Some e => mret (zeroClusterId, Wrapf (Some e) ("get ClusterIndex: " +:+ nid))
    | None =>
        let '(c, err) := Unmarshal data zeroClusterId in
        match err with
        | Some e => mret (c, Wrapf (Some e) ("unmarshal ClusterIndex: " +:+ nid))
        | None => mret (c, None)
        end
    end.

Definition RemoveCluster (nid id : string) : IO W error :=
  bName ← perform PBucketName;
  if decide (bName = "") then mret noBucket
  else perform (PDeleteObject (path bName nid)).

Definition ListCluster (nid selector : string) : IO W (list ClusterId * error) :=
  bName ← perform PBucketName;
  if decide (bName = "") then mret ([], noBucket)
  else
    '(mlist, err) ← perform (PListObject "wdrip/clusters");
    match err with
    | Some e => mret ([], Wrapf (Some e) ("list clusters: " +:+ bName))
    | None => mret (decodeAll zeroClusterId "unmarshal ClusterIndex" mlist [])
    end.
End operations.

(** ** What the index relies on *)

(** encoding/json on a [Snapshot] whose fields all have [omitempty]: decoding
    what was encoded into an existing value replaces the fields that were not
    empty.  (A copy without identity would keep what the array element held.) *)
Definition over (x y : string) : string := if decide (x = "") then y else x.
Definition over_list {A} (x y : list A) : list A := match x with [] => y | _ => x end.
Class SnapshotJsonSpec `{Json Snapshot} : Prop := {
  Marshal_nonempty x : sn_Bytes x ≠ "";
  Unmarshal_Marshal x y :
    Forall (λ b, bk_Identity b ≠ "") (sn_Copies x) →
    ∃ sp, Unmarshal (sn_Bytes x) y
          = (MkSnapshot (over (sn_Prefix x) (sn_Prefix y)) (over (sn_Name x) (sn_Name y))
               (over_list (sn_Copies x) (sn_Copies y)) sp, None) }.

(** A type whose values come back from their encoding when decoded into the
    zero value. *)
Class JsonRoundtrip {A} `{Json A} (zero : A) (valid : A → Prop) : Prop :=
  json_roundtrip x : valid x → Unmarshal (Marshal x) zero = (x, None).

(** The object store as the index sees it: what a path holds. *)
Class ObjectStore (W : Type) `{Env W} : Type := objects : W → string → option string.
Class ObjectStoreSpec (W : Type) `{ObjectStore W} : Prop := {
  put_stores b p w : (env_step (PPutObject b p) w).1 = None →
                     objects (env_step (PPutObject b p) w).2 p = Some b;
  get_reads p w b : (env_step (PGetObject p) w).1 = (b, None) → objects w p = Some b;
  bucket_keeps w p : objects (env_step PBucketName w).2 p = objects w p;
  bucket_fixed w w' : (env_step PBucketName w).1 = (env_step PBucketName w').1 }.

(** ** Lemmas *)
#[global] Instance newer_total : Total newer.
Proof. intros [a] [b]. unfold newer. simpl. destruct (String.le_total a b); auto. Qed.
#[global] Instance newer_trans : Transitive newer.
Proof. intros [a] [b] [c]. unfold newer. simpl. intros ??. by transitivity b. Qed.
#[global] Instance newer_antisymm : AntiSymm (=) newer.
Proof. intros [a] [b]. unfold newer. simpl. intros ??. f_equal. by apply (anti_symm String.le). Qed.

Lemma SortBackups_perm i : sn_Copies (SortBackups i) ≡ₚ sn_Copies i.
Proof. apply merge_sort_Permutation. Qed.

Lemma SortBackups_sorted i : StronglySorted newer (sn_Copies (SortBackups i)).
Proof. apply Sorted_StronglySorted; [apply _|]. apply (Sorted_merge_sort newer). Qed.

(** Whatever order [sort.Slice] leaves equal elements in, the result is this. *)
Lemma SortBackups_unique i l :
  l ≡ₚ sn_Copies i → StronglySorted newer l → l = sn_Copies (SortBackups i).
Proof.
  intros Hp Hs. apply (StronglySorted_unique newer); [done|apply SortBackups_sorted|].
  by rewrite SortBackups_perm.
Qed.

Lemma sn_LatestBackup_some i :
  sn_Copies i ≠ [] →
  ∃ b, sn_LatestBackup i = (SortBackups i, Some b) ∧ b ∈ sn_Copies i ∧
       ∀ c, c ∈ sn_Copies i → newer b c.
Proof.
  intros Hne. unfold sn_LatestBackup.
  pose proof (SortBackups_sorted i) as Hs. pose proof (SortBackups_perm i) as Hp.
  destruct (sn_Copies (SortBackups i)) as [|b l]; [by apply Permutation_nil in Hp|].
  exists b. inversion Hs as [|? ? ? Hall]; subst. split_and!; [done|rewrite <- Hp; by left|].
  rewrite Forall_forall in Hall. intros c. rewrite <- Hp, elem_of_cons.
  intros [->|Hc]; [unfold newer; reflexivity|by apply Hall].
Qed.

Lemma StronglySorted_app_newer (l1 l2 : list Backup) k o :
  StronglySorted newer (l1 ++ l2) → k ∈ l1 → o ∈ l2 → newer k o.
Proof.
  induction l1 as [|x l1 IH]; simpl; [by rewrite elem_of_nil|].
  inversion 1 as [|? ? Hs Hall]; subst. rewrite elem_of_cons. rewrite Forall_forall in Hall.
  intros [->|Hk] Ho; [apply Hall, elem_of_app; by right|by apply IH].
Qed.

Lemma string_app_inj_r (a b c : string) : a +:+ c = b +:+ c → a = b.
Proof.
  revert b. induction a as [|x a IH]; intros [|y b]; simpl; [done| | |].
  - intros Hc. apply (f_equal String.length) in Hc. cbn in Hc. rewrite length_string_app in Hc. lia.
  - intros Hc. apply (f_equal String.length) in Hc. cbn in Hc. rewrite length_string_app in Hc. lia.
  - intros [= -> ?%IH]. by subst.
Qed.

Lemma Path_inj sn b c : Path sn b = Path sn c → b = c.
Proof.
  unfold Path. intros Heq%(inj (String.app _))%(inj (String.app "/"))%string_app_inj_r.
  destruct b, c. simpl in *. by subst.
Qed.

Section index_facts.
Context {W : Type} `{Env W} `{PkgErrors} `{LocalZone} `{JS : Json Snapshot}.

Lemma deleteCopies_run sn old (s : St W) :
  ∃ s', deleteCopies sn old s = (Ret (inl tt), s') ∧
        log s' = log s ++ map (λ b, PDeleteObject (Path sn b)) old.
Proof.
  revert s. induction old as [|b old IH]; intros s; [by exists s; rewrite app_nil_r|].
  set (c := PDeleteObject (Path sn b)). set (s1 := MkSt (env_step c (world s)).2 (log s ++ [c])).
  destruct (IH s1) as (s' & E & L). exists s'. unfold deleteCopies. cbn [range].
  rewrite (bind_Ret _ _ s (Next tt) s1) by (by rewrite perform_bind).
  split; [exact E|]. rewrite L. simpl. by rewrite <- app_assoc.
Qed.

Lemma emits_LazyLoad P i :
  (∀ p, P (PGetObject p)) → emits P (LazyLoad (W:=W) i).
Proof.
  intros HP. unfold LazyLoad. destruct (si_load i); [apply emits_ret|].
  destruct (si_snapshot i); [|apply emits_ret]. apply emits_bind; [emits_call; apply HP|].
  intros [data err]. destruct err; [case_match; apply emits_ret|].
  destruct (sn_Load _ _). apply emits_ret.
Qed.

Lemma LazyLoad_read sn (s : St W) data w' :
  env_step (PGetObject (IndexLocation sn)) (world s) = ((data, None), w') →
  LazyLoad (MkSnapshotIndex false (Some sn)) s
  = (Ret (MkSnapshotIndex false (Some (sn_Load data sn).1), (sn_Load data sn).2),
     MkSt w' (log s ++ [PGetObject (IndexLocation sn)])).
Proof.
  intros Eg. unfold LazyLoad. cbn [si_load si_snapshot]. cbv beta iota zeta.
  step_perform. rewrite Eg. simpl. by destruct (sn_Load data sn).
Qed.

Lemma HourNow_eq (s : St W) :
  HourNow s = (Ret (format_compact zone_offset (env_step Now (world s)).1),
               MkSt (env_step Now (world s)).2 (log s ++ [Now])).
Proof. unfold HourNow. by step_perform. Qed.

(** A backup that succeeded stored the snapshot file under the new identity and
    then, as its last call, the index that records it. *)
Lemma si_Backup_inv `{!PkgErrorsSpec} i spec (s s1 : St W) i1 sn :
  si_Backup i spec s = (Ret (i1, None), s1) → si_snapshot i1 = Some sn →
  ∃ old ident pre w,
    sn_Copies sn = old ++ [MkBackup ident] ∧
    log s1 = log s ++ pre ++ [PPutFile SnapshotTMP (Path sn (MkBackup ident));
                              PPutObject (sn_Bytes sn) (IndexLocation sn)] ∧
    (env_step (PPutObject (sn_Bytes sn) (IndexLocation sn)) w).1 = None ∧
    world s1 = (env_step (PPutObject (sn_Bytes sn) (IndexLocation sn)) w).2.
Proof.
  unfold si_Backup. intros ([i0 err] & s0 & Hl & HB)%bind_Ret_inv Hsn.
  destruct (emits_LazyLoad (λ _, True) i (λ _, I) s) as (pre & Hpre & _). rewrite Hl in Hpre. simpl in Hpre.
  destruct err as [e|].
  { destruct (Wrapf_some e "load latest backup") as (e' & He & _). rewrite He in HB.
    by injection HB. }
  rewrite (bind_Ret _ _ _ _ _ (HourNow_eq s0)) in HB.
  unfold theSnapshot in HB. destruct (si_snapshot i0) as [sn0|]; [|done].
  rewrite bind_ret_l in HB. step_perform_in HB.
  set (ident := format_compact _ _) in *.
  match type of HB with context [env_step (PPutFile ?a ?b) ?w] =>
    destruct (env_step (PPutFile a b) w) as [[e|] w1] eqn:E1; cbn [fst snd] in HB; cbv beta iota zeta in HB end.
  { match type of HB with context [Wrapf (Some e) ?m] => destruct (Wrapf_some e m) as (e' & He & _) end.
    rewrite He in HB. by injection HB. }
  step_perform_in HB. set (sn' := MkSnapshot _ _ _ _) in HB.
  match type of HB with context [env_step (PPutObject ?a ?b) ?w] =>
    destruct (env_step (PPutObject a b) w) as [[e|] w2] eqn:E2; cbn [fst snd] in HB; cbv beta iota zeta in HB end.
  { match type of HB with context [Wrapf (Some e) ?m] => destruct (Wrapf_some e m) as (e' & He & _) end.
    rewrite He in HB. by injection HB. }
  injection HB as <- <-. injection Hsn as <-.
  exists (sn_Copies sn0), ident, (pre ++ [Now]), w1. rewrite E2. split_and!; try done.
  cbn [log]. by rewrite Hpre, <- !app_assoc.
Qed.
(** An index opened afresh for the cluster reads back what was stored last. *)
Lemma reopen_loads `{!SnapshotJsonSpec} `{!ObjectStore W, !ObjectStoreSpec W} sn w (s : St W) :
  (env_step (PPutObject (sn_Bytes sn) (IndexLocation sn)) w).1 = None →
  world s = (env_step (PPutObject (sn_Bytes sn) (IndexLocation sn)) w).2 →
  sn_Prefix sn = "wdrip/backup" → sn_Name sn ≠ "" → sn_Copies sn ≠ [] →
  Forall (λ b, bk_Identity b ≠ "") (sn_Copies sn) →
  (env_step (PGetObject (IndexLocation sn)) (world s)).1.2 = None →
  ∃ sp w', LazyLoad (NewSnapshotIndex (sn_Name sn)) s
           = (Ret (MkSnapshotIndex false (Some (MkSnapshot (sn_Prefix sn) (sn_Name sn) (sn_Copies sn) sp)), None),
              MkSt w' (log s ++ [PGetObject (IndexLocation sn)])).
Proof.
  intros Hput Hw Hpf Hnm Hco Hne Hget.
  assert (IndexLocation (newSnapshot (sn_Name sn)) = IndexLocation sn) as Hloc.
  { unfold IndexLocation, base_. by rewrite Hpf. }
  destruct (env_step (PGetObject (IndexLocation sn)) (world s)) as [[data err] w'] eqn:Eg.
  simpl in Hget. subst err.
  assert (data = sn_Bytes sn) as ->.
  { pose proof (put_stores _ _ _ Hput) as Hst. rewrite <- Hw in Hst.
    rewrite (get_reads (IndexLocation sn) (world s) data) in Hst; [by injection Hst|].
    by rewrite Eg. }
  rewrite <- Hloc in Eg. apply LazyLoad_read in Eg. unfold sn_Load in Eg.
  rewrite decide_False in Eg by apply Marshal_nonempty.
  destruct (Unmarshal_Marshal sn (newSnapshot (sn_Name sn)) Hne) as [sp Hu]. rewrite Hu in Eg.
  exists sp, w'. unfold NewSnapshotIndex. rewrite Eg, Hloc. cbn [fst snd].
  unfold over, over_list. rewrite Hpf, !decide_False by done. by destruct (sn_Copies sn).
Qed.

Lemma putEnsured_stores `{!PkgErrorsSpec} `{!ObjectStore W, !ObjectStoreSpec W} bName data loc (s s1 : St W) :
  putEnsured bName data loc s = (Ret None, s1) → objects (world s1) loc = Some data.
Proof.
  unfold putEnsured. intros HB. step_perform_in HB.
  destruct (env_step (PPutObject data loc) (world s)) as [[e|] w1] eqn:E1; cbn [fst snd] in HB.
  2:{ injection HB as <-. pose proof (put_stores data loc (world s)) as Hp. rewrite E1 in Hp. by apply Hp. }
  destruct (Contains _ _); [|done]. step_perform_in HB.
  destruct (env_step (PEnsureBucket bName) w1) as [[e'|] w2]; cbn [fst snd] in HB.
  { destruct (Wrapf_some e' ("create bucket fail: " +:+ bName)) as (e2 & He & _).
    rewrite He in HB. by injection HB. }
  rewrite perform_eq in HB. injection HB as Hn <-. by apply put_stores.
Qed.

(** What a successful save stored is what a read at the same place gives. *)
Lemma saved_read_back `{!PkgErrorsSpec} `{!ObjectStore W, !ObjectStoreSpec W} data (loc : string → string)
    (s s1 : St W) :
  (bName ← perform PBucketName;
   if decide (bName = "") then mret noBucket else putEnsured bName data (loc bName)) s = (Ret None, s1) →
  let '(bName, w) := env_step PBucketName (world s1) in
  bName ≠ "" ∧
  ((env_step (PGetObject (loc bName)) w).1.2 = None → (env_step (PGetObject (loc bName)) w).1 = (data, None)).
Proof.
  intros HB. step_perform_in HB. pose proof (bucket_fixed (world s) (world s1)) as Hf.
  pose proof (bucket_keeps (world s1)) as Hk. rewrite Hf in HB.
  destruct (env_step PBucketName (world s1)) as [bName w] eqn:Eb. cbn [fst snd] in *.
  match type of HB with context [decide ?P] => destruct (decide P) as [|Hne]; [done|] end.
  split; [done|]. apply putEnsured_stores in HB. specialize (Hk (loc bName)). rewrite HB in Hk.
  pose proof (get_reads (loc bName) w) as Hr.
  destruct (env_step (PGetObject _) w) as [[d err] w2]. cbn [fst snd] in *. intros ->.
  rewrite (Hr d eq_refl) in Hk. by injection Hk as ->.
Qed.
End index_facts.

(** ** Properties *)
Section properties.
Context {W : Type} `{Env W} `{PkgErrors} `{LocalZone}.
Context `{JS : Json Snapshot} `{JN : Json NodePool} `{JC : Json ClusterId}.

(** C27: collecting garbage splits the copies of a loaded index of more than four
    into the four newest and the older ones, deletes exactly the objects of the
    older ones in the store, and writes back an index with the four kept; when
    no two copies have the same identity, no object of a kept copy is deleted. *)
Theorem BackupGC_keeps_newest i (s : St W) i1 s1 sn :
  LazyLoad i s = (Ret (i1, None), s1) → si_snapshot i1 = Some sn →
  (KEEP_COPIES_CNT < length (sn_Copies sn))%nat →
  ∃ kept old s2,
    BackupGC i s = (Ret (MkSnapshotIndex (si_load i1) (Some (sn_set_Copies kept sn)), None), s2) ∧
    kept ++ old ≡ₚ sn_Copies sn ∧ length kept = KEEP_COPIES_CNT ∧
    (∀ k o, k ∈ kept → o ∈ old → newer k o) ∧
    log s2 = log s1 ++ map (λ b, PDeleteObject (Path sn b)) old
                    ++ [PPutObject (sn_Bytes (sn_set_Copies kept sn)) (IndexLocation sn)] ∧
    (NoDup (sn_Copies sn) → ∀ k o, k ∈ kept → o ∈ old → Path sn k ≠ Path sn o).
Proof.
  intros Hl Hsn Hlen.
  pose proof (SortBackups_perm sn) as Hp. pose proof (SortBackups_sorted sn) as Hs.
  set (all := sn_Copies (SortBackups sn)) in *.
  rewrite <- (take_drop KEEP_COPIES_CNT all) in Hp, Hs.
  exists (take KEEP_COPIES_CNT all), (drop KEEP_COPIES_CNT all).
  unfold BackupGC. rewrite (bind_Ret _ _ _ _ _ Hl). unfold theSnapshot. rewrite Hsn, bind_ret_l.
  destruct (Nat.leb_spec (length (sn_Copies sn)) KEEP_COPIES_CNT); [lia|].
  destruct (deleteCopies_run (SortBackups sn) (drop KEEP_COPIES_CNT all) s1) as (s' & E & L).
  rewrite (bind_Ret _ _ _ _ _ E). rewrite perform_bind. eexists. split_and!.
  - reflexivity.
  - done.
  - rewrite length_take. apply Nat.min_l. cut (length all = length (sn_Copies sn)); [lia|].
    apply Permutation_length, SortBackups_perm.
  - intros k o. by apply StronglySorted_app_newer.
  - cbn [log]. rewrite L, <- app_assoc. reflexivity.
  - intros Hnd k o Hk Ho ->%Path_inj. rewrite <- Hp in Hnd.
    apply NoDup_app in Hnd as (_ & Hnd & _). by apply (Hnd o).
Qed.

(** A backup taken later never sorts before one taken earlier, so the copy
    that sorts first is the latest (for a zone of constant offset and four-digit
    years). *)
Theorem backups_ordered `{!Clock W, !ClockSpec W} (s s1 s2 s3 : St W) a b :
  HourNow s = (Ret a, s1) → (clock (world s1) ≤ clock (world s2)) →
  HourNow s2 = (Ret b, s3) →
  0 ≤ local_year zone_offset (env_step Now (world s)).1 ≤ 9999 →
  0 ≤ local_year zone_offset (env_step Now (world s2)).1 ≤ 9999 →
  newer (MkBackup b) (MkBackup a).
Proof.
  rewrite !HourNow_eq. intros [= <- <-] Hc [= <- <-] Hy Hy'.
  unfold newer. cbn [bk_Identity]. apply format_compact_mono; [done..|]. cbn [world] in Hc.
  etrans; [apply (clock_now (world s))|]. etrans; [exact Hc|]. apply clock_now.
Qed.

(** C7: after a successful backup, an index opened afresh for the same cluster
    downloads the newest of all copies recorded, the one just taken included,
    whenever the index file itself can be read. *)
Theorem Backup_LatestBackup `{!PkgErrorsSpec, !SnapshotJsonSpec} `{!ObjectStore W, !ObjectStoreSpec W}
    i spec dir (s s1 : St W) i1 sn :
  si_Backup i spec s = (Ret (i1, None), s1) → si_snapshot i1 = Some sn →
  sn_Prefix sn = "wdrip/backup" → sn_Name sn ≠ "" →
  Forall (λ b, bk_Identity b ≠ "") (sn_Copies sn) →
  (env_step (PGetObject (IndexLocation sn)) (world s1)).1.2 = None →
  ∃ new b,
    new ∈ sn_Copies sn ∧ calls (si_Backup i spec) s (PPutFile SnapshotTMP (Path sn new)) ∧
    b ∈ sn_Copies sn ∧ (∀ c, c ∈ sn_Copies sn → newer b c) ∧
    log (LatestBackup (NewSnapshotIndex (sn_Name sn)) dir s1).2
    = log s1 ++ [PGetObject (IndexLocation sn);
                 PGetFile (Path sn b) (if decide (dir = "") then SnapshotTMP else dir)].
Proof.
  intros HB Hsn Hpf Hnm Hne Hget.
  destruct (si_Backup_inv i spec s s1 i1 sn HB Hsn) as (old & ident & pre & w & Hco & Hlog & Hput & Hw).
  destruct (reopen_loads sn w s1 Hput Hw Hpf Hnm) as (sp & w' & Hl); [by rewrite Hco; destruct old|done..|].
  unfold LatestBackup. rewrite (bind_Ret _ _ _ _ _ Hl). unfold theSnapshot. cbn [si_snapshot].
  rewrite bind_ret_l. set (ld := MkSnapshot _ _ _ sp).
  destruct (sn_LatestBackup_some ld) as (b & Elb & Hb & Hmax); [by simpl; rewrite Hco; destruct old|].
  rewrite Elb. exists (MkBackup ident), b. split_and!; try done.
  - rewrite Hco. apply elem_of_app. right. by apply list_elem_of_singleton.
  - exists (pre ++ [PPutFile SnapshotTMP (Path sn (MkBackup ident)); PPutObject (sn_Bytes sn) (IndexLocation sn)]).
    rewrite HB. split; [done|]. apply elem_of_app. right. by left.
  - step_perform. change (Path (SortBackups ld) b) with (Path sn b).
    destruct (env_step _ w').1; simpl; by rewrite <- app_assoc.
Qed.

(** A node pool saved to the index, creating the bucket when it was missing,
    is read back unchanged under its name. *)
Theorem SaveNodePool_GetNodePool `{!PkgErrorsSpec} `{!ObjectStore W, !ObjectStoreSpec W}
    (valid : NodePool → Prop) `{!JsonRoundtrip zeroNodePool valid} cid np (s s1 : St W) :
  valid np → SaveNodePool cid np s = (Ret None, s1) →
  let '(bName, w) := env_step PBucketName (world s1) in
  (env_step (PGetObject (nPath bName cid (np_Name np))) w).1.2 = None →
  ∃ s2, GetNodePool cid (np_Name np) s1 = (Ret (np, None), s2).
Proof.
  intros Hv HB%(saved_read_back _ (λ b, nPath b cid (np_Name np))).
  destruct (env_step PBucketName (world s1)) as [bName w] eqn:Eb. destruct HB as [Hne Hrd]. intros Hg%Hrd.
  unfold GetNodePool. step_perform. rewrite Eb. cbn [fst snd]. rewrite decide_False by done.
  step_perform. rewrite Hg, (json_roundtrip np Hv). by eexists.
Qed.

(** A saved cluster identity is read back unchanged by an index opened for
    the name it was saved under, whatever id is asked for: the argument is
    ignored. *)
Theorem SaveCluster_GetCluster `{!PkgErrorsSpec} `{!ObjectStore W, !ObjectStoreSpec W}
    (valid : ClusterId → Prop) `{!JsonRoundtrip zeroClusterId valid} nid c id (s s1 : St W) :
  valid c → SaveCluster nid c s = (Ret None, s1) →
  let '(bName, w) := env_step PBucketName (world s1) in
  (env_step (PGetObject (path bName (cid_Name c))) w).1.2 = None →
  ∃ s2, GetCluster (cid_Name c) id s1 = (Ret (c, None), s2).
Proof.
  intros Hv HB%(saved_read_back _ (λ b, path b (cid_Name c))).
  destruct (env_step PBucketName (world s1)) as [bName w] eqn:Eb. destruct HB as [Hne Hrd]. intros Hg%Hrd.
  unfold GetCluster. step_perform. rewrite Eb. cbn [fst snd]. rewrite decide_False by done.
  step_perform. rewrite Hg, (json_roundtrip c Hv). by eexists.
Qed.
End properties.

(** ** A store to evaluate with *)
Module SimStore.
(** The world is the store and a clock. *)
Definition Disk_ : Type := gmap string string * Z.
#[export] Instance store_env : Env Disk_ := λ c w,
  match c return reply c * Disk_ with
  | PBucketName => ("bucket", w)
  | PGetObject p => (match w.1 !! p with
                     | Some b => (b, None)
                     | None => ("", Errorf "NoSuchKey")
                     end, w)
  | PPutObject b p => (None, (<[p := b]> w.1, w.2))
  | PDeleteObject p => (None, (delete p w.1, w.2))
  | Now => (w.2, w)
  | Sleep d => (tt, (w.1, w.2 + Z.max 0 d))
  | c' => (SimEnv.quiet c', w)
  end.
#[export] Instance store_objects : ObjectStore Disk_ := λ w p, w.1 !! p.
#[export] Instance store_spec : ObjectStoreSpec Disk_.
Proof.
  split; unfold objects, store_objects, env_step, store_env; cbn [fst snd].
  - intros b p w _. apply lookup_insert_eq.
  - intros p w b. destruct (w.1 !! p); [by intros [= ->]|done].
  - done.
  - done.
Qed.
#[export] Instance store_clock : Clock Disk_ := snd.
#[export] Instance store_clock_spec : ClockSpec Disk_.
Proof. split; unfold clock, store_clock; [intros [] w|..]; cbn; lia. Qed.

(** Unary text of a binary number, and back: an injective encoding. *)
Fixpoint bits (p : positive) : string :=
  match p with xH => "1" | xO q => String "0"%char (bits q) | xI q => String "1"%char (bits q) end.
Fixpoint unbits (s : string) : positive :=
  match s with
  | String "1"%char EmptyString => xH
  | String "1"%char r => xI (unbits r)
  | String _ r => xO (unbits r)
  | EmptyString => xH
  end.
Lemma unbits_bits p : unbits (bits p) = p.
Proof.
  induction p as [p IH|p IH|]; simpl; [|by rewrite IH|done].
  destruct (bits p) eqn:E; [by destruct p|]. by rewrite IH.
Qed.

(** Encodes the three fields the index reads back. *)
Definition fields (x : Snapshot) : string * string * list string :=
  (sn_Prefix x, sn_Name x, map bk_Identity (sn_Copies x)).
#[export] Instance json_snapshot : Json Snapshot :=
  {| Marshal x := bits (encode (fields x));
     Unmarshal b y :=
       match decode (unbits b) with
       | Some (p, n, l) =>
           (MkSnapshot (over p (sn_Prefix y)) (over n (sn_Name y))
              (over_list (map MkBackup l) (sn_Copies y)) (sn_Spec y), None)
       | None => (y, Errorf "invalid character")
       end |}.
#[export] Instance json_snapshot_spec : SnapshotJsonSpec.
Proof.
  split.
  - intros x. unfold sn_Bytes. cbn. by destruct (encode (fields x)).
  - intros x y _. exists (sn_Spec y). unfold sn_Bytes. cbn.
    rewrite unbits_bits, decode_encode. cbn. f_equal. f_equal. f_equal.
    rewrite map_map. rewrite <- (map_id (sn_Copies x)) at 2. by apply map_ext; intros [].
Qed.

Definition gpu : NodePool := MkNodePool noType (metaNamed "gpu")
  (MkNodePoolSpec "gpu" true (MkInfra 2 "img" 4 8 ∅ None)).
#[export] Instance json_np : Json NodePool :=
  {| Marshal _ := "{gpu}"; Unmarshal _ _ := (gpu, None) |}.
#[export] Instance json_np_spec : JsonRoundtrip zeroNodePool (eq gpu).
Proof. by intros x <-. Qed.
Definition k8s : ClusterId := MkClusterId noType (metaNamed "k8s") zeroClusterIdSpec.
#[export] Instance json_cid : Json ClusterId :=
  {| Marshal _ := "{k8s}"; Unmarshal _ _ := (k8s, None) |}.
#[export] Instance json_cid_spec : JsonRoundtrip zeroClusterId (eq k8s).
Proof. by intros x <-. Qed.

(** Some day in November 2023. *)
Definition today : Z := 1700000000 * Second.
Definition disk0 : St Disk_ := MkSt (∅, today) [].
Definition copies (l : list string) : Snapshot := MkSnapshot "wdrip/backup" "k8s" (map MkBackup l) None.
(** A store that holds an index with the copies [l]. *)
Definition holding (l : list string) : St Disk_ :=
  MkSt ({[IndexLocation (copies l) := sn_Bytes (copies l)]}, today) [].
End SimStore.
Import Sim SimEnv SimStore.

Lemma BackupGC_keeps_newest_witness :
  let l := ["20231101-0800"; "20231103-0800"; "20231102-0800"; "20231105-0800"; "20231104-0800"] in
  let sn := MkSnapshot "wdrip/backup" "k8s" (map MkBackup l) None in
  ∃ kept old s2,
    BackupGC (NewSnapshotIndex "k8s") (holding l)
    = (Ret (MkSnapshotIndex false (Some (sn_set_Copies kept sn)), None), s2) ∧
    kept ++ old ≡ₚ sn_Copies sn ∧ length kept = KEEP_COPIES_CNT ∧
    (∀ k o, k ∈ kept → o ∈ old → newer k o) ∧
    log s2 = [PGetObject (IndexLocation sn)] ++ map (λ b, PDeleteObject (Path sn b)) old
             ++ [PPutObject (sn_Bytes (sn_set_Copies kept sn)) (IndexLocation sn)] ∧
    (NoDup (sn_Copies sn) → ∀ k o, k ∈ kept → o ∈ old → Path sn k ≠ Path sn o).
Proof.
  intros l sn.
  refine (BackupGC_keeps_newest (W:=Disk_) (NewSnapshotIndex "k8s") (holding l)
    (MkSnapshotIndex false (Some sn))
    (MkSt (world (holding l)) [PGetObject (IndexLocation sn)]) sn _ _ _);
    vm_compute; [reflexivity|reflexivity|lia].
Defined.

(** Two copies of the same minute: the object deleted is that of a kept copy. *)
Example gc_same_minute :
  let l := ["20231101-0800"; "20231101-0800"; "20231101-0800"; "20231101-0800"; "20231101-0800"] in
  let sn := copies l in
  log (BackupGC (NewSnapshotIndex "k8s") (holding l)).2
  = [PGetObject (IndexLocation sn); PDeleteObject (Path sn (MkBackup "20231101-0800"));
     PPutObject (sn_Bytes (copies (take 4 l))) (IndexLocation sn)].
Proof. vm_compute. reflexivity. Qed.

Lemma backups_ordered_witness : newer (MkBackup "20231115-0713") (MkBackup "20231115-0613").
Proof.
  refine (backups_ordered (W:=Disk_) disk0 (MkSt (∅, today) [Now]) (MkSt (∅, today + Hour) [])
    (MkSt (∅, today + Hour) [Now]) "20231115-0613" "20231115-0713" _ _ _ _ _);
    vm_compute; [reflexivity|discriminate|reflexivity|split; discriminate|split; discriminate].
Defined.

Lemma Backup_LatestBackup_witness :
  let sn := MkSnapshot "wdrip/backup" "k8s"
              [MkBackup "20231101-0800"; MkBackup "20231115-0613"] (Some zeroClusterSpec) in
  let s := holding ["20231101-0800"] in
  let s1 := (si_Backup (NewSnapshotIndex "k8s") zeroClusterSpec s).2 in
  ∃ new b,
    new ∈ sn_Copies sn ∧
    calls (si_Backup (NewSnapshotIndex "k8s") zeroClusterSpec) s (PPutFile SnapshotTMP (Path sn new)) ∧
    b ∈ sn_Copies sn ∧ (∀ c, c ∈ sn_Copies sn → newer b c) ∧
    log (LatestBackup (NewSnapshotIndex "k8s") "" s1).2
    = log s1 ++ [PGetObject (IndexLocation sn); PGetFile (Path sn b) SnapshotTMP].
Proof.
  intros sn s s1.
  refine (Backup_LatestBackup (W:=Disk_) (NewSnapshotIndex "k8s") zeroClusterSpec "" s s1
    (MkSnapshotIndex false (Some sn)) sn _ _ _ _ _ _);
    [vm_compute; reflexivity|reflexivity|reflexivity|done|repeat constructor; done|vm_compute; reflexivity].
Defined.

Lemma SaveNodePool_GetNodePool_witness :
  ∃ s2, GetNodePool "k8s" "gpu" (SaveNodePool "k8s" gpu disk0).2 = (Ret (gpu, None), s2).
Proof.
  refine (SaveNodePool_GetNodePool (W:=Disk_) (eq gpu) "k8s" gpu disk0 (SaveNodePool "k8s" gpu disk0).2
    eq_refl _ _); vm_compute; reflexivity.
Defined.

Lemma SaveCluster_GetCluster_witness :
  ∃ s2, GetCluster "k8s" "other" (SaveCluster "k8s" k8s disk0).2 = (Ret (k8s, None), s2).
Proof.
  refine (SaveCluster_GetCluster (W:=Disk_) (eq k8s) "k8s" k8s "other" disk0 (SaveCluster "k8s" k8s disk0).2
    eq_refl _ _); vm_compute; reflexivity.
Defined.
