(* ===== verification/Alibaba.v ===== *)
(** * The Alibaba provider: machines and scaling (pkg/iaas/provider/alibaba)

    scaling.go and instance.go: the methods of [provider.Interface] on scaling
    groups, machines and commands, in terms of SDK requests. *)
From stdpp Require Import base list gmap strings.
From Stdlib Require Import Lia.
From S2P Require Import Prelude GoStrings GoTime Api Sdk Effects Provider Utils.
Local Open Scope Z_scope.

(** [AlibabaDev], the configuration of the provider. *)
Record AlibabaDev : Type := MkAlibabaDev {
  ad_Region : string;
  ad_AccessKeyId : string;
  ad_AccessKeySecret : string;
  ad_BucketName : string;
  ad_TemplateFile : string }.

(** [normalize(t)]: an instant of the API without seconds. *)
Definition normalize (t : string) : string := ReplaceAll t "Z" ":30Z".

Definition InstanceDefaultTimeout : Z := 120.
Definition DefaultWaitForInterval : Z := 5.
Definition StopECSTimeout : Z := 240.

(** The tags and the instance made of a machine of the API. *)
Definition ecsTags (i : EcsInstance) : list Value := map (λ t, MkValue t.1 (AStr t.2)) (ei_Tags i).
Definition ecsInstance (region : string) (i : EcsInstance) : Instance :=
  MkInstance region (ei_InstanceId i) (Join (ei_IpAddress i) ",") (ecsTags i)
    (normalize (ei_CreationTime i)) "" (ei_Status i).

Section operations.
Context {W : Type} `{Env W} `{PkgErrors} `{WaitLib W} `{Base64}.

Definition sdk_call (c : sdk) : IO W (sdk_reply c) := perform (Sdk c).

(** [stack[key].Val.(string)]: a missing key has a nil value. *)
Definition stackVal (stack : gmap string Value) (key : string) : IO W string :=
  as_string (v_Val (default zeroValue (stack !! key))).

(** ** scaling.go *)

(** [ModifyScalingConfig]: the first option decides; other actions and no
    option at all panic. *)
Fixpoint modifyOptions (id : string) (opt : list Option) : IO W error :=
  match opt with
  | [] => panic "implement me"
  | o :: rest =>
      let action := if decide (o_Action o = "") then "UserData" else o_Action o in
      if decide (action = "UserData") then
        ud ← as_string (v_Val (o_Value o));
        sdk_call (ModifyScalingConfiguration id ud)
      else modifyOptions id rest
  end.
Definition ModifyScalingConfig (n : AlibabaDev) (ctx : Context_) (gid : string) (opt : list Option)
    : IO W error :=
  id ← stackVal (getStack ctx) "k8s_master_sconfig";
  modifyOptions id opt.

Definition ScalingGroupDetail (n : AlibabaDev) (ctx : Context_) (gid : string) (opt : Option)
    : IO W (ScaleGroupDetail * error) :=
  let stack := getStack ctx in
  vpcid ← stackVal stack "k8s_vpc";
  let action := if decide (o_Action opt = "") then "InstanceIDS" else o_Action opt in
  gid ← (if decide (gid = "") then stackVal stack "k8s_master_sg" else mret gid);
  let result := MkScaleGroupDetail gid ∅ in
  '(grps, err) ← sdk_call (DescribeScalingGroups (ad_Region n) [gid] "");
  match err with
  | Some e => mret (result, Wrapf (Some e) "ess api:")
  | None =>
      match grps with
      | [] => mret (result, Errorf ("sgroupid [" +:+ gid +:+ "] not found[ScalingGroupNotFound]"))
      | g :: _ =>
          if negb (bool_decide (eg_VpcId g = vpcid)) then mret (result, Errorf "InvalidVPC")
          else if decide (action = "InstanceIDS") then
            '(ins, err) ← sdk_call (DescribeScalingInstances (ad_Region n) gid);
            match err with
            | Some e => mret (result, Some e)
            | None =>
                match ins with
                | [] => mret (result, None)
                | _ =>
                    '(attri, err) ← sdk_call (DescribeInstances (ad_Region n) ins);
                    match err with
                    | Some e => mret (result, Errorf ("instance detail call: " +:+ Error e))
                    | None =>
                        mret (MkScaleGroupDetail gid
                                (foldl (λ m i, <[ei_InstanceId i := ecsInstance (ad_Region n) i]> m) ∅ attri),
                              None)
                    end
                end
            end
          else mret (result, Errorf ("[ScalingGroupDetail] unknown action: " +:+ action))
      end
  end.

(** [WaitActivity(client, id, region)], also the closure of
    [RemoveScalingGroupECS]: no activity of the group is in progress. *)
Definition noActivity (region id : string) : IO W (bool * error) :=
  '(cnt, err) ← sdk_call (DescribeScalingActivities region id "InProgress");
  match err with
  | Some _ => mret (false, None)
  | None => mret (bool_decide (cnt = 0%nat), None)
  end.
Definition WaitActivity (region id : string) : IO W error :=
  PollImmediate (10 * Second) (4 * Minute) (noActivity region id).

Definition ScaleMasterGroup (n : AlibabaDev) (ctx : Context_) (gid : string) (desired : Z) : IO W error :=
  let stack := getStack ctx in
  sgid ← stackVal stack "k8s_master_sg";
  srid ← stackVal stack "k8s_master_srule";
  let region := ad_Region n in
  err ← sdk_call (ModifyScalingRule region srid "TotalCapacity" desired);
  match (err : error) with
  | Some e => mret (Errorf ("set scaling rule to " +:+ fmt_d desired +:+ " fail: " +:+ Error e))
  | None =>
      '(rules, err) ← sdk_call (DescribeScalingRules region [srid] "");
      match err with
      | Some e => mret (Errorf ("find scaling rule detail: " +:+ Error e))
      | None =>
          match rules with
          | [rule] =>
              err ← WaitActivity region sgid;
              match err with
              | Some _ => mret (Errorf ("wait for activity enable: " +:+ sgid))
              | None =>
                  err ← sdk_call (ExecuteScalingRule (er_Ari rule));
                  match (err : error) with
                  | Some e =>
                      if Contains (Error e) "IncorrectCapacity.NoChange" then WaitActivity region sgid
                      else mret (Errorf ("execute scaling rule failed: " +:+ Error e))
                  | None => WaitActivity region sgid
                  end
              end
          | _ => mret (Errorf ("multiple scaling rule found: " +:+ fmt_d (Z.of_nat (length rules)) +:+
                               " by id " +:+ srid))
          end
      end
  end.

(** [ScaleNodeGroup]: the rule executed is the first one listed. *)
Definition ScaleNodeGroup (n : AlibabaDev) (ctx : Context_) (gid : string) (desired : Z) : IO W error :=
  let region := ad_Region n in
  '(rules, err) ← sdk_call (DescribeScalingRules region [] gid);
  match err with
  | Some e => mret (Errorf ("find node scaling rule detail: " +:+ Error e))
  | None =>
      err ← match List.find (λ r, bool_decide (er_GroupId r = gid) && bool_decide (er_Name r = "NodeScale")) rules with
            | None =>
                '(_, err) ← sdk_call (CreateScalingRule region gid "NodeScale" "TotalCapacity" desired);
                match err with
                | Some e => mret (Errorf ("create scaling rule [NodeScale] error: " +:+ Error e))
                | None => mret None
                end
            | Some rule =>
                err ← sdk_call (ModifyScalingRule region (er_Id rule) "TotalCapacity" desired);
                match (err : error) with
                | Some e => mret (Errorf ("set scaling rule to " +:+ fmt_d desired +:+ " fail: " +:+ Error e))
                | None => mret None
                end
            end;
      match err with
      | Some e => mret (Some e)
      | None =>
          err ← WaitActivity region gid;
          match err with
          | Some _ => mret (Errorf ("wait for activity enable: " +:+ gid))
          | None =>
              match rules with
              | [] => panic "index out of range [0] with length 0"
              | rule0 :: _ =>
                  err ← sdk_call (ExecuteScalingRule (er_Ari rule0));
                  match (err : error) with
                  | Some e => mret (Errorf ("execute node scaling rule failed: " +:+ Error e))
                  | None => WaitActivity region gid
                  end
              end
          end
      end
  end.

Definition RemoveScalingGroupECS (n : AlibabaDev) (ctx : Context_) (gid ecs : string) : IO W error :=
  sgid ← stackVal (getStack ctx) "k8s_master_sg";
  err ← WaitActivity (ad_Region n) sgid;
  match err with
  | Some _ => mret (Errorf ("wait for activity enable: " +:+ sgid))
  | None =>
      err ← sdk_call (RemoveInstances sgid [ecs]);
      match (err : error) with
      | Some e => mret (Errorf ("remove sg instance: " +:+ ecs +:+ " " +:+ Error e))
      | None => WaitActivity (ad_Region n) sgid
      end
  end.

(** [WaitECS(client, id, status, timeout)]: every round takes five off the
    timeout, so [Z.to_nat timeout] rounds are more than there can be. *)
Fixpoint WaitECS_go (fuel : nat) (id status : string) (timeout : Z) : IO W error :=
  match fuel with
  | O => hang
  | S fuel =>
      '(st, err) ← sdk_call (DescribeInstanceAttribute id);
      match err with
      | Some e => mret (Some e)
      | None =>
          if decide (st = status) then
            _ ← perform (Sleep (DefaultWaitForInterval * Second));
            mret None
          else
            let timeout := timeout - DefaultWaitForInterval in
            if timeout <=? 0 then mret (Errorf ("timeout waiting " +:+ id +:+ " " +:+ status))
            else
              _ ← perform (Sleep (DefaultWaitForInterval * Second));
              WaitECS_go fuel id status timeout
      end
  end.
Definition WaitECS (id status : string) (timeout : Z) : IO W error :=
  let timeout := if timeout <=? 0 then InstanceDefaultTimeout else timeout in
  WaitECS_go (Z.to_nat timeout) id status timeout.

Definition RestartECS (n : AlibabaDev) (ctx : Context_) (id : string) : IO W error :=
  '(st, err) ← sdk_call (DescribeInstanceAttribute id);
  match err with
  | Some e => mret (Errorf ("get ecs status failed: " +:+ Error e))
  | None =>
      err ← (if decide (st = "Running") then
               err ← sdk_call (StopInstance id false);
               match (err : error) with
               | Some e => mret (Errorf ("stop instance[" +:+ id +:+ "] error: " +:+ Error e +:+ " "))
               | None =>
                   err ← WaitECS id "Stopped" 120;
                   match err with
                   | Some e => mret (Errorf ("wait for instance stop: " +:+ id +:+ ", " +:+ Error e))
                   | None => mret None
                   end
               end
             else mret None);
      match err with
      | Some e => mret (Some e)
      | None =>
          err ← sdk_call (StartInstance id);
          match (err : error) with
          | Some e => mret (Errorf ("start instance[" +:+ id +:+ "]: " +:+ Error e))
          | None => WaitECS id "Running" 120
          end
      end
  end.

(** The end of [ReplaceSystemDisk]: the key pair is attached again and the
    machine started. *)
Definition startReplaced (eid : string) (inst : EcsInstance) : IO W error :=
  err ← (if decide (ei_KeyPairName inst = "") then mret None
         else
           err ← sdk_call (AttachKeyPair (ei_RegionId inst) (ei_KeyPairName inst) [ei_InstanceId inst]);
           match (err : error) with
           | Some e => mret (Errorf ("attach instance keypair: " +:+ Error e))
           | None => mret None
           end);
  match err with
  | Some e => mret (Some e)
  | None =>
      err ← WaitECS eid "Stopped" 120;
      match err with
      | Some e => mret (Errorf ("wait instance stop timeout: " +:+ Error e))
      | None =>
          err ← sdk_call (StartInstance eid);
          match (err : error) with
          | Some e => mret (Errorf ("start instance: " +:+ Error e))
          | None => WaitECS eid "Running" 120
          end
      end
  end.

Definition ReplaceSystemDisk (n : AlibabaDev) (ctx : Context_) (eid userdata : string) (opt : Option)
    : IO W error :=
  '(iins, err) ← sdk_call (DescribeInstances "" [eid]);
  match err with
  | Some _ => mret (Errorf ("describe instance: " +:+ eid))
  | None =>
      match iins with
      | [] => mret (Wrapf None "no instance find by id")
      | inst :: _ =>
          err ← (if decide (ei_Status inst = "Running") then
                   err ← sdk_call (StopInstance eid false);
                   match (err : error) with
                   | Some e => mret (Errorf ("stop instance error: " +:+ Error e))
                   | None => mret None
                   end
                 else mret None);
          match err with
          | Some e => mret (Some e)
          | None =>
              err ← WaitECS eid "Stopped" 120;
              match err with
              | Some e => mret (Errorf ("wait " +:+ eid +:+ " stop: " +:+ Error e))
              | None =>
                  err ← (if decide (userdata = "") then mret None
                         else
                           err ← sdk_call (ModifyInstanceAttribute eid userdata);
                           match (err : error) with
                           | Some e => mret (Errorf ("replace instance userdata: " +:+ Error e))
                           | None => mret None
                           end);
                  match err with
                  | Some e => mret (Some e)
                  | None =>
                      err ← sdk_call (SdkReplaceSystemDisk eid (ei_ImageId inst));
                      match (err : error) with
                      | Some e => mret (Errorf ("replace system disk: " +:+ Error e))
                      | None => startReplaced eid inst
                      end
                  end
              end
          end
      end
  end.

(** The tags of the values; a value that is not a string panics. *)
Fixpoint tagsOf (val : list Value) : IO W (list (string * string)) :=
  match val with
  | [] => mret []
  | v :: rest => s ← as_string (v_Val v); l ← tagsOf rest; mret ((v_Key v, s) :: l)
  end.

(** [TagECS]: a failed removal of the old tags matters only when something was
    not found. *)
Definition TagECS (n : AlibabaDev) (ctx : Context_) (id : string) (val : list Value) : IO W error :=
  match val with
  | [] => mret None
  | _ =>
      atags ← tagsOf val;
      err ← sdk_call (UntagResources (ad_Region n) id atags.*1);
      match (err : error) with
      | Some e =>
          if Contains (Error e) "NotFound"
          then mret (Errorf ("remove tag: " +:+ Error e +:+ ", " +:+ id +:+ ", " +:+ fmt_strs atags.*1))
          else sdk_call (TagResources (ad_Region n) id atags)
      | None => sdk_call (TagResources (ad_Region n) id atags)
      end
  end.

(** ** instance.go *)

Definition InstanceDetail (n : AlibabaDev) (ctx : Context_) (id : list string) : IO W (list Instance * error) :=
  '(r, err) ← sdk_call (DescribeInstances (ad_Region n) id);
  match err with
  | Some e => mret ([], Wrapf (Some e) "InstanceDetail")
  | None => mret (map (ecsInstance "") r, None)
  end.

(** No command of the machine is running.  The filter of the API is not relied
    on; a total of zero is. *)
Definition noInvocation (n : AlibabaDev) (id : string) : IO W (bool * error) :=
  '(total, inv, err) ← sdk_call (DescribeInvocations (ad_Region n) id "Running" "RunShellScript");
  match err with
  | Some _ => mret (false, None)
  | None =>
      mret (bool_decide (total = 0) ||
            negb (existsb (λ i, bool_decide (iv_Status i = "Running")) inv), None)
  end.

(** [DeleteECS]: a running machine is stopped by force first; [StopECS] only
    stops it. *)
Definition DeleteECS (n : AlibabaDev) (ctx : Context_) (id : string) : IO W error :=
  if decide (id = "") then mret (Errorf "instance id must be provided")
  else
    '(st, err) ← sdk_call (DescribeInstanceAttribute id);
    match err with
    | Some e =>
        if Contains (Error e) "not exist" then mret None
        else mret (Errorf ("get ecs status failed: " +:+ Error e))
    | None =>
        err ← (if decide (st = "Running") then
                 err ← sdk_call (StopInstance id true);
                 match (err : error) with
                 | Some e => mret (Errorf ("stop instance[" +:+ id +:+ "] error: " +:+ Error e))
                 | None =>
                     err ← WaitECS id "Stopped" StopECSTimeout;
                     match err with
                     | Some e => mret (Errorf ("wait for instance stop: " +:+ id +:+ ", " +:+ Error e))
                     | None => mret None
                     end
                 end
               else mret None);
        match err with
        | Some e => mret (Some e)
        | None => sdk_call (DeleteInstance (ad_Region n) id true)
        end
    end.

Definition StopECS (n : AlibabaDev) (ctx : Context_) (id : string) : IO W error :=
  if decide (id = "") then mret (Errorf "instance id must be provided")
  else
    '(st, err) ← sdk_call (DescribeInstanceAttribute id);
    match err with
    | Some e =>
        if Contains (Error e) "not exist" then mret None
        else mret (Errorf ("get ecs status failed: " +:+ Error e))
    | None =>
        if decide (st = "Running") then
          err ← sdk_call (StopInstance id true);
          match (err : error) with
          | Some e => mret (Errorf ("stop instance[" +:+ id +:+ "] error: " +:+ Error e))
          | None => WaitECS id "Stopped" StopECSTimeout
          end
        else mret None
    end.
End operations.

(** ** Commands

    [RunCommand] keeps the invocation whose result it waits for in a variable
    its polling closure assigns. *)
Abbreviation Invocation := (string * list EcsResult)%type.

Section commands.
Context {W : Type} `{Env W} `{PkgErrors} `{WaitLib W} `{WaitLib (W * Invocation)} `{Base64}.
Existing Instance var_env.

(** One attempt of [waitResult]. *)
Definition commandResult (id invoke : string) : IO (W * Invocation) (bool * error) :=
  '(status, result, err) ← perform (Sdk (DescribeInvocationResults id invoke));
  match err with
  | Some _ => mret (false, None)
  | None =>
      match result with
      | [] => mret (false, None)
      | r :: _ =>
          if decide (ir_Status r = "Running") then mret (false, None)
          else _ ← set_var (status, result); mret (true, None)
      end
  end.

Definition RunCommand (n : AlibabaDev) (ctx : Context_) (id cmd : string) : IO W (Result * error) :=
  let content := EncodeToString cmd in
  err ← PollImmediate (3 * Second) (4 * Minute) (noInvocation n id);
  match err with
  | Some _ => mret (MkResult "" "", Wrapf err "wait invocation: ")
  | None =>
      '(invoke, err) ← sdk_call (SdkRunCommand id content);
      match err with
      | Some e => mret (MkResult "" "", Wrapf (Some e) "run command")
      | None =>
          '(err, ivk) ← with_var ("", []) (PollImmediate (4 * Second) (4 * Minute) (commandResult id invoke));
          match err with
          | Some e => mret (MkResult "" "", Wrapf (Some e) "wait command result")
          | None =>
              match ivk.2 with
              | [] => mret (MkResult "" "", None)
              | r :: _ =>
                  let '(output, err) := DecodeString (ir_Output r) in
                  match err with
                  | Some e => mret (MkResult "" "", Some e)
                  | None => mret (MkResult ivk.1 output, None)
                  end
              end
          end
      end
  end.
End commands.

(** ** Facts *)
Definition pollStatus (id : string) : list call :=
  [Sdk (DescribeInstanceAttribute id); Sleep (DefaultWaitForInterval * Second)].
(** [k] rounds of [WaitECS] that did not see the status. *)
Fixpoint rounds (k : nat) (id : string) : list call :=
  match k with O => [] | S k => pollStatus id ++ rounds k id end.

Section facts.
Context {W : Type} `{Env W}.

(** What the status query answers in the world [w]. *)
Definition statusIn (id : string) (w : W) : string * error :=
  (env_step (Sdk (DescribeInstanceAttribute id)) w).1.

(** One run of [WaitECS] within the limit [t]: after [k] rounds that saw another
    status, the last query ends it. *)
Definition waited (id st : string) (t : Z) (s : St W) (k : nat) (err : error) (s' : St W) : Prop :=
  let w := after (rounds k id) (world s) in
  5 * Z.of_nat k < t ∧
  (∀ j, (j < k)%nat → ∃ x, statusIn id (after (rounds j id) (world s)) = (x, None) ∧ x ≠ st) ∧
  match err with
  | None => statusIn id w = (st, None) ∧
            s' = MkSt (after (pollStatus id) w) (log s ++ rounds k id ++ pollStatus id)
  | Some e => log s' = log s ++ rounds k id ++ [Sdk (DescribeInstanceAttribute id)] ∧
              ((statusIn id w).2 = Some e ∨
               ∃ x, statusIn id w = (x, None) ∧ x ≠ st ∧ t <= 5 * (Z.of_nat k + 1))
  end.

Lemma WaitECS_go_waited fuel id st t (s : St W) :
  0 < t → t <= Z.of_nat fuel →
  ∃ k err s', WaitECS_go fuel id st t s = (Ret err, s') ∧ waited id st t s k err s'.
Proof.
  revert t s. induction fuel as [|fuel IH]; intros t s Ht Hf; [lia|].
  cbn [WaitECS_go]. unfold sdk_call. step_perform.
  destruct (env_step (Sdk (DescribeInstanceAttribute id)) (world s)) as [[x err] w1] eqn:E. cbn [fst snd].
  assert (statusIn id (world s) = (x, err)) as Hs by (unfold statusIn; by rewrite E).
  destruct err as [e|].
  { exists 0%nat, (Some e). eexists. split; [done|]. unfold waited. cbn [rounds after foldl log].
    split_and!; [lia|intros j Hj; lia|done|]. left. by rewrite Hs. }
  destruct (decide (x = st)) as [->|Hne].
  { step_perform. exists 0%nat, None. eexists. split; [done|]. unfold waited. cbn [rounds pollStatus after foldl].
    split_and!; [lia|intros j Hj; lia|done|]. rewrite E, <- app_assoc. done. }
  destruct (t - DefaultWaitForInterval <=? 0) eqn:El; unfold DefaultWaitForInterval in El.
  { exists 0%nat. do 2 eexists. split; [done|]. unfold waited, Errorf. cbn [rounds after foldl log].
    split_and!; [lia|intros j Hj; lia|done|]. right. exists x. split_and!; [done..|lia]. }
  step_perform. set (s2 := MkSt _ _).
  destruct (IH (t - 5) s2) as (k & err & s' & HW & Hk & Hj & He); [lia..|].
  assert (∀ j, after (rounds (S j) id) (world s) = after (rounds j id) (world s2)) as Ha.
  { intros j. cbn [rounds]. rewrite after_app. unfold s2, pollStatus. cbn [world after foldl]. by rewrite E. }
  exists (S k), err, s'. split; [exact HW|]. unfold waited. rewrite Ha. split_and!; [lia| |].
  { intros [|j] Hjk; [by exists x|]. rewrite Ha. apply Hj. lia. }
  destruct err as [e|].
  - destruct He as [Hl [He|(y & ? & ? & ?)]]; (split; [rewrite Hl; unfold s2; cbn [log rounds pollStatus]; by rewrite <- !app_assoc|]);
      [by left|right; exists y; split_and!; [done..|lia]].
  - destruct He as [Hst ->]. split; [done|]. f_equal. unfold s2. cbn [log rounds pollStatus].
    by rewrite <- !app_assoc.
Qed.

Definition waitLimit (t : Z) : Z := if t <=? 0 then InstanceDefaultTimeout else t.

Lemma WaitECS_waited id st t (s : St W) :
  ∃ k err s', WaitECS id st t s = (Ret err, s') ∧ waited id st (waitLimit t) s k err s'.
Proof.
  apply WaitECS_go_waited; unfold waitLimit, InstanceDefaultTimeout; destruct (t <=? 0) eqn:E; lia.
Qed.

Lemma WaitECS_None id st t (s s' : St W) :
  WaitECS id st t s = (Ret None, s') → ∃ k, waited id st (waitLimit t) s k None s'.
Proof.
  destruct (WaitECS_waited id st t s) as (k & err & s1 & -> & HW). intros [= -> ->]. by exists k.
Qed.

Lemma emits_WaitECS P id st t :
  P (Sdk (DescribeInstanceAttribute id)) → (∀ d, P (Sleep d)) → emits P (WaitECS id st t).
Proof.
  intros Hd Hs. unfold WaitECS. generalize (if t <=? 0 then InstanceDefaultTimeout else t) as t'.
  intros t'. generalize (Z.to_nat t') as fuel. intros fuel. revert t'.
  induction fuel as [|fuel IH]; intros t'; cbn [WaitECS_go]; unfold sdk_call; solve_emits; auto with emits.
Qed.

Lemma stackVal_Ret stack key v (s s' : St W) :
  stackVal stack key s = (Ret v, s') → v_Val (default zeroValue (stack !! key)) = AStr v ∧ s' = s.
Proof. unfold stackVal. destruct (v_Val _); intros [= <- <-]. done. Qed.

Lemma emits_stackVal P stack key : emits P (stackVal stack key : IO W string).
Proof. unfold stackVal. destruct (v_Val _); simpl; auto with emits. Qed.

(** The query of [WaitActivity]. *)
Definition inProgress (region gid : string) : call := Sdk (DescribeScalingActivities region gid "InProgress").

Lemma emits_WaitActivity `{!WaitLib W, !WaitSpec W} P region gid :
  P (inProgress region gid) → emits P (WaitActivity region gid).
Proof. intros HP. unfold WaitActivity, noActivity, sdk_call. solve_emits; done. Qed.

(** A wait that succeeds ended on an answer of no activity. *)
Lemma WaitActivity_idle `{!WaitLib W, !WaitSpec W} region gid (s s' : St W) :
  WaitActivity region gid s = (Ret None, s') →
  ∃ s1, (env_step (inProgress region gid) (world s1)).1 = (0%nat, None) ∧
        s' = MkSt (env_step (inProgress region gid) (world s1)).2 (log s1 ++ [inProgress region gid]).
Proof.
  intros Hw. pose proof (PollImmediate_run (10 * Second) (4 * Minute) (noActivity region gid) s) as Hr.
  unfold WaitActivity in Hw. rewrite Hw in Hr. apply poll_run_success in Hr as [s1 Hs].
  exists s1. revert Hs. unfold noActivity, sdk_call. step_perform. unfold inProgress.
  destruct (env_step _ _) as [[cnt [e|]] w]; cbn [fst snd]; [done|].
  case_bool_decide; intros [= <-]. by subst.
Qed.

Definition notReplace (c : call) : Prop :=
  match c with Sdk (SdkReplaceSystemDisk _ _) => False | _ => True end.
Lemma emits_startReplaced eid inst : emits notReplace (startReplaced eid inst).
Proof. unfold startReplaced, sdk_call. solve_emits; try done; by apply emits_WaitECS. Qed.

Lemma emits_ReplaceSystemDisk `{PkgErrors} n ctx eid userdata opt :
  emits (λ c, match c with Sdk (SdkReplaceSystemDisk id _) => id = eid | _ => True end)
    (ReplaceSystemDisk n ctx eid userdata opt : IO W error).
Proof.
  unfold ReplaceSystemDisk, sdk_call. solve_emits; try done;
    first [by apply emits_WaitECS | eapply emits_weaken; [|apply emits_startReplaced];
          intros c; by case_sdk c ].
Qed.
End facts.

(** ** Properties *)
Section properties.
Context {W : Type} `{Env W} `{PkgErrors} `{WaitLib W} `{Base64}.

Ltac emits_any :=
  solve_emits; try done;
  first [ by apply emits_WaitECS
        | by apply emits_stackVal
        | by apply emits_WaitActivity
        | by eapply emits_weaken; [|apply emits_startReplaced] ].

(** C13: [ReplaceSystemDisk] replaces the disk of no other machine, with the image
    the machine has, and only when it is stopped: the calls right before the
    replacement are a status query that was answered [Stopped], the pause after
    it and, when user data is given, its update. *)
Theorem replace_after_stop n ctx eid userdata opt (s : St W) id img :
  calls (ReplaceSystemDisk n ctx eid userdata opt) s (Sdk (SdkReplaceSystemDisk id img)) →
  let final := (ReplaceSystemDisk n ctx eid userdata opt s).2 in
  id = eid ∧
  ∃ inst rest pre k post,
    (env_step (Sdk (DescribeInstances "" [eid])) (world s)).1 = (inst :: rest, None) ∧
    img = ei_ImageId inst ∧
    pre = Sdk (DescribeInstances "" [eid]) ::
          (if decide (ei_Status inst = "Running") then [Sdk (StopInstance eid false)] else []) ∧
    statusIn eid (after (pre ++ rounds k eid) (world s)) = ("Stopped", None) ∧
    log final = log s ++ pre ++ rounds k eid ++ pollStatus eid ++
                (if decide (userdata = "") then [] else [Sdk (ModifyInstanceAttribute eid userdata)]) ++
                [Sdk (SdkReplaceSystemDisk eid img)] ++ post ∧
    Forall notReplace post.
Proof.
  intros Hc final. subst final. revert Hc. unfold ReplaceSystemDisk, sdk_call.
  intros Hc. calls_step Hc; [|emits_any]. destruct Hc as [?|Hc]; [done|].
  step_perform. destruct (env_step _ _) as [[iins err] w1] eqn:E1. cbn [fst snd] in *.
  destruct err; [by apply calls_ret in Hc|]. destruct iins as [|inst rest]; [by apply calls_ret in Hc|].
  apply (calls_bind_inv notReplace) in Hc as (err & s2 & E2 & Hc); [|emits_any|by intros []|intros; emits_any].
  destruct err; [by apply calls_ret in Hc|].
  set (stop := if decide (ei_Status inst = "Running") then [Sdk (StopInstance eid false)] else []).
  assert (s2 = MkSt (after stop w1) (log s ++ [Sdk (DescribeInstances "" [eid])] ++ stop)) as Hs2.
  { unfold stop. destruct (decide _).
    - step_perform_in E2. destruct (env_step _ w1) as [[g|] w2] eqn:E3; cbn [fst snd] in E2; [done|].
      injection E2 as <-. cbn [after foldl]. by rewrite E3, <- app_assoc.
    - injection E2 as <-. done. }
  apply (calls_bind_inv notReplace) in Hc as (err & s3 & E3 & Hc); [|emits_any|by intros []|intros; emits_any].
  destruct err; [by apply calls_ret in Hc|].
  apply (calls_bind_inv notReplace) in Hc as (err & s4 & E4 & Hc); [|emits_any|by intros []|intros; emits_any].
  destruct err; [by apply calls_ret in Hc|].
  rewrite (bind_Ret _ _ _ _ _ E2), (bind_Ret _ _ _ _ _ E3), (bind_Ret _ _ _ _ _ E4).
  set (ud := if decide (userdata = "") then [] else [Sdk (ModifyInstanceAttribute eid userdata)]).
  assert (log s4 = log s3 ++ ud) as Hs4.
  { clear -E4. subst ud. case_decide.
    - injection E4 as <-. by rewrite app_nil_r.
    - step_perform_in E4. destruct (env_step _ _) as [[g|] w2]; cbn [fst snd] in E4; [done|].
      by injection E4 as <-. }
  apply WaitECS_None in E3 as (k & _ & _ & Hst & ->).
  assert (id = eid ∧ img = ei_ImageId inst) as [-> ->].
  { calls_step Hc; [|intros; emits_any]. destruct Hc as [[= -> ->]|Hc]; [done|].
    apply (calls_emits notReplace) in Hc; [done|]. destruct (env_step _ _).1; [solve_emits|apply emits_startReplaced]. }
  split; [done|]. exists inst, rest. step_perform.
  match goal with |- context [log (?m ?st).2] =>
    assert (emits notReplace m) as Hm; [|destruct (Hm st) as (post & El & Hp)] end.
  { destruct (env_step _ (world s4)).1; [solve_emits|apply emits_startReplaced]. }
  eexists _, k, post. rewrite El. cbn [log]. rewrite Hs4. split_and!; try done.
  - subst s2. cbn [world] in Hst. rewrite after_app. cbn [after foldl]. rewrite E1. done.
  - subst s2. cbn [log]. rewrite <- !app_assoc. done.
Qed.

(** C24: waiting for a status returns, whatever the machine does: [k] rounds,
    five seconds each, saw another status, and [5 * k] is less than the limit.
    It returns without error exactly on an answer that is the status; the error
    is the one of the query, or the limit is used up. *)
Theorem WaitECS_returns id st t (s : St W) :
  ∃ k err s', WaitECS id st t s = (Ret err, s') ∧ waited id st (waitLimit t) s k err s'.
Proof. apply WaitECS_waited. Qed.

(** [ScaleMasterGroup] executes a scaling rule only after it set the capacity
    of the group's own rule to the desired one, found exactly that rule, and the
    last query before the execution answered that no scaling activity was in
    progress; afterwards it only waits for the activity to end. *)
Theorem ScaleMasterGroup_waits `{!WaitSpec W} n ctx gid desired (s : St W) ari :
  calls (ScaleMasterGroup n ctx gid desired) s (Sdk (ExecuteScalingRule ari)) →
  ∃ sgid srid rule s2 s3 post,
    let modify := Sdk (ModifyScalingRule (ad_Region n) srid "TotalCapacity" desired) in
    let rules := Sdk (DescribeScalingRules (ad_Region n) [srid] "") in
    v_Val (default zeroValue (getStack ctx !! "k8s_master_sg")) = AStr sgid ∧
    v_Val (default zeroValue (getStack ctx !! "k8s_master_srule")) = AStr srid ∧
    (env_step modify (world s)).1 = None ∧
    (env_step rules (after [modify] (world s))).1 = ([rule], None) ∧ ari = er_Ari rule ∧
    WaitActivity (ad_Region n) sgid (MkSt (after [modify; rules] (world s)) (log s ++ [modify; rules]))
    = (Ret None, s3) ∧
    (env_step (inProgress (ad_Region n) sgid) (world s2)).1 = (0%nat, None) ∧
    log s3 = log s2 ++ [inProgress (ad_Region n) sgid] ∧
    log (ScaleMasterGroup n ctx gid desired s).2 = log s3 ++ Sdk (ExecuteScalingRule ari) :: post ∧
    Forall (λ c, c = inProgress (ad_Region n) sgid) post.
Proof.
  set (P := λ c, match c with Sdk (ExecuteScalingRule _) => False | _ => True end).
  intros Hc. pose proof Hc as Hc0. unfold ScaleMasterGroup, sdk_call in Hc |- *.
  apply (calls_bind_inv P) in Hc as (sgid & s1 & E1 & Hc); [|emits_any|by intros []|intros; emits_any].
  rewrite (bind_Ret _ _ _ _ _ E1). apply stackVal_Ret in E1 as [Hsg ->].
  apply (calls_bind_inv P) in Hc as (srid & s1 & E1 & Hc); [|emits_any|by intros []|intros; emits_any].
  rewrite (bind_Ret _ _ _ _ _ E1). apply stackVal_Ret in E1 as [Hsr ->].
  calls_step Hc; [|intros; emits_any]. destruct Hc as [?|Hc]; [done|]. step_perform.
  destruct (env_step _ _) as [[e|] w1] eqn:Em; cbn [fst snd] in *; [by apply calls_ret in Hc|].
  calls_step Hc; [|intros; emits_any]. destruct Hc as [?|Hc]; [done|]. step_perform. cbn [world log] in Hc.
  destruct (env_step _ w1) as [[rules [e|]] w2] eqn:Er; cbn [fst snd] in *; [by apply calls_ret in Hc|].
  destruct rules as [|rule [|]]; [by apply calls_ret in Hc| |by apply calls_ret in Hc].
  apply (calls_bind_inv P) in Hc as (err & s3 & E3 & Hc); [|emits_any|by intros []|intros; emits_any].
  destruct err; [by apply calls_ret in Hc|]. rewrite (bind_Ret _ _ _ _ _ E3). step_perform.
  destruct (WaitActivity_idle _ _ _ _ E3) as (s2 & Hidle & Hs3).
  exists sgid, srid, rule, s2, s3.
  match goal with |- context [log (?m ?st).2] =>
    assert (emits (λ c, c = inProgress (ad_Region n) sgid) m) as Hm; [|destruct (Hm st) as (post & El & Hp)] end.
  { destruct (env_step _ (world s3)).1; [destruct (Contains _ _)|]; try apply emits_ret; by apply emits_WaitActivity. }
  assert (ari = er_Ari rule) as ->.
  { calls_step Hc; [|intros; emits_any]. destruct Hc as [[= ->]|Hc]; [done|].
    by apply (calls_emits P) in Hc; [|eapply emits_weaken; [|exact Hm]; intros ? ->]. }
  exists post. rewrite El. cbn [log]. rewrite Em. cbn [after foldl]. rewrite Em. cbn [snd]. rewrite Er.
  split_and!; try done; [|by rewrite Hs3|by rewrite <- app_assoc].
  rewrite <- E3. cbn [snd]. by rewrite <- app_assoc.
Qed.

(** The first scaling of a node group, which has no rule yet, never succeeds:
    no rule is executed, and when the rule has been created and the group is
    idle the call panics. *)
Theorem ScaleNodeGroup_first_fails `{!WaitSpec W} n ctx gid desired (s : St W) :
  (env_step (Sdk (DescribeScalingRules (ad_Region n) [] gid)) (world s)).1 = ([], None) →
  (∀ ari, ¬ calls (ScaleNodeGroup n ctx gid desired) s (Sdk (ExecuteScalingRule ari))) ∧
  (∀ s', ScaleNodeGroup n ctx gid desired s ≠ (Ret None, s')) ∧
  let list := Sdk (DescribeScalingRules (ad_Region n) [] gid) in
  let create := Sdk (CreateScalingRule (ad_Region n) gid "NodeScale" "TotalCapacity" desired) in
  ∀ ari id s1,
    (env_step create (after [list] (world s))).1 = (ari, id, None) →
    WaitActivity (ad_Region n) gid (MkSt (after [list; create] (world s)) (log s ++ [list; create])) = (Ret None, s1) →
    ∃ msg, ScaleNodeGroup n ctx gid desired s = (Panic msg, s1).
Proof.
  intros Hl. set (P := λ c, match c with Sdk (ExecuteScalingRule _) => False | _ => True end).
  unfold ScaleNodeGroup, sdk_call. split_and!.
  - intros ari Hc. calls_step Hc; [|intros; emits_any]. destruct Hc as [?|Hc]; [done|].
    rewrite Hl in Hc. apply (calls_emits P) in Hc; [done|]. cbn [List.find]. emits_any.
  - intros s' HB. step_perform_in HB. rewrite Hl in HB.
    apply bind_Ret_inv in HB as ([e|] & s1 & _ & HB); [done|].
    by apply bind_Ret_inv in HB as ([e|] & s2 & _ & HB).
  - intros ari id s1 Hcr Hw. step_perform. rewrite Hl. cbn [List.find after foldl log] in *.
    eexists. erewrite bind_Ret.
    2:{ step_perform. rewrite Hcr. reflexivity. }
    cbn [log]. rewrite <- app_assoc. by erewrite bind_Ret by exact Hw.
Qed.

(** [DeleteECS] deletes only the machine it was given, and never a running
    one: either the status query said something else than [Running], or the
    machine was stopped by force and then seen [Stopped]; the deletion is the
    last call. *)
Theorem DeleteECS_stopped n ctx id (s : St W) region id' force :
  calls (DeleteECS n ctx id) s (Sdk (DeleteInstance region id' force)) →
  let query := Sdk (DescribeInstanceAttribute id) in
  let stop := Sdk (StopInstance id true) in
  let delete := Sdk (DeleteInstance (ad_Region n) id true) in
  let final := (DeleteECS n ctx id s).2 in
  id' = id ∧ id ≠ "" ∧
  ∃ st, statusIn id (world s) = (st, None) ∧
    ((st ≠ "Running" ∧ log final = log s ++ [query; delete]) ∨
     (st = "Running" ∧ ∃ k,
        statusIn id (after ([query; stop] ++ rounds k id) (world s)) = ("Stopped", None) ∧
        log final = log s ++ [query; stop] ++ rounds k id ++ pollStatus id ++ [delete])).
Proof.
  intros Hc query stop delete final. subst final. revert Hc. unfold DeleteECS, sdk_call.
  set (P := λ c, match c with Sdk (DeleteInstance _ _ _) => False | _ => True end).
  destruct (decide (id = "")) as [|Hid]; [by intros Hc; apply calls_ret in Hc|]. intros Hc.
  calls_step Hc; [|intros; emits_any]. destruct Hc as [?|Hc]; [done|]. step_perform.
  unfold statusIn. fold query in Hc |- *. cbn [after foldl app].
  destruct (env_step query (world s)) as [[st [e|]] w1] eqn:Eq; cbn [fst snd] in *.
  { destruct (Contains _ _); by apply calls_ret in Hc. }
  apply (calls_bind_inv P) in Hc as (err & s2 & E2 & Hc); [|emits_any|by intros []|intros; emits_any].
  destruct err; [by apply calls_ret in Hc|]. rewrite (bind_Ret _ _ _ _ _ E2), perform_eq. cbn [snd log].
  assert (id' = id) as ->.
  { destruct Hc as (new & Hn & Hc). rewrite perform_eq in Hn. cbn [snd log] in Hn.
    apply app_inv_head in Hn as <-. by apply list_elem_of_singleton in Hc as [= _ -> _]. }
  split_and!; [done..|]. exists st. split; [done|]. case_decide as Hst.
  - right. split; [done|]. step_perform_in E2. fold stop in E2.
    destruct (env_step stop w1) as [[e|] w2] eqn:Es; cbn [fst snd] in E2; [done|].
    apply bind_Ret_inv in E2 as ([e|] & s3 & E3 & E2); [done|]. injection E2 as <-.
    apply WaitECS_None in E3 as (k & _ & _ & Hk & ->). exists k. cbn [world log] in *.
    split; [exact Hk|]. by rewrite <- !app_assoc.
  - left. split; [done|]. injection E2 as <-. cbn [log]. by rewrite <- app_assoc.
Qed.
End properties.

Section command_properties.
Context {W : Type} `{Env W} `{PkgErrors, !PkgErrorsSpec} `{WaitLib W}.
Context `{WaitLib (W * Invocation), !WaitSpec (W * Invocation)} `{Base64, !Base64Spec}.

(** The invocation kept when the wait for a result succeeds is the answer of the
    last query. *)
Lemma commandResult_kept id invoke (s : St W) ivk s' :
  with_var ("", []) (PollImmediate (4 * Second) (4 * Minute) (commandResult id invoke)) s = (Ret (None, ivk), s') →
  ∃ s1 r rest,
    (env_step (Sdk (DescribeInvocationResults id invoke)) (world s1)).1 = (ivk.1, r :: rest, None) ∧
    ivk.2 = r :: rest ∧ ir_Status r ≠ "Running" ∧
    log s' = log s1 ++ [Sdk (DescribeInvocationResults id invoke)].
Proof.
  unfold with_var. set (s0 := MkSt _ _).
  pose proof (PollImmediate_run (4 * Second) (4 * Minute) (commandResult id invoke) s0) as Hr.
  destruct (PollImmediate (4 * Second) (4 * Minute) (commandResult id invoke) s0) as [[err| |] sv]; [|done..]. cbn [fst snd] in Hr.
  intros [= -> <- <-]. apply poll_run_success in Hr as [s1 Hs]. exists (MkSt (world s1).1 (log s1)).
  revert Hs. unfold commandResult. rewrite bind_unfold, var_perform. cbn [world log].
  destruct (env_step _ (world s1).1) as [[[status result] [e|]] w]; cbn [fst snd]; [done|].
  destruct result as [|r rest]; [done|]. case_decide; [done|]. intros [= <-].
  by exists r, rest.
Qed.

(** When [RunCommand] succeeds, no other command was running on the machine,
    the command was sent in base64, and the result is the status and the decoded
    output of the invocation it started, read when that had ended: an output the
    machine encoded comes back unchanged. *)
Theorem RunCommand_output n ctx id cmd (s : St W) r s' :
  RunCommand n ctx id cmd s = (Ret (r, None), s') →
  ∃ s1 s2 invoke record rest,
    PollImmediate (3 * Second) (4 * Minute) (noInvocation n id) s = (Ret None, s1) ∧
    (env_step (Sdk (SdkRunCommand id (EncodeToString cmd))) (world s1)).1 = (invoke, None) ∧
    (env_step (Sdk (DescribeInvocationResults id invoke)) (world s2)).1 = (r_Status r, record :: rest, None) ∧
    ir_Status record ≠ "Running" ∧
    DecodeString (ir_Output record) = (r_OutPut r, None) ∧
    (∀ out, ir_Output record = EncodeToString out → r_OutPut r = out) ∧
    log s' = log s2 ++ [Sdk (DescribeInvocationResults id invoke)].
Proof.
  unfold RunCommand, sdk_call. intros HB.
  apply bind_Ret_inv in HB as ([e|] & s1 & E1 & HB).
  { destruct (Wrapf_some e "wait invocation: ") as (e' & He & _). rewrite He in HB. done. }
  step_perform_in HB. destruct (env_step _ (world s1)) as [[invoke [e|]] w1] eqn:E2; cbn [fst snd] in HB.
  { destruct (Wrapf_some e "run command") as (e' & He & _). rewrite He in HB. done. }
  apply bind_Ret_inv in HB as ([[e|] ivk] & s2 & E3 & HB).
  { destruct (Wrapf_some e "wait command result") as (e' & He & _). rewrite He in HB. done. }
  destruct (commandResult_kept _ _ _ _ _ E3) as (s3 & rec & rest & Hq & Hi & Hst & Hl).
  rewrite Hi in HB. destruct (DecodeString (ir_Output rec)) as [out [e|]] eqn:Ed; [done|].
  injection HB as <- <-. exists s1, s3, invoke, rec, rest. rewrite E2. split_and!; try done.
  intros out' Ho. rewrite Ho, DecodeString_EncodeToString in Ed. by injection Ed.
Qed.
End command_properties.

(** ** A concrete account, for evaluation *)
Module SimAli.
#[export] Instance base64 : Base64 := {| EncodeToString s := s; DecodeString s := (s, None) |}.
#[export] Instance base64_spec : Base64Spec.
Proof. by intros s. Qed.

Definition dev : AlibabaDev := MkAlibabaDev "cn-hangzhou" "id" "secret" "bucket" "".
Definition machine : EcsInstance :=
  MkEcsInstance "i-1" "cn-hangzhou" ["10.0.0.7"] "2022-01-01T10:00Z" "Running" [] "centos" "".
Definition groupStack : gmap string Value :=
  {[ "k8s_master_sg" := MkValue "k8s_master_sg" (AStr "asg-1");
     "k8s_master_srule" := MkValue "k8s_master_srule" (AStr "asr-1") ]}.
Definition groupCtx : Context_ := WithStack groupStack NewEmptyContext.

(** A running machine that stops within ten seconds, one scaling rule, and
    commands that end at once. *)
Definition account (c : call) (t : Z) : option (reply c) :=
  match c with
  | Sdk (DescribeInstances _ _) => Some ([machine], None)
  | Sdk (DescribeInstanceAttribute _) => Some (if 10 * Second <? t then "Stopped" else "Stopping", None)
  | Sdk (DescribeScalingRules _ [] _) => Some ([], None)
  | Sdk (DescribeScalingRules _ _ _) => Some ([MkEssRule "ari:1" "asr-1" "asg-1" "MasterScale"], None)
  | Sdk (SdkRunCommand _ content) => Some ("t-" +:+ content, None)
  | Sdk (DescribeInvocationResults _ _) => Some ("Finished", [MkEcsResult "Success" "done"], None)
  | _ => None
  end.
#[export] Instance account_env : Env Z := SimEnv.scripted account.
End SimAli.

(** ** Witnesses *)
Import Sim SimEnv SimWait SimAli.

Lemma replace_after_stop_witness :
  ∃ k, statusIn "i-1" (after ([Sdk (DescribeInstances "" ["i-1"]); Sdk (StopInstance "i-1" false)]
                              ++ rounds k "i-1") (0%Z)) = ("Stopped", None).
Proof.
  destruct (replace_after_stop (W:=Z) dev groupCtx "i-1" "#!/bin/sh" (MkOption "" zeroValue) (start_at 0) "i-1" "centos")
    as (_ & inst & rest & pre & k & post & Hd & _ & -> & Hs & _).
  { eexists. split; [vm_compute; reflexivity|].
    repeat (apply elem_of_cons; first [left; reflexivity | right]). }
  exists k. vm_compute in Hd. injection Hd as <- <-. exact Hs.
Defined.

Lemma ScaleMasterGroup_waits_witness :
  ∃ (s2 s3 : St Z) post,
    (env_step (inProgress "cn-hangzhou" "asg-1") (world s2)).1 = (0%nat, None) ∧
    log s3 = log s2 ++ [inProgress "cn-hangzhou" "asg-1"] ∧
    log (ScaleMasterGroup dev groupCtx "" 3 (start_at 0)).2 = log s3 ++ Sdk (ExecuteScalingRule "ari:1") :: post.
Proof.
  destruct (ScaleMasterGroup_waits (W:=Z) dev groupCtx "" 3 (start_at 0) "ari:1")
    as (sgid & srid & rule & s2 & s3 & post & Hg & _ & _ & _ & _ & _ & Hi & Hl & Hf & _).
  { eexists. split; [vm_compute; reflexivity|].
    repeat (apply elem_of_cons; first [left; reflexivity | right]). }
  vm_compute in Hg. injection Hg as <-. exists s2, s3, post. split_and!; [exact Hi|exact Hl|exact Hf].
Defined.

Lemma ScaleNodeGroup_first_fails_witness :
  ∃ msg s', ScaleNodeGroup dev groupCtx "asg-9" 3 (start_at 0) = (Panic msg, s').
Proof.
  destruct (ScaleNodeGroup_first_fails (W:=Z) dev groupCtx "asg-9" 3 (start_at 0)) as (_ & _ & Hp); [vm_compute; reflexivity|].
  edestruct (Hp "" "") as [msg Hm]; [vm_compute; reflexivity|vm_compute; reflexivity|].
  exists msg. eexists. exact Hm.
Defined.

Lemma DeleteECS_stopped_witness : "i-1" ≠ "" ∧ ∃ st, statusIn "i-1" 0%Z = (st, None).
Proof.
  destruct (DeleteECS_stopped (W:=Z) dev groupCtx "i-1" (start_at 0) "cn-hangzhou" "i-1" true)
    as (_ & Hne & st & Hst & _).
  { eexists. split; [vm_compute; reflexivity|].
    repeat (apply elem_of_cons; first [left; reflexivity | right]). }
  split; [exact Hne|]. exists st. exact Hst.
Defined.

Lemma RunCommand_output_witness :
  ∃ (s2 : St Z) rest, (env_step (Sdk (DescribeInvocationResults "i-1" "t-date")) (world s2)).1
             = ("Finished", MkEcsResult "Success" "done" :: rest, None).
Proof.
  destruct (RunCommand_output (W:=Z) dev groupCtx "i-1" "date" (start_at 0) (MkResult "Finished" "done")
    (MkSt 0%Z (log (RunCommand dev groupCtx "i-1" "date" (start_at 0)).2)))
    as (s1 & s2 & invoke & record & rest & _ & Hi & Hr & _); [vm_compute; reflexivity|].
  vm_compute in Hi. injection Hi as <-. exists s2, rest. pose proof Hr as Hr'.
  vm_compute in Hr'. injection Hr' as <- <-. exact Hr.
Defined.
