(* ===== verification/Oss.v ===== *)
(** * The Alibaba provider: object storage (pkg/iaas/provider/alibaba/oss.go)

    The object storage methods of [provider.Interface] on top of the SDK's
    buckets, and the theorem that they implement the interface the index of
    backups is verified against ([Index.ObjectStore]). *)
From stdpp Require Import base list gmap strings.
From Stdlib Require Import Lia Ascii.
From S2P Require Import Prelude GoStrings GoTime Api Sdk Effects Provider Alibaba Index.

Section operations.
Context {W : Type} `{Env W} `{PkgErrors}.

(** The bucket and the key of a location: [oss://bucket/key], or a key of the
    configured bucket.  The prefix is removed wherever it occurs. *)
Definition ossLocation (n : AlibabaDev) (src : string) : (string * string) + error :=
  if HasPrefix src "oss://" then
    match Split src "/" with
    | _ :: _ :: bName :: _ :: _ => inl (bName, ReplaceAll src ("oss://" +:+ bName +:+ "/") "")
    | _ => inr (Errorf ("invalid oss bucket: " +:+ src))
    end
  else inl (ad_BucketName n, src).

Definition BucketName (n : AlibabaDev) : string := ad_BucketName n.

Definition EnsureBucket (n : AlibabaDev) (name : string) : IO W error :=
  if decide (name = "") then mret (Errorf "empyt bucket name")
  else
    err ← sdk_call (BucketInfo name);
    match (err : error) with
    | Some e =>
        if Contains (Error e) "NoSuchBucket" then sdk_call (PutBucket name)
        else mret (Wrapf (Some e) "query bucket info")
    | None => mret None
    end.

Definition GetObject (n : AlibabaDev) (src : string) : IO W (string * error) :=
  match ossLocation n src with
  | inr err => mret ("", err)
  | inl (bName, mpath) =>
      '(data, err) ← sdk_call (BucketGet bName mpath);
      match err with
      | Some e =>
          mret ("", Wrapf (Some e) ("get oss object: path=[oss://" +:+ bName +:+ "/" +:+ mpath +:+ "]"))
      | None => mret (data, None)
      end
  end.

(** [GetFile]: the file is opened for writing and not truncated. *)
Definition GetFile (n : AlibabaDev) (src dst : string) : IO W error :=
  match ossLocation n src with
  | inr err => mret err
  | inl (bName, mpath) =>
      '(body, err) ← sdk_call (BucketGetReader bName mpath);
      match err with
      | Some e => mret (Wrapf (Some e) "get bucket reader")
      | None =>
          err ← perform (OpenFile dst true);
          match (err : error) with
          | Some e => mret (Wrapf (Some e) ("open dest file:" +:+ dst))
          | None => perform (Overwrite dst body)
          end
      end
  end.

Definition PutFile (n : AlibabaDev) (src dst : string) : IO W error :=
  match ossLocation n dst with
  | inr err => mret err
  | inl (bName, mpath) =>
      err ← perform (OpenFile src false);
      match (err : error) with
      | Some e => mret (Wrapf (Some e) ("open file: " +:+ src))
      | None => sdk_call (BucketPutFile bName mpath src)
      end
  end.

Definition PutObject (n : AlibabaDev) (b dst : string) : IO W error :=
  match ossLocation n dst with
  | inr err => mret err
  | inl (bName, mpath) => sdk_call (BucketPut bName mpath b)
  end.

Definition DeleteObject (n : AlibabaDev) (dst : string) : IO W error :=
  match ossLocation n dst with
  | inr err => mret err
  | inl (bName, mpath) => sdk_call (BucketDel bName mpath)
  end.

(** The loop of [ListObject]; the first failure ends it. *)
Fixpoint getAll (n : AlibabaDev) (keys : list string) (result : list string) : IO W (list string * error) :=
  match keys with
  | [] => mret (result, None)
  | key :: rest =>
      '(data, err) ← GetObject n key;
      match err with
      | Some e => mret ([], Wrapf (Some e) ("get object by key: " +:+ key))
      | None => getAll n rest (result ++ [data])
      end
  end.

Definition ListObject (n : AlibabaDev) (prefix : string) : IO W (list string * error) :=
  let bName := ad_BucketName n in
  err ← EnsureBucket n bName;
  match err with
  | Some e => mret ([], Wrapf (Some e) "ensure bucket")
  | None =>
      '(keys, err) ← sdk_call (BucketList bName prefix 1000);
      match err with
      | Some e => mret ([], Wrapf (Some e) ("list object: " +:+ bName))
      | None => getAll n keys []
      end
  end.
End operations.

(** ** The provider as an environment

    The object storage calls of [provider.Interface], answered by the methods
    above running against an environment that answers the SDK calls. *)
Section provider.
Context {W : Type} `{Env W} `{PkgErrors}.

(** The value a method returns and the world it leaves; none of the methods
    here panics. *)
Definition method {A} (dflt : A) (m : IO W A) (w : W) : A * W :=
  let '(o, s) := m (MkSt w []) in
  (match o with Ret a => a | _ => dflt end, world s).

Definition ossProvider (n : AlibabaDev) : Env W := λ c w,
  match c return reply c * W with
  | PBucketName => (BucketName n, w)
  | PEnsureBucket name => method None (EnsureBucket n name) w
  | PGetObject src => method ("", None) (GetObject n src) w
  | PGetFile src dst => method None (GetFile n src dst) w
  | PPutFile src dst => method None (PutFile n src dst) w
  | PPutObject b dst => method None (PutObject n b dst) w
  | PDeleteObject f => method None (DeleteObject n f) w
  | PListObject prefix => method ([], None) (ListObject n prefix) w
  | c' => env_step c' w
  end.
End provider.

(** ** Buckets

    What the object storage service promises: an object that was put is stored
    and one that was deleted is gone, the other objects of all buckets being what
    they were, and a get reads what is stored and changes nothing. *)
Class Buckets (W : Type) `{Env W} : Type := stored : W → string → string → option string.
Class BucketsSpec (W : Type) `{Buckets W} : Prop := {
  bucket_put b p d w : (env_step (Sdk (BucketPut b p d)) w).1 = None →
                       ∀ b' p', stored (env_step (Sdk (BucketPut b p d)) w).2 b' p' =
                                if decide ((b', p') = (b, p)) then Some d else stored w b' p';
  bucket_del b p w : (env_step (Sdk (BucketDel b p)) w).1 = None →
                     ∀ b' p', stored (env_step (Sdk (BucketDel b p)) w).2 b' p' =
                              if decide ((b', p') = (b, p)) then None else stored w b' p';
  bucket_get b p d w : (env_step (Sdk (BucketGet b p)) w).1 = (d, None) → stored w b p = Some d;
  bucket_get_keeps b p w b' p' : stored (env_step (Sdk (BucketGet b p)) w).2 b' p' = stored w b' p';
  bucket_reader b p d w : (env_step (Sdk (BucketGetReader b p)) w).1 = (d, None) → stored w b p = Some d }.

(** Files, as far as [GetFile] needs them: opening keeps the contents (or
    creates an empty file), overwriting keeps what lies behind the data. *)
Definition spliced (data old : string) : string :=
  data +:+ String.substring (String.length data) (String.length old - String.length data) old.
Class Files (W : Type) `{Env W} : Type := contents : W → string → option string.
Class FilesSpec (W : Type) `{Files W} : Prop := {
  sdk_keeps_files c w f : contents (env_step (Sdk c) w).2 f = contents w f;
  open_contents f w : (env_step (OpenFile f true) w).1 = None →
                      contents (env_step (OpenFile f true) w).2 f = Some (default "" (contents w f));
  overwrite_contents f d o w : contents w f = Some o → (env_step (Overwrite f d) w).1 = None →
                               contents (env_step (Overwrite f d) w).2 f = Some (spliced d o) }.

(** ** Facts *)
Section locations.
Lemma replace_absent old new s : Contains s old = false → replace_go old new s 0 = s.
Proof.
  induction s as [|c s IH]; [done|]. cbn [Contains replace_go]. intros [-> Hs]%orb_false_iff.
  by rewrite IH.
Qed.

Lemma replace_skip old new p s : replace_go old new (p +:+ s) (String.length p) = replace_go old new s 0.
Proof. induction p as [|c p IH]; [by destruct s|]. exact IH. Qed.

(** Removing a prefix that occurs only in front. *)
Lemma ReplaceAll_front old k :
  old ≠ "" → Contains k old = false → ReplaceAll (old +:+ k) old "" = k.
Proof.
  intros Hne Hk. unfold ReplaceAll. destruct old as [|c old]; [done|].
  cbn [String.append replace_go]. change (String c (old +:+ k)) with (String c old +:+ k).
  rewrite string_prefix_app. cbn [String.length Nat.pred String.append].
  by rewrite replace_skip, replace_absent.
Qed.

Lemma split_slash b k cur :
  no_byte "/"%char b → split_go "/" (b +:+ String "/"%char k) cur 0 = (cur +:+ b) :: split_go "/" k "" 0.
Proof.
  intros Hb. rewrite split_go_no_byte by done. cbn [split_go]. by destruct k.
Qed.

Lemma oss_url n b k :
  no_byte "/"%char b → Contains k ("oss://" +:+ b +:+ "/") = false →
  ossLocation n ("oss://" +:+ b +:+ "/" +:+ k) = inl (b, k).
Proof.
  intros Hb Hk. unfold ossLocation, HasPrefix. rewrite string_prefix_app.
  assert (Split ("oss://" +:+ b +:+ "/" +:+ k) "/" = "oss:" :: "" :: b :: split_go "/" k "" 0) as ->.
  { unfold Split. change ("oss://" +:+ b +:+ "/" +:+ k) with ("oss:" +:+ String "/"%char ("" +:+ String "/"%char (b +:+ String "/"%char k))).
    rewrite split_slash by (repeat split; discriminate). rewrite split_slash by done. rewrite split_slash by done. done. }
  assert (∃ x l, split_go "/" k "" 0 = x :: l) as (x & l & ->).
  { generalize "" at 2 as cur. generalize 0 as sk. clear. induction k as [|c k IH]; intros sk cur; simpl; [by eauto|].
    destruct sk; [|apply IH]. case_match; [by eauto|apply IH]. }
  f_equal. f_equal.
  replace ("oss://" +:+ b +:+ "/" +:+ k) with (("oss://" +:+ b +:+ "/") +:+ k) by (by rewrite !string_app_assoc).
  by apply ReplaceAll_front.
Qed.
End locations.

Lemma length_substring n s : n = String.length s → String.substring 0 n s = s.
Proof. intros ->. apply substring_all. Qed.

Lemma substring_nonempty m s : String.substring m (String.length s - m) s = "" → String.length s <= m.
Proof.
  revert m. induction s as [|c s IH]; intros m; cbn; [lia|].
  destruct m as [|m]; cbn; [done|]. intros Hs%IH. lia.
Qed.

(** Overwriting leaves exactly the data when the old contents are no longer. *)
Lemma spliced_exact data old : spliced data old = data ↔ String.length old <= String.length data.
Proof.
  unfold spliced. split.
  - intros Hs. apply substring_nonempty. apply (inj (String.append data)). by rewrite string_app_nil_r.
  - intros Hl. replace (String.length old - String.length data) with 0 by lia.
    rewrite <- (string_app_nil_r data) at 3. f_equal.
    clear. generalize (String.length data) as m. induction old as [|c old IH]; intros [|m]; cbn; done.
Qed.

Lemma ossLocation_inr n p : ossLocation n p ≠ inr None.
Proof. unfold ossLocation. repeat case_match; done. Qed.

(** ** Properties *)
Section properties.
Context {W : Type} `{Env W} `{PkgErrors, !PkgErrorsSpec}.

(** Where the objects of a location are. *)
Definition ossObjects `{!Buckets W} (n : AlibabaDev) (w : W) (p : string) : option string :=
  match ossLocation n p with
  | inl (b, k) => stored w b k
  | inr _ => None
  end.

(** One call, and its answer with the error wrapped. *)
Lemma GetObject_run n p b k (s : St W) :
  ossLocation n p = inl (b, k) →
  let c := Sdk (BucketGet b k) in
  ∃ r, GetObject n p s = (Ret r, MkSt (env_step c (world s)).2 (log s ++ [c])) ∧
    (r.2 = None ↔ (env_step c (world s)).1.2 = None) ∧
    ∀ d, r = (d, None) → (env_step c (world s)).1 = (d, None).
Proof.
  intros El c. unfold GetObject, sdk_call. rewrite El. step_perform. fold c.
  destruct (env_step c (world s)) as [[d [e|]] w1]; cbn [fst snd].
  - match goal with |- context [Wrapf (Some e) ?m] => destruct (Wrapf_some e m) as (e' & -> & _) end.
    eexists. split; [done|]. by split.
  - eexists. split; [done|]. split; [done|]. intros d' [= ->]. done.
Qed.

(** The store of the index: what is put is there, and what is read was there. *)
Lemma ossProvider_objects `{!Buckets W, !BucketsSpec W} (n : AlibabaDev) :
  @ObjectStoreSpec W (ossProvider n) (ossObjects n).
Proof.
  split; unfold objects, ossObjects, env_step, ossProvider, method.
  - intros b p w. unfold PutObject, sdk_call.
    destruct (ossLocation n p) as [[bk k]|err] eqn:El; [|cbn; intros ->; by apply ossLocation_inr in El].
    rewrite perform_eq. cbn [world fst snd]. intros Hp.
    etrans; [exact (bucket_put _ _ _ _ Hp bk k)|by rewrite decide_True].
  - intros p w b. destruct (ossLocation n p) as [[bk k]|err] eqn:El.
    + destruct (GetObject_run n p bk k (MkSt w []) El) as (r & -> & _ & Hd). cbn [fst snd]. intros ->.
      by apply bucket_get, Hd.
    + unfold GetObject. rewrite El. intros [= _ ->]. by apply ossLocation_inr in El.
  - done.
  - done.
Qed.

(** C22: on top of buckets that store what is put and read what is stored, the
    provider's methods implement the object store the index of backups, node
    pools and clusters is verified against.  A URL [oss://b/k] is the object [k]
    of the bucket [b], whatever bucket is configured, and any other text is the
    object of that name in the configured bucket: putting, getting and deleting
    asks the service once, for exactly that object, and leaves every other
    object of every bucket as it was. *)
Theorem ossProvider_store `{!Buckets W, !BucketsSpec W} (n : AlibabaDev) :
  @ObjectStoreSpec W (ossProvider n) (ossObjects n) ∧
  ∀ p b k,
    (p = "oss://" +:+ b +:+ "/" +:+ k ∧ no_byte "/"%char b ∧ Contains k ("oss://" +:+ b +:+ "/") = false) ∨
    (HasPrefix p "oss://" = false ∧ b = ad_BucketName n ∧ k = p) →
    (∀ w, ossObjects n w p = stored w b k) ∧
    (∀ d s, log (PutObject n d p s).2 = log s ++ [Sdk (BucketPut b k d)] ∧
       ∀ s', PutObject n d p s = (Ret None, s') → ∀ b' k',
         stored (world s') b' k' = if decide ((b', k') = (b, k)) then Some d else stored (world s) b' k') ∧
    (∀ s, log (DeleteObject n p s).2 = log s ++ [Sdk (BucketDel b k)] ∧
       ∀ s', DeleteObject n p s = (Ret None, s') → ∀ b' k',
         stored (world s') b' k' = if decide ((b', k') = (b, k)) then None else stored (world s) b' k') ∧
    (∀ s, log (GetObject n p s).2 = log s ++ [Sdk (BucketGet b k)] ∧
       (∀ b' k', stored (world (GetObject n p s).2) b' k' = stored (world s) b' k') ∧
       ∀ d s', GetObject n p s = (Ret (d, None), s') → stored (world s) b k = Some d).
Proof.
  split; [apply ossProvider_objects|]. intros p b k Hp.
  assert (ossLocation n p = inl (b, k)) as El.
  { destruct Hp as [(-> & Hb & Hk)|(Hp & -> & ->)]; [by apply oss_url|]. unfold ossLocation. by rewrite Hp. }
  split_and!; unfold PutObject, DeleteObject, sdk_call; rewrite ?El.
  - intros w. unfold ossObjects. by rewrite El.
  - intros d s. rewrite perform_eq. split; [done|]. intros s' [= Hr <-]. cbn [world]. by apply bucket_put.
  - intros s. rewrite perform_eq. split; [done|]. intros s' [= Hr <-]. cbn [world]. by apply bucket_del.
  - intros s. destruct (GetObject_run n p b k s El) as (r & Hs & Hr & Hd). rewrite Hs. cbn [snd log world].
    split; [done|]. split; [intros b' k'; apply bucket_get_keeps|]. intros d s' [= -> _]. by apply bucket_get, Hd.
Qed.

(** [GetFile] fetches the object of its location, and leaves it followed by
    what the file had behind that many bytes: the file is the object exactly
    when it was no longer than the object before. *)
Theorem GetFile_contents `{!Buckets W, !BucketsSpec W, !Files W, !FilesSpec W} n src dst (s s' : St W) :
  GetFile n src dst s = (Ret None, s') →
  ∃ data, ossObjects n (world s) src = Some data ∧
    let old := default "" (contents (world s) dst) in
    contents (world s') dst = Some (spliced data old) ∧
    (contents (world s') dst = Some data ↔ String.length old <= String.length data).
Proof.
  unfold GetFile, ossObjects, sdk_call. intros HB.
  destruct (ossLocation n src) as [[bk k]|err] eqn:El.
  2:{ injection HB as -> _. by apply ossLocation_inr in El. }
  step_perform_in HB. destruct (env_step _ (world s)) as [[d [e|]] w1] eqn:Eg; cbn [fst snd] in HB.
  { destruct (Wrapf_some e "get bucket reader") as (e' & He & _). by rewrite He in HB. }
  exists d. split; [apply bucket_reader; by rewrite Eg|].
  pose proof (sdk_keeps_files (BucketGetReader bk k) (world s) dst) as Hk. rewrite Eg in Hk.
  step_perform_in HB. pose proof (open_contents dst w1) as Ho.
  destruct (env_step (OpenFile dst true) w1) as [[e|] w2]; cbn [fst snd] in *.
  { destruct (Wrapf_some e ("open dest file:" +:+ dst)) as (e' & He & _). by rewrite He in HB. }
  specialize (Ho eq_refl). rewrite Hk in Ho. rewrite perform_eq in HB. injection HB as Hn <-.
  cbn [world]. match goal with |- contents ?w3 dst = ?c ∧ _ =>
    assert (contents w3 dst = c) as -> by exact (overwrite_contents _ _ _ _ Ho Hn) end.
  split; [done|]. rewrite <- spliced_exact. split; [by intros [= ->]|by intros ->].
Qed.
End properties.

(** ** A bucket and a disk to evaluate with *)
Module SimOss.
Record Site : Type := MkSite { buckets : gmap (string * string) string; disk : gmap string string }.
#[export] Instance site_env : Env Site := λ c w,
  match c return reply c * Site with
  | Sdk (BucketPut b p d) => (None, MkSite (<[(b, p) := d]> (buckets w)) (disk w))
  | Sdk (BucketDel b p) => (None, MkSite (delete (b, p) (buckets w)) (disk w))
  | Sdk (BucketGet b p) | Sdk (BucketGetReader b p) =>
      (match buckets w !! (b, p) with Some d => (d, None) | None => ("", Errorf "NoSuchKey") end, w)
  | OpenFile f true => (None, MkSite (buckets w) (<[f := default "" (disk w !! f)]> (disk w)))
  | Overwrite f d =>
      (None, MkSite (buckets w) (<[f := spliced d (default "" (disk w !! f))]> (disk w)))
  | c' => (SimEnv.quiet c', w)
  end.
#[export] Instance site_buckets : Buckets Site := λ w b p, buckets w !! (b, p).
#[export] Instance site_buckets_spec : BucketsSpec Site.
Proof.
  split; unfold stored, site_buckets, env_step, site_env; cbn [fst snd buckets].
  - intros b p d w _ b' p'. case_decide as E; [rewrite E; apply lookup_insert_eq|by apply lookup_insert_ne].
  - intros b p w _ b' p'. case_decide as E; [rewrite E; apply lookup_delete_eq|by apply lookup_delete_ne].
  - intros b p d w. destruct (buckets w !! (b, p)); [by intros [= ->]|done].
  - done.
  - intros b p d w. destruct (buckets w !! (b, p)); [by intros [= ->]|done].
Qed.
#[export] Instance site_files : Files Site := λ w f, disk w !! f.
#[export] Instance site_files_spec : FilesSpec Site.
Proof.
  split; unfold contents, site_files, env_step, site_env; cbn [fst snd disk].
  - intros c w f. by destruct c.
  - intros f w _. by rewrite lookup_insert_eq.
  - intros f d o w -> _. by rewrite lookup_insert_eq.
Qed.

Definition acct : AlibabaDev := MkAlibabaDev "cn-hangzhou" "id" "secret" "wdrip-k8s" "".
(** A short snapshot in the bucket, a longer one on the disk. *)
Definition site : Site :=
  MkSite {[("wdrip-k8s", "snap.db") := "new"]} {["/tmp/snapshot.db" := "older data"]}.
End SimOss.

(** ** Witnesses *)
Import Sim SimOss.

(** The index reads an object of the configured bucket, and a put into another
    bucket leaves it alone. *)
Lemma ossProvider_store_witness :
  ossObjects acct site "oss://wdrip-k8s/snap.db" = Some "new" ∧
  stored (world (PutObject acct "other" "oss://wdrip-dev/snap.db" (MkSt site [])).2) "wdrip-k8s" "snap.db" = Some "new" ∧
  log (PutObject acct "other" "oss://wdrip-dev/snap.db" (MkSt site [])).2 = [Sdk (BucketPut "wdrip-dev" "snap.db" "other")].
Proof.
  destruct (ossProvider_store (W:=Site) acct) as [Hst Hall]. split.
  - refine (@get_reads Site (ossProvider acct) (ossObjects acct) Hst "oss://wdrip-k8s/snap.db" site "new" _).
    vm_compute; reflexivity.
  - destruct (Hall "oss://wdrip-dev/snap.db" "wdrip-dev" "snap.db") as (_ & Hput & _).
    { left. split; [reflexivity|]. split; [repeat split; discriminate|reflexivity]. }
    destruct (Hput "other" (MkSt site [])) as [Hl Hs]. split; [|exact Hl].
    rewrite (Hs (PutObject acct "other" "oss://wdrip-dev/snap.db" (MkSt site [])).2); [vm_compute; reflexivity|].
    vm_compute; reflexivity.
Defined.

Lemma GetFile_contents_witness :
  ∃ s' : St Site, GetFile acct "oss://wdrip-k8s/snap.db" "/tmp/snapshot.db" (MkSt site []) = (Ret None, s') ∧
    contents (world s') "/tmp/snapshot.db" = Some "newer data".
Proof.
  eexists. split; [vm_compute; reflexivity|].
  refine (match GetFile_contents (W:=Site) acct "oss://wdrip-k8s/snap.db" "/tmp/snapshot.db" (MkSt site []) _ eq_refl
          with ex_intro _ d Hd => _ end).
  destruct Hd as (Hs & Hc & _). vm_compute in Hs. injection Hs as <-. exact Hc.
Defined.
