(* ===== verification/UserData.v ===== *)
(** * The Alibaba provider: what a machine runs when it starts (userdata.go)

    The four scripts handed to new or re-imaged machines.  The script of the
    first master carries the whole cluster specification; making it writes
    defaults into the specification it was given, which is the one the context
    shares with its callers.  The templates of text/template are written out, a
    field at its place. *)
From stdpp Require Import base list gmap strings.
From Stdlib Require Import Lia Ascii.
From S2P Require Import Prelude GoStrings GoTime Api Effects Utils Provider.

#[local] Abbreviation dq := (String dquote EmptyString).

(** [type ConfigTpl struct {...}] *)
Record ConfigTpl : Type := MkConfigTpl {
  ct_Namespace : string;
  ct_Token : string;
  ct_WdripVersion : string;
  ct_Endpoint : string;
  ct_Role : string;
  ct_RunVersion : string;
  ct_CloudType : string;
  ct_Arch : string;
  ct_OS : string;
  ct_Provider : string }.

Definition PrefixPart : string := "#!/bin/sh
set -x -e
".

Definition USER_DATA (role token cloudType ns cfg provider : string) : string :=
  "
REGION=" +:+ dq +:+ "$(curl 100.100.100.200/latest/meta-data/region-id)" +:+ dq +:+ "
export REGION
export ROLE=" +:+ role +:+ " OS=centos ARCH=amd64 \
       TOKEN=" +:+ token +:+ " \
       CLOUD_TYPE=" +:+ cloudType +:+ " \
       NAMESPACE=" +:+ ns +:+ " \
       FILE_SERVER=" +:+ dq +:+ "http://host-wdrip-$REGION.oss-$REGION-internal.aliyuncs.com" +:+ dq +:+ "
echo " +:+ dq +:+ "using beta version: [${NAMESPACE}]" +:+ dq +:+ "
mkdir -p /etc/wdrip;
echo " +:+ dq +:+ "
" +:+ cfg +:+ "
" +:+ dq +:+ " > /etc/wdrip/wdrip.cfg
wget --tries 10 --no-check-certificate -q \
     -O run.replace.sh\
     ${FILE_SERVER}/wdrip/${NAMESPACE}/${CLOUD_TYPE}/run/2.0/${ARCH}/${OS}/run." +:+ provider +:+ ".sh
time bash run.replace.sh |tee /var/log/init.log
".

Definition WorkUserData (c : ConfigTpl) : string :=
  "#!/bin/sh
set -x -e
REGION=$(curl --retry 5 -sSL http://100.100.100.200/latest/meta-data/region-id)
export REGION
export NAMESPACE=" +:+ ct_Namespace c +:+ " \
       TOKEN=" +:+ ct_Token c +:+ " \
       WDRIP_VERSION=" +:+ ct_WdripVersion c +:+ " \
       FILE_SERVER=http://host-wdrip-${REGION}.oss-${REGION}-internal.aliyuncs.com \
       ENDPOINT=" +:+ ct_Endpoint c +:+ " \
       ROLE=" +:+ ct_Role c +:+ "
wget --tries 10 --no-check-certificate -q \
     -O run.replace.sh\
     ${FILE_SERVER}/wdrip/${NAMESPACE}/" +:+ ct_CloudType c +:+ "/run/" +:+ ct_RunVersion c +:+ "/" +:+ ct_Arch c +:+ "/" +:+ ct_OS c +:+ "/run." +:+ ct_Provider c +:+ ".sh
time bash run.replace.sh |tee /var/log/init.log

".

Definition RecoverUserData (c : ConfigTpl) (bucket config name from : string) : string :=
  "#!/bin/bash
set -e -x
REGION=" +:+ dq +:+ "$(curl 100.100.100.200/latest/meta-data/region-id)" +:+ dq +:+ "
export REGION
export ROLE=" +:+ ct_Role c +:+ " OS=" +:+ ct_OS c +:+ " ARCH=" +:+ ct_Arch c +:+ " \
       TOKEN=" +:+ ct_Token c +:+ " \
       CLOUD_TYPE=" +:+ ct_CloudType c +:+ " \
       NAMESPACE=" +:+ ct_Namespace c +:+ " \
       WDRIP_VERSION=" +:+ ct_WdripVersion c +:+ " \
       FILE_SERVER=" +:+ dq +:+ "http://host-wdrip-$REGION.oss-$REGION-internal.aliyuncs.com" +:+ dq +:+ "
# set wdrip operator endpoint
export ENDPOINT=" +:+ ct_Endpoint c +:+ "
echo " +:+ dq +:+ "using beta version: [${NAMESPACE}]" +:+ dq +:+ "

echo " +:+ dq +:+ "using beta version: [${NAMESPACE}]" +:+ dq +:+ "
wget --tries 10 --no-check-certificate -q \
	-O /tmp/wdrip.${ARCH}\
	" +:+ dq +:+ "${FILE_SERVER}" +:+ dq +:+ "/wdrip/${NAMESPACE}/${CLOUD_TYPE}/wdrip/${WDRIP_VERSION}/${ARCH}/${OS}/wdrip.${ARCH}
chmod +x /tmp/wdrip.${ARCH} ; mv /tmp/wdrip.${ARCH} /usr/local/bin/wdrip; mkdir -p ~/.wdrip/
cat > ~/.wdrip/config << EOF
" +:+ config +:+ "
EOF
/usr/local/bin/wdrip recover --recover-mode node --name " +:+ dq +:+ name +:+ dq +:+ " --recover-from-cluster " +:+ dq +:+ from +:+ dq +:+ " " +:+ (if decide (bucket = EmptyString) then EmptyString else " --bucket " +:+ dq +:+ bucket +:+ dq +:+ " ") +:+ "
".

Definition USER_DATA_JOIN_MASTER (c : ConfigTpl) : string :=
  "#!/bin/sh
set -e -x
REGION=" +:+ dq +:+ "$(curl 100.100.100.200/latest/meta-data/region-id)" +:+ dq +:+ "
export REGION
# make sure wdrip boot master from operator
export BOOT_TYPE=operator
export ROLE=" +:+ ct_Role c +:+ " OS=" +:+ ct_OS c +:+ " ARCH=" +:+ ct_Arch c +:+ " \
       TOKEN=" +:+ ct_Token c +:+ " \
       CLOUD_TYPE=" +:+ ct_CloudType c +:+ " \
       NAMESPACE=" +:+ ct_Namespace c +:+ " \
       FILE_SERVER=" +:+ dq +:+ "http://host-wdrip-$REGION.oss-$REGION-internal.aliyuncs.com" +:+ dq +:+ "
# set wdrip operator endpoint
export ENDPOINT=" +:+ ct_Endpoint c +:+ "
echo " +:+ dq +:+ "using beta version: [${NAMESPACE}]" +:+ dq +:+ "
mkdir -p /etc/wdrip;
wget --tries 10 --no-check-certificate -q \
     -O run.sh\
     ${FILE_SERVER}/wdrip/${NAMESPACE}/${CLOUD_TYPE}/run/2.0/${ARCH}/${OS}/run." +:+ ct_Provider c +:+ ".sh
time bash run.sh |tee /var/log/init.log.wdrip
".

(** The two settings every script of a joining machine has. *)
Definition joinTpl (role : string) (boot : ClusterSpec) : ConfigTpl :=
  MkConfigTpl (cs_Namespace boot) (ku_KubeadmToken (cs_Kubernetes boot)) "0.1.1"
    ("http://" +:+ ep_Intranet (cs_Endpoint boot) +:+ ":9443") role "2.0" "public" "amd64" "centos" "alibaba".

Definition cs_with_Namespace (ns : string) (s : ClusterSpec) : ClusterSpec :=
  MkClusterSpec (cs_Bind s) (cs_ClusterID s) ns (cs_CloudType s) (cs_Network s) (cs_Etcd s)
    (cs_Runtime s) (cs_Kubernetes s) (cs_AddonInitialized s) (cs_Sans s) (cs_Token s)
    (cs_Registry s) (cs_Endpoint s) (cs_SilentTime s).
Definition cs_with_Registry (r : string) (s : ClusterSpec) : ClusterSpec :=
  MkClusterSpec (cs_Bind s) (cs_ClusterID s) (cs_Namespace s) (cs_CloudType s) (cs_Network s) (cs_Etcd s)
    (cs_Runtime s) (cs_Kubernetes s) (cs_AddonInitialized s) (cs_Sans s) (cs_Token s)
    r (cs_Endpoint s) (cs_SilentTime s).

(** What [NewUserData] assigns to the specification. *)
Definition orElse (s d : string) : string := if decide (s = EmptyString) then d else s.
Definition masterDefaults (cfg : ClusterSpec) : ClusterSpec :=
  let cfg := cs_with_Namespace "default" cfg in
  let cfg := cs_with_Registry ("registry-vpc." +:+ bi_Region (cs_Bind cfg) +:+ ".aliyuncs.com/acs") cfg in
  let e := cs_Endpoint cfg in
  cs_with_Endpoint (MkEndpoint (orElse (ep_Intranet e) "${INTRANET_LB}")
                               (orElse (ep_Internet e) "${INTERNET_LB}")) cfg.

Section operations.
Context {W : Type} `{Env W} `{PkgErrors} `{Base64} `{Yaml ClusterSpec} `{Yaml ContextCFG}.

(** [ctx.BootCFG()], dereferenced. *)
Definition theBootCFG (ctx : Context_) : IO W ClusterSpec :=
  match BootCFG ctx with
  | Some boot => mret boot
  | None => panic "nil pointer dereference"
  end.

(** [NewUserData(ctx)]: the script, and the context, whose specification it
    assigns to when it holds one. *)
Definition NewUserData (ctx : Context_) : IO W (Context_ * string) :=
  cfg ← theBootCFG ctx;
  let cfg := masterDefaults cfg in
  match bi_Provider (cs_Bind cfg) with
  | None => panic "nil pointer dereference"
  | Some p =>
      mret (write_BootCFG cfg ctx,
            USER_DATA "Hybrid" (ku_KubeadmToken (cs_Kubernetes cfg)) (cs_CloudType cfg) (cs_Namespace cfg)
              (PrettyYaml cfg) (pv_Name p))
  end.

Definition NewWorkerUserData (ctx : Context_) : IO W (string * error) :=
  boot ← theBootCFG ctx;
  mret (EncodeToString (WorkUserData (joinTpl "Worker" boot)), None).

Definition NewRecoverUserData (ctx : Context_) : IO W (string * error) :=
  boot ← theBootCFG ctx;
  let opts := getWdripOptions ctx in
  ctxCfg ← BuildContexCFG (Some boot);
  mret (EncodeToString (RecoverUserData (joinTpl "Worker" boot) (wo_Bucket opts) (PrettyYaml ctxCfg)
                          (wo_ClusterName opts) (wo_RecoverFrom opts)), None).

Definition NewJoinMasterUserData (ctx : Context_) : IO W (string * error) :=
  boot ← theBootCFG ctx;
  mret (EncodeToString (USER_DATA_JOIN_MASTER (joinTpl "Hybrid" boot)), None).

(** [UserData(ctx, category)]: any other category is a worker's. *)
Definition UserData (ctx : Context_) (category : string) : IO W (Context_ * (string * error)) :=
  if decide (category = MasterUserdata) then
    '(ctx, data) ← NewUserData ctx; mret (ctx, (data, None))
  else
    r ← (if decide (category = JoinMasterUserdata) then NewJoinMasterUserData ctx
         else if decide (category = WorkerUserdata) then NewWorkerUserData ctx
         else if decide (category = RecoverUserdata) then NewRecoverUserData ctx
         else NewWorkerUserData ctx);
    mret (ctx, r).
End operations.

(** ** Facts *)

(** The defaults are written once: a second script of the same specification is
    the same. *)
Lemma masterDefaults_idemp cfg : masterDefaults (masterDefaults cfg) = masterDefaults cfg.
Proof.
  destruct cfg as [b i ns ct nw et rt ku ai sans tok reg [intra inter] st].
  unfold masterDefaults, orElse. cbn.
  by destruct (decide (intra = EmptyString)), (decide (inter = EmptyString)); cbn;
    rewrite ?decide_False.
Qed.

Section facts.
Context {W : Type} `{Env W} `{PkgErrors} `{Base64} `{Yaml ClusterSpec} `{Yaml ContextCFG}.

Lemma emits_theBootCFG P ctx : emits P (theBootCFG ctx : IO W ClusterSpec).
Proof. unfold theBootCFG. destruct (BootCFG ctx); auto with emits. Qed.

(** Making a script only reads the home directory and the file of contexts. *)
Lemma emits_UserData (P : call → Prop) ctx category :
  (∀ c, match c with Getenv _ | Stat _ | ReadFile _ | Run _ _ _ => True | _ => False end → P c) →
  emits P (UserData ctx category : IO W _).
Proof.
  intros HP. unfold UserData, NewUserData, NewJoinMasterUserData, NewWorkerUserData, NewRecoverUserData,
    BuildContexCFG, HomeDir, UserHomeDir, FileExist.
  solve_emits; first [apply emits_theBootCFG | by apply HP].
Qed.

(** Making the script of a machine that joins needs a specification only, and
    leaves the context alone. *)
Lemma UserData_Worker boot ctx (s : St W) :
  BootCFG ctx = Some boot →
  UserData ctx WorkerUserdata s = (Ret (ctx, (EncodeToString (WorkUserData (joinTpl "Worker" boot)), None)), s).
Proof. intros Hb. unfold UserData, NewWorkerUserData, theBootCFG. by rewrite Hb. Qed.

Lemma UserData_Master boot p ctx (s : St W) :
  BootCFG ctx = Some boot → bi_Provider (cs_Bind boot) = Some p →
  let cfg := masterDefaults boot in
  UserData ctx MasterUserdata s =
    (Ret (write_BootCFG cfg ctx,
          (USER_DATA "Hybrid" (ku_KubeadmToken (cs_Kubernetes boot)) (cs_CloudType boot) "default"
             (PrettyYaml cfg) (pv_Name p), None)), s).
Proof. intros Hb Hp cfg. subst cfg. unfold UserData, NewUserData, theBootCFG.
  rewrite Hb, decide_True by done. rewrite !bind_unfold. cbn [mret M_ret].
  change (cs_Bind (masterDefaults boot)) with (cs_Bind boot). by rewrite Hp.
Qed.
End facts.
