(* ===== verification/UserDataTpl.v ===== *)
(** * The scripts as they are embedded (pkg/iaas/provider/alibaba/userdata.go)

    [UserData] has the scripts written out, a field at its place.  Here are the
    texts of the source, and the proof that executing them gives those scripts,
    whatever the fields. *)
From stdpp Require Import base list gmap strings.
From Stdlib Require Import Ascii.
From S2P Require Import Prelude GoStrings GoTime Api Effects GoTemplate Utils Provider UserData.

(** The script of the first master, for [fmt.Sprintf]. *)
Definition USER_DATA_text : string := raw "
REGION=`$(curl 100.100.100.200/latest/meta-data/region-id)`
export REGION
export ROLE=%s OS=centos ARCH=amd64 \
       TOKEN=%s \
       CLOUD_TYPE=%s \
       NAMESPACE=%s \
       FILE_SERVER=`http://host-wdrip-$REGION.oss-$REGION-internal.aliyuncs.com`
echo `using beta version: [${NAMESPACE}]`
mkdir -p /etc/wdrip;
echo `
%s
` > /etc/wdrip/wdrip.cfg
wget --tries 10 --no-check-certificate -q \
     -O run.replace.sh\
     ${FILE_SERVER}/wdrip/${NAMESPACE}/${CLOUD_TYPE}/run/2.0/${ARCH}/${OS}/run.%s.sh
time bash run.replace.sh |tee /var/log/init.log
".

(** The script of a worker. *)
Definition WorkUserData_text : string := raw "#!/bin/sh
set -x -e
REGION=$(curl --retry 5 -sSL http://100.100.100.200/latest/meta-data/region-id)
export REGION
export NAMESPACE={{ .Namespace }} \
       TOKEN={{ .Token }} \
       WDRIP_VERSION={{ .WdripVersion }} \
       FILE_SERVER=http://host-wdrip-${REGION}.oss-${REGION}-internal.aliyuncs.com \
       ENDPOINT={{ .Endpoint }} \
       ROLE={{ .Role }}
wget --tries 10 --no-check-certificate -q \
     -O run.replace.sh\
     ${FILE_SERVER}/wdrip/${NAMESPACE}/{{ .CloudType }}/run/{{ .RunVersion }}/{{.Arch }}/{{ .OS }}/run.{{ .Provider }}.sh
time bash run.replace.sh |tee /var/log/init.log

".

(** The script of a machine that recovers a cluster. *)
Definition RecoverUserData_text : string := raw "#!/bin/bash
set -e -x
REGION=`$(curl 100.100.100.200/latest/meta-data/region-id)`
export REGION
export ROLE={{ .Role }} OS={{ .OS }} ARCH={{ .Arch }} \
       TOKEN={{ .Token }} \
       CLOUD_TYPE={{ .CloudType }} \
       NAMESPACE={{ .Namespace }} \
       WDRIP_VERSION={{ .WdripVersion }} \
       FILE_SERVER=`http://host-wdrip-$REGION.oss-$REGION-internal.aliyuncs.com`
# set wdrip operator endpoint
export ENDPOINT={{ .Endpoint }}
echo `using beta version: [${NAMESPACE}]`

echo `using beta version: [${NAMESPACE}]`
wget --tries 10 --no-check-certificate -q \
	-O /tmp/wdrip.${ARCH}\
	`${FILE_SERVER}`/wdrip/${NAMESPACE}/${CLOUD_TYPE}/wdrip/${WDRIP_VERSION}/${ARCH}/${OS}/wdrip.${ARCH}
chmod +x /tmp/wdrip.${ARCH} ; mv /tmp/wdrip.${ARCH} /usr/local/bin/wdrip; mkdir -p ~/.wdrip/
cat > ~/.wdrip/config << EOF
{{ .WdripConfig }}
EOF
/usr/local/bin/wdrip recover --recover-mode node --name `{{ .ClusterName }}` --recover-from-cluster `{{ .RecoverFrom}}` {{ if .Bucket }} --bucket `{{.Bucket}}` {{ end }}
".

(** The script of a master that joins. *)
Definition USER_DATA_JOIN_MASTER_text : string := raw "#!/bin/sh
set -e -x
REGION=`$(curl 100.100.100.200/latest/meta-data/region-id)`
export REGION
# make sure wdrip boot master from operator
export BOOT_TYPE=operator
export ROLE={{ .Role }} OS={{ .OS }} ARCH={{ .Arch }} \
       TOKEN={{ .Token }} \
       CLOUD_TYPE={{ .CloudType }} \
       NAMESPACE={{ .Namespace }} \
       FILE_SERVER=`http://host-wdrip-$REGION.oss-$REGION-internal.aliyuncs.com`
# set wdrip operator endpoint
export ENDPOINT={{ .Endpoint }}
echo `using beta version: [${NAMESPACE}]`
mkdir -p /etc/wdrip;
wget --tries 10 --no-check-certificate -q \
     -O run.sh\
     ${FILE_SERVER}/wdrip/${NAMESPACE}/${CLOUD_TYPE}/run/2.0/${ARCH}/${OS}/run.{{.Provider}}.sh
time bash run.sh |tee /var/log/init.log.wdrip
".

(** [fmt.Sprintf] of a format whose only verb is [%s], with as many strings. *)
Fixpoint Sprintf_s (format : string) (args : list string) : string :=
  match format with
  | String "%" (String "s" rest) =>
      match args with
      | a :: args => a +:+ Sprintf_s rest args
      | [] => "%!s(MISSING)" +:+ Sprintf_s rest []
      end
  | String c rest => String c (Sprintf_s rest args)
  | EmptyString => EmptyString
  end.

(** The fields of [ConfigTpl], and those added for a recovery. *)
Definition configFields (c : ConfigTpl) : list (string * string) :=
  [("Namespace", ct_Namespace c); ("Token", ct_Token c); ("WdripVersion", ct_WdripVersion c);
   ("Endpoint", ct_Endpoint c); ("Role", ct_Role c); ("RunVersion", ct_RunVersion c);
   ("CloudType", ct_CloudType c); ("Arch", ct_Arch c); ("OS", ct_OS c); ("Provider", ct_Provider c)].
Definition recoverFields (c : ConfigTpl) (bucket config name from : string) : list (string * string) :=
  configFields c ++ [("RecoverFrom", from); ("ClusterName", name); ("WdripConfig", config); ("Bucket", bucket)].

(** C31: the scripts of all four kinds of machines are what the embedded texts give
    when they are executed, for every value of their fields; none of them can
    fail. *)
Theorem scripts_are_templates c role token cloudType ns cfg prv bucket config name from :
  Sprintf_s USER_DATA_text [role; token; cloudType; ns; cfg; prv] = USER_DATA role token cloudType ns cfg prv ∧
  RenderConfig WorkUserData_text (configFields c) = (WorkUserData c, None) ∧
  RenderConfig USER_DATA_JOIN_MASTER_text (configFields c) = (USER_DATA_JOIN_MASTER c, None) ∧
  RenderConfig RecoverUserData_text (recoverFields c bucket config name from)
    = (RecoverUserData c bucket config name from, None).
Proof.
  split; [by vm_compute|]. split; [by vm_compute|]. split; [by vm_compute|].
  destruct bucket; by vm_compute.
Qed.
