(* ===== verification/AliGroups.v ===== *)
(** * The Alibaba provider: node groups and stacks (pkg/iaas/provider/alibaba)

    nodepool.go: the scaling group behind a node pool.  resource.go and ros.go:
    what is read from the resource stack of a cluster, recovery of the control
    plane, and deletion of the stack.  event.go: the progress shown while a stack
    is created.  The user data of a machine is that of [UserData]. *)
From stdpp Require Import base list gmap strings.
From Stdlib Require Import Lia Ascii.
From S2P Require Import Prelude GoStrings GoTime Api Sdk Effects Utils Provider UserData Alibaba.

(** ** nodepool.go *)

(** [ScalingGroupName(np, vpcid)]: cut to 63 bytes when longer than 64. *)
Definition ScalingGroupName (np : NodePool) (vpcid : string) : string :=
  let name := "nodepool." +:+ vpcid +:+ "." +:+ ReplaceAll (om_UID (np_Meta np)) "-" "" in
  if bool_decide (64 < String.length name) then String.substring 0 63 name else name.

Definition ScalingGroupCfgName (np : NodePool) : string :=
  "scaling-configuration-" +:+ ReplaceAll (om_UID (np_Meta np)) "-" "".

(** A string in double quotes. *)
Definition quoted (s : string) : string :=
  let q := String (ascii_of_nat 34) "" in q +:+ s +:+ q.

Section operations.
Context {W : Type} `{Env W} `{PkgErrors} `{WaitLib W} `{Json (gmap string string)} `{Base64} `{Yaml ClusterSpec} `{Yaml ContextCFG}.

(** [SecrityGroup(stack)] and [Vswitchs(stack)]: empty when the key is missing;
    a value that is not a string panics. *)
Definition stackOr (stack : gmap string Value) (key : string) : IO W string :=
  match stack !! key with
  | None => mret ""
  | Some v => as_string (v_Val v)
  end.
Definition SecrityGroup (stack : gmap string Value) : IO W string := stackOr stack "k8s_sg".
Definition Vswitchs (stack : gmap string Value) : IO W string := stackOr stack "k8s_vswitch".

Definition VSwitchs (n : AlibabaDev) (ctx : Context_) : IO W (string * error) :=
  match BootCFG ctx with
  | None => mret ("", Errorf "create nodegroup: miss cluster spec")
  | Some boot =>
      vsw ← Vswitchs (getStack ctx);
      '(v, err) ← sdk_call (DescribeVSwitches (bi_Region (cs_Bind boot)) vsw);
      match err with
      | Some e => mret (vsw, Wrapf (Some e) "describe vswitch")
      | None =>
          match v with
          | [zone] =>
              mret ("{ " +:+ quoted zone +:+ ": [" +:+ quoted vsw +:+ "]}", None)
          | _ => mret (vsw, Errorf ("not exact one vswitch matched: " +:+ fmt_d (Z.of_nat (length v)) +:+
                                    " by name " +:+ vsw))
          end
      end
  end.

(** [CreateNodeGroup], first part: the group with the pool's name, found or
    created.  A returned [inr] ends the call with that error. *)
Definition ensureGroup (region gname : string) (ctx : Context_) (np : NodePool) : IO W (string + error) :=
  '(mgroup, err) ← sdk_call (DescribeScalingGroups region [] gname);
  match err with
  | Some e => mret (inr (Wrapf (Some e) ("find scaling group " +:+ gname)))
  | None =>
      match mgroup with
      | [] =>
          vsw ← Vswitchs (getStack ctx);
          '(id, err) ← sdk_call (CreateScalingGroup region gname [vsw] 0 1000
                                   (in_DesiredCapacity (ns_Infra (np_Spec np))));
          match err with
          | Some e => mret (inr (Wrapf (Some e) ("create scaling group, " +:+ np_Name np)))
          | None => mret (inl id)
          end
      | g :: _ => mret (inl (eg_Id g))
      end
  end.

(** Second part: the scaling configuration of the group, found or created. *)
Definition ensureConfig (region sgrpid : string) (boot : ClusterSpec) (ctx : Context_) (np : NodePool)
    : IO W (string + error) :=
  let scfgName := ScalingGroupCfgName np in
  let infra := ns_Infra (np_Spec np) in
  '(cfg, err) ← sdk_call (DescribeScalingConfigurations region sgrpid scfgName);
  match err with
  | Some e => mret (inr (Wrapf (Some e) ("find scaling configuration, " +:+ scfgName)))
  | None =>
      match cfg with
      | [] =>
          sg ← SecrityGroup (getStack ctx);
          '(_, (data, err)) ← UserData ctx WorkerUserdata;
          match err with
          | Some e => mret (inr (Wrapf (Some e) "build work userdata"))
          | None =>
              '(id, err) ← sdk_call (CreateScalingConfiguration region sgrpid
                 (MkScalingConfig scfgName sg ("KubernetesWorkerRole-" +:+ bi_ResourceId (cs_Bind boot))
                    (in_ImageId infra) data (in_CPU infra) (in_Mem infra)
                    (Marshal ({["wdrip.com" := np_Name np]} : gmap string string))));
              match err with
              | Some e => mret (inr (Wrapf (Some e) ("create scaling configuration," +:+ sgrpid)))
              | None => mret (inl id)
              end
          end
      | id :: _ => mret (inl id)
      end
  end.

(** [CreateNodeGroup]: on an error the pool's own binding is returned. *)
Definition CreateNodeGroup (n : AlibabaDev) (ctx : Context_) (np : NodePool) : IO W (option BindID * error) :=
  match BootCFG ctx with
  | None => mret (None, Errorf "create nodegroup: miss cluster spec")
  | Some boot =>
      let bind := np_Bind np in
      vpcid ← stackVal (getStack ctx) "k8s_vpc";
      let region := bi_Region (cs_Bind boot) in
      group ← ensureGroup region (ScalingGroupName np vpcid) ctx np;
      match group with
      | inr err => mret (bind, err)
      | inl sgrpid =>
          config ← ensureConfig region sgrpid boot ctx np;
          match config with
          | inr err => mret (bind, err)
          | inl scfgid =>
              err ← sdk_call (EnableScalingGroup sgrpid scfgid);
              let done := mret (Some (MkBindID [] sgrpid scfgid), None) in
              match (err : error) with
              | Some e =>
                  if Contains (Error e) "IncorrectScalingGroupStatus" then done
                  else mret (bind, Wrapf (Some e) ("enable scaling group, " +:+ sgrpid))
              | None => done
              end
          end
      end
  end.

(** [DeleteNodeGroup]: an error of the deletion is returned only when it says
    that the group was not found. *)
Definition DeleteNodeGroup (n : AlibabaDev) (ctx : Context_) (np : NodePool) : IO W error :=
  match np_Bind np with
  | None => mret None
  | Some bind =>
      if decide (b_ScalingGroupId bind = "") then mret None
      else
        err ← sdk_call (DeleteScalingGroup "" (b_ScalingGroupId bind) true);
        match (err : error) with
        | Some e =>
            if Contains (Error e) "not found"
            then mret (Wrapf (Some e) ("delete scaling group, " +:+ b_ScalingGroupId bind))
            else mret None
        | None => mret None
        end
  end.

Definition ModifyNodeGroup (n : AlibabaDev) (ctx : Context_) (np : NodePool) : IO W error :=
  match np_Bind np with
  | None => mret (Errorf ("modify node group: bind empty infra, " +:+ np_Name np))
  | Some bind =>
      sdk_call (ModifyScalingGroup (b_ScalingGroupId bind) (in_DesiredCapacity (ns_Infra (np_Spec np))))
  end.

(** ** resource.go *)
Definition StackID : string := "StackID".

(** [toActionMap(out)]: through JSON and back, the outputs by key. *)
Definition toActionMap (out : list (string * any)) : gmap string Value :=
  foldl (λ m o, <[o.1 := MkValue o.1 o.2]> m) ∅ out.

(** [id.Spec.ResourceId = r] *)
Definition set_ResourceId (r : string) (id : ClusterId) : ClusterId :=
  let c := cid_Spec id in
  MkClusterId (cid_Type id) (cid_Meta id)
    (MkClusterIdSpec r (cis_ExtraRIDs c) (cis_CreatedAt c) (cis_UpdatedAt c) (cis_Options c) (cis_Cluster c)).

(** The stack id of [GetStackOutPuts]: the recorded one, or the one of the stack
    with the cluster's name. *)
Definition stackOf (n : AlibabaDev) (id : ClusterId) : IO W (string + error) :=
  if decide (cis_ResourceId (cid_Spec id) = "") then
    if decide (cid_Name id = "") then mret (inr (Errorf "id or name must be provided."))
    else
      '(stacks, err) ← sdk_call (ListStacks (ad_Region n) [cid_Name id]);
      match err with
      | Some e => mret (inr (Errorf ("list rsource get stack: " +:+ Error e)))
      | None =>
          match stacks with
          | [] => mret (inr (Errorf ("no stacks found by name: " +:+ cid_Name id)))
          | [s] => mret (inl s.2)
          | _ =>
              match List.find (λ s, bool_decide (s.1 = cid_Name id)) stacks with
              | Some s => mret (inl s.2)
              | None => mret (inr (Errorf ("multiple ros stacks by name: " +:+ cid_Name id +:+ ", count=" +:+
                                           fmt_d (Z.of_nat (length stacks)))))
              end
          end
      end
  else mret (inl (cis_ResourceId (cid_Spec id))).

(** [GetStackOutPuts]: also what it leaves in the identity it was given. *)
Definition GetStackOutPuts (n : AlibabaDev) (ctx : Context_) (id : ClusterId)
    : IO W (ClusterId * (gmap string Value * error)) :=
  found ← stackOf n id;
  match found with
  | inr err => mret (id, (∅, err))
  | inl rid =>
      let id := set_ResourceId rid id in
      '(resp, err) ← sdk_call (GetStack (ad_Region n) rid);
      match err with
      | Some e => mret (id, (∅, Errorf ("list rsource get stack: " +:+ Error e)))
      | None => mret (id, (toActionMap (rst_Outputs resp ++ [(StackID, AStr rid)]), None))
      end
  end.

Definition GetInfraStack (n : AlibabaDev) (ctx : Context_) (id : ClusterId)
    : IO W (gmap string Value * error) :=
  if decide (cis_ResourceId (cid_Spec id) = "") then mret (∅, Errorf "EmptyStackID")
  else
    '(resource, err) ← sdk_call (ListStackResources (ad_Region n) (cis_ResourceId (cid_Spec id)));
    match err with
    | Some e => mret (∅, Errorf ("find resource k8s_nodes_scaling_rule fail, " +:+ Error e))
    | None => mret (foldl (λ m r, <[r.1 := MkValue r.1 (AStr r.2)]> m) ∅ resource, None)
    end.

(** ** ros.go *)
Definition Delete (n : AlibabaDev) (ctx : Context_) (id : ClusterId) : IO W error :=
  if decide (cis_ResourceId (cid_Spec id) = "") then mret (Errorf "resourceid empty, delete operation failed")
  else
    err ← sdk_call (DeleteStack (cis_ResourceId (cid_Spec id)));
    match (err : error) with
    | Some e =>
        if Contains (Error e) "NotFound" then mret None
        else mret (Errorf ("delete Ros stack: " +:+ Error e))
    | None => mret None
    end.
End operations.

(** [WaitDesiredCnt] and [Recover]; the polling closure appends to a variable of
    the enclosing function. *)
Section recovery.
Context {W : Type} `{Env W} `{PkgErrors} `{WaitLib W} `{WaitLib (W * list Instance)}
  `{Base64} `{Yaml ClusterSpec} `{Yaml ContextCFG}.
Existing Instance var_env.

(** [mwait]: the machines of the group are appended to those found before. *)
Definition mwait (n : AlibabaDev) (gid : string) (desired : Z) : IO (W * list Instance) (bool * error) :=
  '(mins, err) ← perform (Sdk (DescribeScalingInstances (ad_Region n) gid));
  match err with
  | Some e => mret (false, Some e)
  | None =>
      match mins with
      | [] => mret (false, None)
      | _ =>
          '(attri, err) ← perform (Sdk (DescribeInstances (ad_Region n) mins));
          match err with
          | Some e => mret (false, Errorf ("instance detail call: " +:+ Error e))
          | None =>
              instances ← get_var;
              let instances := instances ++
                map (λ i, MkInstance "" (ei_InstanceId i) (Join (ei_IpAddress i) ",") []
                                     (normalize (ei_CreationTime i)) "" (ei_Status i)) attri in
              _ ← set_var instances;
              mret (bool_decide (Z.of_nat (length instances) = desired), None)
          end
      end
  end.

Definition WaitDesiredCnt (n : AlibabaDev) (ctx : Context_) (gid : string) (desired : Z)
    : IO W (list Instance * error) :=
  gid ← (if decide (gid = "") then stackVal (getStack ctx) "k8s_master_sg" else mret gid);
  '(err, instances) ← with_var [] (PollImmediate (10 * Second) (4 * Minute) (mwait n gid desired));
  match err with
  | Some e => mret ([], Wrapf (Some e) "[WaitDesiredMasterCount] timeouted")
  | None => mret (instances, None)
  end.

(** [Recover(ctx, id)]: also the context with the stack it loaded. *)
Definition Recover (n : AlibabaDev) (ctx : Context_) (id : ClusterId)
    : IO W (Context_ * (option ClusterId * error)) :=
  '(stack, err) ← GetInfraStack n ctx id;
  match err with
  | Some e => mret (ctx, (Some id, Wrapf (Some e) ("get stack infra: " +:+ cid_Name id)))
  | None =>
      let ctx := WithStack stack ctx in
      err ← ScaleMasterGroup n ctx "" 1;
      let failed := match err with
                    | Some e => negb (Contains (Error e) "IncorrectCapacity.NoChange")
                    | None => false
                    end in
      if failed then mret (ctx, (Some id, Wrapf err "scaling master ess to 1"))
      else
        '(instances, err) ← WaitDesiredCnt n ctx "" 1;
        match err with
        | Some e => mret (ctx, (None, Wrapf (Some e) "wait desired master cnt"))
        | None =>
            match instances with
            | [i] =>
                '(ctx, (data, err)) ← UserData ctx RecoverUserdata;
                match err with
                | Some e => mret (ctx, (Some id, Wrapf (Some e) ("build recover userdata: " +:+ i_Id i)))
                | None =>
                    err ← ReplaceSystemDisk n ctx (i_Id i) data (MkOption "" zeroValue);
                    match err with
                    | Some e => mret (ctx, (Some id, Wrapf (Some e) ("replace system disk: " +:+ i_Id i)))
                    | None =>
                        _ ← perform (Sleep (120 * Second));
                        mret (ctx, (Some id, None))
                    end
                end
            | _ => mret (ctx, (Some id, Errorf ("master ess not equal 1, actually " +:+
                                               fmt_d (Z.of_nat (length instances)))))
            end
        end
  end.
End recovery.

(** ** Facts *)
Section facts.
Context {W : Type} `{Env W} `{PkgErrors} `{WaitLib W, !WaitSpec W} `{Json (gmap string string)} `{Base64} `{Yaml ClusterSpec} `{Yaml ContextCFG}.

Lemma emits_stackOr P stack key : emits P (stackOr stack key : IO W string).
Proof. unfold stackOr. destruct (stack !! key) as [v|]; [|apply emits_ret]. destruct (v_Val v); simpl; auto with emits. Qed.

Definition notGroup (c : call) : Prop :=
  match c with Sdk (CreateScalingGroup _ _ _ _ _ _) => False | _ => True end.

Lemma emits_ensureConfig region gid boot ctx np : emits notGroup (ensureConfig region gid boot ctx np : IO W _).
Proof. unfold ensureConfig, SecrityGroup, sdk_call. solve_emits; try done; first [apply emits_stackOr | by apply emits_UserData; intros []]. Qed.

Lemma ensureGroup_found region gname ctx np g gs (s : St W) :
  let c := Sdk (DescribeScalingGroups region [] gname) in
  (env_step c (world s)).1 = (g :: gs, None) →
  ensureGroup region gname ctx np s = (Ret (inl (eg_Id g)), MkSt (env_step c (world s)).2 (log s ++ [c])).
Proof. intros c Hg. subst c. unfold ensureGroup, sdk_call. step_perform. by rewrite Hg. Qed.

Lemma ensureConfig_found region gid boot ctx np id ids (s : St W) :
  let c := Sdk (DescribeScalingConfigurations region gid (ScalingGroupCfgName np)) in
  (env_step c (world s)).1 = (id :: ids, None) →
  ensureConfig region gid boot ctx np s = (Ret (inl id), MkSt (env_step c (world s)).2 (log s ++ [c])).
Proof. intros c Hg. subst c. unfold ensureConfig, sdk_call. step_perform. by rewrite Hg. Qed.

Lemma emits_ensureGroup region gname ctx np : emits (λ _, True) (ensureGroup region gname ctx np : IO W _).
Proof. unfold ensureGroup, Vswitchs, sdk_call. solve_emits; try done; apply emits_stackOr. Qed.

Lemma emits_ScaleMasterGroup (P : call → Prop) n ctx gid d :
  (∀ c, match c with
        | Sdk (ModifyScalingRule _ _ _ _) | Sdk (DescribeScalingRules _ _ _)
        | Sdk (DescribeScalingActivities _ _ _) | Sdk (ExecuteScalingRule _) => True
        | _ => False
        end → P c) →
  emits P (ScaleMasterGroup n ctx gid d : IO W error).
Proof.
  intros HP. unfold ScaleMasterGroup, sdk_call. solve_emits;
    first [apply emits_stackVal | apply emits_WaitActivity; by apply HP | by apply HP].
Qed.
End facts.

Section recovery_facts.
Context {W : Type} `{Env W} `{PkgErrors} `{WaitLib W, !WaitSpec W}.
Context `{WaitLib (W * list Instance)}.
Existing Instance var_env.

(** One attempt: it only appends to the machines found, and is done only when
    their number is the desired one. *)
Lemma mwait_run n gid desired (s s' : St (W * list Instance)) b err :
  mwait n gid desired s = (Ret (b, err), s') →
  ∃ l, (world s').2 = (world s).2 ++ l ∧
       (b = true → err = None → Z.of_nat (length (world s').2) = desired).
Proof.
  unfold mwait. rewrite bind_unfold, var_perform.
  destruct (env_step _ (world s).1) as [[mins [e|]] w1]; cbn [fst snd].
  { intros [= <- <- <-]. exists []. by rewrite app_nil_r. }
  destruct mins as [|m mins].
  { intros [= <- <- <-]. exists []. by rewrite app_nil_r. }
  rewrite bind_unfold, var_perform. cbn [world log fst snd].
  destruct (env_step _ w1) as [[attri [e|]] w2]; cbn [fst snd].
  { intros [= <- <- <-]. exists []. by rewrite app_nil_r. }
  intros [= <- <- <-]. cbn [world snd]. eexists. split; [done|]. intros Hb _. by apply bool_decide_eq_true in Hb.
Qed.

Lemma mwait_first n gid desired m ms l (s : St (W * list Instance)) :
  (env_step (Sdk (DescribeScalingInstances (ad_Region n) gid)) (world s).1).1 = (m :: ms, None) →
  (env_step (Sdk (DescribeInstances (ad_Region n) (m :: ms)))
     (after [Sdk (DescribeScalingInstances (ad_Region n) gid)] (world s).1)).1 = (l, None) →
  (Z.of_nat (length (world s).2 + length l) ≠ desired)%Z →
  ∃ s1, mwait n gid desired s = (Ret (false, None), s1) ∧
        length (world s1).2 = (length (world s).2 + length l)%nat.
Proof.
  intros Hm Hl Hd. unfold mwait. cbn [after foldl] in Hl.
  rewrite bind_unfold, var_perform, Hm, bind_unfold, var_perform. cbn [world log fst snd].
  rewrite Hl. cbn iota beta.
  match goal with |- context [MkSt ?w ?lg] => set (s1 := MkSt w lg) end.
  rewrite (bind_Ret get_var _ s1 (world s).2 s1) by done. unfold set_var. rewrite bind_unfold.
  rewrite length_app, length_map, bool_decide_false by done.
  eexists. split; [done|]. cbn. by rewrite length_app, length_map.
Qed.

Lemma emits_mwait (P : call → Prop) n gid desired :
  (∀ c, match c with Sdk (DescribeScalingInstances _ _) | Sdk (DescribeInstances _ _) => True | _ => False end → P c) →
  emits P (mwait n gid desired).
Proof. intros HP. unfold mwait. solve_emits; by apply HP. Qed.

(** Once too many machines were found, waiting never succeeds. *)
Lemma mwait_overshoot n gid desired s o s' :
  poll_run_on idle_var (mwait n gid desired) s o s' →
  (desired < Z.of_nat (length (world s).2))%Z → o ≠ Ret None.
Proof.
  induction 1 as [s s' E| | | | |s s1 s2 o s' E [_ I] _ IH]; intros Hl; try done.
  - apply mwait_run in E as (l & Hw & Hd). specialize (Hd eq_refl eq_refl). rewrite Hw, length_app in Hd. lia.
  - apply IH. apply mwait_run in E as (l & Hw & _). rewrite <- I, Hw, length_app. lia.
Qed.

(** The machines found are as many as asked for. *)
Lemma WaitDesiredCnt_count `{!PkgErrorsSpec} `{!VarWaitSpec W (list Instance)} n ctx gid desired (s s' : St W) l :
  WaitDesiredCnt n ctx gid desired s = (Ret (l, None), s') → Z.of_nat (length l) = desired.
Proof.
  unfold WaitDesiredCnt. intros HB. apply bind_Ret_inv in HB as (g & s1 & _ & HB).
  apply bind_Ret_inv in HB as ([[e|] ins] & s2 & Ew & HB).
  { destruct (Wrapf_some e "[WaitDesiredMasterCount] timeouted") as (e' & He & _). by rewrite He in HB. }
  injection HB as <- _. revert Ew. unfold with_var. set (s0 := MkSt _ _).
  pose proof (PollImmediate_var_run (10 * Second) (4 * Minute) (mwait n g desired) s0) as Hr.
  destruct (PollImmediate (10 * Second) (4 * Minute) (mwait n g desired) s0) as [[err| |] sv]; [|done..].
  cbn [fst snd] in Hr. intros [= -> <- <-]. clear -Hr. remember (Ret None) as out eqn:Eo.
  induction Hr as [sa sb E| | | | |sa sb sc o sd E _ _ IH]; try done; [|auto].
  apply mwait_run in E as (l & _ & Hd). auto.
Qed.

(** The calls that look at one group. *)
Definition polls (n : AlibabaDev) (gid : string) (c : call) : Prop :=
  c = Sdk (DescribeScalingInstances (ad_Region n) gid) ∨ ∃ ids, c = Sdk (DescribeInstances (ad_Region n) ids).

Lemma emits_polls n gid desired : emits (polls n gid) (mwait n gid desired).
Proof. unfold mwait. solve_emits; unfold polls; eauto. Qed.

(** The attempt that ends the wait: the group was asked for its machines, these
    were described, and the descriptions appended to those found before. *)
Lemma mwait_done n gid desired (s s' : St (W * list Instance)) :
  mwait n gid desired s = (Ret (true, None), s') →
  let c1 := Sdk (DescribeScalingInstances (ad_Region n) gid) in
  ∃ mins attri, let c2 := Sdk (DescribeInstances (ad_Region n) mins) in
    (env_step c1 (world s).1).1 = (mins, None) ∧ mins ≠ [] ∧
    (env_step c2 (env_step c1 (world s).1).2).1 = (attri, None) ∧
    log s' = log s ++ [c1; c2] ∧
    map i_Id (world s').2 = map i_Id (world s).2 ++ map ei_InstanceId attri ∧
    Z.of_nat (length (world s').2) = desired.
Proof.
  unfold mwait. rewrite bind_unfold, var_perform.
  destruct (env_step _ (world s).1) as [[mins [e|]] w1] eqn:E1; cbn [fst snd]; [done|].
  destruct mins as [|m mins]; [done|].
  rewrite bind_unfold, var_perform. cbn [world log fst snd].
  destruct (env_step _ w1) as [[attri [e|]] w2] eqn:E2; cbn [fst snd]; [done|].
  intros [= Hb <-]. exists (m :: mins), attri. cbn [fst snd]. rewrite E2. apply bool_decide_eq_true in Hb.
  split_and!; try done; cbn [log world snd]; [by rewrite <- app_assoc|].
  by rewrite map_app, map_map.
Qed.

(** An attempt that goes on has not found the desired number. *)
Lemma mwait_not_yet n gid desired (s s' : St (W * list Instance)) :
  mwait n gid desired s = (Ret (false, None), s') → Z.of_nat (length (world s).2) ≠ desired →
  Z.of_nat (length (world s').2) ≠ desired.
Proof.
  unfold mwait. rewrite bind_unfold, var_perform.
  destruct (env_step _ (world s).1) as [[mins [e|]] w1]; cbn [fst snd]; [done|].
  destruct mins as [|m mins]; [by intros [= <-]|].
  rewrite bind_unfold, var_perform. cbn [world log fst snd].
  destruct (env_step _ w1) as [[attri [e|]] w2]; cbn [fst snd]; [done|].
  intros [= Hb <-]. by apply bool_decide_eq_false in Hb.
Qed.

Lemma mwait_poll n gid desired s o s' :
  poll_run_on idle_var (mwait n gid desired) s o s' → o = Ret None →
  Z.of_nat (length (world s).2) ≠ desired →
  ∃ s0 l, mwait n gid desired s0 = (Ret (true, None), s') ∧ log s0 = log s ++ l ∧ Forall (polls n gid) l ∧
    Z.of_nat (length (world s0).2) ≠ desired.
Proof.
  induction 1 as [s s' E| | | | |s s1 s2 o s' E [I1 I2] _ IH]; intros Ho Hl; try done.
  { exists s, []. by rewrite app_nil_r. }
  apply mwait_not_yet in E as Hn; [|done]. rewrite I2 in Hn.
  destruct (IH Ho Hn) as (s0 & l & Hd & Hlog & Hp & Hs). destruct (emits_polls n gid desired s) as (l1 & E1 & F1).
  rewrite E in E1. cbn [snd] in E1. exists s0, (l1 ++ l). rewrite Hlog, <- I1, E1, <- app_assoc, Forall_app. done.
Qed.

(** Waiting for one machine of the group with the id the stack has for it. *)
Lemma WaitDesiredCnt_one `{!PkgErrorsSpec} `{!VarWaitSpec W (list Instance)} n ctx ins (s s' : St W) :
  WaitDesiredCnt n ctx "" 1 s = (Ret (ins, None), s') →
  ∃ g w mins ei l,
    v_Val (default zeroValue (getStack ctx !! "k8s_master_sg")) = AStr g ∧ map i_Id ins = [ei_InstanceId ei] ∧
    let c1 := Sdk (DescribeScalingInstances (ad_Region n) g) in
    let c2 := Sdk (DescribeInstances (ad_Region n) mins) in
    (env_step c1 w).1 = (mins, None) ∧ mins ≠ [] ∧ (env_step c2 (env_step c1 w).2).1 = ([ei], None) ∧
    log s' = log s ++ l ++ [c1; c2] ∧ Forall (polls n g) l.
Proof.
  unfold WaitDesiredCnt. rewrite decide_True by done. intros HB. apply bind_Ret_inv in HB as (g & s1 & Hg & HB).
  unfold stackVal, as_string in Hg. destruct (v_Val _) eqn:Ev; try done. injection Hg as -> <-.
  apply bind_Ret_inv in HB as ([[e|] ins'] & s2 & Ew & HB).
  { destruct (Wrapf_some e "[WaitDesiredMasterCount] timeouted") as (e' & He & _). by rewrite He in HB. }
  injection HB as -> <-. revert Ew. unfold with_var. set (s0 := MkSt _ _).
  pose proof (PollImmediate_var_run (10 * Second) (4 * Minute) (mwait n g 1) s0) as Hr.
  destruct (PollImmediate (10 * Second) (4 * Minute) (mwait n g 1) s0) as [[err| |] sv]; [|done..].
  cbn [fst snd] in Hr. intros [= -> <- <-]. apply mwait_poll in Hr as (sp & l & Hd & Hlog & Hp & Hs); [|done..].
  apply mwait_done in Hd as (mins & attri & Ha & Hne & Hb & Hl & Hid & Hcnt).
  pose proof (f_equal length Hid) as Hlen. rewrite length_app, !length_map in Hlen.
  assert ((world sp).2 = []) as Hnil.
  { destruct ((world sp).2) as [|? [|]]; [done|done|]. cbn in Hlen. lia. }
  rewrite Hnil in Hid, Hlen. cbn in Hid, Hlen. destruct attri as [|ei [|]]; [cbn in Hlen; lia| |cbn in Hlen; lia].
  exists g, (world sp).1, mins, ei, l. split_and!; try done. cbn [log]. by rewrite Hl, Hlog, <- app_assoc.
Qed.

Lemma emits_WaitDesiredCnt `{!WaitSpec (W * list Instance)} (P : call → Prop) n ctx gid desired :
  (∀ c, match c with Sdk (DescribeScalingInstances _ _) | Sdk (DescribeInstances _ _) => True | _ => False end → P c) →
  emits P (WaitDesiredCnt n ctx gid desired : IO W _).
Proof.
  intros HP. unfold WaitDesiredCnt. solve_emits; first [apply emits_stackVal | by apply emits_mwait].
Qed.
End recovery_facts.

(** ** Properties *)
Section properties.
Context {W : Type} `{Env W} `{PkgErrors, !PkgErrorsSpec} `{WaitLib W, !WaitSpec W} `{Json (gmap string string)}
  `{Base64} `{Yaml ClusterSpec} `{Yaml ContextCFG}.
Context `{WaitLib (W * list Instance), !WaitSpec (W * list Instance), !VarWaitSpec W (list Instance)}.
Existing Instance var_env.

Ltac emits_any :=
  solve_emits; try done;
  first [ by apply emits_stackVal
        | by apply emits_stackOr
        | apply emits_ensureGroup
        | by eapply emits_weaken; [|apply emits_ensureConfig] ].

(** [CreateNodeGroup] creates a scaling group only when the account has none
    of the pool's name, and then creates it with that name, a size of 0 to 1000
    and the pool's capacity; creating a pool again finds the group and the
    configuration, and makes no creation call. *)
Theorem CreateNodeGroup_creates_missing n ctx np boot vpc (s : St W) :
  BootCFG ctx = Some boot → v_Val (default zeroValue (getStack ctx !! "k8s_vpc")) = AStr vpc →
  let region := bi_Region (cs_Bind boot) in
  let name := ScalingGroupName np vpc in
  let groups := Sdk (DescribeScalingGroups region [] name) in
  (∀ r g vsw mn mx d,
     calls (CreateNodeGroup n ctx np) s (Sdk (CreateScalingGroup r g vsw mn mx d)) →
     (env_step groups (world s)).1 = ([], None) ∧
     r = region ∧ g = name ∧ mn = 0%Z ∧ mx = 1000%Z ∧ d = in_DesiredCapacity (ns_Infra (np_Spec np))) ∧
  (∀ g gs c cs,
     let configs := Sdk (DescribeScalingConfigurations region (eg_Id g) (ScalingGroupCfgName np)) in
     let enable := Sdk (EnableScalingGroup (eg_Id g) c) in
     (env_step groups (world s)).1 = (g :: gs, None) →
     (env_step configs (after [groups] (world s))).1 = (c :: cs, None) →
     (env_step enable (after [groups; configs] (world s))).1 = None →
     CreateNodeGroup n ctx np s =
       (Ret (Some (MkBindID [] (eg_Id g) c), None),
        MkSt (after [groups; configs; enable] (world s)) (log s ++ [groups; configs; enable]))).
Proof.
  intros Hb Hv region name groups. unfold CreateNodeGroup. rewrite Hb. unfold stackVal. rewrite Hv.
  cbn [as_string]. split.
  - intros r g vsw mn mx d Hc. apply (calls_bind_inv (λ _, False)) in Hc as (v & s1 & [= <- <-] & Hc);
      [|apply emits_ret|by intros []|intros; unfold sdk_call; emits_any].
    apply (calls_bind_first notGroup) in Hc; [|emits_any| |by intros []].
    2:{ intros [sg|err]; [|apply emits_ret]. apply emits_bind; [apply emits_ensureConfig|].
        intros []; [|apply emits_ret]. unfold sdk_call. solve_emits; done. }
    unfold ensureGroup, sdk_call in Hc. calls_step Hc; [|intros; unfold Vswitchs; emits_any].
    destruct Hc as [?|Hc]; [done|]. subst groups region name.
    destruct (env_step (Sdk (DescribeScalingGroups _ _ _)) (world s)) as [[grps [e|]] w1]; cbn [fst snd] in *; [by apply calls_ret in Hc|].
    destruct grps as [|gr grps]; [|by apply calls_ret in Hc]. split; [done|].
    apply (calls_bind_inv notGroup) in Hc as (v & s1 & _ & Hc);
      [|unfold Vswitchs; emits_any|by intros []|intros; emits_any].
    calls_step Hc; [|intros; emits_any]. destruct Hc as [[= -> -> -> -> -> ->]|Hc]; [done|].
    destruct (env_step _ _) as [[id [e|]] w2]; by apply calls_ret in Hc.
  - intros g gs c cs Hg Hcf He. subst groups region name. cbn [after foldl] in *.
    rewrite bind_ret_l, (bind_Ret _ _ _ _ _ (ensureGroup_found _ _ _ _ _ _ _ Hg)).
    rewrite (bind_Ret _ _ _ _ _ (ensureConfig_found _ _ _ _ _ _ _ (MkSt _ _) Hcf)).
    unfold sdk_call. step_perform. rewrite He. cbn [log]. by rewrite <- !app_assoc.
Qed.

(** Deleting a scaling group that fails is reported as deleted, unless the
    error says that the group was not found: then the deletion fails, although
    nothing is left to delete. *)
Theorem DeleteNodeGroup_swallows n ctx np bind e (s : St W) :
  np_Bind np = Some bind → b_ScalingGroupId bind ≠ "" →
  (env_step (Sdk (DeleteScalingGroup "" (b_ScalingGroupId bind) true)) (world s)).1 = Some e →
  ∃ err s', DeleteNodeGroup n ctx np s = (Ret err, s') ∧
            (err = None ↔ Contains (Error e) "not found" = false).
Proof.
  intros Hb Hne He. unfold DeleteNodeGroup, sdk_call. rewrite Hb, decide_False by done.
  step_perform. rewrite He. destruct (Contains _ _).
  - match goal with |- context [Wrapf _ ?m] => destruct (Wrapf_some e m) as (e' & -> & _) end.
    do 2 eexists. split; [done|]. done.
  - do 2 eexists. split; [done|]. done.
Qed.

(** When the first look at a group shows more machines than desired,
    [WaitDesiredCnt] never succeeds, whatever the group shrinks to: every look
    adds the machines it sees to those of the looks before. *)
Theorem WaitDesiredCnt_overshoot n ctx gid desired m ms l (s : St W) :
  gid ≠ "" →
  (env_step (Sdk (DescribeScalingInstances (ad_Region n) gid)) (world s)).1 = (m :: ms, None) →
  (env_step (Sdk (DescribeInstances (ad_Region n) (m :: ms)))
     (after [Sdk (DescribeScalingInstances (ad_Region n) gid)] (world s))).1 = (l, None) →
  (desired < Z.of_nat (length l))%Z →
  ∀ out s', WaitDesiredCnt n ctx gid desired s ≠ (Ret (out, None), s').
Proof.
  intros Hg Hm Hl Hd out s' HB. unfold WaitDesiredCnt in HB. rewrite decide_False in HB by done.
  rewrite bind_ret_l in HB. apply bind_Ret_inv in HB as ([[e|] ins] & s2 & Ew & HB).
  { destruct (Wrapf_some e "[WaitDesiredMasterCount] timeouted") as (e' & He & _). by rewrite He in HB. }
  clear HB. revert Ew. unfold with_var. set (s0 := MkSt _ _).
  pose proof (PollImmediate_var_run (10 * Second) (4 * Minute) (mwait n gid desired) s0) as Hr.
  destruct (PollImmediate (10 * Second) (4 * Minute) (mwait n gid desired) s0) as [[err| |] sv]; [|done..].
  cbn [fst snd] in Hr. intros [= -> _ _].
  destruct (mwait_first n gid desired m ms l s0 Hm Hl) as (s1 & E1 & Hlen); [cbn; lia|].
  assert (desired < Z.of_nat (length (world s1).2))%Z as Hd1 by (rewrite Hlen; cbn; lia).
  destruct (poll_run_next _ _ _ _ _ Hr E1) as (s3 & [_ Hv] & Hr').
  rewrite Hv in Hd1. by eapply mwait_overshoot in Hr'.
Qed.

(** What a stack is said to have is among its listed resources. *)
Lemma stack_of_resources resource : ∀ (m : gmap string Value) k v,
  foldl (λ m (r : string * string), <[r.1 := MkValue r.1 (AStr r.2)]> m) m resource !! k = Some v →
  m !! k = Some v ∨ ∃ x, v = MkValue k (AStr x) ∧ (k, x) ∈ resource.
Proof.
  induction resource as [|[k0 x0] resource IH]; intros m k v Hv; [by left|].
  cbn [foldl fst snd] in Hv. apply IH in Hv as [Hv|(x & -> & Hx)]; [|right; exists x; split; [done|by right]].
  apply lookup_insert_Some in Hv as [[<- <-]|[_ Hv]]; [|by left]. right. exists x0. split; [done|by left].
Qed.
Lemma GetInfraStack_resource n ctx id stack (s s' : St W) :
  GetInfraStack n ctx id s = (Ret (stack, None), s') → ∀ k,
  ∃ resource,
    (env_step (Sdk (ListStackResources (ad_Region n) (cis_ResourceId (cid_Spec id)))) (world s)).1 = (resource, None) ∧
    ∀ v, stack !! k = Some v → ∃ x, v = MkValue k (AStr x) ∧ (k, x) ∈ resource.
Proof.
  unfold GetInfraStack, sdk_call. intros HB k. case_decide; [done|]. step_perform_in HB.
  destruct (env_step _ (world s)).1 as [resource [e|]]; [done|]. injection HB as <- _. exists resource.
  split; [done|]. intros v Hv%stack_of_resources. destruct Hv as [Hv|Hv]; [by rewrite lookup_empty in Hv|done].
Qed.

Ltac emits_recover :=
  solve_emits; try done;
  first [ apply emits_ScaleMasterGroup; done
        | apply emits_WaitDesiredCnt; done
        | apply emits_UserData; done
        | by eapply emits_weaken; [|apply emits_ReplaceSystemDisk] ].

(** C23: recovery replaces the system disk of one machine only, the one the
    master group of the cluster's own stack consists of: the stack's resources
    were listed, the group scaled to one (or found to have that size), and then
    that group, by the id the stack has for it, was asked for its machines, and
    the machines it named were exactly this one. *)
Theorem Recover_one_master n ctx id (s : St W) eid img :
  calls (Recover n ctx id) s (Sdk (SdkReplaceSystemDisk eid img)) →
  ∃ resource stack g err i s1 s2 s3 l w mins ei,
    (env_step (Sdk (ListStackResources (ad_Region n) (cis_ResourceId (cid_Spec id)))) (world s)).1 = (resource, None) ∧
    GetInfraStack n ctx id s = (Ret (stack, None), s1) ∧
    stack !! "k8s_master_sg" = Some (MkValue "k8s_master_sg" (AStr g)) ∧ ("k8s_master_sg", g) ∈ resource ∧
    ScaleMasterGroup n (WithStack stack ctx) "" 1 s1 = (Ret err, s2) ∧
    (∀ e, err = Some e → Contains (Error e) "IncorrectCapacity.NoChange" = true) ∧
    WaitDesiredCnt n (WithStack stack ctx) "" 1 s2 = (Ret ([i], None), s3) ∧ i_Id i = eid ∧
    let ask := Sdk (DescribeScalingInstances (ad_Region n) g) in
    let describe := Sdk (DescribeInstances (ad_Region n) mins) in
    log s3 = log s2 ++ l ++ [ask; describe] ∧
    Forall (λ c, c = ask ∨ ∃ ids, c = Sdk (DescribeInstances (ad_Region n) ids)) l ∧
    (env_step ask w).1 = (mins, None) ∧ mins ≠ [] ∧
    (env_step describe (env_step ask w).2).1 = ([ei], None) ∧ eid = ei_InstanceId ei.
Proof.
  unfold Recover. intros Hc.
  apply (calls_bind_inv notReplace) in Hc as ([stack [e|]] & s1 & E1 & Hc);
    [by apply calls_ret in Hc| |unfold GetInfraStack, sdk_call; solve_emits; done|by intros []|intros; emits_recover].
  apply (calls_bind_inv notReplace) in Hc as (err & s2 & E2 & Hc);
    [|apply emits_ScaleMasterGroup; intros c; by case_sdk c|by intros []|intros; emits_recover].
  match type of Hc with calls (if ?b then _ else _) _ _ => destruct b eqn:Ef end; [by apply calls_ret in Hc|].
  apply (calls_bind_inv notReplace) in Hc as ([l0 [e|]] & s3 & E3 & Hc);
    [by apply calls_ret in Hc| |apply emits_WaitDesiredCnt; intros c; by case_sdk c|by intros []|intros; emits_recover].
  destruct l0 as [|i [|]]; [by apply calls_ret in Hc| |by apply calls_ret in Hc].
  destruct (WaitDesiredCnt_one _ _ _ _ _ E3) as (g & w & mins & ei & l & Hg & [= Hid] & Ha & Hne & Hb & Hl & Hp).
  destruct (GetInfraStack_resource _ _ _ _ _ _ E1 "k8s_master_sg") as (resource & Hres & Hin).
  destruct (stack !! "k8s_master_sg") as [v|] eqn:Ev; [|change (getStack (WithStack stack ctx)) with stack in Hg; by rewrite Ev in Hg].
  change (getStack (WithStack stack ctx)) with stack in Hg. rewrite Ev in Hg. cbn in Hg.
  destruct (Hin v eq_refl) as (g' & -> & Hg'). cbn in Hg. injection Hg as ->.
  assert (eid = i_Id i) as ->; [|exists resource, stack, g, err, i, s1, s2, s3, l, w, mins, ei; split_and!; try done;
                                 intros e ->; by destruct (Contains _ _)].
  apply (calls_bind_inv notReplace) in Hc as ((ctx' & data & [e|]) & s4 & _ & Hc);
    [by apply calls_ret in Hc| |apply emits_UserData; by intros []|by intros []|intros; emits_recover].
  eapply (calls_emits (λ c, match c with Sdk (SdkReplaceSystemDisk id _) => id = i_Id i | _ => True end)) in Hc;
    [exact Hc|]. apply emits_bind; [apply emits_ReplaceSystemDisk|]. intros; solve_emits; done.
Qed.
End properties.

(** ** A concrete account, for evaluation *)
Module SimGroups.
#[export] Instance json_tags : Json (gmap string string) :=
  {| Marshal _ := "{tags}"; Unmarshal _ m := (m, None) |}.
#[export] Instance yaml_spec : Yaml ClusterSpec := {| YamlMarshal _ := ""; YamlUnmarshal _ x := (x, None) |}.
#[export] Instance yaml_context : Yaml ContextCFG := {| YamlMarshal _ := ""; YamlUnmarshal _ x := (x, None) |}.
Definition vpcCtx : Context_ :=
  WithStack {[ "k8s_vpc" := MkValue "k8s_vpc" (AStr "vpc-1"); "k8s_master_sg" := MkValue "k8s_master_sg" (AStr "asg-1") ]}
    NewEmptyContext.
Definition gpu : NodePool :=
  MkNodePool noType (metaNamed "gpu")
    (MkNodePoolSpec "gpu" true (MkInfra 2 "img" 4 8 ∅ (Some (MkBindID [] "asg-7" "asc-7")))).
Definition named : ClusterId := set_ResourceId "stack-1" zeroClusterId.

(** An account with one master, whose group is busy being deleted. *)
Definition one_master (c : call) (t : Z) : option (reply c) :=
  match c with
  | Sdk (DeleteScalingGroup _ _ _) => Some (Errorf "Throttling")
  | Sdk (DescribeScalingInstances _ _) => Some (["i-1"], None)
  | Sdk (ListStackResources _ _) =>
      Some ([("k8s_master_sg", "asg-1"); ("k8s_master_srule", "asr-1")], None)
  | c' => SimAli.account c' t
  end.
#[export] Instance one_master_env : Env Z := SimEnv.scripted one_master.
End SimGroups.

(** ** Witnesses *)
Import Sim SimEnv SimWait SimAli SimGroups.

Lemma CreateNodeGroup_creates_missing_witness :
  (env_step (Sdk (DescribeScalingGroups "" [] (ScalingGroupName gpu "vpc-1"))) 0%Z).1 = ([], None).
Proof.
  destruct (CreateNodeGroup_creates_missing (W:=Z) dev vpcCtx gpu zeroClusterSpec "vpc-1" (start_at 0)) as [Hc _];
    [reflexivity|reflexivity|].
  destruct (Hc "" (ScalingGroupName gpu "vpc-1") [""] 0%Z 1000%Z 2%Z) as [Hg _].
  { eexists. split; [vm_compute; reflexivity|].
    repeat (apply elem_of_cons; first [left; vm_compute; reflexivity | right]). }
  exact Hg.
Defined.

Lemma DeleteNodeGroup_swallows_witness :
  ∃ err s', DeleteNodeGroup dev vpcCtx gpu (start_at 0) = (Ret err, s') ∧ err = None.
Proof.
  destruct (DeleteNodeGroup_swallows (W:=Z) dev vpcCtx gpu (MkBindID [] "asg-7" "asc-7") (GoErr "Throttling" false)
    (start_at 0)) as (err & s' & Hr & Hn); [reflexivity|discriminate|vm_compute; reflexivity|].
  exists err, s'. split; [exact Hr|]. apply Hn. vm_compute. reflexivity.
Defined.

Lemma WaitDesiredCnt_overshoot_witness :
  ¬ ∃ out s', WaitDesiredCnt dev vpcCtx "asg-1" 0 (start_at 0) = (Ret (out, None), s').
Proof.
  intros (out & s' & Hw). revert Hw. apply (WaitDesiredCnt_overshoot (W:=Z) dev vpcCtx "asg-1" 0 "i-1" [] [machine] (start_at 0));
    [discriminate|vm_compute; reflexivity|vm_compute; reflexivity|vm_compute; reflexivity].
Defined.

Lemma Recover_one_master_witness :
  calls (Recover dev NewEmptyContext named) (start_at 0) (Sdk (SdkReplaceSystemDisk "i-1" "centos")) ∧
  ∃ g (s2 : St Z) l mins, "asg-1" = g ∧
    log s2 = l ++ [Sdk (DescribeScalingInstances "cn-hangzhou" g); Sdk (DescribeInstances "cn-hangzhou" mins)].
Proof.
  match goal with |- ?A ∧ _ => assert A as Hc end.
  { eexists. split; [vm_compute; reflexivity|].
    repeat (apply elem_of_cons; first [left; reflexivity | right]). }
  split; [exact Hc|].
  destruct (Recover_one_master (W:=Z) dev NewEmptyContext named (start_at 0) "i-1" "centos" Hc)
    as (res & stack & g & err & i & s1 & s2 & s3 & l & w & mins & ei & Hr & _ & _ & Hin & _ & _ & _ & _ & Hl & _).
  exists g, s3, (log s2 ++ l), mins. split.
  - vm_compute in Hr. injection Hr as <-. apply elem_of_cons in Hin as [Hin|Hin]; [by injection Hin|].
    apply elem_of_cons in Hin as [Hin|Hin]; [by injection Hin|]. by apply elem_of_nil in Hin.
  - rewrite Hl. by rewrite app_assoc.
Defined.
