(* ===== verification/AliEvents.v ===== *)
(** * The Alibaba provider: stack events (pkg/iaas/provider/alibaba/event.go)

    The resources shown while a stack is created, folded from the events of the
    stack, and when each shows its newest event. *)
From stdpp Require Import base list strings.
From Stdlib Require Import Lia.
From S2P Require Import Prelude GoStrings GoTime Sdk.
Local Open Scope Z_scope.

(** pkg/utils/log: [type Resource struct {...}] *)
Record Resource : Type := MkResource {
  re_StartedTime : string;
  re_UpdatedTime : string;
  re_EventId : string;
  re_ResourceType : string;
  re_ResourceId : string;
  re_ResourceName : string;
  re_StatusReason : string;
  re_ResourceStatus : string }.

(** The layout [2006-01-02T15:04:05], read in UTC and written in local time. *)
Definition readUTC (s : string) : option Z := parse_at 0 "T" "" s.

Section resources.
Context `{LocalZone}.

Definition showLocal (t : Z) : string := format_at zone_offset "T" "" t.

(** The assignments to [resources[i]] on a matching event. *)
Definition startedAt (t : Z) (r : Resource) : Resource :=
  MkResource (showLocal t) (re_UpdatedTime r) (re_EventId r) (re_ResourceType r) (re_ResourceId r)
    (re_ResourceName r) (re_StatusReason r) (re_ResourceStatus r).
Definition updatedBy (t : Z) (ev : RosEvent) (r : Resource) : Resource :=
  MkResource (re_StartedTime r) (showLocal t) (ev_EventId ev) (re_ResourceType r) (re_ResourceId r)
    (re_ResourceName r) (ev_StatusReason ev) (ev_Status ev).

(** The loop over the resources for one event: the resources after it, and
    whether one matched.  A newer event ends the loop. *)
Fixpoint mergeEvent (ev : RosEvent) (resources : list Resource) : list Resource * bool :=
  match resources with
  | [] => ([], false)
  | r :: rest =>
      if decide (re_ResourceId r = ev_LogicalResourceId ev) then
        match readUTC (ev_CreateTime ev), readUTC (re_UpdatedTime r) with
        | Some evtOut, Some evtIn =>
            let r := if TimeBefore evtOut evtIn then startedAt evtOut r else r in
            if TimeAfter evtOut evtIn then (updatedBy evtOut ev r :: rest, true)
            else (r :: (mergeEvent ev rest).1, true)
        | _, _ => (r :: (mergeEvent ev rest).1, true)
        end
      else let '(rest, found) := mergeEvent ev rest in (r :: rest, found)
  end.

(** One round of the outer loop. *)
Definition addEvent (resources : list Resource) (ev : RosEvent) : list Resource :=
  let '(resources, found) := mergeEvent ev resources in
  if found then resources
  else
    match readUTC (ev_CreateTime ev) with
    | None => resources
    | Some when =>
        resources ++ [MkResource (showLocal when) (showLocal when) (ev_EventId ev) (ev_ResourceType ev)
                        (ev_LogicalResourceId ev) (ev_StackName ev) (ev_StatusReason ev) (ev_Status ev)]
    end.
Definition ToResources (events : list RosEvent) : list Resource := foldl addEvent [] events.

(** ** Facts *)
Lemma mergeEvent_absent ev l :
  ev_LogicalResourceId ev ∉ map re_ResourceId l → mergeEvent ev l = (l, false).
Proof.
  induction l as [|r l IH]; [done|]. cbn. rewrite not_elem_of_cons. intros [Hr Hl].
  rewrite decide_False by done. by rewrite IH.
Qed.

(** What a matching event does to the resource. *)
Definition mergeInto (ev : RosEvent) (r : Resource) : Resource :=
  match readUTC (ev_CreateTime ev), readUTC (re_UpdatedTime r) with
  | Some evtOut, Some evtIn =>
      if TimeAfter evtOut evtIn then updatedBy evtOut ev r
      else if TimeBefore evtOut evtIn then startedAt evtOut r else r
  | _, _ => r
  end.

Lemma mergeInto_id ev r : re_ResourceId (mergeInto ev r) = re_ResourceId r.
Proof. unfold mergeInto. by repeat case_match. Qed.

Lemma mergeEvent_at ev l1 r l2 :
  re_ResourceId r = ev_LogicalResourceId ev →
  ev_LogicalResourceId ev ∉ map re_ResourceId l1 → ev_LogicalResourceId ev ∉ map re_ResourceId l2 →
  mergeEvent ev (l1 ++ r :: l2) = (l1 ++ mergeInto ev r :: l2, true).
Proof.
  intros Hr H1 H2. induction l1 as [|x l1 IH]; cbn.
  - rewrite decide_True by done. rewrite (mergeEvent_absent ev l2) by done. unfold mergeInto.
    destruct (readUTC _) as [o|]; [|done]. destruct (readUTC _) as [i|]; [|done].
    unfold TimeAfter, TimeBefore. destruct (Z.ltb_spec i o); destruct (Z.ltb_spec o i); done || lia.
  - cbn in H1. rewrite not_elem_of_cons in H1. rewrite decide_False by naive_solver.
    by rewrite IH by naive_solver.
Qed.

(** The instant of an event is readable: whole seconds of a four-digit year. *)
Definition plainTime (t : Z) : Prop := t `mod` Second = 0 ∧ 0 ≤ local_year 0 t ≤ 9999.

Lemma readUTC_showLocal t : zone_offset = 0 → plainTime t → readUTC (showLocal t) = Some t.
Proof.
  intros Hz [Hs Hy]. unfold readUTC, showLocal. rewrite Hz, parse_format by done.
  f_equal. pose proof (Z.div_mod t Second). unfold Second in *. lia.
Qed.

(** The resource shows the newest of the events with its id. *)
Definition showsNewest (evs : list RosEvent) (r : Resource) : Prop :=
  ∃ ev t, ev ∈ evs ∧ ev_LogicalResourceId ev = re_ResourceId r ∧
    readUTC (ev_CreateTime ev) = Some t ∧ re_UpdatedTime r = showLocal t ∧
    re_ResourceStatus r = ev_Status ev ∧ re_EventId r = ev_EventId ev ∧
    ∀ ev' t', ev' ∈ evs → ev_LogicalResourceId ev' = re_ResourceId r →
              readUTC (ev_CreateTime ev') = Some t' → t' ≤ t.

(** An event of another resource, or one without a time, changes nothing. *)
Lemma showsNewest_other evs ev r :
  ev_LogicalResourceId ev ≠ re_ResourceId r ∨ readUTC (ev_CreateTime ev) = None →
  showsNewest evs r → showsNewest (evs ++ [ev]) r.
Proof.
  intros Ho (e & t & He & Hid & Ht & Hu & Hs & Hi & Hn). exists e, t. split_and!; try done.
  - apply elem_of_app. by left.
  - intros ev' t' [Hev|Hev%list_elem_of_singleton]%elem_of_app Hid' Ht'; [by eapply Hn|].
    subst. destruct Ho; congruence.
Qed.

Lemma showsNewest_merge evs ev r :
  zone_offset = 0 → (∀ e t, e ∈ evs → readUTC (ev_CreateTime e) = Some t → plainTime t) →
  ev_LogicalResourceId ev = re_ResourceId r →
  showsNewest evs r → showsNewest (evs ++ [ev]) (mergeInto ev r).
Proof.
  intros Hz Hp Hid Hr. pose proof Hr as (e & t & He & Heid & Ht & Hu & Hs & Hi & Hn).
  unfold mergeInto. destruct (readUTC (ev_CreateTime ev)) as [o|] eqn:Eo; [|apply showsNewest_other; auto].
  rewrite Hu, readUTC_showLocal by eauto.
  unfold TimeAfter, TimeBefore. destruct (Z.ltb_spec t o) as [Hlt|Hge].
  - exists ev, o. split_and!; try done; [apply elem_of_app; right; by apply list_elem_of_singleton|].
    cbn. intros ev' t' [Hev|Hev%list_elem_of_singleton]%elem_of_app Hid' Ht'.
    + specialize (Hn _ _ Hev Hid' Ht'). lia.
    + subst. rewrite Eo in Ht'. injection Ht'. lia.
  - exists e, t. destruct (o <? t); cbn; split_and!; try done; try (apply elem_of_app; by left).
    all: intros ev' t' [Hev|Hev%list_elem_of_singleton]%elem_of_app Hid' Ht'; [by eapply Hn|].
    all: subst; rewrite Eo in Ht'; injection Ht'; lia.
Qed.

Lemma ids_split (l : list Resource) i :
  NoDup (map re_ResourceId l) → i ∈ map re_ResourceId l →
  ∃ l1 r l2, l = l1 ++ r :: l2 ∧ re_ResourceId r = i ∧
             i ∉ map re_ResourceId l1 ∧ i ∉ map re_ResourceId l2.
Proof.
  intros Hnd (r & -> & Hr)%list_elem_of_fmap. apply list_elem_of_split in Hr as (l1 & l2 & ->).
  exists l1, r, l2. rewrite map_app in Hnd. apply NoDup_app in Hnd as (_ & Hd & [Hr _]%NoDup_cons).
  split_and!; try done. intros Hin. apply (Hd _ Hin). by left.
Qed.

(** One entry per resource, every entry newest, every readable event entered. *)
Definition entered (evs : list RosEvent) (l : list Resource) : Prop :=
  NoDup (map re_ResourceId l) ∧ Forall (showsNewest evs) l ∧
  ∀ ev, ev ∈ evs → readUTC (ev_CreateTime ev) ≠ None → ev_LogicalResourceId ev ∈ map re_ResourceId l.

Lemma others_show evs ev l :
  ev_LogicalResourceId ev ∉ map re_ResourceId l → Forall (showsNewest evs) l →
  Forall (showsNewest (evs ++ [ev])) l.
Proof.
  rewrite !Forall_forall. intros Hn Hl r Hr. apply showsNewest_other; [|auto]. left. intros E.
  apply Hn. rewrite E. by apply list_elem_of_fmap_2.
Qed.

Lemma entered_new evs ev l :
  ev_LogicalResourceId ev ∉ map re_ResourceId l → entered evs l →
  entered (evs ++ [ev]) (addEvent l ev).
Proof.
  intros Hni (Hnd & Hall & Hin). unfold addEvent. rewrite mergeEvent_absent by done.
  pose proof (others_show _ _ _ Hni Hall) as Hall'.
  destruct (readUTC (ev_CreateTime ev)) as [o|] eqn:Eo.
  - split_and!.
    + rewrite map_app. apply NoDup_app. split_and!; [done| |by apply NoDup_singleton].
      intros x Hx ->%list_elem_of_singleton. done.
    + apply Forall_app. split; [done|]. apply Forall_singleton. exists ev, o. cbn. split_and!; try done.
      { apply elem_of_app. right. by apply list_elem_of_singleton. }
      intros ev' t' [Hev| ->%list_elem_of_singleton]%elem_of_app Hid Ht; [|rewrite Eo in Ht; injection Ht; lia].
      destruct Hni. rewrite <- Hid. apply Hin; [done|by rewrite Ht].
    + intros ev' [Hev| ->%list_elem_of_singleton]%elem_of_app Ht; rewrite map_app; apply elem_of_app;
        [left; auto|right; by apply list_elem_of_singleton].
  - split_and!; [done..|]. intros ev' [Hev| ->%list_elem_of_singleton]%elem_of_app Ht; [auto|done].
Qed.

Lemma entered_merged evs ev l :
  zone_offset = 0 → (∀ e t, e ∈ evs → readUTC (ev_CreateTime e) = Some t → plainTime t) →
  ev_LogicalResourceId ev ∈ map re_ResourceId l → entered evs l →
  entered (evs ++ [ev]) (addEvent l ev).
Proof.
  intros Hz Hp Hi (Hnd & Hall & Hin). destruct (ids_split l _ Hnd Hi) as (l1 & r & l2 & -> & Hr & H1 & H2).
  unfold addEvent. rewrite mergeEvent_at by done.
  assert (map re_ResourceId (l1 ++ mergeInto ev r :: l2) = map re_ResourceId (l1 ++ r :: l2)) as Hids.
  { rewrite !map_app. cbn. by rewrite mergeInto_id. }
  apply Forall_app in Hall as [Hl1 [Hrn Hl2]%Forall_cons].
  unfold entered. rewrite Hids. split_and!; [done| |].
  - apply Forall_app. split; [by apply others_show|]. apply Forall_cons. split; [|by apply others_show].
    by apply showsNewest_merge.
  - intros ev' [Hev| ->%list_elem_of_singleton]%elem_of_app Ht; [auto|done].
Qed.

(** ** Properties *)

(** Where local time is UTC, the resources shown are the resources of the
    events with a readable time, once each, and each shows the time, status and
    id of its newest event. *)
Theorem ToResources_newest events :
  zone_offset = 0 → (∀ e t, e ∈ events → readUTC (ev_CreateTime e) = Some t → plainTime t) →
  entered events (ToResources events).
Proof.
  intros Hz. unfold ToResources. induction events as [|ev evs IH] using rev_ind; intros Hp.
  - split_and!; [constructor|constructor|]. intros ev Hev. by apply elem_of_nil in Hev.
  - rewrite foldl_app. cbn.
    assert (∀ e t, e ∈ evs → readUTC (ev_CreateTime e) = Some t → plainTime t) as Hp'
      by (intros e t He; apply Hp; apply elem_of_app; by left).
    specialize (IH Hp'). destruct (decide (ev_LogicalResourceId ev ∈ map re_ResourceId (foldl addEvent [] evs))).
    + by apply entered_merged.
    + by apply entered_new.
Qed.
End resources.

(** ** Witness *)
Module SimEvents.
Definition event (at_ id status : string) : RosEvent :=
  MkRosEvent at_ ("ev-" +:+ at_) id "ALIYUN::ECS::VPC" "k8s" status "".
Definition stackEvents : list RosEvent :=
  [event "2022-01-01T10:00:00" "k8s_vpc" "CREATE_IN_PROGRESS";
   event "2022-01-01T10:00:09" "k8s_vpc" "CREATE_COMPLETE";
   event "2022-01-01T10:00:05" "k8s_sg" "CREATE_IN_PROGRESS"].
End SimEvents.
Import SimEvents.

Lemma ToResources_newest_witness :
  let z : LocalZone := 0 in
  (map re_ResourceStatus (ToResources stackEvents) = ["CREATE_COMPLETE"; "CREATE_IN_PROGRESS"]) ∧
  entered stackEvents (ToResources stackEvents).
Proof.
  intros z. split; [vm_compute; reflexivity|]. apply ToResources_newest; [reflexivity|].
  intros e t He. unfold stackEvents in He. rewrite !elem_of_cons in He.
  destruct He as [->|[->|[->|He]]]; [| | |by apply elem_of_nil in He];
    (let Hc := fresh in intros Hc; vm_compute in Hc; injection Hc as <-; split; vm_compute; [reflexivity|split; discriminate]).
Defined.

(** East of UTC a resource does not show a newer event: the time it shows is
    read back as if it were UTC. *)
Example east_of_UTC_stays :
  map re_ResourceStatus (@ToResources 28800 stackEvents) = ["CREATE_IN_PROGRESS"; "CREATE_IN_PROGRESS"].
Proof. vm_compute. reflexivity. Qed.
