(* ===== verification/Monit.v ===== *)
(** * The monitor (pkg/operator/monit, cmd/wdrip/monitor)

    A process outside the cluster that runs health checks and, when all of them
    have failed often enough in a row, recovers the cluster.  The rounds are run
    forever by the library; here a number of them is run, each giving what it
    logs. *)
From stdpp Require Import base list gmap strings.
From Stdlib Require Import Lia.
From S2P Require Import Prelude GoStrings GoTime Api Effects Provider Help Sign Etcd Index.
Local Open Scope Z_scope.

Section monitor.
Context {W : Type} `{Env W} `{LocalZone} `{MapRange}.

(** [Check]: [Limit().TryAccept()] is the rate limiter of client-go. *)
Record Check : Type := MkCheck {
  ck_Name : string;
  ck_TryAccept : IO W bool;
  ck_Check : IO W (bool * error);
  ck_Threshold : Z }.

Record ThreshedCheck : Type := MkThreshedCheck {
  tc_check : Check;
  tc_threshed : Z;
  tc_lastFailed : string;
  tc_lastGood : string;
  tc_lastReset : string }.
Definition NewThreshedCheck (check : Check) : ThreshedCheck := MkThreshedCheck check 0 "" "" "".

Definition ThreshMeet (t : ThreshedCheck) : bool := ck_Threshold (tc_check t) <? tc_threshed t.

Record Monitor : Type := MkMonitor {
  mo_checks : gmap string ThreshedCheck;
  mo_actions : list (IO W error);
  mo_lastRun : Z }.

Definition NewMonitor : IO W Monitor :=
  now ← perform Now;
  mret (MkMonitor ∅ [] now).

Definition WithCheck (check : list Check) (m : Monitor) : Monitor :=
  MkMonitor (foldl (λ c v, <[ck_Name v := NewThreshedCheck v]> c) (mo_checks m) check)
    (mo_actions m) (mo_lastRun m).
Definition WithAction (action : list (IO W error)) (m : Monitor) : Monitor :=
  MkMonitor (mo_checks m) (mo_actions m ++ action) (mo_lastRun m).

(** What a round logs of a check. *)
Inductive verdict : Type :=
| Throttled            (* not accept for throttle *)
| CheckFail (e : goerr)  (* check[%s] check fail *)
| AbnormalCase         (* the check says no: the counter goes up *)
| CaseNormal.          (* the check says yes: the counter is reset *)

(** The loop body of [CheckRound]. *)
Definition checkOne (v : ThreshedCheck) : IO W (ThreshedCheck * verdict) :=
  accept ← ck_TryAccept (tc_check v);
  if negb accept then mret (v, Throttled)
  else
    '(ok, err) ← ck_Check (tc_check v);
    match err with
    | Some e => mret (v, CheckFail e)
    | None =>
        if negb ok then
          now ← NowStamp;
          mret (MkThreshedCheck (tc_check v) (tc_threshed v + 1) now (tc_lastGood v) (tc_lastReset v), AbnormalCase)
        else
          good ← NowStamp;
          reset ← NowStamp;
          mret (MkThreshedCheck (tc_check v) 0 (tc_lastFailed v) good reset, CaseNormal)
    end.

Fixpoint checkAll (l : list (string * ThreshedCheck)) (checks : gmap string ThreshedCheck)
    (logged : gmap string verdict) : IO W (gmap string ThreshedCheck * gmap string verdict) :=
  match l with
  | [] => mret (checks, logged)
  | (k, v) :: rest =>
      '(v, d) ← checkOne v;
      checkAll rest (<[k := v]> checks) (<[k := d]> logged)
  end.
Definition CheckRound (m : Monitor) : IO W (Monitor * gmap string verdict) :=
  '(checks, logged) ← checkAll (range_order 0 (mo_checks m)) (mo_checks m) ∅;
  mret (MkMonitor checks (mo_actions m) (mo_lastRun m), logged).

(** [meetAll] *)
Definition meetAll (m : Monitor) : bool := forallb ThreshMeet (range_vals 1 (mo_checks m)).

(** The actions in order; their errors are only logged. *)
Fixpoint runActions (actions : list (IO W error)) : IO W unit :=
  match actions with
  | [] => mret tt
  | action :: rest => _ ← action; runActions rest
  end.

(** What a round logs: when the actions ran, the time read before them and the
    [lastRun] they leave; and the verdicts. *)
Record roundLog : Type := MkRoundLog {
  rl_acted : option (Z * Z);
  rl_verdicts : gmap string verdict }.

(** The closure [check]: one round. *)
Definition monitRound (m : Monitor) : IO W (Monitor * roundLog) :=
  '(m, acted) ←
    (if meetAll m then
       _ ← perform Now;
       now ← perform Now;
       if negb (TimeAfter now (mo_lastRun m + 5 * Minute)) then mret (m, None)
       else
         _ ← runActions (mo_actions m);
         lastRun ← perform Now;
         mret (MkMonitor (mo_checks m) (mo_actions m) lastRun, Some (now, lastRun))
     else mret (m, None));
  '(m, verdicts) ← CheckRound m;
  mret (m, MkRoundLog acted verdicts).

(** [StartMonit]: [n] of the rounds of [wait.Forever], ten seconds apart. *)
Fixpoint StartMonit (n : nat) (m : Monitor) : IO W (Monitor * list roundLog) :=
  match n with
  | O => mret (m, [])
  | S n =>
      '(m, l) ← monitRound m;
      _ ← perform (Sleep (10 * Second));
      '(m, ls) ← StartMonit n m;
      mret (m, l :: ls)
  end.
End monitor.
Arguments Check W : clear implicits.
Arguments ThreshedCheck W : clear implicits.
Arguments Monitor W : clear implicits.

(** ** check/etcd.go *)
Record CheckEtcd : Type := MkCheckEtcd {
  ce_master : list Master;
  ce_Cluster : option Cluster }.

Section check_etcd.
Context {W : Type} `{Env W} `{PkgErrors} `{GoFmt} `{MapRange} `{WaitLib W}.
Context `{Json Members} `{Json (list EndpointStatus)} `{CryptoLib}.

Definition NewCheckEtcd : IO W (option CheckEtcd * error) :=
  '(spec, err) ← h_Cluster "kubernetes-cluster";
  match err with
  | Some e => mret (None, Some e)
  | None => mret (Some (MkCheckEtcd [] (Some spec)), None)
  end.

(** One healthy member is enough. *)
Fixpoint anyHealthy (metcd : Etcd) (mems : list Member) : IO W bool :=
  match mems with
  | [] => mret false
  | mem :: rest =>
      err ← EndpointHealth metcd (mem_IP mem);
      match err with
      | None => mret true
      | Some _ => anyHealthy metcd rest
      end
  end.

(** The part of [Check] after the specification has been refreshed. *)
Definition checkMembers (m : CheckEtcd) (err : error) : IO W (bool * error) :=
  match ce_Cluster m with
  | None => mret (true, Wrapf err "empty cluster spec")
  | Some _ =>
      '(metcd, err) ← NewEtcdFromCRD (ce_master m) (ce_Cluster m) "/tmp";
      match err, metcd with
      | Some e, _ => mret (true, Wrapf (Some e) "new etcd")
      | None, None => panic "nil pointer dereference"
      | None, Some metcd =>
          '(mems, err) ← MemberList metcd;
          match err with
          | Some _ => mret (false, None)
          | None => healthy ← anyHealthy metcd (mb_Members mems); mret (healthy, None)
          end
      end
  end.

(** [Check()]: also the specification and the masters it keeps for a round in
    which the API server does not answer. *)
Definition etcd_Check (m : CheckEtcd) : IO W (CheckEtcd * (bool * error)) :=
  '(spec, err) ← h_Cluster "kubernetes-cluster";
  match err with
  | Some e => r ← checkMembers m (Some e); mret (m, r)
  | None =>
      '(master, merr) ← MasterCRDS;
      let masters := match merr, master with
                     | None, _ :: _ => master
                     | _, _ => ce_master m
                     end in
      let m := MkCheckEtcd masters (Some spec) in
      match masters with
      | [] => mret (m, (true, Wrapf merr "no master crd found"))
      | _ => r ← checkMembers m None; mret (m, r)
      end
  end.

(** The action of cmd/wdrip/monitor: the cluster saved in the index is
    recovered by the provider. *)
Definition recoverAction `{Json ClusterId} (ctx : Context_) (cid : string) : IO W error :=
  '(id, err) ← GetCluster cid cid;
  match err with
  | Some e => mret (Wrapf (Some e) ("can not get clusterid from backup: " +:+ cid))
  | None => '(_, err) ← perform (PRecover ctx id); mret err
  end.
End check_etcd.

(** ** Facts *)
Section facts.
Context {W : Type} `{Env W} `{LocalZone} `{MapRange, !MapRangeSpec}.

(** The counter after a verdict, and after the rounds logged. *)
Definition counted (c : Z) (d : verdict) : Z :=
  match d with AbnormalCase => c + 1 | CaseNormal => 0 | _ => c end.
Definition streak (k : string) (c : Z) (logs : list roundLog) : Z :=
  foldl (λ c l, match rl_verdicts l !! k with Some d => counted c d | None => c end) c logs.

Lemma checkOne_counts (v v' : ThreshedCheck W) d s s' :
  checkOne v s = (Ret (v', d), s') → tc_check v' = tc_check v ∧ tc_threshed v' = counted (tc_threshed v) d.
Proof.
  unfold checkOne. intros HB. apply bind_Ret_inv in HB as (accept & s1 & _ & HB).
  destruct accept; cbn [negb] in HB; [|by injection HB as <- <- _].
  apply bind_Ret_inv in HB as ([ok [e|]] & s2 & _ & HB); [by injection HB as <- <- _|].
  destruct ok; cbn [negb] in HB.
  - apply bind_Ret_inv in HB as (t1 & s3 & _ & HB). apply bind_Ret_inv in HB as (t2 & s4 & _ & HB).
    by injection HB as <- <- _.
  - apply bind_Ret_inv in HB as (t1 & s3 & _ & HB). by injection HB as <- <- _.
Qed.

(** What a round does to the entry of a check. *)
Definition entryCounts (c : option (ThreshedCheck W)) (c' : option (ThreshedCheck W)) (d : option verdict) : Prop :=
  match c with
  | None => c' = None
  | Some v => ∃ v' d', c' = Some v' ∧ d = Some d' ∧
                       tc_check v' = tc_check v ∧ tc_threshed v' = counted (tc_threshed v) d'
  end.

Lemma checkAll_counts l (checks checks' : gmap string (ThreshedCheck W)) logged logged' s s' :
  NoDup l.*1 → checkAll l checks logged s = (Ret (checks', logged'), s') →
  (∀ k, k ∉ l.*1 → checks' !! k = checks !! k ∧ logged' !! k = logged !! k) ∧
  (∀ k v, (k, v) ∈ l → entryCounts (Some v) (checks' !! k) (logged' !! k)).
Proof.
  revert checks logged s. induction l as [|[k v] l IH]; intros checks logged s Hnd HB.
  { injection HB as <- <- _. split; [done|]. intros k v Hkv. by apply elem_of_nil in Hkv. }
  cbn [fmap list_fmap fst] in Hnd. apply NoDup_cons in Hnd as [Hk Hnd].
  cbn [checkAll] in HB. apply bind_Ret_inv in HB as ([v' d] & s1 & E1 & HB).
  apply checkOne_counts in E1 as [Hc Ht]. destruct (IH _ _ _ Hnd HB) as [Hout Hin]. split.
  - intros k' Hk'. cbn in Hk'. apply not_elem_of_cons in Hk' as [Hne Hk'].
    destruct (Hout k' Hk') as [-> ->]. by rewrite !lookup_insert_ne by done.
  - intros k' w [[= -> ->]|Hw]%elem_of_cons; [|by apply Hin].
    destruct (Hout k Hk) as [-> ->]. rewrite !lookup_insert_eq. by exists v', d.
Qed.

Lemma CheckRound_counts (m m' : Monitor W) vs s s' :
  CheckRound m s = (Ret (m', vs), s') →
  mo_actions m' = mo_actions m ∧ mo_lastRun m' = mo_lastRun m ∧
  ∀ k, entryCounts (mo_checks m !! k) (mo_checks m' !! k) (vs !! k).
Proof.
  unfold CheckRound. intros HB. apply bind_Ret_inv in HB as ([checks logged] & s1 & E1 & HB).
  injection HB as <- <- _. split_and!; [done..|]. intros k. cbn.
  pose proof (range_order_perm 0 _ (mo_checks m)) as Hp.
  apply checkAll_counts in E1 as [Hout Hin]; [|rewrite Hp; apply NoDup_fst_map_to_list].
  destruct (mo_checks m !! k) as [v|] eqn:Ek.
  - apply Hin. rewrite Hp. by apply elem_of_map_to_list.
  - cbn. destruct (Hout k) as [-> _]; [|done]. rewrite Hp. intros ([k' v] & -> & Hk)%list_elem_of_fmap.
    apply elem_of_map_to_list in Hk. cbn in Ek. congruence.
Qed.

Lemma meetAll_spec (m : Monitor W) :
  meetAll m = true ↔ ∀ k v, mo_checks m !! k = Some v → ck_Threshold (tc_check v) < tc_threshed v.
Proof.
  unfold meetAll, range_vals. rewrite forallb_forall. split.
  - intros Hf k v Hk. apply Z.ltb_lt, Hf. apply list_elem_of_In, list_elem_of_fmap. exists (k, v).
    split; [done|]. rewrite (range_order_perm 1 _ (mo_checks m)). by apply elem_of_map_to_list.
  - intros Hf v Hv. apply Z.ltb_lt. apply list_elem_of_In, list_elem_of_fmap in Hv as ([k v'] & -> & Hk).
    rewrite (range_order_perm 1 _ (mo_checks m)) in Hk. apply elem_of_map_to_list in Hk. by apply (Hf k).
Qed.

(** One round: the actions run only when all thresholds are met and the last run
    is more than five minutes ago; then every counter moves by its verdict. *)
Lemma monitRound_inv (m m' : Monitor W) l s s' :
  monitRound m s = (Ret (m', l), s') →
  mo_actions m' = mo_actions m ∧
  match rl_acted l with
  | None => mo_lastRun m' = mo_lastRun m
  | Some (now, last) => meetAll m = true ∧ mo_lastRun m + 5 * Minute < now ∧ mo_lastRun m' = last
  end ∧
  ∀ k, entryCounts (mo_checks m !! k) (mo_checks m' !! k) (rl_verdicts l !! k).
Proof.
  unfold monitRound. intros HB. apply bind_Ret_inv in HB as ([m1 acted] & s1 & E1 & HB).
  apply bind_Ret_inv in HB as ([m2 vs] & s2 & E2 & HB). injection HB as <- <- _. cbn.
  apply CheckRound_counts in E2 as (-> & -> & Hk).
  destruct (meetAll m) eqn:Em; [|by injection E1 as <- <- _].
  apply bind_Ret_inv in E1 as (t0 & s3 & _ & E1). apply bind_Ret_inv in E1 as (now & s4 & _ & E1).
  unfold TimeAfter in E1. destruct (_ <? now) eqn:El; cbn [negb] in E1; [|by injection E1 as <- <- _].
  apply bind_Ret_inv in E1 as (u & s5 & _ & E1). apply bind_Ret_inv in E1 as (last & s6 & _ & E1).
  injection E1 as <- <- _. cbn. split_and!; try done. lia.
Qed.

Lemma StartMonit_cons n (m m' : Monitor W) logs s s' :
  StartMonit (S n) m s = (Ret (m', logs), s') →
  ∃ m1 l ls s1 s2, logs = l :: ls ∧ monitRound m s = (Ret (m1, l), s1) ∧
                   StartMonit n m1 s2 = (Ret (m', ls), s').
Proof.
  cbn [StartMonit]. intros HB. apply bind_Ret_inv in HB as ([m1 l] & s1 & E1 & HB).
  apply bind_Ret_inv in HB as (u & s2 & _ & HB). apply bind_Ret_inv in HB as ([m2 ls] & s3 & E3 & HB).
  injection HB as <- <- <-. by exists m1, l, ls, s1, s2.
Qed.

(** Time passed since the last run, for every run logged. *)
Fixpoint spaced (last : Z) (logs : list roundLog) : Prop :=
  match logs with
  | [] => True
  | l :: ls =>
      match rl_acted l with
      | None => spaced last ls
      | Some (now, last') => last + 5 * Minute < now ∧ spaced last' ls
      end
  end.

(** *** Failing for good *)
Context `{!Clock W, !ClockSpec W}.

(** Whatever the state, [m] returns a value in [P], does not turn the clock
    back, and only adds to the calls made. *)
Definition returns {A} (m : IO W A) (P : A → Prop) : Prop :=
  ∀ s, ∃ a s', m s = (Ret a, s') ∧ P a ∧ clock (world s) <= clock (world s') ∧ log s `prefix_of` log s'.

Lemma returns_ret {A} (a : A) (P : A → Prop) : P a → returns (mret a : IO W A) P.
Proof. intros HP s. exists a, s. split_and!; [done..|lia|done]. Qed.

Lemma returns_bind {A B} (m : IO W A) (f : A → IO W B) (P : A → Prop) (Q : B → Prop) :
  returns m P → (∀ a, P a → returns (f a) Q) → returns (m ≫= f) Q.
Proof.
  intros Hm Hf s. destruct (Hm s) as (a & s1 & E1 & HP & Hle1 & Hl1).
  destruct (Hf a HP s1) as (b & s2 & E2 & HQ & Hle2 & Hl2). exists b, s2.
  rewrite (bind_Ret _ _ _ _ _ E1). split_and!; [done..|lia|by etrans].
Qed.

Lemma returns_perform c : returns (perform c : IO W _) (λ _, True).
Proof.
  intros s. rewrite perform_eq. do 2 eexists. split_and!; [done..|apply clock_mono|by eexists].
Qed.

(** The actions [l] run one after the other from [s], to [s']. *)
Inductive in_order : list (IO W error) → St W → St W → Prop :=
| no_action s : in_order [] s s
| one_action a l s s1 s2 err : a s = (Ret err, s1) → in_order l s1 s2 → in_order (a :: l) s s2.

(** Somewhere in a run from [s] to [s'] all the actions [l] ran in order. *)
Definition ran_within (l : list (IO W error)) (s s' : St W) : Prop :=
  ∃ sa sb, log s `prefix_of` log sa ∧ in_order l sa sb ∧ log sb `prefix_of` log s'.

Lemma ran_within_weaken l (s0 s s' s1 : St W) :
  log s0 `prefix_of` log s → ran_within l s s' → log s' `prefix_of` log s1 → ran_within l s0 s1.
Proof. intros Hs0 (sa & sb & Ha & Hr & Hb) Hs1. exists sa, sb. split_and!; [by etrans|done|by etrans]. Qed.

(** A check that is never throttled and always says no. *)
Definition failing (c : Check W) : Prop :=
  returns (ck_TryAccept c) (λ b, b = true) ∧ returns (ck_Check c) (λ r, r = (false, None)).

Lemma checkOne_failing v : failing (tc_check v) → returns (checkOne v) (λ r, r.2 = AbnormalCase).
Proof.
  intros [Ha Hc]. unfold checkOne. eapply returns_bind; [exact Ha|]. intros b ->. cbn [negb].
  eapply returns_bind; [exact Hc|]. intros r ->. cbn [negb]. unfold NowStamp.
  eapply returns_bind; [eapply returns_bind; [exact (returns_perform Now)|intros; by apply (returns_ret _ (λ _, True))]|].
  intros t _. by apply returns_ret.
Qed.

Lemma checkAll_failing l checks logged :
  (∀ k v, (k, v) ∈ l → failing (tc_check v)) →
  (∀ k d, logged !! k = Some d → d = AbnormalCase) →
  returns (checkAll l checks logged) (λ r, ∀ k d, r.2 !! k = Some d → d = AbnormalCase).
Proof.
  revert checks logged. induction l as [|[k v] l IH]; intros checks logged Hf Hd; cbn [checkAll].
  { by apply returns_ret. }
  eapply returns_bind; [apply checkOne_failing; apply (Hf k); by left|]. intros [v' d] Hv. cbn in Hv. subst d.
  apply IH; [intros k' v'' Hk; apply (Hf k'); by right|].
  intros k' d [[<- <-]|[_ Hk']]%lookup_insert_Some; [done|]. by eapply Hd.
Qed.

Lemma CheckRound_failing (m : Monitor W) :
  (∀ k v, mo_checks m !! k = Some v → failing (tc_check v)) →
  returns (CheckRound m) (λ r, ∀ k d, r.2 !! k = Some d → d = AbnormalCase).
Proof.
  intros Hf. unfold CheckRound. eapply returns_bind; [apply checkAll_failing|].
  - intros k v Hk. rewrite (range_order_perm 0 _ (mo_checks m)) in Hk. by eapply Hf, elem_of_map_to_list.
  - intros k d Hk. by rewrite lookup_empty in Hk.
  - intros [c d] Hd. by apply returns_ret.
Qed.

Lemma runActions_returns l (s : St W) : (∀ a, a ∈ l → returns a (λ _, True)) →
  ∃ s', runActions l s = (Ret tt, s') ∧ in_order l s s' ∧
        clock (world s) <= clock (world s') ∧ log s `prefix_of` log s'.
Proof.
  revert s. induction l as [|a l IH]; intros s Ha; cbn [runActions].
  { exists s. split_and!; [done|constructor|lia|done]. }
  destruct (Ha a (list_elem_of_here _ _) s) as (err & s1 & E1 & _ & Hle & Hp).
  destruct (IH s1) as (s2 & E2 & Ho & Hle2 & Hp2); [intros b Hb; apply Ha; by right|].
  exists s2. rewrite (bind_Ret _ _ _ _ _ E1). split_and!; [done|by econstructor|lia|by etrans].
Qed.

(** The part of a round before the checks, at a state [s]. *)
Lemma act_returns (m : Monitor W) (s : St W) :
  (∀ a, a ∈ mo_actions m → returns a (λ _, True)) →
  ∃ m1 acted s1,
    (if meetAll m then
       _ ← perform Now;
       now ← perform Now;
       if negb (TimeAfter now (mo_lastRun m + 5 * Minute)) then mret (m, None)
       else
         _ ← runActions (mo_actions m);
         lastRun ← perform Now;
         mret (MkMonitor (mo_checks m) (mo_actions m) lastRun, Some (now, lastRun))
     else mret (m, None)) s = (Ret (m1, acted), s1) ∧
    mo_checks m1 = mo_checks m ∧ clock (world s) <= clock (world s1) ∧ log s `prefix_of` log s1 ∧
    (acted ≠ None → ran_within (mo_actions m) s s1) ∧
    (meetAll m = true → mo_lastRun m + 5 * Minute < clock (world s) → acted ≠ None).
Proof.
  intros Ha. destruct (meetAll m).
  2:{ exists m, None, s. split_and!; [done..|lia|done|done|done]. }
  do 2 step_perform. pose proof (clock_mono Now (world s)) as Hle1.
  set (w1 := (env_step Now (world s)).2) in *. destruct (clock_now w1) as [Hn1 Hn2].
  set (now := (env_step Now w1).1) in *. set (w2 := (env_step Now w1).2) in *.
  set (s2 := MkSt w2 ((log s ++ [Now]) ++ [Now])).
  assert (log s `prefix_of` log s2) as Hp by (exists [Now; Now]; cbn; by rewrite <- app_assoc).
  destruct (negb _) eqn:Ea.
  - exists m, None, s2. split_and!; [done..|cbn; lia|done|done|].
    intros _ Hlt. unfold TimeAfter in Ea. apply negb_true_iff, Z.ltb_ge in Ea. lia.
  - destruct (runActions_returns _ s2 Ha) as (s3 & E3 & Ho & Hle3 & Hp3).
    rewrite (bind_Ret _ _ _ _ _ E3). step_perform.
    assert (log s3 `prefix_of` log s3 ++ [Now]) as Hp4 by (by eexists).
    do 3 eexists. split_and!; [done..| | | |done].
    + pose proof (clock_mono Now (world s3)). cbn in *. lia.
    + etrans; [exact Hp|]. by etrans.
    + intros _. by exists s2, s3.
Qed.

(** A round of failing checks: all verdicts are no, and the actions run if the
    thresholds are met and it is time. *)
Lemma round_failing (m : Monitor W) (s : St W) :
  (∀ k v, mo_checks m !! k = Some v → failing (tc_check v)) →
  (∀ a, a ∈ mo_actions m → returns a (λ _, True)) →
  ∃ m1 l s1, monitRound m s = (Ret (m1, l), s1) ∧ clock (world s) <= clock (world s1) ∧
    log s `prefix_of` log s1 ∧
    (∀ k d, rl_verdicts l !! k = Some d → d = AbnormalCase) ∧
    (rl_acted l ≠ None → ran_within (mo_actions m) s s1) ∧
    (meetAll m = true → mo_lastRun m + 5 * Minute < clock (world s) → rl_acted l ≠ None).
Proof.
  intros Hf Ha. destruct (act_returns m s Ha) as (m1 & acted & s1 & E1 & Hck & Hle & Hp & Hran & Hact).
  destruct (CheckRound_failing m1) with s1 as ([m2 vs] & s2 & E2 & Hv & Hle2 & Hp2).
  { intros k v. rewrite Hck. apply Hf. }
  unfold monitRound. rewrite (bind_Ret _ _ _ _ _ E1), (bind_Ret _ _ _ _ _ E2).
  do 3 eexists. split_and!; [done|lia|by etrans|done| |done].
  intros Hn. exact (ran_within_weaken _ s s s1 _ (reflexivity _) (Hran Hn) Hp2).
Qed.

(** The checks and actions of the monitor after a round are those before. *)
Lemma round_keeps (m m1 : Monitor W) l s s1 :
  monitRound m s = (Ret (m1, l), s1) →
  (∀ a, a ∈ mo_actions m → returns a (λ _, True)) →
  (∀ k v, mo_checks m !! k = Some v → failing (tc_check v)) →
  (∀ a, a ∈ mo_actions m1 → returns a (λ _, True)) ∧
  (∀ k v1, mo_checks m1 !! k = Some v1 → ∃ v d,
     mo_checks m !! k = Some v ∧ tc_check v1 = tc_check v ∧ failing (tc_check v1) ∧
     rl_verdicts l !! k = Some d ∧ tc_threshed v1 = counted (tc_threshed v) d).
Proof.
  intros (-> & _ & Hk)%monitRound_inv Ha Hf. split; [done|]. intros k v1 Hv1. specialize (Hk k).
  destruct (mo_checks m !! k) as [v|] eqn:Ev; cbn in Hk; [|congruence].
  destruct Hk as (v' & d & Hv' & Hd & Hc & Ht). rewrite Hv1 in Hv'. injection Hv' as <-.
  exists v, d. split_and!; try done. rewrite Hc. by apply (Hf k).
Qed.

Lemma StartMonit_eq n (m : Monitor W) :
  StartMonit (S n) m
  = ('(m, l) ← monitRound m; _ ← perform (Sleep (10 * Second)); '(m, ls) ← StartMonit n m; mret (m, l :: ls)).
Proof. reflexivity. Qed.

Lemma StartMonit_returns n : ∀ (m : Monitor W) (s : St W),
  (∀ k v, mo_checks m !! k = Some v → failing (tc_check v)) →
  (∀ a, a ∈ mo_actions m → returns a (λ _, True)) →
  ∃ m' logs s', StartMonit n m s = (Ret (m', logs), s') ∧ log s `prefix_of` log s'.
Proof.
  induction n as [|n IH]; intros m s Hf Ha; [by do 3 eexists|].
  destruct (round_failing m s Hf Ha) as (m1 & l & s1 & E1 & _ & Hp & _).
  destruct (round_keeps _ _ _ _ _ E1 Ha Hf) as [Ha1 Hk1]. cbn [StartMonit].
  rewrite (bind_Ret _ _ _ _ _ E1). step_perform.
  edestruct (IH m1) as (m' & ls & s' & E2 & Hp2); [|done|].
  { intros k v1 Hv1. by destruct (Hk1 k v1 Hv1) as (v & d & _ & _ & Hfv & _). }
  rewrite (bind_Ret _ _ _ _ _ E2). do 3 eexists. split; [done|]. etrans; [exact Hp|]. etrans; [|exact Hp2]. by eexists.
Qed.

(** [r] more rounds are enough when the counters are [c] or more and the last run
    is [t] or more ago. *)
Lemma failing_acts r : ∀ (m : Monitor W) B c t (s : St W),
  (∀ k v, mo_checks m !! k = Some v →
     failing (tc_check v) ∧ c <= tc_threshed v ∧ ck_Threshold (tc_check v) <= B) →
  (∀ a, a ∈ mo_actions m → returns a (λ _, True)) →
  mo_lastRun m + t <= clock (world s) →
  B < c + Z.of_nat r → 5 * Minute < t + 10 * Second * Z.of_nat r →
  ∃ m' logs s', StartMonit (S r) m s = (Ret (m', logs), s') ∧ ran_within (mo_actions m) s s'.
Proof.
  induction r as [|r IH]; intros m B c t s Hf Ha Hc HB Ht;
    (destruct (round_failing m s) as (m1 & l & s1 & E1 & Hle & Hp & Hd & Hran & Hact); [intros k v Hk; by apply (Hf k)|done|]);
    (destruct (round_keeps _ _ _ _ _ E1 Ha) as [Ha1 Hk1]; [intros k v Hk; by apply (Hf k)|]);
    rewrite StartMonit_eq, (bind_Ret _ _ _ _ _ E1); step_perform;
    set (s2 := MkSt (env_step (Sleep (10 * Second)) (world s1)).2 (log s1 ++ [Sleep (10 * Second)]));
    assert (log s1 `prefix_of` log s2) as Hp2 by (by eexists).
  - do 3 eexists. split; [done|]. refine (ran_within_weaken _ s s s1 _ _ _ _); [done|apply Hran, Hact; [|lia]|done].
    apply meetAll_spec. intros k v Hk. destruct (Hf k v Hk) as (_ & ? & ?). lia.
  - destruct (decide (rl_acted l = None)) as [Hn|Hn].
    + pose proof E1 as (Hactions & Hlast & _)%monitRound_inv. rewrite Hn in Hlast.
      pose proof (clock_sleep (10 * Second) (world s1)) as Hsl.
      destruct (IH m1 B (c + 1) (t + 10 * Second) s2) as (m' & ls & s' & E2 & Hx);
        [|exact Ha1| | | |].
      * intros k v1 Hv1. destruct (Hk1 k v1 Hv1) as (v & d & Hv & Hcv & Hfv & Hvd & Htv).
        apply Hd in Hvd as ->. destruct (Hf k v Hv) as (_ & ? & ?). rewrite Hcv in *. cbn in Htv.
        split_and!; [done|lia|done].
      * subst s2. cbn [world]. rewrite Hlast. lia.
      * lia.
      * lia.
      * rewrite (bind_Ret _ _ _ _ _ E2). do 3 eexists. split; [done|]. rewrite <- Hactions.
        refine (ran_within_weaken _ s s2 s' _ _ Hx _); [by etrans|done].
    + destruct (StartMonit_returns (S r) m1 s2) as (m' & ls & s' & E2 & Hp3); [|exact Ha1|].
      { intros k v1 Hv1. by destruct (Hk1 k v1 Hv1) as (v & d & _ & _ & Hfv & _). }
      rewrite (bind_Ret _ _ _ _ _ E2). do 3 eexists. split; [done|].
      refine (ran_within_weaken _ s s s1 _ _ _ _); [done|by apply Hran|by etrans].
Qed.
End facts.

(** ** Properties *)
Section properties.
Context {W : Type} `{Env W} `{LocalZone} `{MapRange, !MapRangeSpec}.

(** The monitor runs its actions in a round only when every check has said
    no more often than its threshold since it last said yes, and the actions run
    at most once in five minutes. *)
Theorem actions_only_after_streaks n (m m' : Monitor W) logs (s s' : St W) :
  StartMonit n m s = (Ret (m', logs), s') →
  spaced (mo_lastRun m) logs ∧
  ∀ i l, logs !! i = Some l → rl_acted l ≠ None →
  ∀ k v, mo_checks m !! k = Some v →
  ck_Threshold (tc_check v) < streak k (tc_threshed v) (take i logs).
Proof.
  revert m logs s. induction n as [|n IH]; intros m logs s HB; [by injection HB as <- <- _|].
  apply StartMonit_cons in HB as (m1 & l & ls & s1 & s2 & -> & E1 & HB).
  apply monitRound_inv in E1 as (_ & Hact & Hk). destruct (IH _ _ _ HB) as [Hsp Hst]. split.
  - cbn [spaced]. destruct (rl_acted l) as [[now last]|]; [|by rewrite <- Hact].
    destruct Hact as (_ & ? & <-). done.
  - intros [|i] x Hx Hacted k v Hkv.
    + injection Hx as ->. destruct (rl_acted x) as [[now last]|]; [|done].
      destruct Hact as (Hm & _). exact (proj1 (meetAll_spec m) Hm k v Hkv).
    + specialize (Hk k). rewrite Hkv in Hk. destruct Hk as (v' & d & Hv' & Hd & Hc & Ht).
      specialize (Hst i x Hx Hacted k v' Hv'). cbn [take]. unfold streak in *. cbn [foldl].
      rewrite Hd, <- Ht, <- Hc. exact Hst.
Qed.

(** C25: a cluster whose checks keep failing is recovered: whatever the
    thresholds, with at most [B] as the threshold of any, when [B + 1] rounds
    and five minutes of always failing checks have passed the monitor has run
    every one of its actions, one after the other in the order they were added;
    the calls they made are among those of the run. *)
Theorem failing_checks_act `{!Clock W, !ClockSpec W} (m : Monitor W) B r (s : St W) :
  (∀ k v, mo_checks m !! k = Some v →
     failing (tc_check v) ∧ 0 <= tc_threshed v ∧ ck_Threshold (tc_check v) <= B) →
  (∀ a, a ∈ mo_actions m → returns a (λ _, True)) →
  mo_lastRun m <= clock (world s) → B < Z.of_nat r → (31 <= r)%nat →
  ∃ m' logs s' sa sb, StartMonit (S r) m s = (Ret (m', logs), s') ∧
    log s `prefix_of` log sa ∧ in_order (mo_actions m) sa sb ∧ log sb `prefix_of` log s'.
Proof.
  intros Hf Ha Hc HB Hr.
  destruct (failing_acts r m B 0 0 s) as (m' & logs & s' & E & sa & sb & Hp1 & Ho & Hp2);
    [done|done|lia|lia|unfold Minute, Second; lia|].
  by exists m', logs, s', sa, sb.
Qed.
End properties.

Section check_properties.
Context {W : Type} `{Env W} `{PkgErrors, !PkgErrorsSpec} `{GoFmt} `{MapRange} `{WaitLib W}.
Context `{Json Members} `{Json (list EndpointStatus)} `{CryptoLib}.

(** The etcd check counts against the cluster only when the members could
    not be listed through any master, or none of the members listed answered its
    health query; a single healthy member is enough to say yes, and errors of
    the check itself never count. *)
Theorem etcd_check_says_no m m' err (s s' : St W) :
  etcd_Check m s = (Ret (m', (false, err)), s') →
  err = None ∧ ∃ metcd s1 s2 mems lerr,
    MemberList metcd s1 = (Ret (mems, lerr), s2) ∧
    (lerr ≠ None ∨
     ∀ mem, mem ∈ mb_Members mems → ∃ e s3 s4, EndpointHealth metcd (mem_IP mem) s3 = (Ret (Some e), s4)).
Proof.
  assert (∀ metcd mems sa sb, anyHealthy metcd mems sa = (Ret false, sb) →
          ∀ mem, mem ∈ mems → ∃ e s3 s4, EndpointHealth metcd (mem_IP mem) s3 = (Ret (Some e), s4)) as Hany.
  { intros metcd mems. induction mems as [|mem0 mems IH]; intros sa sb HB mem Hm; [by apply elem_of_nil in Hm|].
    cbn [anyHealthy] in HB. apply bind_Ret_inv in HB as ([e|] & s1 & E1 & HB); [|done].
    apply elem_of_cons in Hm as [->|Hm]; [by exists e, sa, s1|by eapply IH]. }
  assert (∀ c cerr e sa sb, checkMembers c cerr sa = (Ret (false, e), sb) → e = None ∧
          ∃ metcd s1 s2 mems lerr, MemberList metcd s1 = (Ret (mems, lerr), s2) ∧
            (lerr ≠ None ∨ ∀ mem, mem ∈ mb_Members mems →
               ∃ e s3 s4, EndpointHealth metcd (mem_IP mem) s3 = (Ret (Some e), s4))) as Hcm.
  { intros c cerr e sa sb HB. unfold checkMembers in HB. destruct (ce_Cluster c); [|done].
    apply bind_Ret_inv in HB as ([[metcd|] [ne|]] & s1 & _ & HB); [done| |done..].
    apply bind_Ret_inv in HB as ([mems [le|]] & s2 & E2 & HB).
    - injection HB as <- _. split; [done|]. exists metcd, s1, s2, mems, (Some le). split; [done|by left].
    - apply bind_Ret_inv in HB as (h & s3 & E3 & HB). injection HB as -> <- _. split; [done|].
      exists metcd, s1, s2, mems, None. split; [done|]. right. by eapply Hany. }
  unfold etcd_Check. intros HB. apply bind_Ret_inv in HB as ([spec [ce|]] & s1 & _ & HB).
  { apply bind_Ret_inv in HB as ([b e] & s2 & E2 & HB). injection HB as _ -> -> _. by eapply Hcm. }
  apply bind_Ret_inv in HB as ([master merr] & s2 & _ & HB).
  destruct (match merr with Some _ => _ | None => _ end) eqn:Em; [done|].
  apply bind_Ret_inv in HB as ([b e] & s3 & E3 & HB). injection HB as _ -> -> _. by eapply Hcm.
Qed.
End check_properties.

(** ** A failing cluster, for evaluation *)
Module SimMonit.
(** Checks that always say no, and one that is fine. *)
Definition dead : Check Z := MkCheck "etcd.health.check" (mret true) (mret (false, None)) 6.
Definition monitor : Monitor Z :=
  WithAction [mret None] (WithCheck [dead] (MkMonitor ∅ [] 0)).
(** A listing that fails: no master answers. *)
Definition unreachable (c : call) (t : Z) : option (reply c) :=
  match c with
  | KList KMaster _ => Some ([zeroMaster], None)
  | Run "etcdctl" _ _ => Some (MkCmdStatus 1 None [] [])
  | _ => None
  end.
#[export] Instance json_members : Json Members := {| Marshal _ := "{}"; Unmarshal _ m := (m, None) |}.
#[export] Instance json_endpoints : Json (list EndpointStatus) := {| Marshal _ := "[]"; Unmarshal _ m := (m, None) |}.
#[export] Instance crypto_lib : CryptoLib := SimEtcd.crypto_lib.
End SimMonit.

(** ** Witnesses *)
Import Sim SimEnv SimWait SimMonit.

Lemma actions_only_after_streaks_witness :
  ∃ logs m' s' i l, StartMonit 40 monitor (start_at 0) = (Ret (m', logs), s') ∧
    logs !! i = Some l ∧ rl_acted l ≠ None ∧ 6 < streak "etcd.health.check" 0 (take i logs).
Proof.
  set (r := StartMonit 40 monitor (start_at 0)).
  destruct (r) as [[[m' logs]| |] s'] eqn:Er; [|vm_compute in Er; discriminate..].
  pose proof (actions_only_after_streaks (W:=Z) 40 monitor m' logs (start_at 0) s' Er) as [_ Hs].
  assert (∃ l, logs !! 31%nat = Some l ∧ rl_acted l ≠ None) as (l & Hl & Ha).
  { vm_compute in Er. injection Er as <- <- <-. eexists. split; [reflexivity|discriminate]. }
  exists logs, m', s', 31%nat, l. split_and!; [reflexivity|exact Hl|exact Ha|].
  exact (Hs 31%nat l Hl Ha "etcd.health.check" (NewThreshedCheck dead) eq_refl).
Defined.

(** The action of the monitor's command: the provider is asked to recover. *)
Definition recovering : Monitor Z :=
  WithAction ['(_, err) ← perform (PRecover NewEmptyContext zeroClusterId); mret err] (WithCheck [dead] (MkMonitor ∅ [] 0)).

Lemma failing_checks_act_witness :
  ∃ m' logs s', StartMonit 32 recovering (start_at 0) = (Ret (m', logs), s') ∧
    PRecover NewEmptyContext zeroClusterId ∈ log s'.
Proof.
  destruct (failing_checks_act (W:=Z) recovering 6 31 (start_at 0)) as (m' & logs & s' & sa & sb & E & _ & Ho & Hp);
    [| |vm_compute; discriminate|lia|lia|].
  - intros k v Hk.
    change (mo_checks recovering) with (<["etcd.health.check" := NewThreshedCheck dead]> (∅ : gmap string (ThreshedCheck Z))) in Hk.
    apply lookup_insert_Some in Hk as [[_ <-]|[_ Hk]]; [|by rewrite lookup_empty in Hk].
    split_and!; [|vm_compute; discriminate|vm_compute; discriminate].
    split; intros s; do 2 eexists; (split; [reflexivity|]); (split; [reflexivity|split; [lia|done]]).
  - intros a Ha. apply list_elem_of_singleton in Ha as ->. eapply returns_bind; [exact (returns_perform (W:=Z) (PRecover NewEmptyContext zeroClusterId))|].
    intros [? err] _. by apply returns_ret.
  - exists m', logs, s'. split; [exact E|]. destruct Hp as [post ->]. apply elem_of_app. left.
    inversion Ho as [|? ? ? s1 ? err E1 Hn]; subst. inversion Hn; subst.
    apply bind_Ret_inv in E1 as ([nid e] & s2 & E1 & E2). rewrite perform_eq in E1. injection E1 as _ _ <-. injection E2 as _ <-.
    cbn [log].
    apply elem_of_app. right. by left.
Defined.

Lemma etcd_check_says_no_witness :
  let env : Env Z := SimEnv.scripted unreachable in
  ∃ metcd s1 s2 mems lerr,
    MemberList (H := env) metcd s1 = (Ret (mems, lerr), s2) ∧
    (lerr ≠ None ∨
     ∀ mem, mem ∈ mb_Members mems → ∃ e s3 s4, EndpointHealth (H := env) metcd (mem_IP mem) s3 = (Ret (Some e), s4)).
Proof.
  intros env.
  destruct (etcd_Check (H := env) (MkCheckEtcd [] None) (start_at 0)) as [[[m' [[|] err]]| |] s'] eqn:E;
    [vm_compute in E; discriminate| |vm_compute in E; discriminate..].
  exact (proj2 (etcd_check_says_no (H := env) (MkCheckEtcd [] None) m' err (start_at 0) s' E)).
Defined.
