(* ===== verification/Iaas.v ===== *)
(** * The cluster commands (pkg/iaas/iaas.go)

    What the command line does with a cluster: create, delete, scale, recover
    from a backup, edit, run a command, watch, and show.  Each command builds a
    provider context, reads the record of the cluster in the index and calls the
    provider.  What a command prints is a list of [printed]. *)
From stdpp Require Import base list gmap strings.
From Stdlib Require Import Lia.
From S2P Require Import Prelude GoStrings GoTime Api Effects Utils Provider Help Sign Index.
Local Open Scope Z_scope.

(** The cells of a row, a line, or a text (which is given to [Printf] as its
    format). *)
Inductive printed : Type :=
| Row (cells : list string)
| Line (s : string)
| Text (s : string).

(** k8s.io/kubectl/pkg/cmd/util/editor: the edited contents. *)
Class EditorLib (W : Type) : Type := LaunchTempFile : string → IO W (string * error).

Definition cis_with_UpdatedAt (t : string) (c : ClusterId) : ClusterId :=
  let x := cid_Spec c in
  MkClusterId (cid_Type c) (cid_Meta c)
    (MkClusterIdSpec (cis_ResourceId x) (cis_ExtraRIDs x) (cis_CreatedAt x) t (cis_Options x) (cis_Cluster x)).

Definition ku_with_RootCA (k : option KeyCert) (s : ClusterSpec) : ClusterSpec :=
  let u := cs_Kubernetes s in
  MkClusterSpec (cs_Bind s) (cs_ClusterID s) (cs_Namespace s) (cs_CloudType s) (cs_Network s) (cs_Etcd s)
    (cs_Runtime s)
    (MkKubernetes (ku_Unit u) (ku_KubeadmToken u) k (ku_FrontProxyCA u) (ku_SvcAccountCA u) (ku_ControlRoot u))
    (cs_AddonInitialized s) (cs_Sans s) (cs_Token s) (cs_Registry s) (cs_Endpoint s) (cs_SilentTime s).

Section operations.
Context {W : Type} `{Env W} `{PkgErrors} `{LocalZone} `{Yaml ClusterSpec} `{Yaml ContextCFG} `{Yaml Snapshot}.
Context `{JS : Json Snapshot} `{JN : Json NodePool} `{JC : Json ClusterId} `{JP : Json ClusterSpec}.
Context `{CryptoLib} `{MapRange} `{Base64} `{EditorLib W}.

(** [time.Now().Format("2006-01-02T15:04:05")] *)
Definition stamp : IO W string := now ← perform Now; mret (format_at zone_offset "T" "" now).

(** A specification that takes the cloud identity of another. *)
Definition override (id : ClusterSpec) (from : ClusterSpec) : ClusterSpec :=
  cs_with_Bind
    (set_Bind_ResourceId (bi_ResourceId (cs_Bind id))
       (set_Bind_Region (bi_Region (cs_Bind id))
          (set_Bind_Provider (bi_Provider (cs_Bind id)) (cs_Bind from))))
    (cs_with_ClusterID (cs_ClusterID id) (cs_with_Endpoint (cs_Endpoint id) from)).

Definition iaas_Recover (cfg : WdripOptions) : IO W error :=
  '(ctx, cfg, err) ← NewContext cfg None;
  match err with
  | Some e => mret (Wrapf (Some e) "initialize wdrip context")
  | None =>
      '(id, err) ← GetCluster (wo_ClusterName cfg) (wo_ClusterName cfg);
      match err with
      | Some e => mret (Wrapf (Some e) ("no cluster found by name " +:+ wo_ClusterName cfg))
      | None =>
          r ← (if decide (wo_RecoverFrom cfg = wo_ClusterName cfg) then mret (inl id)
               else
                 '(from, err) ← GetCluster (wo_RecoverFrom cfg) (wo_RecoverFrom cfg);
                 match err with
                 | Some e => mret (inr (Wrapf (Some e) ("no cluster found by name " +:+ wo_ClusterName cfg)))
                 | None => mret (inl (cid_with_Cluster
                                        (override (cis_Cluster (cid_Spec id)) (cis_Cluster (cid_Spec from))) id))
                 end);
          match r with
          | inr err => mret err
          | inl id =>
              let ctx := set_WdripOptions cfg (set_BootCFG (Some (cis_Cluster (cid_Spec id))) ctx) in
              '(_, err) ← perform (PRecover ctx id);
              mret err
          end
      end
  end.

Definition SetDefaultCA (spec : option ClusterSpec) : IO W ClusterSpec :=
  match spec with
  | None => panic "nil pointer dereference"
  | Some spec =>
      match ku_RootCA (cs_Kubernetes spec) with
      | Some _ => mret spec
      | None =>
          '(root, err) ← NewKeyCert;
          match err with
          | Some _ => panic "new self signed cert pair fail"
          | None => mret (ku_with_RootCA root spec)
          end
      end
  end.

Definition iaas_Create (cfg : WdripOptions) : IO W error :=
  '(ctx, cfg, err) ← NewContext cfg None;
  match err with
  | Some e => mret (Wrapf (Some e) "initialize wdrip context")
  | None =>
      bootcfg ← SetDefaultCA (BootCFG ctx);
      let ctx := write_BootCFG bootcfg ctx in
      created ← stamp;
      updated ← stamp;
      let cid := cs_ClusterID bootcfg in
      let id := MkClusterId noType (metaNamed cid)
                  (MkClusterIdSpec "" [] created updated (Some cfg) bootcfg) in
      '(_, err) ← GetCluster cid cid;
      match err with
      | None => mret (Wrapf None ("cluster [" +:+ cid +:+ "] already exists"))
      | Some e =>
          if negb (Contains (Error e) "NoSuchKey") then mret (Wrapf (Some e) "create cluster")
          else
            err ← SaveCluster cid id;
            match (err : error) with
            | Some e => mret (Wrapf (Some e) ("create cluster: " +:+ cid_Name id))
            | None =>
                '(nid, err) ← perform (PCreate ctx);
                match err, nid with
                | Some e, _ =>
                    match bi_Provider (cs_Bind bootcfg) with
                    | Some p => mret (Errorf ("call provider [" +:+ pv_Name p +:+ "] create: " +:+ Error e))
                    | None => panic "nil pointer dereference"
                    end
                | None, None => panic "nil pointer dereference"
                | None, Some nid => _ ← SaveCluster cid nid; mret None
                end
            end
      end
  end.

(** The node groups of the saved pools are deleted until one fails. *)
Fixpoint deleteNodeGroups (ctx : Context_) (nodepools : list NodePool) : IO W error :=
  match nodepools with
  | [] => mret None
  | np :: rest =>
      err ← perform (PDeleteNodeGroup ctx np);
      match (err : error) with
      | Some e => mret (Wrapf (Some e) ("delete nodegroup " +:+ np_Name np +:+ " failed"))
      | None => deleteNodeGroups ctx rest
      end
  end.

Definition iaas_Delete (options : WdripOptions) (cmdLine : CommandLineArgs) : IO W error :=
  if decide (wo_ClusterName options = "") then mret (Errorf "cluster name must be provided with --name")
  else
    '(ctx, options, err) ← NewContext options None;
    match err with
    | Some e => mret (Wrapf (Some e) "initialize wdrip context")
    | None =>
        let name := wo_ClusterName options in
        '(id, err) ← GetCluster name name;
        match err with
        | Some e =>
            if Contains (Error e) "NoSuchKey" then mret None
            else mret (Wrapf (Some e) ("delete cluster: " +:+ name))
        | None =>
            '(nodepools, err) ← ListNodePools name "";
            match err with
            | Some e => mret (Wrapf (Some e) "get nodepool oss backups")
            | None =>
                err ← deleteNodeGroups ctx nodepools;
                match (err : error) with
                | Some e => mret (Some e)
                | None =>
                    err ← perform (PDelete ctx id);
                    match (err : error) with
                    | Some e =>
                        if ca_ForceDelete cmdLine then RemoveCluster name name
                        else mret (Errorf ("delete cluster: " +:+ Error e))
                    | None => RemoveCluster name name
                    end
                end
            end
        end
    end.

Definition iaas_Scale (options : WdripOptions) (name : string) (count : Z) : IO W error :=
  '(ctx, options, err) ← NewContext options None;
  match err with
  | Some e => mret (Wrapf (Some e) "initialize wdrip context")
  | None =>
      '(id, err) ← GetCluster name name;
      match err with
      | Some e => mret (Wrapf (Some e) ("scale cluster: " +:+ name))
      | None =>
          err ← perform (PScaleMasterGroup ctx "" count);
          match (err : error) with
          | Some e => mret (Errorf ("scale cluster: " +:+ Error e))
          | None => now ← stamp; SaveCluster name (cis_with_UpdatedAt now id)
          end
      end
  end.

Definition iaas_RunCommand (options : WdripOptions) (cmdline : CommandLineArgs) : IO W error :=
  '(ctx, options, err) ← NewContext options None;
  match err with
  | Some e => mret (Wrapf (Some e) "initialize wdrip context")
  | None =>
      if bool_decide (ca_InstanceID cmdline = "") || bool_decide (ca_Command cmdline = "")
      then mret (Wrapf None "empty instance id or command")
      else
        '(_, err) ← perform (PRunCommand ctx (ca_InstanceID cmdline) (ca_Command cmdline));
        match err with
        | Some e => mret (Wrapf (Some e) ("run command fail: " +:+ Error e))
        | None => mret None
        end
  end.

Definition iaas_WatchResult (options : WdripOptions) (name : string) : IO W error :=
  '(ctx, options, err) ← NewContext options None;
  match err with
  | Some e => mret (Wrapf (Some e) "initialize wdrip context")
  | None =>
      '(id, err) ← GetCluster (wo_ClusterName options) name;
      match err with
      | Some e => mret (Wrapf (Some e) ("scale cluster: " +:+ name))
      | None =>
          '(id, err) ← perform (PWatchResult ctx id);
          match err with
          | Some e => mret (Errorf ("watch error: " +:+ Error e))
          | None => SaveCluster (wo_ClusterName options) id
          end
      end
  end.

Definition iaas_Edit (options : WdripOptions) : IO W error :=
  if decide (wo_ClusterName options = "") then mret (Errorf "unexpected empty cluster name, specify with --name")
  else
    '(ctx, options, err) ← NewContext options None;
    match err with
    | Some e => mret (Wrapf (Some e) "edit: initialize wdrip context")
    | None =>
        let name := wo_ClusterName options in
        '(id, err) ← GetCluster name name;
        match err with
        | Some e => mret (Wrapf (Some e) ("find cluster by name " +:+ name))
        | None =>
            '(edited, err) ← LaunchTempFile (PrettyYaml (cis_Cluster (cid_Spec id)));
            match err with
            | Some e => mret (Wrapf (Some e) "edit with local editor")
            | None =>
                match YamlUnmarshal edited zeroClusterSpec with
                | (_, Some e) => mret (Wrapf (Some e) "unrecognized field or value")
                | (cspec, None) => SaveCluster name (cid_with_Cluster cspec id)
                end
            end
        end
    end.

(** What a command has printed when it returns. *)
Abbreviation shown := (list printed * error)%type.

Definition iaas_NodePoolOeration (options : WdripOptions) (cmdline : CommandLineArgs) : IO W shown :=
  '(ctx, options, err) ← NewContext options None;
  match err with
  | Some e => mret ([], Wrapf (Some e) "initialize wdrip context")
  | None =>
      let name := wo_ClusterName options in
      if decide (name = "") then mret ([], Errorf "empty cluster name")
      else
        '(spec, err) ← GetCluster name name;
        match err with
        | Some e => mret ([], Wrapf (Some e) "get cluster from oss backup")
        | None =>
            '(_, (stack, err)) ← LoadStackFromSpec (λ _, ctx) (cis_Cluster (cid_Spec spec));
            match err with
            | Some e => mret ([], Wrapf (Some e) "load stack")
            | None =>
                let ctx := WithStack stack ctx in
                if decide (ca_NodePoolID cmdline = "") then
                  '(nodepools, err) ← ListNodePools name "";
                  match err with
                  | Some e => mret ([Line ""], Wrapf (Some e) "list nodepool from oss backup")
                  | None =>
                      let row np :=
                        let bind := default (MkBindID [] "" "") (np_Bind np) in
                        Row [np_Name np; ns_NodePoolID (np_Spec np); b_ScalingGroupId bind; fmt_strs (b_VswitchIDS bind)] in
                      mret (Line "" :: Row ["NAME"; "NODEPOOL_ID"; "ESS_ID"; "VSWITCH_IDS"] :: map row nodepools, None)
                  end
                else
                  '(np, err) ← GetNodePool name (ca_NodePoolID cmdline);
                  match err with
                  | Some e => mret ([Line ""], Wrapf (Some e) "get nodepool from oss backup")
                  | None =>
                      let head := [Line ""; Row ["NAME"; "NODEPOOL_ID"; "INSTANCE_ID"; "IP"; "STATUS"]] in
                      match np_Bind np with
                      | None => mret (head ++ [Row [np_Name np; ns_NodePoolID (np_Spec np); ""; ""; ""]], None)
                      | Some bind =>
                          '(detail, _) ← perform (PScalingGroupDetail ctx (b_ScalingGroupId bind) (MkOption "InstanceIDS" zeroValue));
                          let row d := Row [np_Name np; ns_NodePoolID (np_Spec np); i_Id d; i_Ip d; i_Status d] in
                          mret (head ++ map row (range_vals 0 (sg_Instances detail)), None)
                      end
                  end
            end
        end
  end.

Definition clusterRow (id : ClusterId) : printed :=
  let e := cs_Endpoint (cis_Cluster (cid_Spec id)) in
  Row [cid_Name id; ep_Internet e +:+ "/" +:+ ep_Intranet e].
Definition documents (docs : list string) : list printed :=
  docs ≫= λ d, [Text d; Line (newline +:+ newline +:+ "---")].

Definition doGetCluster (options : WdripOptions) (cmdLine : CommandLineArgs) : IO W shown :=
  '(ctx, options, err) ← NewContext options None;
  match err with
  | Some e => mret ([], Wrapf (Some e) "get: initialize wdrip context")
  | None =>
      let name := wo_ClusterName options in
      let format := ca_OutPutFormat cmdLine in
      if decide (name = "") then
        '(ids, err) ← ListCluster name name;
        match err with
        | Some e => mret ([], Wrapf (Some e) "ListCluster")
        | None =>
            let specs := map (λ v, cis_Cluster (cid_Spec v)) ids in
            mret (if decide (format = "yaml") then documents (map PrettyYaml specs)
                  else if decide (format = "json") then documents (map PrettyJson specs)
                  else Row ["NAME"; "ENDPOINT"] :: map clusterRow ids, None)
        end
      else
        '(id, err) ← GetCluster name name;
        match err with
        | Some e => mret ([], Wrapf (Some e) ("get cluster: " +:+ name))
        | None =>
            mret (if decide (format = "yaml") then [Text (PrettyYaml (cis_Cluster (cid_Spec id)))]
                  else if decide (format = "json") then [Text (PrettyJson id)]
                  else [Row ["NAME"; "ENDPOINT"]; clusterRow id], None)
        end
  end.

Definition doGetBuckups (options : WdripOptions) (cmdLine : CommandLineArgs) : IO W shown :=
  let name := wo_ClusterName options in
  if decide (name = "") then mret ([], Errorf "cluster name must be specified over [-n xxx]")
  else
    '(ctx, options, err) ← NewContext options None;
    match err with
    | Some e => mret ([], Wrapf (Some e) "initialize wdrip context")
    | None =>
        '(_, (backups, err)) ← si_Snapshot (NewSnapshotIndex (wo_ClusterName options));
        match err, backups with
        | Some e, _ => mret ([], Wrapf (Some e) "backup: get snapshot")
        | None, None => panic "nil pointer dereference"
        | None, Some backups =>
            let backups := SortBackups backups in
            let row b := Row [sn_Name backups; sn_Prefix backups; bk_Identity b; Path backups b] in
            mret (if decide (ca_OutPutFormat cmdLine = "yaml") then [Text (PrettyYaml backups)]
                  else if decide (ca_OutPutFormat cmdLine = "json") then [Text (PrettyJson backups)]
                  else Row ["NAME"; "PREFIX"; "DATE"; "PATH"] :: map row (sn_Copies backups), None)
        end
    end.

(** The administrator's configuration of a cluster. *)
Definition kubeConfig (ca : KeyCert) (address crt key : string) : string * error :=
  RenderConfig KubeConfigTpl
    [("AuthCA", EncodeToString (kc_Cert ca)); ("Address", address);
     ("ClientCRT", EncodeToString crt); ("ClientKey", EncodeToString key)].

Definition doGetKubeConfig (options : WdripOptions) (cmdLine : CommandLineArgs) : IO W shown :=
  if decide (wo_ClusterName options = "") then mret ([], Errorf "cluster name must be specified over [-n xxx]")
  else
    '(ctx, options, err) ← NewContext options None;
    match err with
    | Some e => mret ([], Wrapf (Some e) "initialize wdrip context")
    | None =>
        let name := wo_ClusterName options in
        '(id, err) ← GetCluster name name;
        match err with
        | Some e => mret ([], Wrapf (Some e) ("scale cluster: " +:+ name))
        | None =>
            let spec := cis_Cluster (cid_Spec id) in
            match ku_RootCA (cs_Kubernetes spec) with
            | None => mret ([], Errorf "root ca does not exist in spec.Kubernetes.RootCA in id cache")
            | Some ca =>
                '(key, crt, err) ← SignKubernetes (kc_Cert ca) (kc_Key ca) [];
                match err with
                | Some e => mret ([], Errorf ("sign kubernetes crt: " +:+ Error e))
                | None =>
                    match kubeConfig ca (ep_Internet (cs_Endpoint spec)) crt key with
                    | (_, Some e) => mret ([], Errorf ("render admin.local config error: " +:+ Error e))
                    | (cfg, None) =>
                        if decide (ca_WriteTo cmdLine = "") then mret ([Text cfg], None)
                        else _ ← perform (WriteFile (ca_WriteTo cmdLine) cfg); mret ([], None)
                    end
                end
            end
        end
    end.

Definition iaas_Get (options : WdripOptions) (cmdLine : CommandLineArgs) : IO W shown :=
  if decide (wo_Resource options = "backup") then doGetBuckups options cmdLine
  else if decide (wo_Resource options = "kubeconfig") then doGetKubeConfig options cmdLine
  else doGetCluster options cmdLine.
End operations.

(** ** Facts *)
Section facts.
Context {W : Type} `{Env W} `{PkgErrors} `{LocalZone} `{Yaml ClusterSpec} `{Yaml ContextCFG}.
Context `{JN : Json NodePool} `{JC : Json ClusterId} `{CryptoLib}.

(** Calls that change neither the object store nor the cloud. *)
Definition reads (c : call) : Prop :=
  match c with
  | PPutObject _ _ | PEnsureBucket _ | PDeleteObject _ | PCreate _ | PDelete _ _ | PDeleteNodeGroup _ _
  | PRecover _ _ => False
  | _ => True
  end.

Lemma emits_NewContext o sp : emits reads (NewContext (W:=W) o sp).
Proof.
  unfold NewContext, Initialize, BuildContexCFG, LoadBootCFG, HomeDir, UserHomeDir, FileExist, GetProvider.
  solve_emits; exact I.
Qed.

Lemma NewContext_options o sp ctx o' err (s s' : St W) :
  NewContext o sp s = (Ret (ctx, o', err), s') →
  wo_ClusterName o' = wo_ClusterName o ∧ wo_RecoverFrom o' = wo_RecoverFrom o.
Proof.
  unfold NewContext, Initialize. intros HB. apply bind_Ret_inv in HB as (o1 & s1 & E1 & HB).
  assert (wo_ClusterName o1 = wo_ClusterName o ∧ wo_RecoverFrom o1 = wo_RecoverFrom o) as Ho.
  { destruct (wo_Default o); [by injection E1 as <- _|].
    apply bind_Ret_inv in E1 as (d & s2 & _ & E1). by injection E1 as <- _. }
  apply bind_Ret_inv in HB as (dprvd & s2 & _ & HB). apply bind_Ret_inv in HB as ([[n p]|e] & s3 & _ & HB).
  - destruct p as [p|]; [|done]. apply bind_Ret_inv in HB as (k & s4 & _ & HB).
    apply bind_Ret_inv in HB as ([n1 [e|]] & s5 & _ & HB); by injection HB as _ <- _ _.
  - by injection HB as _ <- _ _.
Qed.

Lemma GetCluster_reads nid id : emits reads (GetCluster (W:=W) nid id).
Proof. unfold GetCluster. solve_emits; exact I. Qed.
Lemma emits_ListNodePools cid sel : emits reads (ListNodePools (W:=W) cid sel).
Proof. unfold ListNodePools. solve_emits; exact I. Qed.
Lemma emits_SetDefaultCA sp : emits reads (SetDefaultCA (W:=W) sp).
Proof. unfold SetDefaultCA, NewKeyCert, SelfSignedPair. solve_emits; exact I. Qed.
Lemma emits_stamp : emits reads (stamp (W:=W)).
Proof. unfold stamp. solve_emits; exact I. Qed.
Lemma SaveCluster_writes nid c :
  emits (λ c, match c with PPutObject _ _ | PEnsureBucket _ | PBucketName => True | _ => False end) (SaveCluster (W:=W) nid c).
Proof. unfold SaveCluster, putEnsured. solve_emits; exact I. Qed.

(** What saving a record writes: the encoded record, at the path of its name in
    the bucket the provider names. *)
Lemma SaveCluster_path nid id (s : St W) :
  let b := (env_step PBucketName (world s)).1 in
  run_emits (λ c, c = PBucketName ∨ c = PEnsureBucket b ∨ c = PPutObject (Marshal id) (path b (cid_Name id)))
    (SaveCluster nid id) s.
Proof.
  intros b. unfold SaveCluster. apply run_emits_bind; [refine (emits_perform _ PBucketName _ _); by left|].
  intros b' s1 E. rewrite perform_eq in E. injection E as <- _. fold b. case_decide; [apply emits_ret|].
  match goal with |- run_emits ?P ?m s1 => assert (emits P m) as Hm; [|exact (Hm s1)] end.
  unfold putEnsured. solve_emits; auto.
Qed.

(** A record that is not there was looked for. *)
Lemma GetCluster_missed cid c0 e (s s' : St W) :
  GetCluster cid cid s = (Ret (c0, Some e), s') → Contains (Error e) "NoSuchKey" = true →
  log s' = log s ++ [PBucketName; PGetObject (path (env_step PBucketName (world s)).1 cid)].
Proof.
  intros HB He. unfold GetCluster in HB. step_perform_in HB. case_decide as Hb.
  { injection HB as _ <- _. vm_compute in He. discriminate. }
  step_perform_in HB. rewrite <- app_assoc in HB.
  destruct (env_step (PGetObject _) _).1 as [data [e'|]]; [by injection HB as _ _ <-|].
  destruct (Unmarshal data zeroClusterId) as [c [e'|]]; by injection HB as _ _ <-.
Qed.

Lemma SetDefaultCA_id spec spec' (s s' : St W) :
  SetDefaultCA spec s = (Ret spec', s') → ∃ boot, spec = Some boot ∧ cs_ClusterID spec' = cs_ClusterID boot.
Proof.
  destruct spec as [boot|]; [|done]. unfold SetDefaultCA. intros HB. exists boot. split; [done|].
  destruct (ku_RootCA _); [by injection HB as <- _|].
  apply bind_Ret_inv in HB as ([root [e|]] & s1 & _ & HB); [done|]. by injection HB as <- _.
Qed.

(** The deletions of node groups, in order; all were answered without error. *)
Lemma deleteNodeGroups_all `{!PkgErrorsSpec} ctx nps (s s' : St W) :
  deleteNodeGroups ctx nps s = (Ret None, s') →
  s' = MkSt (after (map (PDeleteNodeGroup ctx) nps) (world s)) (log s ++ map (PDeleteNodeGroup ctx) nps) ∧
  ∀ i np, nps !! i = Some np →
    (env_step (PDeleteNodeGroup ctx np) (after (map (PDeleteNodeGroup ctx) (take i nps)) (world s))).1 = None.
Proof.
  revert s. induction nps as [|np0 nps IH]; intros s HB; cbn [deleteNodeGroups] in HB.
  { injection HB as <-. split; [|done]. cbn. rewrite app_nil_r. by destruct s. }
  step_perform_in HB. destruct (env_step (PDeleteNodeGroup ctx np0) (world s)).1 as [e|] eqn:E.
  { match type of HB with context [Wrapf (Some e) ?m] => destruct (Wrapf_some e m) as (e' & He & _) end.
    rewrite He in HB. by injection HB. }
  apply IH in HB as [-> Hall]. cbn [world log map] in *. split; [by rewrite <- app_assoc|].
  intros [|i] np Hnp; [by injection Hnp as <-|]. by apply Hall.
Qed.

(** Removing a record asks for the bucket and deletes the object of that name. *)
Lemma RemoveCluster_run n i p (s : St W) :
  calls (RemoveCluster n i) s (PDeleteObject p) →
  p = path (env_step PBucketName (world s)).1 n ∧
  log (RemoveCluster n i s).2 = log s ++ [PBucketName; PDeleteObject p].
Proof.
  unfold RemoveCluster. intros (new & Hn & Hp). step_perform_in Hn. step_perform.
  case_decide.
  - change (log s ++ [PBucketName] = log s ++ new) in Hn. apply app_inv_head in Hn as <-. set_solver.
  - rewrite perform_eq in Hn |- *. cbn [snd log] in Hn |- *. rewrite <- app_assoc in Hn |- *. apply app_inv_head in Hn as <-.
    assert (p = path (env_step PBucketName (world s)).1 n) as ->; [|done].
    apply elem_of_cons in Hp as [?|Hp]; [done|]. apply list_elem_of_singleton in Hp. by injection Hp.
Qed.
Lemma emits_RemoveCluster n i : emits (λ _, True) (RemoveCluster (W:=W) n i).
Proof. unfold RemoveCluster. solve_emits; done. Qed.

Lemma emits_deleteNodeGroups ctx nps :
  emits (λ c, match c with PDeleteNodeGroup _ _ => True | _ => False end) (deleteNodeGroups (W:=W) ctx nps).
Proof. induction nps; cbn [deleteNodeGroups]; solve_emits; done. Qed.
End facts.

(** ** Properties *)
Section properties.
Context {W : Type} `{Env W} `{PkgErrors, !PkgErrorsSpec} `{LocalZone} `{Yaml ClusterSpec} `{Yaml ContextCFG}.
Context `{JN : Json NodePool} `{JC : Json ClusterId} `{CryptoLib}.

(** The first part of a run that only reads. *)
Ltac reads_first L := apply run_emits_bind; [eapply run_emits_weaken; [eassumption|apply L]|].


(** C16: deleting a cluster forgets its record only at the end, and only its
    own record: the node groups of its saved pools were deleted one after the
    other, each successfully, then the provider deleted the stack of the very
    record that was read (or failed to, when the deletion is forced), and the
    removal of that record is the last call of all. *)
Theorem Delete_record_last options cmdLine (s : St W) p :
  calls (iaas_Delete options cmdLine) s (PDeleteObject p) →
  let name := wo_ClusterName options in
  ∃ ctx o sa id s1 nps s2,
    NewContext options None s = (Ret (ctx, o, None), sa) ∧
    GetCluster name name sa = (Ret (id, None), s1) ∧
    ListNodePools name "" s1 = (Ret (nps, None), s2) ∧
    let groups := map (PDeleteNodeGroup ctx) nps in
    (∀ i np, nps !! i = Some np →
       (env_step (PDeleteNodeGroup ctx np) (after (take i groups) (world s2))).1 = None) ∧
    ((env_step (PDelete ctx id) (after groups (world s2))).1 = None ∨ ca_ForceDelete cmdLine = true) ∧
    p = path (env_step PBucketName (after (groups ++ [PDelete ctx id]) (world s2))).1 name ∧
    log (iaas_Delete options cmdLine s).2 = log s2 ++ groups ++ [PDelete ctx id; PBucketName; PDeleteObject p].
Proof.
  intros Hc. cbv zeta. unfold iaas_Delete in *. case_decide; [by apply calls_ret in Hc|].
  pose proof (λ n i, emits_RemoveCluster n i) as Hrm. pose proof emits_deleteNodeGroups as Hdn.
  assert (∀ ctx nps, emits (λ _, True) (deleteNodeGroups (W:=W) ctx nps)) as Hdt
    by (intros ctx nps; eapply emits_weaken; [|apply Hdn]; done).
  assert (∀ cid sel, emits (λ _, True) (ListNodePools (W:=W) cid sel)) as Hlt
    by (intros cid sel; eapply emits_weaken; [|apply emits_ListNodePools]; done).
  assert (∀ n i, emits (λ _, True) (GetCluster (W:=W) n i)) as Hgt
    by (intros n i; eapply emits_weaken; [|apply GetCluster_reads]; done).
  rewrite bind_unfold.
  apply (calls_bind_inv reads) in Hc as ([[ctx o] err] & sa & Hctx & Hc);
    [|apply emits_NewContext|by intros []|intros [[? ?] ?]; repeat (progress solve_emits || apply Hrm || apply Hdt || apply Hlt || apply Hgt); done].
  rewrite Hctx. destruct err; [by apply calls_ret in Hc|]. cbv zeta in Hc |- *.
  pose proof (NewContext_options _ _ _ _ _ _ _ Hctx) as [Hname _]. rewrite Hname in Hc |- *. rewrite bind_unfold.
  apply (calls_bind_inv reads) in Hc as ([id err] & s1 & Hget & Hc);
    [|apply GetCluster_reads|by intros []|intros [? ?]; repeat (progress solve_emits || apply Hrm || apply Hdt || apply Hlt); done].
  rewrite Hget. destruct err; [case_match; by apply calls_ret in Hc|]. rewrite bind_unfold.
  apply (calls_bind_inv reads) in Hc as ([nps err] & s2 & Hlist & Hc);
    [|apply emits_ListNodePools|by intros []|intros [? ?]; repeat (progress solve_emits || apply Hrm || apply Hdt); done].
  rewrite Hlist. destruct err; [by apply calls_ret in Hc|]. rewrite bind_unfold.
  apply (calls_bind_inv _ _ _ _ _ (Hdn ctx nps)) in Hc as (err & s3 & Hdel & Hc);
    [|by intros []|intros ?; repeat (progress solve_emits || apply Hrm); done].
  rewrite Hdel. destruct err; [by apply calls_ret in Hc|].
  apply deleteNodeGroups_all in Hdel as [-> Hall]. rewrite bind_unfold.
  apply (calls_bind_inv (λ c, c = PDelete ctx id)) in Hc as (err & s4 & Hpd & Hc);
    [|by refine (emits_perform _ (PDelete ctx id) _)|done|intros ?; repeat (progress solve_emits || apply Hrm); done].
  rewrite Hpd. rewrite perform_eq in Hpd. cbn [world log] in Hpd. injection Hpd as Herr Hs4.
  exists ctx, o, sa, id, s1, nps, s2. cbv zeta. split_and!; [done..| | | |].
  - intros i np Hnp. rewrite <- fmap_take. by apply Hall.
  - destruct err; [right|by left]. destruct (ca_ForceDelete cmdLine); [done|by apply calls_ret in Hc].
  - assert (calls (RemoveCluster (wo_ClusterName options) (wo_ClusterName options)) s4 (PDeleteObject p)) as Hc'
      by (destruct err; [destruct (ca_ForceDelete cmdLine); [done|by apply calls_ret in Hc]|done]).
    apply RemoveCluster_run in Hc' as [-> _]. subst s4. cbn [world]. by rewrite after_app.
  - assert (calls (RemoveCluster (wo_ClusterName options) (wo_ClusterName options)) s4 (PDeleteObject p)) as Hc'
      by (destruct err; [destruct (ca_ForceDelete cmdLine); [done|by apply calls_ret in Hc]|done]).
    apply RemoveCluster_run in Hc' as [_ Hlog]. rewrite <- Hs4 in Hlog at 2. cbn [log] in Hlog.
    rewrite <- !app_assoc in Hlog. cbn in Hlog |- *.
    destruct err; [destruct (ca_ForceDelete cmdLine); [exact Hlog|by apply calls_ret in Hc]|exact Hlog].
Qed.

End properties.

(** ** Clusters to evaluate with *)
Module SimIaas.
#[export] Instance yaml_spec : Yaml ClusterSpec :=
  {| YamlMarshal _ := ""; YamlUnmarshal _ x := (cs_with_ClusterID "k8s" x, None) |}.
#[export] Instance yaml_cfg : Yaml ContextCFG := {| YamlMarshal _ := ""; YamlUnmarshal _ x := (x, None) |}.
#[export] Instance crypto : CryptoLib :=
  {| pem_Decode _ := None; pem_Encode b := (bk_Bytes b, None); ParseCertificate _ := inl SimEnv.zero_cert;
     ParseECPrivateKey _ := None; ParsePKCS1PrivateKey s := Some (RSAKey s);
     ParsePKCS8PrivateKey _ := None; ParseIP s := Some s |}.
Definition account : ContextCFG :=
  MkContextCFG "Config" "v1" "dev" [MkContextItem "dev" (Some "p")] [MkProviderItem "p" (Some (MkProvider "alibaba" ""))].
Definition options : WdripOptions :=
  MkWdripOptions "" "" "" "boot.yaml" "" "" "" 3 "k8s" "k8s" (Some account) "" 0 "" (MkOperatorFlag "" false "" "" "" 0).
Definition args : CommandLineArgs := MkCommandLineArgs false "" "" "" "" "".
End SimIaas.

(** ** Witnesses *)
Import Sim SimEnv SimStore SimIaas.

(** The store once the cluster is recorded in it. *)
Definition recorded : St SimStore.Disk_ := (SaveCluster "k8s" SimStore.k8s SimStore.disk0).2.


(** An existing cluster is reported as created: the error found is wrapped nil. *)
Example Create_existing_reports_nil :
  let '(o, s') := iaas_Create options recorded in
  o = Ret None ∧ ∀ c, c ∈ log s' → c ∈ log recorded ∨ reads c.
Proof.
  vm_compute. split; [reflexivity|]. intros c Hc.
  repeat (apply elem_of_cons in Hc as [->|Hc]; [first [right; exact I|left; set_solver]|]).
  by apply elem_of_nil in Hc.
Qed.

Lemma Delete_record_last_witness :
  calls (iaas_Delete options args) recorded (PDeleteObject (path "bucket" "k8s")) ∧
  ∃ ctx id s1 s2, GetCluster (W:=Disk_) "k8s" "k8s" s1 = (Ret (id, None), s2) ∧
    last (log (iaas_Delete options args recorded).2) = Some (PDeleteObject (path "bucket" "k8s")) ∧
    PDelete ctx id ∈ log (iaas_Delete options args recorded).2.
Proof.
  match goal with |- ?A ∧ _ => assert A as Hc end.
  { eexists. split; [vm_compute; reflexivity|].
    repeat (apply elem_of_cons; first [left; vm_compute; reflexivity | right]). }
  split; [exact Hc|].
  destruct (Delete_record_last (W:=Disk_) options args recorded (path "bucket" "k8s") Hc)
    as (ctx & o & sa & id & s1 & nps & s2 & _ & Hg & _ & _ & _ & _ & Hl).
  exists ctx, id, sa, s1. split; [exact Hg|]. rewrite Hl. split.
  - by rewrite !last_app.
  - rewrite !elem_of_app. right. right. by left.
Defined.

(** Two recorded clusters, each with its own stack: the second is recovered from
    the backup of the first. *)
Definition second : ClusterId :=
  MkClusterId noType (metaNamed "other")
    (MkClusterIdSpec "stack-other" [] "" "" None (cs_with_ClusterID "other" zeroClusterSpec)).
#[local] Instance json_ids : Json ClusterId :=
  {| Marshal c := cid_Name c;
     Unmarshal t _ := (if decide (t = "other") then second else SimStore.k8s, None) |}.
Definition two_recorded : St SimStore.Disk_ := (SaveCluster "other" second recorded).2.
Definition recover_other : WdripOptions :=
  MkWdripOptions "" "" "" "boot.yaml" "" "" "" 3 "k8s" "other" (Some account) "" 0 "" (MkOperatorFlag "" false "" "" "" 0).

