(* ===== verification/NodePoolCtl.v ===== *)
(** * Node pool reconciler (pkg/operator/controllers/nodepool/np_controller.go),
    the worker node reconciler (noderepair) and the etcd backup runner (backup) *)
From stdpp Require Import base list gmap strings.
From Stdlib Require Import Lia.
From S2P Require Import Prelude GoStrings GoTime Api Effects Provider Help Sign Etcd Triple Operation.
From S2P Require Import Healet Hash Index.
Local Open Scope Z_scope.

Definition NODE_POOL_FINALIZER : string := "nodepool".

Definition nodePoolHash (node : NodePool) : string :=
  default "" (label (om_Labels (np_Meta node)) NodePoolHashLabel).

(** The setters given to [help.Patch]. *)
Definition dropFinalizer (mp : NodePool) : NodePool * error :=
  (np_with_meta (set_Finalizers (Remove (om_Finalizers (np_Meta mp)) NODE_POOL_FINALIZER) (np_Meta mp)) mp,
   None).

Definition bindDiff (bind : option BindID) (mp : NodePool) : NodePool * error :=
  let mp := set_Bind bind mp in
  let fin := om_Finalizers (np_Meta mp) in
  (if Has fin NODE_POOL_FINALIZER then mp
   else np_with_meta (set_Finalizers (fin ++ [NODE_POOL_FINALIZER]) (np_Meta mp)) mp, None).

Definition hashDiff (hasho : string) (np : NodePool) : NodePool * error :=
  let lbl := default ∅ (om_Labels (np_Meta np)) in
  (np_with_meta (set_Labels (Some (<[NodePoolHashLabel := hasho]> lbl)) (np_Meta np)) np, None).

Definition NoRequeue : ReconcileResult := MkResult_ false 0.

(** Whether the text of a repair failure says that the scaling group is lost. *)
Definition groupLost (e : goerr) : bool :=
  Contains (Error e) "ScalingGroupNotFound" || Contains (Error e) "InvalidVPC".

Section operations.
Context {W : Type} `{Env W} `{PkgErrors} `{GoFmt} `{MapRange} `{LocalZone} `{WaitLib W}.
Context `{PatchLib} `{AggErrors} `{Json Members} `{Json (list EndpointStatus)} `{CryptoLib}.
Context `{JN : Json NodePool} `{JC : Json ClusterId} `{JS : Json Snapshot} `{HashLib NodePoolSpec}.

Definition EnsureNodePoolBackup (np : NodePool) : IO W error :=
  '(spec, err) ← h_Cluster "kubernetes-cluster";
  match err with
  | Some e => mret (Wrapf (Some e) "get cluster id")
  | None => SaveNodePool (cs_ClusterID (cl_Spec spec)) np
  end.

Definition DeleteNodePoolBackup (np : NodePool) : IO W error :=
  '(spec, err) ← h_Cluster "kubernetes-cluster";
  match err with
  | Some e => mret (Wrapf (Some e) "get cluster id")
  | None => RemoveNodePool (cs_ClusterID (cl_Spec spec)) (np_Name np)
  end.

(** [WaitReplicas(i)] *)
Definition WaitReplicas (i : Z) : error := None.

(** The branch for a pool that is being deleted. *)
Definition deletePool (mctx : Context_) (np : NodePool) : IO W (ReconcileResult * error) :=
  err ← perform (PDeleteNodeGroup mctx np);
  match (err : error) with
  | Some e => mret (NewDelay 10, Wrapf (Some e) ("clean up nodepool " +:+ np_Name np +:+ " infra"))
  | None =>
      err ← DeleteNodePoolBackup np;
      match err with
      | Some e => mret (NoRequeue, Wrapf (Some e) "remove oss nodepool backup failed")
      | None =>
          '(_, err) ← Patch KNodePool np dropFinalizer PatchSpec;
          mret (NoRequeue, err)
      end
  end.

(** The end of [Reconcile]: record the hash; a failure is logged only. *)
Definition recordHash (np : NodePool) (hasho : string) : IO W (ReconcileResult * error) :=
  '(np, _) ← Patch KNodePool np (hashDiff hasho) PatchSpec;
  mret (NoRequeue, WaitReplicas (in_DesiredCapacity (ns_Infra (np_Spec np)))).

(** The branches for a pool without and with a scaling group. *)
Definition createPool (mctx : Context_) (np : NodePool) (hasho : string) : IO W (ReconcileResult * error) :=
  '(bind, err) ← perform (PCreateNodeGroup mctx np);
  match err with
  | Some e => mret (NoRequeue, Wrapf (Some e) ("create node group: " +:+ np_Name np))
  | None =>
      _ ← EnsureNodePoolBackup np;
      '(np, err) ← Patch KNodePool np (bindDiff bind) PatchSpec;
      match err with
      | Some e => mret (NewDelay 3, Wrapf (Some e) "patch bind infra")
      | None => recordHash np hasho
      end
  end.

Definition modifyPool (mctx : Context_) (np : NodePool) (bind : BindID) (hasho : string)
    : IO W (ReconcileResult * error) :=
  if decide (hasho = nodePoolHash np) then mret (NoRequeue, None)
  else
    err ← perform (PModifyNodeGroup mctx np);
    match (err : error) with
    | Some e => mret (NewDelay 3, Wrapf (Some e) ("modify node group: " +:+ pp np))
    | None =>
        _ ← (if decide (b_ScalingGroupId bind = "") then mret None else EnsureNodePoolBackup np);
        recordHash np hasho
    end.

(** The pool after the attempt to repair it: a lost group is forgotten, in
    memory only. *)
Definition forgetLost (np : NodePool) (err : error) : NodePool :=
  match err with
  | Some e => if groupLost e then set_Bind None np else np
  | None => np
  end.

(** [Reconcile(ctx, request)] *)
Definition NodePool_Reconcile (getter : TripleGetter W) (h : Healet) (mctx : Context_) (ns name : string)
    : IO W (ReconcileResult * error) :=
  '(np, err) ← perform (KGet KNodePool ns name);
  match err with
  | Some e => if IsNotFound e then mret (NoRequeue, None) else mret (NewDelay 3, Some e)
  | None =>
      match om_DeletionTimestamp (np_Meta np) with
      | Some _ => deletePool mctx np
      | None =>
          err ← FixNodePool h getter np;
          let np := forgetLost np err in
          match HashObject (np_Spec np) with
          | (_, Some e) => mret (NoRequeue, Errorf ("hash np: " +:+ Error e))
          | (hasho, None) =>
              match np_Bind np with
              | None => createPool mctx np hasho
              | Some bind => modifyPool mctx np bind hasho
              end
          end
      end
  end.

(** noderepair: [Reconcile] looks at the node and does nothing. *)
Definition AutoRepair_Reconcile (ns name : string) : IO W (ReconcileResult * error) :=
  '(node, err) ← perform (KGet KNode ns name);
  match err with
  | Some e => if IsNotFound e then mret (NoRequeue, None) else mret (NewDelay 5, Some e)
  | None => mret (NoRequeue, None)
  end.
End operations.

(** ** Lemmas *)
Section facts.
Context {W : Type} `{Env W} `{PkgErrors} `{GoFmt} `{MapRange} `{LocalZone} `{!WaitLib W}.
Context `{PatchLib} `{AggErrors} `{Json Members} `{Json (list EndpointStatus)} `{CryptoLib}.
Context `{JN : Json NodePool} `{HashLib NodePoolSpec}.

(** Calls that create, change or delete a scaling group. *)
Definition group_call (c : call) : Prop :=
  match c with
  | PCreateNodeGroup _ _ | PModifyNodeGroup _ _ | PDeleteNodeGroup _ _ => True
  | _ => False
  end.
Definition no_group (c : call) : Prop := ¬ group_call c.

Lemma patch_no_group c : patch_kind c → no_group c.
Proof. by destruct c; intros ? []. Qed.

Lemma emits_FixNodePool `{!WaitSpec W} h spec stack np :
  emits no_group (FixNodePool (W:=W) h (NewTripleGetter (infraMethods spec stack)) np).
Proof.
  unfold FixNodePool, NewTripleWorker, NodeItems. destruct (he_isCtrlPlanInChecking h); [apply emits_ret|].
  cbn [NewTripleGetter infraMethods GetClusterItem GetWorkerNodeList GetNodePoolECS NodePoolECS].
  unfold h_Cluster, NodePoolItems.
  repeat first
    [ match goal with |- emits _ (FixUpNode ?t) =>
        intros s; destruct (FixUpNode_run t s) as [id Hid]; eapply run_emits_weaken; [|exact Hid];
        intros c [(i & n & _ & _ & ->)|Hm]; [by intros []|by destruct c; intros []] end
    | apply emits_Patch, patch_no_group
    | progress solve_emits ]; by intros [].
Qed.

Lemma emits_SaveNodePool P cid np :
  (∀ c, match c with PBucketName | PPutObject _ _ | PEnsureBucket _ => True | _ => False end → P c) →
  emits P (SaveNodePool (W:=W) cid np).
Proof. intros HP. unfold SaveNodePool, putEnsured. solve_emits; by apply HP. Qed.

Lemma emits_recordHash np hasho : emits no_group (recordHash (W:=W) np hasho).
Proof.
  unfold recordHash. apply emits_bind; [|intros []; apply emits_ret].
  apply (emits_Patch no_group KNodePool), patch_no_group.
Qed.

Lemma emits_backup np : emits no_group (EnsureNodePoolBackup (W:=W) np).
Proof.
  unfold EnsureNodePoolBackup, h_Cluster.
  repeat first [ apply emits_SaveNodePool; by intros [] ? [] | progress solve_emits ]; by intros [].
Qed.

Lemma emits_afterDelete np : emits no_group
  (err ← DeleteNodePoolBackup (W:=W) np;
   match err with
   | Some e => mret (NoRequeue, Wrapf (Some e) "remove oss nodepool backup failed")
   | None => '(_, err) ← Patch KNodePool np dropFinalizer PatchSpec; mret (NoRequeue, err)
   end).
Proof.
  unfold DeleteNodePoolBackup, RemoveNodePool, h_Cluster.
  repeat first
    [ apply (emits_Patch no_group KNodePool), patch_no_group
    | progress solve_emits ]; by intros [].
Qed.

Lemma emits_DeleteNodePoolBackup np :
  emits (λ c, ∀ o, c ≠ KPatch o) (DeleteNodePoolBackup (W:=W) np).
Proof. unfold DeleteNodePoolBackup, RemoveNodePool, h_Cluster. solve_emits; done. Qed.
End facts.

(** ** Properties *)
Section properties.
Context {W : Type} `{Env W} `{PkgErrors} `{GoFmt} `{MapRange} `{LocalZone} `{!WaitLib W}.
Context `{PatchLib} `{AggErrors} `{Json Members} `{Json (list EndpointStatus)} `{CryptoLib}.
Context `{JN : Json NodePool} `{HashLib NodePoolSpec}.

(** C3: what the reconciler does to scaling groups, given the pool it read: it
    deletes the group only of a pool that is being deleted; it creates one only
    for a pool that has no group, or whose repair failed because the group is
    lost, and then for the pool without its binding; it changes one only when the
    hash of the specification differs from the recorded one. *)
Theorem reconcile_group_calls `{!WaitSpec W} spec stack h mctx ns name (s : St W) c :
  let getter := NewTripleGetter (infraMethods spec stack) in
  calls (NodePool_Reconcile (W:=W) getter h mctx ns name) s c → group_call c →
  ∃ np, (env_step (KGet KNodePool ns name) (world s)).1 = (np, None) ∧
    match c with
    | PDeleteNodeGroup _ p => om_DeletionTimestamp (np_Meta np) ≠ None ∧ p = np
    | PCreateNodeGroup _ p =>
        om_DeletionTimestamp (np_Meta np) = None ∧ np_Bind p = None ∧
        (p = np ∨ p = set_Bind None np ∧
                  ∃ e s1 s2, FixNodePool h getter np s1 = (Ret (Some e), s2) ∧ groupLost e = true)
    | PModifyNodeGroup _ p =>
        om_DeletionTimestamp (np_Meta np) = None ∧ p = np ∧ np_Bind np ≠ None ∧
        ∃ hasho, HashObject (np_Spec np) = (hasho, None) ∧ hasho ≠ nodePoolHash np
    | _ => False
    end.
Proof.
  intros getter Hc Hg.
  match goal with |- ?G =>
    refine (run_emits_calls (λ c', c' = c → G) _ _ _ _ Hc eq_refl) end.
  clear Hc. match goal with |- run_emits ?P _ _ => set (Q := P) end.
  assert (∀ c', no_group c' → Q c') as HQ by (intros c' Hn ->; done).
  unfold NodePool_Reconcile. apply run_emits_bind.
  { refine (emits_perform Q _ _ s). by apply HQ; intros []. }
  intros [np err] s1 Hget. rewrite perform_eq in Hget. injection Hget as Hnp Hs1.
  destruct err; [case_match; apply emits_ret|].
  destruct (om_DeletionTimestamp (np_Meta np)) as [ts|] eqn:Hdt.
  { apply emits_bind; [emits_call; intros <-; exists np; by rewrite Hdt|]. intros err.
    destruct err; [apply emits_ret|]. eapply emits_weaken; [exact HQ|]. apply emits_afterDelete. }
  apply run_emits_bind; [eapply run_emits_weaken; [exact HQ|apply emits_FixNodePool]|].
  intros err s2 Hfix. set (np' := forgetLost np err).
  destruct (HashObject (np_Spec np')) as [hasho [e|]] eqn:Hh; [apply emits_ret|].
  assert (np' = np ∨ np' = set_Bind None np ∧ ∃ e, err = Some e ∧ groupLost e = true) as Hnp'.
  { unfold np', forgetLost. destruct err as [e|]; [|by left].
    destruct (groupLost e) eqn:He; [right|by left]. eauto. }
  destruct (np_Bind np') as [bind|] eqn:Hb.
  - assert (np' = np) as -> by (destruct Hnp' as [|[-> _]]; [done|by destruct np]).
    unfold modifyPool. case_decide as Hh2; [apply emits_ret|].
    apply emits_bind; [emits_call; intros <-; exists np; by rewrite Hdt, Hb; eauto 8|].
    intros er. destruct er; [apply emits_ret|]. eapply emits_weaken; [exact HQ|].
    apply emits_bind; [case_decide; [apply emits_ret|apply emits_backup]|intros; apply emits_recordHash].
  - unfold createPool. apply emits_bind.
    { emits_call. intros <-. exists np. rewrite Hdt, Hb. split_and!; try done.
      destruct Hnp' as [|(? & e & -> & He)]; [by left|right]. split; [done|]. by exists e, s1, s2. }
    intros [b er]. destruct er; [apply emits_ret|]. eapply emits_weaken; [exact HQ|].
    apply emits_bind; [apply emits_backup|]. intros _. apply emits_bind.
    { apply (emits_Patch no_group KNodePool), patch_no_group. }
    intros [np2 er]. destruct er; [apply emits_ret|apply emits_recordHash].
Qed.

(** The finalizer that holds a pool being deleted is dropped only after its
    scaling group was deleted and its saved copy removed. *)
Theorem finalizer_dropped_last `{!PatchLibSpec} getter h mctx ns name (s : St W) np ts o :
  (env_step (KGet KNodePool ns name) (world s)).1 = (np, None) →
  om_DeletionTimestamp (np_Meta np) = Some ts →
  calls (NodePool_Reconcile (W:=W) getter h mctx ns name) s (KPatch o) →
  ∃ w s1 s2 x,
    (env_step (PDeleteNodeGroup mctx np) w).1 = None ∧
    DeleteNodePoolBackup np s1 = (Ret None, s2) ∧
    NODE_POOL_FINALIZER ∈ om_Finalizers (np_Meta x) ∧
    o = ONodePool (np_with_meta (set_Finalizers
          (filter (λ f, f ≠ NODE_POOL_FINALIZER) (om_Finalizers (np_Meta x))) (np_Meta x)) x).
Proof.
  intros Hget Hts Hc.
  match goal with |- ?G => refine (run_emits_calls (λ c, c = KPatch o → G) _ _ _ _ Hc eq_refl) end.
  clear Hc. match goal with |- run_emits ?P _ _ => set (Q := P) end.
  assert (∀ c, (∀ o, c ≠ KPatch o) → Q c) as HQ by (intros c Hn ->; by destruct (Hn o)).
  unfold NodePool_Reconcile. apply run_emits_bind; [refine (emits_perform Q _ _ s); by apply HQ|].
  intros a s1 Ha. rewrite perform_eq in Ha. injection Ha as Ha _.
  assert (a = (np, None)) as -> by exact (eq_trans (eq_sym Ha) Hget). rewrite Hts.
  unfold deletePool. apply run_emits_bind; [refine (emits_perform Q _ _ _); by apply HQ|].
  intros err s2 Hdel. rewrite perform_eq in Hdel. injection Hdel as Hdel _.
  destruct err; [apply emits_ret|].
  apply run_emits_bind; [eapply run_emits_weaken; [exact HQ|apply emits_DeleteNodePoolBackup]|].
  intros err s3 Hbk. destruct err; [apply emits_ret|].
  apply emits_bind; [|intros []; apply emits_ret].
  eapply emits_weaken; [|apply (Patch_emits KNodePool)]. intros c Hp ->.
  destruct Hp as (_ & x & -> & _ & Hx). do 4 eexists. split_and!; [exact Hdel|exact Hbk| |].
  2:{ unfold dropFinalizer. cbn [fst]. by rewrite Remove_filter. }
  destruct (decide (NODE_POOL_FINALIZER ∈ om_Finalizers (np_Meta x))) as [|Hno]; [done|].
  destruct Hx. unfold dropFinalizer. cbn [fst]. rewrite Remove_absent by done. by destruct x as [? [] ?].
Qed.
End properties.

(** ** Witnesses *)
Import Sim SimEnv SimWait SimPatch SimEtcd SimOp SimStore.

Module SimPool.
(** The document of a pool: its size and the group it is bound to. *)
#[export] Instance hash_lib : HashLib NodePoolSpec :=
  {| json_tree p := inl (JObj [("desired", JNum (in_DesiredCapacity (ns_Infra p)) 0);
                               ("group", JStr (from_option b_ScalingGroupId "" (in_Bind (ns_Infra p))))]);
     PrettyYaml x := match x with
                     | JObj [_; ("group", JStr g)] => "bound to " +:+ g
                     | _ => "unbound"
                     end;
     sha224_hex s := s |}.

Definition group1 : BindID := MkBindID ["vsw"] "asg-1" "asc-1".
Definition fresh : NodePool :=
  MkNodePool noType (metaNamed "gpu") (MkNodePoolSpec "gpu" false (MkInfra 2 "" 4 8 ∅ None)).
(** The pool as the first reconciliation leaves it. *)
Definition created : NodePool :=
  (hashDiff "unbound" (bindDiff (Some group1) fresh).1).1.
Definition doomed : NodePool :=
  np_with_meta (MkObjectMeta "gpu" "" "" None [NODE_POOL_FINALIZER] None (Some 0)) fresh.

Definition pool_script (np : NodePool) (c : call) (_ : Z) : option (reply c) :=
  match c return option (reply c) with
  | KGet KNodePool _ _ => Some (np, None)
  | PCreateNodeGroup _ _ => Some (Some group1, None)
  | PBucketName => Some "bucket"
  | _ => None
  end.
Definition reconcile (np : NodePool) (E := scripted (pool_script np) : Env Z) : IO Z (ReconcileResult * error) :=
  NodePool_Reconcile (NewTripleGetter (infraMethods zeroCluster ∅)) (MkHealet StateClean false)
    NewEmptyContext "" "gpu".
End SimPool.
Import SimPool.

(** The pool just created has the hash of its unbound specification recorded, so
    that the next reconciliation changes its group once more. *)
Example created_pool_modified_again :
  group_call (PModifyNodeGroup NewEmptyContext created) ∧
  PModifyNodeGroup NewEmptyContext created ∈ log (reconcile created (start_at 0)).2.
Proof.
  split; [exact I|]. vm_compute.
  repeat (apply elem_of_cons; first [left; reflexivity | right]).
Qed.

Lemma reconcile_group_calls_witness :
  let E := scripted (pool_script fresh) : Env Z in
  let getter := NewTripleGetter (infraMethods zeroCluster ∅) in
  let h := MkHealet StateClean false in
  ∃ np, (@env_step Z E (KGet KNodePool "" "gpu") 0).1 = (np, None) ∧
    om_DeletionTimestamp (np_Meta np) = None ∧ np_Bind fresh = None ∧
    (fresh = np ∨ fresh = set_Bind None np ∧
       ∃ e s1 s2, FixNodePool h getter np s1 = (Ret (Some e), s2) ∧ groupLost e = true).
Proof.
  intros E getter h.
  refine (reconcile_group_calls (W:=Z) zeroCluster ∅ h NewEmptyContext "" "gpu" (start_at 0)
    (PCreateNodeGroup NewEmptyContext fresh) _ I).
  eexists. split; [vm_compute; reflexivity|].
  repeat (apply elem_of_cons; first [left; vm_compute; reflexivity | right]).
Defined.

Lemma finalizer_dropped_last_witness :
  let E := scripted (pool_script doomed) : Env Z in
  ∃ w s1 s2 x,
    (@env_step Z E (PDeleteNodeGroup NewEmptyContext doomed) w).1 = None ∧
    DeleteNodePoolBackup doomed s1 = (Ret None, s2) ∧
    NODE_POOL_FINALIZER ∈ om_Finalizers (np_Meta x) ∧
    ONodePool (dropFinalizer doomed).1
    = ONodePool (np_with_meta (set_Finalizers
          (filter (λ f, f ≠ NODE_POOL_FINALIZER) (om_Finalizers (np_Meta x))) (np_Meta x)) x).
Proof.
  intros E.
  refine (finalizer_dropped_last (W:=Z) (NewTripleGetter (infraMethods zeroCluster ∅)) (MkHealet StateClean false)
    NewEmptyContext "" "gpu" (start_at 0) doomed 0 (ONodePool (dropFinalizer doomed).1) _ _ _);
    [vm_compute; reflexivity|reflexivity|].
  eexists. split; [vm_compute; reflexivity|].
  repeat (apply elem_of_cons; first [left; vm_compute; reflexivity | right]).
Defined.
