(* ===== verification/BackupCtl.v ===== *)
(** * The etcd backup runner (pkg/operator/controllers/backup/backup_runner.go)

    Every ten minutes the runner saves an etcd snapshot to object storage and
    removes old copies. *)
From stdpp Require Import base list gmap strings.
From Stdlib Require Import Lia.
From S2P Require Import Prelude GoStrings GoTime Api Effects Provider Help Sign Etcd.
From S2P Require Import Index.
Local Open Scope Z_scope.

(** [type Snapshot struct]: the cluster and the indexer that [initialize] sets,
    and whether a client was injected. *)
Record BackupRunner : Type := MkBackupRunner {
  br_spec : option Cluster;
  br_index : option GenericIndexer;
  br_client : bool }.
Definition NewSnapshot : BackupRunner := MkBackupRunner None None false.
Definition NewBareSnapshot (g : GenericIndexer) : BackupRunner := MkBackupRunner None (Some g) false.
(** [InjectClient(me)], which the manager calls. *)
Definition InjectClient (r : BackupRunner) : BackupRunner := MkBackupRunner (br_spec r) (br_index r) true.

Definition gi_with_Snapshot (i : SnapshotIndex) (g : GenericIndexer) : GenericIndexer :=
  MkGenericIndexer i (gi_Cluster g) (gi_NodePool g).
Definition br_with_index (g : GenericIndexer) (r : BackupRunner) : BackupRunner :=
  MkBackupRunner (br_spec r) (Some g) (br_client r).

Section operations.
Context {W : Type} `{Env W} `{PkgErrors} `{GoFmt} `{MapRange} `{LocalZone} `{WaitLib W} `{Yaml ClusterSpec} `{Yaml ContextCFG}.
Context `{Json Members} `{Json (list EndpointStatus)} `{CryptoLib}.
Context `{JS : Json Snapshot} `{JC : Json ClusterId}.

(** A request through [s.client]. *)
Definition br_theClient (s : BackupRunner) : IO W unit :=
  if br_client s then mret tt else panic "nil pointer dereference".

Definition br_initialize (s : BackupRunner) : IO W (BackupRunner * error) :=
  _ ← br_theClient s;
  '(spec, err) ← h_Cluster KUBERNETES_CLUSTER;
  match err with
  | Some e => mret (s, Errorf ("member: spec not found," +:+ Error e))
  | None =>
      let s := MkBackupRunner (Some spec) (br_index s) (br_client s) in
      '(ctx, _, err) ← NewContext zeroWdripOptions (Some (cl_Spec spec));
      match err with
      | Some e => mret (s, Wrapf (Some e) "new provider context")
      | None =>
          if x_Provider ctx
          then mret (br_with_index (NewGenericIndexer (cs_ClusterID (cl_Spec spec))) s, None)
          else panic "interface conversion: interface is nil"
      end
  end.

(** [s.spec] and [s.index], set by a successful [initialize]. *)
Definition br_theSpec (s : BackupRunner) : IO W Cluster :=
  match br_spec s with Some c => mret c | None => panic "nil pointer dereference" end.
Definition br_theIndex (s : BackupRunner) : IO W GenericIndexer :=
  match br_index s with Some g => mret g | None => panic "nil pointer dereference" end.

Definition CleanUp (s : BackupRunner) : IO W BackupRunner :=
  _ ← br_theSpec s;
  g ← br_theIndex s;
  '(i, _) ← BackupGC (gi_Snapshot g);
  mret (br_with_index (gi_with_Snapshot i g) s).

Definition br_Backup (s : BackupRunner) (spec : Cluster) (masters : list Master)
    : IO W (BackupRunner * error) :=
  '(s, err) ← br_initialize s;
  match err with
  | Some e => mret (s, Wrapf (Some e) "initialize snapshot backup failed")
  | None =>
      '(metcd, err) ← NewEtcdFromCRD masters (Some spec) ETCD_TMP;
      match err with
      | Some e => mret (s, Errorf ("new etcd: " +:+ Error e))
      | None =>
          match metcd with
          | None => panic "nil pointer dereference"
          | Some metcd =>
              let src := JoinPath [SnapshotTMP] in
              err ← Etcd.Snapshot metcd src;
              match err with
              | Some e => mret (s, Wrapf (Some e) "snapshot etcd")
              | None =>
                  g ← br_theIndex s;
                  '(mid, err) ← GetCluster (gi_Cluster g) (cs_ClusterID (cl_Spec spec));
                  match err with
                  | Some e => mret (s, Wrapf (Some e) "load cluster id")
                  | None =>
                      err ← SaveCluster (gi_Cluster g) (cid_with_Cluster (cl_Spec spec) mid);
                      match err with
                      | Some e => mret (s, Wrapf (Some e) "save cluster spec")
                      | None =>
                          '(i, err) ← si_Backup (gi_Snapshot g) (cl_Spec spec);
                          mret (br_with_index (gi_with_Snapshot i g) s, err)
                      end
                  end
              end
          end
      end
  end.

Definition doBackup (s : BackupRunner) : IO W (BackupRunner * error) :=
  _ ← br_theClient s;
  '(masters, err) ← MasterCRDS;
  match err with
  | Some e => mret (s, Errorf ("member master: " +:+ Error e))
  | None =>
      match masters with
      | [] => mret (s, Errorf "master crd not found 0, abort backup")
      | _ =>
          '(spec, err) ← h_Cluster KUBERNETES_CLUSTER;
          match err with
          | Some e => mret (s, Errorf ("member: spec not found," +:+ Error e))
          | None => br_Backup s spec masters
          end
      end
  end.

(** [Start(ctx)]: two loops run side by side, serialized by the runner's mutex;
    [sched] is the order in which their rounds get it. *)
Inductive round : Type := RCleanUp | RBackup.
Fixpoint br_loop (sched : list round) (s : BackupRunner) : IO W BackupRunner :=
  match sched with
  | [] => mret s
  | RCleanUp :: rest => s ← CleanUp s; br_loop rest s
  | RBackup :: rest => '(s, _) ← doBackup s; br_loop rest s
  end.

Definition br_Start (synced : bool) (sched : list round) (s : BackupRunner) : IO W (BackupRunner * error) :=
  if negb synced then mret (s, Errorf "wait for cache sync failed")
  else
    '(s, err) ← br_initialize s;
    match err with
    | Some e => mret (s, Wrapf (Some e) "start snapshot")
    | None => s ← br_loop sched s; mret (s, None)
    end.
End operations.

(** ** Properties *)
Section properties.
Context {W : Type} `{Env W} `{PkgErrors} `{GoFmt} `{MapRange} `{LocalZone} `{!WaitLib W} `{Yaml ClusterSpec} `{Yaml ContextCFG}.
Context `{Json Members} `{Json (list EndpointStatus)} `{CryptoLib}.
Context `{JS : Json Snapshot} `{JC : Json ClusterId}.

(** Everything but storing the snapshot file. *)
Definition no_upload (c : call) : Prop := match c with PPutFile _ _ => False | _ => True end.

Lemma emits_initialize r : emits no_upload (br_initialize (W:=W) r).
Proof.
  unfold br_initialize, br_theClient, h_Cluster, NewContext, Initialize, BuildContexCFG, LoadBootCFG, HomeDir, UserHomeDir,
    GetProvider, FileExist.
  solve_emits; done.
Qed.

Lemma emits_si_Backup i spec : emits (λ c, ∀ src dst, c = PPutFile src dst → src = SnapshotTMP)
  (si_Backup (W:=W) i spec).
Proof.
  unfold si_Backup, HourNow, theSnapshot.
  repeat first [ apply emits_LazyLoad; done | progress solve_emits ]; naive_solver.
Qed.

Lemma emits_Snapshot m dir : emits no_upload (Etcd.Snapshot (W:=W) m dir).
Proof. unfold Etcd.Snapshot, etcdctl. solve_emits; done. Qed.
Lemma emits_GetCluster nid id : emits no_upload (GetCluster (W:=W) nid id).
Proof. unfold GetCluster. solve_emits; done. Qed.
Lemma emits_SaveCluster nid c : emits no_upload (SaveCluster (W:=W) nid c).
Proof. unfold SaveCluster, putEnsured. solve_emits; done. Qed.

(** A snapshot file is uploaded only after etcdctl wrote it in this very run
    and the identity of the cluster was saved back with the current
    specification. *)
Theorem upload_after_snapshot r spec masters (s : St W) src dst :
  calls (br_Backup r spec masters) s (PPutFile src dst) →
  src = SnapshotTMP ∧
  (∃ m s1 s2, Etcd.Snapshot m SnapshotTMP s1 = (Ret None, s2)) ∧
  (∃ id mid s1 s2, SaveCluster id (cid_with_Cluster (cl_Spec spec) mid) s1 = (Ret None, s2)).
Proof.
  intros Hc.
  match goal with |- ?G => refine (run_emits_calls (λ c, c = PPutFile src dst → G) _ _ _ _ Hc eq_refl) end.
  clear Hc. match goal with |- run_emits ?P _ _ => set (Q := P) end.
  assert (∀ c, no_upload c → Q c) as HQ by (intros c Hn ->; done).
  unfold br_Backup. apply run_emits_bind; [eapply run_emits_weaken; [exact HQ|apply emits_initialize]|].
  intros [r1 err] s1 _. destruct err; [apply emits_ret|].
  apply run_emits_bind; [eapply run_emits_weaken; [exact HQ|apply emits_NewEtcdFromCRD; intros c []; by destruct c]|].
  intros [metcd err] s2 _. destruct err; [apply emits_ret|]. destruct metcd as [m|]; [|apply emits_panic].
  apply run_emits_bind.
  { eapply run_emits_weaken; [exact HQ|]. apply emits_Snapshot. }
  intros err s3 Hsnap. destruct err; [apply emits_ret|].
  apply run_emits_bind; [unfold br_theIndex; destruct (br_index r1); [apply emits_ret|apply emits_panic]|].
  intros g s4 _. apply run_emits_bind.
  { eapply run_emits_weaken; [exact HQ|]. apply emits_GetCluster. }
  intros [mid err] s5 _. destruct err; [apply emits_ret|]. apply run_emits_bind.
  { eapply run_emits_weaken; [exact HQ|]. apply emits_SaveCluster. }
  intros err s6 Hsave. destruct err; [apply emits_ret|].
  apply emits_bind; [|intros []; apply emits_ret].
  eapply emits_weaken; [|apply emits_si_Backup]. intros c Hsrc ->.
  split; [by eapply Hsrc|]. split; [by exists m, s2, s3|]. by exists (gi_Cluster g), mid, s5, s6.
Qed.
End properties.

(** ** Witness *)
Import Sim SimEnv SimWait SimEtcd SimStore.

Module SimBackup.
#[export] Instance yaml_spec : Yaml ClusterSpec :=
  {| YamlMarshal _ := ""; YamlUnmarshal _ x := (x, None) |}.
#[export] Instance yaml_cfg : Yaml ContextCFG :=
  {| YamlMarshal _ := ""; YamlUnmarshal _ x := (x, None) |}.
(** A cluster that carries its provider. *)
Definition cluster1 : Cluster :=
  MkCluster noType (metaNamed "kubernetes-cluster")
    (cs_with_Bind (set_Bind_Provider (Some (MkProvider "alibaba" "")) (cs_Bind zeroClusterSpec)) zeroClusterSpec)
    (cl_Status zeroCluster).
Definition backup_script (c : call) (_ : Z) : option (reply c) :=
  match c return option (reply c) with
  | KGet KCluster _ _ => Some (cluster1, None)
  | Getenv _ => Some "/root"
  | PBucketName => Some "bucket"
  | _ => None
  end.
End SimBackup.
Import SimBackup.

Lemma upload_after_snapshot_witness :
  let E := scripted backup_script : Env Z in
  SnapshotTMP = SnapshotTMP ∧
  (∃ m s1 s2, Etcd.Snapshot m SnapshotTMP s1 = (Ret None, s2)) ∧
  (∃ id mid s1 s2, SaveCluster id (cid_with_Cluster (cl_Spec cluster1) mid) s1 = (Ret None, s2)).
Proof.
  intros E.
  refine (upload_after_snapshot (W:=Z) (InjectClient NewSnapshot) cluster1 [zeroMaster] (start_at 0)
    SnapshotTMP "wdrip/backup//19700101-0800/snapshot.db" _).
  eexists. split; [vm_compute; reflexivity|].
  repeat (apply elem_of_cons; first [left; vm_compute; reflexivity | right]).
Defined.
