(* ===== verification/ApiServer.v ===== *)
(** * The node cache and the HTTP API (pkg/context/credential.go,
    pkg/context/base/context.go, pkg/apiserver, pkg/operator/controllers/master/master.go)

    Nodes register over HTTP as pointers under their provider id; the operator
    adds the Master objects of the cluster as values under their name.  The two
    kinds of entries live in one untyped map and every reader assumes one kind. *)
From stdpp Require Import base list gmap strings.
From Stdlib Require Import Lia.
From S2P Require Import Prelude GoStrings GoTime Api Effects Provider Help.
Local Open Scope Z_scope.

(** ** pkg/context: the cache *)

(** A value of the untyped map: a [v1.Master] or a [*v1.Master].  A pointer is
    stored under one key only, so a write through it is a write to its entry. *)
Inductive entry : Type :=
| EVal (m : Master)
| EPtr (m : Master).
Definition entry_master (e : entry) : Master := match e with EVal m | EPtr m => m end.

(** [base.Context]: a map that may not be allocated yet. *)
Abbreviation BaseContext := (option (gmap string entry)).
Definition base_NewContext : BaseContext := Some ∅.
Definition ctx_Value (c : BaseContext) (key : string) : option entry := c ≫= (.!! key).
Definition ctx_SetKV (key : string) (v : entry) (c : BaseContext) : BaseContext :=
  Some (<[key := v]> (default ∅ c)).
Definition ctx_Delete (key : string) (c : BaseContext) : outcome BaseContext :=
  match c with Some g => Ret (Some (delete key g)) | None => Panic "nil pointer dereference" end.

(** [CachedContext]: the nodes and the shared boot configuration. *)
Record CachedContext : Type := MkCached {
  Nodes : gmap string entry;
  cc_BootCFG : option ClusterSpec }.
Definition NewCachedContext (boot : option ClusterSpec) : CachedContext := MkCached ∅ boot.
Definition SetKV (key : string) (v : entry) (c : CachedContext) : CachedContext :=
  MkCached (<[key := v]> (Nodes c)) (cc_BootCFG c).
Definition AddMaster (m : Master) (c : CachedContext) : CachedContext := SetKV (m_Name m) (EVal m) c.
Definition RemoveMaster (key : string) (c : CachedContext) : CachedContext :=
  MkCached (delete key (Nodes c)) (cc_BootCFG c).

(** The [v1.Master] values, in the order the map is ranged over. *)
Definition val_entries (l : list entry) : list Master :=
  omap (λ e, match e with EVal m => Some m | EPtr _ => None end) l.
Definition GetMasters `{MapRange} (c : CachedContext) : list Master :=
  val_entries (range_vals 40 (Nodes c)).

(** ** pkg/operator/controllers/master/master.go *)
Definition AddMasters `{MapRange} (ms : list Master) (c : CachedContext) : CachedContext :=
  let gone := List.filter (λ mc, negb (existsb (λ m, bool_decide (m_Name mc = m_Name m)) ms)) (GetMasters c) in
  foldl (λ c m, AddMaster m c) (foldl (λ c mc, RemoveMaster (m_Name mc) c) c gone) ms.

(** ** HTTP *)

(** The body of a response: an error is wrapped in a status, other values are
    rendered as they are. *)
Inductive body : Type :=
| BError (msg : string)
| BText (s : string)
| BMaster (m : Master)
| BMasters (l : list Master)
| BCluster (c : Cluster)
| BStatus (status message : string).
Record response : Type := MkResponse { rs_Code : Z; rs_Body : body }.
Definition StatusOK : Z := 200.
Definition StatusBadRequest : Z := 400.
Definition StatusNotFound : Z := 404.
Definition StatusConflict : Z := 409.
Definition StatusInternalServerError : Z := 500.

(** The routes of routes.go, with the parameters of the path, the body of a POST
    as it was read, and any other request. *)
Inductive request : Type :=
| GetDebug | GetNodes | GetFake
| GetCredentials (id : string)
| GetCluster_ (id : string)
| PostNodes (body : string + goerr)
| DeleteNode (id : string)
| Unrouted.

Definition m_with_Meta (mt : ObjectMeta) (m : Master) : Master :=
  MkMaster (m_Type m) mt (m_Spec m) (m_Status m).
Definition m_set_BootCFG (c : option Cluster) (m : Master) : Master :=
  m_with_Status (mt_with_BootCFG c (m_Status m)) m.
(** [cache.BootCFG.Etcd.Endpoints = s] *)
Definition cs_with_Endpoints (s : string) (c : ClusterSpec) : ClusterSpec :=
  let e := cs_Etcd c in
  cs_with_Etcd (MkEtcdSpec (es_Unit e) s (es_InitToken e) (es_PeerCA e) (es_ServerCA e)) c.

Definition isEtcdRole (m : Master) : bool :=
  bool_decide (ms_Role (m_Spec m) = NODE_ROLE_HYBRID) || bool_decide (ms_Role (m_Spec m) = NODE_ROLE_ETCD).

Section operations.
Context {W : Type} `{Env W} `{MapRange} `{JM : Json Master}.

(** [DecodeBody(body)] *)
Definition DecodeBody (b : string + goerr) : Master + goerr :=
  match b with
  | inr e => inr e
  | inl result =>
      match Unmarshal result zeroMaster with
      | (_, Some e) => inr (GoErr ("unmarshal node spec error: " +:+ Error e +:+ " " +:+ result) false)
      | (node, None) => inl node
      end
  end.

(** [validate(node)]: sets a missing creation time. *)
Definition validate (node : Master) : IO W (Master * error) :=
  if decide (m_Name node = "") then mret (node, Errorf "node.name can not be empty")
  else if decide (ms_ID (m_Spec node) = "") then mret (node, Errorf "node.spec.id can not be empty")
  else if decide (ms_IP (m_Spec node) = "") then mret (node, Errorf "node.spec.ip can not be empty")
  else
    match om_CreationTimestamp (m_Meta node) with
    | Some _ => mret (node, None)
    | None =>
        now ← perform Now;
        mret (m_with_Meta (set_CreationTimestamp (Some now) (m_Meta node)) node, None)
    end.

Definition RegisterNode (cache : CachedContext) (b : string + goerr) : IO W (CachedContext * response) :=
  match DecodeBody b with
  | inr e => mret (cache, MkResponse StatusInternalServerError (BError (Error e)))
  | inl node =>
      '(node, err) ← validate node;
      match err with
      | Some e => mret (cache, MkResponse StatusConflict (BError (Error e)))
      | None => mret (SetKV (ms_ID (m_Spec node)) (EPtr node) cache, MkResponse StatusOK (BMaster node))
      end
  end.

(** The loop of [Credentials]: the node asked for and the etcd addresses; every
    entry is taken to be a pointer. *)
Fixpoint credentialsRange (id : string) (l : list (string * entry)) (node : option Master)
    (address : list string) : outcome (option Master * list string) :=
  match l with
  | [] => Ret (node, address)
  | (_, EVal _) :: _ => Panic "interface conversion: interface {} is v1.Master, not *v1.Master"
  | (k, EPtr v) :: rest =>
      credentialsRange id rest (if decide (k = id) then Some v else node)
        (if isEtcdRole v then address ++ [ms_IP (m_Spec v)] else address)
  end.

Definition Credentials (cache : CachedContext) (id : string) : IO W (CachedContext * response) :=
  if decide (id = "") then mret (cache, MkResponse StatusInternalServerError (BError "empty node id"))
  else
    '(node, address) ← lift (credentialsRange id (range_order 41 (Nodes cache)) None []);
    match node with
    | None => mret (cache, MkResponse StatusNotFound (BText "not found"))
    | Some node =>
        '(node, err) ← validate node;
        match err with
        | Some e => mret (SetKV id (EPtr node) cache, MkResponse StatusConflict (BError (Error e)))
        | None =>
            match cc_BootCFG cache with
            | None => panic "nil pointer dereference"
            | Some boot =>
                let boot := cs_with_Endpoints (Join address ",") boot in
                let node := m_set_BootCFG (Some (NewDefaultCluster "kubernetes-cluster" boot)) node in
                mret (MkCached (<[id := EPtr node]> (Nodes cache)) (Some boot),
                      MkResponse StatusOK (BMaster node))
            end
        end
    end.

(** The loop of [Debug]: every entry is taken to be a value. *)
Fixpoint debugRange (l : list entry) (acc : list Master) : outcome (list Master) :=
  match l with
  | [] => Ret acc
  | EPtr _ :: _ => Panic "interface conversion: interface {} is *v1.Master, not v1.Master"
  | EVal v :: rest => debugRange rest (acc ++ [v])
  end.
Definition Debug_ (cache : CachedContext) : IO W (CachedContext * response) :=
  nodes ← lift (debugRange (range_vals 42 (Nodes cache)) []);
  mret (cache, MkResponse StatusOK (BMasters nodes)).

Definition Cluster_ (cache : CachedContext) (id : string) : IO W (CachedContext * response) :=
  if decide (id = "") then mret (cache, MkResponse StatusInternalServerError (BError "empty node id"))
  else
    match cc_BootCFG cache with
    | None => panic "nil pointer dereference"
    | Some boot =>
        let spec := NewDefaultCluster "kubernetes-cluster" boot in
        let peers := map (λ m, MkHost (ms_ID (m_Spec m)) (ms_IP (m_Spec m))) (GetMasters cache) in
        mret (cache, MkResponse StatusOK (BCluster
                (MkCluster (cl_Type spec) (cl_Meta spec) (cl_Spec spec)
                   (MkClusterStatus (ct_Peers (cl_Status spec) ++ peers)))))
    end.

Definition FakeHandler (cache : CachedContext) : IO W (CachedContext * response) :=
  mret (cache, MkResponse StatusOK (BStatus "Success" "FakeHandler")).

(** [TokenAuthenticator.Authorize] lets every request pass. *)
Definition Authorize (r : request) : error := None.

(** routes.go: the handler of a route, behind the authentication. *)
Definition serve (cache : CachedContext) (r : request) : IO W (CachedContext * response) :=
  match Authorize r with
  | Some _ => mret (cache, MkResponse StatusBadRequest (BText "authentication failure"))
  | None =>
      match r with
      | GetDebug | GetNodes => Debug_ cache
      | GetFake => FakeHandler cache
      | GetCredentials id => Credentials cache id
      | GetCluster_ id => Cluster_ cache id
      | PostNodes b => RegisterNode cache b
      | DeleteNode _ => FakeHandler cache
      | Unrouted => mret (cache, MkResponse StatusNotFound (BText "404 page not found"))
      end
  end.

(** The reconciler of the master objects. *)
Definition Node_Reconcile (cache : CachedContext) : IO W (CachedContext * (ReconcileResult * error)) :=
  '(m, err) ← MasterCRDS;
  match err with
  | Some e =>
      if IsNotFound e then mret (AddMasters [] cache, (MkResult_ false 0, None))
      else mret (cache, (MkResult_ false 0, Some e))
  | None => mret (AddMasters m cache, (MkResult_ false 0, None))
  end.

(** pkg/operator/operator.go: [RefreshNodeCache], ending with the dump of the
    cache, which takes every entry to be a value. *)
Definition RefreshNodeCache (cache : CachedContext) : IO W (CachedContext * error) :=
  '(items, err) ← perform (KList KMaster None);
  match err with
  | Some e => mret (cache, Errorf ("build node cache: " +:+ Error e))
  | None =>
      let cache := foldl (λ c m, AddMaster m c) cache items in
      _ ← lift (debugRange (range_vals 43 (Nodes cache)) []);
      mret (cache, None)
  end.
End operations.

(** ** Lemmas *)

(** What the cache holds: values under their name, pointers under the id they
    registered with, which passed validation. *)
Definition entry_ok (k : string) (e : entry) : Prop :=
  match e with
  | EVal m => m_Name m = k
  | EPtr m => ms_ID (m_Spec m) = k ∧ m_Name m ≠ "" ∧ ms_ID (m_Spec m) ≠ "" ∧ ms_IP (m_Spec m) ≠ ""
  end.
Definition wf_cache (c : CachedContext) : Prop := map_Forall entry_ok (Nodes c).

Lemma val_entries_elem l m : m ∈ val_entries l ↔ EVal m ∈ l.
Proof.
  unfold val_entries. rewrite list_elem_of_omap. split.
  - intros ([m'|m'] & Hin & [= ->]). done.
  - intros Hin. by exists (EVal m).
Qed.

Lemma filter_name_unique m ms :
  NoDup (m_Name <$> ms) → m ∈ ms → last (filter (λ x, m_Name x = m_Name m) ms) = Some m.
Proof.
  induction ms as [|x ms IH]; [by intros _ ?%elem_of_nil|].
  rewrite fmap_cons, NoDup_cons. intros [Hx Hnd] [->|Hm]%elem_of_cons.
  - rewrite filter_cons_True by done.
    assert (filter (λ y, m_Name y = m_Name x) ms = []) as ->; [|done].
    destruct (filter (λ y, m_Name y = m_Name x) ms) as [|y l] eqn:E; [done|].
    assert (y ∈ filter (λ y, m_Name y = m_Name x) ms) as [Heq Hy]%list_elem_of_filter by (rewrite E; by left).
    destruct Hx. rewrite <- Heq. by apply list_elem_of_fmap_2.
  - rewrite filter_cons_False; [by apply IH|]. intros Heq. apply Hx. rewrite Heq. by apply list_elem_of_fmap_2.
Qed.

Section cache_facts.
Context `{MapRange, !MapRangeSpec}.

Lemma GetMasters_elem c m : m ∈ GetMasters c ↔ ∃ k, Nodes c !! k = Some (EVal m).
Proof.
  unfold GetMasters, range_vals. rewrite val_entries_elem, range_order_perm, list_elem_of_fmap. split.
  - intros ([k e] & He & Hin%elem_of_map_to_list). exists k. by rewrite Hin, He.
  - intros [k Hk]. exists (k, EVal m). by rewrite elem_of_map_to_list.
Qed.

Lemma GetMasters_NoDup c : wf_cache c → NoDup (GetMasters c).
Proof.
  intros Hwf. unfold GetMasters, range_vals.
  assert (∀ kv, kv ∈ range_order 40 (Nodes c) → entry_ok kv.1 kv.2) as Hok.
  { intros [k e]. rewrite range_order_perm, elem_of_map_to_list. apply Hwf. }
  assert (NoDup (range_order 40 (Nodes c)).*1) as Hnd.
  { rewrite range_order_perm. apply NoDup_fst_map_to_list. }
  induction (range_order 40 (Nodes c)) as [|[k e] l IH]; [constructor|].
  apply NoDup_cons in Hnd as [Hk Hnd].
  assert (NoDup (val_entries l.*2)) as Hl by (apply IH; [intros kv ?; apply Hok; by right|done]).
  destruct e as [m|m]; [|done]. apply NoDup_cons. split; [|done].
  change (m ∉ val_entries l.*2). rewrite val_entries_elem, list_elem_of_fmap.
  intros ([k' e'] & He & Hin). simpl in He. subst e'.
  assert (m_Name m = k) as <- by exact (Hok (k, EVal m) ltac:(by left)).
  assert (m_Name m = k') as <- by exact (Hok (k', EVal m) ltac:(by right)).
  apply Hk, list_elem_of_fmap. by exists (m_Name m, EVal m).
Qed.

Lemma foldl_RemoveMaster_lookup l c k :
  Nodes (foldl (λ c mc, RemoveMaster (m_Name mc) c) c l) !! k
  = if decide (k ∈ m_Name <$> l) then None else Nodes c !! k.
Proof.
  revert c. induction l as [|m l IH]; intros c; [done|]. cbn [foldl]. rewrite IH, fmap_cons.
  destruct (decide (k ∈ m_Name <$> l)), (decide (k ∈ m_Name m :: (m_Name <$> l))) as [Hin|Hno];
    rewrite ?elem_of_cons in *; try done; try tauto.
  - destruct Hin as [->|]; [|done]. apply lookup_delete_eq.
  - apply lookup_delete_ne. naive_solver.
Qed.

Lemma foldl_AddMaster_lookup l c k :
  Nodes (foldl (λ c m, AddMaster m c) c l) !! k
  = match last (filter (λ m, m_Name m = k) l) with Some m => Some (EVal m) | None => Nodes c !! k end.
Proof.
  induction l as [|m l IH] using rev_ind; [done|].
  rewrite foldl_snoc, filter_app.
  destruct (decide (m_Name m = k)) as [<-|Hne].
  - rewrite (filter_cons_True _ m []) by done. rewrite filter_nil, last_snoc. apply lookup_insert_eq.
  - rewrite (filter_cons_False _ m []) by done. rewrite filter_nil, app_nil_r, <- IH.
    by apply lookup_insert_ne.
Qed.

(** The cache after synchronizing with a list of masters: a key holds the last
    master of that name, otherwise the pointer it held, if any. *)
Lemma AddMasters_lookup ms c k :
  wf_cache c →
  Nodes (AddMasters ms c) !! k
  = match last (filter (λ m, m_Name m = k) ms) with
    | Some m => Some (EVal m)
    | None => match Nodes c !! k with Some (EPtr m) => Some (EPtr m) | _ => None end
    end.
Proof.
  intros Hwf. unfold AddMasters. rewrite foldl_AddMaster_lookup.
  destruct (last (filter _ ms)) as [m|] eqn:Hl; [done|]. apply last_None in Hl.
  rewrite foldl_RemoveMaster_lookup.
  assert (∀ m, m ∈ ms → m_Name m ≠ k) as Hno.
  { intros m Hm Hk. assert (m ∈ filter (λ m, m_Name m = k) ms) as Hf by (by apply list_elem_of_filter).
    rewrite Hl in Hf. by apply elem_of_nil in Hf. }
  case_decide as Hd.
  - apply list_elem_of_fmap in Hd as (mc & -> & Hmc). apply list_elem_of_In, filter_In in Hmc as [Hmc _].
    apply list_elem_of_In, GetMasters_elem in Hmc as [k' Hk'].
    assert (m_Name mc = k') as -> by exact (Hwf _ _ Hk'). by rewrite Hk'.
  - destruct (Nodes c !! k) as [[m|m]|] eqn:Hk; [|done..]. destruct Hd.
    apply list_elem_of_fmap. exists m. assert (m_Name m = k) as Hn by exact (Hwf _ _ Hk).
    split; [done|]. apply list_elem_of_In, filter_In. split.
    + apply list_elem_of_In, GetMasters_elem. by exists k.
    + apply negb_true_iff, not_true_iff_false. rewrite existsb_exists.
      intros (m' & Hm'%list_elem_of_In & Heq%bool_decide_eq_true). apply (Hno m' Hm'). congruence.
Qed.

Lemma AddMasters_wf ms c : wf_cache c → wf_cache (AddMasters ms c).
Proof.
  intros Hwf k e. rewrite AddMasters_lookup by done.
  destruct (last (filter _ ms)) as [m|] eqn:Hl.
  - intros [= <-]. apply last_Some_elem_of, list_elem_of_filter in Hl as [Hn _]. exact Hn.
  - destruct (Nodes c !! k) as [[m|m]|] eqn:Hk; [done| |done]. intros [= <-]. exact (Hwf _ _ Hk).
Qed.
End cache_facts.

(** The addresses of the nodes that serve etcd. *)
Definition etcdAddresses (l : list (string * entry)) : list string :=
  omap (λ kv, if isEtcdRole (entry_master kv.2) then Some (ms_IP (m_Spec (entry_master kv.2))) else None) l.

Lemma credentialsRange_ptrs id l r0 acc :
  (∀ k m, (k, EVal m) ∉ l) → NoDup l.*1 →
  ∃ r, credentialsRange id l r0 acc = Ret (r, acc ++ etcdAddresses l) ∧
       (∀ m, (id, EPtr m) ∈ l → r = Some m) ∧
       (id ∉ l.*1 → r = r0) ∧ (∀ m, r = Some m → r0 = Some m ∨ (id, EPtr m) ∈ l).
Proof.
  revert r0 acc. induction l as [|[k [m|m]] l IH]; intros r0 acc Hno Hnd; simpl.
  - exists r0. rewrite app_nil_r. split_and!; [done| |done|by left]. intros m Hm. by apply elem_of_nil in Hm.
  - exfalso. apply (Hno k m). by left.
  - apply NoDup_cons in Hnd as [Hk Hnd].
    destruct (IH (if decide (k = id) then Some m else r0)
                 (if isEtcdRole m then acc ++ [ms_IP (m_Spec m)] else acc)) as (r & -> & H1 & H2 & H3);
      [intros k' m' Hin; apply (Hno k' m'); by right|done|].
    exists r. split_and!.
    + f_equal. f_equal. destruct (isEtcdRole m); [by rewrite <- app_assoc|done].
    + intros m' [[= -> ->]|Hin]%elem_of_cons; [|by apply H1].
      rewrite H2 by done. by rewrite decide_True.
    + rewrite not_elem_of_cons. intros [Hne Hni]. rewrite H2 by done. by rewrite decide_False by congruence.
    + intros m' Hr. destruct (H3 m' Hr) as [Hd|Hin]; [|right; by right].
      case_decide as Hk2; [injection Hd as ->; subst; right; by left|by left].
Qed.

Lemma credentialsRange_panic id l r0 acc :
  (∃ msg, credentialsRange id l r0 acc = Panic msg) ↔ ∃ k m, (k, EVal m) ∈ l.
Proof.
  revert r0 acc. induction l as [|[k [m|m]] l IH]; intros r0 acc; simpl.
  - split; [by intros []|]. intros (k & m & Hm). by apply elem_of_nil in Hm.
  - split; [|by eauto]. intros _. exists k, m. by left.
  - rewrite IH. split; intros (k' & m' & Hin); exists k', m'; [by right|].
    by apply elem_of_cons in Hin as [|].
Qed.

Lemma credentialsRange_no_hang id l r0 acc : credentialsRange id l r0 acc ≠ Hang.
Proof. revert r0 acc. induction l as [|[k [m|m]] l IH]; intros r0 acc; simpl; auto. Qed.

Lemma debugRange_panic l acc :
  (∃ msg, debugRange l acc = Panic msg) ↔ ∃ m, EPtr m ∈ l.
Proof.
  revert acc. induction l as [|[m|m] l IH]; intros acc; simpl.
  - split; [by intros []|]. intros (m & Hm). by apply elem_of_nil in Hm.
  - rewrite IH. split; intros (m' & Hin); exists m'; [by right|]. by apply elem_of_cons in Hin as [|].
  - split; [|by eauto]. intros _. exists m. by left.
Qed.

Section server_facts.
Context {W : Type} `{Env W} `{MapRange, !MapRangeSpec} `{JM : Json Master}.

(** A valid node is one with a name, an id and an address; validating changes
    its creation time only. *)
Lemma validate_inv m (s s' : St W) m' err :
  validate m s = (Ret (m', err), s') →
  m_Spec m' = m_Spec m ∧ m_Name m' = m_Name m ∧
  (err = None → m_Name m ≠ "" ∧ ms_ID (m_Spec m) ≠ "" ∧ ms_IP (m_Spec m) ≠ "" ∧
                om_CreationTimestamp (m_Meta m') ≠ None).
Proof.
  unfold validate. do 3 (case_decide; [by intros [= <- <- _]|]).
  destruct (om_CreationTimestamp (m_Meta m)) as [t|] eqn:Ht; [intros [= <- <- _]; by rewrite Ht|].
  intros HV. step_perform_in HV. by injection HV as <- <- _.
Qed.

Lemma validate_ok m (s : St W) :
  m_Name m ≠ "" → ms_ID (m_Spec m) ≠ "" → ms_IP (m_Spec m) ≠ "" → om_CreationTimestamp (m_Meta m) ≠ None →
  validate m s = (Ret (m, None), s).
Proof.
  intros. unfold validate. rewrite !decide_False by done. by destruct (om_CreationTimestamp (m_Meta m)).
Qed.

Lemma validate_no_panic m (s s' : St W) msg : validate m s ≠ (Panic msg, s') ∧ validate m s ≠ (Hang, s').
Proof.
  unfold validate. repeat case_decide; try done.
  destruct (om_CreationTimestamp (m_Meta m)); [done|]. by step_perform.
Qed.

(** Steps of the server: a request that returns, a pass of the reconciler or of
    the initial fill. *)
Inductive cache_step : CachedContext → CachedContext → Prop :=
| step_request c r s c' resp s' : serve (W:=W) c r s = (Ret (c', resp), s') → cache_step c c'
| step_reconcile c s c' res s' : Node_Reconcile (W:=W) c s = (Ret (c', res), s') → cache_step c c'
| step_refresh c s c' err s' : RefreshNodeCache (W:=W) c s = (Ret (c', err), s') → cache_step c c'.

Lemma SetKV_wf k e c : entry_ok k e → wf_cache c → wf_cache (SetKV k e c).
Proof. intros He Hwf. by apply map_Forall_insert_2. Qed.

Lemma Credentials_wf c id (s s' : St W) c' resp :
  Credentials c id s = (Ret (c', resp), s') → wf_cache c → wf_cache c'.
Proof.
  unfold Credentials. case_decide; [by intros [= <- _ _]|].
  intros ([node address] & s1 & HR & HC)%bind_Ret_inv Hwf. injection HR as HR <-.
  destruct node as [node|]; [|by injection HC as <- _ _].
  apply bind_Ret_inv in HC as ([node' err] & s2 & HV & HC). apply validate_inv in HV as (Hsp & Hnm & _).
  assert (entry_ok id (EPtr node)) as Hok.
  { assert (¬ ∃ k m, (k, EVal m) ∈ range_order 41 (Nodes c)) as Hno.
    { rewrite <- (credentialsRange_panic id _ None []). intros [msg Hp]. congruence. }
    destruct (credentialsRange_ptrs id (range_order 41 (Nodes c)) None []) as (r & Hr & _ & _ & H3);
      [naive_solver|rewrite range_order_perm; apply NoDup_fst_map_to_list|].
    rewrite HR in Hr. injection Hr as <- _. destruct (H3 node eq_refl) as [|Hin]; [done|].
    rewrite range_order_perm, elem_of_map_to_list in Hin. exact (Hwf _ _ Hin). }
  assert (entry_ok id (EPtr node')) as Hok' by (unfold entry_ok in *; by rewrite Hsp, Hnm).
  destruct err; [injection HC as <- _ _; by apply SetKV_wf|].
  destruct (cc_BootCFG c); [|done]. injection HC as <- _ _. by apply map_Forall_insert_2.
Qed.

Lemma cache_step_wf c c' : cache_step c c' → wf_cache c → wf_cache c'.
Proof.
  intros [c1 r s c2 resp s' Hs|c1 s c2 res s' Hs|c1 s c2 err s' Hs] Hwf.
  - unfold serve in Hs. simpl in Hs. destruct r as [| | |id|id|b|id|]; simpl in Hs.
    1,2: unfold Debug_ in Hs; apply bind_Ret_inv in Hs as (? & ? & _ & Hs); by injection Hs as <- _ _.
    1,5,6: by injection Hs as <- _ _.
    + by eapply Credentials_wf.
    + unfold Cluster_ in Hs. case_decide; [by injection Hs as <- _ _|].
      destruct (cc_BootCFG _); [by injection Hs as <- _ _|done].
    + unfold RegisterNode in Hs. destruct (DecodeBody b) as [node|e]; [|by injection Hs as <- _ _].
      apply bind_Ret_inv in Hs as ([node' err] & s1 & HV & Hs). apply validate_inv in HV as (Hsp & Hnm & Hv).
      destruct err; [by injection Hs as <- _ _|]. injection Hs as <- _ _. apply SetKV_wf; [|done].
      destruct (Hv eq_refl) as (? & ? & ? & _). unfold entry_ok. by rewrite Hsp, Hnm.
  - unfold Node_Reconcile in Hs. apply bind_Ret_inv in Hs as ([m err] & s1 & _ & Hs).
    destruct err as [e|]; [destruct (IsNotFound e)|]; injection Hs as <- _ _; try done; by apply AddMasters_wf.
  - unfold RefreshNodeCache in Hs. apply bind_Ret_inv in Hs as ([m er] & s1 & _ & Hs).
    destruct er as [e|]; [by injection Hs as <- _ _|]. apply bind_Ret_inv in Hs as (? & ? & _ & Hs).
    injection Hs as <- _ _. clear -Hwf. revert c1 Hwf. induction m as [|x m IH]; intros c1 Hwf; [done|].
    simpl. apply IH. by apply SetKV_wf.
Qed.
End server_facts.

(** ** Properties *)
Section properties.
Context {W : Type} `{Env W} `{MapRange, !MapRangeSpec} `{JM : Json Master}.

(** C8: in every state the server reaches, by any sequence of requests and
    reconciler passes, a pass that lists masters of distinct names makes the
    masters of the cache exactly those, and keeps no pointer that was not there. *)
Theorem reconcile_syncs_cache boot c (ms : list Master) (s : St W) :
  rtc (cache_step (W:=W)) (NewCachedContext boot) c →
  (env_step (KList KMaster None) (world s)).1 = (ms, None) → NoDup (m_Name <$> ms) →
  ∃ c' s', Node_Reconcile c s = (Ret (c', (MkResult_ false 0, None)), s') ∧
           GetMasters c' ≡ₚ ms ∧
           (∀ k m, Nodes c' !! k = Some (EPtr m) → Nodes c !! k = Some (EPtr m)).
Proof.
  intros Hr Hms Hnd.
  assert (wf_cache c) as Hwf.
  { refine (rtc_ind_r (λ c, wf_cache c) _ _ _ _ Hr); [apply map_Forall_empty|].
    intros x y _ Hs Hx. by eapply cache_step_wf. }
  exists (AddMasters ms c). eexists. split_and!.
  - unfold Node_Reconcile, MasterCRDS. step_perform. by rewrite Hms.
  - apply NoDup_Permutation.
    + by apply GetMasters_NoDup, AddMasters_wf.
    + by apply NoDup_fmap_1 in Hnd.
    + intros m. rewrite GetMasters_elem. setoid_rewrite AddMasters_lookup; [|done]. split.
      * intros [k Hk]. destruct (last (filter (λ m, m_Name m = k) ms)) as [m'|] eqn:Hl; [|by destruct (Nodes c !! k) as [[]|]].
        injection Hk as ->. by apply last_Some_elem_of, list_elem_of_filter in Hl as [_ ?].
      * intros Hm. exists (m_Name m). rewrite (filter_name_unique m ms) by done. done.
  - intros k m. rewrite AddMasters_lookup by done. destruct (last _); [done|].
    by destruct (Nodes c !! k) as [[]|].
Qed.

(** C28: which requests crash: with a boot configuration, asking for credentials
    panics exactly when the cache holds a master added by the operator, and the
    node listing exactly when it holds a node registered over HTTP. *)
Theorem handlers_panic_iff c boot id (s : St W) :
  cc_BootCFG c = Some boot → id ≠ "" →
  ((∃ msg s', serve c (GetCredentials id) s = (Panic msg, s')) ↔ ∃ k m, Nodes c !! k = Some (EVal m)) ∧
  ((∃ msg s', serve c GetNodes s = (Panic msg, s')) ↔ ∃ k m, Nodes c !! k = Some (EPtr m)).
Proof.
  intros Hb Hid. split.
  - transitivity (∃ msg, credentialsRange id (range_order 41 (Nodes c)) None [] = Panic msg).
    + unfold serve, Credentials. simpl. rewrite decide_False by done. unfold lift. rewrite bind_unfold.
      destruct (credentialsRange _ _ _ _) as [[node addr]|msg|] eqn:E; [|naive_solver..].
      split; [|by intros []]. intros (msg & s' & HP). exfalso.
      destruct node as [node|]; [|done]. rewrite bind_unfold, Hb in HP.
      destruct (validate node s) as [[[node' [e|]]|msg'|] s1] eqn:EV; try done.
      by apply (validate_no_panic node s s1 msg') in EV.
    + rewrite credentialsRange_panic. by setoid_rewrite range_order_perm; setoid_rewrite elem_of_map_to_list.
  - transitivity (∃ msg, debugRange (range_vals 42 (Nodes c)) [] = Panic msg).
    + unfold serve, Debug_. simpl. unfold lift. rewrite bind_unfold.
      destruct (debugRange _ _) as [l|msg|] eqn:E; naive_solver.
    + rewrite debugRange_panic. unfold range_vals. setoid_rewrite list_elem_of_fmap. split.
      * intros (m & [k e] & He & Hin). rewrite range_order_perm, elem_of_map_to_list in Hin.
        exists k, m. simpl in He. by subst.
      * intros (k & m & Hk). exists m, (k, EPtr m). by rewrite range_order_perm, elem_of_map_to_list.
Qed.

(** A node that registered gets its credentials: as long as only registered
    nodes are cached, the response is the node as registered with a cluster made
    of the boot configuration, whose etcd endpoints are the addresses of all
    registered nodes with an etcd role. *)
Theorem registered_gets_credentials c b boot m c1 (s s1 s2 : St W) :
  serve c (PostNodes b) s = (Ret (c1, MkResponse StatusOK (BMaster m)), s1) →
  (∀ k m, Nodes c !! k ≠ Some (EVal m)) → cc_BootCFG c = Some boot →
  ∃ address c2,
    address ≡ₚ etcdAddresses (map_to_list (Nodes c1)) ∧
    serve c1 (GetCredentials (ms_ID (m_Spec m))) s2
    = (Ret (c2, MkResponse StatusOK (BMaster (m_set_BootCFG
         (Some (NewDefaultCluster "kubernetes-cluster" (cs_with_Endpoints (Join address ",") boot))) m))), s2).
Proof.
  unfold serve. simpl. intros HR Hno Hb. unfold RegisterNode in HR.
  destruct (DecodeBody b) as [node|e]; [|done].
  apply bind_Ret_inv in HR as ([node' err] & s' & HV & HR). apply validate_inv in HV as (Hsp & Hnm & Hv).
  destruct err; [done|]. injection HR as <- <- _. destruct (Hv eq_refl) as (Hn & Hi & Hp & Ht).
  rewrite <- Hsp in Hi, Hp. rewrite <- Hnm in Hn. clear Hv Hsp Hnm node.
  set (c1 := SetKV _ _ c).
  destruct (credentialsRange_ptrs (ms_ID (m_Spec node')) (range_order 41 (Nodes c1)) None [])
    as (r & Hr & Hfound & _ & _).
  { intros k m. rewrite range_order_perm, elem_of_map_to_list. unfold c1. simpl.
    rewrite lookup_insert_Some. intros [[_ ?]|[_ Hk]]; [done|by apply (Hno k m)]. }
  { rewrite range_order_perm. apply NoDup_fst_map_to_list. }
  rewrite (Hfound node') in Hr by (rewrite range_order_perm, elem_of_map_to_list; apply lookup_insert_eq).
  exists (etcdAddresses (range_order 41 (Nodes c1))). eexists. split.
  - unfold etcdAddresses. by rewrite range_order_perm.
  - unfold Credentials. rewrite decide_False, Hr by done. unfold lift at 1. rewrite bind_unfold.
    rewrite bind_unfold, validate_ok by done. simpl. by rewrite Hb.
Qed.
End properties.

(** ** Witnesses *)
Import SimEnv SimWait.

Module SimServer.
Definition node_of (name id ip role : string) : Master :=
  MkMaster noType (metaNamed name) (MkMasterSpec ip id role) (MkMasterStatus [] None "").
(** A body is the name of a node. *)
#[export] Instance json_master : Json Master :=
  {| Marshal m := m_Name m;
     Unmarshal s _ := (node_of s ("cn." +:+ s) s NODE_ROLE_HYBRID, None) |}.
Definition boot0 : ClusterSpec := zeroClusterSpec.
Definition cache0 : CachedContext := NewCachedContext (Some boot0).
Definition m1 : Master := node_of "m1" "cn.m1" "10.0.0.1" NODE_ROLE_HYBRID.
(** A node registered and a master added by the operator. *)
Definition mixed : CachedContext := AddMaster m1 (SetKV "cn.n1" (EPtr (node_of "n1" "cn.n1" "n1" NODE_ROLE_WORKER)) cache0).
Definition master_script (c : call) (_ : Z) : option (reply c) :=
  match c return option (reply c) with
  | KList KMaster _ => Some ([m1], None)
  | _ => None
  end.
End SimServer.
Import SimServer.

Lemma reconcile_syncs_cache_witness :
  let E := scripted master_script : Env Z in
  let c := (serve (W:=Z) cache0 (PostNodes (inl "n1")) (start_at 0)).1 in
  ∃ c0 resp, c = Ret (c0, resp) ∧
  ∃ c' s', Node_Reconcile (W:=Z) c0 (start_at 0) = (Ret (c', (MkResult_ false 0, None)), s') ∧
           GetMasters c' ≡ₚ [m1] ∧
           (∀ k m, Nodes c' !! k = Some (EPtr m) → Nodes c0 !! k = Some (EPtr m)).
Proof.
  intros E c. do 2 eexists. split; [vm_compute; reflexivity|].
  refine (reconcile_syncs_cache (W:=Z) (Some boot0) _ [m1] (start_at 0) _ eq_refl _).
  - eapply rtc_once, (step_request _ (PostNodes (inl "n1")) (start_at 0)). vm_compute. reflexivity.
  - apply NoDup_singleton.
Defined.

Lemma handlers_panic_iff_witness :
  ((∃ msg s', serve (W:=Z) mixed (GetCredentials "cn.n1") (start_at 0) = (Panic msg, s')) ↔
   ∃ k m, Nodes mixed !! k = Some (EVal m)) ∧
  ((∃ msg s', serve (W:=Z) mixed GetNodes (start_at 0) = (Panic msg, s')) ↔
   ∃ k m, Nodes mixed !! k = Some (EPtr m)).
Proof. apply (handlers_panic_iff (W:=Z) mixed boot0 "cn.n1" (start_at 0)); [reflexivity|done]. Defined.

(** One cache on which both crash. *)
Example mixed_cache_crashes :
  (∃ msg s', serve (W:=Z) mixed (GetCredentials "cn.n1") (start_at 0) = (Panic msg, s')) ∧
  (∃ msg s', serve (W:=Z) mixed GetNodes (start_at 0) = (Panic msg, s')).
Proof. split; do 2 eexists; vm_compute; reflexivity. Qed.

Lemma registered_gets_credentials_witness :
  let m := m_with_Meta (set_CreationTimestamp (Some 0) (metaNamed "n1"))
             (node_of "n1" "cn.n1" "n1" NODE_ROLE_HYBRID) in
  ∃ address c2,
    address ≡ₚ etcdAddresses (map_to_list (Nodes (SetKV "cn.n1" (EPtr m) cache0))) ∧
    serve (W:=Z) (SetKV "cn.n1" (EPtr m) cache0) (GetCredentials "cn.n1") (start_at 5)
    = (Ret (c2, MkResponse StatusOK (BMaster (m_set_BootCFG
         (Some (NewDefaultCluster "kubernetes-cluster" (cs_with_Endpoints (Join address ",") boot0))) m))), start_at 5).
Proof.
  intros m.
  refine (registered_gets_credentials (W:=Z) cache0 (inl "n1") boot0 m (SetKV "cn.n1" (EPtr m) cache0)
    (start_at 0) (MkSt 0 [Now]) (start_at 5) _ _ _); [vm_compute; reflexivity|done|reflexivity].
Defined.
