(* ===== verification/Actions.v ===== *)
(** * Actions of a node (pkg/actions)

    The context of a node (pkg/context/nodecontext.go), the runner of actions and
    the concurrent action of action.go, with the data race of its list of errors
    as an interleaving of goroutines. *)
From stdpp Require Import base list gmap strings relations.
From Stdlib Require Import Lia.
From S2P Require Import Prelude GoStrings GoTime Api Effects Utils Provider Rest.
Local Open Scope Z_scope.

(** ** pkg/context/nodecontext.go

    A [sync.Map] under fixed keys: the flags, the clients (when there is an
    endpoint), the node object, the provider context. *)
Record NodeContext : Type := MkNodeContext {
  nc_flags : WdripOptions;
  nc_client : option RESTClient;
  nc_node : option (option Master);
  nc_provider : option Context_ }.
Definition nc_with_node (n : option Master) (c : NodeContext) : NodeContext :=
  MkNodeContext (nc_flags c) (nc_client c) (Some n) (nc_provider c).
Definition nc_with_provider (p : Context_) (c : NodeContext) : NodeContext :=
  MkNodeContext (nc_flags c) (nc_client c) (nc_node c) (Some p).

Definition NewNodeContext `{UrlLib} (flags : WdripOptions) : NodeContext + goerr :=
  if decide (wo_Endpoint flags = "") then inl (MkNodeContext flags None None None)
  else
    match RestClientForWDRIP (wo_Endpoint flags) with
    | inr e => inr (GoErr ("construct rest client: " +:+ Error e) false)
    | inl restc => inl (MkNodeContext flags (Some restc) None None)
    end.

Abbreviation Action W := (NodeContext → IO W error).

Section context.
Context {W : Type}.

(** A type assertion on a key that was never set panics. *)
Definition NodeObject (c : NodeContext) : IO W (option Master) :=
  match nc_node c with
  | Some n => mret n
  | None => panic "interface conversion: interface {} is nil, not *v1.Master"
  end.
Definition bootClient (c : NodeContext) : IO W RESTClient :=
  match nc_client c with
  | Some r => mret r
  | None => panic "interface conversion: interface {} is nil"
  end.
Definition ProviderCtx (c : NodeContext) : IO W Context_ :=
  match nc_provider c with
  | Some p => mret p
  | None => panic "interface conversion: interface {} is nil, not *provider.Context"
  end.
Definition WdripFlags (c : NodeContext) : WdripOptions := nc_flags c.
Definition ExpectedMasterCnt (c : NodeContext) : Z := wo_ExpectedMasterCnt (nc_flags c).

(** A pointer that is followed. *)
Definition deref {A} (p : option A) : IO W A :=
  match p with Some a => mret a | None => panic "nil pointer dereference" end.

(** ** action.go *)
Fixpoint RunActions (actions : list (Action W)) (ctx : NodeContext) : IO W error :=
  match actions with
  | [] => mret None
  | action :: rest =>
      err ← action ctx;
      match err with
      | Some e => mret (Some e)
      | None => RunActions rest ctx
      end
  end.

(** [Retryable.Execute], whose body calls [r.Execute] and not the embedded
    action's: [fuel] is the depth of the stack. *)
Fixpoint Retryable_Execute (fuel : nat) (ExponentialBackoff : IO W (bool * error) → IO W error)
    (RetryOn : list (error → bool)) : IO W error :=
  match fuel with
  | O => hang
  | S fuel =>
      ExponentialBackoff
        (err ← Retryable_Execute fuel ExponentialBackoff RetryOn;
         if existsb (λ need, need err) RetryOn then mret (false, None) else mret (true, err))
  end.

(** The retry of [DefaultRetry]. *)
Definition RETRY_WORD : string := "please retry".
Definition default_decider (err : error) : bool :=
  match err with Some e => Contains (Error e) RETRY_WORD | None => false end.
End context.

(** *** [ConcurrentAction.Execute]

    Every goroutine runs its action and appends a failure to the one slice of
    errors, without a lock.  The slice is three words; a goroutine reads them,
    stores the error in the array or in a grown copy of it, and writes the three
    words back.  Any step of another goroutine may come in between. *)
Record slice : Type := MkSlice { sl_ptr : nat; sl_len : nat; sl_cap : nat }.

Inductive goroutine : Type :=
| GRun                                    (* the action has not returned *)
| GReadPtr (e : goerr)
| GReadLen (e : goerr) (ptr : nat)
| GReadCap (e : goerr) (ptr len : nat)
| GAppend (e : goerr) (s : slice)
| GWritePtr (e : goerr) (s : slice)
| GWriteLen (e : goerr) (s : slice)
| GWriteCap (e : goerr) (s : slice)
| GDone (result : error).

Record cstate : Type := MkCState {
  errs : slice;
  arrays : list (list error);             (* by address; slot 0 is the nil slice *)
  goroutines : list goroutine }.
Definition cinit (n : nat) : cstate := MkCState (MkSlice 0 0 0) [[]] (replicate n GRun).

Definition growslice (cap : nat) : nat := if (cap =? 0)%nat then 1 else 2 * cap.
Definition padded (n : nat) (l : list error) : list error := take n (l ++ replicate n None).

(** [append(s, e)]: the arrays and the slice afterwards. *)
Definition append1 (heap : list (list error)) (s : slice) (e : goerr) : list (list error) * slice :=
  let old := default [] (heap !! sl_ptr s) in
  if (sl_len s <? sl_cap s)%nat then
    (<[sl_ptr s := <[sl_len s := Some e]> old]> heap, MkSlice (sl_ptr s) (S (sl_len s)) (sl_cap s))
  else
    let cap := growslice (sl_cap s) in
    (heap ++ [padded (Nat.max cap (S (sl_len s))) (padded (sl_len s) old ++ [Some e])],
     MkSlice (length heap) (S (sl_len s)) (Nat.max cap (S (sl_len s)))).

(** One step of a goroutine. *)
Inductive gstep (s : slice) (heap : list (list error)) : goroutine → slice → list (list error) → goroutine → Prop :=
| g_ok : gstep s heap GRun s heap (GDone None)
| g_fail e : gstep s heap GRun s heap (GReadPtr e)
| g_ptr e : gstep s heap (GReadPtr e) s heap (GReadLen e (sl_ptr s))
| g_len e p : gstep s heap (GReadLen e p) s heap (GReadCap e p (sl_len s))
| g_cap e p l : gstep s heap (GReadCap e p l) s heap (GAppend e (MkSlice p l (sl_cap s)))
| g_append e t : gstep s heap (GAppend e t) s (append1 heap t e).1 (GWritePtr e (append1 heap t e).2)
| g_wptr e t : gstep s heap (GWritePtr e t) (MkSlice (sl_ptr t) (sl_len s) (sl_cap s)) heap (GWriteLen e t)
| g_wlen e t : gstep s heap (GWriteLen e t) (MkSlice (sl_ptr s) (sl_len t) (sl_cap s)) heap (GWriteCap e t)
| g_wcap e t : gstep s heap (GWriteCap e t) (MkSlice (sl_ptr s) (sl_len s) (sl_cap t)) heap (GDone (Some e)).

Inductive cstep : cstate → cstate → Prop :=
| cstep_go st i g s' heap' g' :
    goroutines st !! i = Some g → gstep (errs st) (arrays st) g s' heap' g' →
    cstep st (MkCState s' heap' (<[i := g']> (goroutines st))).

(** [grp.Wait()] has returned. *)
Definition finished (st : cstate) : Prop := Forall (λ g, ∃ r, g = GDone r) (goroutines st).

(** What [Execute] returns then: nil, or the slice as an error, whose text reads
    the array. *)
Definition cresult (st : cstate) : outcome error :=
  if (sl_len (errs st) <=? 0)%nat then Ret None
  else
    match arrays st !! sl_ptr (errs st) with
    | Some arr => if (sl_len (errs st) <=? length arr)%nat then Ret (as_error (take (sl_len (errs st)) arr))
                  else Panic "runtime error: index out of range"
    | None => Panic "runtime error: invalid memory address"
    end.

(** ** Facts of the runner *)
Section runner.
Context {W : Type} `{Env W}.

Lemma emits_RunActions P (actions : list (Action W)) ctx :
  (∀ a, a ∈ actions → emits P (a ctx)) → emits P (RunActions actions ctx).
Proof.
  induction actions as [|a actions IH]; intros Ha; cbn [RunActions]; [apply emits_ret|].
  apply emits_bind; [apply Ha; set_solver|]. intros []; [apply emits_ret|]. apply IH. set_solver.
Qed.

(** A call the first actions do not make was made after all of them returned
    nil. *)
Lemma RunActions_calls P (pre post : list (Action W)) ctx s c :
  (∀ a, a ∈ pre → emits P (a ctx)) → (∀ a, a ∈ post → emits (λ _, True) (a ctx)) → ¬ P c →
  calls (RunActions (pre ++ post) ctx) s c →
  ∃ s1, RunActions pre ctx s = (Ret None, s1) ∧ calls (RunActions post ctx) s1 c.
Proof.
  intros Hpre Hpost HP. revert s. induction pre as [|a pre IH]; intros s Hc; [by exists s|].
  cbn [RunActions app] in Hc |- *. apply (calls_bind_inv P) in Hc as (err & s1 & E & Hc); [|apply Hpre; set_solver|done|].
  - destruct err; [by apply calls_ret in Hc|]. apply IH in Hc as (s2 & E2 & Hc); [|set_solver].
    exists s2. by rewrite (bind_Ret _ _ _ _ _ E).
  - intros []; [apply emits_ret|]. apply emits_RunActions. intros b [Hb|Hb]%elem_of_app; [|by apply Hpost].
    eapply emits_weaken; [|apply Hpre; set_solver]. done.
Qed.
End runner.

(** ** Facts of the concurrent action *)
Definition published (g : goroutine) : Prop :=
  match g with GWriteCap _ _ | GDone (Some _) => True | _ => False end.
Definition pending_ok (g : goroutine) : Prop :=
  match g with GWritePtr _ t | GWriteLen _ t => (0 < sl_len t)%nat | _ => True end.

(** The length word is positive exactly when some goroutine has written it. *)
Definition cinv (st : cstate) : Prop :=
  (∀ i g, goroutines st !! i = Some g → pending_ok g) ∧
  ((0 < sl_len (errs st))%nat ↔ ∃ i g, goroutines st !! i = Some g ∧ published g).

Lemma append1_len heap s e : sl_len (append1 heap s e).2 = S (sl_len s).
Proof. unfold append1. by destruct (sl_len s <? sl_cap s)%nat. Qed.

Lemma gstep_pending s heap g s' heap' g' : gstep s heap g s' heap' g' → pending_ok g → pending_ok g'.
Proof. intros []; cbn [pending_ok]; try done. intros _. rewrite append1_len. lia. Qed.

(** A step writes the length word, as a positive number, when it publishes. *)
Lemma gstep_len s heap g s' heap' g' : gstep s heap g s' heap' g' → pending_ok g →
  (sl_len s' = sl_len s ∧ (published g' ↔ published g)) ∨ ((0 < sl_len s')%nat ∧ published g').
Proof. intros []; cbn [published pending_ok sl_len]; try (by left). by right. Qed.

Lemma cinv_init n : cinv (cinit n).
Proof.
  split; cbn [errs goroutines cinit sl_len].
  - intros i g Hg. by apply lookup_replicate in Hg as [-> _].
  - split; [lia|]. intros (i & g & Hg & Hp). by apply lookup_replicate in Hg as [-> _].
Qed.

Lemma cinv_step st st' : cstep st st' → cinv st → cinv st'.
Proof.
  intros [st0 i g s' heap' g' Hi Hg] [Hp Hl]. pose proof (Hp _ _ Hi) as Hpg.
  assert (i < length (goroutines st0))%nat as Hlt by (by eapply lookup_lt_Some).
  split; cbn [errs goroutines].
  - intros j h [(-> & <- & _)|[Hne Hj]]%list_lookup_insert_Some; [by eapply gstep_pending|by eapply Hp].
  - destruct (gstep_len _ _ _ _ _ _ Hg Hpg) as [[-> Hiff]|[Hpos Hpub]].
    + rewrite Hl. split; intros (j & h & Hj & Hh).
      * destruct (decide (i = j)) as [->|Hne].
        -- exists j, g'. rewrite list_lookup_insert_eq by done. split; [done|]. apply Hiff. congruence.
        -- exists j, h. by rewrite list_lookup_insert_ne.
      * destruct (decide (i = j)) as [->|Hne].
        -- rewrite list_lookup_insert_eq in Hj by done. injection Hj as <-. exists j, g. split; [done|by apply Hiff].
        -- rewrite list_lookup_insert_ne in Hj by done. by exists j, h.
    + split; [|done]. intros _. exists i, g'. by rewrite list_lookup_insert_eq.
Qed.

Lemma cinv_reachable n st : rtc cstep (cinit n) st → cinv st.
Proof.
  intros Hr. assert (∀ a b, rtc cstep a b → cinv a → cinv b) as Hgo.
  { intros a b. induction 1 as [|? ? ? Hs ? IH]; [done|]. intros Hc. by eapply IH, cinv_step. }
  eapply Hgo; [done|apply cinv_init].
Qed.

(** ** Properties of the concurrent action *)

(** C20: whatever way the goroutines of a concurrent action interleave on the
    shared list of errors, the action returns nil exactly when every action did:
    an error can get lost, but not the fact that there was one. *)
Theorem concurrent_nil_iff n st :
  rtc cstep (cinit n) st → finished st →
  cresult st = Ret None ↔ ∀ i g, goroutines st !! i = Some g → g = GDone None.
Proof.
  intros Hr Hf. destruct (cinv_reachable n st Hr) as [_ Hl]. unfold finished in Hf. rewrite Forall_lookup in Hf.
  unfold cresult. split.
  - intros Hres i g Hg. destruct (Hf i g Hg) as [[e|] ->]; [|done]. exfalso.
    assert (0 < sl_len (errs st))%nat as Hpos by (apply Hl; by exists i, (GDone (Some e))).
    destruct (Nat.leb_spec (sl_len (errs st)) 0) as [?|_]; [lia|].
    destruct (arrays st !! _) as [arr|]; [|done]. by destruct (_ <=? _)%nat.
  - intros Hall. destruct (Nat.leb_spec (sl_len (errs st)) 0) as [?|Hpos]; [done|]. exfalso.
    apply Hl in Hpos as (i & g & Hg & Hp). rewrite (Hall i g Hg) in Hp. done.
Qed.

(** Two failing actions of which only one is reported. *)
Example concurrent_loses_an_error :
  ∃ st e1 e2, rtc cstep (cinit 2) st ∧ finished st ∧
    goroutines st = [GDone (Some e1); GDone (Some e2)] ∧ e1 ≠ e2 ∧
    cresult st = Ret (as_error [Some e2]).
Proof.
  set (e1 := GoErr "first" false). set (e2 := GoErr "second" false).
  assert (∀ i g g' s heap s' heap' gs, gs !! i = Some g → gstep s heap g s' heap' g' →
          cstep (MkCState s heap gs) (MkCState s' heap' (<[i := g']> gs))) as Hgo.
  { intros i g g' s heap s' heap' gs Hi Hg. exact (cstep_go (MkCState s heap gs) i g s' heap' g' Hi Hg). }
  eexists. exists e1, e2. split; [|split; [|split; [|split]]].
  - unfold cinit. cbn [replicate].
    eapply rtc_l; [eapply (Hgo 0%nat); [reflexivity|apply (g_fail _ _ e1)]|]. cbn.
    eapply rtc_l; [eapply (Hgo 1%nat); [reflexivity|apply (g_fail _ _ e2)]|]. cbn.
    do 3 (eapply rtc_l; [eapply (Hgo 0%nat); [reflexivity|constructor]|]; cbn).
    do 3 (eapply rtc_l; [eapply (Hgo 1%nat); [reflexivity|constructor]|]; cbn).
    do 4 (eapply rtc_l; [eapply (Hgo 0%nat); [reflexivity|constructor]|]; cbn).
    do 4 (eapply rtc_l; [eapply (Hgo 1%nat); [reflexivity|constructor]|]; cbn).
    apply rtc_refl.
  - repeat constructor; by eexists.
  - reflexivity.
  - discriminate.
  - reflexivity.
Qed.

(** ** Witness *)
Lemma concurrent_nil_iff_witness :
  ∃ st, rtc cstep (cinit 1) st ∧
    (cresult st = Ret None ↔ ∀ i g, goroutines st !! i = Some g → g = GDone None).
Proof.
  exists (MkCState (MkSlice 0 0 0) [[]] [GDone None]).
  assert (rtc cstep (cinit 1) (MkCState (MkSlice 0 0 0) [[]] [GDone None])) as Hr.
  { eapply rtc_l; [|apply rtc_refl].
    exact (cstep_go (cinit 1) 0 GRun (MkSlice 0 0 0) [[]] (GDone None) eq_refl (g_ok _ _)). }
  split; [exact Hr|]. refine (concurrent_nil_iff 1 _ Hr _). constructor; [by eexists|constructor].
Defined.
