(* ===== verification/NodeActions.v ===== *)
(** * The actions of a node (pkg/actions/file, runtime, kern, kubeadm)

    Download and installation of packages, the container runtime, the kernel
    settings, and the kubelet, kubeadm and credential actions.  [etcd.NewAction]
    is in [Etcd]. *)
From stdpp Require Import base list gmap strings.
From Stdlib Require Import Lia Ascii.
From S2P Require Import Prelude GoStrings GoTime Api Effects GoTemplate AddonText Utils Provider Rest NodeInfo Sign Etcd Iaas Actions.
Local Open Scope Z_scope.

(** ** pkg/utils/util_unix.go *)
Definition AUTH_FILE : string := "/etc/kubernetes/admin.local".
Section kubectl.
Context {W : Type} `{Env W}.
Definition ApplyYamlCommon (data authf tmp : string) : IO W error :=
  err ← perform (WriteFile tmp data);
  match (err : error) with
  | Some e => mret (Errorf ("create tmp file: " +:+ Error e))
  | None =>
      status ← perform (Run "kubectl" ["--kubeconfig"; authf; "apply"; "-f"; tmp] []);
      mret (CmdError status)
  end.
Definition ApplyYaml (data name : string) : IO W error :=
  ApplyYamlCommon data AUTH_FILE ("/tmp/cfg." +:+ name +:+ ".yaml").
Definition Kubectl (args : list string) : IO W (list string * error) :=
  status ← perform (Run "kubectl" args []);
  mret (c_Stdout status, CmdError status).
End kubectl.

(** ** pkg/actions/file *)

(** path.go *)
Record FilePath : Type := MkFilePath {
  fp_Project : string; fp_Namespace : string; fp_CType : string; fp_Pkg : string; fp_Version : string;
  fp_Arch : string; fp_OS : string; fp_Ftype : string; fp_Destination : string }.
Definition fp_URL (p : FilePath) : string :=
  JoinPath [fp_Project p; fp_Namespace p; fp_CType p; fp_Pkg p; fp_Version p; fp_Arch p; fp_OS p].
Definition fp_URL_T (p : FilePath) : string := JoinPath [fp_URL p; fp_Ftype p].
Definition fp_Name (p : FilePath) : string := fp_Pkg p +:+ "-" +:+ fp_Version p +:+ ".tar.gz".
Definition fp_URI (p : FilePath) : string := JoinPath [fp_URL p; fp_Name p].

(** file.go *)
Record File : Type := MkFile {
  fi_Bucket : string; fi_Region : string; fi_BaseServer : string; fi_CacheDir : string; fi_Path : FilePath }.
Definition fi_with_Region (r : string) (f : File) : File :=
  MkFile (fi_Bucket f) r (fi_BaseServer f) (fi_CacheDir f) (fi_Path f).

(** [wget(f)]: the base server is also kept in [f]. *)
Definition baseServer (f : File) : string :=
  if decide (fi_BaseServer f = "")
  then "http://" +:+ fi_Bucket f +:+ "-" +:+ fi_Region f +:+ ".oss-" +:+ fi_Region f +:+ "-internal.aliyuncs.com/"
  else fi_BaseServer f.
Definition wget (f : File) : string := baseServer f +:+ "/" +:+ fp_URI (fi_Path f).
Definition cacheDir (f : File) : string := JoinPath [fi_CacheDir f; "cache"; fp_Pkg (fi_Path f)].
Definition extractDir (f : File) : string := JoinPath [fi_CacheDir f; "extract"; fp_Pkg (fi_Path f)].
Definition withName (path name : string) : string := JoinPath [path; name].

(** The order in which the goroutines of a loop of [n] turns run, and the turn
    whose value of the loop variable each of them sees. *)
Class Spawn : Type := {
  spawn_order : nat → list nat;
  spawn_sees : nat → nat → nat }.
Class SpawnSpec `{Spawn} : Prop := {
  spawn_order_perm n : spawn_order n ≡ₚ seq 0 n;
  spawn_sees_range n i : (i < n)%nat → (i <= spawn_sees n i < n)%nat }.

Section files.
Context {W : Type} `{Env W}.

Definition Download (f : File) : IO W error :=
  err ← perform (MkdirAll (cacheDir f));
  match (err : error) with
  | Some e => mret (Errorf ("enusre dire " +:+ cacheDir f +:+ " : " +:+ Error e))
  | None =>
      if decide (fp_OS (fi_Path f) = "centos") then
        result ← perform (Run "wget" ["--tries"; "10"; "--no-check-certificate"; "-q"; wget f;
                                      "-O"; withName (cacheDir f) (fp_Name (fi_Path f))] []);
        mret (CmdError result)
      else mret None
  end.

Definition Untar (f : File) : IO W error :=
  perform (UnTar (extractDir f) (withName (cacheDir f) (fp_Name (fi_Path f)))).

Fixpoint installBin (bin dest : string) (dirs : list (string * bool)) : IO W error :=
  match dirs with
  | [] => mret None
  | (name, isdir) :: rest =>
      if isdir : bool then installBin bin dest rest
      else
        let path := JoinPath [bin; name] in
        status ← perform (Run "chmod" ["+x"; path] []);
        match CmdError status with
        | Some e => mret (Some e)
        | None =>
            let dest' := if decide (dest = "") then "/usr/bin" else dest in
            err ← perform (MkdirAll dest');
            match (err : error) with
            | Some e => mret (Errorf ("enusre dire " +:+ dest' +:+ " : " +:+ Error e))
            | None =>
                err ← perform (Rename (JoinPath [path]) (JoinPath [dest'; name]));
                match (err : error) with
                | Some e => mret (Errorf ("mv file error: " +:+ Error e))
                | None => installBin bin dest rest
                end
            end
        end
  end.
Definition doBin (f : File) : IO W error :=
  let bin := JoinPath [extractDir f; "bin"] in
  '(dirs, err) ← perform (ReadDir bin);
  match err with
  | Some e => mret (Errorf ("list file error: " +:+ bin +:+ ", " +:+ Error e))
  | None => installBin bin (fp_Destination (fi_Path f)) dirs
  end.

Definition doRPM (f : File) : IO W error :=
  let rpm := JoinPath [extractDir f; "rpm"] in
  '(info, err) ← perform (ReadDir rpm);
  match err with
  | Some e => mret (Some e)
  | None =>
      let rpms := map (λ i, JoinPath [rpm; i.1]) (List.filter (λ i, negb i.2) info) in
      extract ← perform (Run "yum" (["localinstall"; "-y"] ++ rpms) []);
      mret (CmdError extract)
  end.

Definition Install (f : File) : IO W error :=
  let t := fp_Ftype (fi_Path f) in
  err ← (if decide (t = "bin") then doBin f else if decide (t = "rpm") then doRPM f else mret None);
  mret (HasError (match (err : error) with Some e => [Some e] | None => [] end)).

(** The goroutine of a file. *)
Definition install (f : File) : IO W error :=
  err ← Download f;
  match (err : error) with
  | Some e => mret (Some e)
  | None =>
      err ← Untar f;
      match (err : error) with
      | Some e => mret (Some e)
      | None => Install f
      end
  end.
End files.

(** file_unix.go: the goroutines share the loop variable.  The directories are
    made first, which is what happens for the single file every caller passes. *)
Section file_action.
Context {W : Type} `{Env W} `{BackoffLib (W * string)} `{Spawn}.

Fixpoint ensureDirs (files : list File) : IO W error :=
  match files with
  | [] => mret None
  | f :: rest =>
      err ← perform (MkdirAll (cacheDir f));
      match (err : error) with Some e => mret (Some e) | None => ensureDirs rest end
  end.
Fixpoint runInstalls (files : list File) (order : list nat) (errs : Errors) : IO W Errors :=
  match order with
  | [] => mret errs
  | i :: rest =>
      match files !! spawn_sees (length files) i with
      | Some f => err ← install f;
                  runInstalls files rest (match (err : error) with Some e => errs ++ [Some e] | None => errs end)
      | None => runInstalls files rest errs
      end
  end.
Definition fileAction (files : list File) : Action W := λ ctx,
  '(region, err) ← NodeRegion;
  if negb (bool_decide (err = None)) || bool_decide (region = "")
  then mret (Errorf ("empty region: " +:+ errText err))
  else
    err ← ensureDirs files;
    match (err : error) with
    | Some e => mret (Some e)
    | None =>
        errs ← runInstalls (map (fi_with_Region region) files) (spawn_order (length files)) [];
        mret (HasError errs)
    end.

(** [ConcurrentAction.Execute], its actions run one after another in some order;
    which errors survive is the matter of [Actions.concurrent_nil_iff]. *)
Fixpoint runConcurrent (actions : list (Action W)) (order : list nat) (ctx : NodeContext) (errs : Errors)
    : IO W Errors :=
  match order with
  | [] => mret errs
  | i :: rest =>
      match actions !! i with
      | Some act => err ← act ctx;
                    runConcurrent actions rest ctx (match (err : error) with Some e => errs ++ [Some e] | None => errs end)
      | None => runConcurrent actions rest ctx errs
      end
  end.
Definition ConcurrentAction (actions : list (Action W)) : Action W := λ ctx,
  errs ← runConcurrent actions (spawn_order (length actions)) ctx [];
  mret (HasError errs).
End file_action.

(** ** pkg/actions/runtime *)
Definition daemonjson : string := Join ["
{
    "; "exec-opts"; ": ["; "native.cgroupdriver=systemd"; "],
    "; "log-driver"; ": "; "json-file"; ",
    "; "log-opts"; ": {
        "; "max-size"; ": "; "100m"; ",
        "; "max-file"; ": "; "10"; "
    },
    "; "bip"; ": "; "169.254.123.1/24"; ",
    "; "oom-score-adjust"; ": -1000,
    "; "registry-mirrors"; ": [],
    "; "storage-driver"; ": "; "overlay2"; ",
    "; "storage-opts"; ":["; "overlay2.override_kernel_check=true"; "],
    "; "live-restore"; ": true
}
"] (String dquote EmptyString).
Definition dockerunit : string := "
[Unit]
Description=Docker Application Container Engine
Documentation=https://docs.docker.com
BindsTo=containerd.service
After=network-online.target firewalld.service containerd.service
Wants=network-online.target
Requires=docker.socket

[Service]
Type=notify
ExecStart=/usr/bin/dockerd -H fd:// --containerd=/run/containerd/containerd.sock
ExecStartPost=/usr/sbin/iptables -P FORWARD ACCEPT
ExecReload=/bin/kill -s HUP \$MAINPID
TimeoutSec=0
RestartSec=2
Restart=always
StartLimitBurst=3
StartLimitInterval=60s
LimitNOFILE=infinity
LimitNPROC=infinity
LimitCORE=infinity
TasksMax=infinity
Delegate=yes
KillMode=process

[Install]
WantedBy=multi-user.target
".
Definition dockersock : string := "
[Unit]
Description=Docker Socket for the API
PartOf=docker.service

[Socket]
ListenStream=/var/run/docker.sock
SocketMode=0660
SocketUser=root
SocketGroup=docker

[Install]
WantedBy=sockets.target
".
Definition containerdcfg : string := Join ["
disabled_plugins = ["; "cri"; "]
oom_score = -999
"] (String dquote EmptyString).
Definition containerdsvc : string := "
[Unit]
Description=containerd container runtime
Documentation=https://containerd.io
After=network.target

[Service]
ExecStartPre=-/sbin/modprobe overlay
ExecStart=/usr/bin/containerd
KillMode=process
Delegate=yes
LimitNOFILE=1048576
LimitNPROC=infinity
LimitCORE=infinity
TasksMax=infinity

[Install]
WantedBy=multi-user.target
".
Definition cfgs : gmap string string :=
  <["/lib/systemd/system/docker.service" := dockerunit]>
  (<["/lib/systemd/system/docker.socket" := dockersock]>
  (<["/etc/containerd/config.toml" := containerdcfg]>
  (<["/lib/systemd/system/containerd.service" := containerdsvc]>
  (<["/etc/docker/daemon.json" := daemonjson]> ∅)))).

Section runtime.
Context {W : Type} `{Env W} `{MapRange}.

Fixpoint writeAll (path : string → string) (what : string → string → string) (files : list (string * string))
    : IO W error :=
  match files with
  | [] => mret None
  | (f, v) :: rest =>
      err ← perform (WriteFile (path f) v);
      match (err : error) with Some e => mret (Errorf (what f (Error e))) | None => writeAll path what rest end
  end.

Definition runtimeAction : Action W := λ ctx,
  err ← perform (MkdirAll "/etc/docker");
  match (err : error) with
  | Some e => mret (Errorf ("make /etc/docker dir: " +:+ Error e))
  | None =>
      err ← perform (MkdirAll "/etc/containerd");
      match (err : error) with
      | Some e => mret (Errorf ("make /etc/docker dir: " +:+ Error e))
      | None =>
          err ← writeAll id (λ _ e, "write docker config: " +:+ e) (range_order 0 cfgs);
          match (err : error) with
          | Some e => mret (Some e)
          | None =>
              _ ← perform (Run "groupadd" ["-r"; "docker"] []);
              err ← Systemctl ["enable"; "docker"];
              match err with
              | Some e => mret (Errorf ("systecmctl enable docker error," +:+ Error e +:+ " "))
              | None => Systemctl ["start"; "docker"]
              end
          end
      end
  end.

(** ** pkg/actions/kern: the settings the kernel knows are written. *)
Definition kernelSettings : gmap string string :=
  list_to_map
    [("vm.max_map_count", "262144"); ("kernel.softlockup_panic", "1"); ("net.core.somaxconn", "32768");
     ("net.core.rmem_max", "16777216"); ("net.core.wmem_max", "16777216");
     ("net.ipv4.tcp_wmem", "4096 12582912 16777216"); ("net.ipv4.tcp_rmem", "4096 12582912 16777216");
     ("net.ipv4.tcp_max_syn_backlog", "8096"); ("net.ipv4.tcp_slow_start_after_idle", "0");
     ("kernel.softlockup_all_cpu_backtrace", "1"); ("net.bridge.bridge-nf-call-iptables", "1");
     ("net.core.netdev_max_backlog", "16384"); ("fs.file-max", "2097152");
     ("fs.inotify.max_user_instances", "8192"); ("fs.inotify.max_user_watches", "524288");
     ("fs.inotify.max_queued_events", "16384"); ("net.ipv4.ip_forward", "1"); ("fs.may_detach_mounts", "1")].

Fixpoint knownSettings (l : list (string * string)) (buffer : list string) : IO W (list string) :=
  match l with
  | [] => mret buffer
  | (k, v) :: rest =>
      st ← perform (Stat ("/proc/sys/" +:+ ReplaceAll k "." "/"));
      knownSettings rest (match st with StatOk => buffer ++ [k +:+ "=" +:+ v] | _ => buffer end)
  end.
Definition applyKernelCfg : IO W error :=
  err ← perform (MkdirAll "/etc/sysctl.d/");
  match (err : error) with
  | Some e => mret (Some e)
  | None =>
      buffer ← knownSettings (range_order 0 kernelSettings) [];
      err ← perform (WriteFile "/etc/sysctl.d/99-k8s.conf" (Join buffer newline));
      match (err : error) with
      | Some e => mret (Errorf ("write sysctl file error(/etc/sysctl.d/99-k8s.conf): " +:+ Error e))
      | None => _ ← perform (Run "sysctl" ["--system"] []); mret None
      end
  end.
End runtime.

(** ** pkg/actions/kubeadm *)
Record ConfigTpl : Type := MkConfigTpl {
  ct_Master : Master;
  ct_ClusterSpec : ClusterSpec;
  ct_NodeName : string;
  ct_EtcdEndpoints : list string }.

(** The fields tpl.Tplv1 reads, those promoted from the cluster specification
    and from the version of Kubernetes among them. *)
Definition configValue (t : ConfigTpl) : Tmpl.value :=
  let spec := ct_ClusterSpec t in
  let strs l := Tmpl.VList (map Tmpl.VStr l) in
  Tmpl.VRec
    [("Kubernetes", fieldsOf [("KubeadmToken", ku_KubeadmToken (cs_Kubernetes spec));
                              ("Version", un_Version (ku_Unit (cs_Kubernetes spec)))]);
     ("NodeName", Tmpl.VStr (ct_NodeName t));
     ("Sans", strs (cs_Sans spec));
     ("Network", fieldsOf [("NetMask", nw_NetMask (cs_Network spec)); ("PodCIDR", nw_PodCIDR (cs_Network spec));
                           ("Domain", nw_Domain (cs_Network spec)); ("SVCCIDR", nw_SVCCIDR (cs_Network spec))]);
     ("EtcdEndpoints", strs (ct_EtcdEndpoints t));
     ("Registry", Tmpl.VStr (cs_Registry spec));
     ("ClusterID", Tmpl.VStr (cs_ClusterID spec))].
(** The template is executed by html/template. *)
Definition ExecuteTpl (t : ConfigTpl) : string * error := Tmpl.ExecuteHTML Tplv1 (configValue t).
#[global] Opaque ExecuteTpl.

(** [kustomize build] of the root of a file system in memory. *)
Class Kustomize : Type := cmdBuild : list (string * string) → string * error.
Record PatchJSON6902 : Type := MkPatch {
  pj_Group : string; pj_Version : string; pj_Kind : string; pj_Name : string; pj_Namespace : string; pj_Patch : string }.

(** pkg/utils/kustomize *)
Fixpoint numberFrom {A} (i : Z) (l : list A) : list (Z * A) :=
  match l with [] => [] | x :: r => (i, x) :: numberFrom (i + 1) r end.
Definition resourceName (r : Z * string) : string := "resource-" +:+ fmt_d r.1 +:+ ".yaml".
Definition patchName (r : Z * string) : string := "patch-" +:+ fmt_d r.1 +:+ ".yaml".
Definition jsonPatchName (r : Z * PatchJSON6902) : string := "patch-json6902-" +:+ fmt_d r.1 +:+ ".yaml".
Definition jsonPatchEntry (r : Z * PatchJSON6902) : string :=
  let p := r.2 in
  " - path: " +:+ jsonPatchName r +:+ newline +:+
  "   target:" +:+ newline +:+
  "     group: " +:+ pj_Group p +:+ newline +:+
  "     version: " +:+ pj_Version p +:+ newline +:+
  "     kind: " +:+ pj_Kind p +:+ newline +:+
  (if decide (pj_Name p = "") then EmptyString else "     name: " +:+ pj_Name p +:+ newline) +:+
  (if decide (pj_Namespace p = "") then EmptyString else "     namespace: " +:+ pj_Namespace p +:+ newline).
Definition entries {A} (head : string) (entry : A → string) (l : list A) : string :=
  match l with [] => EmptyString | _ => head +:+ newline +:+ Join (map entry l) EmptyString end.
Definition Build `{Kustomize} (resources patches : list string) (patchesJSON6902 : list PatchJSON6902) : string * error :=
  let rs := numberFrom 0 resources in
  let ps := numberFrom 0 patches in
  let js := numberFrom 0 patchesJSON6902 in
  let item name := " - " +:+ name +:+ newline in
  let kustomization :=
    "resources:" +:+ newline +:+ Join (map (λ r, item (resourceName r)) rs) EmptyString +:+
    entries "patches:" (λ p, item (patchName p)) ps +:+
    entries "patchesJson6902:" jsonPatchEntry js in
  match cmdBuild (map (λ r, ("/" +:+ resourceName r, r.2)) rs ++ map (λ p, ("/" +:+ patchName p, p.2)) ps ++
                  map (λ p, ("/" +:+ jsonPatchName p, pj_Patch p.2)) js ++ [("/kustomization.yaml", kustomization)]) with
  | (_, Some e) => ("", Some e)
  | (out, None) => (out, None)
  end.

Definition BreakDownIDOrDie (id : string) : outcome (string * string) :=
  match Split id "." with
  | [a; b] => Ret (a, b)
  | _ => Panic ("id format error expect {region.instanceid} got " +:+ id)
  end.

Definition NewConfigTpl (node : option Master) : outcome ConfigTpl :=
  match node with
  | None => Panic "nil pointer dereference"
  | Some n =>
      match mt_BootCFG (m_Status n) with
      | None => Panic "nil pointer dereference"
      | Some c => Ret (MkConfigTpl n (cl_Spec c) "" [])
      end
  end.
Definition WithNodeName (tpl : ConfigTpl) : outcome ConfigTpl :=
  match BreakDownIDOrDie (ms_ID (m_Spec (ct_Master tpl))) with
  | Ret (_, insid) => Ret (MkConfigTpl (ct_Master tpl) (ct_ClusterSpec tpl)
                             (ms_IP (m_Spec (ct_Master tpl)) +:+ "." +:+ insid) (ct_EtcdEndpoints tpl))
  | Panic m => Panic m
  | Hang => Hang
  end.
Definition WithEtcdEndpoints (tpl : ConfigTpl) : outcome ConfigTpl :=
  let url host := "https://" +:+ host +:+ ":2379" in
  let ends := es_Endpoints (cs_Etcd (ct_ClusterSpec tpl)) in
  let ip := ms_IP (m_Spec (ct_Master tpl)) in
  let set l := Ret (MkConfigTpl (ct_Master tpl) (ct_ClusterSpec tpl) (ct_NodeName tpl) l) in
  if decide (ends = "") then
    if decide (ip = "") then Panic "node ip must be provided" else set [url ip]
  else set (map url (Split ends ",")).

Definition certHome (key : string) : string := JoinPath ["/etc/kubernetes/pki/"; key].
Definition ObjectName : string := "config".

Section kubeadm.
Context {W : Type} `{Env W} `{PkgErrors} `{MapRange} `{WaitLib W} `{Kustomize} `{ParseCIDR}.
Context `{CryptoLib} `{Base64} `{Yaml ClusterSpec}.

Definition withNodeName (node : option Master) : IO W ConfigTpl :=
  cfg ← lift (NewConfigTpl node);
  lift (WithNodeName cfg).

(** [Config(node)] *)
Definition Config_ (node : option Master) : IO W (string * error) :=
  cfg ← withNodeName node;
  cfg ← lift (WithEtcdEndpoints cfg);
  match ExecuteTpl cfg with
  | (_, Some e) => mret ("", Wrapf (Some e) "error executing config template")
  | (s, None) => mret (s, None)
  end.

Definition setPatchNames (patches : list string) (jsonPatches : list PatchJSON6902)
    : list string * list PatchJSON6902 :=
  (map (λ patch, "metadata:" +:+ newline +:+ "name: " +:+ ObjectName +:+ newline +:+ patch) patches,
   map (λ p, MkPatch (pj_Group p) (pj_Version p) (pj_Kind p) ObjectName (pj_Namespace p) (pj_Patch p)) jsonPatches).
Definition allPatchesFromConfig (node : option Master) : list string * list PatchJSON6902 := ([], []).
Definition removeMetadata (kustomized : string) : string :=
  ReplaceAll kustomized ("metadata:" +:+ newline +:+ "  name: config" +:+ newline) EmptyString.

Definition getKubeadmConfig (node : option Master) : IO W (string * error) :=
  '(raw, err) ← Config_ node;
  match err with
  | Some e => mret ("", Some e)
  | None =>
      let '(ps, js) := allPatchesFromConfig node in
      let '(patches, jsonPatches) := setPatchNames ps js in
      match Build [raw] patches jsonPatches with
      | (_, Some e) => mret ("", Some e)
      | (patched, None) => mret (removeMetadata patched, None)
      end
  end.

Definition KUBEADM_CONFIG_DIR : string := "/etc/kubeadm/".
Definition kubeadmConf : string := JoinPath [KUBEADM_CONFIG_DIR; "kubeadm.conf"].

(** [ActionInit] *)
Definition ActionInit : Action W := λ ctx,
  node ← NodeObject ctx;
  '(kubeadmConfig, err) ← getKubeadmConfig node;
  match err with
  | Some e => mret (Wrapf (Some e) "failed to generate kubeadm config content")
  | None =>
      err ← perform (MkdirAll KUBEADM_CONFIG_DIR);
      match (err : error) with
      | Some e => mret (Errorf ("mkdir " +:+ KUBEADM_CONFIG_DIR +:+ " error: " +:+ Error e))
      | None =>
          err ← perform (WriteFile kubeadmConf kubeadmConfig);
          match (err : error) with
          | Some e => mret (Wrapf (Some e) "failed to copy kubeadm config to node")
          | None =>
              status ← perform (Run "kubeadm" ["init"; "--ignore-preflight-errors=all"; "--config=" +:+ kubeadmConf;
                                               "--skip-token-print"; "--v=6"] []);
              mret (CmdError status)
          end
      end
  end.

(** The files of [setOriginalPki]. *)
Definition pair_files (crt key : string) (k : option KeyCert) : gmap string string :=
  match k with
  | Some kc => <[crt := kc_Cert kc]> (<[key := kc_Key kc]> ∅)
  | None => ∅
  end.
Definition setOriginalPki (boot : ClusterSpec) : IO W error :=
  err ← perform (MkdirAll "/etc/kubernetes/");
  match (err : error) with
  | Some e => mret (Errorf ("ensure dir /etc/kubernetes for admin.local:" +:+ Error e))
  | None =>
      let k := cs_Kubernetes boot in
      let counts := pair_files "ca.crt" "ca.key" (ku_RootCA k) ∪
                    pair_files "front-proxy-ca.crt" "front-proxy-ca.key" (ku_FrontProxyCA k) ∪
                    pair_files "sa.pub" "sa.key" (ku_SvcAccountCA k) in
      writeAll certHome (λ f e, "write file " +:+ f +:+ ": " +:+ e) (range_order 0 counts)
  end.

(** join.go *)
Definition joined : IO W (bool * error) :=
  status ← perform (Run "kubectl" ["--kubeconfig"; "/etc/kubernetes/kubelet.conf"; "get"; "no"] []);
  match CmdError status with
  | Some _ => mret (false, None)
  | None => mret (true, None)
  end.
Definition WaitJoin : IO W error := Poll (2 * Second) (5 * Minute) joined.
Definition ActionJoin : Action W := λ ctx,
  node ← NodeObject ctx;
  cfg ← withNodeName node;
  _ ← perform (MkdirAll "/etc/kubernetes/manifests");
  status ← perform (Run "kubeadm" ["join"; "--v=6"; "--ignore-preflight-errors=all"; "--node-name"; ct_NodeName cfg;
                                   "--token"; ku_KubeadmToken (cs_Kubernetes (ct_ClusterSpec cfg));
                                   "--discovery-token-unsafe-skip-ca-verification";
                                   ep_Intranet (cs_Endpoint (ct_ClusterSpec cfg)) +:+ ":6443"] []);
  match CmdError status with
  | Some e => mret (Errorf ("kubeadm join: " +:+ Error e))
  | None => WaitJoin
  end.

(** kubeconfig.go *)
Definition bootSpec (n : Master) : IO W ClusterSpec :=
  c ← deref (mt_BootCFG (m_Status n));
  mret (cl_Spec c).
Definition ActionKubeAuth : Action W := λ ctx,
  node ← NodeObject ctx;
  match node with
  | None => mret (Errorf "node info nil: ActionKubelet")
  | Some node =>
      err ← perform (MkdirAll "/etc/kubernetes/");
      match (err : error) with
      | Some e => mret (Errorf ("ensure dir /etc/kubernetes for admin.local:" +:+ Error e))
      | None =>
          spec ← bootSpec node;
          root ← deref (ku_RootCA (cs_Kubernetes spec));
          '(key, crt, err) ← SignKubernetesClient (kc_Cert root) (kc_Key root) [];
          match err with
          | Some e => mret (Errorf ("sign kubernetes client crt: " +:+ Error e))
          | None =>
              err ← perform (MkdirAll "/etc/wdrip");
              match (err : error) with
              | Some e => mret (Errorf ("make wdrip dir: " +:+ Error e))
              | None =>
                  _ ← perform (WriteFile "/etc/wdrip/wdrip.cfg.gen" (PrettyYaml spec));
                  match kubeConfig root (ms_IP (m_Spec node)) crt key with
                  | (_, Some e) => mret (Errorf ("render admin.local config error: " +:+ Error e))
                  | (cfg, None) => perform (WriteFile AUTH_FILE cfg)
                  end
              end
          end
      end
  end.

(** ccmcfg.go *)
Definition ccm : string := "
kind: Config
contexts:
- context:
    cluster: kubernetes
    user: system:cloud-controller-manager
  name: system:cloud-controller-manager@kubernetes
current-context: system:cloud-controller-manager@kubernetes
users:
- name: system:cloud-controller-manager
  user:
    tokenFile: /var/run/secrets/kubernetes.io/serviceaccount/token
apiVersion: v1
clusters:
- cluster:
    certificate-authority-data: {{ .AuthCA}}
    server: https://127.0.0.1:6443
  name: kubernetes
".
Definition ActionCCM : Action W := λ ctx,
  node ← NodeObject ctx;
  match node with
  | None => mret (Errorf "node info nil: ActionKubelet")
  | Some node =>
      err ← perform (MkdirAll "/etc/kubernetes/");
      match (err : error) with
      | Some e => mret (Errorf ("ensure dir /etc/kubernetes :" +:+ Error e))
      | None =>
          spec ← bootSpec node;
          root ← deref (ku_RootCA (cs_Kubernetes spec));
          match RenderConfig ccm [("AuthCA", EncodeToString (kc_Cert root));
                                  ("IntranetLB", ep_Intranet (cs_Endpoint spec))] with
          | (_, Some e) => mret (Errorf ("render config error: " +:+ Error e))
          | (cfg, None) => perform (WriteFile "/etc/kubernetes/cloud-controller-manager.conf" cfg)
          end
      end
  end.

(** kubelet.go *)
Definition KUBELET_UNIT_FILE : string := "/etc/systemd/system/kubelet.service".

(** [net.IP.String] of four bytes, or of a length that is no address. *)
Definition IP_String (ip : option (list Z)) : string :=
  match ip with
  | None | Some [] => "<nil>"
  | Some l => if (length l =? 4)%nat then Join (map fmt_d l) "."
              else "?" +:+ Join (map (λ b, (if b <? 16 then "0" else EmptyString) +:+ fmt_x (Z.to_N b)) l) EmptyString
  end.

(** The files of [LoadCert].  The serving CA is the root followed by the
    control root. *)
Definition certFiles (k : Kubernetes) (root front sa : KeyCert) : gmap string string :=
  let apica := kc_Cert root +:+ match ku_ControlRoot k with Some c => kc_Cert c | None => EmptyString end in
  list_to_map
    [("front-proxy-ca.crt", kc_Cert front); ("front-proxy-ca.key", kc_Key front);
     ("ca.crt", kc_Cert root); ("ca.key", kc_Key root); ("sa.key", kc_Key sa); ("sa.pub", kc_Cert sa);
     ("apiserver-ca.crt", apica); ("apiserver-ca.key", kc_Key root)].
Definition staleFiles : list string :=
  ["apiserver.crt"; "apiserver.key"; "front-proxy-client.crt"; "front-proxy-client.key";
   "apiserver-kubelet-client.crt"; "apiserver-kubelet-client.key"; "../admin.conf"; "../controller-manager.conf";
   "../kubelet.conf"; "../scheduler.conf"; "/var/lib/kubelet/pki/"].
Fixpoint removeAll (names : list string) : IO W error :=
  match names with
  | [] => mret None
  | name :: rest =>
      err ← perform (Remove (certHome name));
      match (err : error) with
      | Some e => if Contains (Error e) "no such file or directory" then removeAll rest
                  else mret (Errorf ("clean up existing cert fail: " +:+ Error e))
      | None => removeAll rest
      end
  end.
Definition LoadCert (node : Master) : IO W error :=
  err ← perform (MkdirAll "/etc/kubernetes/pki");
  match (err : error) with
  | Some e => mret (Errorf ("mkdir error: " +:+ Error e))
  | None =>
      spec ← bootSpec node;
      let k := cs_Kubernetes spec in
      root ← deref (ku_RootCA k);
      front ← deref (ku_FrontProxyCA k);
      sa ← deref (ku_SvcAccountCA k);
      err ← writeAll certHome (λ f e, "write file " +:+ f +:+ ": " +:+ e) (range_order 0 (certFiles k root front sa));
      match (err : error) with
      | Some e => mret (Some e)
      | None =>
          err ← removeAll staleFiles;
          match (err : error) with
          | Some e => mret (Some e)
          | None => rm ← perform (Run "rm" ["-rf"; "/var/lib/kubelet/pki/"] []); mret (CmdError rm)
          end
      end
  end.

Definition kubeletEnv (registry nodeName id ip : string) : gmap string string :=
  list_to_map
    [("KUBELET_CLUSTER_DNS", "--cluster-dns=" +:+ ip);
     ("KUBELET_DOMAIN", "--cluster-domain=cluster.local");
     ("KUBELET_CGROUP_DRIVER", "--cgroup-driver=systemd");
     ("KUBELET_BOOTSTRAP_ARGS", "--bootstrap-kubeconfig=/etc/kubernetes/bootstrap-kubelet.conf");
     ("KUBELET_KUBECONFIG_ARGS", "--kubeconfig=/etc/kubernetes/kubelet.conf");
     ("KUBELET_SYSTEM_PODS_ARGS", "--pod-manifest-path=/etc/kubernetes/manifests");
     ("KUBELET_NETWORK_ARGS", "--network-plugin=cni --cni-conf-dir=/etc/cni/net.d --cni-bin-dir=/opt/cni/bin");
     ("KUBELET_POD_INFRA_CONTAINER", "--pod-infra-container-image=" +:+ registry +:+ "/pause-amd64:3.1");
     ("KUBELET_HOSTNAME_OVERRIDE", "--hostname-override=" +:+ nodeName +:+ " --provider-id=" +:+ id);
     ("KUBELET_CERTIFICATE_ARGS", "--anonymous-auth=false --rotate-certificates=true --cert-dir=/var/lib/kubelet/pki");
     ("KUBELET_AUTHZ_ARGS", "--authorization-mode=Webhook --client-ca-file=/etc/kubernetes/pki/ca.crt");
     ("KUBELET_SYSTEM_RESERVED", "--system-reserved=memory=300Mi --kube-reserved=memory=400Mi --eviction-hard=imagefs.available<15%,memory.available<300Mi,nodefs.available<10%,nodefs.inodesFree<5%")].
(** Environment="KEY=VALUE" *)
Definition envLine (kv : string * string) : string :=
  "Environment=" +:+ String dquote (kv.1 +:+ "=" +:+ kv.2 +:+ String dquote EmptyString).
Definition KubeletUnitFile (node : Master) (ip : string) : outcome string :=
  match NewConfigTpl (Some node) with
  | Ret cfg =>
      match WithNodeName cfg with
      | Ret cfg =>
          let env := range_order 1 (kubeletEnv (cs_Registry (ct_ClusterSpec cfg)) (ct_NodeName cfg)
                                      (ms_ID (m_Spec node)) ip) in
          Ret (Join
            (["[Unit]"; "Description=kubelet: The Kubernetes NodeObject Agent";
              "Documentation=http://kubernetes.io/docs/"; ""; "[Service]"] ++
             map envLine env ++
             ["ExecStart=/usr/bin/kubelet " +:+ Join (map (λ kv, "$" +:+ kv.1) env) " ";
              "StartLimitInterval=0"; "Restart=always"; "RestartSec=15s"; "[Install]"; "WantedBy=multi-user.target"])
            newline)
      | Panic m => Panic m
      | Hang => Hang
      end
  | Panic m => Panic m
  | Hang => Hang
  end.

Definition isMasterRole (role : string) : bool := bool_decide (role = NODE_ROLE_MASTER) || bool_decide (role = NODE_ROLE_HYBRID).
Definition restartKubelet : IO W error :=
  err ← Systemctl ["enable"; "kubelet"];
  match err with
  | Some e => mret (Errorf ("systecmctl enable kubelet error," +:+ Error e +:+ " "))
  | None =>
      err ← Systemctl ["daemon-reload"];
      match err with
      | Some e => mret (Errorf ("systecmctl enable kubelet error," +:+ Error e +:+ " "))
      | None =>
          err ← Systemctl ["restart"; "kubelet"];
          match err with
          | Some e => mret (Errorf ("systecmctl start kubelet error," +:+ Error e +:+ " "))
          | None => mret None
          end
      end
  end.
Definition ActionKubelet : Action W := λ ctx,
  node ← NodeObject ctx;
  match node with
  | None => mret (Errorf "node info nil: ActionKubelet")
  | Some node =>
      err ← (if isMasterRole (wo_Role (WdripFlags ctx)) then
               err ← LoadCert node;
               mret (match (err : error) with Some e => Errorf ("sign: " +:+ Error e) | None => None end)
             else mret None);
      match (err : error) with
      | Some e => mret (Some e)
      | None =>
          spec ← bootSpec node;
          '(ip, err) ← lift (GetDNSIP (nw_SVCCIDR (cs_Network spec)) 10);
          match err with
          | Some e => mret (Errorf ("get cluster dns ip fail " +:+ Error e))
          | None =>
              unit ← lift (KubeletUnitFile node (IP_String ip));
              err ← perform (WriteFile KUBELET_UNIT_FILE unit);
              match (err : error) with
              | Some e => mret (Errorf ("write file " +:+ KUBELET_UNIT_FILE +:+ ": " +:+ Error e))
              | None => restartKubelet
              end
          end
      end
  end.
End kubeadm.

(** ** Facts *)
Section facts.
Context {W : Type} `{Env W}.

(** Between the two states a file was written, without an error. *)
Definition written (s s' : St W) (f v : string) : Prop :=
  ∃ w l l', (env_step (WriteFile f v) w).1 = None ∧ log s' = log s ++ l ++ WriteFile f v :: l'.

Lemma written_before s0 s s' f v l : log s = log s0 ++ l → written s s' f v → written s0 s' f v.
Proof. intros E (w & m & m' & Ew & E'). exists w, (l ++ m), m'. by rewrite E', E, <- !app_assoc. Qed.
Lemma written_after s s' s2 f v l : log s2 = log s' ++ l → written s s' f v → written s s2 f v.
Proof. intros E (w & m & m' & Ew & E'). exists w, m, (m' ++ l). by rewrite E, E', <- !app_assoc. Qed.

Lemma emits_writeAll P path what files :
  (∀ f v, P (WriteFile f v)) → emits P (writeAll (W:=W) path what files).
Proof. intros HP. induction files as [|[f v] files IH]; cbn [writeAll]; solve_emits; done. Qed.
Lemma emits_removeAll (P : call → Prop) names : (∀ f, P (Remove f)) → emits P (removeAll (W:=W) names).
Proof. intros HP. induction names as [|n names IH]; cbn [removeAll]; solve_emits; done. Qed.

Lemma writeAll_ok path what files (s s' : St W) :
  writeAll path what files s = (Ret None, s') → ∀ f v, (f, v) ∈ files → written s s' (path f) v.
Proof.
  revert s. induction files as [|[g x] files IH]; intros s HB f v Hin; [by apply elem_of_nil in Hin|].
  cbn [writeAll] in HB. step_perform_in HB.
  destruct (env_step (WriteFile (path g) x) (world s)) as [[e|] w] eqn:E; cbn [fst snd] in HB; [done|].
  apply elem_of_cons in Hin as [[= -> ->]|Hin].
  - destruct (emits_writeAll (λ _, True) path what files ltac:(done) (MkSt w (log s ++ [WriteFile (path g) x])))
      as (l & El & _). rewrite HB in El. exists (world s), [], l. split; [by rewrite E|].
    cbn [snd log] in El. by rewrite El, <- app_assoc.
  - eapply written_before; [|by eapply IH]. done.
Qed.

(** Calls of a package installation that come before the binaries are moved. *)
Lemma emits_installBin bin dest dirs :
  emits (λ c, match c with Run n _ _ => n = "chmod" | MkdirAll _ | Rename _ _ => True | _ => False end)
    (installBin (W:=W) bin dest dirs).
Proof. induction dirs as [|[n d] dirs IH]; cbn [installBin]; solve_emits; done. Qed.

(** An identity made of a region and an instance breaks down into them again. *)
Lemma BreakDownIDOrDie_join region id :
  no_byte "."%char region → no_byte "."%char id → BreakDownIDOrDie (region +:+ "." +:+ id) = Ret (region, id).
Proof.
  intros Hr Hi. unfold BreakDownIDOrDie.
  pose proof (Split_Join "."%char [region; id]) as Hs. unfold Join in Hs. cbn [String.concat] in Hs.
  rewrite Hs; [done| |done]. by repeat constructor.
Qed.
End facts.

Section download_facts.
Context {W : Type} `{Env W} `{BackoffLib (W * string), !VarBackoffSpec W string} `{Spawn}.
Existing Instance var_env.

(** The calls that learn something about the machine. *)
Definition asks (c : call) : Prop := match c with Getenv _ | Http _ _ _ => True | _ => False end.
Lemma emits_metaFirst r : emits asks (metaFirst (W:=W) r).
Proof.
  assert (emits asks (meta_attempt (newRequest r))) as Ha.
  { unfold meta_attempt, meta_send, Url. solve_emits; exact I. }
  unfold metaFirst, metaList, Do. apply emits_bind.
  - apply emits_bind; [apply emits_bind; [by apply emits_backoff|intros [? ?]; apply emits_ret]|].
    intros [? ?]. unfold DecodeList, Url. solve_emits; exact I.
  - solve_emits; exact I.
Qed.

(** What installing packages may call: besides questions and files, only wget,
    chmod and yum. *)
Definition installs (c : call) : Prop :=
  match c with
  | Run n _ _ => n ∈ ["wget"; "chmod"; "yum"]
  | Getenv _ | Http _ _ _ | MkdirAll _ | Rename _ _ | ReadDir _ | UnTar _ _ => True
  | _ => False
  end.
Lemma emits_install f : emits installs (install (W:=W) f).
Proof.
  unfold install, Download, Untar, Install, doBin, doRPM.
  solve_emits; try exact I; try (cbn; set_solver).
  eapply emits_weaken; [|apply emits_installBin]. intros []; try done. cbn. intros ->. set_solver.
Qed.
Lemma emits_fileAction files ctx : emits installs (fileAction (W:=W) files ctx).
Proof.
  assert (∀ l, emits installs (ensureDirs (W:=W) l)) as Hd.
  { induction l as [|f l IH]; cbn [ensureDirs]; solve_emits; done. }
  assert (∀ fs o e, emits installs (runInstalls (W:=W) fs o e)) as Hr.
  { intros fs o. induction o as [|i o IH]; intros e; cbn [runInstalls]; solve_emits; [apply emits_install|done..]. }
  unfold fileAction, NodeRegion, Region. apply emits_bind.
  - eapply emits_weaken; [|apply emits_metaFirst]. by intros [].
  - solve_emits; try done.
Qed.
Lemma emits_ConcurrentAction (P : call → Prop) (actions : list (Action W)) ctx :
  (∀ a, a ∈ actions → emits P (a ctx)) → emits P (ConcurrentAction actions ctx).
Proof.
  intros Ha. unfold ConcurrentAction. apply emits_bind; [|intros; apply emits_ret].
  generalize (@nil error) as e, (spawn_order (length actions)) as o. intros e o. revert e.
  induction o as [|i o IH]; intros e; cbn [runConcurrent]; [apply emits_ret|].
  destruct (actions !! i) as [a|] eqn:E; [|apply IH].
  apply emits_bind; [apply Ha; by eapply list_elem_of_lookup_2|intros; apply IH].
Qed.
End download_facts.

(** ** Properties *)
Section properties.
Context {W : Type} `{Env W} `{BackoffLib (W * string), !VarBackoffSpec W string} `{MapRange, !MapRangeSpec}.

(** The identity a node gives itself can be taken apart again: when region
    and instance id hold no dot, breaking the id down gives back the two answers
    of the metadata service it was made of, and the node is named after its
    address and the instance. *)
Theorem NodeID_breaks_down nid (s s' : St W) :
  NodeID s = (Ret (nid, None), s') →
  ∃ region id s1 s2, InstanceID s = (Ret (id, None), s1) ∧ Region s1 = (Ret (region, None), s2) ∧
    (no_byte "."%char region → no_byte "."%char id →
     BreakDownIDOrDie nid = Ret (region, id) ∧
     ∀ tpl, ms_ID (m_Spec (ct_Master tpl)) = nid →
       ∃ tpl', WithNodeName tpl = Ret tpl' ∧ ct_NodeName tpl' = ms_IP (m_Spec (ct_Master tpl)) +:+ "." +:+ id).
Proof.
  unfold NodeID. intros HB. apply bind_Ret_inv in HB as ([id [e|]] & s1 & E1 & HB); [done|].
  apply bind_Ret_inv in HB as ([region [e|]] & s2 & E2 & HB); [done|]. injection HB as <- _.
  exists region, id, s1, s2. split; [done|]. split; [done|]. intros Hr Hi.
  pose proof (BreakDownIDOrDie_join region id Hr Hi) as Hb. split; [done|].
  intros tpl Ht. unfold WithNodeName. rewrite Ht. cbn in Hb |- *. rewrite Hb. by eexists.
Qed.

(** The certificates of the control plane are on disk when loading them
    succeeds: every pair of the boot configuration was written under its own
    name, and the authority the API server is called with includes the control
    root. *)
Theorem LoadCert_writes_all node (s s' : St W) :
  LoadCert node s = (Ret None, s') →
  ∃ c root front sa, mt_BootCFG (m_Status node) = Some c ∧
    let k := cs_Kubernetes (cl_Spec c) in
    ku_RootCA k = Some root ∧ ku_FrontProxyCA k = Some front ∧ ku_SvcAccountCA k = Some sa ∧
    (∀ f v, certFiles k root front sa !! f = Some v → written s s' (certHome f) v).
Proof.
  unfold LoadCert. intros HB. apply bind_Ret_inv in HB as (err & s1 & E1 & HB). destruct err; [done|].
  rewrite perform_eq in E1. injection E1 as _ E1. apply (f_equal log) in E1. cbn [log] in E1. symmetry in E1.
  unfold bootSpec in HB. destruct (mt_BootCFG (m_Status node)) as [c|]; [|done].
  apply bind_Ret_inv in HB as (spec & s2 & Es & HB). injection Es as <- <-. cbv zeta in HB |- *.
  destruct (ku_RootCA _) as [root|] eqn:Er; [|done]. cbn [deref] in HB. rewrite bind_ret_l in HB.
  destruct (ku_FrontProxyCA _) as [front|] eqn:Ef; [|done]. cbn [deref] in HB. rewrite bind_ret_l in HB.
  destruct (ku_SvcAccountCA _) as [sa|] eqn:Ea; [|done]. cbn [deref] in HB. rewrite bind_ret_l in HB.
  apply bind_Ret_inv in HB as (err & s3 & Ew & HB). destruct err; [done|].
  exists c, root, front, sa. split_and!; [done|done|done|done|]. intros f v Hfv.
  match type of HB with ?m _ = _ => assert (emits (λ _, True) m) as Hm by (solve_emits; [by apply emits_removeAll|done..]) end.
  destruct (Hm s3) as (l & El & _). rewrite HB in El.
  eapply written_before; [exact E1|]. eapply written_after; [exact El|]. eapply writeAll_ok; [exact Ew|].
  rewrite (range_order_perm 0). by apply elem_of_map_to_list.
Qed.

(** A binary is moved into place only out of a package that was downloaded
    and unpacked without an error. *)
Theorem install_after_download f (s : St W) a b :
  calls (install f) s (Rename a b) →
  ∃ s1 s2, Download f s = (Ret None, s1) ∧ Untar f s1 = (Ret None, s2).
Proof.
  intros Hc. unfold install in Hc.
  apply (calls_bind_inv (λ c, c ≠ Rename a b)) in Hc as (err & s1 & E1 & Hc);
    [|unfold Download; solve_emits; done|by intros []|].
  2:{ intros e. destruct e; [apply emits_ret|]. unfold Untar, Install, doBin, doRPM. solve_emits; try done.
      eapply emits_weaken; [|apply emits_installBin]. done. }
  destruct err; [by apply calls_ret in Hc|].
  apply (calls_bind_inv (λ c, c ≠ Rename a b)) in Hc as (err & s2 & E2 & Hc);
    [|unfold Untar; solve_emits; done|by intros []|].
  2:{ intros e. destruct e; [apply emits_ret|]. unfold Install, doBin, doRPM. solve_emits; try done.
      eapply emits_weaken; [|apply emits_installBin]. done. }
  destruct err; [by apply calls_ret in Hc|]. by exists s1, s2.
Qed.
End properties.

(** ** A machine to evaluate on

    It has an identity in the metadata service, an empty network and a package
    with one binary. *)
Module Machine.
Import SimEnv SimWait SimBackoff.
Definition answers : list (string * string) :=
  [("http://100.100.100.200/latest/meta-data/instance-id", "i-1");
   ("http://100.100.100.200/latest/meta-data/region-id", "cn-hangzhou");
   ("http://100.100.100.200/latest/meta-data/private-ipv4", "10.0.0.1")].
Definition script : ∀ c : call, Z → option (reply c) := λ c _,
  match c return option (reply c) with
  | Http _ url b =>
      Some (match find (λ a, bool_decide (a.1 = url)) answers with
            | Some (_, text) => (HttpAnswer 200 text None, b)
            | None => (HttpAnswer 404 "" None, b)
            end)
  | ReadDir _ => Some ([("etcd", false)], None)
  | _ => None
  end.
#[export] Instance machine_env : Env Z := scripted script.
#[export] Instance in_order : Spawn := {| spawn_order := seq 0; spawn_sees n i := i |}.
Definition pkg : File :=
  MkFile "bucket" "cn-hangzhou" "" "" (MkFilePath "wdrip" "default" "public" "etcd" "v3.4.3" "amd64" "centos" "bin" "").
Definition keycert (n : string) : KeyCert := MkKeyCert ("key " +:+ n) ("cert " +:+ n).
Definition node_with (k : Kubernetes) : Master :=
  MkMaster (MkTypeMeta "NodeObject" "v1") (metaNamed "10.0.0.1") (MkMasterSpec "10.0.0.1" "cn-hangzhou.i-1" "Master")
    (MkMasterStatus [] (Some (NewDefaultCluster "kubernetes-cluster"
       (MkClusterSpec (cs_Bind zeroClusterSpec) "" "" "" (cs_Network zeroClusterSpec) (cs_Etcd zeroClusterSpec)
          (cs_Runtime zeroClusterSpec) k (cs_AddonInitialized zeroClusterSpec) [] "" "" (cs_Endpoint zeroClusterSpec)
          (cs_SilentTime zeroClusterSpec)))) "").
End Machine.

(** ** Witnesses *)
Import SimEnv SimWait SimBackoff Machine.

Lemma NodeID_breaks_down_witness :
  BreakDownIDOrDie "cn-hangzhou.i-1" = Ret ("cn-hangzhou", "i-1").
Proof.
  assert (NodeID (start_at 0) = (Ret ("cn-hangzhou.i-1", None), (NodeID (start_at 0)).2)) as E by (by vm_compute).
  destruct (NodeID_breaks_down "cn-hangzhou.i-1" (start_at 0) _ E) as (region & id & s1 & s2 & E1 & E2 & Hd).
  assert ((InstanceID (start_at 0)).1 = Ret ("i-1", None)) as F1 by (by vm_compute).
  assert ((Region (InstanceID (start_at 0)).2).1 = Ret ("cn-hangzhou", None)) as F2 by (by vm_compute).
  rewrite E1 in F1, F2. cbn [fst snd] in F1, F2. rewrite E2 in F2. cbn [fst] in F2.
  injection F1 as ->. injection F2 as ->.
  exact (proj1 (Hd ltac:(repeat split; discriminate) ltac:(repeat split; discriminate))).
Defined.

Definition machine_node : Master :=
  node_with (MkKubernetes (MkUnit "kubernetes" "1.18" ∅) "" (Some (keycert "root")) (Some (keycert "front"))
               (Some (keycert "sa")) (Some (keycert "control"))).
Lemma LoadCert_writes_all_witness :
  written (start_at 0) (LoadCert machine_node (start_at 0)).2
    "/etc/kubernetes/pki/apiserver-ca.crt" "cert rootcert control".
Proof.
  assert (LoadCert machine_node (start_at 0) = (Ret None, (LoadCert machine_node (start_at 0)).2)) as E by (by vm_compute).
  destruct (LoadCert_writes_all machine_node (start_at 0) _ E) as (c & root & front & sa & Ec & Er & Ef & Es & Hw).
  injection Ec as <-. injection Er as <-. injection Ef as <-. injection Es as <-.
  exact (Hw "apiserver-ca.crt" "cert rootcert control" ltac:(by vm_compute)).
Defined.

Lemma install_after_download_witness :
  ∃ s1 s2, Download pkg (start_at 0) = (Ret None, s1) ∧ Untar pkg s1 = (Ret None, s2).
Proof.
  refine (install_after_download pkg (start_at 0) "extract/etcd/bin/etcd" "/usr/bin/etcd" _).
  eexists. split; [by vm_compute|]. apply list_elem_of_In. vm_compute. tauto.
Defined.
