(* ===== verification/Post.v ===== *)
(** * After the control plane is up (pkg/actions/post)

    The addons (addons/addon.go), the custom resources, the public cluster
    information, and the operator and monitor deployments.  The
    texts are those of [AddonText], executed by [GoTemplate]. *)
From stdpp Require Import base list gmap strings.
From Stdlib Require Import Lia.
From S2P Require Import Prelude GoStrings GoTime Api Effects GoTemplate AddonText Utils Provider Rest NodeInfo Sign Etcd Iaas Actions NodeActions Alibaba AliGroups Crd.
Local Open Scope Z_scope.

(** ** addons/addon.go: a template and the fields filled into it.  The identity
    [KUBEPROXY_WORKER] starts with is replaced before it is rendered. *)
Record AddonTpl : Type := MkAddonTpl {
  at_UUID : string;
  at_Name : string;
  at_Replicas : string;
  at_Namespace : string;
  at_Action : string;
  at_Region : string;
  at_ImageVersion : string;
  at_KubeDnsClusterIp : string;
  at_CIDR : string;
  at_Tpl : string;
  at_ComponentRevision : string;
  at_IngressSlbNetworkType : string;
  at_ProxyMode : string;
  at_IntranetApiServerEndpoint : string;
  at_IPStack : string;
  at_ServiceCIDR : string;
  at_SecurityGroupID : string;
  at_PodVswitchId : string }.
Definition addon (name tpl replicas image ipstack : string) : AddonTpl :=
  MkAddonTpl "" name replicas "" "" "" image "" "" tpl "" "" "" "" ipstack "" "" "".
Definition CCM : AddonTpl := addon "ccm" ccmtpl "" "v1.9.3.380-gd6d0962-aliyun" "".
Definition CORDDNS : AddonTpl := addon "coredns" coredns "" "1.3.1" "".
Definition TERWAY : AddonTpl := addon "terway" terway "" "v1.2.1" "ipv4".
Definition INGRESS : AddonTpl := addon "ingress-controller" ingress "2" "v0.22.0.5-552e0db-aliyun" "".
Definition KUBEPROXY_MASTER : AddonTpl := addon "kubeproxy-master" kubeproxyMaster "" "v1.20.4-aliyun.1" "".
Definition KUBEPROXY_WORKER : AddonTpl := addon "kubeproxy-worker" kubeproxyWorker "" "v1.20.4-aliyun.1" "".
Definition METRICS_SERVER : AddonTpl := addon "metrics-server" metrics "" "v1.0.0.2-cc3b2d6-aliyun" "".
Definition CSI_PLUGIN : AddonTpl := addon "csi-plugin" csi_plugin "" "v1.20.4.0-65b2faa-aliyun" "".
Definition CSI_PROVISION : AddonTpl := addon "csi-provision" csi_provision "" "v1.20.4.0-65b2faa-aliyun" "".
Definition AddonConfigsTpl : list AddonTpl :=
  [CCM; CORDDNS; TERWAY; INGRESS; KUBEPROXY_MASTER; KUBEPROXY_WORKER; METRICS_SERVER; CSI_PLUGIN; CSI_PROVISION].

Definition addonFields (t : AddonTpl) : list (string * string) :=
  [("UUID", at_UUID t); ("Name", at_Name t); ("Replicas", at_Replicas t); ("Namespace", at_Namespace t);
   ("Action", at_Action t); ("Region", at_Region t); ("ImageVersion", at_ImageVersion t);
   ("KubeDnsClusterIp", at_KubeDnsClusterIp t); ("CIDR", at_CIDR t); ("Tpl", at_Tpl t);
   ("ComponentRevision", at_ComponentRevision t); ("IngressSlbNetworkType", at_IngressSlbNetworkType t);
   ("ProxyMode", at_ProxyMode t); ("IntranetApiServerEndpoint", at_IntranetApiServerEndpoint t);
   ("IPStack", at_IPStack t); ("ServiceCIDR", at_ServiceCIDR t); ("SecurityGroupID", at_SecurityGroupID t);
   ("PodVswitchId", at_PodVswitchId t)].

(** The template of an addon, filled. *)
Definition renderAddon (t : AddonTpl) : string * error := RenderConfig (at_Tpl t) (addonFields t).
(** Those of the operator, by html/template, and of the monitor, by text/template. *)
Definition renderWdrip (version registry uuid : string) : string * error :=
  Tmpl.ExecuteHTML wdripf (fieldsOf [("Version", version); ("Registry", registry); ("UUID", uuid)]).
Definition renderMonitor (version cluster registry : string) : string * error :=
  Tmpl.ExecuteText monitor (fieldsOf [("Version", version); ("Registry", registry); ("ClusterName", cluster)]).
#[global] Opaque renderAddon renderWdrip renderMonitor.

(** [clientcmd.Write] of a server and its authority. *)
Class ClientCmd : Type := clientcmd_Write : string → string → string * error.
Record ConfigMap : Type := MkConfigMap { cm_Name : string; cm_Namespace : string; cm_Data : gmap string string }.
Record SecretObject : Type := MkSecretObject { so_Name : string; so_Namespace : string; so_Data : gmap string string }.

Definition wdrip_Version : string := "0.1.0-alpha".

Section operations.
Context {W : Type} `{Env W} `{PkgErrors} `{MapRange} `{WaitLib W} `{ParseCIDR} `{ClientCmd}.
Context `{Yaml ClusterSpec} `{Yaml Cluster} `{Yaml Master} `{Yaml ConfigMap} `{Yaml SecretObject}.

Definition fillAddon (spec : ClusterSpec) (region ip sgid vsw uuid : string) (cfg : AddonTpl) : AddonTpl :=
  MkAddonTpl uuid (at_Name cfg) (at_Replicas cfg) "kube-system" "Install" region (at_ImageVersion cfg) ip
    (nw_PodCIDR (cs_Network spec)) (at_Tpl cfg) "1111" "internet" "iptables"
    ("https://" +:+ ep_Intranet (cs_Endpoint spec) +:+ ":6443") (at_IPStack cfg) (nw_SVCCIDR (cs_Network spec)) sgid vsw.

Fixpoint renderAddons (spec : ClusterSpec) (region ip sgid vsw : string) (cfgs : list AddonTpl)
    (daddons : gmap string string) : IO W (gmap string string * error) :=
  match cfgs with
  | [] => mret (daddons, None)
  | cfg :: rest =>
      uuid ← perform GenerateUUID;
      match renderAddon (fillAddon spec region ip sgid vsw uuid cfg) with
      | (_, Some e) => mret (daddons, Errorf ("render config: " +:+ Error e))
      | (data, None) => renderAddons spec region ip sgid vsw rest (<[at_Name cfg := data]> daddons)
      end
  end.

Definition defaultAddons (pctx : option Context_) (spec : ClusterSpec) (cfgs : list AddonTpl)
    : IO W (gmap string string * error) :=
  r ← (match cfgs with
       | [] =>
           pctx ← deref pctx;
           sgid ← SecrityGroup (getStack pctx);
           '(vsw, err) ← perform (PVSwitchs pctx);
           match err with
           | Some e => mret (inr (Wrapf (Some e) "get vswitch"))
           | None => mret (inl (AddonConfigsTpl, sgid, vsw))
           end
       | _ => mret (inl (cfgs, "", ""))
       end);
  match r with
  | inr err => mret (∅, err)
  | inl (cfgs, sgid, vsw) =>
      match Split (cs_Registry spec) "." with
      | [_; region; _; _] =>
          '(ip, err) ← lift (GetDNSIP (nw_SVCCIDR (cs_Network spec)) 10);
          match err with
          | Some _ => mret (∅, Errorf ("SVCCIDR must be an ip range: " +:+ nw_SVCCIDR (cs_Network spec)
                                       +:+ " , for 192.168.0.1/16"))
          | None => renderAddons spec region (IP_String ip) sgid vsw cfgs ∅
          end
      | _ => mret (∅, Errorf ("config registry format error: " +:+ cs_Registry spec
                              +:+ ", must be registry-vpc.${region}.aliyuncs.com/acs"))
      end
  end.
Definition DefaultAddons (pctx : option Context_) (spec : ClusterSpec) : IO W (gmap string string * error) :=
  defaultAddons pctx spec [].

(** Applied again and again for a minute. *)
Definition applied (what : IO W error) : IO W (bool * error) :=
  err ← what;
  mret (match (err : error) with Some _ => (false, None) | None => (true, None) end).
Fixpoint applyAddons (addon : list (string * string)) : IO W error :=
  match addon with
  | [] => mret None
  | (k, v) :: rest =>
      err ← Poll (2 * Second) (1 * Minute) (applied (ApplyYamlCommon v AUTH_FILE ("/tmp/addon." +:+ k +:+ ".yml")));
      match (err : error) with
      | Some e => mret (Errorf ("apply addon wait error: " +:+ Error e))
      | None => applyAddons rest
      end
  end.
Definition InstallAddons (pctx : option Context_) (spec : ClusterSpec) (cfg : list AddonTpl) : IO W error :=
  '(addon, err) ← defaultAddons pctx spec cfg;
  match err with
  | Some e => mret (Errorf ("generate default addon: " +:+ Error e))
  | None => applyAddons (range_order 0 addon)
  end.

(** ** operator.go and monitor.go *)
Definition post_BootCFG (spec : ClusterSpec) : IO W error :=
  let cm := MkSecretObject "bootcfg" "kube-system" {["bootcfg" := YamlMarshal spec]} in
  ApplyYaml (YamlMarshal cm) "bootcfg".

(** Both deployments are applied after the boot configuration, for a minute. *)
Definition bootThenApply (spec : ClusterSpec) (cfg name : string) : IO W (bool * error) :=
  err ← post_BootCFG spec;
  match (err : error) with
  | Some _ => mret (false, None)
  | None => applied (ApplyYaml cfg name)
  end.
Definition registryOf (spec : ClusterSpec) : string := Dir (cs_Registry spec) +:+ "/aoxn".
Definition RenderWdripYaml (spec : ClusterSpec) : IO W (string * error) :=
  uuid ← perform GenerateUUID;
  mret (renderWdrip wdrip_Version (registryOf spec) uuid).
Definition RenderMonitorYaml (spec : ClusterSpec) : string * error :=
  renderMonitor wdrip_Version (cs_ClusterID spec) (registryOf spec).
Definition doRunWdrip (ctx : ClusterSpec) : IO W error :=
  '(cfg, err) ← RenderWdripYaml ctx;
  match err with
  | Some e => mret (Errorf ("write wdrip yaml: " +:+ Error e))
  | None => Poll (2 * Second) (1 * Minute) (bootThenApply ctx cfg "wdrip")
  end.
Definition RunMonitor (ctx : ClusterSpec) : IO W error :=
  match RenderMonitorYaml ctx with
  | (_, Some e) => mret (Errorf ("write monitor yaml: " +:+ Error e))
  | (cfg, None) => Poll (2 * Second) (1 * Minute) (bootThenApply ctx cfg "monitor")
  end.
Definition RunWdrip (ctx : ClusterSpec) : IO W error :=
  err ← doRunWdrip ctx;
  match (err : error) with
  | Some e => mret (Some e)
  | None => RunMonitor ctx
  end.

Definition nodeCluster (ctx : NodeContext) : IO W (Master * Cluster) :=
  node ← NodeObject ctx;
  m ← deref node;
  cfg ← deref (mt_BootCFG (m_Status m));
  mret (m, cfg).
Definition WritePublicInfo (ctx : NodeContext) : IO W error :=
  '(_, cfg) ← nodeCluster ctx;
  root ← deref (ku_RootCA (cs_Kubernetes (cl_Spec cfg)));
  match clientcmd_Write ("https://" +:+ ep_Intranet (cs_Endpoint (cl_Spec cfg)) +:+ ":6443") (kc_Cert root) with
  | (_, Some e) => mret (Wrapf (Some e) "write config")
  | (data, None) =>
      ApplyYaml (PrettyYaml (MkConfigMap "cluster-info" "kube-public" {["kubeconfig" := data]})) "cluster-info"
  end.
Definition WriteClusterCR (ctx : NodeContext) : IO W error :=
  '(m, cfg) ← nodeCluster ctx;
  let node := MkMaster (MkTypeMeta "Master" "alibabacloud.com/v1") (metaNamed (ms_ID (m_Spec m))) (m_Spec m)
                (m_Status zeroMaster) in
  ApplyYaml (Join [PrettyYaml cfg; PrettyYaml node] ("---" +:+ newline)) "cluster-crd".

(** [ActionPost]: [n] bounds the turns of the wait for a definition. *)
Definition ActionPost (n : nat) : Action W := λ ctx,
  let cfgadds := if decide (wo_Addons (WdripFlags ctx) = "*") then AddonConfigsTpl
                 else [KUBEPROXY_MASTER; KUBEPROXY_WORKER] in
  pctx ← ProviderCtx ctx;
  '(_, cfg) ← nodeCluster ctx;
  err ← InstallAddons (Some pctx) (cl_Spec cfg) cfgadds;
  match (err : error) with
  | Some e => mret (Errorf ("install addons: " +:+ Error e))
  | None =>
      err ← RegisterFromKubeconfig n "/etc/kubernetes/admin.conf";
      match (err : error) with
      | Some e => mret (Errorf ("register crds: " +:+ Error e))
      | None =>
          err ← WriteClusterCR ctx;
          match (err : error) with
          | Some e => mret (Errorf ("write cluster cfg: " +:+ Error e))
          | None =>
              err ← WritePublicInfo ctx;
              match (err : error) with
              | Some _ => mret (Errorf "write public cluster info")
              | None => '(_, cfg) ← nodeCluster ctx; RunWdrip (cl_Spec cfg)
              end
          end
      end
  end.
End operations.
