(* ===== verification/Manifests.v ===== *)
(** * What the actions install

    The templates of [AddonText] with what the code fills into them: every field
    a template names is there, so rendering never fails; the addons of a cluster
    are all rendered; and the configuration of kubeadm names what the cluster
    specification asks for.  The engine is html/template for the configuration of
    kubeadm and for the operator, which changes some bytes of what is printed. *)
From stdpp Require Import base list gmap strings.
From Stdlib Require Import Lia Ascii.
From S2P Require Import Prelude GoStrings GoTime Api Sdk Effects GoTemplate AddonText Utils Provider Rest NodeInfo Sign Etcd Iaas Actions NodeActions Alibaba AliGroups Crd Post.
Local Open Scope Z_scope.

(** ** The templates against the data *)
Definition addonTy : Tmpl.ty := stringsTy (addonFields CCM).*1.

Lemma addonFields_names t : (addonFields t).*1 = (addonFields CCM).*1.
Proof. done. Qed.

Lemma addon_templates : forallb (λ t, Tmpl.checkTpl addonTy (at_Tpl t)) AddonConfigsTpl = true.
Proof. by vm_compute. Qed.

Section render.
#[local] Transparent renderAddon renderWdrip renderMonitor ExecuteTpl.

(** An addon with one of the templates is rendered, whatever its fields. *)
Lemma renderAddon_ok cfg t : cfg ∈ AddonConfigsTpl → at_Tpl t = at_Tpl cfg → ∃ out, renderAddon t = (out, None).
Proof.
  intros Hin Ht. pose proof addon_templates as HF. rewrite forallb_forall in HF.
  specialize (HF cfg (proj1 (list_elem_of_In _ _) Hin)). unfold renderAddon. apply RenderConfig_ok.
  rewrite addonFields_names, Ht. exact HF.
Qed.

Lemma renderWdrip_ok version registry uuid : ∃ out, renderWdrip version registry uuid = (out, None).
Proof. eapply Tmpl.Execute_ok; [|apply fieldsOf_ty]. by vm_compute. Qed.

Lemma renderMonitor_ok version cluster registry : ∃ out, renderMonitor version cluster registry = (out, None).
Proof. eapply Tmpl.Execute_ok; [|apply fieldsOf_ty]. by vm_compute. Qed.
End render.

(** ** The addons of a cluster *)
Section addons.
Context {W : Type} `{Env W} `{PkgErrors} `{MapRange} `{WaitLib W} `{ParseCIDR} `{ClientCmd}.
Context `{Yaml ClusterSpec} `{Yaml Cluster} `{Yaml Master} `{Yaml ConfigMap} `{Yaml SecretObject}.

Lemma renderAddons_ok spec region ip sgid vsw cfgs : ∀ (daddons : gmap string string) (s : St W),
  cfgs ⊆ AddonConfigsTpl → NoDup (map at_Name cfgs) →
  ∃ m s', renderAddons spec region ip sgid vsw cfgs daddons s = (Ret (m, None), s') ∧
    log s' = log s ++ replicate (length cfgs) GenerateUUID ∧
    (∀ i cfg, cfgs !! i = Some cfg → ∃ out, m !! at_Name cfg = Some out ∧
       let uuid := (env_step GenerateUUID (after (replicate i GenerateUUID) (world s))).1 in
       renderAddon (fillAddon spec region ip sgid vsw uuid cfg) = (out, None)) ∧
    ∀ k, k ∉ map at_Name cfgs → m !! k = daddons !! k.
Proof.
  induction cfgs as [|cfg cfgs IH]; intros daddons s Hsub Hn; cbn [renderAddons].
  { exists daddons, s. split; [done|]. cbn. rewrite app_nil_r. split; [done|]. by split. }
  step_perform. set (uuid := (env_step GenerateUUID (world s)).1). set (w := (env_step GenerateUUID (world s)).2).
  destruct (renderAddon_ok cfg (fillAddon spec region ip sgid vsw uuid cfg)) as (out & Ho);
    [apply Hsub; by left|done|]. rewrite Ho. cbn [map] in Hn. apply NoDup_cons in Hn as [Hne Hn].
  destruct (IH (<[at_Name cfg := out]> daddons) (MkSt w (log s ++ [GenerateUUID]))) as (m & s' & Hr & Hl & Hm & Hk);
    [by intros x Hx; apply Hsub; right|done|].
  exists m, s'. split; [exact Hr|]. split; [rewrite Hl; cbn; by rewrite <- app_assoc|]. split.
  - intros [|i] c Hc; [|by apply (Hm i)]. injection Hc as <-. exists out. split; [|exact Ho].
    rewrite Hk by done. apply lookup_insert_eq.
  - intros k. cbn [map]. rewrite not_elem_of_cons. intros [Hk1 Hk2]. rewrite Hk by done.
    by rewrite lookup_insert_ne.
Qed.

Lemma SecrityGroup_run stack (s : St W) :
  (∀ v, stack !! "k8s_sg" = Some v → ∃ id, v_Val v = AStr id) →
  SecrityGroup stack s =
    (Ret (match stack !! "k8s_sg" with Some (MkValue _ (AStr id)) => id | _ => "" end), s).
Proof.
  unfold SecrityGroup, stackOr. intros Hsg. destruct (stack !! "k8s_sg") as [[k v]|]; [|done].
  by destruct (Hsg _ eq_refl) as (id & [= ->]).
Qed.

(** C21: when the registry names a region, the service network has a tenth
    address and the provider knows its switch, rendering the default addons
    always succeeds: the result has the nine addons and no other, each the text
    of its own template, filled with the pod and service networks, the intranet
    endpoint, the security group of the stack, the provider's switch, the
    registry's region, the tenth service address, and an identity drawn for it
    alone; and the provider is asked for the switch once. *)
Theorem DefaultAddons_complete ctx spec a region b c ip vsw (s : St W) :
  Split (cs_Registry spec) "." = [a; region; b; c] →
  GetDNSIP (nw_SVCCIDR (cs_Network spec)) 10 = Ret (ip, None) →
  (env_step (PVSwitchs ctx) (world s)).1 = (vsw, None) →
  (∀ v, getStack ctx !! "k8s_sg" = Some v → ∃ id, v_Val v = AStr id) →
  ∃ m s', DefaultAddons (Some ctx) spec s = (Ret (m, None), s') ∧
    log s' = log s ++ PVSwitchs ctx :: replicate 9 GenerateUUID ∧
    (∀ k, is_Some (m !! k) ↔ k ∈ ["ccm"; "coredns"; "terway"; "ingress-controller"; "kubeproxy-master";
                                   "kubeproxy-worker"; "metrics-server"; "csi-plugin"; "csi-provision"]) ∧
    ∀ i k cfg,
      [("ccm", CCM); ("coredns", CORDDNS); ("terway", TERWAY); ("ingress-controller", INGRESS);
       ("kubeproxy-master", KUBEPROXY_MASTER); ("kubeproxy-worker", KUBEPROXY_WORKER);
       ("metrics-server", METRICS_SERVER); ("csi-plugin", CSI_PLUGIN); ("csi-provision", CSI_PROVISION)] !! i
        = Some (k, cfg) →
      ∃ out, m !! k = Some out ∧
        RenderConfig (at_Tpl cfg)
          [("UUID", (env_step GenerateUUID (after (PVSwitchs ctx :: replicate i GenerateUUID) (world s))).1);
           ("Name", at_Name cfg); ("Replicas", at_Replicas cfg); ("Namespace", "kube-system");
           ("Action", "Install"); ("Region", region); ("ImageVersion", at_ImageVersion cfg);
           ("KubeDnsClusterIp", IP_String ip);
           ("CIDR", nw_PodCIDR (cs_Network spec)); ("Tpl", at_Tpl cfg);
           ("ComponentRevision", "1111"); ("IngressSlbNetworkType", "internet"); ("ProxyMode", "iptables");
           ("IntranetApiServerEndpoint", "https://" +:+ ep_Intranet (cs_Endpoint spec) +:+ ":6443");
           ("IPStack", at_IPStack cfg); ("ServiceCIDR", nw_SVCCIDR (cs_Network spec));
           ("SecurityGroupID",
              match getStack ctx !! "k8s_sg" with Some (MkValue _ (AStr id)) => id | _ => "" end);
           ("PodVswitchId", vsw)] = (out, None).
Proof.
  intros Hreg Hip Hvsw Hsg. set (sgid := match getStack ctx !! "k8s_sg" with Some _ => _ | _ => _ end).
  destruct (env_step (PVSwitchs ctx) (world s)) as [r w] eqn:Ew. cbn in Hvsw. subst r.
  destruct (renderAddons_ok spec region (IP_String ip) sgid vsw AddonConfigsTpl ∅ (MkSt w (log s ++ [PVSwitchs ctx])))
    as (m & s' & Hr & Hl & Hm & Hk).
  { done. }
  { apply (bool_decide_unpack _). by vm_compute. }
  exists m, s'. split; [|split; [|split]].
  - unfold DefaultAddons, defaultAddons.
    rewrite bind_unfold. cbn [deref]. rewrite bind_ret_l, bind_unfold, SecrityGroup_run by done.
    fold sgid. step_perform. rewrite Ew. cbn [fst snd mret M_ret].
    rewrite Hreg, bind_unfold, Hip. cbn. exact Hr.
  - rewrite Hl. cbn [log]. by rewrite <- app_assoc.
  - intros k. change (is_Some (m !! k) ↔ k ∈ map at_Name AddonConfigsTpl). split.
    + intros [x Hx]. destruct (decide (k ∈ map at_Name AddonConfigsTpl)); [done|]. by rewrite Hk in Hx.
    + intros (cfg & -> & [i Hc]%list_elem_of_lookup)%list_elem_of_fmap.
      destruct (Hm i cfg Hc) as (out & E & _). eauto.
  - intros i k cfg Hi. assert (AddonConfigsTpl !! i = Some cfg ∧ k = at_Name cfg) as [Hc ->].
    { do 9 (destruct i as [|i]; [by injection Hi as <- <-|]). done. }
    destruct (Hm i cfg Hc) as (out & E & Hout). exists out. split; [exact E|].
    cbn [after foldl]. rewrite Ew. exact Hout.
Qed.
End addons.

(** ** The configuration of kubeadm *)
Definition configTy : Tmpl.ty :=
  Tmpl.TRec
    [("Kubernetes", stringsTy ["KubeadmToken"; "Version"]); ("NodeName", Tmpl.TStr); ("Sans", Tmpl.TList Tmpl.TStr);
     ("Network", stringsTy ["NetMask"; "PodCIDR"; "Domain"; "SVCCIDR"]); ("EtcdEndpoints", Tmpl.TList Tmpl.TStr);
     ("Registry", Tmpl.TStr); ("ClusterID", Tmpl.TStr)].

Lemma strings_ty l : Tmpl.hasTy (Tmpl.TList Tmpl.TStr) (Tmpl.VList (map Tmpl.VStr l)).
Proof. cbn. induction l; by constructor. Qed.

Lemma configValue_ty t : Tmpl.hasTy configTy (configValue t).
Proof.
  apply Tmpl.hasTy_rec. repeat (constructor; [split; [done|]|]); first [apply strings_ty|by split_and!|done|constructor].
Qed.

Lemma Tplv1_checked : Tmpl.checkTpl configTy Tplv1 = true.
Proof. by vm_compute. Qed.

(** An item of a list in the configuration, indented. *)
Definition listItem (indent x : string) : string := newline +:+ indent +:+ "- " +:+ x +:+ " " +:+ newline.

(** The loop of the template over a list of strings. *)
Definition listLoop (indent name : string) : Tmpl.node :=
  Tmpl.NRange "_" "v" (Tmpl.AField [name])
    [Tmpl.NText (newline +:+ indent +:+ "- "); Tmpl.NPrint (Tmpl.AVar "v"); Tmpl.NText (" " +:+ newline)] [].

Lemma listLoop_part escape dot name l indent x :
  Tmpl.fieldOf dot [name] = Some (Tmpl.VList (map Tmpl.VStr l)) → x ∈ l →
  (Tmpl.exec escape [] dot (listLoop indent name)).2 = None →
  Contains (Tmpl.exec escape [] dot (listLoop indent name)).1 (listItem indent (escape x)) = true.
Proof.
  intros Hf Hx. unfold listLoop. cbn [Tmpl.exec Tmpl.eval]. rewrite Hf.
  apply list_elem_of_lookup in Hx as (i & Hi).
  destruct (map Tmpl.VStr l) as [|v vs] eqn:El; [by destruct l|]. rewrite <- El. intros Hn.
  match goal with |- context [Tmpl.inTurn ?f (imap pair ?vs)] => set (g := f) in * ; set (xs := imap pair vs) in * end.
  assert ((i, Tmpl.VStr x) ∈ xs) as Hin.
  { apply (list_elem_of_lookup_2 _ i). unfold xs. rewrite list_lookup_imap.
    change (map Tmpl.VStr l) with (Tmpl.VStr <$> l). by rewrite list_lookup_fmap, Hi. }
  destruct (Tmpl.inTurn_part g xs _ Hin Hn) as (p & q & E). apply Contains_spec.
  exists p, q. rewrite E. f_equal. f_equal. unfold g, listItem. cbn. by rewrite !string_app_assoc.
Qed.

Section config.
Context {W : Type} `{Env W} `{PkgErrors}.
#[local] Transparent ExecuteTpl.

Lemma ExecuteTpl_nodes t :
  ∃ nodes out, Tmpl.Parse Tplv1 = Some nodes ∧ ExecuteTpl t = (out, None) ∧
    Tmpl.inTurn (Tmpl.exec Tmpl.htmlEscape [] (configValue t)) nodes = (out, None).
Proof.
  destruct (Tmpl.Execute_ok Tmpl.htmlEscape Tplv1 _ _ Tplv1_checked (configValue_ty t)) as (out & E).
  unfold ExecuteTpl, Tmpl.ExecuteHTML. rewrite E. unfold Tmpl.Execute in E.
  destruct (Tmpl.Parse Tplv1) as [nodes|]; [|done]. eauto.
Qed.

(** The nodes that print what depends on the machine and the cluster. *)
Lemma Tplv1_nodes :
  match Tmpl.Parse Tplv1 with
  | Some nodes => (nodes !! 5%nat, nodes !! 9%nat, nodes !! 3%nat)
  | None => (None, None, None)
  end = (Some (listLoop "  " "Sans"), Some (listLoop "    " "EtcdEndpoints"), Some (Tmpl.NPrint (Tmpl.AField ["NodeName"]))).
Proof. by vm_compute. Qed.

Lemma inTurn_each {A} (f : A → string * error) l x : (Tmpl.inTurn f l).2 = None → x ∈ l → (f x).2 = None.
Proof.
  induction l as [|y l IH]; [by intros ? ?%elem_of_nil|]. cbn. unfold Tmpl.andThen.
  rewrite elem_of_cons. destruct (f y) as [out [e|]] eqn:Ey; [done|]. cbn. intros Hn [->|Hx]; [by rewrite Ey|by apply IH].
Qed.

(** What a node prints is in the configuration. *)
Lemma ExecuteTpl_part t out i n part :
  ExecuteTpl t = (out, None) → (nodes ← Tmpl.Parse Tplv1; nodes !! i) = Some n →
  ((Tmpl.exec Tmpl.htmlEscape [] (configValue t) n).2 = None →
   Contains (Tmpl.exec Tmpl.htmlEscape [] (configValue t) n).1 part = true) →
  Contains out part = true.
Proof.
  intros Ho Hi Hp. destruct (ExecuteTpl_nodes t) as (nodes & out' & HP & Ho' & HT). rewrite Ho in Ho'.
  injection Ho' as <-. rewrite HP in Hi. cbn in Hi. apply list_elem_of_lookup_2 in Hi.
  assert ((Tmpl.inTurn (Tmpl.exec Tmpl.htmlEscape [] (configValue t)) nodes).2 = None) as Hn by (by rewrite HT).
  destruct (Tmpl.inTurn_part _ _ _ Hi Hn) as (p & q & E). rewrite HT in E. cbn in E.
  specialize (Hp (inTurn_each _ _ _ Hn Hi)). apply Contains_spec in Hp as (p' & q' & Hp).
  apply Contains_spec. exists (p +:+ p'), (q' +:+ q). rewrite E, Hp. by rewrite !string_app_assoc.
Qed.

(** C33: the configuration of kubeadm is rendered for every master whose id names
    a region and an instance and which has an address or a list of etcd
    endpoints: it never fails, the node is named by its address and instance, and
    it has an item of its own for every name of the certificate and for every
    etcd member, as html/template prints them. *)
Theorem Config_rendered n c region insid (s : St W) :
  mt_BootCFG (m_Status n) = Some c → Split (ms_ID (m_Spec n)) "." = [region; insid] →
  es_Endpoints (cs_Etcd (cl_Spec c)) ≠ EmptyString ∨ ms_IP (m_Spec n) ≠ EmptyString →
  let url host := "https://" +:+ host +:+ ":2379" in
  let members := if decide (es_Endpoints (cs_Etcd (cl_Spec c)) = EmptyString) then [ms_IP (m_Spec n)]
                 else Split (es_Endpoints (cs_Etcd (cl_Spec c))) "," in
  ∃ out, Config_ (Some n) s = (Ret (out, None), s) ∧
    Contains out (Tmpl.htmlEscape (ms_IP (m_Spec n) +:+ "." +:+ insid)) = true ∧
    (∀ san, san ∈ cs_Sans (cl_Spec c) → Contains out (listItem "  " (Tmpl.htmlEscape san)) = true) ∧
    (∀ m, m ∈ members → Contains out (listItem "    " (Tmpl.htmlEscape (url m))) = true).
Proof.
  intros Hc Hid He url members.
  set (t := MkConfigTpl n (cl_Spec c) (ms_IP (m_Spec n) +:+ "." +:+ insid) (map url members)).
  destruct (ExecuteTpl_nodes t) as (nodes & out & HP & Ho & _). exists out.
  pose proof Tplv1_nodes as HN. rewrite HP in HN. injection HN as HN5 HN9 HN3. split; [|split; [|split]].
  - assert (withNodeName (Some n) s =
            (Ret (MkConfigTpl n (cl_Spec c) (ms_IP (m_Spec n) +:+ "." +:+ insid) []), s)) as Hn.
    { unfold withNodeName, NewConfigTpl. rewrite Hc, bind_unfold. cbn. unfold WithNodeName, BreakDownIDOrDie.
      cbn [ct_Master]. by rewrite Hid. }
    assert (WithEtcdEndpoints (MkConfigTpl n (cl_Spec c) (ms_IP (m_Spec n) +:+ "." +:+ insid) []) = Ret t) as Ht.
    { unfold WithEtcdEndpoints, t, members. cbn [ct_ClusterSpec ct_Master ct_NodeName].
      destruct (decide (es_Endpoints _ = EmptyString)); [|done]. rewrite decide_False by naive_solver. done. }
    unfold Config_. rewrite bind_unfold, Hn, bind_unfold, Ht. cbn. by rewrite Ho.
  - eapply (ExecuteTpl_part _ _ 3); [exact Ho|rewrite HP; exact HN3|]. intros _. apply Contains_spec.
    exists EmptyString, EmptyString. cbn. by rewrite string_app_nil_r.
  - intros san Hs. eapply (ExecuteTpl_part _ _ 5); [exact Ho|rewrite HP; exact HN5|].
    by apply (listLoop_part _ _ _ (cs_Sans (cl_Spec c))).
  - intros m Hm. eapply (ExecuteTpl_part _ _ 9); [exact Ho|rewrite HP; exact HN9|].
    apply (listLoop_part _ _ _ (map url members)); [done|]. by apply list_elem_of_fmap_2.
Qed.
End config.

(** ** What html/template changes *)
Definition htmlSafe (c : ascii) : bool :=
  negb (Ascii.eqb c quoteMark || Ascii.eqb c "&" || Ascii.eqb c "'" || Ascii.eqb c "+" || Ascii.eqb c "<" || Ascii.eqb c ">").

(** A value without the six bytes is printed as it is. *)
Lemma htmlEscape_safe s : Tmpl.all htmlSafe s = true → Tmpl.htmlEscape s = s.
Proof.
  induction s as [|c s IH]; [done|]. cbn [Tmpl.all Tmpl.htmlEscape]. rewrite andb_true_iff. intros [Hc Hs].
  unfold htmlSafe in Hc.
  destruct (Ascii.eqb c quoteMark), (Ascii.eqb c "&"), (Ascii.eqb c "'"), (Ascii.eqb c "+"), (Ascii.eqb c "<"), (Ascii.eqb c ">");
    try done. cbn. by rewrite IH.
Qed.

(** The operator's manifest is YAML, in which an entity is not a plus sign: a
    version with build metadata names an image that does not exist. *)
Theorem operator_image_escaped :
  Contains (renderWdrip "1.0.0+7" "registry/aoxn" "u").1 "image: registry/aoxn/wdrip:1.0.0&#43;7" = true.
Proof. by vm_compute. Qed.

(** ** Witnesses *)
Import Sim SimEnv SimWait SimNet.

Definition described : ClusterSpec :=
  UserData.cs_with_Registry "registry-vpc.cn-hangzhou.aliyuncs.com/acs" zeroClusterSpec.

Definition grouped : Context_ := WithStack {["k8s_sg" := MkValue "k8s_sg" (AStr "sg-1")]} NewEmptyContext.

Lemma DefaultAddons_complete_witness :
  ∃ m s', DefaultAddons (W:=Z) (Some grouped) described (start_at 0) = (Ret (m, None), s') ∧
    m !! "flannel" = None ∧
    ∃ out, m !! "terway" = Some out ∧ Contains out "sg-1" = true.
Proof.
  destruct (DefaultAddons_complete (W:=Z) grouped described "registry-vpc" "cn-hangzhou" "aliyuncs" "com/acs"
              (Some [172; 16; 0; 10]) EmptyString (start_at 0)) as (m & s' & Hd & _ & Hk & Hout);
    [by vm_compute|by vm_compute|reflexivity|intros v Hv; injection Hv as <-; by exists "sg-1"|].
  exists m, s'. split; [exact Hd|]. split.
  - destruct (m !! "flannel") as [x|] eqn:E; [|reflexivity].
    assert (is_Some (m !! "flannel")) as Hf by (exists x; exact E). apply Hk in Hf.
    apply (bool_decide_pack _) in Hf. vm_compute in Hf. destruct Hf.
  - destruct (Hout 2%nat "terway" TERWAY eq_refl) as (out & Hm & Hr). exists out. split; [exact Hm|].
    assert (out = (out, None : error).1) as -> by reflexivity. rewrite <- Hr. vm_compute. reflexivity.
Defined.

Definition master : Master :=
  MkMaster noType (metaNamed "10.0.0.1") (MkMasterSpec "10.0.0.1" "cn-hangzhou.i-1" "Master")
    (MkMasterStatus [] (Some (cl_with_Spec described zeroCluster)) "").

Lemma Config_rendered_witness :
  ∃ out, Config_ (W:=Z) (Some master) (start_at 0) = (Ret (out, None), start_at 0) ∧
    Contains out (listItem "    " "https://10.0.0.1:2379") = true.
Proof.
  destruct (Config_rendered (W:=Z) master (cl_with_Spec described zeroCluster) "cn-hangzhou" "i-1" (start_at 0))
    as (out & Hc & _ & _ & Hm); [reflexivity|by vm_compute|right; discriminate|].
  exists out. split; [exact Hc|]. apply (Hm "10.0.0.1"). left.
Defined.
