(* ===== verification/Boot.v ===== *)
(** * Bringing up a node (pkg/boot, cmd/wdrip/init, cmd/wdrip/recover)

    Where the node's configuration comes from (a file, the operator of a running
    cluster, the coordinator, or a backup), the default credentials, and the
    steps that install the runtime, etcd, the control plane or a worker. *)
From stdpp Require Import base list gmap strings.
From Stdlib Require Import Lia.
From S2P Require Import Prelude GoStrings GoTime Api Effects Utils Provider Rest NodeInfo Sign Etcd Index Iaas Actions NodeActions Crd Post.
Local Open Scope Z_scope.

(** A step of a boot may set keys of the context. *)
Abbreviation Step W := (NodeContext → IO W (NodeContext * error)).

(** ** initialize.go and help.go *)

(** [addSans] of [AddExtraSans] *)
Definition addSans (endpoint : string) (sans : list string) : list string :=
  if bool_decide (endpoint ∈ sans) then sans else sans ++ [endpoint].
Definition AddExtraSans (spec : Cluster) : Cluster :=
  let s := cl_Spec spec in
  let e := cs_Endpoint s in
  let add ep sans := if decide (ep = "") then sans else addSans ep sans in
  cl_with_Spec (cs_with_Sans (add (ep_Internet e) (add (ep_Intranet e) (cs_Sans s))) s) spec.

(** The specification with other Kubernetes or etcd settings. *)
Definition cs_with_Kubernetes (k : Kubernetes) (s : ClusterSpec) : ClusterSpec :=
  MkClusterSpec (cs_Bind s) (cs_ClusterID s) (cs_Namespace s) (cs_CloudType s) (cs_Network s)
    (cs_Etcd s) (cs_Runtime s) k (cs_AddonInitialized s) (cs_Sans s) (cs_Token s)
    (cs_Registry s) (cs_Endpoint s) (cs_SilentTime s).

(** [if a == nil { a = b }] *)
Definition orElse {A} (a b : option A) : option A := match a with Some _ => a | None => b end.
(** The authorities of a previous run are kept where the configuration has
    none. *)
Definition keepCAs (prec cluster : ClusterSpec) : ClusterSpec :=
  let k := cs_Kubernetes cluster in
  let p := cs_Kubernetes prec in
  let e := cs_Etcd cluster in
  let q := cs_Etcd prec in
  cs_with_Etcd (MkEtcdSpec (es_Unit e) (es_Endpoints e) (es_InitToken e)
                  (orElse (es_PeerCA e) (es_PeerCA q)) (orElse (es_ServerCA e) (es_ServerCA q)))
    (cs_with_Kubernetes
       (MkKubernetes (ku_Unit k) (ku_KubeadmToken k) (orElse (ku_RootCA k) (ku_RootCA p))
          (orElse (ku_FrontProxyCA k) (ku_FrontProxyCA p)) (orElse (ku_SvcAccountCA k) (ku_SvcAccountCA p))
          (orElse (ku_ControlRoot k) (ku_ControlRoot p))) cluster).

(** A node object made here. *)
Definition selfObject (ip id role : string) (st : MasterStatus) : Master :=
  MkMaster noType (metaNamed ip) (MkMasterSpec ip id role) st.

Section credentials.
Context {W : Type} `{Env W} `{CryptoLib} `{PKIX}.

Definition defaultCA (make : IO W (option KeyCert * error)) (ca : option KeyCert) : IO W (option KeyCert) :=
  match ca with
  | Some _ => mret ca
  | None =>
      '(kc, err) ← make;
      match err with
      | Some _ => panic "new self signed cert pair fail"
      | None => mret kc
      end
  end.
Definition SetDefaultCredential (spec : ClusterSpec) : IO W ClusterSpec :=
  let k := cs_Kubernetes spec in
  let e := cs_Etcd spec in
  root ← defaultCA NewKeyCert (ku_RootCA k);
  front ← defaultCA NewKeyCert (ku_FrontProxyCA k);
  sa ← defaultCA NewKeyCertForSA (ku_SvcAccountCA k);
  token ← (if decide (ku_KubeadmToken k = "") then
             '(token, err) ← perform GenerateBootstrapToken;
             match err with
             | Some e => panic ("token generate: " +:+ Error e)
             | None => mret token
             end
           else mret (ku_KubeadmToken k));
  server ← defaultCA NewKeyCert (es_ServerCA e);
  peer ← defaultCA NewKeyCert (es_PeerCA e);
  init ← (if decide (es_InitToken e = "") then perform GenerateUUID else mret (es_InitToken e));
  mret (cs_with_Etcd (MkEtcdSpec (es_Unit e) (es_Endpoints e) init peer server)
          (cs_with_Kubernetes (MkKubernetes (ku_Unit k) token root front sa (ku_ControlRoot k)) spec)).
End credentials.

Section initialize.
Context {W : Type} `{Env W} `{PkgErrors} `{CryptoLib} `{PKIX} `{LocalZone} `{Yaml ClusterSpec} `{Yaml ContextCFG}.
Context `{Json Snapshot} `{Json ClusterId} `{Json Cluster} `{Json Master}.
Context `{WaitLib W} `{WaitLib (W * option Cluster)} `{WaitLib (W * option Master)}.
Context `{BackoffLib (W * string)} `{BackoffLib (W * (string * option string))}.
Context `{BackoffLib (W * option Cluster * (string * option string))}.
Context `{BackoffLib (W * option Master * (string * option string))}.
Existing Instance var_env.


(** The identity of this node: its id, or its id and address. *)
Definition nodeIdentity : IO W ((string * string) * error) :=
  '(id, err) ← NodeID;
  match err with
  | Some e => mret (("", ""), Errorf ("meta data error node id: " +:+ Error e))
  | None =>
      '(ip, err) ← NodeIP;
      match err with
      | Some e => mret (("", ""), Errorf ("meta data error node ip: " +:+ Error e))
      | None => mret ((id, ip), None)
      end
  end.

(** The condition polled by [InitFromOperator]: [cluster] is captured. *)
Definition fetchCluster (client : RESTClient) : IO (W * option Cluster) (bool * error) :=
  '(mc, err) ← cluster_Get client "kubernetes-cluster";
  match err with
  | Some _ => mret (false, None)
  | None => _ ← set_var (Some mc); mret (true, None)
  end.
Definition InitFromOperator : Step W := λ ctx,
  client ← bootClient ctx;
  '(err, cluster) ← with_var None (PollImmediate (5 * Second) (5 * Minute) (fetchCluster client));
  match err with
  | Some e => mret (ctx, Errorf ("retrieve bootcfg: " +:+ Error e))
  | None =>
      '((id, ip), err) ← nodeIdentity;
      match err with
      | Some e => mret (ctx, Some e)
      | None =>
          cluster ← deref cluster;
          let node := selfObject ip id (wo_Role (WdripFlags ctx))
                        (MkMasterStatus (ct_Peers (cl_Status cluster)) (Some (AddExtraSans cluster)) "") in
          mret (nc_with_node (Some node) ctx, None)
      end
  end.

Definition InitFromCfg : Step W := λ ctx,
  let cfg := wo_Config (WdripFlags ctx) in
  if decide (cfg = "") then mret (ctx, Errorf "empty cluster config, --config")
  else
    '(bcfg, err) ← perform (ReadFile cfg);
    match err with
    | Some e => mret (ctx, Some e)
    | None =>
        match YamlUnmarshal bcfg zeroClusterSpec with
        | (_, Some e) => mret (ctx, Errorf ("error decode cluster: " +:+ Error e))
        | (cluster, None) =>
            let genf := cfg +:+ ".gen" in
            '(found, err) ← FileExist genf;
            match err with
            | Some e => mret (ctx, Errorf ("read file stat: " +:+ genf +:+ ", " +:+ Error e))
            | None =>
                r ← (if found : bool then
                       '(bcfg, err) ← perform (ReadFile genf);
                       match err with
                       | Some e => mret (inr (Some e))
                       | None =>
                           match YamlUnmarshal bcfg zeroClusterSpec with
                           | (_, Some e) => mret (inr (Errorf ("error decode cluster: " +:+ Error e)))
                           | (prec, None) => mret (inl (keepCAs prec cluster))
                           end
                       end
                     else mret (inl cluster));
                match r with
                | inr err => mret (ctx, err)
                | inl cluster =>
                    '((id, ip), err) ← nodeIdentity;
                    match err with
                    | Some e => mret (ctx, Some e)
                    | None =>
                        cluster ← SetDefaultCredential cluster;
                        let spec := AddExtraSans (NewDefaultCluster "kubernetes-cluster" cluster) in
                        let node := selfObject ip id (wo_Role (WdripFlags ctx)) (MkMasterStatus [] (Some spec) "") in
                        mret (nc_with_node (Some node) ctx, None)
                    end
                end
            end
        end
    end.

Definition InitFromRecover : Step W := λ ctx,
  '((id, ip), err) ← nodeIdentity;
  match err with
  | Some e => mret (ctx, Some e)
  | None =>
      '(region, err) ← NodeRegion;
      match err with
      | Some e => mret (ctx, Errorf ("meta data error region: " +:+ Error e))
      | None =>
          let opts := WdripFlags ctx in
          let spec := NewRecoverCluster (wo_ClusterName opts) region None in
          '(pctx, opts, err) ← NewContext opts (Some (cl_Spec spec));
          match err with
          | Some e => mret (ctx, Wrapf (Some e) "initialize provider")
          | None =>
              let ctx := nc_with_provider pctx ctx in
              '(mid, err) ← GetCluster (wo_ClusterName opts) (wo_ClusterName opts);
              match err with
              | Some e => mret (ctx, Wrapf (Some e) ("no cluster found by name " +:+ wo_ClusterName opts))
              | None =>
                  '(mindex, (from, err)) ← LatestBackup (NewSnapshotIndex (wo_RecoverFrom opts)) SnapshotTMP;
                  match err with
                  | Some e => mret (ctx, Wrapf (Some e) "download backup db file")
                  | None =>
                      r ← (if decide (wo_RecoverFrom opts = wo_ClusterName opts) then mret (inl mid)
                           else
                             from ← deref from;
                             let mid := cid_with_Cluster (override (cis_Cluster (cid_Spec mid)) from) mid in
                             err ← SaveCluster (wo_ClusterName opts) mid;
                             match (err : error) with
                             | Some e => mret (inr (Wrapf (Some e) "save clusterid"))
                             | None => mret (inl mid)
                             end);
                      match r with
                      | inr err => mret (ctx, err)
                      | inl mid =>
                          let boot := AddExtraSans (NewDefaultCluster "kubernetes-cluster" (cis_Cluster (cid_Spec mid))) in
                          let node := selfObject ip id (wo_Role (WdripFlags ctx)) (MkMasterStatus [] (Some boot) "") in
                          let ctx := nc_with_node (Some node) ctx in
                          '(_, (snapshot, err)) ← si_Snapshot mindex;
                          match err with
                          | Some e => mret (ctx, Some e)
                          | None => _ ← deref snapshot; mret (ctx, None)
                          end
                      end
                  end
              end
          end
      end
  end.

(** [RegisterMyself] *)
Definition registerOnce (client : RESTClient) (node : Master) : IO W (bool * error) :=
  '(_, err) ← node_Create client node;
  mret (match err with Some _ => (false, None) | None => (true, None) end).
Definition RegisterMyself (ctx : NodeContext) : IO W error :=
  client ← bootClient ctx;
  '(id, err) ← NodeID;
  match err with
  | Some e => mret (Errorf ("meta data error nodeid: " +:+ Error e))
  | None =>
      '(ip, err) ← NodeIP;
      match err with
      | Some e => mret (Errorf ("meta data error nodeip: " +:+ Error e))
      | None =>
          let node := MkMaster (MkTypeMeta "NodeObject" "v1") (metaNamed ip)
                        (MkMasterSpec ip id (wo_Role (WdripFlags ctx))) (m_Status zeroMaster) in
          Poll (2 * Second) (5 * Minute) (registerOnce client node)
      end
  end.

(** The condition polled by [SetBootCredential]: the node received is enough for
    a worker; for a master the length of the [Endpoints] text is compared with
    the number of masters expected. *)
Definition fetchCredential (client : RESTClient) (id role : string) (mastercnt : Z)
    : IO (W * option Master) (bool * error) :=
  '(node, err) ← credential_Get client id;
  _ ← set_var (Some node);
  match err with
  | Some _ => mret (false, None)
  | None =>
      if negb (bool_decide (role = NODE_ROLE_MASTER)) then mret (true, None)
      else if mastercnt =? 0 then mret (true, None)
      else
        cfg ← deref (mt_BootCFG (m_Status node));
        if Z.of_nat (String.length (es_Endpoints (cs_Etcd (cl_Spec cfg)))) <? mastercnt
        then mret (false, None) else mret (true, None)
  end.
Definition SetBootCredential : Step W := λ ctx,
  client ← bootClient ctx;
  '(id, err) ← NodeID;
  match err with
  | Some e => mret (ctx, Errorf ("meta data error setbootcredential: " +:+ Error e))
  | None =>
      '(err, node) ← with_var (Some zeroMaster)
         (Poll (2 * Second) (5 * Minute)
            (fetchCredential client id (wo_Role (WdripFlags ctx)) (ExpectedMasterCnt ctx)));
      match err with
      | Some e => mret (ctx, Errorf ("wait for credential config err: " +:+ Error e))
      | None => mret (nc_with_node node ctx, None)
      end
  end.
Definition InitFromCoordinator : Step W := λ ctx,
  err ← RegisterMyself ctx;
  match (err : error) with
  | Some e => mret (ctx, Errorf ("regiter self node error: " +:+ Error e))
  | None => SetBootCredential ctx
  end.

Definition InitFunc (ctx : NodeContext) : Step W :=
  let t := wo_BootType (WdripFlags ctx) in
  if decide (t = "local") then InitFromCfg
  else if decide (t = "coordinator") then InitFromCoordinator
  else if decide (t = "recover") then InitFromRecover
  else InitFromOperator.
End initialize.

(** ** docker.go, etcd.go, node.go and cmd/wdrip/init *)
Section steps.
Context {W : Type} `{Env W} `{PkgErrors} `{GoFmt} `{MapRange} `{CryptoLib} `{PKIX} `{Base64} `{LocalZone}.
Context `{Yaml ClusterSpec} `{Yaml ContextCFG} `{Yaml Cluster} `{Yaml Master} `{Yaml ConfigMap} `{Yaml SecretObject}.
Context `{Json Snapshot} `{Json ClusterId} `{Json Cluster} `{Json Master} `{Json Members} `{Json (list EndpointStatus)}.
Context `{WaitLib W} `{WaitLib (W * option Cluster)} `{WaitLib (W * option Master)}.
Context `{BackoffLib (W * string)} `{BackoffLib (W * (string * option string))}.
Context `{BackoffLib (W * option Cluster * (string * option string))}.
Context `{BackoffLib (W * option Master * (string * option string))}.
Context `{Spawn} `{Kustomize} `{ParseCIDR} `{ClientCmd}.


(** The package of a component, for this system. *)
Definition package (spec : ClusterSpec) (pkg version dest cache bucket : string) : File :=
  MkFile bucket "" "" cache
    (MkFilePath "wdrip" (cs_Namespace spec) (cs_CloudType spec) pkg version (fst Arch) (fst OS) "bin" dest).

Definition keepCtx (ctx : NodeContext) (m : IO W error) : IO W (NodeContext * error) :=
  err ← m;
  mret (ctx, err).

Definition initDocker (ctx : NodeContext) (cfg : ClusterSpec) (bucket : string) : IO W error :=
  RunActions [fileAction [package cfg "docker" (un_Version (cr_Unit (cs_Runtime cfg))) "" "" bucket]; runtimeAction] ctx.
Definition InitContainerRuntime : Step W := λ ctx,
  node ← NodeObject ctx;
  match node with
  | None => mret (ctx, Errorf "empty node error: <nil> ")
  | Some node =>
      cfg ← deref (mt_BootCFG (m_Status node));
      let spec := cl_Spec cfg in
      if decide (un_Name (cr_Unit (cs_Runtime spec)) = "containerd") then mret (ctx, Errorf "not supported")
      else keepCtx ctx (initDocker ctx spec (wo_Bucket (WdripFlags ctx)))
  end.

Definition etcdAction : Action W := λ ctx,
  node ← NodeObject ctx;
  etcd_Execute node (wo_BootType (WdripFlags ctx)).
Definition InitEtcd : Step W := λ ctx,
  node ← NodeObject ctx;
  match node with
  | None => mret (ctx, Errorf "empty node error: <nil> ")
  | Some node =>
      cfg ← deref (mt_BootCFG (m_Status node));
      let spec := cl_Spec cfg in
      keepCtx ctx
        (RunActions [fileAction [package spec "etcd" (un_Version (es_Unit (cs_Etcd spec))) "" "" (wo_Bucket (WdripFlags ctx))];
                     etcdAction] ctx)
  end.

Definition NewConcurrentPkgDL (cfg : ClusterSpec) (bucket : string) : Action W :=
  ConcurrentAction
    [fileAction [package cfg "kubernetes" (un_Version (ku_Unit (cs_Kubernetes cfg))) "" "pkg/kubernetes/" bucket];
     fileAction [package cfg "kubernetes-cni" "0.8.6" "/opt/cni/bin/" "" bucket]].

(** [n] bounds the turns of the wait for a custom resource definition. *)
Definition InitMasterAlone (n : nat) : Step W := λ ctx,
  node ← NodeObject ctx;
  match node with
  | None => mret (ctx, Errorf "master, empty node error: <nil> ")
  | Some node =>
      cfg ← deref (mt_BootCFG (m_Status node));
      '(pctx, _, err) ← NewContext (WdripFlags ctx) (Some (cl_Spec cfg));
      match err with
      | Some e => mret (ctx, Wrapf (Some e) "initialize provider")
      | None =>
          let ctx := nc_with_provider pctx ctx in
          keepCtx ctx
            (RunActions [NewConcurrentPkgDL (cl_Spec cfg) (wo_Bucket (WdripFlags ctx));
                         ActionKubelet; ActionInit; ActionCCM; ActionKubeAuth; ActionPost n] ctx)
      end
  end.

Definition InitWorker : Step W := λ ctx,
  node ← NodeObject ctx;
  match node with
  | None => mret (ctx, Errorf "empty node error: <nil> ")
  | Some node =>
      cfg ← deref (mt_BootCFG (m_Status node));
      keepCtx ctx
        (RunActions [NewConcurrentPkgDL (cl_Spec cfg) (wo_Bucket (WdripFlags ctx)); ActionKubelet; ActionJoin] ctx)
  end.

(** Steps are numbered; the first error ends them. *)
Fixpoint runSteps (i : Z) (steps : list (Step W)) (ctx : NodeContext) : IO W (NodeContext * error) :=
  match steps with
  | [] => mret (ctx, None)
  | step :: rest =>
      '(ctx, err) ← step ctx;
      match err with
      | Some e => mret (ctx, Errorf ("steps " +:+ fmt_d i +:+ ": " +:+ Error e))
      | None => runSteps (i + 1) rest ctx
      end
  end.
(** [initnode] *)
Definition roleSteps (n : nat) (role : string) : list (Step W) :=
  if decide (role = NODE_ROLE_ETCD) then [InitEtcd]
  else if decide (role = NODE_ROLE_MASTER) then [InitMasterAlone n]
  else if decide (role = NODE_ROLE_HYBRID) then [InitEtcd; InitMasterAlone n]
  else if decide (role = NODE_ROLE_WORKER) then [InitWorker]
  else [].
Definition initnode (n : nat) (ctx : NodeContext) : IO W error :=
  '(_, err) ← runSteps 0 (InitFunc ctx :: InitContainerRuntime :: roleSteps n (wo_Role (WdripFlags ctx))) ctx;
  mret err.
(** cmd/wdrip/recover: [doRecover] *)
Definition doRecover (n : nat) (ctx : NodeContext) : IO W error :=
  '(_, err) ← runSteps 0 [InitFunc ctx; InitContainerRuntime; InitEtcd; InitMasterAlone n] ctx;
  mret err.

(** bootstrap.go: [WaitBootrap] *)
Definition mastersUp (cnt : Z) : IO W (bool * error) :=
  '(out, err) ← Kubectl ["--kubeconfig"; AUTH_FILE; "-l"; "node-role.kubernetes.io/master="; "get"; "no"];
  match err with
  | Some _ => mret (false, None)
  | None => mret (Z.of_nat (length out) - 1 =? cnt, None)
  end.
Definition WaitBootrap (BootCFG : option ClusterSpec) (cnt : Z) : IO W error :=
  err ← Poll (3 * Second) (10 * Minute) (mastersUp cnt);
  match (err : error) with
  | Some e => mret (Errorf ("wait bootstrap: " +:+ Error e))
  | None =>
      boot ← deref BootCFG;
      err ← RunWdrip boot;
      match (err : error) with
      | Some e => mret (Errorf ("run wdrip: " +:+ Error e))
      | None => InstallAddons None boot [KUBEPROXY_MASTER]
      end
  end.
End steps.

(** ** Facts *)

(** The certificate authorities of a specification, by name. *)
Definition CAs (s : ClusterSpec) : list (option KeyCert) :=
  let k := cs_Kubernetes s in
  let e := cs_Etcd s in
  [ku_RootCA k; ku_FrontProxyCA k; ku_SvcAccountCA k; es_PeerCA e; es_ServerCA e; ku_ControlRoot k].
(** The five a node cannot do without are there. *)
Definition complete (s : ClusterSpec) : Prop := Forall is_Some (take 5 (CAs s)).
(** Every authority of [a] is the one of [b]. *)
Definition keeps_CAs (a b : ClusterSpec) : Prop :=
  Forall2 (λ x y : option KeyCert, is_Some x → y = x) (CAs a) (CAs b).

(** Apart from authorities and tokens two specifications agree. *)
Definition same_settings (a b : ClusterSpec) : Prop :=
  ∃ token root front sa control init peer server,
    b = cs_with_Etcd (MkEtcdSpec (es_Unit (cs_Etcd a)) (es_Endpoints (cs_Etcd a)) init peer server)
          (cs_with_Kubernetes (MkKubernetes (ku_Unit (cs_Kubernetes a)) token root front sa control) a).

Lemma same_settings_refl a : same_settings a a.
Proof. destruct a as [? ? ? ? ? [] ? []]. by do 8 eexists. Qed.
Lemma same_settings_trans a b c : same_settings a b → same_settings b c → same_settings a c.
Proof. intros (?&?&?&?&?&?&?&?&->) (?&?&?&?&?&?&?&?&->). by do 8 eexists. Qed.
(** The alternative names are not an authority. *)
Lemma same_settings_Sans a b l : same_settings a b → same_settings a (cs_with_Sans (cs_Sans a) (cs_with_Sans l b)).
Proof. intros (?&?&?&?&?&?&?&?&->). by do 8 eexists. Qed.
Lemma keepCAs_keeps prec c : keeps_CAs c (keepCAs prec c).
Proof. unfold keeps_CAs, CAs. cbn. repeat constructor; by intros [? ->]. Qed.
(** An authority of the previous run is used where the configuration has none. *)
Lemma keepCAs_fills prec c : CAs (keepCAs prec c) = zip_with orElse (CAs c) (CAs prec).
Proof. reflexivity. Qed.
Lemma keepCAs_settings prec c : same_settings c (keepCAs prec c).
Proof. by do 8 eexists. Qed.

Section credential_facts.
Context {W : Type} `{Env W} `{CryptoLib} `{PKIX}.

Lemma NewKeyCert_Some kc (s s' : St W) : NewKeyCert s = (Ret (kc, None), s') → is_Some kc.
Proof.
  unfold NewKeyCert. intros HB. apply bind_Ret_inv in HB as ([[key crt] [e|]] & s1 & _ & HB); [done|].
  injection HB as <- _. by eexists.
Qed.
Lemma NewKeyCertForSA_Some kc (s s' : St W) : NewKeyCertForSA s = (Ret (kc, None), s') → is_Some kc.
Proof.
  unfold NewKeyCertForSA. intros HB. apply bind_Ret_inv in HB as ([[key crt] [e|]] & s1 & _ & HB); [done|].
  injection HB as <- _. by eexists.
Qed.
Lemma defaultCA_spec make ca x (s s' : St W) :
  (∀ kc s s', make s = (Ret (kc, None), s') → is_Some kc) →
  defaultCA make ca s = (Ret x, s') → is_Some x ∧ (is_Some ca → x = ca).
Proof.
  intros Hm. unfold defaultCA. destruct ca as [c|]; [intros [= <- _]; split; [by eexists|done]|].
  intros HB. apply bind_Ret_inv in HB as ([kc [e|]] & s1 & E & HB); [done|].
  injection HB as <- _. split; [by eapply Hm|by intros []].
Qed.

Lemma SetDefaultCredential_spec spec spec' (s s' : St W) :
  SetDefaultCredential spec s = (Ret spec', s') →
  complete spec' ∧ keeps_CAs spec spec' ∧ same_settings spec spec' ∧
  (ku_KubeadmToken (cs_Kubernetes spec) ≠ "" →
     ku_KubeadmToken (cs_Kubernetes spec') = ku_KubeadmToken (cs_Kubernetes spec)) ∧
  (es_InitToken (cs_Etcd spec) ≠ "" → es_InitToken (cs_Etcd spec') = es_InitToken (cs_Etcd spec)).
Proof.
  unfold SetDefaultCredential. intros HB.
  apply bind_Ret_inv in HB as (root & s1 & E1 & HB). apply (defaultCA_spec _ _ _ _ _ NewKeyCert_Some) in E1 as [E1 K1].
  apply bind_Ret_inv in HB as (front & s2 & E2 & HB). apply (defaultCA_spec _ _ _ _ _ NewKeyCert_Some) in E2 as [E2 K2].
  apply bind_Ret_inv in HB as (sa & s3 & E3 & HB). apply (defaultCA_spec _ _ _ _ _ NewKeyCertForSA_Some) in E3 as [E3 K3].
  apply bind_Ret_inv in HB as (token & s4 & E4 & HB).
  apply bind_Ret_inv in HB as (server & s5 & E5 & HB). apply (defaultCA_spec _ _ _ _ _ NewKeyCert_Some) in E5 as [E5 K5].
  apply bind_Ret_inv in HB as (peer & s6 & E6 & HB). apply (defaultCA_spec _ _ _ _ _ NewKeyCert_Some) in E6 as [E6 K6].
  apply bind_Ret_inv in HB as (init & s7 & E7 & HB). injection HB as <- _.
  split_and!; [by repeat constructor|by repeat constructor|by do 8 eexists|intros Ht; cbn|intros Ht; cbn].
  - rewrite decide_False in E4 by done. by injection E4 as <- _.
  - rewrite decide_False in E7 by done. by injection E7 as <- _.
Qed.
End credential_facts.

Lemma addSans_elem ep sans x : x ∈ addSans ep sans ↔ x = ep ∨ x ∈ sans.
Proof. unfold addSans. case_bool_decide; set_solver. Qed.
Lemma addSans_NoDup ep sans : NoDup sans → NoDup (addSans ep sans).
Proof.
  unfold addSans. case_bool_decide as Hin; [done|]. intros Hn. apply NoDup_app. split_and!; [done| |apply NoDup_singleton].
  set_solver.
Qed.

(** The alternative names hold both endpoints, nothing is lost and nothing is
    listed twice. *)
Definition sans_ok (old new : list string) (e : Endpoint) : Prop :=
  (∀ x, x ∈ new ↔ x ∈ old ∨ (x ≠ "" ∧ (x = ep_Intranet e ∨ x = ep_Internet e))) ∧ (NoDup old → NoDup new).
Lemma AddExtraSans_ok c :
  sans_ok (cs_Sans (cl_Spec c)) (cs_Sans (cl_Spec (AddExtraSans c))) (cs_Endpoint (cl_Spec c)).
Proof.
  unfold AddExtraSans. cbn. split.
  - intros x. repeat case_decide; rewrite ?addSans_elem; naive_solver.
  - intros Hn. repeat case_decide; auto using addSans_NoDup.
Qed.
(** The authority [ca] of a node is the one of the file, and where the file has
    none the one of the previous run, if there was one. *)
Definition file_then_previous (conf : ClusterSpec) (prec : option ClusterSpec) (spec : ClusterSpec)
    (ca : ClusterSpec → option KeyCert) : Prop :=
  (is_Some (ca conf) → ca spec = ca conf) ∧
  (∀ p, prec = Some p → ca conf = None → is_Some (ca p) → ca spec = ca p).
Definition authorities : list (ClusterSpec → option KeyCert) :=
  [λ c, ku_RootCA (cs_Kubernetes c); λ c, ku_FrontProxyCA (cs_Kubernetes c);
   λ c, ku_SvcAccountCA (cs_Kubernetes c); λ c, es_PeerCA (cs_Etcd c); λ c, es_ServerCA (cs_Etcd c)].

Lemma keeps_CAs_spec (a b : ClusterSpec) :
  keeps_CAs a b →
  Forall (λ ca : ClusterSpec → option KeyCert, is_Some (ca a) → ca b = ca a)
    (authorities ++ [λ c, ku_ControlRoot (cs_Kubernetes c)]).
Proof.
  unfold keeps_CAs, CAs. intros HF.
  repeat match goal with Hf : Forall2 _ (_ :: _) (_ :: _) |- _ => apply Forall2_cons in Hf as [? Hf] end.
  by repeat constructor.
Qed.
Lemma complete_spec (a : ClusterSpec) : complete a → Forall (λ ca : ClusterSpec → option KeyCert, is_Some (ca a)) authorities.
Proof.
  unfold complete. cbn [take CAs]. intros HF.
  repeat match goal with Hf : Forall _ (_ :: _) |- _ => apply Forall_cons in Hf as [? Hf] end.
  by repeat constructor.
Qed.
Lemma keepCAs_spec (prec conf : ClusterSpec) :
  Forall (λ ca : ClusterSpec → option KeyCert,
            ca (keepCAs prec conf) = match ca conf with Some k => Some k | None => ca prec end)
    (authorities ++ [λ c, ku_ControlRoot (cs_Kubernetes c)]).
Proof. cbv [authorities app]. repeat apply Forall_cons_2; try apply Forall_nil_2; cbn; unfold orElse; by case_match. Qed.

(** What [InitFromCfg] starts from, completed by [SetDefaultCredential]. *)
Lemma file_then_previous_intro (conf base spec : ClusterSpec) (prec : option ClusterSpec) :
  base = match prec with Some p => keepCAs p conf | None => conf end → keeps_CAs base spec →
  Forall (file_then_previous conf prec spec) (authorities ++ [λ c, ku_ControlRoot (cs_Kubernetes c)]).
Proof.
  intros -> Hk%keeps_CAs_spec. rewrite Forall_forall in Hk. apply Forall_forall. intros ca Hca.
  specialize (Hk ca Hca). destruct prec as [p|]; [|by split].
  pose proof (keepCAs_spec p conf) as Hp. rewrite Forall_forall in Hp. rewrite (Hp ca Hca) in Hk.
  split; [intros [k E]|intros p' [= <-] E [k Ek]]; rewrite E in Hk; [rewrite E; by apply Hk|].
  rewrite Ek in Hk |- *. by apply Hk.
Qed.

Section configuration.
Context {W : Type} `{Env W} `{PkgErrors} `{CryptoLib} `{PKIX} `{LocalZone} `{Yaml ClusterSpec}.
Context `{BackoffLib (W * string)}.

(** The previous run's file, if there is one: what it says. *)
Lemma previous_file cfg conf (s s3 : St W) r :
  (found ← FileExist (cfg +:+ ".gen");
   if (found.2 : error) then mret (inr found.2)
   else if (found.1 : bool) then
     '(bcfg, err) ← perform (ReadFile (cfg +:+ ".gen"));
     match err with
     | Some e => mret (inr (Some e))
     | None =>
         match YamlUnmarshal bcfg zeroClusterSpec with
         | (_, Some e) => mret (inr (Errorf ("error decode cluster: " +:+ Error e)))
         | (prec, None) => mret (inl (keepCAs prec conf))
         end
     end
   else mret (inl conf)) s = (Ret (inl r), s3) →
  ∃ prec : option ClusterSpec, r = match prec with Some p => keepCAs p conf | None => conf end ∧
    match prec with
    | None => (env_step (Stat (cfg +:+ ".gen")) (world s)).1 = StatNotExist
    | Some p => ∃ text, (env_step (ReadFile (cfg +:+ ".gen"))
                           (after [Stat (cfg +:+ ".gen")] (world s))).1 = (text, None) ∧
                        YamlUnmarshal text zeroClusterSpec = (p, None)
    end.
Proof.
  intros HB. apply bind_Ret_inv in HB as ([found err] & s2 & Ef & HB). unfold FileExist in Ef. step_perform_in Ef.
  cbn [fst snd] in HB. destruct err as [e|]; [done|].
  destruct found.
  - assert (s2 = MkSt (env_step (Stat (cfg +:+ ".gen")) (world s)).2 (log s ++ [Stat (cfg +:+ ".gen")])) as ->
      by (by destruct (env_step (Stat _) (world s)).1; injection Ef).
    step_perform_in HB. destruct (env_step (ReadFile _) _).1 as [text [e|]] eqn:E2; [done|].
    destruct (YamlUnmarshal text zeroClusterSpec) as [p [e|]] eqn:Eu; [done|]. injection HB as <- _.
    exists (Some p). split; [done|]. exists text. split; [done|exact Eu].
  - injection HB as <- _. exists None. split; [done|]. by destruct (env_step (Stat _) (world s)).1.
Qed.

(** C10: a node booted from a configuration file gets all five certificate
    authorities a node needs, and each of them (and the control root, the only
    one that is not made when it is missing) is the one of the file if the file
    has one, else the one the previous run left in the file [.gen] beside it if
    that has one; everything else of the file is kept, and both endpoints
    become names of the API server. *)
Theorem InitFromCfg_authorities ctx ctx' (s s' : St W) :
  InitFromCfg ctx s = (Ret (ctx', None), s') →
  let cfg := wo_Config (WdripFlags ctx) in
  ∃ text conf prec node c,
    (env_step (ReadFile cfg) (world s)).1 = (text, None) ∧ YamlUnmarshal text zeroClusterSpec = (conf, None) ∧
    match prec with
    | None => (env_step (Stat (cfg +:+ ".gen")) (after [ReadFile cfg] (world s))).1 = StatNotExist
    | Some p => ∃ text', (env_step (ReadFile (cfg +:+ ".gen"))
                            (after [ReadFile cfg; Stat (cfg +:+ ".gen")] (world s))).1 = (text', None) ∧
                         YamlUnmarshal text' zeroClusterSpec = (p, None)
    end ∧
    nc_node ctx' = Some (Some node) ∧ mt_BootCFG (m_Status node) = Some c ∧
    Forall (λ ca : ClusterSpec → option KeyCert,
              is_Some (ca (cl_Spec c)) ∧
              (is_Some (ca conf) → ca (cl_Spec c) = ca conf) ∧
              (∀ p, prec = Some p → ca conf = None → is_Some (ca p) → ca (cl_Spec c) = ca p))
      [λ x, ku_RootCA (cs_Kubernetes x); λ x, ku_FrontProxyCA (cs_Kubernetes x);
       λ x, ku_SvcAccountCA (cs_Kubernetes x); λ x, es_PeerCA (cs_Etcd x); λ x, es_ServerCA (cs_Etcd x)] ∧
    (let root x := ku_ControlRoot (cs_Kubernetes x) in
     (is_Some (root conf) → root (cl_Spec c) = root conf) ∧
     (∀ p, prec = Some p → root conf = None → is_Some (root p) → root (cl_Spec c) = root p)) ∧
    same_settings conf (cs_with_Sans (cs_Sans conf) (cl_Spec c)) ∧
    sans_ok (cs_Sans conf) (cs_Sans (cl_Spec c)) (cs_Endpoint conf).
Proof.
  intros HB cfg. unfold InitFromCfg in HB. fold cfg in HB. case_decide; [done|]. step_perform_in HB.
  destruct (env_step (ReadFile cfg) (world s)) as [[text [e|]] w1] eqn:Er; cbn [fst snd] in HB; [done|].
  destruct (YamlUnmarshal text zeroClusterSpec) as [conf [e|]] eqn:Eu; [done|].
  apply bind_Ret_inv in HB as ([found err] & s2 & Ef & HB). destruct err; [done|].
  apply bind_Ret_inv in HB as (r & s3 & Eg & HB). destruct r as [base|err].
  2:{ (* the previous file could not be read *) injection HB as _ -> _. exfalso. destruct found; [|done].
      step_perform_in Eg. destruct (env_step (ReadFile _) _).1 as [text' [e|]]; [done|].
      destruct (YamlUnmarshal text' zeroClusterSpec) as [prec [e|]]; done. }
  apply bind_Ret_inv in HB as ([[id ip] err] & s4 & _ & HB). destruct err; [done|].
  apply bind_Ret_inv in HB as (cl & s5 & Ec & HB). injection HB as <- _.
  apply SetDefaultCredential_spec in Ec as (Hc & Hk & Hs & _).
  edestruct (previous_file cfg conf (MkSt w1 (log s ++ [ReadFile cfg])) s3 base) as (prec & Eb & Hprec).
  { rewrite bind_unfold, Ef. exact Eg. }
  assert (same_settings conf base) as Hcb.
  { destruct prec; rewrite Eb; [apply keepCAs_settings|apply same_settings_refl]. }
  pose proof (file_then_previous_intro conf base cl prec Eb Hk) as Hall.
  apply Forall_app in Hall as [Hall [Hroot _]%Forall_cons_1]. apply complete_spec in Hc.
  set (c := AddExtraSans _). eexists text, conf, prec, _, c.
  replace w1 with (after [ReadFile cfg] (world s)) in Hprec by (cbn; by rewrite Er).
  split_and!; [done|done|exact Hprec|reflexivity|reflexivity| |exact Hroot| |].
  - change (Forall (λ ca, is_Some (ca (cl_Spec c)) ∧ file_then_previous conf prec (cl_Spec c) ca) authorities).
    assert (Forall (λ ca : ClusterSpec → option KeyCert, ca (cl_Spec c) = ca cl) authorities) as He
      by (repeat apply Forall_cons_2; try apply Forall_nil_2; reflexivity).
    rewrite Forall_forall in Hc, Hall, He. apply Forall_forall. intros ca Hca.
    unfold file_then_previous. rewrite (He ca Hca). split; [by apply Hc|by apply Hall].
  - apply same_settings_Sans. by eapply same_settings_trans.
  - pose proof (same_settings_trans _ _ _ Hcb Hs) as (?&?&?&?&?&?&?&?&E). subst c.
    replace (cs_Sans conf) with (cs_Sans cl) by (by rewrite E).
    replace (cs_Endpoint conf) with (cs_Endpoint cl) by (by rewrite E).
    apply (AddExtraSans_ok (NewDefaultCluster "kubernetes-cluster" cl)).
Qed.
End configuration.

Section operator.
Context {W : Type} `{Env W} `{Json Cluster} `{WaitLib (W * option Cluster), !VarWaitSpec W (option Cluster)}.
Context `{BackoffLib (W * string)}.
Context `{BackoffLib (W * option Cluster * (string * option string)), !VarBackoffSpec (W * option Cluster) (string * option string)}.
Existing Instance var_env.

(** C18: a node that asks the operator for its configuration takes an error
    answer for the configuration of an empty cluster: when the first request is
    answered with any status but 200, nothing is asked again and the node goes
    on with no settings at all. *)
Theorem operator_boot_accepts_error_answer ctx client (s : St W) status data :
  nc_client ctx = Some client → status ≠ 200 →
  (let '(env, w) := env_step (Getenv "ENDPOINT") (world s) in
   (env_step (Http "GET" (request_url (getRequest client "clusters" "kubernetes-cluster") env) None) w).1.1
   = HttpAnswer status data None) →
  ∃ s1, InitFromOperator ctx s =
    ('((id, ip), err) ← nodeIdentity;
     match err with
     | Some e => mret (ctx, Some e)
     | None => mret (nc_with_node (Some (selfObject ip id (wo_Role (WdripFlags ctx))
                                           (MkMasterStatus [] (Some zeroCluster) ""))) ctx, None)
     end) s1.
Proof.
  intros Hc Hst Ha. unfold InitFromOperator, bootClient. rewrite Hc, bind_ret_l, bind_unfold. unfold with_var.
  set (s0 := MkSt _ _). set (req := getRequest client "clusters" "kubernetes-cluster") in *.
  destruct (rest_Do_hides_status req zeroCluster s0 status data) as (s1 & E); [done|done| |].
  { subst s0. cbn [world]. unfold env_step, var_env. cbn [fst snd].
    destruct (env_step (Getenv "ENDPOINT") (world s)) as [env w]. cbn [fst snd] in Ha |- *.
    by destruct (env_step (Http _ _ _) w) as [[r b] w']. }
  assert (fetchCluster client s0 = (Ret (true, None), MkSt ((world s1).1, Some zeroCluster) (log s1))) as Ef.
  { unfold fetchCluster, cluster_Get. by rewrite (bind_Ret _ _ _ _ _ E). }
  pose proof (PollImmediate_var_run (5 * Second) (5 * Minute) (fetchCluster client) s0) as Hrun.
  destruct (PollImmediate _ _ _ s0) as [o sx]. cbn [fst snd] in Hrun.
  apply (poll_run_first _ _ _ _ _ _ Ef) in Hrun as [-> ->]. cbn [world snd fst log].
  eexists. f_equal.
Qed.
End operator.

(** ** What comes before [kubeadm init] *)
Definition isInit (c : call) : Prop := ∃ a e, c = Run "kubeadm" ("init" :: a) e.
Definition notInit (c : call) : Prop := ¬ isInit c.

(** A single call that is not [kubeadm init]. *)
Ltac not_init := let E := fresh in intros (? & ? & E); discriminate E.

Section ordering.
Context {W : Type} `{Env W} `{PkgErrors} `{GoFmt} `{MapRange} `{CryptoLib} `{PKIX} `{Base64} `{LocalZone}.
Context `{Yaml ClusterSpec} `{Yaml ContextCFG} `{Yaml Cluster} `{Yaml Master} `{Yaml ConfigMap} `{Yaml SecretObject}.
Context `{Json Snapshot} `{Json ClusterId} `{Json Cluster} `{Json Master} `{Json Members} `{Json (list EndpointStatus)}.
Context `{WaitLib W, !WaitSpec W} `{WaitLib (W * option Cluster), !WaitSpec (W * option Cluster)}.
Context `{WaitLib (W * option Master), !WaitSpec (W * option Master)}.
Context `{BackoffLib (W * string), !VarBackoffSpec W string}.
Context `{BackoffLib (W * (string * option string)), !VarBackoffSpec W (string * option string)}.
Context `{BackoffLib (W * option Cluster * (string * option string)), !VarBackoffSpec (W * option Cluster) (string * option string)}.
Context `{BackoffLib (W * option Master * (string * option string)), !VarBackoffSpec (W * option Master) (string * option string)}.
Context `{Spawn} `{Kustomize} `{ParseCIDR} `{ClientCmd}.
Existing Instance var_env.

Lemma emits_meta r : emits notInit (metaFirst (W:=W) r).
Proof. eapply emits_weaken; [|apply emits_metaFirst]. intros [] ?; try done; not_init. Qed.
Lemma emits_identity : emits notInit (nodeIdentity (W:=W)).
Proof.
  unfold nodeIdentity, NodeID, NodeIP, InstanceID, Region, PrivateIPv4. solve_emits; apply emits_meta.
Qed.
Lemma emits_InitFromOperator ctx : emits notInit (InitFromOperator (W:=W) ctx).
Proof.
  unfold InitFromOperator, fetchCluster, cluster_Get, bootClient, deref.
  repeat first [ apply emits_identity | apply emits_rest_Do; [intros ?; not_init|intros ? ? ?; not_init] | progress solve_emits ].
Qed.
Lemma emits_SetDefaultCredential sp : emits notInit (SetDefaultCredential (W:=W) sp).
Proof.
  unfold SetDefaultCredential, defaultCA, NewKeyCert, NewKeyCertForSA, SelfSignedPair, SelfSignedPairSA.
  solve_emits; not_init.
Qed.
Lemma emits_InitFromCfg ctx : emits notInit (InitFromCfg (W:=W) ctx).
Proof.
  unfold InitFromCfg, FileExist.
  repeat first [ apply emits_identity | apply emits_SetDefaultCredential | progress solve_emits ]; not_init.
Qed.
Lemma emits_InitFromCoordinator ctx : emits notInit (InitFromCoordinator (W:=W) ctx).
Proof.
  unfold InitFromCoordinator, RegisterMyself, registerOnce, SetBootCredential, fetchCredential, credential_Get, node_Create,
    bootClient, deref, NodeID, NodeIP, InstanceID, Region, PrivateIPv4.
  repeat first [ apply emits_meta | apply emits_rest_Do; [intros ?; not_init|intros ? ? ?; not_init] | progress solve_emits ].
Qed.
Lemma emits_NewContext' o sp : emits notInit (NewContext (W:=W) o sp).
Proof.
  unfold NewContext, Initialize, BuildContexCFG, LoadBootCFG, HomeDir, UserHomeDir, FileExist, GetProvider.
  solve_emits; not_init.
Qed.
Lemma emits_index i : emits notInit (LazyLoad (W:=W) i).
Proof. apply emits_LazyLoad. intros p. not_init. Qed.
Lemma emits_InitFromRecover ctx : emits notInit (InitFromRecover (W:=W) ctx).
Proof.
  unfold InitFromRecover, NodeRegion, Region, LatestBackup, si_Snapshot, theSnapshot, deref, GetCluster, SaveCluster, putEnsured.
  repeat first [ apply emits_identity | apply emits_meta | apply emits_NewContext' | apply emits_index
               | progress solve_emits ]; not_init.
Qed.
Lemma emits_InitFunc ctx ctx' : emits notInit (InitFunc (W:=W) ctx ctx').
Proof.
  unfold InitFunc. repeat case_decide.
  - apply emits_InitFromCfg.
  - apply emits_InitFromCoordinator.
  - apply emits_InitFromRecover.
  - apply emits_InitFromOperator.
Qed.

Lemma emits_packages files ctx : emits notInit (fileAction (W:=W) files ctx).
Proof.
  eapply emits_weaken; [|apply emits_fileAction]. intros c Hc (a & e & ->). cbn in Hc. set_solver.
Qed.
Lemma emits_pkgdl cfg bucket ctx : emits notInit (NewConcurrentPkgDL (W:=W) cfg bucket ctx).
Proof.
  unfold NewConcurrentPkgDL. apply emits_ConcurrentAction.
  intros a [->|[->|Ha%elem_of_nil]%elem_of_cons]%elem_of_cons; [apply emits_packages..|done].
Qed.
(** Nor does etcd fetch a package. *)
Definition setsUp (c : call) : Prop := isInit c ∨ ∃ a e, c = Run "wget" a e.
Ltac not_setup := let E := fresh in intros [(? & ? & E)|(? & ? & E)]; discriminate E.
Lemma emits_etcd_runs node t : emits (λ c, ¬ setsUp c) (etcd_Execute (W:=W) node t).
Proof.
  assert (∀ m, emits (λ c, ¬ setsUp c) (MemberList (W:=W) m)) as Hml.
  { intros m. apply emits_MemberList; [|intros d; not_setup]. intros c (ip & _ & ->). not_setup. }
  assert (∀ m n st, emits (λ c, ¬ setsUp c) (FlushEtcdContent (W:=W) m n st)) as Hflush.
  { intros m n st. unfold FlushEtcdContent. repeat first [ apply Hml | progress solve_emits ]; not_setup. }
  assert (∀ m, emits (λ c, ¬ setsUp c) (etcd_Join (W:=W) m)) as Hjoin.
  { intros m. eapply emits_weaken; [|apply emits_Join].
    intros c [Hc|[(ip & _ & ->)|[(ip & _ & ->)|[(ip & ? & ? & ? & _ & _ & _ & _ & ->)|(eps & ->)]]]]; try not_setup.
    destruct c; try done; not_setup. }
  unfold etcd_Execute. destruct node as [node|]; [|apply emits_ret]. cbv zeta.
  repeat first [ apply emits_LoadOrSign; intros c [_ Hc]; intros [(? & ? & ->)|(? & ? & ->)]; exact Hc
               | apply Hflush | apply Hjoin
               | apply emits_WaitEndpoints; not_setup
               | unfold BackOffJoinMember, Restore, FileExist, AddUser, Systemctl; progress solve_emits ]; not_setup.
Qed.
Lemma emits_etcd node t : emits notInit (etcd_Execute (W:=W) node t).
Proof. eapply emits_weaken; [|apply emits_etcd_runs]. intros c Hc Hi. apply Hc. by left. Qed.

Lemma emits_runtime ctx : emits notInit (runtimeAction (W:=W) ctx).
Proof.
  unfold runtimeAction, Systemctl.
  repeat first [ apply emits_writeAll; intros f v; not_init | progress solve_emits ]; not_init.
Qed.
Lemma emits_ActionKubelet ctx : emits notInit (ActionKubelet (W:=W) ctx).
Proof.
  unfold ActionKubelet, LoadCert, bootSpec, restartKubelet, Systemctl, NodeObject, deref.
  repeat first [ apply emits_writeAll; intros f v; not_init | apply emits_removeAll; intros f; not_init
               | progress solve_emits ]; not_init.
Qed.
Lemma emits_ActionJoin ctx : emits notInit (ActionJoin (W:=W) ctx).
Proof. unfold ActionJoin, withNodeName, NodeObject, WaitJoin, joined. solve_emits; not_init. Qed.
Lemma emits_any (P : call → Prop) {A} (m : IO W A) : emits P m → emits (λ _, True) m.
Proof. by apply emits_weaken. Qed.

Lemma emits_ActionPost n ctx : emits (λ _, True) (ActionPost (W:=W) n ctx).
Proof.
  assert (∀ l, emits (λ _, True) (applyAddons (W:=W) l)) as Ha.
  { induction l as [|[k v] l IH]; cbn [applyAddons]; [apply emits_ret|].
    unfold applied, ApplyYamlCommon. repeat first [ exact IH | progress solve_emits ]; done. }
  assert (∀ sp r i g v l d, emits (λ _, True) (renderAddons (W:=W) sp r i g v l d)) as Hr.
  { intros sp r i g v l. induction l as [|c l IH]; intros d; cbn [renderAddons]; [apply emits_ret|].
    repeat first [ apply IH | progress solve_emits ]; done. }
  assert (∀ n name t, emits (λ _, True) (waitPresent (W:=W) n name t)) as Hw.
  { intros m name t. induction m as [|m IH]; cbn [waitPresent]; [apply emits_hang|].
    repeat first [ exact IH | progress solve_emits ]; done. }
  assert (∀ l, emits (λ _, True) (initializeAll (W:=W) n l)) as Hi.
  { induction l as [|c l IH]; cbn [initializeAll]; [apply emits_ret|].
    unfold EnsurePresent, WaitToBePresent, validateCRD. repeat first [ exact IH | apply Hw | progress solve_emits ]; done. }
  unfold ActionPost, InstallAddons, defaultAddons, RegisterFromKubeconfig, doRegisterCRD, WriteClusterCR, WritePublicInfo,
    RunWdrip, doRunWdrip, RenderWdripYaml, RunMonitor, bootThenApply, post_BootCFG, applied, nodeCluster, NodeObject, deref,
    ProviderCtx, ApplyYaml, ApplyYamlCommon, AliGroups.SecrityGroup.
  repeat first [ apply Ha | apply Hr | apply Hi | apply AliGroups.emits_stackOr | progress solve_emits ]; done.
Qed.
Lemma emits_controlPlane n ctx a :
  a ∈ [ActionInit; ActionCCM; ActionKubeAuth; ActionPost n] → emits (λ _, True) (a ctx : IO W error).
Proof.
  intros Ha. repeat (apply elem_of_cons in Ha as [->|Ha]); [..|by apply elem_of_nil in Ha].
  - unfold ActionInit, getKubeadmConfig, Config_, withNodeName, NodeObject. solve_emits; done.
  - unfold ActionCCM, NodeObject, bootSpec, deref. solve_emits; done.
  - unfold ActionKubeAuth, NodeObject, bootSpec, deref, SignKubernetesClient, SignKubernetes, sign_with, NewSignedCert. solve_emits; done.
  - apply emits_ActionPost.
Qed.

Definition emits_step (P : call → Prop) (st : Step W) : Prop := ∀ ctx, emits P (st ctx).
Lemma emits_runSteps P i (steps : list (Step W)) ctx :
  Forall (emits_step P) steps → emits P (runSteps i steps ctx).
Proof.
  intros Hs. revert i ctx. induction Hs as [|st steps Hst _ IH]; intros i ctx; cbn [runSteps]; [apply emits_ret|].
  apply emits_bind; [apply Hst|]. intros [c []]; [apply emits_ret|apply IH].
Qed.
(** A call that the first step does not make was made after it returned nil. *)
Lemma runSteps_calls P i (st : Step W) rest ctx s c :
  emits_step P st → Forall (emits_step (λ _, True)) rest → ¬ P c →
  calls (runSteps i (st :: rest) ctx) s c →
  ∃ ctx1 s1, st ctx s = (Ret (ctx1, None), s1) ∧ calls (runSteps (i + 1) rest ctx1) s1 c.
Proof.
  intros Hst Hr HP Hc. cbn [runSteps] in Hc.
  apply (calls_bind_inv P) in Hc as ([ctx1 err] & s1 & E & Hc); [|apply Hst|done|].
  - destruct err; [by apply calls_ret in Hc|]. by exists ctx1, s1.
  - intros [c1 []]; [apply emits_ret|by apply emits_runSteps].
Qed.
Lemma emits_keepCtx P ctx (m : IO W error) : emits P m → emits P (keepCtx ctx m).
Proof. intros Hm. unfold keepCtx. by solve_emits. Qed.
Lemma emits_InitContainerRuntime : emits_step notInit (InitContainerRuntime (W:=W)).
Proof.
  intros ctx. unfold InitContainerRuntime, NodeObject, deref. solve_emits. apply emits_keepCtx, emits_RunActions.
  intros b [->|[->|Hb%elem_of_nil]%elem_of_cons]%elem_of_cons; [apply emits_packages|apply emits_runtime|done].
Qed.
Lemma emits_InitEtcd : emits_step notInit (InitEtcd (W:=W)).
Proof.
  intros ctx. unfold InitEtcd, NodeObject, deref. solve_emits. apply emits_keepCtx, emits_RunActions.
  intros b [->|[->|Hb%elem_of_nil]%elem_of_cons]%elem_of_cons; [apply emits_packages| |done].
  unfold etcdAction, NodeObject. solve_emits. apply emits_etcd.
Qed.
Lemma emits_InitWorker : emits_step notInit (InitWorker (W:=W)).
Proof.
  intros ctx. unfold InitWorker, NodeObject, deref. solve_emits. apply emits_keepCtx, emits_RunActions.
  intros b [->|[->|[->|Hb%elem_of_nil]%elem_of_cons]%elem_of_cons]%elem_of_cons;
    [apply emits_pkgdl|apply emits_ActionKubelet|apply emits_ActionJoin|done].
Qed.
Lemma emits_masterActions n cfg bucket ctx :
  emits (λ _, True) (RunActions [NewConcurrentPkgDL cfg bucket; ActionKubelet; ActionInit; ActionCCM; ActionKubeAuth;
                                 ActionPost n] ctx : IO W error).
Proof.
  apply emits_RunActions. intros b [->|[->|Hb]%elem_of_cons]%elem_of_cons;
    [eapply emits_any, emits_pkgdl|eapply emits_any, emits_ActionKubelet|by apply (emits_controlPlane n)].
Qed.
Lemma emits_InitMasterAlone n : emits_step (λ _, True) (InitMasterAlone (W:=W) n).
Proof.
  intros ctx. unfold InitMasterAlone, NodeObject, deref.
  repeat first [ eapply emits_any, emits_NewContext' | apply emits_keepCtx, emits_masterActions | progress solve_emits ].
Qed.

Lemma calls_panic {A B} msg (f : A → IO W B) s c : ¬ calls (panic msg ≫= f) s c.
Proof. exact (calls_ret (W:=W) tt s c). Qed.
(** The control plane of a node: packages, then the kubelet, then kubeadm. *)
Lemma InitMasterAlone_calls n ctx s c :
  isInit c → calls (InitMasterAlone n ctx) s c →
  ∃ ctx1 node cfg s1 s2 s3, nc_node ctx = Some (Some node) ∧ mt_BootCFG (m_Status node) = Some cfg ∧
    nc_node ctx1 = nc_node ctx ∧ nc_flags ctx1 = nc_flags ctx ∧
    NewConcurrentPkgDL (cl_Spec cfg) (wo_Bucket (WdripFlags ctx)) ctx1 s1 = (Ret None, s2) ∧
    ActionKubelet ctx1 s2 = (Ret None, s3) ∧
    calls (RunActions [ActionInit; ActionCCM; ActionKubeAuth; ActionPost n] ctx1) s3 c.
Proof.
  intros Hi Hc. assert (¬ notInit c) as HP by (intros Hn; by apply Hn). unfold InitMasterAlone, NodeObject in Hc.
  destruct (nc_node ctx) as [[node|]|] eqn:En; [|by apply calls_ret in Hc|by apply calls_panic in Hc].
  rewrite calls_bind_ret in Hc.
  destruct (mt_BootCFG (m_Status node)) as [cfg|] eqn:Eb; [|by apply calls_panic in Hc].
  cbn [deref] in Hc. rewrite calls_bind_ret in Hc.
  apply (calls_bind_inv notInit) in Hc as ([[pctx o] err] & s1 & _ & Hc); [|apply emits_NewContext'|done|].
  - destruct err; [by apply calls_ret in Hc|]. cbv zeta in Hc. set (ctx1 := nc_with_provider pctx ctx) in *.
    assert (∀ a, a ∈ [ActionInit; ActionCCM; ActionKubeAuth; ActionPost n] → emits (λ _, True) (a ctx1 : IO W error)) as Hpost
      by (intros; by eapply emits_controlPlane).
    assert (∀ a, a ∈ [NewConcurrentPkgDL (cl_Spec cfg) (wo_Bucket (WdripFlags ctx)); ActionKubelet] →
                 emits notInit (a ctx1 : IO W error)) as Hpre.
    { intros a [->|[->|Ha%elem_of_nil]%elem_of_cons]%elem_of_cons; [apply emits_pkgdl|apply emits_ActionKubelet|done]. }
    apply (calls_bind_first notInit) in Hc; [|apply emits_masterActions|intros; apply emits_ret|done].
    apply (RunActions_calls notInit [_; _]) in Hc as (s3 & Er & Hc); [|done..].
    cbn [RunActions] in Er. apply bind_Ret_inv in Er as ([e|] & s2 & E1 & Er); [done|].
    apply bind_Ret_inv in Er as ([e|] & s3' & E2 & Er); [done|]. injection Er as ->.
    by exists ctx1, node, cfg, s1, s2, s3.
  - intros [[? ?] []]; [apply emits_ret|]. apply emits_keepCtx, emits_masterActions.
Qed.
Lemma emits_roleSteps n role : Forall (emits_step (λ _, True)) (roleSteps (W:=W) n role).
Proof.
  assert (∀ st : Step W, emits_step notInit st → emits_step (λ _, True) st) as Hany
    by (intros st Hst c; eapply emits_any, Hst).
  unfold roleSteps. repeat case_decide;
    repeat constructor; first [apply Hany, emits_InitEtcd|apply emits_InitMasterAlone|apply Hany, emits_InitWorker].
Qed.

(** C9: the control plane of a node comes last: whenever bringing up a node runs
    [kubeadm init], its role is a master's, its configuration was obtained, the
    container runtime and, for a hybrid node, etcd were set up, the packages
    were installed and the kubelet configured, each without an error. *)
Theorem kubeadm_init_last n ctx s a e :
  calls (initnode n ctx) s (Run "kubeadm" ("init" :: a) e) →
  let role := wo_Role (WdripFlags ctx) in
  (role = NODE_ROLE_MASTER ∨ role = NODE_ROLE_HYBRID) ∧
  ∃ ctx1 ctx2 ctx3 s1 s2 s3,
    InitFunc ctx ctx s = (Ret (ctx1, None), s1) ∧
    InitContainerRuntime ctx1 s1 = (Ret (ctx2, None), s2) ∧
    (if decide (role = NODE_ROLE_HYBRID) then InitEtcd ctx2 s2 = (Ret (ctx3, None), s3) else ctx3 = ctx2 ∧ s3 = s2) ∧
    ∃ node cfg ctx4 s4 s5 s6,
      nc_node ctx3 = Some (Some node) ∧ mt_BootCFG (m_Status node) = Some cfg ∧
      nc_node ctx4 = nc_node ctx3 ∧ nc_flags ctx4 = nc_flags ctx3 ∧
      NewConcurrentPkgDL (cl_Spec cfg) (wo_Bucket (WdripFlags ctx3)) ctx4 s4 = (Ret None, s5) ∧
      ActionKubelet ctx4 s5 = (Ret None, s6) ∧
      calls (RunActions [ActionInit; ActionCCM; ActionKubeAuth; ActionPost n] ctx4) s6 (Run "kubeadm" ("init" :: a) e).
Proof.
  intros Hc role. assert (isInit (Run "kubeadm" ("init" :: a) e)) as Hi by (by exists a, e).
  assert (¬ notInit (Run "kubeadm" ("init" :: a) e)) as HP by (intros Hn; by apply Hn).
  assert (∀ st : Step W, emits_step notInit st → emits_step (λ _, True) st) as Hany
    by (intros st Hst c; eapply emits_any, Hst).
  pose proof (emits_roleSteps n role) as Hrole.
  unfold initnode in Hc. apply (calls_bind_first notInit) in Hc;
    [|apply emits_runSteps; constructor; [apply Hany; intros c; apply emits_InitFunc|constructor; [apply Hany, emits_InitContainerRuntime|done]]
     |intros [? ?]; apply emits_ret|done].
  apply (runSteps_calls notInit) in Hc as (ctx1 & s1 & E1 & Hc); [|intros c; apply emits_InitFunc| |done].
  2:{ constructor; [apply Hany, emits_InitContainerRuntime|done]. }
  apply (runSteps_calls notInit) in Hc as (ctx2 & s2 & E2 & Hc); [|apply emits_InitContainerRuntime|done..].
  fold role in Hc. unfold roleSteps in Hc, Hrole.
  assert (∀ i ctx s, calls (runSteps i [InitMasterAlone n] ctx) s (Run "kubeadm" ("init" :: a) e) →
                     calls (InitMasterAlone n ctx) s (Run "kubeadm" ("init" :: a) e)) as Hlast.
  { intros i c s' Hl. apply (calls_bind_first notInit) in Hl; [done|apply emits_InitMasterAlone| |done].
    intros [c' []]; apply emits_ret. }
  case_decide as R1.
  { apply (calls_emits notInit) in Hc; [done|]. apply emits_runSteps. constructor; [apply emits_InitEtcd|done]. }
  case_decide as R2; [|case_decide as R3; [|case_decide as R4]].
  - apply Hlast, InitMasterAlone_calls in Hc as (ctx4 & node & cfg & s4 & s5 & s6 & Hm); [|done].
    split; [by left|]. exists ctx1, ctx2, ctx2, s1, s2, s2. split; [done|]. split; [done|].
    rewrite decide_False by (by rewrite R2). split; [done|]. by exists node, cfg, ctx4, s4, s5, s6.
  - apply (runSteps_calls notInit) in Hc as (ctx3 & s3 & E3 & Hc); [|apply emits_InitEtcd|by inversion Hrole|done].
    apply Hlast, InitMasterAlone_calls in Hc as (ctx4 & node & cfg & s4 & s5 & s6 & Hm); [|done].
    split; [by right|]. exists ctx1, ctx2, ctx3, s1, s2, s3. split; [done|]. split; [done|].
    split; [done|]. by exists node, cfg, ctx4, s4, s5, s6.
  - apply (calls_emits notInit) in Hc; [done|]. apply emits_runSteps. constructor; [apply emits_InitWorker|done].
  - by apply calls_ret in Hc.
Qed.
End ordering.

(** ** A machine to evaluate on

    It is booted from a file beside which an earlier run left an authority. *)
Module SimBoot.
Import SimEnv SimWait SimBackoff.
Definition root_ca : KeyCert := MkKeyCert "RSA PRIVATE KEY:root" "CERTIFICATE:root".
Definition conf : ClusterSpec :=
  MkClusterSpec zeroBindInfra "k8s" "default" "public" (MkNetwork "" "" "172.16.0.0/16" "" "")
    (MkEtcdSpec zeroUnit "" "" None None) (MkContainerRuntime zeroUnit)
    (MkKubernetes zeroUnit "" None None None None) false ["10.0.0.9"] "" "registry-vpc.cn-hangzhou.aliyuncs.com/acs" (MkEndpoint "10.0.0.9" "1.2.3.4") 0.
Definition prev : ClusterSpec :=
  cs_with_Kubernetes (MkKubernetes zeroUnit "old" (Some root_ca) None None None) conf.
Definition account : ContextCFG :=
  MkContextCFG "Config" "v1" "dev" [MkContextItem "dev" (Some "p")] [MkProviderItem "p" (Some (MkProvider "alibaba" ""))].
Definition options (boot role : string) : WdripOptions :=
  MkWdripOptions "" role "" "boot.yaml" "bucket" boot "" 3 "" "k8s" (Some account) "" 0 "" (MkOperatorFlag "" false "" "" "" 0).
Definition context (boot role : string) : NodeContext :=
  MkNodeContext (options boot role) (Some (MkRESTClient "http" "10.0.0.9:32443")) None None.

Definition script : ∀ c : call, Z → option (reply c) := λ c w,
  match c return option (reply c) with
  | ReadFile f => Some (f, None)
  | GenerateBootstrapToken => Some ("token", None)
  | GenerateKey _ => Some ("key", None)
  | CreateCertificate _ _ _ _ => Some ("cert", None)
  | c' => Machine.script c' w
  end.
#[export] Instance boot_env : Env Z := scripted script.
#[export] Instance yaml_spec : Yaml ClusterSpec :=
  {| YamlMarshal _ := ""; YamlUnmarshal t _ := (if decide (t = "boot.yaml.gen") then prev else conf, None) |}.
#[export] Instance yaml_any {A} : Yaml A | 10 := {| YamlMarshal _ := ""; YamlUnmarshal _ x := (x, None) |}.
#[export] Instance json_any {A} : Json A | 10 := {| Marshal _ := ""; Unmarshal _ x := (x, None) |}.
#[export] Instance base64 : Base64 := {| EncodeToString s := s; DecodeString s := (s, None) |}.
(** A text is a certificate when it says so, and else a key. *)
#[export] Instance crypto : CryptoLib :=
  {| pem_Decode s := if String.eqb s "" then None
                     else Some (MkBlock (if String.prefix "CERTIFICATE" s then "CERTIFICATE" else "RSA PRIVATE KEY") 0 s, "");
     pem_Encode b := (bk_Type b +:+ ":" +:+ bk_Bytes b, None);
     ParseCertificate _ := inl SimEnv.zero_cert;
     ParseECPrivateKey _ := None;
     ParsePKCS1PrivateKey s := Some (RSAKey s);
     ParsePKCS8PrivateKey _ := None;
     ParseIP s := Some s |}.
#[export] Instance pkix : PKIX := λ s, (s, None).
#[export] Instance client_cmd : ClientCmd := λ _ _, ("", None).
#[export] Instance kustomize : Kustomize := λ _, ("", None).
End SimBoot.

(** ** Witnesses *)
Import SimEnv SimWait SimBackoff Sim SimEtcd SimNet Machine SimBoot.
Existing Instance boot_env.

Lemma InitFromCfg_authorities_witness :
  ∃ node c, mt_BootCFG (m_Status node) = Some c ∧
    nc_node (default (context "" "") (match (InitFromCfg (context "local" "Master") (start_at 0)).1 with
                                      | Ret (x, None) => Some x | _ => None end)) = Some (Some node) ∧
    is_Some (ku_RootCA (cs_Kubernetes (cl_Spec c))) ∧
    (is_Some (ku_RootCA (cs_Kubernetes conf)) →
       ku_RootCA (cs_Kubernetes (cl_Spec c)) = ku_RootCA (cs_Kubernetes conf)).
Proof.
  destruct (InitFromCfg (context "local" "Master") (start_at 0)) as [o s'] eqn:E.
  assert ((InitFromCfg (context "local" "Master") (start_at 0)).1 = o) as Ho by (by rewrite E).
  vm_compute in Ho. subst o.
  destruct (InitFromCfg_authorities _ _ _ _ E) as (text & cf & prec & node & c & Er & Eu & _ & En & Ec & Hc & _).
  exists node, c. split; [exact Ec|]. split; [exact En|].
  apply Forall_cons_1 in Hc as [(Hs & Hf & _) _]. split; [exact Hs|].
  vm_compute in Er. injection Er as <-. vm_compute in Eu. injection Eu as <-. exact Hf.
Defined.

Lemma operator_boot_accepts_error_answer_witness :
  ∃ s1, InitFromOperator (context "operator" "Master") (start_at 0) =
    ('((id, ip), err) ← nodeIdentity;
     match err with
     | Some e => mret (context "operator" "Master", Some e)
     | None => mret (nc_with_node (Some (selfObject ip id "Master" (MkMasterStatus [] (Some zeroCluster) "")))
                       (context "operator" "Master"), None)
     end) s1.
Proof.
  exact (operator_boot_accepts_error_answer (context "operator" "Master") (MkRESTClient "http" "10.0.0.9:32443")
           (start_at 0) 404 "" eq_refl ltac:(discriminate) ltac:(by vm_compute)).
Defined.

(** The whole boot of a hybrid node succeeds on this machine. *)
Example hybrid_boots : (initnode 3 (context "local" "Hybrid") (start_at 0)).1 = Ret None.
Proof. by vm_compute. Qed.
Lemma kubeadm_init_last_witness :
  ∃ ctx1 s1, InitFunc (context "local" "Hybrid") (context "local" "Hybrid") (start_at 0) = (Ret (ctx1, None), s1).
Proof.
  destruct (kubeadm_init_last 3 (context "local" "Hybrid") (start_at 0)
    ["--ignore-preflight-errors=all"; "--config=/etc/kubeadm/kubeadm.conf"; "--skip-token-print"; "--v=6"] [])
    as (_ & ctx1 & ctx2 & ctx3 & s1 & s2 & s3 & E1 & _).
  - exists (log (initnode 3 (context "local" "Hybrid") (start_at 0)).2). split; [exact (eq_sym (app_nil_l _))|].
    apply (list_elem_of_lookup_2 _ 141). by vm_compute.
  - exists ctx1, s1. exact E1.
Defined.
