(* ===== verification/GoRegexp.v ===== *)
(** * Regular expressions of Go (package regexp)

    The part of the syntax and of the semantics that pkg/utils/unstructed relies
    on: literals, classes in brackets, the classes [\w] and [\s], the repetition
    [{0,}] of a class, and groups that are not nested.  An expression is read
    from its text; matching it is defined twice, as the texts and groups it
    accepts, and as the search package regexp documents, which returns of the
    leftmost matches the one a backtracking engine would find first, repetitions
    being greedy.  All classes are of ASCII characters, so bytes are matched. *)
From stdpp Require Import base list strings.
From Stdlib Require Import Lia Ascii.
From S2P Require Import Prelude GoStrings.

(** A class, as ranges of character codes. *)
Abbreviation class := (list (N * N)).
Definition in_class (c : class) (x : ascii) : bool :=
  existsb (λ r, (r.1 <=? N_of_ascii x)%N && (N_of_ascii x <=? r.2)%N) c.
Fixpoint all_in (c : class) (t : string) : bool :=
  match t with EmptyString => true | String x t => in_class c x && all_in c t end.

Inductive re : Type :=
| Eps
| One (c : class)
| Many (c : class)
| Cat (a b : re)
| Group (r : re).

(** ** Reading an expression *)
Definition single (x : ascii) : class := [(N_of_ascii x, N_of_ascii x)].
(** What a backslash makes of a character. *)
Definition escape (x : ascii) : class :=
  if Ascii.eqb x "w" then [(48, 57); (65, 90); (95, 95); (97, 122)]%N
  else if Ascii.eqb x "s" then [(9, 10); (12, 13); (32, 32)]%N
  else single x.

(** The inside of brackets, and what follows them: a minus sign is a range only
    between two characters. *)
Fixpoint parse_class (s : string) : option (class * string) :=
  match s with
  | EmptyString => None
  | String "]" s => Some ([], s)
  | String "\" (String x s) => '(c, s) ← parse_class s; Some (escape x ++ c, s)
  | String x (String "-" (String y s) as s') =>
      if Ascii.eqb y "]" then '(c, s) ← parse_class s'; Some (single x ++ c, s)
      else '(c, s) ← parse_class s; Some ((N_of_ascii x, N_of_ascii y) :: c, s)
  | String x s => '(c, s) ← parse_class s; Some (single x ++ c, s)
  end.

(** The characters that mean something else. *)
Definition special (x : ascii) : bool :=
  existsb (Ascii.eqb x) ["*"; "+"; "?"; "|"; "."; "^"; "$"; "{"; "}"; "]"]%char.

(** A sequence up to the end, or up to the parenthesis that closes the group. *)
Fixpoint parse (fuel : nat) (group : bool) (s : string) : option (re * string) :=
  let repeated fuel c s :=
    match s with
    | String "{" (String "0" (String "," (String "}" s))) => '(r, s) ← parse fuel group s; Some (Cat (Many c) r, s)
    | _ => '(r, s) ← parse fuel group s; Some (Cat (One c) r, s)
    end in
  match fuel with
  | O => None
  | S fuel =>
      match s with
      | EmptyString => if group then None else Some (Eps, EmptyString)
      | String ")" s => if group then Some (Eps, s) else None
      | String "(" s =>
          if group then None
          else '(a, s) ← parse fuel true s; '(b, s) ← parse fuel false s; Some (Cat (Group a) b, s)
      | String "[" s => '(c, s) ← parse_class s; repeated fuel c s
      | String "\" (String x s) => repeated fuel (escape x) s
      | String x s => if special x then None else repeated fuel (single x) s
      end
  end.
Definition Compile (text : string) : option re :=
  match parse (S (String.length text)) false text with
  | Some (r, EmptyString) => Some r
  | _ => None
  end.

(** ** What an expression accepts: a text, with the texts of its groups *)
Inductive accepts : re → string → list string → Prop :=
| acc_eps : accepts Eps EmptyString []
| acc_one c x : in_class c x = true → accepts (One c) (String x EmptyString) []
| acc_many c t : all_in c t = true → accepts (Many c) t []
| acc_cat a b t u g h : accepts a t g → accepts b u h → accepts (Cat a b) (t +:+ u) (g ++ h)
| acc_group r t g : accepts r t g → accepts (Group r) t (g ++ [t]).

(** ** The search *)

(** What [s] has before its end [s']. *)
Definition taken (s s' : string) : string := String.substring 0 (String.length s - String.length s') s.

(** Greedy: another character first, what follows only when that fails. *)
Fixpoint many {A} (c : class) (s : string) (k : string → option A) : option A :=
  match s with
  | EmptyString => k EmptyString
  | String x s' =>
      if in_class c x then match many c s' k with Some a => Some a | None => k s end else k s
  end.
Fixpoint run {A} (r : re) (s : string) (g : list string) (k : string → list string → option A) : option A :=
  match r with
  | Eps => k s g
  | One c => match s with String x s' => if in_class c x then k s' g else None | EmptyString => None end
  | Many c => many c s (λ s', k s' g)
  | Cat a b => run a s g (λ s' g', run b s' g' k)
  | Group r => run r s g (λ s' g', k s' (g' ++ [taken s s']))
  end.
Definition matchAt (r : re) (s : string) : option (list string) := run r s [] (λ _ g, Some g).
(** The groups of the leftmost match. *)
Fixpoint Submatch (r : re) (s : string) : option (list string) :=
  match matchAt r s with
  | Some g => Some g
  | None => match s with EmptyString => None | String _ s' => Submatch r s' end
  end.

(** ** The search finds what is accepted *)
Lemma taken_app t s : taken (t +:+ s) s = t.
Proof.
  unfold taken. replace (String.length (t +:+ s) - String.length s) with (String.length t).
  - induction t as [|x t IH]; cbn [String.append String.length String.substring]; [by destruct s|by rewrite IH].
  - induction t as [|x t IH]; cbn [String.append String.length]; [lia|].
    assert (String.length s <= String.length (t +:+ s)) by (clear; induction t; cbn; lia). lia.
Qed.

Lemma many_sound {A} c s (k : string → option A) a :
  many c s k = Some a → ∃ t s', s = t +:+ s' ∧ all_in c t = true ∧ k s' = Some a.
Proof.
  induction s as [|x s IH]; cbn [many]; intros Hm; [by exists EmptyString, EmptyString|].
  destruct (in_class c x) eqn:Hx; [|by exists EmptyString, (String x s)].
  destruct (many c s k) as [b|]; [|by exists EmptyString, (String x s)]. injection Hm as ->.
  destruct (IH eq_refl) as (t & s' & -> & Ht & Hk). exists (String x t), s'. cbn. by rewrite Hx.
Qed.
Lemma many_complete {A} c t s (k : string → option A) :
  all_in c t = true → k s ≠ None → many c (t +:+ s) k ≠ None.
Proof.
  intros Ht Hk. induction t as [|x t IH]; cbn [String.append] in *.
  - destruct s as [|x s]; [done|]. cbn. destruct (in_class c x); [|done]. by destruct (many c s k).
  - cbn [many all_in] in *. apply andb_true_iff in Ht as [-> Ht].
    specialize (IH Ht). by destruct (many c (t +:+ s) k).
Qed.

Lemma run_sound {A} r : ∀ s g (k : string → list string → option A) a,
  run r s g k = Some a → ∃ t s' h, s = t +:+ s' ∧ accepts r t h ∧ k s' (g ++ h) = Some a.
Proof.
  induction r as [|c|c|r1 IH1 r2 IH2|r IH]; intros s g k a; cbn [run].
  - intros Hk. exists EmptyString, s, []. rewrite app_nil_r. split_and!; [done|constructor|done].
  - destruct s as [|x s]; [done|]. destruct (in_class c x) eqn:Hx; [|done]. intros Hk.
    exists (String x EmptyString), s, []. rewrite app_nil_r. split_and!; [done|by constructor|done].
  - intros (t & s' & -> & Ht & Hk)%many_sound. exists t, s', []. rewrite app_nil_r.
    split_and!; [done|by constructor|done].
  - intros (t & s1 & h & -> & H1 & (u & s2 & h2 & -> & H2 & Hk)%IH2)%IH1.
    exists (t +:+ u), s2, (h ++ h2). rewrite string_app_assoc, app_assoc. split_and!; [done|by constructor|done].
  - intros (t & s' & h & -> & Ha & Hk)%IH. rewrite taken_app, <- app_assoc in Hk.
    exists t, s', (h ++ [t]). split_and!; [done|by constructor|done].
Qed.
Lemma run_complete {A} r t h : accepts r t h → ∀ s g (k : string → list string → option A),
  k s (g ++ h) ≠ None → run r (t +:+ s) g k ≠ None.
Proof.
  induction 1 as [|c x Hx|c t Ht|a b t u g1 h1 _ IH1 _ IH2|r t g1 _ IH]; intros s g k Hk; cbn [run].
  - by rewrite app_nil_r in Hk.
  - cbn. rewrite Hx. by rewrite app_nil_r in Hk.
  - apply many_complete; [done|]. by rewrite app_nil_r in Hk.
  - rewrite string_app_assoc. apply IH1, IH2. by rewrite <- app_assoc.
  - apply IH. by rewrite taken_app, <- app_assoc.
Qed.

(** A match at the start is found exactly when some text there is accepted. *)
Lemma matchAt_sound r s g : matchAt r s = Some g → ∃ t s', s = t +:+ s' ∧ accepts r t g.
Proof. unfold matchAt. intros (t & s' & h & -> & Ha & [= <-])%run_sound. eauto. Qed.
Lemma matchAt_complete r t s h : accepts r t h → is_Some (matchAt r (t +:+ s)).
Proof.
  intros Ha. unfold matchAt.
  destruct (run _ _ _ _) as [g|] eqn:E; [by eexists|].
  by destruct (run_complete (A := list string) r t h Ha s [] (λ _ g, Some g)).
Qed.

(** Greedy repetitions take all they can when what follows succeeds there. *)
Lemma many_greedy {A} c t s (k : string → option A) a :
  all_in c t = true → match s with EmptyString => True | String x _ => in_class c x = false end →
  k s = Some a → many c (t +:+ s) k = Some a.
Proof.
  intros Ht Hs Hk. induction t as [|x t IH]; cbn [String.append].
  - destruct s as [|x s]; [done|]. cbn. by rewrite Hs.
  - cbn [many all_in] in *. apply andb_true_iff in Ht as [-> Ht]. by rewrite IH.
Qed.
