(* ===== verification/Unstructed.v ===== *)
(** * Documents walked by paths (pkg/utils/unstructed/unstructed.go)

    A path such as [spec.containers[name:apiserver].image] is split at its dots;
    the brackets of a part are taken apart by a regular expression.  The walk
    reads or writes the value there, in place: a part may name an entry of a map,
    a string of a list by its prefix, or a map of a list by one of its entries. *)
From stdpp Require Import base list gmap strings.
From Stdlib Require Import Lia Ascii.
From S2P Require Import Prelude GoStrings Api Effects Hash GoRegexp.
Local Open Scope Z_scope.

(** ** The expression [match]

    Its text, and below the matcher for it: [loadPath_regexp] shows that the
    matcher does what package regexp does for the text. *)
Definition match_ : string := "([\w]{0,})\[([\w-=+/\.]{0,})\s{0,}[:]{0,}\s{0,}([\w-=+/\.]{0,})\]".
Definition between (lo hi : N) (c : ascii) : bool := (lo <=? N_of_ascii c)%N && (N_of_ascii c <=? hi)%N.
(** [\w], [[\w-=+/\.]], [\s] and the colon. *)
Definition isWord (c : ascii) : bool :=
  between 48 57 c || between 65 90 c || between 97 122 c || Ascii.eqb c "_".
Definition isKey (c : ascii) : bool :=
  isWord c || Ascii.eqb c "-" || Ascii.eqb c "=" || Ascii.eqb c "+" || Ascii.eqb c "/" || Ascii.eqb c ".".
Definition isWhite (c : ascii) : bool := between 9 10 c || between 12 13 c || Ascii.eqb c " ".
Definition isColon (c : ascii) : bool := Ascii.eqb c ":".

(** The longest prefix of bytes of a class, and the rest. *)
Fixpoint span (p : ascii → bool) (s : string) : string * string :=
  match s with
  | EmptyString => (EmptyString, EmptyString)
  | String c s' => if p c then let '(a, b) := span p s' in (String c a, b) else (EmptyString, s)
  end.

(** The match that starts with the string: every repetition takes all it can,
    which loses none, see [matchHere_complete]. *)
Definition matchHere (s : string) : option (string * string * string) :=
  let '(name, r) := span isWord s in
  match r with
  | String "[" r =>
      let '(key, r) := span isKey r in
      let '(_, r) := span isWhite r in
      let '(_, r) := span isColon r in
      let '(_, r) := span isWhite r in
      let '(value, r) := span isKey r in
      match r with
      | String "]" _ => Some (name, key, value)
      | _ => None
      end
  | _ => None
  end.
(** [FindStringSubmatch]: the leftmost match. *)
Fixpoint FindStringSubmatch (s : string) : option (string * string * string) :=
  match matchHere s with
  | Some m => Some m
  | None => match s with EmptyString => None | String _ s' => FindStringSubmatch s' end
  end.

(** ** Paths *)
Record field : Type := MkField { f_field : string; f_name : string; f_key : string; f_value : string }.
Definition loadField (subp : string) : field :=
  match FindStringSubmatch subp with
  | None => MkField subp subp EmptyString EmptyString
  | Some (name, key, value) => MkField subp name key value
  end.
Definition loadPath (ppath : string) : list field := map loadField (Split ppath ".").

Inductive value_type : Type := VALUE_TYPE_MAP | VALUE_TYPE_SIMPLE_SLICE | VALUE_TYPE_COMPLEX_SLICE.
Definition ValueType (f : field) : value_type :=
  if decide (f_key f = EmptyString) then VALUE_TYPE_MAP
  else if decide (f_value f = EmptyString) then VALUE_TYPE_SIMPLE_SLICE
  else VALUE_TYPE_COMPLEX_SLICE.

(** ** Maps: [m[k]] and [m[k] = v] *)
Definition get_entry (k : string) (m : list (string * json)) : option json :=
  option_map snd (List.find (λ kv, bool_decide (kv.1 = k)) m).
Fixpoint set_entry (k : string) (v : json) (m : list (string * json)) : list (string * json) :=
  match m with
  | [] => [(k, v)]
  | (k', v') :: rest => if decide (k' = k) then (k, v) :: rest else (k', v') :: set_entry k v rest
  end.

Definition NOT_FOUND : goerr := GoErr "NotFound " false.

(** ** The walk

    A Go value to be stored is given by the JSON document it marshals to, which
    is what [nvalue] makes of it. *)
Section walk.
Context `{GoFmt}.

(** The loop over the strings of a list: a read returns the first with the
    prefix. *)
Inductive scan : Type :=
| Early (v : json)
| Bad (v : json)
| Scanned (newv : list json) (found : option nat).
Fixpoint scanSimple (set : bool) (key : string) (nv : json) (s : list json) (i : nat)
    (newv : list json) (found : option nat) : scan :=
  match s with
  | [] => Scanned newv found
  | JStr x as v :: rest =>
      if HasPrefix x key then
        if set then scanSimple set key nv rest (S i) (newv ++ [nv]) (Some i) else Early v
      else scanSimple set key nv rest (S i) (newv ++ [v]) found
  | v :: _ => Bad v
  end.
(** The loop over the maps of a list; [stop] says that the first map that
    matches ends it. *)
Definition matches (key value : string) (x : list (string * json)) : bool :=
  match get_entry key x with Some (JStr s) => bool_decide (s = value) | _ => false end.
Fixpoint scanComplex (stop : bool) (key value : string) (nv : json) (s : list json) (i : nat)
    (newv : list json) (found : option nat) : scan :=
  match s with
  | [] => Scanned newv found
  | JObj x as v :: rest =>
      if matches key value x then
        if stop then Scanned newv (Some i) else scanComplex stop key value nv rest (S i) (newv ++ [nv]) (Some i)
      else scanComplex stop key value nv rest (S i) (newv ++ [v]) found
  | v :: _ => Bad v
  end.
Definition not_string_slice (v : json) : goerr := GoErr ("not string slice " +:+ pp v) false.

(** The value found, or the error, and the document after the walk. *)
Fixpoint walk (path : list field) (value : json) (set : bool) (val : json) : (json + goerr) * json :=
  match path with
  | [] => (inl val, val)
  | f :: rest =>
      let last := match rest with [] => true | _ => false end in
      match ValueType f with
      | VALUE_TYPE_MAP =>
          match val with
          | JObj m =>
              let v := if last && set then value else default (JObj []) (get_entry (f_name f) m) in
              let '(r, v') := walk rest value set v in
              (r, JObj (set_entry (f_name f) v' m))
          | _ => (inr (GoErr ("field not a map. " +:+ pp val) false), val)
          end
      | VALUE_TYPE_SIMPLE_SLICE =>
          if negb last then (inr (GoErr "midle path should not be a simple slice" false), val)
          else
            match val with
            | JObj m =>
                match get_entry (f_name f) m with
                | None => (inr NOT_FOUND, val)
                | Some (JArr s) =>
                    match scanSimple set (f_key f) value s 0 [] None with
                    | Early v => (inl v, val)
                    | Bad v => (inr (not_string_slice v), val)
                    | Scanned newv found =>
                        if set then
                          let newv := match found with None => newv ++ [value] | Some _ => newv end in
                          (inl value, JObj (set_entry (f_name f) (JArr newv) m))
                        else (inr NOT_FOUND, val)
                    end
                | Some v => (inr (GoErr ("not slice. " +:+ pp v) false), val)
                end
            | _ => (inr NOT_FOUND, val)
            end
      | VALUE_TYPE_COMPLEX_SLICE =>
          match val with
          | JObj m =>
              match get_entry (f_name f) m with
              | None => (inr NOT_FOUND, val)
              | Some (JArr s) =>
                  match scanComplex (negb set && negb last) (f_key f) (f_value f) value s 0 [] None with
                  | Early v => (inl v, val)
                  | Bad v => (inr (not_string_slice v), val)
                  | Scanned newv found =>
                      if set && last then
                        let newv := match found with None => newv ++ [value] | Some _ => newv end in
                        (inl (JArr s), JObj (set_entry (f_name f) (JArr newv) m))
                      else
                        match found ≫= λ i, x ← s !! i; Some (i, x) with
                        | Some (i, x) =>
                            let '(r, x') := walk rest value set x in
                            (r, JObj (set_entry (f_name f) (JArr (<[i := x']> s)) m))
                        | None => (inr NOT_FOUND, val)
                        end
                  end
              | Some v => (inr (GoErr ("field not an complex map interface. " +:+ pp v) false), val)
              end
          | _ => (inr NOT_FOUND, val)
          end
      end
  end.
End walk.

(** [Unstructured]: the map it wraps; [json.Unmarshal] of null leaves a nil map,
    into which nothing can be assigned. *)
Definition Unstructured : Type := option (list (string * json)).
Definition ToUnstructured `{Json json} (tpl : string) : Unstructured + goerr :=
  match Unmarshal tpl (JObj []) with
  | (_, Some e) => inr (GoErr ("not json: " +:+ Error e) false)
  | (JObj m, None) => inl (Some m)
  | (JNull, None) => inl None
  | (_, None) => inr (GoErr "not json: json: cannot unmarshal" false)
  end.
Definition ToJson `{Json json} (u : Unstructured) : string * error :=
  (Marshal (match u with Some m => JObj m | None => JNull end), None).

Definition WalkPath `{GoFmt} (u : Unstructured) (ppath : string) (value : json) (set : bool)
    : outcome ((json + goerr) * Unstructured) :=
  let path := loadPath ppath in
  match u, path with
  | None, f :: _ =>
      match ValueType f with
      | VALUE_TYPE_MAP => Panic "assignment to entry in nil map"
      | VALUE_TYPE_SIMPLE_SLICE =>
          Ret (inr (if decide (length path = 1%nat) then NOT_FOUND
                    else GoErr "midle path should not be a simple slice" false), u)
      | VALUE_TYPE_COMPLEX_SLICE => Ret (inr NOT_FOUND, u)
      end
  | None, [] => Ret (inl JNull, u)
  | Some m, _ =>
      let '(r, x) := walk path value set (JObj m) in
      Ret (r, match x with JObj m' => Some m' | _ => u end)
  end.
Definition GetValue `{GoFmt} (u : Unstructured) (ppath : string) : outcome (option json * Unstructured) :=
  match WalkPath u ppath JNull false with
  | Ret (inl v, u) => Ret (Some v, u)
  | Ret (inr _, u) => Ret (None, u)
  | Panic m => Panic m
  | Hang => Hang
  end.
Definition SetValue `{GoFmt} (u : Unstructured) (ppath : string) (value : json) : outcome (error * Unstructured) :=
  match WalkPath u ppath value true with
  | Ret (inl _, u) => Ret (None, u)
  | Ret (inr e, u) => Ret (Some e, u)
  | Panic m => Panic m
  | Hang => Hang
  end.

(** ** The expression

    What the expression describes: [s] starts with a match of the given groups,
    before [rest]. *)
Fixpoint all_of (p : ascii → bool) (s : string) : Prop :=
  match s with EmptyString => True | String c s' => p c = true ∧ all_of p s' end.
Definition regex_at (s name key value rest : string) : Prop :=
  ∃ white colons white', all_of isWord name ∧ all_of isKey key ∧ all_of isWhite white ∧
    all_of isColon colons ∧ all_of isWhite white' ∧ all_of isKey value ∧
    s = name +:+ "[" +:+ key +:+ white +:+ colons +:+ white' +:+ value +:+ "]" +:+ rest.

(** The string does not start with a byte of the class. *)
Definition stops (p : ascii → bool) (s : string) : Prop :=
  match s with EmptyString => True | String c _ => p c = false end.

Lemma span_app p a s : all_of p a → span p (a +:+ s) = (a +:+ (span p s).1, (span p s).2).
Proof.
  induction a as [|c a IH]; cbn; [intros _; by destruct (span p s)|]. intros [Hc Ha].
  rewrite Hc, IH by done. done.
Qed.
Lemma span_stops p s : stops p s → span p s = (EmptyString, s).
Proof. destruct s as [|c s]; [done|]. cbn. by intros ->. Qed.
Lemma span_spec p s : all_of p (span p s).1 ∧ s = (span p s).1 +:+ (span p s).2 ∧ stops p (span p s).2.
Proof.
  induction s as [|c s IH]; [done|]. cbn. destruct (p c) eqn:E; [|done].
  destruct (span p s) as [a b]. cbn in *. naive_solver.
Qed.

(** The classes are disjoint, and hold none of the brackets. *)
Lemma white_key c : isWhite c = true → isKey c = false.
Proof. by destruct c as [[] [] [] [] [] [] [] []]. Qed.
Lemma colon_key c : isColon c = true → isKey c = false.
Proof. by destruct c as [[] [] [] [] [] [] [] []]. Qed.
Lemma colon_white c : isColon c = true → isWhite c = false.
Proof. by destruct c as [[] [] [] [] [] [] [] []]. Qed.
Lemma white_colon c : isWhite c = true → isColon c = false.
Proof. by destruct c as [[] [] [] [] [] [] [] []]. Qed.
Lemma key_white c : isKey c = true → isWhite c = false.
Proof. by destruct c as [[] [] [] [] [] [] [] []]. Qed.
Lemma key_colon c : isKey c = true → isColon c = false.
Proof. by destruct c as [[] [] [] [] [] [] [] []]. Qed.

Lemma all_of_app p a b : all_of p (a +:+ b) ↔ all_of p a ∧ all_of p b.
Proof. induction a as [|c a IH]; cbn; naive_solver. Qed.
Lemma stops_app p q a s :
  (∀ c, p c = true → q c = false) → all_of p a → stops q s → stops q (a +:+ s).
Proof. intros Hpq. destruct a as [|c a]; cbn; naive_solver. Qed.
Lemma span_class p a s : all_of p a → stops p s → span p (a +:+ s) = (a, s).
Proof. intros Ha Hs. rewrite span_app, span_stops by done. cbn. by rewrite string_app_nil_r. Qed.

Lemma matchHere_sound s n k v :
  matchHere s = Some (n, k, v) → ∃ rest, regex_at s n k v rest.
Proof.
  unfold matchHere, regex_at. destruct (span_spec isWord s) as (Hn & Es & _). destruct (span isWord s) as [name r].
  destruct r as [|[[] [] [] [] [] [] [] []] r]; try done. cbn [fst snd] in *.
  destruct (span_spec isKey r) as (Hk & E1 & _). destruct (span isKey r) as [key r1].
  destruct (span_spec isWhite r1) as (Hw & E2 & _). destruct (span isWhite r1) as [w r2].
  destruct (span_spec isColon r2) as (Hc & E3 & _). destruct (span isColon r2) as [cl r3].
  destruct (span_spec isWhite r3) as (Hw' & E4 & _). destruct (span isWhite r3) as [w' r4].
  destruct (span_spec isKey r4) as (Hv & E5 & _). destruct (span isKey r4) as [value r5].
  destruct r5 as [|[[] [] [] [] [] [] [] []] r5]; try done. cbn [fst snd] in *. intros [= <- <- <-].
  exists r5, w, cl, w'. split_and!; [done..|]. by rewrite Es, E1, E2, E3, E4, E5.
Qed.

Lemma regex_bytes s n k v rest :
  regex_at s n k v rest → matchHere s = Some (n, k, v) ∨ matchHere s = Some (n, k +:+ v, EmptyString).
Proof.
  intros (w & cl & w' & Hn & Hk & Hw & Hc & Hw' & Hv & ->). unfold matchHere.
  rewrite span_class by done. cbn [String.append].
  assert (stops isWhite (v +:+ "]" +:+ rest)) as Sv by (apply (stops_app isKey); [apply key_white|done..]).
  assert (stops isColon (v +:+ "]" +:+ rest)) as Sc by (apply (stops_app isKey); [apply key_colon|done..]).
  assert (stops isKey ("]" +:+ rest)) as Sk by done.
  destruct (decide (w +:+ cl +:+ w' = EmptyString)) as [E|E].
  - right. destruct w, cl, w'; try discriminate E. cbn [String.append].
    rewrite <- string_app_assoc, (span_class isKey) by (by rewrite ?all_of_app). cbn [String.append].
    rewrite !span_stops by done. done.
  - left. rewrite (span_class isKey); [|done|].
    2:{ destruct w as [|c w]; [|apply white_key, Hw]. destruct cl as [|c cl]; [|apply colon_key, Hc].
        destruct w' as [|c w']; [done|apply white_key, Hw']. }
    destruct cl as [|c cl].
    + cbn [String.append]. rewrite <- (string_app_assoc w w'), (span_class isWhite) by (by rewrite ?all_of_app).
      rewrite (span_stops isColon), (span_stops isWhite), (span_class isKey) by done. done.
    + rewrite (span_class isWhite) by (done || apply colon_white, Hc).
      rewrite (span_class isColon); [|done|].
      2:{ destruct w' as [|d w']; [done|apply white_colon, Hw']. }
      rewrite (span_class isWhite), (span_class isKey) by done. done.
Qed.

(** No match is lost by taking all one can. *)
Lemma matchHere_complete s : matchHere s = None → ∀ n k v rest, ¬ regex_at s n k v rest.
Proof. intros Hn n k v rest [E|E]%regex_bytes; congruence. Qed.
Lemma matchHere_greedy s n k v n' k' v' rest :
  matchHere s = Some (n, k, v) → regex_at s n' k' v' rest → n' = n ∧ ∃ l, k = k' +:+ l.
Proof.
  intros E [E'|E']%regex_bytes; rewrite E in E'; injection E' as -> -> ->;
    (split; [done|]); eexists; [symmetry; apply string_app_nil_r|done].
Qed.

Lemma string_app_split (a b c d : string) :
  a +:+ b = c +:+ d → (String.length a <= String.length c)%nat → ∃ e, c = a +:+ e ∧ b = e +:+ d.
Proof.
  revert c. induction a as [|x a IH]; intros c E Hl; [by exists c|].
  destruct c as [|y c]; cbn in *; [lia|]. injection E as -> E. apply IH in E as (e & -> & ->); [|lia]. by exists e.
Qed.

(** The match found is the leftmost one of the string, its key is the longest
    any match there has, and nothing is found only when no part of the string
    matches. *)
Theorem FindStringSubmatch_leftmost s :
  match FindStringSubmatch s with
  | Some (n, k, v) =>
      ∃ pre here rest, s = pre +:+ here ∧ regex_at here n k v rest ∧
        (∀ pre' here' n' k' v' rest', s = pre' +:+ here' → regex_at here' n' k' v' rest' →
           (String.length pre <= String.length pre')%nat) ∧
        (∀ n' k' v' rest', regex_at here n' k' v' rest' → n' = n ∧ ∃ l, k = k' +:+ l)
  | None => ∀ pre here n k v rest, s = pre +:+ here → ¬ regex_at here n k v rest
  end.
Proof.
  induction s as [|c s IH]; cbn [FindStringSubmatch].
  - destruct (matchHere "") as [[[n k] v]|] eqn:E; [discriminate E|].
    intros [|? ?] here n k v rest Hs; [|done]. cbn in Hs. subst here. by apply matchHere_complete.
  - destruct (matchHere (String c s)) as [[[n k] v]|] eqn:E.
    { destruct (matchHere_sound _ _ _ _ E) as (rest & Hr). exists EmptyString, (String c s), rest.
      split_and!; [done|done|intros; cbn; lia|intros; by eapply matchHere_greedy]. }
    pose proof (matchHere_complete _ E) as Hno.
    assert (∀ pre' here' n' k' v' rest', String c s = pre' +:+ here' → regex_at here' n' k' v' rest' →
              ∃ p, pre' = String c p ∧ s = p +:+ here') as Hlater.
    { intros [|d p] here' n' k' v' rest' Hs Hr; cbn in Hs; [subst here'; by destruct (Hno _ _ _ _ Hr)|].
      injection Hs as <- ->. by exists p. }
    destruct (FindStringSubmatch s) as [[[n k] v]|].
    + destruct IH as (pre & here & rest & -> & Hr & Hleft & Hg). exists (String c pre), here, rest.
      split_and!; [done|done| |done]. intros pre' here' n' k' v' rest' Hs Hr'.
      destruct (Hlater _ _ _ _ _ _ Hs Hr') as (p & -> & Hp). cbn. apply le_n_S. by eapply Hleft.
    + intros pre here n k v rest Hs Hr. destruct (Hlater _ _ _ _ _ _ Hs Hr) as (p & -> & Hp).
      by eapply IH.
Qed.

(** *** The matcher and package regexp *)

(** The expression read from its text. *)
Definition wordClass : class := [(48, 57); (65, 90); (95, 95); (97, 122)]%N.
Definition keyClass : class := wordClass ++ [(45, 45); (61, 61); (43, 43); (47, 47); (46, 46)]%N.
Definition whiteClass : class := [(9, 10); (12, 13); (32, 32)]%N.
Definition matchRe : re :=
  Cat (Group (Cat (Many wordClass) Eps)) (Cat (One [(91, 91)]%N)
    (Cat (Group (Cat (Many keyClass) Eps)) (Cat (Many whiteClass) (Cat (Many [(58, 58)]%N)
      (Cat (Many whiteClass) (Cat (Group (Cat (Many keyClass) Eps)) (Cat (One [(93, 93)]%N) Eps))))))).
Lemma Compile_match : Compile match_ = Some matchRe.
Proof. by vm_compute. Qed.

Lemma class_word c : in_class wordClass c = isWord c.
Proof. by destruct c as [[] [] [] [] [] [] [] []]. Qed.
Lemma class_key c : in_class keyClass c = isKey c.
Proof. by destruct c as [[] [] [] [] [] [] [] []]. Qed.
Lemma class_white c : in_class whiteClass c = isWhite c.
Proof. by destruct c as [[] [] [] [] [] [] [] []]. Qed.
Lemma class_colon c : in_class [(58, 58)]%N c = isColon c.
Proof. by destruct c as [[] [] [] [] [] [] [] []]. Qed.

Lemma all_in_of k p t : (∀ c, in_class k c = p c) → all_in k t = true ↔ all_of p t.
Proof. intros Hp. induction t as [|c t IH]; cbn; [done|]. by rewrite andb_true_iff, Hp, IH. Qed.

Lemma accepts_cat_inv a b t g : accepts (Cat a b) t g →
  ∃ t1 t2 g1 g2, t = t1 +:+ t2 ∧ g = g1 ++ g2 ∧ accepts a t1 g1 ∧ accepts b t2 g2.
Proof. inversion 1; subst. by do 4 eexists. Qed.
Lemma accepts_many_inv c b t g : accepts (Cat (Many c) b) t g →
  ∃ t1 t2, t = t1 +:+ t2 ∧ all_in c t1 = true ∧ accepts b t2 g.
Proof. intros (t1 & t2 & g1 & g2 & -> & -> & Ha & Hb)%accepts_cat_inv. inversion Ha; subst. by exists t1, t2. Qed.
Lemma accepts_group_inv c b t g : accepts (Cat (Group (Cat (Many c) Eps)) b) t g →
  ∃ t1 t2 g2, t = t1 +:+ t2 ∧ g = t1 :: g2 ∧ all_in c t1 = true ∧ accepts b t2 g2.
Proof.
  intros (t1 & t2 & g1 & g2 & -> & -> & Ha & Hb)%accepts_cat_inv. inversion Ha as [| | | |r u h Hr]; subst.
  apply accepts_many_inv in Hr as (u & e & -> & Hu & He). inversion He; subst. rewrite string_app_nil_r.
  by exists u, t2, g2.
Qed.
Lemma accepts_one_inv n b t g : accepts (Cat (One [(n, n)]) b) t g →
  ∃ c t2, t = String c t2 ∧ N_of_ascii c = n ∧ accepts b t2 g.
Proof.
  intros (t1 & t2 & g1 & g2 & -> & -> & Ha & Hb)%accepts_cat_inv. inversion Ha as [|? c Hc| | |]; subst.
  exists c, t2. split_and!; [done| |done]. revert Hc. cbn. rewrite orb_false_r, andb_true_iff, !N.leb_le. lia.
Qed.

(** What the expression accepts is what it is read as. *)
Lemma accepts_match t g rest :
  accepts matchRe t g → ∃ n k v, g = [n; k; v] ∧ regex_at (t +:+ rest) n k v rest.
Proof.
  unfold matchRe. intros (n & t1 & g1 & -> & -> & Hn & Ha)%accepts_group_inv.
  apply accepts_one_inv in Ha as (c & t2 & -> & Hc & Ha).
  apply accepts_group_inv in Ha as (k & t3 & g2 & -> & -> & Hk & Ha).
  apply accepts_many_inv in Ha as (w & t4 & -> & Hw & Ha). apply accepts_many_inv in Ha as (cl & t5 & -> & Hcl & Ha).
  apply accepts_many_inv in Ha as (w' & t6 & -> & Hw' & Ha).
  apply accepts_group_inv in Ha as (v & t7 & g3 & -> & -> & Hv & Ha).
  apply accepts_one_inv in Ha as (d & t8 & -> & Hd & Ha). inversion Ha; subst.
  assert (c = "["%char) as -> by (by rewrite <- (ascii_N_embedding c), Hc).
  assert (d = "]"%char) as -> by (by rewrite <- (ascii_N_embedding d), Hd).
  exists n, k, v. split; [done|]. exists w, cl, w'.
  rewrite <- (all_in_of _ _ _ class_word), <- !(all_in_of _ _ _ class_key), <- !(all_in_of _ _ _ class_white),
    <- (all_in_of _ _ _ class_colon).
  split_and!; [done..|]. rewrite !string_app_assoc. cbn [String.append]. by rewrite !string_app_assoc.
Qed.

(** Taking all one can is what the greedy search does first. *)
Lemma many_span {A} k p s (f : string → option A) a :
  (∀ c, in_class k c = p c) → f (span p s).2 = Some a → many k s f = Some a.
Proof.
  intros Hp Hf. destruct (span_spec p s) as (Hall & E & Hstop). destruct (span p s) as [t r]. cbn [fst snd] in *.
  subst s. apply many_greedy; [by apply (all_in_of k p)| |done]. destruct r; [done|]. by rewrite Hp.
Qed.

Lemma taken_of s t r : s = t +:+ r → taken s r = t.
Proof. intros ->. apply taken_app. Qed.

Lemma matchHere_run s n k v : matchHere s = Some (n, k, v) → matchAt matchRe s = Some [n; k; v].
Proof.
  unfold matchHere, matchAt, matchRe. cbn [run]. intros HM.
  pose proof (span_spec isWord s) as (_ & E0 & _). destruct (span isWord s) as [name r] eqn:S0.
  destruct r as [|[[] [] [] [] [] [] [] []] r]; try done.
  pose proof (span_spec isKey r) as (_ & E1 & _). destruct (span isKey r) as [key r1] eqn:S1.
  destruct (span isWhite r1) as [w r2] eqn:S2. destruct (span isColon r2) as [cl r3] eqn:S3.
  destruct (span isWhite r3) as [w' r4] eqn:S4.
  pose proof (span_spec isKey r4) as (_ & E5 & _). destruct (span isKey r4) as [value r5] eqn:S5.
  destruct r5 as [|[[] [] [] [] [] [] [] []] r5]; try done. injection HM as <- <- <-.
  cbn [fst snd] in *.
  apply (many_span _ isWord); [apply class_word|]. rewrite S0. cbn [snd app].
  rewrite (taken_of _ _ _ E0). cbn [in_class existsb fst snd].
  apply (many_span _ isKey); [apply class_key|]. rewrite S1. cbn [snd app].
  rewrite (taken_of _ _ _ E1).
  apply (many_span _ isWhite); [apply class_white|]. rewrite S2. cbn [snd app].
  apply (many_span _ isColon); [apply class_colon|]. rewrite S3. cbn [snd app].
  apply (many_span _ isWhite); [apply class_white|]. rewrite S4. cbn [snd app].
  apply (many_span _ isKey); [apply class_key|]. rewrite S5. cbn [snd app].
  by rewrite (taken_of _ _ _ E5).
Qed.

Lemma matchHere_regexp s :
  matchAt matchRe s = match matchHere s with Some (n, k, v) => Some [n; k; v] | None => None end.
Proof.
  destruct (matchHere s) as [[[n k] v]|] eqn:E; [by apply matchHere_run|].
  destruct (matchAt matchRe s) as [g|] eqn:Em; [|done].
  apply matchAt_sound in Em as (t & rest & -> & (n & k & v & _ & Hr)%(λ a, accepts_match t g rest a)).
  by apply matchHere_complete with (1 := E) in Hr.
Qed.

Lemma FindStringSubmatch_regexp s :
  Submatch matchRe s = match FindStringSubmatch s with Some (n, k, v) => Some [n; k; v] | None => None end.
Proof.
  induction s as [|c s IH]; cbn [Submatch FindStringSubmatch]; rewrite matchHere_regexp.
  - by destruct (matchHere "") as [[[n k] v]|].
  - destruct (matchHere (String c s)) as [[[n k] v]|]; [done|]. exact IH.
Qed.

(** C32: a path is taken apart the way the regular expression in its source
    text says: for the expression read from that text, and for the search that
    package regexp documents (the leftmost match, and of those there the one
    greedy backtracking finds first), every part of the path between two dots
    becomes its three groups, or stands for itself when there is no match. *)
Theorem loadPath_regexp :
  ∃ reg, Compile "([\w]{0,})\[([\w-=+/\.]{0,})\s{0,}[:]{0,}\s{0,}([\w-=+/\.]{0,})\]" = Some reg ∧
    ∀ ppath, loadPath ppath =
      map (λ subp, match Submatch reg subp with
                   | Some [name; key; value] => MkField subp name key value
                   | _ => MkField subp subp EmptyString EmptyString
                   end) (Split ppath ".").
Proof.
  exists matchRe. split; [exact Compile_match|]. intros ppath. unfold loadPath. apply map_ext. intros subp.
  unfold loadField. rewrite FindStringSubmatch_regexp. by destruct (FindStringSubmatch subp) as [[[n k] v]|].
Qed.

(** ** Plain paths

    A path whose parts have no brackets names entries of nested maps. *)
Definition plain (k : string) : field := MkField k k EmptyString EmptyString.

(** Reference: put a value at a path of keys, making the maps that are missing. *)
Fixpoint put (p : list string) (v x : json) : option json :=
  match p with
  | [] => Some v
  | k :: p' =>
      match x with
      | JObj m => y ← put p' v (default (JObj []) (get_entry k m)); Some (JObj (set_entry k y m))
      | _ => None
      end
  end.

Lemma get_set_entry k v m : get_entry k (set_entry k v m) = Some v.
Proof.
  unfold get_entry. induction m as [|[k' v'] m IH]; cbn; [by rewrite bool_decide_true|].
  case_decide as E; cbn; [by rewrite bool_decide_true|]. by rewrite bool_decide_false.
Qed.
Lemma get_set_other k k' v m : k ≠ k' → get_entry k' (set_entry k v m) = get_entry k' m.
Proof.
  intros Hne. unfold get_entry. induction m as [|[k2 v2] m IH]; cbn; [by rewrite bool_decide_false|].
  case_decide as E; cbn; [|by case_bool_decide]. subst k2. by rewrite !bool_decide_false by done.
Qed.
Lemma set_entry_same k v m : get_entry k m = Some v → set_entry k v m = m.
Proof.
  unfold get_entry. induction m as [|[k2 v2] m IH]; cbn; [done|].
  case_bool_decide as E; case_decide; cbn; try done; [intros [= ->]; by rewrite E|]. intros Hg. f_equal. by apply IH.
Qed.

Lemma at_path_entry k p m : at_path (JObj m) (k :: p) = get_entry k m ≫= λ x, at_path x p.
Proof. cbn. unfold get_entry. by destruct (List.find _ m). Qed.

Lemma at_put p v x x' : put p v x = Some x' → at_path x' p = Some v.
Proof.
  revert x x'. induction p as [|k p IH]; intros x x'; [by intros [= ->]|]. cbn [put].
  destruct x as [| | | | |m]; try done. destruct (put p v _) as [y|] eqn:E; [|done]. intros [= <-].
  rewrite at_path_entry, get_set_entry. cbn. by eapply IH.
Qed.
(** Paths that go apart somewhere. *)
Fixpoint apart (p q : list string) : Prop :=
  match p, q with
  | k :: p', l :: q' => k ≠ l ∨ apart p' q'
  | _, _ => False
  end.
Lemma at_put_apart p q v x x' : put p v x = Some x' → apart p q → at_path x' q = at_path x q.
Proof.
  revert q x x'. induction p as [|k p IH]; intros [|l q] x x'; try done. cbn [put].
  destruct x as [| | | | |m]; try done. destruct (put p v _) as [y|] eqn:E; [|done]. intros [= <-] Ha.
  rewrite !at_path_entry. destruct (decide (k = l)) as [<-|Hne]; [|by rewrite get_set_other].
  destruct Ha as [Ha|Ha]; [done|]. rewrite get_set_entry. cbn. rewrite (IH _ _ _ E Ha).
  destruct (get_entry k m) as [z|] eqn:Ez; cbn; [done|]. by destruct p, q.
Qed.

Section plain.
Context `{GoFmt}.

(** The walk along plain parts. *)
Lemma walk_plain p v x :
  p ≠ [] →
  match put p v x with
  | Some x' => walk (map plain p) v true x = (inl v, x')
  | None => ∃ e, walk (map plain p) v true x = (inr e, x)
  end.
Proof.
  revert x. induction p as [|k p IH]; intros x Hne; [done|]. cbn [map walk plain put ValueType f_name f_key].
  unfold ValueType. cbn [f_key]. rewrite decide_True by done.
  destruct x as [| | | | |m]; try by eexists. destruct p as [|k2 p].
  - done.
  - cbn [map andb]. set (d := default _ _). specialize (IH d ltac:(done)).
    destruct (put (k2 :: p) v d) as [y|] eqn:E.
    + cbn [map] in IH. by rewrite IH.
    + destruct IH as (e & IH). cbn [map] in IH. rewrite IH. exists e. do 2 f_equal.
      apply set_entry_same. subst d. destruct (get_entry k m) as [z|] eqn:Ez; [done|]. cbn in E.
      exfalso. clear -E. revert E. cbn [put].
      assert (∀ q, ∃ z, put q v (JObj []) = Some z) as Hp.
      { induction q as [|k q IHq]; [by eexists|]. cbn. destruct IHq as (z & ->). by eexists. }
      cbn. destruct (Hp p) as (z & ->). done.
Qed.
Lemma walk_plain_read p v x :
  at_path x p = Some v → walk (map plain p) JNull false x = (inl v, x).
Proof.
  revert x. induction p as [|k p IH]; intros x; [by intros [= ->]|]. cbn [map walk plain f_name].
  unfold ValueType. cbn [f_key]. rewrite decide_True by done.
  destruct x as [| | | | |m]; try done. rewrite at_path_entry. destruct (get_entry k m) as [y|] eqn:E; [|done].
  cbn [mbind option_bind default from_option]. intros Hy. rewrite andb_false_r. cbn. rewrite (IH _ Hy).
  by rewrite set_entry_same.
Qed.

Lemma no_byte_app_r c a b : no_byte c (a +:+ b) → no_byte c b.
Proof. induction a as [|d a IH]; cbn; naive_solver. Qed.
Lemma FindStringSubmatch_none s : no_byte "["%char s → FindStringSubmatch s = None.
Proof.
  induction s as [|c s IH]; intros Hs; cbn [FindStringSubmatch]; [done|].
  destruct (matchHere (String c s)) as [[[n k] v]|] eqn:E; [|by apply IH, Hs].
  apply matchHere_sound in E as (rest & ? & ? & ? & _ & _ & _ & _ & _ & _ & E). rewrite E in Hs.
  by apply no_byte_app_r in Hs as [? _].
Qed.
(** A part without a bracket has no match. *)
Lemma plain_part s : no_byte "["%char s → loadField s = plain s.
Proof.
  intros Hs. unfold loadField. pose proof (FindStringSubmatch_none s Hs) as ->. done.
Qed.
Lemma loadPath_plain p :
  Forall (no_byte "."%char) p → Forall (no_byte "["%char) p → p ≠ [] → loadPath (Join p ".") = map plain p.
Proof.
  intros Hd Hb Hne. unfold loadPath. rewrite Split_Join by done. clear Hd Hne.
  induction Hb as [|k p Hk _ IH]; cbn; [done|]. by rewrite plain_part, IH.
Qed.

(** Keys that can be written in a path. *)
Definition plain_keys (p : list string) : Prop :=
  p ≠ [] ∧ Forall (no_byte "."%char) p ∧ Forall (no_byte "["%char) p.

(** What [SetValue] does on a path of keys is what [put] describes. *)
Lemma SetValue_put p v m :
  plain_keys p →
  match put p v (JObj m) with
  | Some x => ∃ m', x = JObj m' ∧ SetValue (Some m) (Join p ".") v = Ret (None, Some m')
  | None => ∃ e, SetValue (Some m) (Join p ".") v = Ret (Some e, Some m)
  end.
Proof.
  intros (Hne & Hd & Hb). unfold SetValue, WalkPath. rewrite loadPath_plain by done.
  pose proof (walk_plain p v (JObj m) Hne) as Hw. destruct (put p v (JObj m)) as [x|] eqn:E.
  - rewrite Hw. destruct p as [|k p]; [done|]. cbn in E. destruct (put p v _) as [y|]; [|done].
    injection E as <-. cbn. by eexists.
  - destruct Hw as (e & ->). cbn. by exists e.
Qed.

(** C29: a value set at a path of keys is read back there: setting either fails
    and leaves the document alone, because something on the way is no map, or
    afterwards reading gives the value, changing nothing, and every path that
    goes apart from this one holds what it held before. *)
Theorem SetValue_GetValue p v m e u :
  plain_keys p → SetValue (Some m) (Join p ".") v = Ret (e, u) →
  match e with
  | Some _ => u = Some m ∧ put p v (JObj m) = None
  | None =>
      ∃ m', u = Some m' ∧ GetValue u (Join p ".") = Ret (Some v, u) ∧
        ∀ q, apart p q → at_path (JObj m') q = at_path (JObj m) q
  end.
Proof.
  intros Hp Hs. pose proof (SetValue_put p v m Hp) as Hput. destruct (put p v (JObj m)) as [x|] eqn:E.
  - destruct Hput as (m' & -> & Hr). rewrite Hs in Hr. injection Hr as -> ->. exists m'. split; [done|]. split.
    + unfold GetValue, WalkPath. destruct Hp as (Hne & Hd & Hb). rewrite loadPath_plain by done.
      rewrite (walk_plain_read p v) by (by eapply at_put). done.
    + intros q Hq. by eapply at_put_apart.
  - destruct Hput as (e' & Hr). rewrite Hs in Hr. by injection Hr as -> ->.
Qed.

(** Reading an entry that is not there makes an empty map of it, and says it was
    found. *)
Theorem GetValue_invents k m :
  plain_keys [k] → get_entry k m = None →
  GetValue (Some m) k = Ret (Some (JObj []), Some (set_entry k (JObj []) m)).
Proof.
  intros (Hne & Hd & Hb) Hk. unfold GetValue, WalkPath. change k with (Join [k] ".") at 1.
  rewrite loadPath_plain by done. cbn [map walk plain f_name f_key]. unfold ValueType. cbn [f_key].
  rewrite decide_True by done. cbn. by rewrite Hk.
Qed.
End plain.

(** The two ways to go on through a list disagree when several of its maps
    match: reading takes the first, writing the last. *)
Example read_first_write_last `{GoFmt} :
  let c n := JObj [("name", JStr "a"); ("image", JStr n)] in
  let m := [("containers", JArr [c "one"; c "two"])] in
  GetValue (Some m) "containers[name:a].image" = Ret (Some (JStr "one"), Some m) ∧
  SetValue (Some m) "containers[name:a].image" (JStr "new")
  = Ret (None, Some [("containers", JArr [c "one"; c "new"])]).
Proof. by vm_compute. Qed.

(** ** Witness *)
Lemma SetValue_GetValue_witness :
  ∃ m', SetValue (H:=Sim.go_fmt) (Some [("a", JStr "x")]) "spec.name" (JStr "v") = Ret (None, Some m') ∧
    GetValue (H:=Sim.go_fmt) (Some m') "spec.name" = Ret (Some (JStr "v"), Some m').
Proof.
  assert (SetValue (H:=Sim.go_fmt) (Some [("a", JStr "x")]) (Join ["spec"; "name"] ".") (JStr "v")
          = Ret (None, Some [("a", JStr "x"); ("spec", JObj [("name", JStr "v")])])) as E by (by vm_compute).
  destruct (SetValue_GetValue (H:=Sim.go_fmt) ["spec"; "name"] (JStr "v") [("a", JStr "x")] None _
              ltac:(split; [discriminate|split; repeat constructor; discriminate]) E) as (m' & Em & Hg & _).
  exists m'. injection Em as <-. split; [exact E|exact Hg].
Defined.

(** The path of the documentation, by way of package regexp. *)
Lemma loadPath_regexp_witness :
  loadPath "spec.containers[name:apiserver].command[--v=]" =
    [MkField "spec" "spec" "" ""; MkField "containers[name:apiserver]" "containers" "name" "apiserver";
     MkField "command[--v=]" "command" "--v=" ""].
Proof.
  destruct loadPath_regexp as (reg & Hc & Hl). rewrite Hl.
  assert (reg = matchRe) as -> by (pose proof Compile_match as Hm; unfold match_ in Hm; congruence).
  vm_compute. reflexivity.
Defined.
