(* ===== verification/GoJson.v ===== *)
(** * encoding/json on generic documents

    What [json.Unmarshal] and [json.Marshal] of Go 1.16 do with an
    [interface{}]: the text is read as runes (an invalid byte is the replacement
    rune), a later entry of an object replaces an earlier one of the same key,
    maps are written with sorted keys and strings with the escapes that keep
    them safe inside HTML.  A number is kept exactly as it is written; Go reads
    a float64, which is the same number for the integers up to [2^53] the
    documents hold.  The depth of nesting is not limited to Go's 10000.

    The facts: the fuel given to the reader is always enough, and reading what
    was written gives the document back, its maps sorted. *)
From stdpp Require Import base list strings sorting pretty.
From Stdlib Require Import Lia Ascii NArith ZArith.
From S2P Require Import Prelude GoStrings Api Effects Unstructed.
Local Open Scope N_scope.

(** ** unicode/utf8 *)

(** [utf8.RuneError] *)
Definition RuneError : N := 0xFFFD.
Definition isSurrogate (r : N) : bool := (0xD800 <=? r) && (r <? 0xE000).
(** The runes that have an encoding. *)
Definition validRune (r : N) : bool := (r <? 0x110000) && negb (isSurrogate r).
Definition byte (n : N) : ascii := ascii_of_N n.

(** [utf8.EncodeRune] *)
Definition encodeRune (r : N) (rest : string) : string :=
  let r := if validRune r then r else RuneError in
  if r <? 0x80 then String (byte r) rest
  else if r <? 0x800 then String (byte (0xC0 + r / 64)) (String (byte (0x80 + r mod 64)) rest)
  else if r <? 0x10000 then
    String (byte (0xE0 + r / 4096))
      (String (byte (0x80 + (r / 64) mod 64)) (String (byte (0x80 + r mod 64)) rest))
  else
    String (byte (0xF0 + r / 262144))
      (String (byte (0x80 + (r / 4096) mod 64))
         (String (byte (0x80 + (r / 64) mod 64)) (String (byte (0x80 + r mod 64)) rest))).

(** [string(runes)] *)
Definition encode (rs : list N) : string := foldr encodeRune EmptyString rs.

(** A continuation byte. *)
Definition cont (c : ascii) : bool := between 0x80 0xBF c.
Definition low (c : ascii) : N := N_of_ascii c - 0x80.

(** [[]rune(s)], as [utf8.DecodeRune] reads it: an over-long or truncated
    sequence, a surrogate or a value past the last rune is one invalid byte. *)
Fixpoint decode (s : string) : list N :=
  match s with
  | EmptyString => []
  | String a s1 =>
      let x := N_of_ascii a in
      if x <? 0x80 then x :: decode s1
      else match s1 with
           | EmptyString => [RuneError]
           | String b s2 =>
               if between 0xC2 0xDF a && cont b then ((x - 0xC0) * 64 + low b) :: decode s2
               else match s2 with
                    | EmptyString => RuneError :: decode s1
                    | String c s3 =>
                        let r3 := ((x - 0xE0) * 64 + low b) * 64 + low c in
                        if between 0xE0 0xEF a && cont b && cont c && (0x800 <=? r3) && negb (isSurrogate r3)
                        then r3 :: decode s3
                        else match s3 with
                             | EmptyString => RuneError :: decode s1
                             | String d s4 =>
                                 let r4 := (((x - 0xF0) * 64 + low b) * 64 + low c) * 64 + low d in
                                 if between 0xF0 0xF4 a && cont b && cont c && cont d
                                    && (0x10000 <=? r4) && (r4 <? 0x110000)
                                 then r4 :: decode s4
                                 else RuneError :: decode s1
                             end
                    end
           end
  end.

(** [utf8.ValidString(s)] *)
Definition ValidString (s : string) : bool := bool_decide (encode (decode s) = s).

(** ** The reader *)
Definition isSpace (c : N) : bool := (c =? 32) || (c =? 9) || (c =? 10) || (c =? 13).
Fixpoint skip (s : list N) : list N :=
  match s with
  | c :: r => if isSpace c then skip r else s
  | [] => []
  end.

Definition hexValue (c : N) : option N :=
  if (48 <=? c) && (c <=? 57) then Some (c - 48)
  else if (97 <=? c) && (c <=? 102) then Some (c - 87)
  else if (65 <=? c) && (c <=? 70) then Some (c - 55)
  else None.
Definition getu4 (a b c d : N) : option N :=
  match hexValue a, hexValue b, hexValue c, hexValue d with
  | Some a, Some b, Some c, Some d => Some (((a * 16 + b) * 16 + c) * 16 + d)
  | _, _, _, _ => None
  end.
(** The one-letter escapes. *)
Definition unescape (c : N) : option N :=
  if (c =? 34) || (c =? 92) || (c =? 47) then Some c
  else if c =? 98 then Some 8
  else if c =? 102 then Some 12
  else if c =? 110 then Some 10
  else if c =? 114 then Some 13
  else if c =? 116 then Some 9
  else None.
(** [utf16.DecodeRune] *)
Definition surrogatePair (h l : N) : option N :=
  if (0xD800 <=? h) && (h <? 0xDC00) && (0xDC00 <=? l) && (l <? 0xE000)
  then Some ((h - 0xD800) * 1024 + (l - 0xDC00) + 0x10000) else None.

Definition push {A} (x : N) (o : option (list N * A)) : option (list N * A) :=
  match o with Some (t, r) => Some (x :: t, r) | None => None end.

(** The runes up to the closing quote, and what follows it. *)
Fixpoint readString (s : list N) : option (list N * list N) :=
  match s with
  | [] => None
  | c :: r =>
      if c =? 34 then Some ([], r)
      else if c <? 32 then None
      else if c =? 92 then
        match r with
        | [] => None
        | e :: r1 =>
            if e =? 117 then
              match r1 with
              | h1 :: h2 :: h3 :: h4 :: r2 =>
                  match getu4 h1 h2 h3 h4 with
                  | None => None
                  | Some u =>
                      if isSurrogate u then
                        match r2 with
                        | b :: v :: l1 :: l2 :: l3 :: l4 :: r3 =>
                            match (if (b =? 92) && (v =? 117) then getu4 l1 l2 l3 l4 else None) with
                            | Some l =>
                                match surrogatePair u l with
                                | Some x => push x (readString r3)
                                | None => push RuneError (readString r2)
                                end
                            | None => push RuneError (readString r2)
                            end
                        | _ => push RuneError (readString r2)
                        end
                      else push u (readString r2)
                  end
              | _ => None
              end
            else match unescape e with
                 | Some x => push x (readString r1)
                 | None => None
                 end
        end
      else push c (readString r)
  end.

Definition isDigit (c : N) : bool := (48 <=? c) && (c <=? 57).
Fixpoint digits (s : list N) : list N * list N :=
  match s with
  | c :: r => if isDigit c then let '(d, r) := digits r in (c :: d, r) else ([], s)
  | [] => ([], [])
  end.
Definition digitsValue (ds : list N) : Z := foldl (λ z d, (z * 10 + Z.of_N (d - 48))%Z) 0%Z ds.

(** [m * 10^e] with no fraction that is not needed. *)
Fixpoint stripZeros (k : nat) (m : Z) : json :=
  match k with
  | O => JNum m 0
  | S k' => if (m mod 10 =? 0)%Z then stripZeros k' (m / 10)%Z else JNum m (- Z.of_nat k)
  end.
Definition number (m e : Z) : json :=
  if (e <? 0)%Z then stripZeros (Z.to_nat (- e)) m else JNum (m * 10 ^ e)%Z 0.

Definition readFraction (s : list N) : option (list N * list N) :=
  match s with
  | c :: r => if c =? 46 then match digits r with ([], _) => None | p => Some p end else Some ([], s)
  | [] => Some ([], [])
  end.
Definition readExponent (s : list N) : option (Z * list N) :=
  match s with
  | c :: r =>
      if (c =? 101) || (c =? 69) then
        let '(neg, r) := match r with
                         | c :: r' => if c =? 45 then (true, r') else if c =? 43 then (false, r') else (false, r)
                         | [] => (false, [])
                         end in
        match digits r with
        | ([], _) => None
        | (ds, r) => Some (if neg then - digitsValue ds else digitsValue ds, r)%Z
        end
      else Some (0%Z, s)
  | [] => Some (0%Z, [])
  end.
Definition readNumber (s : list N) : option (json * list N) :=
  let '(neg, s) := match s with c :: r => if c =? 45 then (true, r) else (false, s) | [] => (false, []) end in
  match digits s with
  | ([], _) => None
  | (d :: ds, s) =>
      if (d =? 48) && negb (bool_decide (ds = [])) then None
      else match readFraction s with
           | None => None
           | Some (fs, s) =>
               match readExponent s with
               | None => None
               | Some (e, s) =>
                   let m := digitsValue (d :: ds ++ fs) in
                   Some (number (if neg then - m else m) (e - Z.of_nat (length fs)), s)%Z
               end
           end
  end.

(** The rest after a word. *)
Fixpoint word (w : list N) (s : list N) : option (list N) :=
  match w, s with
  | [], _ => Some s
  | c :: w, d :: s => if c =? d then word w s else None
  | _, _ => None
  end.
Definition readWord (s : list N) : option (json * list N) :=
  match word (decode "null") s, word (decode "true") s, word (decode "false") s with
  | Some r, _, _ => Some (JNull, r)
  | _, Some r, _ => Some (JBool true, r)
  | _, _, Some r => Some (JBool false, r)
  | _, _, _ => None
  end.

(** A value, the elements of an array after its bracket, and the entries of an
    object after its brace. *)
Fixpoint readValue (n : nat) (s : list N) : option (json * list N) :=
  match n with
  | O => None
  | S n =>
      match skip s with
      | [] => None
      | c :: r =>
          if c =? 123 then
            match skip r with
            | d :: r' => if d =? 125 then Some (JObj [], r') else readEntries n r []
            | [] => None
            end
          else if c =? 91 then
            match skip r with
            | d :: r' => if d =? 93 then Some (JArr [], r') else readElems n r []
            | [] => None
            end
          else if c =? 34 then
            match readString r with
            | Some (t, r) => Some (JStr (encode t), r)
            | None => None
            end
          else if isDigit c || (c =? 45) then readNumber (c :: r)
          else readWord (c :: r)
      end
  end
with readElems (n : nat) (s : list N) (acc : list json) : option (json * list N) :=
  match n with
  | O => None
  | S n =>
      match readValue n s with
      | None => None
      | Some (v, s) =>
          match skip s with
          | c :: r => if c =? 44 then readElems n r (acc ++ [v])
                      else if c =? 93 then Some (JArr (acc ++ [v]), r) else None
          | [] => None
          end
      end
  end
with readEntries (n : nat) (s : list N) (acc : list (string * json)) : option (json * list N) :=
  match n with
  | O => None
  | S n =>
      match skip s with
      | q :: s =>
          if negb (q =? 34) then None
          else match readString s with
               | None => None
               | Some (k, s) =>
                   match skip s with
                   | c :: s =>
                       if negb (c =? 58) then None
                       else match readValue n s with
                            | None => None
                            | Some (v, s) =>
                                let acc := set_entry (encode k) v acc in
                                match skip s with
                                | c :: r => if c =? 44 then readEntries n r acc
                                            else if c =? 125 then Some (JObj acc, r) else None
                                | [] => None
                                end
                            end
                   | [] => None
                   end
               end
      | [] => None
      end
  end.

(** Every call gets past at least one rune in two steps. *)
Definition fuel (s : list N) : nat := S (2 * length s).
Definition readDocument (text : string) : option json :=
  let s := decode text in
  match readValue (fuel s) s with
  | Some (v, r) => match skip r with [] => Some v | _ => None end
  | None => None
  end.

(** ** The writer *)
Definition hexRune (n : N) : N := N_of_ascii (hex_digit n).
Definition escape4 (r : N) : list N :=
  [92; 117; hexRune (r / 4096); hexRune ((r / 256) mod 16); hexRune ((r / 16) mod 16); hexRune (r mod 16)].
(** A rune of a string; the HTML characters and the two line separators of
    JavaScript are escaped too. *)
Definition escape (r : N) : list N :=
  if (r =? 34) || (r =? 92) then [92; r]
  else if r =? 10 then [92; 110]
  else if r =? 13 then [92; 114]
  else if r =? 9 then [92; 116]
  else if (r <? 32) || (r =? 60) || (r =? 62) || (r =? 38) || (r =? 0x2028) || (r =? 0x2029) then escape4 r
  else [r].
(** An invalid byte is written as the escape of the replacement rune, which
    reads the same. *)
Definition quote (s : string) : list N := 34 :: flat_map escape (decode s) ++ [34].

(** [strconv.FormatFloat] with the shortest digits, ['f'] or ['e'] as
    encoding/json chooses. *)
Fixpoint zeros (n : nat) : string := match n with O => EmptyString | S n => String "0" (zeros n) end.
Fixpoint dropZeros (k : nat) (m e : Z) : Z * Z :=
  match k with
  | O => (m, e)
  | S k => if negb (m =? 0)%Z && (m mod 10 =? 0)%Z then dropZeros k (m / 10)%Z (e + 1)%Z else (m, e)
  end.
Definition fmtNumber (m e : Z) : string :=
  if (e =? 0)%Z && (Z.abs m <? 10 ^ 21)%Z then fmt_d m
  else
    let sign := if (m <? 0)%Z then "-" else EmptyString in
    let '(m, e) := dropZeros (String.length (fmt_d (Z.abs m))) (Z.abs m) e in
    let ds := fmt_d m in
    let len := Z.of_nat (String.length ds) in
    let n := (len + e)%Z in
    sign +:+
    (if (m =? 0)%Z then "0"
     else if (-6 <? n)%Z && (n <=? 21)%Z then
       if (n <=? 0)%Z then "0." +:+ zeros (Z.to_nat (- n)) +:+ ds
       else if (len <=? n)%Z then ds +:+ zeros (Z.to_nat (n - len))
       else String.substring 0 (Z.to_nat n) ds +:+ "." +:+
            String.substring (Z.to_nat n) (Z.to_nat (len - n)) ds
     else String.substring 0 1 ds
          +:+ (if (len =? 1)%Z then EmptyString else "." +:+ String.substring 1 (Z.to_nat (len - 1)) ds)
          +:+ "e" +:+ (if (n - 1 <? 0)%Z then "-" else "+") +:+ fmt_d (Z.abs (n - 1))).

Definition keyLe (a b : string * json) : Prop := String.leb a.1 b.1 = true.
#[export] Instance keyLe_dec : RelDecision keyLe := λ a b, decide (String.leb a.1 b.1 = true).
Definition sortKeys (l : list (string * json)) : list (string * json) := merge_sort keyLe l.

(** Pieces with commas between them. *)
Fixpoint commas (l : list (list N)) : list N :=
  match l with
  | [] => []
  | [x] => x
  | x :: rest => x ++ 44 :: commas rest
  end.

(** The document with its maps in the order they are written. *)
Fixpoint sorted (v : json) : json :=
  match v with
  | JArr l => JArr (map sorted l)
  | JObj l => JObj (sortKeys (map (λ kv, (kv.1, sorted kv.2)) l))
  | v => v
  end.
Fixpoint write (v : json) : list N :=
  match v with
  | JNull => decode "null"
  | JBool b => decode (if b then "true" else "false")
  | JNum m e => decode (fmtNumber m e)
  | JStr s => quote s
  | JArr l => 91 :: commas (map write l) ++ [93]
  | JObj l => 123 :: commas (map (λ kv, quote kv.1 ++ 58 :: write kv.2) l) ++ [125]
  end.
Definition writeDocument (v : json) : string := encode (write (sorted v)).

(** [json.Unmarshal] checks the whole text before it stores anything. *)
#[export] Instance GoJson : Json json :=
  {| Marshal := writeDocument;
     Unmarshal text old :=
       match readDocument text with
       | Some v => (v, None)
       | None => (old, Errorf "invalid character or unexpected end of JSON input")
       end |}.

(** ** Runes and their encoding *)
Local Ltac divlia := zify; Z.to_euclidean_division_equations; lia.

Lemma byte_value n : n < 256 → N_of_ascii (byte n) = n.
Proof. intros. by apply N_ascii_embedding. Qed.

Lemma between_byte lo hi n : n < 256 → between lo hi (byte n) = ((lo <=? n) && (n <=? hi)).
Proof. intros Hn. unfold between. by rewrite byte_value. Qed.

Lemma validRune_spec r : validRune r = true ↔ r < 0xD800 ∨ 0xE000 ≤ r < 0x110000.
Proof. unfold validRune, isSurrogate. destruct (N.ltb_spec r 0x110000), (N.leb_spec 0xD800 r), (N.ltb_spec r 0xE000); simpl; split; intros; try lia; done. Qed.

(** Decides the comparisons of a goal by the bounds in the context. *)
Local Ltac decide_bounds :=
  repeat match goal with
  | |- context [?a <? ?b] =>
      first [rewrite (proj2 (N.ltb_lt a b)) by divlia | rewrite (proj2 (N.ltb_ge a b)) by divlia]
  | |- context [?a <=? ?b] =>
      first [rewrite (proj2 (N.leb_le a b)) by divlia | rewrite (proj2 (N.leb_gt a b)) by divlia]
  end; cbn [andb negb orb].

Lemma decode_encodeRune r s : validRune r = true → decode (encodeRune r s) = r :: decode s.
Proof.
  intros Hv. unfold encodeRune. rewrite Hv. apply validRune_spec in Hv as [Hv|Hv];
    (destruct (N.ltb_spec r 0x80); [|destruct (N.ltb_spec r 0x800); [|destruct (N.ltb_spec r 0x10000)]]);
    try (exfalso; lia);
    cbn [decode]; unfold cont, low, isSurrogate;
    rewrite ?between_byte, ?byte_value by divlia; decide_bounds; try (f_equal; divlia).
Qed.

Lemma decode_encode rs : Forall (λ r, validRune r = true) rs → decode (encode rs) = rs.
Proof.
  induction 1 as [|r rs Hr _ IH]; [done|].
  change (decode (encodeRune r (encode rs)) = r :: rs). by rewrite decode_encodeRune, IH.
Qed.

Lemma between_spec lo hi c : between lo hi c = true ↔ lo ≤ N_of_ascii c ≤ hi.
Proof. unfold between. rewrite andb_true_iff, N.leb_le, N.leb_le. done. Qed.

Lemma decode_valid s : Forall (λ r, validRune r = true) (decode s).
Proof.
  remember (String.length s) as n eqn:Hn. revert s Hn.
  induction (lt_wf n) as [n _ IH]. intros s ->.
  assert (∀ x r t, x = r :: decode t → validRune r = true → (String.length t < String.length s)%nat →
                   Forall (λ r, validRune r = true) x) as step.
  { intros x r t -> Hr Ht. constructor; [done|]. by eapply IH. }
  destruct s as [|a s1]; [constructor|]. cbn [decode].
  destruct (N.ltb_spec (N_of_ascii a) 0x80).
  { eapply step; [done| |cbn; lia]. apply validRune_spec. lia. }
  destruct s1 as [|b s2]; [by repeat constructor|].
  destruct (between 0xC2 0xDF a && cont b) eqn:E2.
  { eapply step; [done| |cbn; lia]. apply andb_true_iff in E2 as [Ha Hb].
    apply between_spec in Ha, Hb. apply validRune_spec. unfold low. lia. }
  destruct s2 as [|c s3]; [eapply (step _ RuneError); [done|done|cbn; lia]|].
  match goal with |- context [if ?g then _ else _] => destruct g eqn:E3 end.
  { eapply step; [done| |cbn; lia].
    apply andb_true_iff in E3 as [E3 Hs]. apply andb_true_iff in E3 as [E3 _].
    apply andb_true_iff in E3 as [E3 Hc]. apply andb_true_iff in E3 as [Ha Hb].
    apply between_spec in Ha, Hb, Hc. unfold validRune. rewrite Hs. apply andb_true_iff. split; [|done].
    apply N.ltb_lt. unfold low. lia. }
  destruct s3 as [|d s4]; [eapply (step _ RuneError); [done|done|cbn; lia]|].
  match goal with |- context [if ?g then _ else _] => destruct g eqn:E4 end;
    [|eapply (step _ RuneError); [done|done|cbn; lia]].
  eapply step; [done| |cbn; lia].
  apply andb_true_iff in E4 as [E4 Hhi]. apply andb_true_iff in E4 as [_ Hlo].
  apply N.ltb_lt in Hhi. apply N.leb_le in Hlo. apply validRune_spec. lia.
Qed.

(** ** Strings *)
Lemma below16 (P : N → Prop) :
  Forall P [0; 1; 2; 3; 4; 5; 6; 7; 8; 9; 10; 11; 12; 13; 14; 15] → ∀ n, n < 16 → P n.
Proof.
  rewrite Forall_forall. intros HP n Hn. apply HP. rewrite !elem_of_cons.
  assert (n = 0 ∨ n = 1 ∨ n = 2 ∨ n = 3 ∨ n = 4 ∨ n = 5 ∨ n = 6 ∨ n = 7 ∨ n = 8 ∨ n = 9 ∨ n = 10 ∨ n = 11
          ∨ n = 12 ∨ n = 13 ∨ n = 14 ∨ n = 15) by lia. tauto.
Qed.

Lemma hexValue_hexRune n : n < 16 → hexValue (hexRune n) = Some n.
Proof. revert n. apply below16. by repeat constructor. Qed.

Lemma getu4_escape4 r : r < 65536 →
  getu4 (hexRune (r / 4096)) (hexRune ((r / 256) mod 16)) (hexRune ((r / 16) mod 16)) (hexRune (r mod 16)) = Some r.
Proof.
  intros Hr. unfold getu4. rewrite !hexValue_hexRune by divlia. f_equal. divlia.
Qed.

(** Reading undoes the escapes of one rune. *)
Lemma readString_escape r s : validRune r = true → readString (escape r ++ s) = push r (readString s).
Proof.
  intros Hv%validRune_spec. unfold escape.
  destruct (N.eqb_spec r 34) as [->|H1]; [done|]. destruct (N.eqb_spec r 92) as [->|H2]; [done|].
  destruct (N.eqb_spec r 10) as [->|H3]; [done|]. destruct (N.eqb_spec r 13) as [->|H4]; [done|].
  destruct (N.eqb_spec r 9) as [->|H5]; [done|]. cbn [orb].
  match goal with |- context [if ?g then _ else _] => destruct g eqn:E end.
  - assert (r < 32 ∨ r = 60 ∨ r = 62 ∨ r = 38 ∨ r = 0x2028 ∨ r = 0x2029) as Hr.
    { rewrite !orb_true_iff, N.ltb_lt, !N.eqb_eq in E. tauto. }
    unfold escape4. cbn [app readString]. cbn [N.eqb N.ltb N.compare Pos.eqb Pos.compare Pos.compare_cont].
    rewrite getu4_escape4 by lia. replace (isSurrogate r) with false; [done|].
    symmetry. unfold isSurrogate. apply andb_false_iff. left. apply N.leb_gt. lia.
  - assert (32 ≤ r) as Hr. { rewrite !orb_false_iff, N.ltb_ge in E. tauto. }
    cbn [app readString]. by rewrite (proj2 (N.eqb_neq _ _) H1), (proj2 (N.eqb_neq _ _) H2), (proj2 (N.ltb_ge _ _) Hr).
Qed.

Lemma readString_quote s r : readString (flat_map escape (decode s) ++ 34 :: r) = Some (decode s, r).
Proof.
  induction (decode_valid s) as [|x rs Hx _ IH]; [done|]. cbn [flat_map].
  by rewrite <- app_assoc, readString_escape, IH.
Qed.

Lemma hexRune_valid n : n < 16 → validRune (hexRune n) = true.
Proof. revert n. apply below16. by repeat constructor. Qed.

Lemma escape_valid r : validRune r = true → Forall (λ r, validRune r = true) (escape r).
Proof.
  intros Hr. unfold escape.
  destruct (_ || _); [by repeat constructor|]. destruct (_ =? 10); [by repeat constructor|].
  destruct (_ =? 13); [by repeat constructor|]. destruct (_ =? 9); [by repeat constructor|].
  destruct (_ || _) eqn:E; [|by repeat constructor].
  assert (r < 65536) as Hb. { rewrite !orb_true_iff, N.ltb_lt, !N.eqb_eq in E. lia. }
  repeat constructor; apply hexRune_valid; divlia.
Qed.

(** ** The fuel is enough *)
Lemma skip_length s : (length (skip s) ≤ length s)%nat.
Proof. induction s as [|c s IH]; cbn; [lia|]. destruct (isSpace c); cbn; lia. Qed.

Lemma skip_cons_length s c r : skip s = c :: r → (length r < length s)%nat.
Proof. intros E. pose proof (skip_length s) as Hs. rewrite E in Hs. cbn in Hs. lia. Qed.

Lemma push_Some {A} x (o : option (list N * A)) t r : push x o = Some (t, r) → ∃ t', o = Some (t', r) ∧ t = x :: t'.
Proof. destruct o as [[t' r']|]; [|done]. cbn. intros [= <- <-]. eauto. Qed.

Lemma readString_length s t r : readString s = Some (t, r) → (length r < length s)%nat.
Proof.
  remember (length s) as n eqn:Hn. revert s t Hn. induction (lt_wf n) as [n _ IH]. intros s t -> E.
  destruct s as [|c s]; [done|]. cbn [readString] in E. cbn [length].
  destruct (c =? 34); [by injection E as <- <-; lia|]. destruct (c <? 32); [done|].
  assert (∀ x u t, push x (readString u) = Some (t, r) → (length u ≤ length s)%nat → (length r < S (length s))%nat) as step.
  { intros x u t' (t'' & Hu & _)%push_Some Hl. assert (length r < length u)%nat; [|lia].
    eapply (IH (length u)); [cbn [length]; lia|done|done]. }
  destruct (c =? 92); [|by eapply step].
  destruct s as [|e s]; [done|]. destruct (e =? 117).
  2:{ destruct (unescape e); [|done]. eapply step; [done|cbn; lia]. }
  destruct s as [|h1 [|h2 [|h3 [|h4 s]]]]; try done. destruct (getu4 h1 h2 h3 h4) as [u|]; [|done].
  assert (∀ x t, push x (readString s) = Some (t, r) → (length r < S (length (e :: h1 :: h2 :: h3 :: h4 :: s)))%nat) as here.
  { intros x t' Ht. eapply step; [done|cbn; lia]. }
  destruct (isSurrogate u); [|by eapply here].
  destruct s as [|b [|v [|l1 [|l2 [|l3 [|l4 s]]]]]]; try (by eapply here).
  destruct (if (b =? 92) && (v =? 117) then _ else _) as [l|]; [|by eapply here].
  destruct (surrogatePair u l); [|by eapply here]. eapply step; [done|cbn; lia].
Qed.

Lemma digits_length s d r : digits s = (d, r) → length s = (length d + length r)%nat.
Proof.
  revert d. induction s as [|c s IH]; intros d; cbn; [by intros [= <- <-]|].
  destruct (isDigit c); [|by intros [= <- <-]]. destruct (digits s) as [d' r'].
  intros [= <- <-]. cbn. by erewrite IH.
Qed.

Lemma readFraction_length s d r : readFraction s = Some (d, r) → (length r ≤ length s)%nat.
Proof.
  destruct s as [|c s]; cbn; [by intros [= <- <-]|]. destruct (c =? 46); [|by intros [= <- <-]].
  destruct (digits s) as [[|x d'] r'] eqn:E; [done|]. intros [= <- <-]. apply digits_length in E. lia.
Qed.

Lemma readExponent_length s e r : readExponent s = Some (e, r) → (length r ≤ length s)%nat.
Proof.
  destruct s as [|c s]; cbn; [by intros [= <- <-]|]. destruct (_ || _); [|by intros [= <- <-]].
  set (p := match s with [] => _ | _ :: _ => _ end).
  assert (length p.2 ≤ length s)%nat as Hp.
  { unfold p. destruct s as [|c' s]; [done|]. destruct (c' =? 45); [cbn; lia|]. destruct (c' =? 43); cbn; lia. }
  destruct p as [neg s'] eqn:Ep. destruct (digits s') as [[|x d] r'] eqn:E; [done|].
  intros [= <- <-]. apply digits_length in E. cbn in Hp. lia.
Qed.

Lemma readNumber_length s v r : readNumber s = Some (v, r) → (length r < length s)%nat.
Proof.
  unfold readNumber. set (p := match s with [] => _ | _ :: _ => _ end).
  assert (length p.2 ≤ length s)%nat as Hp by (unfold p; destruct s as [|c s]; [done|]; destruct (c =? 45); cbn; lia).
  destruct p as [neg s'] eqn:Ep. cbn in Hp. destruct (digits s') as [[|x d] s1] eqn:E1; [done|].
  destruct (_ && _); [done|]. destruct (readFraction s1) as [[fs s2]|] eqn:E2; [|done].
  destruct (readExponent s2) as [[e s3]|] eqn:E3; [|done]. intros [= <- <-].
  apply digits_length in E1. apply readFraction_length in E2. apply readExponent_length in E3. cbn in E1. lia.
Qed.

Lemma word_length w s r : word w s = Some r → length s = (length w + length r)%nat.
Proof.
  revert s. induction w as [|c w IH]; intros s; cbn; [by intros [= <-]|]. destruct s as [|d s]; [done|].
  destruct (c =? d); [|done]. intros E%IH. cbn. lia.
Qed.

Lemma readWord_length s v r : readWord s = Some (v, r) → (length r < length s)%nat.
Proof.
  unfold readWord. destruct (word (decode "null") s) as [r'|] eqn:E1.
  { intros [= <- <-]. apply word_length in E1. change (length (decode "null")) with 4%nat in E1. lia. }
  destruct (word (decode "true") s) as [r'|] eqn:E2.
  { intros [= <- <-]. apply word_length in E2. change (length (decode "true")) with 4%nat in E2. lia. }
  destruct (word (decode "false") s) as [r'|] eqn:E3; [|done].
  intros [= <- <-]. apply word_length in E3. change (length (decode "false")) with 5%nat in E3. lia.
Qed.

(** What is read is taken off the text. *)
Lemma read_length n :
  (∀ s v r, readValue n s = Some (v, r) → (length r < length s)%nat) ∧
  (∀ s a v r, readElems n s a = Some (v, r) → (length r < length s)%nat) ∧
  (∀ s a v r, readEntries n s a = Some (v, r) → (length r < length s)%nat).
Proof.
  induction n as [|n (IHv & IHe & IHm)]; [done|]. split_and!; cbn [readValue readElems readEntries].
  - intros s v r. destruct (skip s) as [|c s1] eqn:Es; [done|]. pose proof (skip_length s) as Hs.
    rewrite Es in Hs. cbn in Hs.
    destruct (c =? 123).
    { destruct (skip s1) as [|d s2] eqn:E1; [done|]. apply skip_cons_length in E1.
      destruct (d =? 125); [intros [= <- <-]; lia|]. intros E%IHm. lia. }
    destruct (c =? 91).
    { destruct (skip s1) as [|d s2] eqn:E1; [done|]. apply skip_cons_length in E1.
      destruct (d =? 93); [intros [= <- <-]; lia|]. intros E%IHe. lia. }
    destruct (c =? 34).
    { destruct (readString s1) as [[t s2]|] eqn:E1; [|done]. apply readString_length in E1. intros [= <- <-]. lia. }
    destruct (_ || _); [intros E%readNumber_length|intros E%readWord_length]; cbn in E; lia.
  - intros s a v r. destruct (readValue n s) as [[v1 s1]|] eqn:E1; [|done]. apply IHv in E1.
    destruct (skip s1) as [|c s2] eqn:E2; [done|]. apply skip_cons_length in E2.
    destruct (c =? 44); [intros E%IHe; lia|]. destruct (c =? 93); [|done]. intros [= <- <-]. lia.
  - intros s a v r. destruct (skip s) as [|q s1] eqn:Es; [done|]. apply skip_cons_length in Es.
    destruct (negb _); [done|]. destruct (readString s1) as [[k s2]|] eqn:E1; [|done]. apply readString_length in E1.
    destruct (skip s2) as [|c s3] eqn:E2; [done|]. apply skip_cons_length in E2. destruct (negb _); [done|].
    destruct (readValue n s3) as [[v1 s4]|] eqn:E3; [|done]. apply IHv in E3.
    destruct (skip s4) as [|c' s5] eqn:E4; [done|]. apply skip_cons_length in E4.
    destruct (c' =? 44); [intros E%IHm; lia|]. destruct (c' =? 125); [|done]. intros [= <- <-]. lia.
Qed.

Lemma read_fuel n :
  (∀ s m, (2 * length s < n)%nat → (n ≤ m)%nat → readValue m s = readValue n s) ∧
  (∀ s a m, (S (2 * length s) < n)%nat → (n ≤ m)%nat → readElems m s a = readElems n s a) ∧
  (∀ s a m, (S (2 * length s) < n)%nat → (n ≤ m)%nat → readEntries m s a = readEntries n s a).
Proof.
  induction n as [|n (IHv & IHe & IHm)]; [by split_and!; intros; lia|].
  split_and!; [intros s [|m] Hn Hm|intros s a [|m] Hn Hm..]; try lia; cbn [readValue readElems readEntries].
  - destruct (skip s) as [|c s1] eqn:Es; [done|]. apply skip_cons_length in Es.
    rewrite IHm, IHe by lia. done.
  - rewrite IHv by lia. destruct (readValue n s) as [[v1 s1]|] eqn:E1; [|done].
    apply (proj1 (read_length n)) in E1. destruct (skip s1) as [|c s2] eqn:E2; [done|].
    apply skip_cons_length in E2. rewrite IHe by lia. done.
  - destruct (skip s) as [|q s1] eqn:Es; [done|]. apply skip_cons_length in Es.
    destruct (negb _); [done|]. destruct (readString s1) as [[k s2]|] eqn:E1; [|done]. apply readString_length in E1.
    destruct (skip s2) as [|c s3] eqn:E2; [done|]. apply skip_cons_length in E2. destruct (negb _); [done|].
    rewrite IHv by lia. destruct (readValue n s3) as [[v1 s4]|] eqn:E3; [|done].
    apply (proj1 (read_length n)) in E3. destruct (skip s4) as [|c' s5] eqn:E4; [done|].
    apply skip_cons_length in E4. rewrite IHm by lia. done.
Qed.

(** The reader's answer does not depend on the fuel it is given. *)
Theorem readValue_fuel s n : (fuel s ≤ n)%nat → readValue n s = readValue (fuel s) s.
Proof. intros. apply read_fuel; unfold fuel in *; lia. Qed.

(** ** Reading what was written *)

(** The documents Go writes as they are: valid strings, keys that occur once,
    and integers a float64 holds. *)
Fixpoint plain (v : json) : bool :=
  match v with
  | JNull | JBool _ => true
  | JNum m e => (e =? 0)%Z && (Z.abs m <=? 2 ^ 53)%Z
  | JStr s => ValidString s
  | JArr l => forallb plain l
  | JObj l => bool_decide (NoDup l.*1) && forallb (λ kv, ValidString kv.1 && plain kv.2) l
  end.

Section json_induction.
Context (P : json → Prop).
Context (Hnull : P JNull) (Hbool : ∀ b, P (JBool b)) (Hnum : ∀ m e, P (JNum m e)) (Hstr : ∀ s, P (JStr s)).
Context (Harr : ∀ l, Forall P l → P (JArr l)) (Hobj : ∀ l, Forall (λ kv, P kv.2) l → P (JObj l)).
Fixpoint json_full_ind (v : json) : P v :=
  match v with
  | JNull => Hnull
  | JBool b => Hbool b
  | JNum m e => Hnum m e
  | JStr s => Hstr s
  | JArr l => Harr l ((fix go (l : list json) : Forall P l :=
                         match l with
                         | [] => List.Forall_nil _
                         | x :: rest => List.Forall_cons _ x rest (json_full_ind x) (go rest)
                         end) l)
  | JObj l => Hobj l ((fix go (l : list (string * json)) : Forall (λ kv, P kv.2) l :=
                         match l with
                         | [] => List.Forall_nil _
                         | kv :: rest => List.Forall_cons _ kv rest (json_full_ind kv.2) (go rest)
                         end) l)
  end.
End json_induction.

(** What may follow a number. *)
Definition stops (r : list N) : bool :=
  match r with [] => true | c :: _ => negb (isDigit c || (c =? 46) || (c =? 101) || (c =? 69)) end.


Lemma digit_char x : x < 10 → N_of_ascii (pretty_N_char x) = 48 + x.
Proof.
  intros Hx. assert (x = 0 ∨ x = 1 ∨ x = 2 ∨ x = 3 ∨ x = 4 ∨ x = 5 ∨ x = 6 ∨ x = 7 ∨ x = 8 ∨ x = 9) as Hc by lia.
  by repeat destruct Hc as [->|Hc]; [..|subst].
Qed.

Lemma decode_digit x s : x < 10 → decode (String (pretty_N_char x) s) = (48 + x) :: decode s.
Proof. intros Hx. cbn [decode]. rewrite digit_char by done. by rewrite (proj2 (N.ltb_lt _ _)) by lia. Qed.

Lemma digitsValue_snoc ds d : digitsValue (ds ++ [d]) = (digitsValue ds * 10 + Z.of_N (d - 48))%Z.
Proof. unfold digitsValue. by rewrite foldl_app. Qed.

Lemma isDigit_plus x : x < 10 → isDigit (48 + x) = true.
Proof. intros. unfold isDigit. by rewrite !(proj2 (N.leb_le _ _)) by lia. Qed.

Lemma decode_pretty x s : 0 < x →
  ∃ d ds, decode (pretty_N_go x s) = d :: ds ++ decode s ∧ Forall (λ c, isDigit c = true) (d :: ds) ∧
          d ≠ 48 ∧ digitsValue (d :: ds) = Z.of_N x.
Proof.
  revert s. induction (N.lt_wf_0 x) as [x _ IH]; intros s Hx. rewrite pretty_N_go_step by done.
  assert (x mod 10 < 10) as Hm by (by apply N.mod_lt).
  destruct (decide (x < 10)) as [Hlt|Hge].
  - rewrite N.div_small, pretty_N_go_0, decode_digit, N.mod_small by done.
    exists (48 + x), []. split_and!; [done|constructor; [by apply isDigit_plus|done]|lia|].
    unfold digitsValue. cbn [foldl]. lia.
  - assert (0 < x / 10) as Hd by (apply N.div_str_pos; lia).
    destruct (IH (x / 10) (N.div_lt x 10 Hx eq_refl) (String (pretty_N_char (x mod 10)) s) Hd)
      as (d & ds & E & HF & Hd0 & Hv).
    exists d, (ds ++ [48 + x mod 10]). rewrite E, decode_digit by done. split_and!.
    + by rewrite <- app_assoc.
    + rewrite app_comm_cons. apply Forall_app_2; [done|]. constructor; [by apply isDigit_plus|done].
    + done.
    + rewrite app_comm_cons, digitsValue_snoc, Hv. divlia.
Qed.

Lemma digits_all ds r : Forall (λ c, isDigit c = true) ds → stops r = true → digits (ds ++ r) = (ds, r).
Proof.
  intros HF Hr. induction HF as [|d ds Hd _ IH]; cbn [app digits].
  - destruct r as [|c r]; [done|]. cbn in Hr. cbn [digits]. by destruct (isDigit c).
  - by rewrite Hd, IH.
Qed.

Lemma readNumber_digits (neg : bool) d ds r :
  Forall (λ c, isDigit c = true) (d :: ds) → (d = 48 → ds = []) → stops r = true →
  readNumber ((if neg then [45] else []) ++ d :: ds ++ r) =
    Some (JNum (if neg then - digitsValue (d :: ds) else digitsValue (d :: ds)) 0, r)%Z.
Proof.
  intros HF Hd Hr. assert ((d =? 45) = false) as Hm.
  { apply N.eqb_neq. intros ->. by inversion HF. }
  assert (digits (d :: ds ++ r) = (d :: ds, r)) as Hds by (by apply (digits_all (d :: ds))).
  assert (readFraction r = Some ([], r) ∧ readExponent r = Some (0%Z, r)) as [Hf He].
  { destruct r as [|c r]; [done|]. cbn in Hr. cbn [readFraction readExponent].
    destruct (isDigit c), (c =? 46), (c =? 101), (c =? 69); done. }
  assert ((d =? 48) && negb (bool_decide (ds = [])) = false) as Hz.
  { destruct (N.eqb_spec d 48) as [->|]; [|done]. by rewrite Hd by done. }
  unfold readNumber. destruct neg; cbn [app]; [change (45 =? 45) with true|rewrite Hm];
    cbv beta iota; rewrite Hds; cbv beta iota; rewrite Hz, Hf, He; cbn [length]; rewrite app_nil_r; unfold number; cbn;
    by rewrite Z.mul_1_r.
Qed.

Lemma decode_fmt_d m :
  ∃ d ds, decode (fmt_d m) = (if (m <? 0)%Z then [45] else []) ++ d :: ds ∧
          Forall (λ c, isDigit c = true) (d :: ds) ∧ (d = 48 → ds = []) ∧ digitsValue (d :: ds) = Z.abs m.
Proof.
  unfold fmt_d, pretty, pretty_Z, pretty, pretty_positive, pretty, pretty_N. destruct m as [|p|p].
  - exists 48, []. split_and!; try done. by repeat constructor.
  - rewrite decide_False by done. destruct (decode_pretty (Npos p) EmptyString eq_refl) as (d & ds & -> & HF & Hd & Hv).
    exists d, ds. by rewrite app_nil_r.
  - rewrite decide_False by done. destruct (decode_pretty (Npos p) EmptyString eq_refl) as (d & ds & E & HF & Hd & Hv).
    exists d, ds. split_and!; try done.
    change (45 :: decode (pretty_N_go (N.pos p) EmptyString) = 45 :: d :: ds). by rewrite E, app_nil_r.
Qed.

Lemma skip_solid c r : isSpace c = false → skip (c :: r) = c :: r.
Proof. intros E. cbn. by rewrite E. Qed.

(** The first rune of a written value. *)
Lemma digit_head c : isDigit c = true → isSpace c = false ∧ c ≠ 93 ∧ c ≠ 125 ∧ c ≠ 123 ∧ c ≠ 91 ∧ c ≠ 34.
Proof.
  unfold isDigit, isSpace. rewrite andb_true_iff, !N.leb_le, !orb_false_iff, !N.eqb_neq. lia.
Qed.

Lemma fmtNumber_int m : (Z.abs m <= 2 ^ 53)%Z → fmtNumber m 0 = fmt_d m.
Proof.
  intros Hm. unfold fmtNumber. rewrite (proj2 (Z.ltb_lt (Z.abs m) (10 ^ 21))); [done|].
  eapply Z.le_lt_trans; [exact Hm|]. reflexivity.
Qed.

Lemma write_head v : plain v = true → ∃ c r, write v = c :: r ∧ isSpace c = false ∧ c ≠ 93.
Proof.
  destruct v as [|[]|m e|s|l|l]; cbn [plain]; intros Hp; try (eexists _, _; split; [done|done]).
  apply andb_true_iff in Hp as [He Hm]. apply Z.eqb_eq in He as ->. apply Z.leb_le in Hm.
  cbn [write]. rewrite fmtNumber_int by done. destruct (decode_fmt_d m) as (d & ds & -> & HF & _).
  inversion HF as [|? ? Hd]; subst. destruct (m <? 0)%Z; eexists _, _; (split; [done|]); [done|].
  pose proof (digit_head d Hd). tauto.
Qed.

(** [n] steps and more read [v] off the text. *)
Definition reads (v : json) : Prop :=
  ∀ r, stops r = true → ∃ k, ∀ n, (k ≤ n)%nat → readValue n (write v ++ r) = Some (v, r).

Lemma ValidString_encode s : ValidString s = true → encode (decode s) = s.
Proof. unfold ValidString. apply bool_decide_eq_true. Qed.

Lemma reads_scalar v : plain v = true → (∀ l, v ≠ JArr l) → (∀ l, v ≠ JObj l) → reads v.
Proof.
  intros Hp Ha Ho r Hr. exists 1%nat. intros [|n] Hn; [lia|]. cbn [readValue].
  destruct v as [|b|m e|s|l|l]; [done|by destruct b| | |by destruct (Ha l)|by destruct (Ho l)].
  - cbn [plain] in Hp. apply andb_true_iff in Hp as [He Hm]. apply Z.eqb_eq in He as ->. apply Z.leb_le in Hm.
    cbn [write]. rewrite fmtNumber_int by done. destruct (decode_fmt_d m) as (d & ds & -> & HF & Hz & Hv).
    pose proof (readNumber_digits (m <? 0)%Z d ds r HF Hz Hr) as E. rewrite Hv in E.
    replace (if (m <? 0)%Z then - Z.abs m else Z.abs m)%Z with m in E by (destruct (Z.ltb_spec m 0); lia).
    inversion HF as [|? ? Hd]; subst. destruct (m <? 0)%Z; cbn [app] in *.
    + rewrite skip_solid by done. exact E.
    + destruct (digit_head d Hd) as (Hs & _ & _ & H1 & H2 & H3). rewrite skip_solid by done.
      rewrite (proj2 (N.eqb_neq _ _) H1), (proj2 (N.eqb_neq _ _) H2), (proj2 (N.eqb_neq _ _) H3), Hd. exact E.
  - cbn [write plain] in *. unfold quote. rewrite <- app_comm_cons, skip_solid, <- app_assoc by done.
    cbn [app]. change (34 =? 123) with false. change (34 =? 91) with false. change (34 =? 34) with true.
    cbv iota. rewrite readString_quote. by rewrite ValidString_encode.
Qed.

(** The elements of an array, and the entries of an object. *)
Lemma commas_cons x l : commas (x :: l) = x ++ match l with [] => [] | _ => 44 :: commas l end.
Proof. destruct l; [by rewrite app_nil_r|done]. Qed.

Lemma reads_elems v l : Forall reads (v :: l) → ∀ r acc, ∃ k, ∀ n, (k ≤ n)%nat →
  readElems n (commas (map write (v :: l)) ++ 93 :: r) acc = Some (JArr (acc ++ v :: l), r).
Proof.
  revert v. induction l as [|v' l IH]; intros v HF r acc; inversion HF as [|? ? Hv Hl]; subst; cbn [map];
    rewrite commas_cons.
  - destruct (Hv (93 :: r) eq_refl) as (k & Hk). exists (S k). intros [|n] Hn; [lia|]. cbn [readElems].
    rewrite app_nil_r, Hk by lia. done.
  - destruct (IH v' Hl r (acc ++ [v])) as (k1 & Hk1).
    rewrite <- app_assoc, <- app_comm_cons. cbn [map] in *.
    destruct (Hv (44 :: commas (write v' :: map write l) ++ 93 :: r) eq_refl) as (k2 & Hk2).
    exists (S (k1 + k2)). intros [|n] Hn; [lia|]. cbn [readElems]. rewrite Hk2 by lia.
    rewrite skip_solid by done. change (44 =? 44) with true. cbv iota.
    rewrite Hk1 by lia. by rewrite <- app_assoc.
Qed.

Lemma set_entry_fresh k v acc : k ∉ acc.*1 → set_entry k v acc = acc ++ [(k, v)].
Proof.
  induction acc as [|[k' v'] acc IH]; [done|]. rewrite fmap_cons, not_elem_of_cons. intros [Hk Ha]. cbn.
  rewrite decide_False by (cbn in Hk; congruence). by rewrite IH.
Qed.

Definition writeEntry (kv : string * json) : list N := quote kv.1 ++ 58 :: write kv.2.

Lemma reads_entry n kv acc r :
  ValidString kv.1 = true → readValue n (write kv.2 ++ r) = Some (kv.2, r) → kv.1 ∉ acc.*1 →
  readEntries (S n) (writeEntry kv ++ r) acc =
    match skip r with
    | c :: r => if c =? 44 then readEntries n r (acc ++ [kv])
                else if c =? 125 then Some (JObj (acc ++ [kv]), r) else None
    | [] => None
    end.
Proof.
  intros Hs Hv Hk. destruct kv as [k v]. unfold writeEntry, quote. cbn [fst snd] in *.
  rewrite <- app_assoc, <- app_comm_cons, <- app_assoc. cbn [readEntries]. rewrite skip_solid by done.
  change (34 =? 34) with true. cbn [negb app]. rewrite readString_quote. rewrite skip_solid by done.
  change (58 =? 58) with true. cbn [negb]. rewrite Hv, ValidString_encode, set_entry_fresh by done. done.
Qed.

Lemma reads_entries kv l : Forall (λ kv, ValidString kv.1 = true ∧ reads kv.2) (kv :: l) → ∀ r acc,
  NoDup (acc ++ kv :: l).*1 → ∃ k, ∀ n, (k ≤ n)%nat →
  readEntries n (commas (map writeEntry (kv :: l)) ++ 125 :: r) acc = Some (JObj (acc ++ kv :: l), r).
Proof.
  revert kv. induction l as [|kv' l IH]; intros kv HF r acc Hn; inversion HF as [|? ? [Hs Hv] Hl]; subst; cbn [map];
    rewrite commas_cons.
  all: assert (kv.1 ∉ acc.*1) as Hk
    by (rewrite fmap_app, NoDup_app in Hn; destruct Hn as (_ & Hd & _); intros Hin; apply (Hd _ Hin); by left).
  - destruct (Hv (125 :: r) eq_refl) as (k & Hr). exists (S k). intros [|n] Hle; [lia|].
    rewrite app_nil_r, reads_entry; [done|done|apply Hr; lia|done].
  - destruct (IH kv' Hl r (acc ++ [kv])) as (k1 & Hk1); [by rewrite <- app_assoc|].
    rewrite <- app_assoc, <- app_comm_cons. cbn [map] in *.
    destruct (Hv (44 :: commas (writeEntry kv' :: map writeEntry l) ++ 125 :: r) eq_refl) as (k2 & Hk2).
    exists (S (k1 + k2)). intros [|n] Hle; [lia|].
    rewrite reads_entry; [|done|apply Hk2; lia|done].
    rewrite skip_solid by done. change (44 =? 44) with true. cbv iota. rewrite Hk1 by lia. by rewrite <- app_assoc.
Qed.

Lemma plain_arr l : plain (JArr l) = true ↔ Forall (λ v, plain v = true) l.
Proof. cbn [plain]. rewrite forallb_forall, Forall_forall. by setoid_rewrite list_elem_of_In. Qed.
Lemma plain_obj l :
  plain (JObj l) = true ↔ NoDup l.*1 ∧ Forall (λ kv, ValidString kv.1 = true ∧ plain kv.2 = true) l.
Proof.
  cbn [plain]. rewrite andb_true_iff, bool_decide_eq_true, forallb_forall, Forall_forall.
  setoid_rewrite list_elem_of_In. by setoid_rewrite andb_true_iff.
Qed.

Lemma reads_plain v : plain v = true → reads v.
Proof.
  induction v as [|b|m e|s|l IH|l IH] using json_full_ind; intros Hp; try (by apply reads_scalar).
  - apply plain_arr in Hp. intros r Hr. destruct l as [|v l].
    { exists 1%nat. intros [|n] Hn; [lia|]. done. }
    destruct (reads_elems v l) with (r:=r) (acc:=@nil json) as (k & Hk).
    { rewrite Forall_forall in *. auto. }
    exists (S k). intros [|n] Hn; [lia|]. cbn [write readValue]. rewrite <- app_comm_cons, skip_solid by done.
    change (91 =? 123) with false. change (91 =? 91) with true. cbv iota. rewrite <- app_assoc. cbn [app].
    rewrite (Hk n) by lia. cbn [map]. rewrite commas_cons.
    destruct (write_head v) as (c & w & -> & Hs & Hc); [by inversion Hp|]. cbn [app]. rewrite skip_solid by done.
    by rewrite (proj2 (N.eqb_neq _ _) Hc).
  - apply plain_obj in Hp as [Hn Hp]. intros r Hr. destruct l as [|kv l].
    { exists 1%nat. intros [|n] Hle; [lia|]. done. }
    destruct (reads_entries kv l) with (r:=r) (acc:=@nil (string * json)) as (k & Hk).
    { rewrite Forall_forall in *. intros x Hx. destruct (Hp x Hx) as [? ?]. split; auto. }
    { done. }
    exists (S k). intros [|n] Hle; [lia|]. cbn [write readValue]. rewrite <- app_comm_cons, skip_solid by done.
    change (123 =? 123) with true. cbv iota. rewrite <- app_assoc. cbn [app].
    change (map _ (kv :: l)) with (map writeEntry (kv :: l)).
    rewrite (Hk n) by lia. cbn [map]. rewrite commas_cons. unfold writeEntry at 1, quote at 1. rewrite <- !app_comm_cons.
    by rewrite skip_solid.
Qed.

(** Sorting the maps keeps a document plain, and says what was there. *)
Lemma sortKeys_perm l : sortKeys l ≡ₚ l.
Proof. apply merge_sort_Permutation. Qed.

Lemma plain_sorted v : plain v = true → plain (sorted v) = true.
Proof.
  induction v as [|b|m e|s|l IH|l IH] using json_full_ind; intros Hp; try done; cbn [sorted].
  - apply plain_arr in Hp. apply plain_arr. rewrite Forall_forall in *. intros x.
    rewrite list_elem_of_fmap. intros (y & -> & Hy). auto.
  - apply plain_obj in Hp as [Hn Hp]. apply plain_obj. rewrite sortKeys_perm. split.
    + assert ((map (λ kv : string * json, (kv.1, sorted kv.2)) l).*1 = l.*1) as ->; [|done].
      rewrite <- list_fmap_compose. by apply list_fmap_ext.
    + rewrite Forall_forall in *. intros x. rewrite list_elem_of_fmap. intros (y & -> & Hy).
      destruct (Hp y Hy). cbn. auto.
Qed.

Lemma commas_valid (P : N → Prop) l : P 44 → Forall (Forall P) l → Forall P (commas l).
Proof.
  intros H44. induction 1 as [|x l Hx Hl IH]; [constructor|]. rewrite commas_cons. apply Forall_app_2; [done|].
  destruct l; [constructor|]. by constructor.
Qed.

Lemma quote_valid s : Forall (λ r, validRune r = true) (quote s).
Proof.
  constructor; [done|]. apply Forall_app_2; [|by repeat constructor].
  induction (decode_valid s) as [|r rs Hr _ IH]; [constructor|]. cbn. apply Forall_app_2; [|done]. by apply escape_valid.
Qed.

Lemma write_valid v : Forall (λ r, validRune r = true) (write v).
Proof.
  induction v as [|b|m e|s|l IH|l IH] using json_full_ind; cbn [write]; try apply decode_valid.
  - apply quote_valid.
  - constructor; [done|]. apply Forall_app_2; [|by repeat constructor]. apply commas_valid; [done|].
    by apply Forall_fmap.
  - constructor; [done|]. apply Forall_app_2; [|by repeat constructor]. apply commas_valid; [done|].
    apply Forall_fmap. eapply Forall_impl; [exact IH|]. intros kv Hkv.
    change (Forall (λ r, validRune r = true) (writeEntry kv)). unfold writeEntry.
    apply Forall_app_2; [apply quote_valid|]. by constructor.
Qed.

(** Reading what was written gives the document, its maps sorted. *)
Theorem read_write v : plain v = true → readDocument (writeDocument v) = Some (sorted v).
Proof.
  intros Hp. unfold readDocument, writeDocument. rewrite decode_encode by apply write_valid.
  destruct (reads_plain _ (plain_sorted _ Hp) [] eq_refl) as (k & Hk). rewrite app_nil_r in Hk.
  rewrite <- (readValue_fuel _ (k + fuel (write (sorted v)))) by lia. by rewrite Hk by lia.
Qed.

(** C30: what [ToJson] writes, [ToUnstructured] reads: a document with valid
    strings, keys that occur once and integers a float64 holds comes back with
    its maps sorted, and nothing else of it changed. *)
Theorem ToUnstructured_ToJson m :
  plain (JObj m) = true →
  ∃ m', sorted (JObj m) = JObj m' ∧ ToUnstructured (ToJson (Some m)).1 = inl (Some m') ∧
    m' ≡ₚ map (λ kv, (kv.1, sorted kv.2)) m.
Proof.
  intros Hp. eexists. split; [reflexivity|]. split; [|apply sortKeys_perm].
  unfold ToUnstructured, ToJson. cbn [Marshal Unmarshal GoJson fst]. by rewrite (read_write _ Hp).
Qed.

Definition sample : list (string * json) :=
  [("b", JArr [JNum (-7) 0; JStr ("a" +:+ String (ascii_of_nat 34) "<"); JNull]); ("a", JBool true)].
Lemma ToUnstructured_ToJson_witness :
  ToUnstructured (ToJson (Some sample)).1 = inl (Some (rev sample)).
Proof.
  destruct (ToUnstructured_ToJson sample) as (m' & Hm & H & _); [by vm_compute|].
  rewrite H. vm_compute in Hm. injection Hm as <-. reflexivity.
Defined.
