(* ===== verification/Stack.v ===== *)
(** * The Alibaba provider: making a cluster's stack (ros.go, pkg/utils/log/pgbar.go)

    A cluster is a resource stack, made from a JSON template into which the
    script of the first master is written at its path; the boot specification,
    with the defaults the script put into it, is what gets recorded.  Watching
    the stack folds its events into what is shown, and reads the addresses of
    the cluster from its outputs when it is done. *)
From stdpp Require Import base list gmap strings.
From Stdlib Require Import Lia Ascii.
From S2P Require Import Prelude GoStrings GoTime Api Sdk Effects Utils Provider UserData Hash Alibaba AliGroups AliEvents Unstructed.
Local Open Scope Z_scope.

(** ** pkg/utils/log/pgbar.go *)

(** [tm.Color(text, tm.MAGENTA)] of goterm. *)
Class Goterm : Type := Magenta : string → string.

(** [time.Time{}], and [t.Sub(u)], which saturates. *)
Definition zeroTime : Z := -62135596800 * Second.
Definition TimeSub (t u : Z) : Z := Z.max (- 2 ^ 63) (Z.min (2 ^ 63 - 1) (t - u)).

(** The bar, less what prints it: a goroutine that shows the events and the
    message every second. *)
Record Pgmbar : Type := MkPgmbar {
  pb_started : Z;
  pb_meesage : Resource;
  pb_events : list Resource }.

(** [b.AddEvent(newr)]: the first resource with its id, or at the end. *)
Fixpoint replaceEvent (newr : Resource) (events : list Resource) : list Resource :=
  match events with
  | [] => [newr]
  | r :: rest =>
      if decide (re_ResourceId r = re_ResourceId newr) then newr :: rest else r :: replaceEvent newr rest
  end.
Definition AddEvent (newr : Resource) (b : Pgmbar) : Pgmbar :=
  MkPgmbar (pb_started b) (pb_meesage b) (replaceEvent newr (pb_events b)).
Definition AddEvents (res : list Resource) (b : Pgmbar) : Pgmbar := foldl (λ b r, AddEvent r b) b res.

Section pgbar.
Context {W : Type} `{Env W} `{LocalZone} `{Goterm}.

(** A local time as the bar reads it: the zero time when it cannot. *)
Definition readLocal (s : string) : Z := default zeroTime (parse_at zone_offset "T" "" s).

Definition NewPgmbar (created : string) (resource : list Resource) : IO W Pgmbar :=
  now ← perform Now;
  let when := if decide (created = EmptyString) then now else readLocal created in
  mret (MkPgmbar when
          (MkResource "" "1s" "" "WDRIP::MESSAGE::OUTPUT" "extra_mesage_id" "extra message" "" "Initialized")
          resource).

(** [b.SetMessageWithTime(m, now)]; a Duration is divided like any integer. *)
Definition SetMessageWithTime (m now : string) (b : Pgmbar) : IO W Pgmbar :=
  t ← perform Now;
  let when := if decide (now = EmptyString) then t else readLocal now in
  let elapsed := "TimeElapse: " +:+ fmt_d (Z.quot (TimeSub when (pb_started b)) Second) +:+ "s" in
  let r := pb_meesage b in
  mret (MkPgmbar (pb_started b)
          (MkResource (re_StartedTime r) (Magenta elapsed) (re_EventId r) (re_ResourceType r)
             (re_ResourceId r) (re_ResourceName r) (re_StatusReason r) m)
          (pb_events b)).
End pgbar.

(** ** ros.go: the client *)

(** [ess.NewClientWithAccessKey] and the same of ecs: region, key and secret. *)
Class SdkClients : Type := {
  NewEssClient : string → string → string → error;
  NewEcsClient : string → string → string → error }.

Definition zeroAlibabaDev : AlibabaDev := MkAlibabaDev "" "" "" "" "".

Section initialize.
Context {W : Type} `{Env W} `{PkgErrors} `{Json AlibabaDev} `{SdkClients}.

(** [n.Initialize(ctx)]: the configuration, and the context with the region
    written into its specification. *)
Definition Devel_Initialize (ctx : Context_) : IO W (AlibabaDev * Context_ * error) :=
  match wo_Default (getWdripOptions ctx) with
  | None => panic "nil pointer dereference"
  | Some d =>
      prvd ← lift (CurrentPrvdCFG d);
      match prvd with
      | None => panic "nil pointer dereference"
      | Some p =>
          let '(cfg, err) := Unmarshal (pv_Value p) zeroAlibabaDev in
          match err with
          | Some e => mret (cfg, ctx, Wrapf (Some e) "decode provider message")
          | None =>
              let region := ad_Region cfg in
              let region := if bool_decide (region = EmptyString) && bool_decide (BootCFG ctx ≠ None)
                            then ad_Region cfg else region in
              if decide (region = EmptyString) then
                mret (cfg, ctx, Errorf "region must be specified by --region or in spec.BindInfra.Region")
              else
                let ctx := match BootCFG ctx with
                           | Some boot => write_BootCFG (cs_with_Bind (set_Bind_Region region (cs_Bind boot)) boot) ctx
                           | None => ctx
                           end in
                if bool_decide (ad_AccessKeyId cfg = EmptyString) || bool_decide (ad_AccessKeySecret cfg = EmptyString)
                then mret (cfg, ctx, Errorf "region| AccessKey | AccessKeySecret")
                else
                  match NewEssClient region (ad_AccessKeyId cfg) (ad_AccessKeySecret cfg) with
                  | Some e => mret (cfg, ctx, Wrapf (Some e) "create ess client")
                  | None =>
                      match NewEcsClient region (ad_AccessKeyId cfg) (ad_AccessKeySecret cfg) with
                      | Some e => mret (cfg, ctx, Wrapf (Some e) "create ecs client")
                      | None => mret (cfg, ctx, None)
                      end
                  end
          end
      end
  end.
End initialize.

(** ** ros.go: the template *)

(** [{"Fn::GetAtt": [resource, attribute]}] *)
Definition GetAtt (resource attribute : string) : json :=
  JObj [("Fn::GetAtt", JArr [JStr resource; JStr attribute])].
Definition getNotifierPart : list json := [GetAtt "k8s_master_waiter_handle" "CurlCli"; JStr newline].
Definition getLoadBalancerPart : list json :=
  [JStr "export INTRANET_LB="; GetAtt "k8s_master_slb" "IpAddress"; JStr newline;
   JStr "export INTERNET_LB=";
   JObj [("Fn::If", JArr [JStr "create_public_slb"; GetAtt "k8s_master_slb_internet" "IpAddress"; JStr EmptyString])];
   JStr newline].

(** What is written at the path of the user data. *)
Definition userDataJoin (data : string) : json :=
  JArr [JStr EmptyString; JArr ([JStr PrefixPart] ++ getLoadBalancerPart ++ [JStr data] ++ getNotifierPart)].

Definition userDataBase : string := "Resources.k8s_master_sconfig.Properties.UserData".

(** [Transform(para)], in the order the map is ranged over. *)
Definition Transform `{MapRange} (para : gmap string string) : list (string * string) := range_order 0 para.

Section create.
Context {W : Type} `{Env W} `{PkgErrors} `{GoFmt} `{Base64} `{Yaml ClusterSpec} `{Yaml ContextCFG} `{Json json}.
Context `{LocalZone} `{MapRange}.

(** [RenderUserData(ctx, n, tpl, withNotify)]: the context after it, and the
    rendered template. *)
Definition RenderUserData (ctx : Context_) (tpl : string) (withNotify : bool)
    : IO W (Context_ * (string * error)) :=
  match ToUnstructured tpl with
  | inr e => mret (ctx, (EmptyString, Errorf ("unstruct template: " +:+ Error e)))
  | inl uns =>
      '(ctx, (data, err)) ← UserData ctx MasterUserdata;
      match err with
      | Some e => mret (ctx, (EmptyString, Wrapf (Some e) "render master userdata"))
      | None =>
          '(err, uns) ← lift (if withNotify
                              then SetValue uns (userDataBase +:+ ".Fn::Join") (userDataJoin data)
                              else SetValue uns userDataBase (JStr (Join [PrefixPart; data] newline)));
          match (err : error) with
          | Some e => mret (ctx, (EmptyString, Errorf ("set userdata: " +:+ Error e)))
          | None => mret (ctx, ToJson uns)
          end
      end
  end.

(** [paras] *)
Definition stackParameters (boot : ClusterSpec) : gmap string string :=
  list_to_map
    [("MasterImageId", bi_Image (cs_Bind boot));
     ("SSHFlags", "true");
     ("ZoneId", bi_ZoneId (cs_Bind boot));
     ("KubernetesVersion", un_Version (ku_Unit (cs_Kubernetes boot)));
     ("DockerVersion", un_Version (cr_Unit (cs_Runtime boot)));
     ("EtcdVersion", un_Version (es_Unit (cs_Etcd boot)));
     ("MasterLoginPassword", "Just4Test");
     ("MasterInstanceType", bi_Instance (cs_Bind boot));
     ("ProxyMode", nw_Mode (cs_Network boot));
     ("PublicSLB", "true")].

(** [n.Create(ctx)], [Template] being the embedded template. *)
Definition Create (Template : string) (n : AlibabaDev) (ctx : Context_)
    : IO W (Context_ * (option ClusterId * error)) :=
  tpl ← (if decide (ad_TemplateFile n = EmptyString) then mret (inl Template)
         else
           '(data, err) ← perform (ReadFile (ad_TemplateFile n));
           match err with
           | Some e => mret (inr (Errorf ("read Ros template file: " +:+ Error e)))
           | None => mret (inl data)
           end);
  match tpl with
  | inr err => mret (ctx, (None, err))
  | inl tpl =>
      boot ← theBootCFG ctx;
      let paras := stackParameters boot in
      '(ctx, (rtpl, err)) ← RenderUserData ctx tpl true;
      match err with
      | Some e => mret (ctx, (None, Errorf ("render userdata: " +:+ Error e)))
      | None =>
          now ← theBootCFG ctx;
          '(stack, err) ← sdk_call (CreateStack (ad_Region n) (cs_ClusterID now) rtpl true 60 (Transform paras));
          match err with
          | Some e => mret (ctx, (None, Errorf ("create Ros stack: " +:+ Error e)))
          | None =>
              created ← perform Now;
              updated ← perform Now;
              let boot := match x_BootCFG ctx with Some _ => now | None => boot end in
              mret (ctx,
                    (Some (MkClusterId noType (metaNamed (cs_ClusterID now))
                             (MkClusterIdSpec stack [] (showLocal created) (showLocal updated)
                                (Some (getWdripOptions ctx)) boot)), None))
          end
      end
  end.
End create.

(** ** ros.go: outputs *)

(** [toMap(out)]: a later output of the same key wins. *)
Definition toMap (out : list (string * any)) : gmap string any :=
  foldl (λ m o, <[o.1 := o.2]> m) ∅ out.

(** [fmt.Sprintf("%s", v)] *)
Definition fmt_any (v : any) : string :=
  match v with AStr s => s | ANil => "%!s(<nil>)" | AOther desc => desc end.

Definition findEndpoint (out : list (string * any)) (id : string) : string * error :=
  match toMap out !! id with
  | None => (EmptyString, Errorf "NotFound")
  | Some v => (fmt_any v, None)
  end.

(** [SetEndpoint(cfg, out)] *)
Definition badEndpoint (err : error) : bool :=
  match err with Some e => negb (Contains (Error e) "NotFound") | None => false end.
Definition SetEndpoint (cfg : ClusterSpec) (out : list (string * any)) : ClusterSpec * error :=
  let '(intra, err) := findEndpoint out "APIServerIntranet" in
  if badEndpoint err then (cfg, Errorf ("find apiserver intranet: " +:+ errText err))
  else
    let '(inter, err) := findEndpoint out "APIServerInternet" in
    if badEndpoint err then (cfg, Errorf ("find apiserver internet: " +:+ errText err))
    else (cs_with_Endpoint (MkEndpoint intra inter) cfg, None).

(** ** ros.go: waiting *)

(** [wait.Poll] with a closure that assigns to a variable. *)
Section waiting.
Context {W : Type} `{Env W} `{LocalZone} `{Goterm}.
Context `{WaitLib (W * option RosStack)} `{WaitLib (W * (Pgmbar * ClusterId))}.
Existing Instance var_env.

Definition stackCreated (n : AlibabaDev) (id : ClusterId) : IO (W * option RosStack) (bool * error) :=
  '(out, err) ← perform (Sdk (GetStack (ad_Region n) (cis_ResourceId (cid_Spec id))));
  _ ← set_var (Some out);
  match err with
  | Some _ => mret (false, None)
  | None =>
      let status := rst_Status out in
      if bool_decide (status ∈ ["CREATE_IN_PROGRESS"; "CREATE_ROLLBACK_IN_PROGRESS"]) then mret (false, None)
      else if bool_decide (status ∈ ["CREATE_FAILED"; "CREATE_ROLLBACK_FAILED"]) then
        mret (true, Errorf ("stack create failed: " +:+ status +:+ ", " +:+ rst_StatusReason out))
      else if bool_decide (status ∈ ["CREATE_ROLLBACK_COMPLETE"; "CREATE_COMPLETE"]) then mret (true, None)
      else mret (false, None)
  end.
Definition WaitStack (n : AlibabaDev) (id : ClusterId) : IO W (option RosStack * error) :=
  '(err, out) ← with_var None (Poll (10 * Second) (10 * Minute) (stackCreated n id));
  mret (out, err).

(** [findStackEvent(events, name)] *)
Definition findStackEvent (events : list Resource) (name : string) : IO (W * (Pgmbar * ClusterId)) string :=
  let found := List.find (λ ev, bool_decide (re_ResourceId ev = name)) events in
  match found with
  | Some ev =>
      if decide (re_UpdatedTime ev ≠ re_StartedTime ev) then mret (re_UpdatedTime ev)
      else t ← perform Now; mret (showLocal t)
  | None => t ← perform Now; mret (showLocal t)
  end.

(** [n.PrintStack(id)]: what it leaves in the identity. *)
Definition PrintStack (id : ClusterId) : IO (W * (Pgmbar * ClusterId)) ClusterId :=
  '(resp, err) ← perform (Sdk (GetStack EmptyString (cis_ResourceId (cid_Spec id))));
  match err with
  | Some _ => mret id
  | None => mret (cid_with_Cluster (SetEndpoint (cis_Cluster (cid_Spec id)) (rst_Outputs resp)).1 id)
  end.

(** The pages of events, from [page] on; [fuel] bounds their number. *)
Fixpoint listEvents (fuel : nat) (region id : string) (page : Z) (events : list RosEvent)
    : IO (W * (Pgmbar * ClusterId)) (list RosEvent + goerr) :=
  match fuel with
  | O => hang
  | S fuel =>
      '(evs, next, err) ← perform (Sdk (ListStackEvents region id page));
      match err with
      | Some e => mret (inr e)
      | None =>
          let events := events ++ evs in
          match next with
          | None => mret (inl events)
          | Some page => listEvents fuel region id page events
          end
      end
  end.

Definition showMessage (m now : string) : IO (W * (Pgmbar * ClusterId)) unit :=
  '(bar, id) ← get_var; bar ← SetMessageWithTime m now bar; set_var (bar, id).

(** [strings.ToUpper], of ASCII. *)
Definition upper (c : ascii) : ascii :=
  let k := N_of_ascii c in if (97 <=? k)%N && (k <=? 122)%N then ascii_of_N (k - 32) else c.
Fixpoint ToUpper (s : string) : string :=
  match s with EmptyString => EmptyString | String c s => String (upper c) (ToUpper s) end.

(** [poll] *)
Definition stackWatched (fuel : nat) (n : AlibabaDev) : IO (W * (Pgmbar * ClusterId)) (bool * error) :=
  '(_, id) ← get_var;
  let rid := cis_ResourceId (cid_Spec id) in
  listed ← listEvents fuel (ad_Region n) rid 0 [];
  match listed with
  | inr e => _ ← showMessage ("call ros stack event: " +:+ Error e) EmptyString; mret (false, None)
  | inl events =>
      let merged := ToResources events in
      '(bar, id) ← get_var;
      _ ← set_var (AddEvents merged bar, id);
      '(stack, err) ← perform (Sdk (GetStack (ad_Region n) rid));
      match err with
      | Some e => _ ← showMessage ("call get ros stack: " +:+ Error e) EmptyString; mret (false, None)
      | None =>
          let status := ToUpper (rst_Status stack) in
          at_ ← findStackEvent merged (rst_Name stack);
          _ ← showMessage status at_;
          if Contains status "FAIL" || Contains status "COMPLETE" then
            _ ← perform (Sleep (2 * Second));
            '(bar, id) ← get_var;
            id ← PrintStack id;
            _ ← set_var (bar, id);
            mret (true, None)
          else mret (false, None)
      end
  end.

(** [n.WatchResult(ctx, id)]: the identity after it, and the error. *)
Definition WatchResult (fuel : nat) (n : AlibabaDev) (id : ClusterId) : IO W (ClusterId * error) :=
  bar ← NewPgmbar (cis_CreatedAt (cid_Spec id)) [];
  '(err, v) ← with_var (bar, id) (Poll (5 * Second) (10 * Minute) (stackWatched fuel n));
  mret (v.2, err).
End waiting.

(** ** Facts *)
Definition userDataKeys : list string := ["Resources"; "k8s_master_sconfig"; "Properties"; "UserData"].

Lemma userData_path (notify : bool) :
  let p := userDataKeys ++ (if notify then ["Fn::Join"] else []) in
  plain_keys p ∧ Join p "." = if notify then userDataBase +:+ ".Fn::Join" else userDataBase.
Proof. destruct notify; (split; [split; [done|split; repeat constructor; discriminate]|done]). Qed.

(** An endpoint read from the outputs. *)
Definition outputText (out : list (string * any)) (key : string) : string :=
  from_option fmt_any EmptyString (toMap out !! key).

(** A missing output is an empty address; setting the addresses never fails. *)
Lemma SetEndpoint_eq cfg out :
  SetEndpoint cfg out =
    (cs_with_Endpoint (MkEndpoint (outputText out "APIServerIntranet") (outputText out "APIServerInternet")) cfg, None).
Proof.
  unfold SetEndpoint, findEndpoint, outputText.
  by destruct (toMap out !! "APIServerIntranet"), (toMap out !! "APIServerInternet").
Qed.

Lemma replaceEvent_ids r l :
  map re_ResourceId (replaceEvent r l) =
  if decide (re_ResourceId r ∈ map re_ResourceId l) then map re_ResourceId l
  else map re_ResourceId l ++ [re_ResourceId r].
Proof.
  induction l as [|x l IH]; [done|]. cbn [replaceEvent map].
  destruct (decide (re_ResourceId x = re_ResourceId r)) as [E|E].
  - rewrite decide_True by (rewrite E; by left). cbn [map]. by rewrite E.
  - cbn [map]. rewrite IH. destruct (decide (re_ResourceId r ∈ map re_ResourceId l)).
    + rewrite decide_True by (by right). done.
    + rewrite decide_False by (rewrite not_elem_of_cons; naive_solver). done.
Qed.

Lemma replaceEvent_NoDup r l : NoDup (map re_ResourceId l) → NoDup (map re_ResourceId (replaceEvent r l)).
Proof.
  intros Hn. rewrite replaceEvent_ids. case_decide as Hd; [done|]. apply NoDup_app.
  split_and!; [done| |apply NoDup_singleton]. intros x Hx ->%list_elem_of_singleton. done.
Qed.

(** What the bar shows for a resource. *)
Definition shown (i : string) (l : list Resource) : option Resource :=
  List.find (λ r, bool_decide (re_ResourceId r = i)) l.

Lemma shown_replaceEvent r l i :
  shown i (replaceEvent r l) = if decide (re_ResourceId r = i) then Some r else shown i l.
Proof.
  unfold shown. induction l as [|x l IH]; cbn [replaceEvent List.find].
  { by destruct (decide (re_ResourceId r = i)); [rewrite bool_decide_true|rewrite bool_decide_false]. }
  destruct (decide (re_ResourceId x = re_ResourceId r)) as [E|E]; cbn [List.find].
  - destruct (decide (re_ResourceId r = i)); [by rewrite bool_decide_true|]. by rewrite !bool_decide_false by congruence.
  - rewrite IH. destruct (decide (re_ResourceId r = i)); [|done]. by rewrite bool_decide_false by congruence.
Qed.

(** A progress bar that lists each resource once keeps doing so whatever
    events it is given, and then shows for every resource the last of these
    events, or what it showed before. *)
Theorem AddEvents_shows res b :
  NoDup (map re_ResourceId (pb_events b)) →
  let b' := AddEvents res b in
  NoDup (map re_ResourceId (pb_events b')) ∧
  ∀ i, shown i (pb_events b') = match shown i (rev res) with Some r => Some r | None => shown i (pb_events b) end.
Proof.
  unfold AddEvents. induction res as [|r res IH] using rev_ind; intros Hb; cbn [foldl rev]; [done|].
  rewrite foldl_app. destruct (IH Hb) as [Hn Hs]. split.
  - cbn. by apply replaceEvent_NoDup.
  - intros i. cbn [foldl AddEvent pb_events]. rewrite shown_replaceEvent, Hs, rev_unit.
    change (shown i (r :: rev res)) with (if bool_decide (re_ResourceId r = i) then Some r else shown i (rev res)).
    by destruct (decide (re_ResourceId r = i)); [rewrite bool_decide_true|rewrite bool_decide_false].
Qed.

Section create_facts.
Context {W : Type} `{Env W} `{PkgErrors, !PkgErrorsSpec} `{GoFmt} `{Base64} `{Yaml ClusterSpec} `{Yaml ContextCFG}.
Context `{Json json} `{LocalZone} `{MapRange, !MapRangeSpec} `{Json AlibabaDev} `{SdkClients}.

(** The master's script is made of the stored specification, which it changes. *)
Lemma UserData_Master_inv ctx ctx' data err boot (s s' : St W) :
  x_BootCFG ctx = Some (Some boot) →
  UserData ctx MasterUserdata s = (Ret (ctx', (data, err)), s') →
  ctx' = set_BootCFG (Some (masterDefaults boot)) ctx ∧ err = None ∧ s' = s.
Proof.
  intros Hb HB. assert (BootCFG ctx = Some boot) as Hb' by (unfold BootCFG; by rewrite Hb).
  destruct (bi_Provider (cs_Bind boot)) as [p|] eqn:Ep.
  - rewrite (UserData_Master boot p) in HB by done. unfold write_BootCFG in HB. rewrite Hb in HB. naive_solver.
  - unfold UserData, NewUserData, theBootCFG in HB. rewrite Hb', decide_True in HB by done.
    apply bind_Ret_inv in HB as (x & s1 & HB & _). apply bind_Ret_inv in HB as (c & s2 & [= <- <-] & HB).
    change (cs_Bind (masterDefaults boot)) with (cs_Bind boot) in HB. by rewrite Ep in HB.
Qed.

Lemma RenderUserData_context ctx tpl notify ctx' r boot (s s' : St W) :
  x_BootCFG ctx = Some (Some boot) →
  RenderUserData ctx tpl notify s = (Ret (ctx', r), s') → r.2 = None →
  ctx' = set_BootCFG (Some (masterDefaults boot)) ctx ∧ s' = s.
Proof.
  intros Hb HB Hr. unfold RenderUserData in HB. destruct (ToUnstructured tpl) as [u|e]; [|by injection HB as <- <- <-].
  apply bind_Ret_inv in HB as ((c & data & err) & s1 & Hu & HB).
  apply (UserData_Master_inv _ _ _ _ boot) in Hu as (-> & -> & ->); [|done].
  apply bind_Ret_inv in HB as ([e u'] & s2 & Hl & HB).
  assert (s2 = s) as -> by (unfold lift in Hl; by injection Hl).
  by destruct e; injection HB as <- <- <-.
Qed.

(** Rendering writes the script of the first master into the template at the
    path of the user data of the masters' launch configuration, between the
    addresses of the load balancers and the notification, and leaves everything
    else of the template as it is. *)
Theorem RenderUserData_frame ctx tpl notify ctx' text (s s' : St W) :
  RenderUserData ctx tpl notify s = (Ret (ctx', (text, None)), s') →
  ∃ m m' data,
    ToUnstructured tpl = inl (Some m) ∧ text = Marshal (JObj m') ∧
    UserData ctx MasterUserdata s = (Ret (ctx', (data, None)), s') ∧
    let p := userDataKeys ++ (if notify then ["Fn::Join"] else []) in
    at_path (JObj m') p =
      Some (if notify then userDataJoin data else JStr (Join [PrefixPart; data] newline)) ∧
    ∀ q, apart p q → at_path (JObj m') q = at_path (JObj m) q.
Proof.
  intros HB. unfold RenderUserData in HB. destruct (ToUnstructured tpl) as [u|e] eqn:Eu; [|done].
  apply bind_Ret_inv in HB as ((c & data & err) & s1 & Hu & HB).
  destruct err as [e|].
  { destruct (Wrapf_some e "render master userdata") as (e' & He & _). by rewrite He in HB. }
  apply bind_Ret_inv in HB as ([err u'] & s2 & Hset & HB).
  destruct err as [e|]; [done|]. injection HB as -> <- <-.
  set (v := if notify then userDataJoin data else JStr (Join [PrefixPart; data] newline)).
  destruct (userData_path notify) as [Hp HJ]. set (p := userDataKeys ++ _) in *.
  assert (SetValue u (Join p ".") v = Ret (None, u') ∧ s2 = s1) as [Hs ->].
  { rewrite HJ. unfold v. destruct notify; by injection Hset. }
  destruct u as [m|].
  2:{ exfalso. revert Hs. rewrite HJ. unfold p, v. by destruct notify. }
  pose proof (SetValue_put p v m Hp) as Hput. destruct (put p v (JObj m)) as [x|] eqn:Ex.
  2:{ destruct Hput as (e & Hput). by rewrite Hs in Hput. }
  destruct Hput as (m' & -> & Hput). rewrite Hs in Hput. injection Hput as ->.
  exists m, m', data. split_and!; [done..|]. intros p0.
  split; [by eapply at_put|intros q Hq; by eapply at_put_apart].
Qed.

(** C37: a cluster is created as one stack and by nothing else: the template,
    the contents of the configured file or the embedded one, gets the first
    master's script at the path of the user data, everything else in it staying
    as it is, and is sent once, under the cluster's name, with ten parameters,
    those of the specification.  What is recorded is the stack's id and the
    specification {e with} the defaults that making the script wrote into it,
    placeholders of the endpoints included. *)
Theorem Create_records T n ctx boot ctx' id (s s' : St W) :
  x_BootCFG ctx = Some (Some boot) →
  Create T n ctx s = (Ret (ctx', (Some id, None)), s') →
  ∃ tpl m m' data params,
    let file := ad_TemplateFile n in
    let reads := if decide (file = EmptyString) then [] else [ReadFile file] in
    (file = EmptyString → tpl = T) ∧
    (file ≠ EmptyString → (env_step (ReadFile file) (world s)).1 = (tpl, None)) ∧
    let s1 := MkSt (after reads (world s)) (log s ++ reads) in
    ToUnstructured tpl = inl (Some m) ∧
    UserData ctx MasterUserdata s1 = (Ret (ctx', (data, None)), s1) ∧
    at_path (JObj m') (userDataKeys ++ ["Fn::Join"]) = Some (userDataJoin data) ∧
    (∀ q, apart (userDataKeys ++ ["Fn::Join"]) q → at_path (JObj m') q = at_path (JObj m) q) ∧
    params ≡ₚ
      [("MasterImageId", bi_Image (cs_Bind boot)); ("SSHFlags", "true"); ("ZoneId", bi_ZoneId (cs_Bind boot));
       ("KubernetesVersion", un_Version (ku_Unit (cs_Kubernetes boot)));
       ("DockerVersion", un_Version (cr_Unit (cs_Runtime boot)));
       ("EtcdVersion", un_Version (es_Unit (cs_Etcd boot))); ("MasterLoginPassword", "Just4Test");
       ("MasterInstanceType", bi_Instance (cs_Bind boot)); ("ProxyMode", nw_Mode (cs_Network boot));
       ("PublicSLB", "true")] ∧
    let c := Sdk (CreateStack (ad_Region n) (cs_ClusterID boot) (Marshal (JObj m')) true 60 params) in
    (env_step c (world s1)).1 = (cis_ResourceId (cid_Spec id), None) ∧
    log s' = log s ++ reads ++ [c; Now; Now] ∧
    cid_Name id = cs_ClusterID boot ∧ cis_Cluster (cid_Spec id) = masterDefaults boot ∧
    BootCFG ctx' = Some (masterDefaults boot) ∧
    cs_Endpoint (masterDefaults boot) =
      let orElse x y := if decide (x = EmptyString) then y else x in
      MkEndpoint (orElse (ep_Intranet (cs_Endpoint boot)) "${INTRANET_LB}")
                 (orElse (ep_Internet (cs_Endpoint boot)) "${INTERNET_LB}").
Proof.
  intros Hb HB. unfold Create in HB. apply bind_Ret_inv in HB as (tpl & s1 & Et & HB).
  destruct tpl as [tpl|e]; [|done]. assert (BootCFG ctx = Some boot) as Hb' by (unfold BootCFG; by rewrite Hb).
  set (file := ad_TemplateFile n) in *.
  set (reads := if decide (file = EmptyString) then [] else [ReadFile file]).
  assert ((file = EmptyString → tpl = T) ∧ (file ≠ EmptyString → (env_step (ReadFile file) (world s)).1 = (tpl, None)) ∧
          s1 = MkSt (after reads (world s)) (log s ++ reads)) as (HT & HF & ->).
  { subst reads. case_decide as Hf.
    - injection Et as -> <-. split_and!; [done..|]. rewrite app_nil_r. by destruct s.
    - step_perform_in Et. destruct (env_step (ReadFile file) (world s)).1 as [data [e|]]; [done|].
      injection Et as -> <-. by split_and!. }
  unfold theBootCFG in HB. rewrite Hb' in HB. apply bind_Ret_inv in HB as (b & s1' & [= <- <-] & HB).
  apply bind_Ret_inv in HB as ((c & rtpl & err) & s2 & Hr & HB).
  destruct err as [e|]; [done|].
  pose proof (RenderUserData_context _ _ _ _ _ _ _ _ Hb Hr eq_refl) as [-> ->]. cbn [BootCFG set_BootCFG x_BootCFG] in HB.
  apply RenderUserData_frame in Hr as (m & m' & data & Hm & -> & Hu & Hp & Hq).
  apply bind_Ret_inv in HB as (now & s2' & [= <- <-] & HB). unfold sdk_call in HB.
  step_perform_in HB.
  change (cs_ClusterID (masterDefaults boot)) with (cs_ClusterID boot) in HB.
  set (call := Sdk _) in HB. exists tpl, m, m', data, (Transform (stackParameters boot)).
  fold call. cbv zeta. fold file reads. destruct (env_step call (after reads (world s))) as [[stack [e|]] w3] eqn:Ec;
    cbn [fst snd] in *; [done|].
  step_perform_in HB. step_perform_in HB. injection HB as <- <- <-.
  split_and!; try done.
  - unfold Transform, stackParameters. rewrite range_order_perm. apply map_to_list_to_map.
    apply (bool_decide_unpack _). by vm_compute.
  - cbn [world]. fold call. by rewrite Ec.
  - cbn [log]. by rewrite <- !app_assoc.
Qed.

(** The provider is initialized only from its own configuration: without a
    region there nothing starts, whatever region the cluster specification
    names; and when it succeeds, the region of the configuration has replaced
    that of the specification. *)
Theorem Initialize_region ctx d p (s : St W) :
  wo_Default (getWdripOptions ctx) = Some d → CurrentPrvdCFG d = Ret (Some p) →
  let cfg := (Unmarshal (pv_Value p) zeroAlibabaDev).1 in
  ∃ ctx' err, Devel_Initialize ctx s = (Ret (cfg, ctx', err), s) ∧
    (ad_Region cfg = EmptyString → err ≠ None ∧ ctx' = ctx) ∧
    (err = None →
       ad_Region cfg ≠ EmptyString ∧ ad_AccessKeyId cfg ≠ EmptyString ∧ ad_AccessKeySecret cfg ≠ EmptyString ∧
       ∀ boot, x_BootCFG ctx = Some (Some boot) →
         BootCFG ctx' = Some (cs_with_Bind (set_Bind_Region (ad_Region cfg) (cs_Bind boot)) boot)).
Proof.
  intros Hd Hp cfg. unfold Devel_Initialize. rewrite Hd. rewrite bind_unfold. unfold lift. rewrite Hp.
  destruct (Unmarshal (pv_Value p) zeroAlibabaDev) as [c err] eqn:Eu. cbn in cfg. subst cfg.
  assert (∀ m e, Wrapf (Some e) m ≠ None) as Hw.
  { intros m e. by destruct (Wrapf_some e m) as (? & -> & _). }
  destruct err as [e|]; [by do 2 eexists; split; [done|]; split; [|by intros ?%Hw]|].
  assert ((if bool_decide (ad_Region c = EmptyString) && bool_decide (BootCFG ctx ≠ None)
           then ad_Region c else ad_Region c) = ad_Region c) as -> by by case_match.
  destruct (decide (ad_Region c = EmptyString)) as [Er|Er]; [by do 2 eexists; split; [done|]; split|].
  destruct (bool_decide_reflect (ad_AccessKeyId c = EmptyString)), (bool_decide_reflect (ad_AccessKeySecret c = EmptyString));
    cbn [orb]; [by do 2 eexists..|].
  destruct (NewEssClient _ _ _); [by do 2 eexists; split; [done|]; split; [|by intros ?%Hw]|].
  destruct (NewEcsClient _ _ _); [by do 2 eexists; split; [done|]; split; [|by intros ?%Hw]|].
  do 2 eexists. split; [done|]. split; [done|]. intros _. split_and!; try done. intros boot Hb.
  assert (BootCFG ctx = Some boot) as -> by (unfold BootCFG; by rewrite Hb).
  unfold write_BootCFG. by rewrite Hb.
Qed.
End create_facts.

Section waiting_facts.
Context {W : Type} `{Env W} `{LocalZone} `{Goterm}.
Context `{WaitLib (W * option RosStack), WaitLib (W * (Pgmbar * ClusterId))}.
Existing Instance var_env.

(** A computation that does not assign to the captured identity. *)
Definition keeps_id {A} (m : IO (W * (Pgmbar * ClusterId)) A) : Prop :=
  ∀ s a s', m s = (Ret a, s') → (world s').2.2 = (world s).2.2.

Lemma keeps_ret {A} (a : A) : keeps_id (mret a).
Proof. by intros s b s' [= _ <-]. Qed.
Lemma keeps_hang {A} : keeps_id (hang : IO _ A).
Proof. by intros s b s' [=]. Qed.
Lemma keeps_get : keeps_id get_var.
Proof. by intros s b s' [= _ <-]. Qed.
Lemma keeps_perform c : keeps_id (perform c).
Proof. intros s a s'. rewrite var_perform. by intros [= _ <-]. Qed.
Lemma keeps_bind {A B} (m : IO _ A) (f : A → IO _ B) :
  keeps_id m → (∀ a, keeps_id (f a)) → keeps_id (m ≫= f).
Proof.
  intros Hm Hf s b s' (a & s1 & Ha & Hb)%bind_Ret_inv. by rewrite (Hf _ _ _ _ Hb), (Hm _ _ _ Ha).
Qed.

Lemma keeps_listEvents fuel region id page evs : keeps_id (listEvents fuel region id page evs).
Proof.
  revert page evs. induction fuel as [|k IH]; intros page evs; [apply keeps_hang|]. cbn [listEvents].
  refine (keeps_bind (perform (Sdk (ListStackEvents region id page))) _ _ _); [apply keeps_perform|]. intros [[l next] [e|]]; [apply keeps_ret|].
  destruct next; [apply IH|apply keeps_ret].
Qed.

Lemma keeps_showMessage m now : keeps_id (showMessage m now).
Proof.
  intros s b s' ([bar id] & s1 & Hg & HB)%bind_Ret_inv. injection Hg as Hw _.
  apply bind_Ret_inv in HB as (bar' & s2 & _ & [= _ <-]). cbn. by rewrite Hw.
Qed.

Lemma keeps_findStackEvent evs name : keeps_id (findStackEvent evs name).
Proof.
  unfold findStackEvent. repeat case_match; try apply keeps_ret;
    (apply keeps_bind; [apply (keeps_perform Now)|intros; apply keeps_ret]).
Qed.

Lemma keeps_PrintStack id : keeps_id (PrintStack id).
Proof.
  unfold PrintStack. refine (keeps_bind (perform (Sdk (GetStack EmptyString _))) _ _ _); [apply keeps_perform|].
  intros [out [e|]]; apply keeps_ret.
Qed.

(** The stack [rid] was seen in a final state, or in a state with these words. *)
Definition seenFinal (region rid : string) : Prop :=
  ∃ w stack, (env_step (Sdk (GetStack region rid)) w).1 = (stack, None) ∧
    Contains (ToUpper (rst_Status stack)) "FAIL" || Contains (ToUpper (rst_Status stack)) "COMPLETE" = true.

(** The identity got the addresses the stack of that id had for outputs, or was
    left alone because the stack could not be read again. *)
Definition readdressed (id id' : ClusterId) : Prop :=
  let c := Sdk (GetStack EmptyString (cis_ResourceId (cid_Spec id))) in
  ∃ w out err, (env_step c w).1 = (out, err) ∧
    id' = match err with
          | Some _ => id
          | None =>
              cid_with_Cluster
                (cs_with_Endpoint (MkEndpoint (outputText (rst_Outputs out) "APIServerIntranet")
                                              (outputText (rst_Outputs out) "APIServerInternet"))
                   (cis_Cluster (cid_Spec id))) id
          end.

Lemma PrintStack_run id id' (s s' : St (W * (Pgmbar * ClusterId))) :
  PrintStack id s = (Ret id', s') → readdressed id id'.
Proof.
  unfold PrintStack, readdressed. rewrite bind_unfold, var_perform. intros HB. exists (world s).1.
  destruct (env_step _ (world s).1) as [[out err] w1] eqn:E. exists out, err. split; [done|].
  cbn [fst snd] in HB. rewrite SetEndpoint_eq in HB. by destruct err; injection HB as <-.
Qed.

(** One look at the stack. *)
Lemma stackWatched_run fuel n (s s' : St (W * (Pgmbar * ClusterId))) b err :
  stackWatched fuel n s = (Ret (b, err), s') →
  err = None ∧
  if b then seenFinal (ad_Region n) (cis_ResourceId (cid_Spec (world s).2.2)) ∧
            readdressed (world s).2.2 (world s').2.2
  else (world s').2.2 = (world s).2.2.
Proof.
  unfold stackWatched. intros HB. apply bind_Ret_inv in HB as ([bar id] & s1 & Hg & HB).
  injection Hg as Hw <-. rewrite Hw. cbn [snd]. cbv zeta in HB.
  apply bind_Ret_inv in HB as (listed & s2 & Hl & HB). apply keeps_listEvents in Hl. rewrite Hw in Hl. cbn in Hl.
  destruct listed as [events|e].
  2:{ apply bind_Ret_inv in HB as (u & s3 & Hm & [= <- <- <-]). apply keeps_showMessage in Hm.
      split; [done|]. by rewrite Hm. }
  apply bind_Ret_inv in HB as ([bar' id'] & s3 & Hg & HB). injection Hg as Hw3 <-. rewrite Hw3 in Hl. cbn in Hl. subst id'.
  apply bind_Ret_inv in HB as (u & s4 & [= <- <-] & HB).
  rewrite bind_unfold, var_perform in HB. cbn [world log fst snd] in HB.
  set (rid := cis_ResourceId (cid_Spec id)) in *.
  destruct (env_step (Sdk (GetStack (ad_Region n) rid)) (world s2).1) as [[stack err'] w5] eqn:E. cbn [fst snd] in HB.
  destruct err' as [e|].
  { apply bind_Ret_inv in HB as (u' & s6 & Hm & [= <- <- <-]). apply keeps_showMessage in Hm. split; [done|].
    by rewrite Hm. }
  apply bind_Ret_inv in HB as (at_ & s6 & Hf & HB). apply keeps_findStackEvent in Hf. cbn in Hf.
  apply bind_Ret_inv in HB as (u' & s7 & Hm & HB). apply keeps_showMessage in Hm.
  rewrite Hf in Hm. destruct (_ || _) eqn:Ef; [|injection HB as <- <- <-; by split].
  apply bind_Ret_inv in HB as (u'' & s8 & Hs & HB). apply (keeps_perform (Sleep _)) in Hs. rewrite Hm in Hs.
  apply bind_Ret_inv in HB as ([bar2 id2] & s9 & Hg & HB). injection Hg as Hw9 <-. rewrite Hw9 in Hs. cbn in Hs. subst id2.
  apply bind_Ret_inv in HB as (id' & s10 & Hp & HB).
  apply bind_Ret_inv in HB as (u3 & s11 & [= <- <-] & [= <- <- <-]). cbn.
  split; [done|]. split; [|by eapply PrintStack_run]. by exists (world s2).1, stack; rewrite E.
Qed.
End waiting_facts.

Section waiting_properties.
Context {W : Type} `{Env W} `{LocalZone} `{Goterm}.
Context `{WaitLib (W * option RosStack)} `{!VarPollSpec W (option RosStack)}.
Context `{WaitLib (W * (Pgmbar * ClusterId))} `{!VarPollSpec W (Pgmbar * ClusterId)}.
Existing Instance var_env.

Lemma stackWatched_poll fuel n (s s' : St (W * (Pgmbar * ClusterId))) o :
  poll_run_on idle_var (stackWatched fuel n) s o s' →
  match o with
  | Ret None => seenFinal (ad_Region n) (cis_ResourceId (cid_Spec (world s).2.2)) ∧
                readdressed (world s).2.2 (world s').2.2
  | Ret (Some e) => e = ErrWaitTimeout ∧ (world s').2.2 = (world s).2.2
  | _ => True
  end.
Proof.
  induction 1 as [s s' E|s b e s' E|s msg s' E|s s' E|s s1 s' E [_ I]|s s1 s2 o s' E [_ I] _ IH]; try done.
  - by apply stackWatched_run in E as [_ E].
  - by apply stackWatched_run in E as [E _].
  - apply stackWatched_run in E as [_ E]. by rewrite <- I.
  - apply stackWatched_run in E as [_ E]. by rewrite <- I, E in IH.
Qed.

(** Watching a stack ends well whenever the stack was seen in a state that
    says complete or fail, a failed or rolled back creation included; then the
    identity has the addresses the stack's outputs name, the missing ones empty,
    unless the stack could not be read again.  Every other end is the timeout,
    and leaves the identity alone. *)
Theorem WatchResult_final fuel n id id' err (s s' : St W) :
  WatchResult fuel n id s = (Ret (id', err), s') →
  match err with
  | None => seenFinal (W:=W) (ad_Region n) (cis_ResourceId (cid_Spec id)) ∧ readdressed (W:=W) id id'
  | Some e => e = ErrWaitTimeout ∧ id' = id
  end.
Proof.
  unfold WatchResult. intros (bar & s1 & _ & HB)%bind_Ret_inv.
  apply bind_Ret_inv in HB as ([e [bar' i]] & s2 & Hw & [= <- <- <-]). revert Hw. unfold with_var.
  set (s0 := MkSt _ _).
  destruct (Poll_var_run (5 * Second) (10 * Minute) (stackWatched fuel n) s0) as [(sp & [_ I] & Hr)|[Ho [_ I]]];
    destruct (Poll (5 * Second) (10 * Minute) (stackWatched fuel n) s0) as [[o| |] sv]; try done; cbn [fst snd] in *;
    intros [= -> Hv <-].
  - apply stackWatched_poll in Hr. rewrite <- I in Hr. cbn in Hr. by rewrite Hv in Hr.
  - injection Ho as ->. rewrite Hv in I. by injection I as -> ->.
Qed.

(** Waiting for a stack to be created also takes a rolled back creation for
    success. *)
Theorem WaitStack_success n id out (s s' : St W) :
  WaitStack n id s = (Ret (out, None), s') →
  ∃ stack, out = Some stack ∧ rst_Status stack ∈ ["CREATE_ROLLBACK_COMPLETE"; "CREATE_COMPLETE"].
Proof.
  unfold WaitStack. intros (v & s2 & Hw & HB)%bind_Ret_inv. destruct v as [e o]. injection HB as -> -> <-.
  revert Hw. unfold with_var. set (s0 := MkSt _ _).
  destruct (Poll_var_run (10 * Second) (10 * Minute) (stackCreated n id) s0) as [(sp & _ & Hr)|[Ho _]];
    destruct (Poll (10 * Second) (10 * Minute) (stackCreated n id) s0) as [[o'| |] sv]; try done; cbn [fst snd] in *;
    intros [= -> Hv <-]; [|done].
  remember (Ret None) as r eqn:Er. induction Hr as [sa sb E| | | | |sa sb sc o sd E _ _ IH]; try done; [|auto].
  unfold stackCreated in E. rewrite bind_unfold, var_perform in E. cbn [fst snd] in E.
  destruct (env_step _ (world sa).1) as [[stack [e|]] w1]; cbn [fst snd] in E; [done|].
  apply bind_Ret_inv in E as (u & s3 & [= <- <-] & E). cbv zeta in E.
  repeat (case_bool_decide; [|try done]); try done. injection E as <-. cbn in Hv. subst out. by eexists.
Qed.

(** The listing ends within [k] pages. *)
Fixpoint listingEnds (k : nat) (region id : string) (page : Z) (w : W) : Prop :=
  match k with
  | O => False
  | S k =>
      let '((_, next, err), w) := env_step (Sdk (ListStackEvents region id page)) w in
      match err, next with None, Some page => listingEnds k region id page w | _, _ => True end
  end.
Lemma listEvents_returns fuel region id page evs (s : St (W * (Pgmbar * ClusterId))) :
  listingEnds fuel region id page (world s).1 → ∃ r s', listEvents fuel region id page evs s = (Ret r, s').
Proof.
  revert page evs s. induction fuel as [|k IH]; intros page evs s He; [done|]. cbn [listEvents listingEnds] in *.
  rewrite bind_unfold, var_perform. destruct (env_step _ (world s).1) as [[[l next] [e|]] w1]; cbn [fst snd]; [by do 2 eexists|].
  destruct next; [by apply IH|by do 2 eexists].
Qed.
End waiting_properties.

(** ** A concrete account, for evaluation *)
Module SimStack.
#[export] Instance goterm : Goterm := λ s, s.
#[export] Instance sdk_clients : SdkClients := {| NewEssClient _ _ _ := None; NewEcsClient _ _ _ := None |}.
#[export] Instance json_dev : Json AlibabaDev :=
  {| Marshal _ := EmptyString;
     Unmarshal s d := (if decide (s = "{}") then d else MkAlibabaDev s "id" "secret" "bucket" EmptyString, None) |}.
#[export] Instance json_doc : Json json :=
  {| Marshal x := match x with JObj m => fmt_d (Z.of_nat (length m)) | _ => "null" end;
     Unmarshal _ x := (JObj [("Description", JStr "k8s");
                             ("Resources", JObj [("k8s_vpc", JObj []);
                                                 ("k8s_master_sconfig", JObj [("Properties", JObj [])])])], None) |}.
Definition boot : ClusterSpec :=
  cs_with_ClusterID "k8s" (cs_with_Bind (set_Bind_Provider (Some (MkProvider "alibaba" "cn-hangzhou")) zeroBindInfra)
                             zeroClusterSpec).
Definition bootCtx : Context_ := set_BootCFG (Some boot) NewEmptyContext.
Definition devCtx : Context_ :=
  set_WdripOptions
    (wo_with_Default (Some (MkContextCFG "Config" "v1" "k8s" [MkContextItem "k8s" (Some "p")]
                              [MkProviderItem "p" (Some (MkProvider "alibaba" "cn-hangzhou"))])) zeroWdripOptions)
    bootCtx.

(** A stack whose creation failed, with one address among its outputs. *)
Definition failed (c : call) (t : Z) : option (reply c) :=
  match c with
  | Sdk (GetStack _ _) => Some (MkRosStack "k8s" "CREATE_FAILED" "Quota" [("APIServerIntranet", AStr "10.0.0.1")], None)
  | Sdk (CreateStack _ _ _ _ _ _) => Some ("stack-1", None)
  | _ => None
  end.
#[export] Instance failed_env : Env Z := SimEnv.scripted failed.
End SimStack.

(** ** Witnesses *)
Import Sim SimEnv SimWait SimAli SimGroups SimStack.

Lemma RenderUserData_frame_witness :
  ∃ m m' data,
    ToUnstructured "{}" = inl (Some m) ∧
    at_path (JObj m') (userDataKeys ++ ["Fn::Join"]) = Some (userDataJoin data) ∧
    at_path (JObj m') ["Description"] = Some (JStr "k8s").
Proof.
  destruct (RenderUserData (W:=Z) bootCtx "{}" true (start_at 0)) as [[(ctx' & text & err)| |] s'] eqn:E;
    [|vm_compute in E; discriminate..].
  assert (err = None) as -> by (vm_compute in E; injection E; congruence).
  destruct (RenderUserData_frame (W:=Z) bootCtx "{}" true ctx' text (start_at 0) s' E)
    as (m & m' & data & Hm & _ & _ & Hp & Hf).
  exists m, m', data. split; [exact Hm|]. split; [exact Hp|]. rewrite Hf; [|left; discriminate].
  vm_compute in Hm. injection Hm as <-. vm_compute. reflexivity.
Defined.

(** A template of the user's own, read from its file. *)
Definition ownTemplate (c : call) (t : Z) : option (reply c) :=
  match c with
  | ReadFile "my.json" => Some ("{}", None)
  | Sdk (CreateStack _ _ _ _ _ _) => Some ("stack-9", None)
  | _ => None
  end.
Definition ownDev : AlibabaDev := MkAlibabaDev "cn-hangzhou" "id" "secret" "bucket" "my.json".

Lemma Create_records_witness :
  let env : Env Z := SimEnv.scripted ownTemplate in
  ∃ ctx' id s', Create (H := env) "[]" ownDev bootCtx (start_at 0) = (Ret (ctx', (Some id, None)), s') ∧
    cis_ResourceId (cid_Spec id) = "stack-9" ∧
    cid_Name id = "k8s" ∧ ep_Intranet (cs_Endpoint (cis_Cluster (cid_Spec id))) = "${INTRANET_LB}".
Proof.
  intros env.
  destruct (Create (H := env) "[]" ownDev bootCtx (start_at 0)) as [[(ctx' & oid & err)| |] s'] eqn:E;
    [|vm_compute in E; discriminate..].
  assert (err = None) as -> by (vm_compute in E; injection E; congruence).
  destruct oid as [id|]; [|vm_compute in E; discriminate].
  destruct (Create_records (H := env) "[]" ownDev bootCtx boot ctx' id (start_at 0) s' eq_refl E)
    as (tpl & m & m' & data & params & _ & _ & _ & _ & _ & _ & _ & Hc & _ & Hn & Hs & _ & He).
  exists ctx', id, s'. split; [reflexivity|]. split; [by injection Hc|]. split; [exact Hn|]. rewrite Hs, He. reflexivity.
Defined.

Lemma Initialize_region_witness :
  ∃ ctx', Devel_Initialize (W:=Z) devCtx (start_at 0)
          = (Ret (MkAlibabaDev "cn-hangzhou" "id" "secret" "bucket" "", ctx', None), start_at 0) ∧
    option_map (λ b, bi_Region (cs_Bind b)) (BootCFG ctx') = Some "cn-hangzhou".
Proof.
  destruct (Initialize_region (W:=Z) devCtx
     (MkContextCFG "Config" "v1" "k8s" [MkContextItem "k8s" (Some "p")]
        [MkProviderItem "p" (Some (MkProvider "alibaba" "cn-hangzhou"))])
     (MkProvider "alibaba" "cn-hangzhou") (start_at 0)) as (ctx' & err & E & _ & Hok);
    [reflexivity|vm_compute; reflexivity|].
  assert (err = None) as -> by (vm_compute in E; injection E; congruence).
  exists ctx'. split; [exact E|]. destruct (Hok eq_refl) as (_ & _ & _ & Hb).
  rewrite (Hb boot eq_refl). reflexivity.
Defined.

(** The creation failed, and watching it succeeds. *)
Lemma WatchResult_final_witness :
  ∃ id' s', WatchResult (W:=Z) 1 dev named (start_at 0) = (Ret (id', None), s') ∧
    seenFinal (W:=Z) "cn-hangzhou" "stack-1" ∧ readdressed (W:=Z) named id' ∧
    cs_Endpoint (cis_Cluster (cid_Spec id')) = MkEndpoint "10.0.0.1" "".
Proof.
  destruct (WatchResult (W:=Z) 1 dev named (start_at 0)) as [[[id' err]| |] s'] eqn:E; [|vm_compute in E; discriminate..].
  assert (err = None) as -> by (vm_compute in E; injection E; congruence).
  destruct (WatchResult_final (W:=Z) 1 dev named id' None (start_at 0) s' E) as [Hs Hr].
  exists id', s'. split; [reflexivity|]. split; [exact Hs|]. split; [exact Hr|].
  vm_compute in E. injection E as <- _. reflexivity.
Defined.

Example rolled_back_is_success :
  let env : Env Z := SimEnv.scripted (λ c t, match c with
    | Sdk (GetStack _ _) => Some (MkRosStack "k8s" "CREATE_ROLLBACK_COMPLETE" "" [], None) | _ => None end) in
  (WaitStack (W:=Z) dev named (start_at 0)).1
  = Ret (Some (MkRosStack "k8s" "CREATE_ROLLBACK_COMPLETE" "" []), None).
Proof. vm_compute. reflexivity. Qed.

Definition vpcIs (status : string) : Resource := MkResource "" "" "" "ALIYUN::ECS::VPC" "vpc-1" "k8s_vpc" "" status.
Lemma AddEvents_shows_witness :
  shown "vpc-1" (pb_events (AddEvents [vpcIs "CREATE_IN_PROGRESS"; vpcIs "CREATE_COMPLETE"]
                              (MkPgmbar 0 (vpcIs "") [vpcIs "INIT"])))
  = Some (vpcIs "CREATE_COMPLETE").
Proof.
  destruct (AddEvents_shows [vpcIs "CREATE_IN_PROGRESS"; vpcIs "CREATE_COMPLETE"] (MkPgmbar 0 (vpcIs "") [vpcIs "INIT"]))
    as [_ Hs]; [apply NoDup_singleton|]. rewrite Hs. reflexivity.
Defined.
