(* ===== verification/StackTpl.v ===== *)
(** * The embedded stack template (pkg/iaas/provider/alibaba/tpl.go)

    The text of [Template], and what makes it fit for what is done with it: it
    is a JSON document; everything it refers to (parameters, conditions,
    resources, their order of creation) is there; the parameters the provider
    passes, the outputs it reads and the resources it looks for are declared;
    and writing the script of the first master into it keeps all that. *)
From stdpp Require Import base list gmap strings.
From Stdlib Require Import Lia Ascii.
From S2P Require Import Prelude GoStrings GoTime Api Sdk Effects GoTemplate Utils Provider UserData Hash Alibaba AliGroups AliEvents Unstructed GoJson Stack.

(** ** The text *)
(** The head of the document, and the parameters of the network. *)
Definition tplNetworkParameters : string := raw "{
  `ROSTemplateFormatVersion`: `2015-09-01`,
  `Description`: `Need Activate RAM service`,
  `Parameters`: {
    `VpcId`: {
      `Type`: `String`,
      `Description`: `Set VPC ID, if not provided, create new one.`,
      `Label`: `VPC ID`,
      `Default`: `None`
    },
    `VSwitchId`: {
      `Type`: `String`,
      `Description`: `Set VSwitch ID, if not provided, create new one`,
      `Label`: `VSwitch ID`,
      `Default`: `None`
    },
    `WillReplace`: {
      `Type`: `Boolean`,
      `Description`: `Affect existed instance is set true.`,
      `Label`: `WillReplace`,
      `Default`: false
    },
    `ContainerCIDR`: {
      `Type`: `String`,
      `Description`: `Kubernetes Container CIDR`,
      `Label`: `Container CIDR`,
      `Default`: `172.16.0.0/16`
    },
    `ServiceCIDR`: {
      `Type`: `String`,
      `Description`: `Kubernetes Service CIDR`,
      `Label`: `Service CIDR`,
      `Default`: `172.19.0.0/20`
    },
    `NodeCIDRMask`: {
      `Type`: `String`,
      `Description`: `Kubernetes cluster Node CIDR Mask`,
      `Label`: `Node CIDR Mask`,
      `Default`: `24`
    },
    `SNatEntry`: {
      `Type`: `Boolean`,
      `Description`: `Create SNatEntry. if not, make sure that can access the public network, otherwise the deploy will be fail.`,
      `Label`: `Create SNatEntry`,
      `Default`: true
    },
    `NatGateway`: {
      `Type`: `Boolean`,
      `Description`: `Create Nat Gateway`,
      `Label`: `Create Nat Gateway`,
      `Default`: true
    },
    `NatGatewayId`: {
      `Type`: `String`,
      `Description`: `Create a K8S cluster using the existing NatGateway ID`,
      `Label`: `NatGateway ID`,
      `Default`: ``
    },
    `SnatTableId`: {
      `Type`: `String`,
      `Description`: `Using the existing SnatTable ID`,
      `Label`: `SnatTable ID`,
      `Default`: ``
    },
    `EipAddress`: {
      `Type`: `String`,
      `Description`: `Attach the existing Eip Address to SnatEntry`,
      `Label`: `Eip Address`,
      `Default`: ``
    },
    `Eip`: {
      `Type`: `Boolean`,
      `Description`: `Create Eip. if not, make sure that can access the public network, otherwise the deploy will be fail.`,
      `Label`: `Create Eip`,
      `Default`: true
    },
    `PublicSLB`: {
      `Type`: `Boolean`,
      `Description`: `Create SLB. if not, you can not visit api server outof vpc never.`,
      `Label`: `Create Public SLB`,
      `Default`: true
    },
    `MasterImageId`: {
      `Type`: `String`,
      `Description`: `ECS Image ID of master nodes`,
      `Label`: `ECS Image ID`,
      `Default`: `centos_7_7_x64_20G_alibase_20200426.vhd`
    },
    `MasterSystemDiskCategory`: {
      `Type`: `String`,
      `Description`: `System disk type of master nodes`,
      `Label`: `System disk type of master nodes`,
      `Default`: `cloud_essd`
    },
    `ExecuteVersion`: {
      `Type`: `Number`,
      `Description`: `Execute Version to trigger scale`,
      `Label`: `Execute Version`,
      `Default`: 0
    },
    `AdjustmentType`: {
      `Type`: `String`,
      `Description`: `Ess rule adjustment type`,
      `Label`: `Ess rule adjustment type`,
      `Default`: `TotalCapacity`
    },
    `HealthCheckType`: {
      `Type`: `String`,
      `Description`: `Ess scaling group health check type`,
      `Label`: `Ess scaling group health check type`,
      `Default`: `NONE`
    },
    `ProtectedInstances`: {
      `Type`: `CommaDelimitedList`,
      `Description`: `ECS instances of protected mode in the scaling group.`,
      `Label`: `ECS instances to be protected`,
      `Default`: ``
    },
".
(** The parameters of the masters. *)
Definition tplMasterParameters : string := raw "    `RemoveInstanceIds`: {
      `Type`: `CommaDelimitedList`,
      `Description`: `ECS instances to be deleted from the scaling group.`,
      `Label`: `ECS instances to be deleted`,
      `Default`: ``
    },
    `MasterSystemDiskSize`: {
      `Type`: `Number`,
      `Description`: `System disk size of master nodes`,
      `Label`: `System disk size of master nodes`,
      `Default`: 40
    },
    `MasterDataDisk`: {
      `Type`: `Boolean`,
      `Description`: `Whether or not mount a cloud disk for the Master node`,
      `Label`: `Buy a cloud disk`,
      `Default`: false
    },
    `MasterDataDiskCategory`: {
      `Type`: `String`,
      `Description`: `Disk Category`,
      `Label`: `Disk Category`,
      `Default`: `cloud_essd`
    },
    `MasterDataDiskSize`: {
      `Type`: `Number`,
      `Description`: `Disk Size`,
      `Label`: `Disk Size`,
      `Default`: 40
    },
    `MasterDataDiskDevice`: {
      `Type`: `String`,
      `Description`: `The device where the volume is exposed on the instance`,
      `Label`: `The device name`,
      `Default`: `/dev/xvdb`
    },
    `MasterInstanceChargeType`: {
      `Type`: `String`,
      `Description`: `Instance charge type: PrePaid or PostPaid`,
      `Label`: `Billing methods of master node`,
      `Default`: `PostPaid`
    },
    `MasterPeriod`: {
      `Type`: `Number`,
      `Description`: `Period`,
      `Default`: 3,
      `Label`: `Period of master node`
    },
    `MasterPeriodUnit`: {
      `Type`: `String`,
      `Description`: `Unit`,
      `Default`: `Month`,
      `Label`: `Unit of master node`
    },
    `MasterAutoRenew`: {
      `Type`: `Boolean`,
      `Description`: `Whether the prepaid instance will renew automatically after expiration`,
      `Default`: false,
      `Label`: `Auto renew for Prepaid instance`
    },
    `MasterAutoRenewPeriod`:{
      `Type`: `Number`,
      `Description`: `The renewal of a single automatic renewal takes a long time. When PeriodUnit=Week the value is {“1”, “2”, “3”};When PeriodUnit=Month the value is {“1”, “2”, “3”, “6”, “12”}`,
      `Default`: 1,
      `Label`: `Auto renew period for Prepaid instance`
    },
    `MasterInstanceType`: {
      `Type`: `String`,
      `Description`: `Creates ECS instances with the specification for the Master node of Kubernetes`,
      `Label`: `ECS instance specification of Master node`,
      `Default`: `ecs.c5.xlarge`
    },
    `ZoneId`: {
      `Type`: `String`,
      `Default`: `cn-hangzhou-h`,
      `Label`: `Zone ID`,
      `Description`: `Zone ID`
    },
    `GPUFlags`: {
      `Type`: `Boolean`,
      `Default`: false,
      `Label`: `GPU`,
      `Description`: `GPU Support`
    },
    `SSHFlags`: {
      `Type`: `Boolean`,
      `Default`: false,
      `Label`: `Opening of the SSH jumpbox`,
      `Description`: `Whether to support the opening of the SSH jumpbox`
    },
    `AuditFlags`: {
      `Type`: `Boolean`,
      `Default`: true,
      `Label`: `Apiserver Auditing`,
      `Description`: `Whether to open auditing on apiserver`
    },
    `KubernetesVersion`: {
      `Type`: `String`,
      `Description`: `Kubernetes Version`,
      `Label`: `Kubernetes Version`,
      `Default`: `1.12.6-aliyun.1`
    },
    `DockerVersion`: {
      `Type`: `String`,
      `Description`: `Docker Version`,
      `Label`: `Docker Version`,
      `Default`: `18.09.2`
    },
    `CloudMonitorVersion`: {
      `Type`: `String`,
      `Description`: `Cloud Monitor Agent Version`,
      `Label`: `Cloud Monitor Version`,
      `Default`: `1.3.7`
    },
    `EtcdVersion`: {
      `Type`: `String`,
      `Description`: `Etcd version`,
      `Label`: `Etcd version`,
      `Default`: `v3.3.8`
    },
".
(** The parameters of what runs in the cluster. *)
Definition tplClusterParameters : string := raw "    `UserCA`: {
      `NoEcho`: true,
      `Type`: `String`,
      `Description`: `Add user defined CA to cluster trust list`,
      `Label`: `User CA`,
      `Default`: `None`
    },
    `Network`: {
      `Type`: `String`,
      `Description`: `choose network type for k8s cluster networking`,
      `Label`: `network type user choose`,
      `Default`: `None`
    },
    `CA`: {
      `NoEcho`: true,
      `Type`: `String`,
      `Description`: `Cluster ca，if not provided, create new one.`,
      `Label`: `Cluster CA`,
      `Default`: `None`
    },
    `Key`: {
      `NoEcho`: true,
      `Type`: `String`,
      `Description`: `Cluster CAkey，if not provided, create new one.`,
      `Label`: `Cluster CAKey`,
      `Default`: `None`
    },
    `ClientCA`: {
      `NoEcho`: true,
      `Type`: `String`,
      `Description`: `Client Certficate`,
      `Label`: `Console Certficate`,
      `Default`: `None`
    },
    `CloudMonitorFlags`: {
      `Type`: `Boolean`,
      `Default`: false,
      `Label`: `Install cloud monit agent`,
      `Description`: `If install cloud monit agent on all nodes`
    },
    `MasterKeyPair`: {
      `Type`: `String`,
      `Description`: `Key Pair Name Of master node`,
      `Label`: `Key Pair Name Of master node`,
      `Default`: ``
    },
    `MasterLoginPassword`: {
      `NoEcho`: true,
      `Type`: `String`,
      `Description`: `Password Of master node`,
      `Label`: `Password Of master node`,
      `Default`: `Just4Test`
    },
    `BetaVersion`: {
      `Type`: `String`,
      `Default`: `default`,
      `Label`: `The version of bate k8s`,
      `Description`: `This is used for test`
    },
    `ProxyMode`: {
      `Type`: `String`,
      `Description`: `The mode we use in kube-proxy.`,
      `Label`: `The mode we use in kube-proxy.`,
      `Default`: `iptables`
    },
    `LoggingType`: {
      `Type`: `String`,
      `Description`: `Install specified logging collector for k8s cluster`,
      `Label`: `Logging collector type`,
      `Default`: `None`
    },
    `SLSProjectName`: {
      `Type`: `String`,
      `Description`: `Configure specified sls project name for logging collector`,
      `Label`: `SLS project name`,
      `Default`: `None`
    },
    `ElasticSearchHost`: {
      `Type`: `String`,
      `Description`: `Configure specified elasticsearch instance host for logging collector`,
      `Label`: `Elasticsearch instance host`,
      `Default`: `None`
    },
    `ElasticSearchPort`: {
      `Type`: `String`,
      `Description`: `Configure specified elasticsearch instance port for logging collector`,
      `Label`: `Elasticsearch instance port`,
      `Default`: `None`
    },
    `ElasticSearchUser`: {
      `Type`: `String`,
      `Description`: `Configure specified elasticsearch instance username for logging collector`,
      `Label`: `Elasticsearch instance username`,
      `Default`: `None`
    },
    `ElasticSearchPass`: {
      `Type`: `String`,
      `Description`: `Configure specified elasticsearch instance password for logging collector`,
      `Label`: `Elasticsearch instance password`,
      `Default`: `None`
    },
".
(** The policies of the roles of masters and workers. *)
Definition tplPolicyParameters : string := raw "    `K8SMasterPolicyDocument`: {
      `Type`: `Json`,
      `Description`: `A policy document that describes what actions are allowed on which resources , master.`,
      `Default`: {
        `Version`: `1`,
        `Statement`: [
          {
            `Action`: [
              `ecs:Describe*`,
              `ecs:AttachDisk`,
              `ecs:CreateDisk`,
              `ecs:CreateSnapshot`,
              `ecs:CreateRouteEntry`,
              `ecs:DeleteDisk`,
              `ecs:DeleteSnapshot`,
              `ecs:DeleteRouteEntry`,
              `ecs:DetachDisk`,
              `ecs:ModifyAutoSnapshotPolicyEx`,
              `ecs:ModifyDiskAttribute`,
              `ecs:CreateNetworkInterface`,
              `ecs:DescribeNetworkInterfaces`,
              `ecs:AttachNetworkInterface`,
              `ecs:AssignPrivateIpAddresses`,
              `ecs:DetachNetworkInterface`,
              `ecs:DeleteNetworkInterface`,
              `ecs:DescribeInstanceAttribute`
            ],
            `Resource`: [
              `*`
            ],
            `Effect`: `Allow`
          },
          {
            `Action`: [
              `cr:Get*`,
              `cr:List*`,
              `cr:PullRepository`
            ],
            `Resource`: [
              `*`
            ],
            `Effect`: `Allow`
          },
          {
            `Action`: [
              `slb:*`
            ],
            `Resource`: [
              `*`
            ],
            `Effect`: `Allow`
          },
          {
            `Action`: [
              `cms:*`
            ],
            `Resource`: [
              `*`
            ],
            `Effect`: `Allow`
          },
          {
            `Action`: [
              `vpc:*`
            ],
            `Resource`: [
              `*`
            ],
            `Effect`: `Allow`
          },
          {
            `Action`: [
              `log:*`
            ],
            `Resource`: [
              `*`
            ],
            `Effect`: `Allow`
          }
        ]
      }
    },
    `K8sWorkerPolicyDocument`: {
      `Type`: `Json`,
      `Description`: `A policy document that describes what actions are allowed on which resources, worker.`,
      `Default`: {
        `Version`: `1`,
        `Statement`: [
          {
            `Action`: [
              `ecs:AttachDisk`,
              `ecs:DetachDisk`,
              `ecs:DescribeDisks`,
              `ecs:CreateDisk`,
              `ecs:CreateSnapshot`,
              `ecs:DeleteDisk`,
              `ecs:CreateNetworkInterface`,
              `ecs:DescribeNetworkInterfaces`,
              `ecs:AttachNetworkInterface`,
              `ecs:AssignPrivateIpAddresses`,
              `ecs:DetachNetworkInterface`,
              `ecs:DeleteNetworkInterface`,
              `ecs:DescribeInstanceAttribute`
            ],
            `Resource`: [
              `*`
            ],
            `Effect`: `Allow`
          },
          {
            `Action`: [
              `cr:Get*`,
              `cr:List*`,
              `cr:PullRepository`
            ],
            `Resource`: [
              `*`
            ],
            `Effect`: `Allow`
          },
          {
            `Action`: [
              `eci:CreateContainerGroup`,
              `eci:DeleteContainerGroup`,
              `eci:DescribeContainerGroups`,
              `eci:DescribeContainerLog`
            ],
            `Resource`: [`*`],
            `Effect`: `Allow`
          },
          { `Action`: [ `log:*` ], `Resource`: [ `*` ], `Effect`: `Allow` },
          { `Action`: [ `cms:*` ], `Resource`: [ `*` ], `Effect`: `Allow` },
          { `Action`: [ `vpc:*` ], `Resource`: [ `*` ], `Effect`: `Allow` }
        ]
      }
    }
  },
".
(** The conditions: what is to be made, *)
Definition tplConditions1 : string := raw "  `Conditions`: {
    `use_ipvs_mode`: {
      `Fn::Equals`: [
        `ipvs`,
        {
          `Ref`: `ProxyMode`
        }
      ]
    },
    `create_nat_gateway`: {
      `Fn::Equals`: [
        true,
        {
          `Ref`: `NatGateway`
        }
      ]
    },
    `not_create_nat_gateway`: {
      `Fn::Equals`: [
        false,
        {
          `Ref`: `NatGateway`
        }
      ]
    },
    `create_snat_entry`: {
      `Fn::Equals`: [
        true,
        {
          `Ref`: `SNatEntry`
        }
      ]
    },
    `not_create_snat_entry`: {
      `Fn::Equals`: [
        false,
        {
          `Ref`: `SNatEntry`
        }
      ]
    },
    `create_eip`: {
      `Fn::Equals`: [
        true,
        {
          `Ref`: `Eip`
        }
      ]
    },
    `not_create_eip`: {
      `Fn::Equals`: [
        false,
        {
          `Ref`: `Eip`
        }
      ]
    },
    `create_public_slb`: {
      `Fn::Equals`: [
        true,
        {
          `Ref`: `PublicSLB`
        }
      ]
    },
    `not_create_public_slb`: {
      `Fn::Equals`: [
        false,
        {
          `Ref`: `PublicSLB`
        }
      ]
    },
    `public_slb_ssh_enable`: {
      `Fn::And`: [`create_public_slb`, `ssh_enable`]
    },
    `create_master_data_disk`: {
      `Fn::Equals`: [
        true,
        {
          `Ref`: `MasterDataDisk`
        }
      ]
    },
    `no_container_cidr`: {
      `Fn::Equals`: [
        `None`,
        {
          `Ref`: `ContainerCIDR`
        }
      ]
    },
    `no_service_cidr`: {
      `Fn::Equals`: [
        `None`,
        {
          `Ref`: `ServiceCIDR`
        }
      ]
    },
    `create_new_vpc`: {
      `Fn::Equals`: [
        `None`,
        {
          `Ref`: `VpcId`
        }
      ]
    },
    `install_cloud_monitor`: {
      `Fn::Equals`: [
        true,
        {
          `Ref`: `CloudMonitorFlags`
        }
      ]
    },
    `user_ca`: {
      `Fn::Equals`: [
        `None`,
        {
          `Ref`: `UserCA`
        }
      ]
    },
".
(** and what was given. *)
Definition tplConditions2 : string := raw "    `enable_apiserver_audit`: {
      `Fn::Equals`: [
        true,
        {
          `Ref`: `AuditFlags`
        }
      ]
    },
    `network`: {
      `Fn::Equals`: [
        `None`,
        {
          `Ref`: `Network`
        }
      ]
    },
    `no_logging_type`: {
      `Fn::Equals`: [
        `None`,
        {
          `Ref`: `LoggingType`
        }
      ]
    },
    `no_sls_project_name`: {
      `Fn::Equals`: [
        `None`,
        {
          `Ref`: `SLSProjectName`
        }
      ]
    },
    `no_elasticsearch_host`: {
      `Fn::Equals`: [
        `None`,
        {
          `Ref`: `ElasticSearchHost`
        }
      ]
    },
    `no_elasticsearch_port`: {
      `Fn::Equals`: [
        `None`,
        {
          `Ref`: `ElasticSearchPort`
        }
      ]
    },
    `no_elasticsearch_user`: {
      `Fn::Equals`: [
        `None`,
        {
          `Ref`: `ElasticSearchUser`
        }
      ]
    },
    `no_elasticsearch_pass`: {
      `Fn::Equals`: [
        `None`,
        {
          `Ref`: `ElasticSearchPass`
        }
      ]
    },
    `cluster_ca`: {
      `Fn::Equals`: [
        `None`,
        {
          `Ref`: `CA`
        }
      ]
    },
    `cluster_cakey`: {
      `Fn::Equals`: [
        `None`,
        {
          `Ref`: `Key`
        }
      ]
    },
    `client_ca`: {
      `Fn::Equals`: [
        `None`,
        {
          `Ref`: `ClientCA`
        }
      ]
    },
    `create_new_vswitch`: {
      `Fn::Equals`: [
        `None`,
        {
          `Ref`: `VSwitchId`
        }
      ]
    },
    `gpu-enable`: {
      `Fn::Equals`: [
        true,
        {
          `Ref`: `GPUFlags`
        }
      ]
    },
    `ssh_enable`: {
      `Fn::Equals`: [
        true,
        {
          `Ref`: `SSHFlags`
        }
      ]
    },
    `master_no_password`: {
      `Fn::Equals`: [
        ``,
        {
          `Ref`: `MasterLoginPassword`
        }
      ]
    },
    `master_no_keypair`: {
      `Fn::Equals`: [
        ``,
        {
          `Ref`: `MasterKeyPair`
        }
      ]
    }
  },
".
(** The resources: the roles of masters and workers, *)
Definition tplRoles : string := raw "  `Resources`: {
    `KubernetesMasterRole`: {
      `Type`: `ALIYUN::RAM::Role`,
      `Properties`: {
        `RoleName`: {
          `Fn::Join`: [
            ``,
            [
              `KubernetesMasterRole-`,
              {
                `Ref`: `ALIYUN::StackId`
              }
            ]
          ]
        },
        `Description`: `Grant ecs with kubernetes master role.`,
        `AssumeRolePolicyDocument`: {
          `Statement`: [
            {
              `Action`: `sts:AssumeRole`,
              `Effect`: `Allow`,
              `Principal`: {
                `Service`: [
                  `ecs.aliyuncs.com`
                ]
              }
            }
          ],
          `Version`: `1`
        },
        `Policies`: [
          {
            `PolicyName`: {
              `Fn::Join`: [
                ``,
                [
                  `k8sMasterRolePolicy-`,
                  {
                    `Ref`: `ALIYUN::StackId`
                  }
                ]
              ]
            },
            `PolicyDocument`: {
              `Ref`: `K8SMasterPolicyDocument`
            }
          }
        ]
      }
    },
    `KubernetesWorkerRole`: {
      `Type`: `ALIYUN::RAM::Role`,
      `Properties`: {
        `RoleName`: {
          `Fn::Join`: [
            ``,
            [
              `KubernetesWorkerRole-`,
              {
                `Ref`: `ALIYUN::StackId`
              }
            ]
          ]
        },
        `Description`: `Grant ecs with kubernetes worker role.`,
        `AssumeRolePolicyDocument`: {
          `Statement`: [
            {
              `Action`: `sts:AssumeRole`,
              `Effect`: `Allow`,
              `Principal`: {
                `Service`: [
                  `ecs.aliyuncs.com`
                ]
              }
            }
          ],
          `Version`: `1`
        },
        `Policies`: [
          {
            `PolicyName`: {
              `Fn::Join`: [
                ``,
                [
                  `k8sWorkerRolePolicy-`,
                  {
                    `Ref`: `ALIYUN::StackId`
                  }
                ]
              ]
            },
            `PolicyDocument`: {
              `Ref`: `K8sWorkerPolicyDocument`
            }
          }
        ]
      }
    },
".
(** the gateway, its addresses and the switch, *)
Definition tplNetwork : string := raw "    `k8s_NAT_Gateway`: {
      `Condition`: `create_nat_gateway`,
      `Type`: `ALIYUN::VPC::NatGateway`,
      `Properties`: {
        `VpcId`: {
          `Fn::If`: [
            `create_new_vpc`,
            {
              `Ref`: `k8s_vpc`
            },
            {
              `Ref`: `VpcId`
            }
          ]
        },
        `VSwitchId`: {
          `Fn::If`: [
            `create_new_vswitch`,
            {
              `Ref`: `k8s_vswitch`
            },
            {
              `Ref`: `VSwitchId`
            }
          ]
        }
      }
    },
    `k8s_SNat_Eip`: {
      `Condition`: `create_eip`,
      `Type`: `ALIYUN::VPC::EIP`,
      `Properties`: {
        `InternetChargeType`: `PayByTraffic`,
        `Bandwidth`: `100`
      }
    },
    `k8s_NAT_Gateway_Bind_Eip`: {
      `Condition`: `create_eip`,
      `Type`: `ALIYUN::VPC::EIPAssociation`,
      `Properties`: {
        `InstanceId` : {
          `Fn::If`: [
            `create_nat_gateway`,
            {
              `Ref`: `k8s_NAT_Gateway`
            },
            {
              `Ref`: `NatGatewayId`
            }
          ]
        },
        `AllocationId`: {
          `Ref`: `k8s_SNat_Eip`
        }
      }
    },
    `k8s_vswitch`: {
      `Condition`: `create_new_vswitch`,
      `Type`: `ALIYUN::ECS::VSwitch`,
      `Properties`: {
        `VpcId`: {
          `Fn::If`: [
            `create_new_vpc`,
            {
              `Ref`: `k8s_vpc`
            },
            {
              `Ref`: `VpcId`
            }
          ]
        },
        `ZoneId`: {
          `Ref`: `ZoneId`
        },
        `CidrBlock`: `192.168.0.0/24`
      }
    },
".
(** the load balancers of the masters and their listeners, *)
Definition tplLoadBalancers : string := raw "    `k8s_master_slb_internet`: {
      `Condition`: `create_public_slb`,
      `Type`: `ALIYUN::SLB::LoadBalancer`,
      `Properties`: {
        `LoadBalancerName`: `K8sMasterSlbInternet`,
        `InternetChargeType`: `paybytraffic`,
        `AddressType`: `internet`,
        `LoadBalancerSpec`: `slb.s1.small`,
        `Tags`: [
          {
            `Key`: `kubernetes.do.not.delete`,
            `Value`: {`Ref`: `ALIYUN::StackName`}
          }
        ]
      }
    },
    `k8s_master_slb`: {
      `Type`: `ALIYUN::SLB::LoadBalancer`,
      `Properties`: {
        `LoadBalancerName`: `K8sMasterSlbIntranet`,
        `LoadBalancerSpec`: `slb.s1.small`,
        `VpcId`: {
          `Fn::If`: [
            `create_new_vpc`,
            {
              `Ref`: `k8s_vpc`
            },
            {
              `Ref`: `VpcId`
            }
          ]
        },
        `VSwitchId`: {
          `Fn::If`: [
            `create_new_vswitch`,
            {
              `Ref`: `k8s_vswitch`
            },
            {
              `Ref`: `VSwitchId`
            }
          ]
        },
        `AddressType`: `intranet`,
        `Tags`: [
          {
            `Key`: `kubernetes.do.not.delete`,
            `Value`: {`Ref`: `ALIYUN::StackName`}
          }
        ]
      }
    },
    `k8s_api_server_listener_internet`: {
      `Condition`: `create_public_slb`,
      `Type`: `ALIYUN::SLB::Listener`,
      `Properties`: {
        `ListenerPort`: 6443,
        `BackendServerPort`: 6443,
        `LoadBalancerId`: {
          `Ref`: `k8s_master_slb_internet`
        },
        `Protocol`: `tcp`,
        `Bandwidth`: -1
      }
    },
    `k8s_ssh_listener`: {
      `Condition`: `public_slb_ssh_enable`,
      `Type`: `ALIYUN::SLB::Listener`,
      `Properties`: {
        `ListenerPort`: 22,
        `BackendServerPort`: 22,
        `LoadBalancerId`: {
          `Ref`: `k8s_master_slb_internet`
        },
        `Protocol`: `tcp`,
        `Bandwidth`: -1
      }
    },
    `k8s_master_listener_boot`: {
      `Type`: `ALIYUN::SLB::Listener`,
      `Properties`: {
        `ListenerPort`: 9443,
        `Bandwidth`: -1,
        `LoadBalancerId`: {
          `Ref`: `k8s_master_slb`
        },
        `Protocol`: `tcp`,
        `HealthCheck`: {
          `Interval`: 10,
          `Port`: 32443
        },
        `BackendServerPort`: 32443
      }
    },
    `k8s_master_slb_listener`: {
      `Type`: `ALIYUN::SLB::Listener`,
      `Properties`: {
        `ListenerPort`: 6443,
        `Bandwidth`: -1,
        `LoadBalancerId`: {
          `Ref`: `k8s_master_slb`
        },
        `Protocol`: `tcp`,
        `HealthCheck`: {
          `Interval`: 10,
          `Port`: 6443
        },
        `BackendServerPort`: 6443
      }
    },
".
(** the scaling group of the masters, *)
Definition tplMasterGroup : string := raw "    `k8s_master_sg`: {
      `Type`: `ALIYUN::ESS::ScalingGroup`,
      `DependsOn`: [`k8s_master_listener_boot`,`k8s_master_slb_listener`,`k8s_sg`],
      `Properties`: {
        `MinSize`: `1`,
        `MaxSize`: `20`,
        `DefaultCooldown`: 0,
        `ScalingGroupName`: {
          `Fn::Join`: [
            `-`,
            [
              `kubernetes-master`,
              {
                `Ref`: `ALIYUN::StackId`
              }
            ]
          ]
        },
        `GroupDeletionProtection`: false,
        `VSwitchId`: {
          `Fn::If`: [
            `create_new_vswitch`,
            {
              `Ref`: `k8s_vswitch`
            },
            {
              `Ref`: `VSwitchId`
            }
          ]
        },
        `LoadBalancerIds`: [
          { `Ref`: `k8s_master_slb`},
          { `Fn::If`: [`create_public_slb`, {`Ref`: `k8s_master_slb_internet`},{`Ref`:`ALIYUN::NoValue`}]}
        ],
        `MultiAZPolicy`: `BALANCE`,
        `ProtectedInstances`: {
          `Ref`: `ProtectedInstances`
        },
        `RemovalPolicys`: [`OldestScalingConfiguration`, `NewestInstance`],
        `HealthCheckType`: `ECS`
      }
    },
".
(** its launch configuration, whose user data is replaced by the rendered script, *)
Definition tplMasterConfig : string := raw "    `k8s_master_sconfig`: {
      `Type`: `ALIYUN::ESS::ScalingConfiguration`,
      `Properties`: {
        `ScalingGroupId`: {
          `Ref`: `k8s_master_sg`
        },
        `IoOptimized`: `optimized`,
        `InstanceChargeType`: {
          `Ref`: `MasterInstanceChargeType`
        },
        `Period`: {
          `Ref`: `MasterPeriod`
        },
        `PeriodUnit`: {
          `Ref`: `MasterPeriodUnit`
        },
        `AutoRenew`: {
          `Ref`: `MasterAutoRenew`
        },
        `AutoRenewPeriod`: {
          `Ref`: `MasterAutoRenewPeriod`
        },
        `DiskMappings`: {
          `Fn::If`: [
            `create_master_data_disk`,
            [{
              `Category`: {
                `Ref`: `MasterDataDiskCategory`
              },
              `Size`: {
                `Ref`: `MasterDataDiskSize`
              },
              `Device`: {
                `Ref`: `MasterDataDiskDevice`
              }
            }],
            {
              `Ref`:`ALIYUN::NoValue`
            }
          ]
        },
        `RamRoleName`: {
          `Fn::GetAtt`: [
            `KubernetesMasterRole`,
            `RoleName`
          ]
        },
        `SecurityGroupId`: {
          `Ref`: `k8s_sg`
        },
        `ImageId`: {
          `Ref`: `MasterImageId`
        },
        `InstanceTypes`: [{
          `Ref`: `MasterInstanceType`
        }],
        `SystemDiskSize`: {
          `Ref`: `MasterSystemDiskSize`
        },
        `SystemDiskCategory`: {
          `Ref`: `MasterSystemDiskCategory`
        },
        `InstanceName`: {
          `Fn::Join`: [
            `-`,
            [
              `k8s-master`,
              {
                `Ref`: `ALIYUN::StackName`
              }
            ]
          ]
        },
        `Password`: {
          `Fn::If`: [
            `master_no_password`,
            {
              `Ref`: `ALIYUN::NoValue`
            },
            {
              `Ref`: `MasterLoginPassword`
            }
          ]
        },
        `KeyPairName`: {
          `Fn::If`: [
            `master_no_keypair`,
            {
              `Ref`: `ALIYUN::NoValue`
            },
            {
              `Ref`: `MasterKeyPair`
            }
          ]
        }
      }
    },
".
(** its rule, and what waits for the masters to report, *)
Definition tplMasterRules : string := raw "    `k8s_master_srule`: {
      `Type`: `ALIYUN::ESS::ScalingRule`,
      `Properties`: {
        `AdjustmentType`: `TotalCapacity`,
        `ScalingGroupId`: { `Ref`: `k8s_master_sg` },
        `AdjustmentValue`: 1
      }
    },
    `k8s_master_sg_enable`: {
      `Type`: `ALIYUN::ESS::ScalingGroupEnable`,
      `DependsOn`: [`k8s_master_listener_boot`,`k8s_master_slb_listener`,`k8s_sg`],
      `Properties`: {
        `ScalingGroupId`: { `Ref`: `k8s_master_sg` },
        `ScalingConfigurationId`: { `Ref`: `k8s_master_sconfig` },
        `ScalingRuleAris`: [
          {
            `Fn::GetAtt`: [
              `k8s_master_srule`,
              `ScalingRuleAri`
            ]
          }
        ],
        `ScalingRuleArisExecuteVersion`: {
          `Ref`: `ExecuteVersion`
        },
        `RemoveInstanceIds`: {
          `Ref`: `RemoveInstanceIds`
        }
      }
    },
    `k8s_master_waiter_handle`: {
      `Type`: `ALIYUN::ROS::WaitConditionHandle`
    },
    `k8s_master_waiter`: {
      `Type`: `ALIYUN::ROS::WaitCondition`,
      `Properties`: {
        `Timeout`: 300,
        `Count`: 1,
        `Handle`: {
          `Ref`: `k8s_master_waiter_handle`
        }
      }
    },
".
(** the network, the security group and the routes out. *)
Definition tplVpc : string := raw "    `k8s_vpc`: {
      `Condition`: `create_new_vpc`,
      `Type`: `ALIYUN::ECS::VPC`,
      `Properties`: {
        `CidrBlock`: `192.168.0.0/16`,
        `VpcName`: {
          `Fn::Join`: [
            `-`,
            [
              `vpc`,
              {
                `Ref`: `ALIYUN::StackName`
              }
            ]
          ]
        }
      }
    },
    `k8s_sg`: {
      `Type`: `ALIYUN::ECS::SecurityGroup`,
      `Properties`: {
        `Description` : `This is used by kubernetes. Do not delete please!`,
        `Tags`: [
          {
            `Key`: `kubernetes.do.not.delete`,
            `Value`: {`Ref`: `ALIYUN::StackName`}
          }
        ],
        `VpcId`: {
          `Fn::If`: [
            `create_new_vpc`,
            {
              `Ref`: `k8s_vpc`
            },
            {
              `Ref`: `VpcId`
            }
          ]
        },
        `SecurityGroupName`: `k8s_sg`,
        `SecurityGroupIngress`: [
          {
            `Description` : `This is used by kubernetes. Do not delete please!`,
            `PortRange`: `-1/-1`,
            `Priority`: 1,
            `SourceCidrIp`: {
              `Ref`: `ContainerCIDR`
            },
            `IpProtocol`: `all`,
            `NicType`: `intranet`
          },
          {
            `Description` : `This is used by kubernetes. Do not delete please!`,
            `SourceCidrIp`: `0.0.0.0/0`,
            `IpProtocol`: `icmp`,
            `NicType`: `intranet`,
            `Policy`: `accept`,
            `PortRange`: `-1/-1`,
            `Priority`: 1
          },
          {
            `Description` : `This is used by kubernetes. Do not delete please!`,
            `SourceCidrIp`: `100.104.0.0/16`,
            `IpProtocol`: `all`,
            `NicType`: `intranet`,
            `Policy`: `accept`,
            `PortRange`: `-1/-1`,
            `Priority`: 1
          }
        ],
        `SecurityGroupEgress`: [
          {
            `Description` : `This is used by kubernetes. Do not delete please!`,
            `PortRange`: `-1/-1`,
            `Priority`: 1,
            `IpProtocol`: `all`,
            `DestCidrIp`: `0.0.0.0/0`,
            `NicType`: `intranet`
          }
        ]
      }
    },
    `k8s_NAT_Gateway_SNATEntry`: {
      `Condition`: `create_snat_entry`,
      `Type`: `ALIYUN::ECS::SNatEntry`,
      `Properties`: {
        `SourceVSwitchId`: {
          `Fn::If`: [
            `create_new_vswitch`,
            {
              `Ref`: `k8s_vswitch`
            },
            {
              `Ref`: `VSwitchId`
            }
          ]
        },
        `SNatTableId`: {
          `Fn::If`: [
            `create_nat_gateway`,
            {
              `Fn::GetAtt`: [
                `k8s_NAT_Gateway`,
                `SNatTableId`
              ]
            },
            {
              `Ref`: `SnatTableId`
            }
          ]
        },
        `SNatIp`: {
          `Fn::If`: [
            `create_eip`,
            {
              `Fn::GetAtt`: [
                `k8s_NAT_Gateway_Bind_Eip`,
                `EipAddress`
              ]
            },
            {
              `Ref`: `EipAddress`
            }
          ]
        }
      }
    }
  },
".
(** The outputs. *)
Definition tplOutputs : string := raw "  `Outputs`: {
    `APIServerIntranet`: {
      `Value`: {
          `Fn::GetAtt`: [
            `k8s_master_slb`,
            `IpAddress`
          ]
      },
      `Description`: `API Server Inner IP`
    },
    `APIServerIntranetIP`: {
      `Value`: {
        `Fn::GetAtt`: [
          `k8s_master_slb`,
          `IpAddress`
        ]
      },
      `Description`: `API Server Inner IP`
    },
    `APIServerInternet`: {
      `Description`: `API Server Public IP`,
      `Value`: {
        `Fn::If`: [
          `create_public_slb`,
          {
            `Fn::GetAtt`: [`k8s_master_slb_internet`, `IpAddress`]
          },
          {
            `Ref`:`ALIYUN::NoValue`
          }
        ]
      }
    },
    `JumpHost`: {
      `Description`: `SSH login on the node by this ip`,
      `Value`: {
        `Fn::If`: [
          `create_public_slb`,
          {
            `Fn::GetAtt`: [
              `k8s_master_slb_internet`,
              `IpAddress`
            ]
          },
          ``
        ]

      }
    },
    `MasterIPs`: {
      `Value`: [],
      `Description`: `Private IP Master node`
    },
    `MasterInstanceIDs`: {
      `Value`: [],
      `Description`: `Ids of master node`
    },
    `VpcId`: {
      `Value`: {
        `Fn::If`: [
          `create_new_vpc`,
          {
            `Ref`: `k8s_vpc`
          },
          {
            `Ref`: `VpcId`
          }
        ]
      },
      `Description`: `VPC ID`
    },
    `VSwitchId`: {
      `Value`: {
        `Fn::If`: [
          `create_new_vswitch`,
          {
            `Ref`: `k8s_vswitch`
          },
          {
            `Ref`: `VSwitchId`
          }
        ]
      },
      `Description`: `Vswitch ID`
    },
    `NatGatewayId`: {
      `Description`: `Nat gateway ID`,
      `Value`: {
        `Fn::If`: [
          `create_nat_gateway`,
          {
            `Fn::GetAtt`: [
              `k8s_NAT_Gateway`,
              `NatGatewayId`
            ]
          },
          {
            `Ref`: `NatGatewayId`
          }
        ]
      }
    },
    `InternetSlbId`: {
      `Description`: `Internet SLB ID`,
      `Value`: {
        `Fn::If`: [
          `create_public_slb`,
          {
            `Fn::GetAtt`: [
              `k8s_master_slb_internet`,
              `LoadBalancerId`
            ]
          },
          ``
        ]
      }
    },
    `IntranetSlbId`: {
      `Description`: `Intranet SLB ID`,
      `Value`: {
        `Fn::GetAtt`: [
          `k8s_master_slb`,
          `LoadBalancerId`
        ]
      }
    },
    `ProxyMode`: {
      `Description`: `The mode we use in kube-proxy.`,
      `Value`: {
        `Ref`: `ProxyMode`
      }
    },
    `LastKnownError`: {
      `Description`: `Log Info Output`,
      `Value`: {}
    }
  }
}
".

(** [Template] *)
Definition Template : string :=
  newline +:+ tplNetworkParameters +:+ tplMasterParameters +:+ tplClusterParameters +:+ tplPolicyParameters
  +:+ tplConditions1 +:+ tplConditions2 +:+ tplRoles +:+ tplNetwork +:+ tplLoadBalancers +:+ tplMasterGroup
  +:+ tplMasterConfig +:+ tplMasterRules +:+ tplVpc +:+ tplOutputs.

(** The document it holds. *)
Definition templateDoc : json := Eval vm_compute in default JNull (readDocument Template).

Lemma Template_read : readDocument Template = Some templateDoc.
Proof. vm_cast_no_check (eq_refl (Some templateDoc)). Qed.

(** ** What a template refers to *)

(** The references the template language has, by the documentation of the
    resource orchestration service: a parameter, pseudo parameter or resource by
    [Ref], a resource by [Fn::GetAtt] or [DependsOn], a condition by [Fn::If],
    [Fn::And] or [Condition]; and a form none of these has. *)
Inductive reference : Type :=
| RRef (name : string)
| RResource (name : string)
| RCondition (name : string)
| RMalformed (form : string).
#[export] Instance reference_eq : EqDecision reference.
Proof. solve_decision. Defined.

Definition named (mk : string → reference) (form : string) (v : json) : reference :=
  match v with JStr s => mk s | _ => RMalformed form end.

(** The references an entry of a map makes itself. *)
Definition entryRefs (k : string) (v : json) : list reference :=
  if decide (k = "Ref") then [named RRef k v]
  else if decide (k = "Fn::GetAtt") then
    match v with JArr [r; JStr _] => [named RResource k r] | _ => [RMalformed k] end
  else if decide (k = "Fn::If") then
    match v with JArr [c; _; _] => [named RCondition k c] | _ => [RMalformed k] end
  else if decide (k = "Fn::And") then
    match v with JArr cs => map (named RCondition k) cs | _ => [RMalformed k] end
  else if decide (k = "Condition") then
    match v with JStr c => [RCondition c] | _ => [] end
  else if decide (k = "DependsOn") then
    match v with JArr rs => map (named RResource k) rs | v => [named RResource k v] end
  else [].

(** All references in a value. *)
Fixpoint references (v : json) : list reference :=
  match v with
  | JArr l => flat_map references l
  | JObj l => flat_map (λ kv, entryRefs kv.1 kv.2 ++ references kv.2) l
  | _ => []
  end.

(** The entries of a section. *)
Definition section (name : string) (doc : json) : list (string * json) :=
  match at_path doc [name] with Some (JObj l) => l | _ => [] end.
Definition declared (name : string) (doc : json) : list string := (section name doc).*1.

Definition pseudoParameters : list string := ["ALIYUN::StackId"; "ALIYUN::StackName"; "ALIYUN::NoValue"].

Definition resolves (doc : json) (r : reference) : Prop :=
  match r with
  | RRef n => n ∈ pseudoParameters ++ declared "Parameters" doc ++ declared "Resources" doc
  | RResource n => n ∈ declared "Resources" doc
  | RCondition n => n ∈ declared "Conditions" doc
  | RMalformed _ => False
  end.
#[export] Instance resolves_dec doc r : Decision (resolves doc r).
Proof. destruct r; simpl; apply _. Defined.

(** The policies are documents of their own, in which [Condition] is not a
    reference; the rest of the parameters refers to nothing. *)
Definition bodies (doc : json) : list json :=
  (section "Conditions" doc).*2 ++ (section "Resources" doc).*2 ++ (section "Outputs" doc).*2.

(** Everything referred to is there. *)
Definition closed (doc : json) : Prop := Forall (resolves doc) (flat_map references (bodies doc)).
#[export] Instance closed_dec doc : Decision (closed doc).
Proof. unfold closed. apply _. Defined.

(** The resources a resource needs before it. *)
Definition needs (doc : json) (body : json) : list string :=
  List.filter (λ n, bool_decide (n ∈ declared "Resources" doc))
    (flat_map (λ r, match r with RRef n | RResource n => [n] | _ => [] end) (references body)).

(** The resources in an order in which they can be made: in each round those
    whose needs are met. *)
Fixpoint creationOrder (doc : json) (rounds : nat) (made : list string) : list string :=
  match rounds with
  | O => made
  | S rounds =>
      let next := List.filter (λ r : string * json,
                    bool_decide (r.1 ∉ made) && forallb (λ n, bool_decide (n ∈ made)) (needs doc r.2))
                    (section "Resources" doc) in
      creationOrder doc rounds (made ++ next.*1)
  end.
Definition ordered (doc : json) : list string := creationOrder doc (length (section "Resources" doc)) [].

(** They can all be made in some order, none before what it needs. *)
Definition creatable (doc : json) : Prop :=
  ∃ order, order ≡ₚ declared "Resources" doc ∧
    ∀ before r after body n, order = before ++ r :: after → (r, body) ∈ section "Resources" doc →
      n ∈ needs doc body → n ∈ before.

(** A rank for every resource, above those of its needs. *)
Definition rankOf (order : list string) (r : string) : nat :=
  from_option fst (length order) (list_find (λ x, r = x) order).
Definition ranked (doc : json) (order : list string) : bool :=
  forallb (λ r : string * json, forallb (λ n, bool_decide (rankOf order n < rankOf order r.1)) (needs doc r.2))
    (section "Resources" doc).

(** The executable check of a template. *)
Definition wellFormed (doc : json) : bool :=
  bool_decide (closed doc) && bool_decide (NoDup (ordered doc)) &&
  bool_decide (length (ordered doc) = length (declared "Resources" doc)) &&
  bool_decide (ordered doc ⊆ declared "Resources" doc) && ranked doc (ordered doc).

Lemma rankOf_at before r after :
  NoDup (before ++ r :: after) → rankOf (before ++ r :: after) r = length before.
Proof.
  intros Hn. unfold rankOf. erewrite (proj2 (list_find_Some _ _ (length before) r)); [done|]. split_and!.
  - by rewrite lookup_app_r, Nat.sub_diag by lia.
  - done.
  - intros j y Hj Hlt <-. rewrite lookup_app_l in Hj by done.
    apply NoDup_app in Hn as (_ & Hd & _). apply (Hd r); [by eapply list_elem_of_lookup_2|by left].
Qed.

Lemma rankOf_before order n k : rankOf order n < k → k ≤ length order → n ∈ take k order.
Proof.
  unfold rankOf. destruct (list_find (λ x, n = x) order) as [[i y]|] eqn:E; cbn; [|lia].
  apply list_find_Some in E as (Hi & <- & _). intros Hlt _.
  apply (list_elem_of_lookup_2 _ i). rewrite lookup_take_lt by lia. done.
Qed.

Lemma wellFormed_sound doc : wellFormed doc = true → closed doc ∧ creatable doc.
Proof.
  unfold wellFormed. rewrite !andb_true_iff, !bool_decide_eq_true.
  intros ((((Hc & Hn) & Hl) & Hs) & Hr). split; [done|]. exists (ordered doc). split.
  { apply submseteq_length_Permutation; [by apply NoDup_submseteq|lia]. }
  intros before r after body n Ho Hb Hin. unfold ranked in Hr. rewrite forallb_forall in Hr.
  apply list_elem_of_In in Hb, Hin. specialize (Hr _ Hb). cbn in Hr. rewrite forallb_forall in Hr.
  specialize (Hr _ Hin). apply bool_decide_eq_true in Hr. rewrite Ho in Hr, Hn. rewrite rankOf_at in Hr by done.
  apply (rankOf_before _ _ (length before)) in Hr; [|rewrite length_app; lia]. by rewrite take_app_length in Hr.
Qed.

(** ** The template as it is embedded *)
Lemma templateDoc_wellFormed : wellFormed templateDoc = true.
Proof. by vm_compute. Qed.

(** ** Documents with sorted maps *)
Lemma find_perm (k : string) (l l' : list (string * json)) : NoDup l.*1 → l ≡ₚ l' →
  List.find (λ kv, bool_decide (kv.1 = k)) l = List.find (λ kv, bool_decide (kv.1 = k)) l'.
Proof.
  intros Hn Hp. revert Hn. induction Hp as [|[a x] l l' _ IH|[a x] [b y] l|l1 l2 l3 H1 IH1 _ IH2]; intros Hn.
  - done.
  - cbn. inversion Hn; subst. by rewrite IH.
  - cbn. cbn in Hn. apply NoDup_cons in Hn as [Hne _]. rewrite not_elem_of_cons in Hne. destruct Hne as [Hne _].
    destruct (decide (a = k)), (decide (b = k)); rewrite ?bool_decide_true, ?bool_decide_false by done; congruence.
  - rewrite IH1 by done. apply IH2. by rewrite <- H1.
Qed.

Lemma find_map_sorted (k : string) (l : list (string * json)) :
  List.find (λ kv : string * json, bool_decide (kv.1 = k)) (map (λ kv : string * json, (kv.1, sorted kv.2)) l)
  = option_map (λ kv : string * json, (kv.1, sorted kv.2)) (List.find (λ kv : string * json, bool_decide (kv.1 = k)) l).
Proof. induction l as [|[a x] l IH]; [done|]. cbn. by destruct (bool_decide (a = k)). Qed.

Lemma plain_entry l kv : plain (JObj l) = true → kv ∈ l → plain kv.2 = true.
Proof. intros [_ Hp]%plain_obj Hin. rewrite Forall_forall in Hp. by apply Hp. Qed.

(** Sorting moves no value to another path. *)
Lemma at_path_sorted v p : plain v = true → at_path (sorted v) p = option_map sorted (at_path v p).
Proof.
  revert v. induction p as [|k p IH]; intros v Hp; [done|]. destruct v as [| | | | |l]; try done. cbn [at_path sorted].
  rewrite (find_perm k _ (map (λ kv, (kv.1, sorted kv.2)) l)).
  - rewrite find_map_sorted. destruct (List.find _ l) as [kv|] eqn:E; [|done]. cbn.
    apply IH. apply find_some in E as [E _]. apply list_elem_of_In in E. by eapply plain_entry.
  - apply plain_sorted in Hp. by apply plain_obj in Hp as [Hn _].
  - apply sortKeys_perm.
Qed.

(** Writing a plain value at a path keeps a document plain. *)
Lemma set_entry_keys k v m : (set_entry k v m).*1 = if decide (k ∈ m.*1) then m.*1 else m.*1 ++ [k].
Proof.
  induction m as [|[a x] m IH]; [done|]. cbn [set_entry]. destruct (decide (a = k)) as [->|Hne]; cbn.
  { rewrite decide_True by (by left). done. }
  change (list_fmap _ _ fst (set_entry k v m)) with ((set_entry k v m).*1). rewrite IH.
  destruct (decide (k ∈ m.*1)); [rewrite decide_True by (by right)|rewrite decide_False by (rewrite not_elem_of_cons; naive_solver)]; done.
Qed.

Lemma plain_set_entry k v m :
  plain (JObj m) = true → ValidString k = true → plain v = true → plain (JObj (set_entry k v m)) = true.
Proof.
  rewrite !plain_obj. intros [Hn HF] Hk Hv. split.
  - rewrite set_entry_keys. destruct (decide _); [done|]. apply NoDup_app.
    split_and!; [done| |apply NoDup_singleton]. by intros x Hx ->%list_elem_of_singleton.
  - clear Hn. induction HF as [|[a x] m Hx HF IH]; cbn [set_entry]; [by repeat constructor|].
    destruct (decide (a = k)); constructor; done.
Qed.

Lemma get_entry_elem k m v : get_entry k m = Some v → ∃ kv, kv ∈ m ∧ kv.2 = v.
Proof.
  unfold get_entry. destruct (List.find _ m) as [kv|] eqn:E; [|done]. intros [= <-].
  apply find_some in E as [E _]. exists kv. by rewrite list_elem_of_In.
Qed.

Lemma plain_put p v x y :
  Forall (λ k, ValidString k = true) p → plain v = true → plain x = true → put p v x = Some y → plain y = true.
Proof.
  intros HF Hv. revert x y. induction HF as [|k p Hk _ IH]; intros x y Hx; cbn [put]; [by intros [= <-]|].
  destruct x as [| | | | |m]; try done. destruct (put p v _) as [z|] eqn:E; [|done]. intros [= <-].
  apply plain_set_entry; [done|done|]. eapply IH; [|exact E].
  destruct (get_entry k m) as [w|] eqn:Ew; [|done]. apply get_entry_elem in Ew as (kv & Hin & <-). by eapply plain_entry.
Qed.

(** ** The template with the script in it *)
Definition userDataPath : list string := userDataKeys ++ ["Fn::Join"].
Definition renderedDoc (data : string) : json := default JNull (put userDataPath (userDataJoin data) templateDoc).

Lemma templateDoc_plain : plain templateDoc = true.
Proof. by vm_compute. Qed.

Lemma renderedDoc_put data : put userDataPath (userDataJoin data) templateDoc = Some (renderedDoc data).
Proof. by vm_compute. Qed.

Lemma renderedDoc_plain data : ValidString data = true → plain (renderedDoc data) = true.
Proof.
  intros Hd. eapply plain_put; [| |exact templateDoc_plain|apply renderedDoc_put].
  - by repeat constructor.
  - cbn -[ValidString]. by rewrite Hd.
Qed.

Lemma renderedDoc_wellFormed data : wellFormed (sorted (renderedDoc data)) = true.
Proof. by vm_compute. Qed.

(** The parameters [Create] passes. *)
Definition parameterNames : list string :=
  ["MasterImageId"; "SSHFlags"; "ZoneId"; "KubernetesVersion"; "DockerVersion"; "EtcdVersion";
   "MasterLoginPassword"; "MasterInstanceType"; "ProxyMode"; "PublicSLB"].

Definition hasDefault (decl : json) : bool := bool_decide (is_Some (at_path decl ["Default"])).

Lemma rendered_parameters data :
  let doc := sorted (renderedDoc data) in
  forallb (λ k, bool_decide (k ∈ declared "Parameters" doc)) parameterNames &&
  forallb (λ kv : string * json, hasDefault kv.2) (section "Parameters" doc) &&
  forallb (λ k, bool_decide (k ∈ declared "Outputs" doc)) ["APIServerIntranet"; "APIServerInternet"] = true.
Proof. by vm_compute. Qed.

(** ** The resources of the stack

    Whether a condition holds is the service's to say, from the parameters given
    with the stack. *)
Class RosConditions : Type := condHolds : json → list (string * string) → string → bool.
(** [Fn::Equals] of a value and a parameter that is not given: its default is
    compared. *)
Class RosConditionsSpec `{RosConditions} : Prop :=
  holds_default doc params c x p :
    at_path doc ["Conditions"; c] = Some (JObj [("Fn::Equals", JArr [x; JObj [("Ref", JStr p)]])]) →
    p ∉ params.*1 → at_path doc ["Parameters"; p; "Default"] = Some x → condHolds doc params c = true.

(** The resources made: those without a condition, or with one that holds. *)
Definition made `{RosConditions} (doc : json) (params : list (string * string)) : list string :=
  List.filter (λ k, match at_path doc ["Resources"; k; "Condition"] with
                    | Some (JStr c) => condHolds doc params c
                    | Some _ => false
                    | None => true
                    end) (declared "Resources" doc).

(** The keys under which the provider looks for a resource. *)
Definition resourceKeys : list string :=
  ["k8s_vpc"; "k8s_vswitch"; "k8s_sg"; "k8s_master_sg"; "k8s_master_srule"; "k8s_master_sconfig"].

(** A condition that holds unless one of the parameters given changes it. *)
Definition byDefault (doc : json) (given : list string) (c : string) : bool :=
  match at_path doc ["Conditions"; c] with
  | Some (JObj [(f, JArr [JStr x; JObj [(g, JStr p)]])]) =>
      bool_decide (f = "Fn::Equals") && bool_decide (g = "Ref") && bool_decide (p ∉ given) &&
      match at_path doc ["Parameters"; p; "Default"] with Some (JStr y) => bool_decide (x = y) | _ => false end
  | _ => false
  end.

Lemma rendered_resources data :
  let doc := sorted (renderedDoc data) in
  forallb (λ k, bool_decide (k ∈ declared "Resources" doc) &&
                match at_path doc ["Resources"; k; "Condition"] with
                | Some (JStr c) => byDefault doc parameterNames c
                | Some _ => false
                | None => true
                end) resourceKeys = true.
Proof. by vm_compute. Qed.

Lemma byDefault_holds `{RosConditionsSpec} doc params given c :
  params.*1 ⊆ given → byDefault doc given c = true → condHolds doc params c = true.
Proof.
  intros Hg. unfold byDefault. destruct (at_path doc ["Conditions"; c]) as [v|] eqn:Ec; [|done].
  destruct v as [| | | | |[|[f [| | | |[|[| | |x| |] [|[| | | | |[|[g [| | |p| |]] [|? ?]]] [|? ?]]]|]] [|? ?]]]; try done.
  destruct (at_path doc ["Parameters"; p; "Default"]) as [[| | |y| |]|] eqn:Ep; rewrite ?andb_false_r; try done.
  rewrite !andb_true_iff, !bool_decide_eq_true. intros [[[-> ->] Hp] ->].
  eapply holds_default; [exact Ec| |exact Ep]. intros Hin. apply Hp. by apply Hg.
Qed.

Lemma made_resources `{RosConditionsSpec} data params :
  params.*1 ⊆ parameterNames → resourceKeys ⊆ made (sorted (renderedDoc data)) params.
Proof.
  intros Hg k Hk. pose proof (rendered_resources data) as HF. cbv zeta in HF. rewrite forallb_forall in HF.
  specialize (HF k). rewrite <- list_elem_of_In, andb_true_iff, bool_decide_eq_true in HF.
  destruct (HF Hk) as [Hd Hc]. unfold made. rewrite list_elem_of_In, filter_In. split; [by apply list_elem_of_In|].
  destruct (at_path _ _) as [[| | |c| |]|]; try done. by eapply byDefault_holds.
Qed.

(** A key listed once or more is found, with the last value it has. *)
Lemma listed_lookup (rs : list (string * string)) (m : gmap string Value) k :
  (∃ pid, (k, pid) ∈ rs) →
  ∃ pid, (k, pid) ∈ rs ∧
    foldl (λ m r, <[r.1 := MkValue r.1 (AStr r.2)]> m) m rs !! k = Some (MkValue k (AStr pid)).
Proof.
  induction rs as [|[a x] rs IH] using rev_ind; [by intros [? ?%elem_of_nil]|]. intros (pid & Hin).
  rewrite foldl_app. cbn [foldl fst snd]. destruct (decide (a = k)) as [->|Hne].
  - exists x. rewrite lookup_insert_eq, elem_of_app, list_elem_of_singleton. auto.
  - rewrite lookup_insert_ne by done. apply elem_of_app in Hin as [Hin|Hin].
    + destruct IH as (q & Hq & E); [eauto|]. exists q. rewrite elem_of_app. auto.
    + apply list_elem_of_singleton in Hin. congruence.
Qed.

#[local] Opaque templateDoc renderedDoc Template writeDocument readDocument.

Section create_embedded.
Context {W : Type} `{Env W} `{PkgErrors, !PkgErrorsSpec} `{GoFmt} `{Base64} `{Yaml ClusterSpec} `{Yaml ContextCFG}.
Context `{LocalZone} `{MapRange, !MapRangeSpec}.

(** The script of the first master. *)
Definition firstScript (boot : ClusterSpec) (p : Api.Provider) : string :=
  USER_DATA "Hybrid" (ku_KubeadmToken (cs_Kubernetes boot)) (cs_CloudType boot) "default"
    (Utils.PrettyYaml (masterDefaults boot)) (pv_Name p).

Lemma RenderUserData_embedded ctx boot p (s : St W) :
  x_BootCFG ctx = Some (Some boot) → bi_Provider (cs_Bind boot) = Some p →
  RenderUserData ctx Template true s =
    (Ret (set_BootCFG (Some (masterDefaults boot)) ctx, (writeDocument (renderedDoc (firstScript boot p)), None)), s).
Proof.
  intros Hb Hp. assert (BootCFG ctx = Some boot) as Hb' by (unfold BootCFG; by rewrite Hb).
  unfold RenderUserData, ToUnstructured. cbn [Unmarshal GoJson]. rewrite Template_read.
  pose proof (renderedDoc_put (firstScript boot p)) as Hput.
  destruct templateDoc as [| | | | |m]; try done. 
  rewrite bind_unfold, (UserData_Master boot p) by done. cbn [write_BootCFG]. unfold write_BootCFG. rewrite Hb.
  fold (firstScript boot p). 
  destruct (userData_path true) as [Hk HJ]. rewrite <- HJ.
  pose proof (SetValue_put userDataPath (userDataJoin (firstScript boot p)) m Hk) as Hs.
  rewrite Hput in Hs. destruct Hs as (m' & Hm & Hs). unfold userDataPath in Hs. rewrite Hs, Hm. done.
Qed.

(** C38: the embedded template is always rendered: whatever the specification and
    the state of the world, the result is a JSON text that reads back as a
    template in which every reference resolves and whose resources can be made in
    some order; it has the script of the first master, between the addresses and
    the notification, where the launch configuration has its user data, and
    everywhere else what the embedded template has. *)
Theorem RenderUserData_Template ctx boot p (s : St W) :
  x_BootCFG ctx = Some (Some boot) → bi_Provider (cs_Bind boot) = Some p →
  ValidString (firstScript boot p) = true →
  ∃ text doc,
    RenderUserData ctx Template true s =
      (Ret (set_BootCFG (Some (masterDefaults boot)) ctx, (text, None)), s) ∧
    readDocument text = Some doc ∧ closed doc ∧ creatable doc ∧
    at_path doc userDataPath = Some (userDataJoin (firstScript boot p)) ∧
    ∀ q, apart userDataPath q → at_path doc q = option_map sorted (at_path templateDoc q).
Proof.
  intros Hb Hp Hv. set (data := firstScript boot p). pose proof (renderedDoc_plain data Hv) as Hpl.
  exists (writeDocument (renderedDoc data)), (sorted (renderedDoc data)).
  split; [by apply RenderUserData_embedded|]. split; [by apply read_write|].
  destruct (wellFormed_sound _ (renderedDoc_wellFormed data)) as [Hc Ho]. split; [done|]. split; [done|]. split.
  - rewrite at_path_sorted by done. rewrite (at_put _ _ _ _ (renderedDoc_put data)). done.
  - intros q Hq. rewrite at_path_sorted by done. by rewrite (at_put_apart _ _ _ _ _ (renderedDoc_put data) Hq).
Qed.

(** The parameters that are passed. *)
Lemma Transform_names boot k :
  k ∈ (Transform (stackParameters boot)).*1 → k ∈ parameterNames.
Proof.
  rewrite list_elem_of_fmap. intros ([k' v] & -> & Hin). unfold Transform in Hin. rewrite range_order_perm in Hin.
  apply elem_of_map_to_list, elem_of_list_to_map_2 in Hin. unfold stackParameters in Hin.
  by apply (list_elem_of_fmap_2 fst) in Hin.
Qed.

(** C14: creating a cluster from the embedded template asks the service for one
    stack, whose template is well formed, declares every parameter that is passed
    with it, gives a default to all the others, and has the two outputs the
    addresses of the cluster are read from. *)
Theorem Create_Template n ctx boot p (s : St W) :
  x_BootCFG ctx = Some (Some boot) → bi_Provider (cs_Bind boot) = Some p → ad_TemplateFile n = EmptyString →
  ValidString (firstScript boot p) = true →
  ∃ text doc params r s' rest,
    Create Template n ctx s = (Ret r, s') ∧
    log s' = log s ++ Sdk (CreateStack (ad_Region n) (cs_ClusterID boot) text true 60 params) :: rest ∧
    (∀ c, c ∈ rest → c = Now) ∧
    readDocument text = Some doc ∧ closed doc ∧ creatable doc ∧
    params.*1 ⊆ declared "Parameters" doc ∧
    (∀ k decl, (k, decl) ∈ section "Parameters" doc → k ∉ params.*1 → hasDefault decl = true) ∧
    ["APIServerIntranet"; "APIServerInternet"] ⊆ declared "Outputs" doc.
Proof.
  intros Hb Hp Ht Hv. set (data := firstScript boot p).
  assert (BootCFG ctx = Some boot) as Hb' by (unfold BootCFG; by rewrite Hb).
  set (text := writeDocument (renderedDoc data)). set (doc := sorted (renderedDoc data)).
  set (params := Transform (stackParameters boot)).
  set (c := Sdk (CreateStack (ad_Region n) (cs_ClusterID boot) text true 60 params)).
  assert (∃ r s' rest, Create Template n ctx s = (Ret r, s') ∧ log s' = log s ++ c :: rest ∧ ∀ x, x ∈ rest → x = Now)
    as (r & s' & rest & HC & Hl & Hr).
  { assert (∀ ctx b, BootCFG ctx = Some b → theBootCFG ctx = (mret b : IO W ClusterSpec)) as HT.
    { intros ctx' b E. unfold theBootCFG. by rewrite E. }
    unfold Create. rewrite decide_True, bind_ret_l, (HT ctx boot), bind_ret_l by done.
    rewrite bind_unfold, (RenderUserData_embedded ctx boot p) by done. fold data text.
    rewrite (HT _ (masterDefaults boot)), bind_ret_l by done. unfold sdk_call.
    change (cs_ClusterID (masterDefaults boot)) with (cs_ClusterID boot). fold params c.
    step_perform. destruct (env_step c (world s)) as [[stack [e|]] w]; cbn [fst snd].
    - eexists _, _, []. split; [done|]. split; [done|]. by intros x Hx%elem_of_nil.
    - step_perform. step_perform. eexists _, _, [Now; Now]. split; [done|]. split; [cbn; by rewrite <- !app_assoc|].
      intros x. rewrite !elem_of_cons. intros [->|[->|Hx%elem_of_nil]]; done. }
  destruct (wellFormed_sound _ (renderedDoc_wellFormed data)) as [Hc Ho].
  pose proof (rendered_parameters data) as Hd. cbv zeta in Hd. fold doc in Hd, Hc, Ho.
  rewrite !andb_true_iff, !forallb_forall in Hd. destruct Hd as [[Hd1 Hd2] Hd3].
  exists text, doc, params, r, s', rest.
  split; [exact HC|]. split; [exact Hl|]. split; [exact Hr|].
  split; [by apply read_write, renderedDoc_plain|]. split; [exact Hc|]. split; [exact Ho|]. split_and!.
  - intros k Hk%Transform_names. specialize (Hd1 k). rewrite <- list_elem_of_In, bool_decide_eq_true in Hd1. auto.
  - intros k decl Hin _. apply (Hd2 (k, decl)). by apply list_elem_of_In.
  - intros k Hk. specialize (Hd3 k). rewrite <- list_elem_of_In, bool_decide_eq_true in Hd3. auto.
Qed.

(** C39: on a stack made from the rendered embedded template with the parameters
    of any specification, whose resources the service lists, the provider finds
    every resource it looks for: reading its network, switch, security group,
    scaling group, rule and launch configuration never panics on a missing key,
    and gives an identifier the service listed under that name. *)
Theorem GetInfraStack_Template `{RosConditionsSpec} n ctx id boot data rs (s : St W) :
  cis_ResourceId (cid_Spec id) ≠ EmptyString →
  (env_step (Sdk (ListStackResources (ad_Region n) (cis_ResourceId (cid_Spec id)))) (world s)).1 = (rs, None) →
  (∀ k, k ∈ made (sorted (renderedDoc data)) (Transform (stackParameters boot)) → ∃ pid, (k, pid) ∈ rs) →
  ∃ stack s', GetInfraStack n ctx id s = (Ret (stack, None), s') ∧
    (∀ k, k ∈ resourceKeys → ∃ pid, (k, pid) ∈ rs ∧ ∀ t : St W, stackVal stack k t = (Ret pid, t)) ∧
    (∃ sg, ("k8s_sg", sg) ∈ rs ∧ ∀ t : St W, SecrityGroup stack t = (Ret sg, t)) ∧
    (∃ vsw, ("k8s_vswitch", vsw) ∈ rs ∧ ∀ t : St W, Vswitchs stack t = (Ret vsw, t)).
Proof.
  intros Hid Hrs Hmade.
  set (stack := foldl (λ m r, <[r.1 := MkValue r.1 (AStr r.2)]> m) ∅ rs : gmap string Value).
  assert (∀ k, k ∈ resourceKeys → ∃ pid, (k, pid) ∈ rs ∧ stack !! k = Some (MkValue k (AStr pid))) as Hfound.
  { intros k Hk. destruct (Hmade k) as [pid Hpid].
    { eapply made_resources; [|exact Hk]. intros x. apply Transform_names. }
    apply (listed_lookup rs ∅ k). eauto. }
  eexists stack, _. split.
  { unfold GetInfraStack, sdk_call. rewrite decide_False by done. step_perform. rewrite Hrs. done. }
  split_and!.
  - intros k Hk. destruct (Hfound k Hk) as (pid & Hin & E). exists pid. split; [done|]. intros t.
    unfold stackVal. by rewrite E.
  - destruct (Hfound "k8s_sg") as (pid & Hin & E); [by repeat constructor|]. exists pid. split; [done|].
    intros t. unfold SecrityGroup, stackOr. by rewrite E.
  - destruct (Hfound "k8s_vswitch") as (pid & Hin & E); [by repeat constructor|]. exists pid. split; [done|].
    intros t. unfold Vswitchs, stackOr. by rewrite E.
Qed.
End create_embedded.

(** ** A service, for evaluation *)
Module SimRos.
(** A parameter is given, or has its default. *)
Definition valueOf (doc : json) (params : list (string * string)) (p : string) : option json :=
  match List.find (λ kv, bool_decide (kv.1 = p)) params with
  | Some kv => Some (match at_path doc ["Parameters"; p; "Type"] with
                     | Some (JStr "Boolean") => JBool (bool_decide (kv.2 = "true"))
                     | _ => JStr kv.2
                     end)
  | None => at_path doc ["Parameters"; p; "Default"]
  end.
#[export] Instance ros_conditions : RosConditions := λ doc params c,
  match at_path doc ["Conditions"; c] with
  | Some (JObj [(f, JArr [x; JObj [(g, JStr p)]])]) =>
      bool_decide (f = "Fn::Equals") && bool_decide (g = "Ref") && bool_decide (option_map writeDocument (valueOf doc params p) = Some (writeDocument x))
  | _ => false
  end.
#[export] Instance ros_conditions_spec : RosConditionsSpec.
Proof.
  intros doc params c x p Hc Hp Hd. unfold condHolds, ros_conditions. rewrite Hc.
  rewrite !bool_decide_true; try done. unfold valueOf.
  destruct (List.find _ params) as [kv|] eqn:E; [|by rewrite Hd].
  exfalso. apply find_some in E as [Hin Hk]. apply bool_decide_eq_true in Hk as <-. apply Hp.
  apply list_elem_of_In in Hin. by apply list_elem_of_fmap_2.
Qed.

(** It lists everything the template names. *)
Definition allKeys : list string := declared "Resources" (sorted (renderedDoc "script")).
Definition resources (c : call) (t : Z) : option (reply c) :=
  match c with
  | Sdk (ListStackResources _ _) => Some (map (λ k, (k, k +:+ "-1")) allKeys, None)
  | _ => None
  end.
#[export] Instance ros_env : Env Z := SimEnv.scripted resources.
End SimRos.

(** ** Witnesses *)
Import Sim SimEnv SimWait SimAli SimGroups SimRos.

Definition prv : Api.Provider := MkProvider "alibaba" "cn-hangzhou".

Lemma RenderUserData_Template_witness :
  ∃ text doc, readDocument text = Some doc ∧ closed doc ∧
    at_path doc ["Outputs"; "APIServerIntranet"; "Value"] = Some (GetAtt "k8s_master_slb" "IpAddress").
Proof.
  destruct (RenderUserData_Template (W:=Z) SimStack.bootCtx SimStack.boot prv (start_at 0))
    as (text & doc & _ & Hr & Hc & _ & _ & Hq); [reflexivity|reflexivity|by vm_compute|].
  exists text, doc. split; [exact Hr|]. split; [exact Hc|].
  rewrite (Hq ["Outputs"; "APIServerIntranet"; "Value"]); [|left; discriminate]. by vm_compute.
Defined.

Lemma Create_Template_witness :
  ∃ text doc params r s' rest, readDocument text = Some doc ∧ params.*1 ⊆ declared "Parameters" doc ∧
    Create (W:=Z) Template dev SimStack.bootCtx (start_at 0) = (Ret r, s') ∧
    log s' = Sdk (CreateStack "cn-hangzhou" "k8s" text true 60 params) :: rest.
Proof.
  destruct (Create_Template (W:=Z) dev SimStack.bootCtx SimStack.boot prv (start_at 0))
    as (text & doc & params & r & s' & rest & Hc & Hl & _ & Hr & _ & _ & Hp & _);
    [reflexivity|reflexivity|reflexivity|by vm_compute|].
  exists text, doc, params, r, s', rest. split; [exact Hr|]. split; [exact Hp|]. split; [exact Hc|exact Hl].
Defined.

(** The stack of a made cluster. *)
Definition madeId : ClusterId :=
  MkClusterId noType (metaNamed "k8s") (MkClusterIdSpec "stack-1" [] EmptyString EmptyString None SimStack.boot).

Lemma GetInfraStack_Template_witness :
  ∃ stack s', GetInfraStack (W:=Z) dev SimStack.bootCtx madeId (start_at 0) = (Ret (stack, None), s') ∧
    ∀ t : St Z, Vswitchs stack t = (Ret "k8s_vswitch-1", t).
Proof.
  destruct (GetInfraStack_Template (W:=Z) dev SimStack.bootCtx madeId SimStack.boot "script"
              (map (λ k, (k, k +:+ "-1")) SimRos.allKeys) (start_at 0))
    as (stack & s' & Hg & _ & _ & vsw & Hin & Hv); [discriminate|reflexivity| |].
  - intros k Hk. exists (k +:+ "-1"). apply list_elem_of_fmap. exists k. split; [reflexivity|].
    apply list_elem_of_In, filter_In in Hk as [Hk _]. apply list_elem_of_In. exact Hk.
  - exists stack, s'. split; [exact Hg|].
    assert (vsw = "k8s_vswitch-1") as <-; [|exact Hv].
    apply list_elem_of_fmap in Hin as (k & Hk & _). injection Hk as <- ->. reflexivity.
Defined.
