(* ===== verification/KubeClient.v ===== *)
(** * Applying objects to a cluster (pkg/utils/kubeclient)

    apply.go, the [kubectl apply] of the operator: every object of a text is
    created, or patched against the configuration applied before; a patch that
    keeps conflicting ends in deleting the object and making it anew.  client.go:
    creating or updating, and finding, single objects.  The requests are
    environment calls; encoding, the patch computation and the accessors of
    metadata are the libraries' ([ApplyLib], [MetaAccessor]). *)
From stdpp Require Import base list gmap strings.
From Stdlib Require Import Lia.
From S2P Require Import Prelude GoStrings GoTime Api Effects Utils.
Local Open Scope Z_scope.

Definition LastAppliedConfigAnnotation : string := "kubectl.kubernetes.io/last-applied-configuration".

(** [meta.NewAccessor()]: the annotations of an object, nil and empty alike, and
    replacing them; [resource.Info.Refresh], which fails on an object it cannot
    read the metadata of. *)
Class MetaAccessor : Type := {
  Annotations : json → gmap string string + goerr;
  SetAnnotations : json → gmap string string → json + goerr;
  Refresh : json → error }.
Class MetaAccessorSpec `{MetaAccessor} : Prop := {
  Annotations_set o a o' : SetAnnotations o a = inl o' → Annotations o' = inl a;
  SetAnnotations_again o a o' b : SetAnnotations o a = inl o' → SetAnnotations o' b = SetAnnotations o b }.

(** [runtime.Encode] and [Decode] with [UnstructuredJSONScheme]. *)
Class Codec : Type := {
  Encode : json → string + goerr;
  Decode : string → json + goerr }.
Class CodecSpec `{Codec} : Prop :=
  Decode_Encode o text : Encode o = inl text → Decode text = inl o.

(** What the scheme knows about a kind. *)
Inductive known : Type := Registered | NotRegistered | SchemeError (e : goerr).
(** The scheme and the three-way merges: of the configuration applied before
    (nil when there is none), the one to apply and the current one.  The flag of
    a failed JSON merge says that a precondition failed. *)
Class ApplyLib : Type := {
  SchemeNew : string → known;
  NewPatchMetaFromStruct : string → error;
  CreateThreeWayJSONMergePatch : option string → string → string → string + goerr * bool;
  CreateThreeWayMergePatch : string → option string → string → string → string + goerr;
  AddSourceToErr : string → string → goerr → goerr;
  Aggregate : list goerr → error }.
(** [NewAggregate]: nil exactly for no errors. *)
Class ApplyLibSpec `{ApplyLib} : Prop := Aggregate_nil l : Aggregate l = None ↔ l = [].

Section apply.
Context {W : Type} `{Env W} `{WaitLib W} `{GoFmt} `{MetaAccessor} `{Codec} `{ApplyLib}.

(** [BuildClientGetter(kubeconfigPath)]: a file that cannot be loaded leaves the
    cluster the program runs in. *)
Definition BuildClientGetter (kubeconfigPath : string) : IO W getter :=
  if decide (kubeconfigPath = EmptyString) then mret InCluster
  else
    '(loaded, _) ← perform (LoadKubeconfig kubeconfigPath);
    mret (if (loaded : bool) then FromConfig kubeconfigPath else InCluster).

(** [GetModifiedConfiguration(obj, annotate, codec)]: the configuration, and the
    object, which the function assigns to. *)
Definition GetModifiedConfiguration (obj : json) (annotate : bool) : (string + goerr) * json :=
  match Annotations obj with
  | inr e => (inr e, obj)
  | inl annots =>
      let original := default EmptyString (annots !! LastAppliedConfigAnnotation) in
      let annots := delete LastAppliedConfigAnnotation annots in
      match SetAnnotations obj annots with
      | inr e => (inr e, obj)
      | inl obj =>
          match Encode obj with
          | inr e => (inr e, obj)
          | inl modified =>
              let restore (obj : json) (modified : string) :=
                match SetAnnotations obj (<[LastAppliedConfigAnnotation := original]> annots) with
                | inr e => (inr e, obj)
                | inl obj => (inl modified, obj)
                end in
              if annotate then
                match SetAnnotations obj (<[LastAppliedConfigAnnotation := modified]> annots) with
                | inr e => (inr e, obj)
                | inl obj =>
                    match Encode obj with
                    | inr e => (inr e, obj)
                    | inl modified => restore obj modified
                    end
                end
              else restore obj modified
          end
      end
  end.

(** [GetOriginalConfiguration(obj)]: nil when the object has no such annotation. *)
Definition GetOriginalConfiguration (obj : json) : option string + goerr :=
  match Annotations obj with
  | inr e => inr e
  | inl annots => inl (annots !! LastAppliedConfigAnnotation)
  end.

Definition other (e : goerr) : apierr := ApiErr e OtherReason.

(** [createAndRefresh(info)] *)
Definition createAndRefresh (info : Info) : IO W error :=
  '(obj, err) ← perform (ResCreate (ri_Kind info) (ri_Namespace info) (ri_Object info));
  match err with
  | Some e => mret (Some (ae_err e))
  | None => mret (Refresh obj)
  end.

(** [runDelete(namespace, name, mapping, c, cascade, gracePeriod)] *)
Definition runDelete (kind ns name : string) (cascade : bool) (gracePeriod : Z) : IO W error :=
  perform (ResDelete kind ns name (if 0 <=? gracePeriod then Some gracePeriod else None) cascade).

(** [patcher], with the settings [doApply] gives it: no openapi schema, forced,
    cascading, a grace period of 30 seconds. *)
Definition maxPatchRetry : nat := 5.
Definition triesBeforeBackOff : nat := 1.
Definition backOffPeriod : Z := 1 * Second.
Definition patchTimeout : Z := 30 * Second.
Definition p_delete (kind ns name : string) : IO W error := runDelete kind ns name true 30.

(** The patch that leads from the current object to the one to apply: its type
    and its text. *)
Definition createPatch (kind source : string) (original : option string) (modified current : string)
    : (bool * string) + goerr :=
  let failed e := inr (AddSourceToErr ("creating patch with:" +:+ newline +:+ "original:" +:+ newline
                         +:+ default EmptyString original +:+ newline +:+ "modified:" +:+ newline +:+ modified +:+ newline
                         +:+ "current:" +:+ newline +:+ current +:+ newline +:+ "for:") source e) in
  match SchemeNew kind with
  | NotRegistered =>
      match CreateThreeWayJSONMergePatch original modified current with
      | inl patch => inl (false, patch)
      | inr (e, true) => inr (GoErr "At least one of apiVersion, kind and name was changed" false)
      | inr (e, false) => failed e
      end
  | SchemeError e => inr (AddSourceToErr ("getting instance of versioned object for " +:+ kind +:+ ":") source e)
  | Registered =>
      match NewPatchMetaFromStruct kind with
      | Some e => failed e
      | None =>
          match CreateThreeWayMergePatch kind original modified current with
          | inl patch => inl (true, patch)
          | inr e => failed e
          end
      end
  end.

(** What [patch] returns: the patch, empty for nil, the object and the error. *)
Definition patched : Type := string * json * option apierr.
Definition nothing (e : goerr) : patched := (EmptyString, JNull, Some (other e)).
(** The first line of a message, the object it is about, and its last line. *)
Definition about {A} (what : string) (x : A) (last : string) : string :=
  what +:+ newline +:+ pp x +:+ newline +:+ last.

(** [p.patchSimple(obj, modified, source, namespace, name)] *)
Definition patchSimple (obj : json) (modified kind source ns name : string) : IO W patched :=
  match Encode obj with
  | inr e => mret (nothing (AddSourceToErr (about "serializing current configuration from:" obj "for:") source e))
  | inl current =>
      match GetOriginalConfiguration obj with
      | inr e => mret (nothing (AddSourceToErr (about "retrieving original configuration from:" obj "for:") source e))
      | inl original =>
          match createPatch kind source original modified current with
          | inr e => mret (nothing e)
          | inl (strategic, patch) =>
              if decide (patch = "{}") then mret (patch, obj, None)
              else '(patchedObj, err) ← perform (ResPatch kind ns name strategic patch); mret (patch, patchedObj, err)
          end
      end
  end.

Definition is_reason (r : reason) (err : option apierr) : bool :=
  match err with
  | Some e => match ae_reason e, r with
              | Conflict, Conflict | Invalid, Invalid | AlreadyExists, AlreadyExists => true
              | _, _ => false
              end
  | None => false
  end.

(** Gone, or the error of looking. *)
Definition isGone (kind ns name : string) : IO W (bool * error) :=
  '(_, err) ← perform (ResGet kind ns name);
  match err with
  | Some e => if IsNotFound e then mret (true, None) else mret (false, Some e)
  | None => mret (false, None)
  end.

(** [p.deleteAndCreate(original, modified, namespace, name)] *)
Definition deleteAndCreate (original : json) (modified kind ns name : string) : IO W patched :=
  err ← p_delete kind ns name;
  match (err : error) with
  | Some e => mret (modified, JNull, Some (other e))
  | None =>
      err ← PollImmediate (1 * Second) patchTimeout (isGone kind ns name);
      match (err : error) with
      | Some e => mret (modified, JNull, Some (other e))
      | None =>
          match Decode modified with
          | inr e => mret (modified, JNull, Some (other e))
          | inl versionedObject =>
              '(createdObject, err) ← perform (ResCreate kind ns versionedObject);
              match err with
              | None => mret (modified, createdObject, None)
              | Some e =>
                  '(recreated, recreateErr) ← perform (ResCreate kind ns original);
                  match recreateErr with
                  | Some r =>
                      mret (modified, createdObject,
                            Some (other (GoErr ("An error occurred force-replacing the existing object with the newly provided one:"
                                                +:+ newline +:+ newline +:+ Error (ae_err e) +:+ "." +:+ newline +:+ newline
                                                +:+ "Additionally, an error occurred attempting to restore the original object:"
                                                +:+ newline +:+ newline +:+ Error (ae_err r) +:+ newline) false)))
                  | None => mret (modified, recreated, Some e)
                  end
              end
          end
      end
  end.

(** The loop of [patch]: [tries] conflicts may still be retried, of which [i] is
    the next.  An error of reading the object anew ends the call. *)
Fixpoint retryPatch (tries i : nat) (current : json) (r : patched) (modified kind source ns name : string)
    : IO W ((json * patched) + goerr) :=
  match tries with
  | O => mret (inl (current, r))
  | S tries =>
      if is_reason Conflict r.2 then
        _ ← (if bool_decide (triesBeforeBackOff < i)%nat then perform (Sleep backOffPeriod) else mret tt);
        '(current, getErr) ← perform (ResGet kind ns name);
        match getErr with
        | Some e => mret (inr e)
        | None =>
            r ← patchSimple current modified kind source ns name;
            retryPatch tries (S i) current r modified kind source ns name
        end
      else mret (inl (current, r))
  end.

(** [p.patch(current, modified, source, namespace, name)] *)
Definition p_patch (current : json) (modified kind source ns name : string) : IO W patched :=
  r ← patchSimple current modified kind source ns name;
  retried ← retryPatch maxPatchRetry 1 current r modified kind source ns name;
  match retried with
  | inr e => mret (nothing e)
  | inl (current, r) =>
      if is_reason Conflict r.2 || is_reason Invalid r.2 then deleteAndCreate current modified kind ns name
      else mret r
  end.

Definition withObject (obj : json) (info : Info) : Info :=
  MkInfo (ri_Source info) (ri_Kind info) (ri_Namespace info) (ri_Name info) obj.

(** The function [doApply] visits every object with; [info.Get] replaces the
    object by the one of the cluster. *)
Definition applyOne (g : getter) (info : Info) (err : error) : IO W error :=
  match err with
  | Some e => mret (Errorf ("visit object: " +:+ Error e +:+ ", info=" +:+ pp info))
  | None =>
      let '(modified, obj) := GetModifiedConfiguration (ri_Object info) true in
      let info := withObject obj info in
      let from what (e : goerr) : error := Some (AddSourceToErr what (ri_Source info) e) in
      match modified with
      | inr e => mret (from (about "retrieving modified configuration from:" info "for:") e)
      | inl modified =>
          '(current, err) ← perform (ResGet (ri_Kind info) (ri_Namespace info) (ri_Name info));
          match err with
          | Some e =>
              if IsNotFound e then
                err ← createAndRefresh info;
                mret (match (err : error) with Some e => from "creating" e | None => None end)
              else mret (from (about "retrieving current configuration of:" info "from server for:") e)
          | None =>
              err ← perform (ResDynamic g);
              match (err : error) with
              | Some e => mret (Some e)
              | None =>
                  '(patchBytes, patchedObject, err) ← p_patch current modified (ri_Kind info) (ri_Source info)
                                            (ri_Namespace info) (ri_Name info);
                  match err with
                  | Some e => mret (from (about ("applying patch:" +:+ newline +:+ patchBytes +:+ newline +:+ "to:")
                                                (withObject current info) "for:") (ae_err e))
                  | None => mret (Refresh patchedObject)
                  end
              end
          end
      end
  end.

(** [r.Visit]: every object is visited, and the errors are collected. *)
Fixpoint visitAll (g : getter) (infos : list (Info * error)) : IO W (list goerr) :=
  match infos with
  | [] => mret []
  | (info, err) :: rest =>
      err ← applyOne g info err;
      errs ← visitAll g rest;
      mret (match (err : error) with Some e => e :: errs | None => errs end)
  end.

(** [doApply(reader, kubeconfig)] *)
Definition doApply (yml kubeconfig : string) : IO W error :=
  g ← BuildClientGetter kubeconfig;
  err ← perform (ResValidator g);
  match (err : error) with
  | Some e => mret (Some e)
  | None =>
      '(ns, err) ← perform (ResNamespace g);
      match err with
      | Some e => mret (Some e)
      | None =>
          '(infos, err) ← perform (ResBuild g ns yml);
          match err with
          | Some e => mret (Errorf ("object builder: " +:+ Error e))
          | None => errs ← visitAll g infos; mret (Aggregate errs)
          end
      end
  end.
Definition ApplyInCluster (yml : string) : IO W error := doApply yml EmptyString.
Definition ApplyWithKubeconfig (yml kubeconfig : string) : IO W error := doApply yml kubeconfig.

(** ** client.go *)

(** [CreateOrUpdateSecret] and [CreateOrUpdateConfigMap], for a kind. *)
Definition createOrUpdate (kind what ns : string) (o : json) : IO W error :=
  '(_, err) ← perform (ResCreate kind ns o);
  match err with
  | None => mret None
  | Some e =>
      match ae_reason e with
      | AlreadyExists =>
          err ← perform (ResUpdate kind ns o);
          mret (match (err : error) with
                | Some e => Errorf ("unable to update " +:+ what +:+ ": " +:+ Error e)
                | None => None
                end)
      | _ => mret (Errorf ("unable to create " +:+ what +:+ ": " +:+ Error (ae_err e)))
      end
  end.
Definition CreateOrUpdateSecret (ns : string) (o : json) : IO W error := createOrUpdate "secrets" "secret" ns o.
Definition CreateOrUpdateConfigMap (ns : string) (o : json) : IO W error := createOrUpdate "configmaps" "configmap" ns o.

Definition EnsureNamespace (namespace : string) : IO W error :=
  '(_, err) ← perform (ResCreate "namespaces" EmptyString (JObj [("metadata", JObj [("name", JStr namespace)])]));
  match err with
  | Some e => match ae_reason e with AlreadyExists => mret None | _ => mret (Some (ae_err e)) end
  | None => mret None
  end.

(** [FindSecret] and [FindConfigMap], for a kind. *)
Definition findObject (kind ns name : string) : IO W (option json * bool * error) :=
  '(o, err) ← perform (ResGet kind ns name);
  match err with
  | Some e => if IsNotFound e then mret (None, false, None) else mret (None, false, Some e)
  | None => mret (Some o, true, None)
  end.
Definition FindSecret (ns name : string) : IO W (option json * bool * error) := findObject "secrets" ns name.
Definition FindConfigMap (ns name : string) : IO W (option json * bool * error) := findObject "configmaps" ns name.
Definition FindMasters : IO W (list json * bool * error) :=
  '(nodes, err) ← perform (ResList "nodes" "node-role.kubernetes.io/master");
  match err with
  | Some e => if IsNotFound e then mret ([], false, None) else mret ([], false, Some e)
  | None => mret (nodes, true, None)
  end.
End apply.

(** ** Facts *)
Section facts.
Context {W : Type} `{Env W} `{WaitLib W, !WaitSpec W} `{GoFmt} `{MetaAccessor, !MetaAccessorSpec}.
Context `{Codec, !CodecSpec} `{ApplyLib, !ApplyLibSpec}.

(** Reading an object. *)
Definition isGet (c : call) : Prop := match c with ResGet _ _ _ => True | _ => False end.
#[local] Instance isGet_dec c : Decision (isGet c).
Proof. destruct c; cbn; apply _. Defined.
Definition gets (l : list call) : nat := length (filter isGet l).

(** Only patches are sent while patching. *)
Definition sendsPatch (kind ns name : string) (c : call) : Prop :=
  match c with ResPatch k n o _ _ => k = kind ∧ n = ns ∧ o = name | _ => False end.
Lemma emits_patchSimple obj modified kind source ns name :
  emits (sendsPatch kind ns name) (patchSimple obj modified kind source ns name : IO W _).
Proof. unfold patchSimple. solve_emits. done. Qed.

Definition patches (kind ns name : string) (c : call) : Prop :=
  match c with ResGet k n o => k = kind ∧ n = ns ∧ o = name | Sleep _ => True | _ => sendsPatch kind ns name c end.
Lemma emits_retryPatch tries i current r modified kind source ns name :
  emits (patches kind ns name) (retryPatch tries i current r modified kind source ns name : IO W _).
Proof.
  revert i current r. induction tries as [|k IH]; intros i current r; cbn [retryPatch]; [apply emits_ret|].
  solve_emits; try done; first [apply IH | eapply emits_weaken; [|apply emits_patchSimple]; by intros []].
Qed.

Lemma gets_none P new : (∀ c, P c → ¬ isGet c) → Forall P new → gets new = 0%nat.
Proof.
  intros HP HF. unfold gets. induction HF as [|c l Hc Hl IH]; [done|].
  rewrite filter_cons_False by auto. done.
Qed.

(** Still conflicting after the loop means that every retry was used. *)
Lemma retryPatch_exhausted tries i current r modified kind source ns name current' r' (s s' : St W) :
  retryPatch tries i current r modified kind source ns name s = (Ret (inl (current', r')), s') →
  is_reason Conflict r'.2 = true → ∃ new, log s' = log s ++ new ∧ gets new = tries.
Proof.
  revert i current r s. induction tries as [|k IH]; intros i current r s; cbn [retryPatch].
  { intros [= <- <- <-] _. exists []. by rewrite app_nil_r. }
  destruct (is_reason Conflict r.2) eqn:Er; [|by intros [= <- <- <-]; rewrite Er].
  intros (u & s1 & Hs & HB)%bind_Ret_inv Hr. 
  assert (∃ n1, log s1 = log s ++ n1 ∧ gets n1 = 0%nat) as (n1 & E1 & G1).
  { case_bool_decide; [|injection Hs as <- <-; exists []; by rewrite app_nil_r].
    unfold perform in Hs. destruct (env_step _ _) as [x w]. injection Hs as <- <-. by exists [Sleep backOffPeriod]. }
  step_perform_in HB. destruct (env_step (ResGet kind ns name) (world s1)) as [[c [e|]] w2]; cbn [fst snd] in HB; [done|].
  apply bind_Ret_inv in HB as (r1 & s3 & Hp & HB).
  destruct (emits_patchSimple c modified kind source ns name (MkSt w2 (log s1 ++ [ResGet kind ns name]))) as (n2 & E2 & F2).
  rewrite Hp in E2. cbn [snd log] in E2. destruct (IH _ _ _ _ HB Hr) as (n3 & E3 & G3).
  exists (n1 ++ [ResGet kind ns name] ++ n2 ++ n3). split; [by rewrite E3, E2, E1, <- !app_assoc|].
  unfold gets in *. rewrite !filter_app, !length_app, G1, G3.
  fold (gets n2). rewrite (gets_none (sendsPatch kind ns name) n2); [done|intros []; cbn; tauto|done].
Qed.

(** Deleting and making anew deletes the object it is given, if any. *)
Definition replaces (kind ns name : string) (c : call) : Prop :=
  match c with
  | ResDelete k n o _ _ => k = kind ∧ n = ns ∧ o = name
  | ResCreate k n _ => k = kind ∧ n = ns
  | ResGet k n o => k = kind ∧ n = ns ∧ o = name
  | _ => False
  end.
Lemma emits_deleteAndCreate original modified kind ns name :
  emits (replaces kind ns name) (deleteAndCreate original modified kind ns name : IO W _).
Proof. unfold deleteAndCreate, p_delete, runDelete, isGone. solve_emits; done. Qed.

Definition notDelete (c : call) : Prop := match c with ResDelete _ _ _ _ _ => False | _ => True end.

(** Applying an object touches that object only. *)
Definition touches (kind ns name : string) (c : call) : Prop :=
  match c with
  | ResDynamic _ => True
  | _ => patches kind ns name c ∨ replaces kind ns name c
  end.
Lemma emits_p_patch current modified kind source ns name :
  emits (touches kind ns name) (p_patch current modified kind source ns name : IO W _).
Proof.
  unfold p_patch. apply emits_bind; [eapply emits_weaken; [|apply emits_patchSimple]; intros []; cbn; tauto|].
  intros r. apply emits_bind; [eapply emits_weaken; [|apply emits_retryPatch]; intros []; cbn; tauto|].
  intros [[c r']|e]; [|apply emits_ret]. destruct (_ || _); [|apply emits_ret].
  eapply emits_weaken; [|apply emits_deleteAndCreate]. intros []; cbn; tauto.
Qed.
Lemma emits_applyOne (P : call → Prop) g info err :
  (∀ c, touches (ri_Kind info) (ri_Namespace info) (ri_Name info) c → P c) → emits P (applyOne g info err : IO W error).
Proof.
  intros HP. apply (emits_weaken _ _ _ HP). unfold applyOne, createAndRefresh. destruct err; [apply emits_ret|].
  destruct (GetModifiedConfiguration (ri_Object info) true) as [m obj]. unfold withObject. cbn [ri_Kind ri_Namespace ri_Name ri_Source ri_Object].
  solve_emits; first [apply emits_p_patch | cbn; tauto].
Qed.

(** The configuration that is applied, and what is left of the object. *)
Lemma GetModifiedConfiguration_inv obj modified obj' :
  GetModifiedConfiguration obj true = (inl modified, obj') →
  ∃ annots stripped text full,
    Annotations obj = inl annots ∧
    let rest := delete LastAppliedConfigAnnotation annots in
    SetAnnotations obj rest = inl stripped ∧ Encode stripped = inl text ∧
    SetAnnotations obj (<[LastAppliedConfigAnnotation := text]> rest) = inl full ∧ Encode full = inl modified ∧
    SetAnnotations obj
      (<[LastAppliedConfigAnnotation := default EmptyString (annots !! LastAppliedConfigAnnotation)]> rest) = inl obj'.
Proof.
  unfold GetModifiedConfiguration. destruct (Annotations obj) as [annots|] eqn:Ea; [|done].
  cbv zeta. destruct (SetAnnotations obj _) as [stripped|] eqn:Es; [|done].
  destruct (Encode stripped) as [text|] eqn:Et; [|done].
  destruct (SetAnnotations stripped (<[LastAppliedConfigAnnotation := text]> _)) as [full|] eqn:Ef; [|done].
  destruct (Encode full) as [m|] eqn:Em; [|done].
  destruct (SetAnnotations full _) as [o|] eqn:Eo; [|done]. intros [= <- <-].
  pose proof (SetAnnotations_again _ _ _ (<[LastAppliedConfigAnnotation := text]>
    (delete LastAppliedConfigAnnotation annots)) Es) as E1. rewrite Ef in E1.
  rewrite (SetAnnotations_again _ _ _ _ (eq_sym E1)) in Eo.
  exists annots, stripped, text, full. by split_and!.
Qed.
End facts.

(** ** Properties *)
Section properties.
Context {W : Type} `{Env W} `{WaitLib W, !WaitSpec W} `{GoFmt} `{MetaAccessor, !MetaAccessorSpec}.
Context `{Codec, !CodecSpec} `{ApplyLib, !ApplyLibSpec}.

(** C36: while an object is applied it is deleted only as the last resort: the
    object deleted is the one applied, and before it the server answered the
    last patch that it is invalid, or answered "conflict" to it after the object
    was read anew the full five times. *)
Theorem patch_deletes_last_resort current modified kind source ns name k n o grace fg (s : St W) :
  calls (p_patch current modified kind source ns name) s (ResDelete k n o grace fg) →
  k = kind ∧ n = ns ∧ o = name ∧
  ∃ r0 current' r s1 s2 new,
    patchSimple current modified kind source ns name s = (Ret r0, s1) ∧
    retryPatch maxPatchRetry 1 current r0 modified kind source ns name s1 = (Ret (inl (current', r)), s2) ∧
    log s2 = log s1 ++ new ∧
    (is_reason Invalid r.2 = true ∨ is_reason Conflict r.2 = true ∧ gets new = maxPatchRetry).
Proof.
  intros Hc. unfold p_patch in Hc.
  apply (calls_bind_inv (sendsPatch kind ns name)) in Hc as (r0 & s1 & E1 & Hc);
    [|apply emits_patchSimple|by intros []|].
  2:{ intros. apply emits_bind; [eapply emits_weaken; [|apply emits_retryPatch]; done|].
      intros [[c r]|e]; [|apply emits_ret]. destruct (_ || _); [|apply emits_ret].
      eapply emits_weaken; [|apply emits_deleteAndCreate]. done. }
  apply (calls_bind_inv (patches kind ns name)) in Hc as (rt & s2 & E2 & Hc);
    [|apply emits_retryPatch|by intros []|].
  2:{ intros [[c r]|e]; [|apply emits_ret]. destruct (_ || _); [|apply emits_ret].
      eapply emits_weaken; [|apply emits_deleteAndCreate]. done. }
  destruct rt as [[c r]|e]; [|by apply calls_ret in Hc].
  destruct (is_reason Conflict r.2) eqn:Ec; cbn [orb] in Hc.
  - destruct (retryPatch_exhausted _ _ _ _ _ _ _ _ _ _ _ _ _ E2 Ec) as (new & El & Eg).
    apply (calls_emits _ _ _ _ (emits_deleteAndCreate _ _ _ _ _)) in Hc as (-> & -> & ->).
    split_and!; try done. exists r0, c, r, s1, s2, new. split_and!; try done. by right.
  - destruct (is_reason Invalid r.2) eqn:Ei; [|by apply calls_ret in Hc].
    apply (calls_emits _ _ _ _ (emits_deleteAndCreate _ _ _ _ _)) in Hc as (-> & -> & ->).
    destruct (emits_retryPatch maxPatchRetry 1 current r0 modified kind source ns name s1) as (new & El & _).
    rewrite E2 in El. split_and!; try done. exists r0, c, r, s1, s2, new. split_and!; try done. by left.
Qed.

(** An object deleted to be made anew is made anew or put back: once the
    deletion went through and the object was seen gone, the configuration to
    apply is created, and if that fails the object as it was before is, before
    the failure is reported. *)
Theorem deleteAndCreate_restores original modified kind ns name v s1 s2 (s : St W) :
  p_delete kind ns name s = (Ret None, s1) →
  PollImmediate (1 * Second) patchTimeout (isGone kind ns name) s1 = (Ret None, s2) →
  Decode modified = inl v →
  let create := ResCreate kind ns v in
  let restore := ResCreate kind ns original in
  let '((_, err), w) := env_step create (world s2) in
  ∃ o e s', deleteAndCreate original modified kind ns name s = (Ret (modified, o, e), s') ∧
    match err with
    | None => e = None ∧ log s' = log s2 ++ [create]
    | Some _ => e ≠ None ∧ log s' = log s2 ++ [create; restore] ∧
                ((env_step restore w).1.2 = None → o = (env_step restore w).1.1 ∧ e = err)
    end.
Proof.
  intros Hd Hp Hv create restore. unfold deleteAndCreate.
  rewrite (bind_Ret _ _ _ _ _ Hd), (bind_Ret _ _ _ _ _ Hp), Hv. step_perform. fold create.
  destruct (env_step create (world s2)) as [[o [e|]] w] eqn:Ec; cbn [fst snd].
  - step_perform. fold restore. destruct (env_step restore w) as [[o' [r|]] w'] eqn:Er; cbn [fst snd];
      do 3 eexists; (split; [done|]); cbn [log]; rewrite <- app_assoc; split_and!; try done.
  - by do 3 eexists.
Qed.

(** The text that is applied tells what was applied: read back as an object
    and asked for the configuration applied before, it gives the object's own
    text without that annotation.  The object itself gets its own old annotation
    back, or an empty one. *)
Theorem modified_records_itself obj modified obj' :
  GetModifiedConfiguration obj true = (inl modified, obj') →
  ∃ annots stripped text full,
    Annotations obj = inl annots ∧
    SetAnnotations obj (delete LastAppliedConfigAnnotation annots) = inl stripped ∧ Encode stripped = inl text ∧
    Decode modified = inl full ∧ GetOriginalConfiguration full = inl (Some text) ∧
    GetOriginalConfiguration obj' = inl (Some (default EmptyString (annots !! LastAppliedConfigAnnotation))).
Proof.
  intros (annots & stripped & text & full & Ha & Hs & Ht & Hf & He & Ho)%GetModifiedConfiguration_inv.
  exists annots, stripped, text, full. split_and!; try done; [by eapply Decode_Encode| |];
    unfold GetOriginalConfiguration; erewrite Annotations_set by done; by rewrite lookup_insert_eq.
Qed.

(** An object the cluster does not have is created without a record of what
    was applied: the only thing sent is the object with its own annotations, the
    last applied configuration being empty unless the text brought one, so that
    the next time it is applied nothing is known to have been removed. *)
Theorem first_apply_unrecorded g info modified obj e annots (s : St W) :
  Annotations (ri_Object info) = inl annots → annots !! LastAppliedConfigAnnotation = None →
  GetModifiedConfiguration (ri_Object info) true = (inl modified, obj) →
  let get := ResGet (ri_Kind info) (ri_Namespace info) (ri_Name info) in
  (env_step get (world s)).1.2 = Some e → IsNotFound e = true →
  GetOriginalConfiguration obj = inl (Some EmptyString) ∧
  ∃ err w, applyOne g info None s
           = (Ret err, MkSt w (log s ++ [get; ResCreate (ri_Kind info) (ri_Namespace info) obj])).
Proof.
  intros Ha Hn Hm get Hg He. split.
  - apply GetModifiedConfiguration_inv in Hm as (annots' & stripped & text & full & Ha' & _ & _ & _ & _ & Ho).
    rewrite Ha in Ha'. injection Ha' as <-. unfold GetOriginalConfiguration.
    erewrite Annotations_set by done. rewrite lookup_insert_eq. by rewrite Hn.
  - unfold applyOne. rewrite Hm. unfold withObject. cbv zeta. cbn [ri_Kind ri_Namespace ri_Name]. step_perform. fold get.
    destruct (env_step get (world s)) as [[o err] w1]. cbn [fst snd] in *. subst err. rewrite He.
    unfold createAndRefresh. cbn [ri_Kind ri_Namespace ri_Object]. rewrite bind_unfold. step_perform.
    destruct (env_step (ResCreate _ _ _) w1) as [[o' [e'|]] w2]; cbn [fst snd]; do 2 eexists;
      rewrite <- app_assoc; done.
Qed.

(** Applying what is there already sends nothing. *)
Theorem patch_nothing current modified kind source ns name text original strategic (s : St W) :
  Encode current = inl text → GetOriginalConfiguration current = inl original →
  createPatch kind source original modified text = inl (strategic, "{}") →
  p_patch current modified kind source ns name s = (Ret ("{}", current, None), s).
Proof.
  intros Ht Ho Hp. unfold p_patch, patchSimple. rewrite Ht, Ho, Hp, decide_True by done. done.
Qed.

(** Creating or updating ends well exactly when the object was created, or was
    there and could be updated. *)
Theorem createOrUpdate_nil kind what ns o (s : St W) :
  let create := ResCreate kind ns o in
  let update := ResUpdate kind ns o in
  let '((_, err), w) := env_step create (world s) in
  ∃ r s', createOrUpdate kind what ns o s = (Ret r, s') ∧
    (r = None ↔ err = None ∨ (∃ e, err = Some (ApiErr e AlreadyExists)) ∧ (env_step update w).1 = None).
Proof.
  intros create update. unfold createOrUpdate. step_perform. fold create.
  destruct (env_step create (world s)) as [[x [[e r]|]] w] eqn:Ec; cbn [fst snd ae_reason]; [|do 2 eexists; naive_solver].
  destruct r; try (do 2 eexists; split; [done|]; naive_solver). step_perform. fold update.
  destruct (env_step update w) as [[e'|] w'] eqn:Eu; cbn [fst snd]; do 2 eexists; (split; [done|]); naive_solver.
Qed.
End properties.

(** ** A concrete cluster, for evaluation *)
Module SimKube.
Definition annotation_entries (o : json) : gmap string string :=
  match o with
  | JObj l =>
      match List.find (λ kv, bool_decide (kv.1 = "annotations")) l with
      | Some (_, JObj a) => list_to_map (omap (λ kv, match kv.2 with JStr s => Some (kv.1, s) | _ => None end) a)
      | _ => ∅
      end
  | _ => ∅
  end.
Fixpoint dropAnnotations (l : list (string * json)) : list (string * json) :=
  match l with
  | [] => []
  | kv :: l => if decide (kv.1 = "annotations") then dropAnnotations l else kv :: dropAnnotations l
  end.
Definition others (o : json) : list (string * json) := match o with JObj l => dropAnnotations l | _ => [] end.
Definition with_annotations (o : json) (a : gmap string string) : json :=
  JObj (("annotations", JObj (map (λ kv, (kv.1, JStr kv.2)) (map_to_list a))) :: others o).
Lemma dropAnnotations_twice l : dropAnnotations (dropAnnotations l) = dropAnnotations l.
Proof.
  induction l as [|kv l IH]; [done|]. cbn. destruct (decide _); [done|]. cbn. by rewrite decide_False, IH.
Qed.
Lemma others_with o a : others (with_annotations o a) = others o.
Proof. cbn. destruct o; try done. apply dropAnnotations_twice. Qed.
#[export] Instance meta_accessor : MetaAccessor :=
  {| Annotations o := inl (annotation_entries o); SetAnnotations o a := inl (with_annotations o a); Refresh _ := None |}.
#[export] Instance meta_accessor_spec : MetaAccessorSpec.
Proof.
  split.
  - intros o a o' [= <-]. unfold Annotations. cbn. f_equal. rewrite <- (list_to_map_to_list a) at 2. f_equal.
    induction (map_to_list a) as [|[k v] l IH]; cbn; [done|]. by rewrite IH.
  - intros o a o' b [= <-]. unfold SetAnnotations, meta_accessor. unfold with_annotations at 1 3. by rewrite others_with.
Qed.

(** Two objects with a text: one without annotations, and one that records it. *)
Definition bare : json := JObj [("annotations", JObj [])].
Definition recorded : json := JObj [("annotations", JObj [(LastAppliedConfigAnnotation, JStr "A")])].
#[export] Instance codec : Codec :=
  {| Encode o := match o with
                 | JObj [(k, JObj [])] => if decide (k = "annotations") then inl "A" else inr (GoErr "unknown" false)
                 | JObj [(k, JObj [(l, JStr a)])] =>
                     if decide (k = "annotations" ∧ l = LastAppliedConfigAnnotation ∧ a = "A") then inl "B"
                     else inr (GoErr "unknown" false)
                 | _ => inr (GoErr "unknown" false)
                 end;
     Decode s := if decide (s = "A") then inl bare else if decide (s = "B") then inl recorded
                 else inr (GoErr "unknown" false) |}.
#[export] Instance codec_spec : CodecSpec.
Proof.
  intros o text. unfold Encode, codec. repeat case_match; try done; intros [= <-];
    [by subst|]. by destruct_and!; subst.
Qed.
#[export] Instance apply_lib : ApplyLib :=
  {| SchemeNew _ := NotRegistered; NewPatchMetaFromStruct _ := None;
     CreateThreeWayJSONMergePatch _ _ _ := inl "{a}"; CreateThreeWayMergePatch _ _ _ _ := inl "{a}";
     AddSourceToErr what source e := GoErr (what +:+ source +:+ Error e) (IsNotFound e);
     Aggregate l := match l with [] => None | e :: _ => Some e end |}.
#[export] Instance apply_lib_spec : ApplyLibSpec.
Proof. by intros []. Qed.

(** A busy object; any other is missing, does not take patches, and cannot be
    made with annotations. *)
Definition cluster (c : call) (t : Z) : option (reply c) :=
  match c with
  | ResPatch _ _ n _ _ => Some (JNull, Some (ApiErr (GoErr n false) (if decide (n = "busy") then Conflict else Invalid)))
  | ResGet _ _ n => Some (if decide (n = "busy") then (bare, None) else (JNull, Some (GoErr "not found" true)))
  | ResCreate _ _ o =>
      Some (if decide (annotation_entries o = ∅) then (o, None)
            else (JNull, Some (ApiErr (GoErr "admission" false) OtherReason)))
  | _ => None
  end.
#[export] Instance cluster_env : Env Z := SimEnv.scripted cluster.
Definition cm (name : string) : Info := MkInfo "Apply" "ConfigMap" "kube-system" name bare.
End SimKube.

(** ** Witnesses *)
Import Sim SimEnv SimWait SimKube.

Lemma patch_deletes_last_resort_witness :
  (calls (p_patch bare "B" "ConfigMap" "Apply" "kube-system" "busy") (start_at 0)
     (ResDelete "ConfigMap" "kube-system" "busy" (Some 30%Z) true)) ∧
  ∃ r : patched, is_reason Invalid r.2 = true ∨ is_reason Conflict r.2 = true.
Proof.
  assert (calls (p_patch bare "B" "ConfigMap" "Apply" "kube-system" "busy") (start_at 0)
     (ResDelete "ConfigMap" "kube-system" "busy" (Some 30%Z) true)) as Hc.
  { eexists. split; [vm_compute; reflexivity|]. apply (list_elem_of_lookup_2 _ 15). by vm_compute. }
  split; [exact Hc|].
  destruct (patch_deletes_last_resort (W:=Z) _ _ _ _ _ _ _ _ _ _ _ _ Hc)
    as (_ & _ & _ & r0 & c' & r & s1 & s2 & new & _ & _ & _ & [Hr|[Hr _]]); exists r; [by left|by right].
Defined.

Lemma deleteAndCreate_restores_witness :
  ∃ o e s', deleteAndCreate bare "B" "ConfigMap" "kube-system" "gone" (start_at 0) = (Ret ("B", o, e), s') ∧ e ≠ None ∧ o = bare.
Proof.
  pose proof (deleteAndCreate_restores (W:=Z) bare "B" "ConfigMap" "kube-system" "gone" recorded
    (MkSt 0%Z [ResDelete "ConfigMap" "kube-system" "gone" (Some 30%Z) true])
    (MkSt 0%Z [ResDelete "ConfigMap" "kube-system" "gone" (Some 30%Z) true; ResGet "ConfigMap" "kube-system" "gone"])
    (start_at 0)) as Hd.
  specialize (Hd ltac:(vm_compute; reflexivity) ltac:(vm_compute; reflexivity) ltac:(vm_compute; reflexivity)).
  destruct Hd as (o & e & s' & Hr & He & _ & Ho). exists o, e, s'. split; [exact Hr|]. split; [exact He|].
  apply Ho. vm_compute. reflexivity.
Defined.

Lemma modified_records_itself_witness :
  ∃ full, Decode "B" = inl full ∧ GetOriginalConfiguration full = inl (Some "A").
Proof.
  destruct (modified_records_itself bare "B" (with_annotations bare {[LastAppliedConfigAnnotation := ""]}))
    as (annots & stripped & text & full & Ha & Hs & Ht & Hd & Ho & _); [vm_compute; reflexivity|].
  exists full. split; [exact Hd|]. rewrite Ho.
  vm_compute in Ha. injection Ha as <-. vm_compute in Hs. injection Hs as <-. vm_compute in Ht. by injection Ht as <-.
Defined.

Lemma first_apply_unrecorded_witness :
  let obj := with_annotations bare {[LastAppliedConfigAnnotation := ""]} in
  ∃ err w, applyOne InCluster (cm "gone") None (start_at 0)
           = (Ret err, MkSt w [ResGet "ConfigMap" "kube-system" "gone"; ResCreate "ConfigMap" "kube-system" obj]).
Proof.
  intros obj.
  destruct (first_apply_unrecorded (W:=Z) InCluster (cm "gone") "B" obj (GoErr "not found" true) ∅ (start_at 0))
    as [_ Hr]; [vm_compute; reflexivity..|]. exact Hr.
Defined.
