(* ===== verification/Operator.v ===== *)
(** * The operator process (pkg/operator/operator.go, pkg/operator/controllers/addon)

    The start of the operator: the custom resources are registered, the cluster
    object is read, the provider is set up from it, the controllers are added
    and started; then the cluster object is read {e again}, its endpoint and
    stack are filled in when they are missing, and the cache of masters is
    filled.  The server that hands out boot configurations serves the object of
    the first reading.  And the addon controller, which applies the addons of a
    cluster once. *)
From stdpp Require Import base list gmap strings.
From Stdlib Require Import Lia.
From S2P Require Import Prelude GoStrings GoTime Api Sdk Effects Crd Utils Provider Help Sign Etcd Triple Operation Healet ApiServer Actions Alibaba AliGroups Stack Post KubeClient.
Local Open Scope Z_scope.

(** [type Operator struct], less the clients; [op_Shared] is the provider
    context shared with the controllers. *)
Record Operator : Type := MkOperator {
  op_Options : WdripOptions;
  op_BindAddr : string;
  op_Initialized : bool;
  op_CachedCtx : option CachedContext;
  op_Shared : option Context_ }.

Definition NewOperatorServer (options : WdripOptions) : Operator :=
  let addr := of_BindAddr (wo_OperatorCFG options) in
  MkOperator options (if decide (addr = EmptyString) then ":443" else addr) false None None.

(** [findEndpoint(resource)]: intranet and internet. *)
Definition op_findEndpoint (resource : gmap string Value) : string * string * error :=
  match resource !! "APIServerIntranet" with
  | None => (EmptyString, EmptyString, Errorf "intranet slb ip not found")
  | Some intranet =>
      (fmt_any (v_Val intranet), fmt_any (v_Val (default zeroValue (resource !! "APIServerInternet"))), None)
  end.

(** pkg/apiserver/server.go: with a complete TLS configuration there is no
    listener at all. *)
Record Configuration : Type := MkConfiguration {
  sv_BindAddr : string;
  sv_TLSKeyPath : string;
  sv_TLSCertPath : string;
  sv_TLSCAPath : string }.

(** [AddControllers]: the functions registered by [init], in order. *)
Definition Funcs : list string := ["master"; "masterset"; "addon"; "node"; "nodepool"; "noderepair"].

Section operations.
Context {W : Type} `{Env W} `{PkgErrors} `{GoFmt} `{MapRange} `{LocalZone} `{WaitLib W}.
Context `{PatchLib} `{AggErrors} `{Json Members} `{Json (list EndpointStatus)} `{CryptoLib}.
Context `{Yaml ClusterSpec} `{Yaml ContextCFG} `{JM : Json Master}.

Fixpoint AddControllers (fs : list string) : IO W error :=
  match fs with
  | [] => mret None
  | f :: fs =>
      err ← perform (Manager ("controller " +:+ f));
      match (err : error) with Some e => mret (Some e) | None => AddControllers fs end
  end.

(** [v.cluster(cfg)]: an empty object when a file was given. *)
Definition op_cluster (v : Operator) : IO W (Cluster * error) :=
  if decide (of_MetaConfig (wo_OperatorCFG (op_Options v)) ≠ EmptyString) then mret (zeroCluster, None)
  else
    err ← perform (Manager "rest client");
    match (err : error) with
    | Some e => mret (zeroCluster, Errorf ("make rest client: " +:+ Error e))
    | None =>
        '(c, err) ← perform (KGet KCluster EmptyString "kubernetes-cluster");
        mret (c, match err with Some e => Errorf ("rest client get: " +:+ Error e) | None => None end)
    end.

(** The two-way merge patch of an object that [patchEndpoint] and
    [patchAddonPhase] send, whether or not it is empty. *)
Definition mergeCluster (ospec nspec : Cluster) : IO W error :=
  match marshal_object (OCluster ospec) with
  | (_, Some e) => mret (Errorf ("marshal ospec: " +:+ Error e))
  | (oldData, None) =>
      match marshal_object (OCluster nspec) with
      | (_, Some e) => mret (Errorf ("marshal nspec: " +:+ Error e))
      | (newData, None) =>
          match CreateTwoWayMergePatch oldData newData (OCluster nspec) with
          | (_, Some e) => mret (Errorf ("create merge patch: " +:+ Error e))
          | (_, None) => perform (KPatch (OCluster nspec))
          end
      end
  end.

(** [patchEndpoint(kcli, spec)] *)
Definition withEndpoint (e : Endpoint) (rid : string) (s : ClusterSpec) : ClusterSpec :=
  cs_with_Endpoint e (cs_with_Bind (set_Bind_ResourceId rid (cs_Bind s)) s).
Definition patchEndpoint (spec : Cluster) : IO W error :=
  '(ospec, err) ← perform (KGet KCluster EmptyString "kubernetes-cluster");
  match err with
  | Some e => mret (Errorf ("load bootcfg from apiserver: " +:+ Error e))
  | None =>
      let s := cl_Spec spec in
      mergeCluster ospec (cl_with_Spec (withEndpoint (cs_Endpoint s) (bi_ResourceId (cs_Bind s)) (cl_Spec ospec)) ospec)
  end.

(** [v.initializeClusterResource(spec)]: the operator with its cache filled, and
    the object, which is assigned to. *)
Definition initializeClusterResource (v : Operator) (spec : Cluster) : IO W (Operator * Cluster * error) :=
  let s := cl_Spec spec in
  fixed ← (if bool_decide (ep_Intranet (cs_Endpoint s) = EmptyString) || bool_decide (bi_ResourceId (cs_Bind s) = EmptyString)
           then
             '(resource, err) ← perform (PGetStackOutPuts (NewContextWithCluster s)
                                  (MkClusterId noType (metaNamed (cs_ClusterID s)) zeroClusterIdSpec));
             match err with
             | Some e => mret (spec, Errorf ("provider: list resource fail, " +:+ Error e))
             | None =>
                 let '(intranet, internet, err) := op_findEndpoint resource in
                 match err with
                 | Some e => mret (spec, Errorf ("find slb endpoint: " +:+ Error e))
                 | None =>
                     stackid ← stackID resource;
                     _ ← (if decide (stackid = EmptyString) then panic "stack id should not be empty" else mret tt);
                     let spec := cl_with_Spec (withEndpoint (MkEndpoint intranet internet) stackid s) spec in
                     err ← patchEndpoint spec;
                     mret (spec, match (err : error) with
                                 | Some e => Errorf ("patch endpoint: " +:+ Error e)
                                 | None => None
                                 end)
                 end
             end
           else mret (spec, None));
  let '(spec, err) := fixed in
  match err with
  | Some e => mret (v, spec, Some e)
  | None =>
      match op_CachedCtx v with
      | None => panic "nil pointer dereference"
      | Some cache =>
          '(cache, err) ← RefreshNodeCache cache;
          mret (MkOperator (op_Options v) (op_BindAddr v) (op_Initialized v) (Some cache) (op_Shared v), spec, err)
      end
  end.

(** [LoadContextIAAS(prvd, spec)]: the context, and the object, which gets the
    id of its stack. *)
Definition LoadContextIAAS (spec : Cluster) : IO W (Cluster * (option Context_ * error)) :=
  found ← (if decide (bi_ResourceId (cs_Bind (cl_Spec spec)) = EmptyString) then
             '(resource, err) ← perform (PGetStackOutPuts (NewContextWithCluster (cl_Spec spec))
                 (MkClusterId noType (metaNamed (cs_ClusterID (cl_Spec spec))) zeroClusterIdSpec));
             match err with
             | Some e => mret (inr (Errorf ("provider: list resource fail, " +:+ Error e)))
             | None =>
                 id ← stackID resource;
                 mret (inl (cl_with_Spec (cs_with_Bind (set_Bind_ResourceId id (cs_Bind (cl_Spec spec))) (cl_Spec spec)) spec))
             end
           else mret (inl spec));
  match found with
  | inr err => mret (spec, (None, err))
  | inl spec =>
      let ctx := NewContextWithCluster (cl_Spec spec) in
      '(stack, err) ← perform (PGetInfraStack ctx
          (MkClusterId noType noMeta
             (MkClusterIdSpec (bi_ResourceId (cs_Bind (cl_Spec spec))) [] EmptyString EmptyString None zeroClusterSpec)));
      match err with
      | Some e => mret (spec, (Some ctx, Some e))
      | None => mret (spec, (Some (WithStack stack ctx), None))
      end
  end.

(** A step of controller-runtime whose error is returned with a message, and one
    whose error is only logged. *)
Definition step (what msg : string) : IO W error :=
  err ← perform (Manager what);
  mret (match (err : error) with Some e => Errorf (msg +:+ Error e) | None => None end).

(** [v.startManager(spec)]: the operator, with the shared context, and the
    object.  The manager runs in a goroutine of its own, and a panic there ends
    the process. *)
Definition startManager (v : Operator) (spec : Cluster) : IO W (Operator * Cluster * error) :=
  err ← perform (Manager "new");
  match (err : error) with
  | Some e => panic ("unable to start manager: " +:+ Error e)
  | None =>
      err ← step "scheme api" "add api schema: ";
      match (err : error) with
      | Some e => mret (v, spec, Some e)
      | None =>
          err ← step "scheme core" "add core api to schema: ";
          match (err : error) with
          | Some e => mret (v, spec, Some e)
          | None =>
              '(mh, err) ← NewHealet (Some spec);
              match err, mh with
              | Some e, _ => mret (v, spec, Wrapf (Some e) "master heal")
              | None, None => panic "nil pointer dereference"
              | None, Some (spec, _) =>
                  _ ← perform (Manager "add healet");
                  _ ← perform (Manager "add snapshot");
                  '(spec, (pctx, err)) ← LoadContextIAAS spec;
                  match err, pctx with
                  | Some e, _ => mret (v, spec, Errorf ("provider context: " +:+ Error e))
                  | None, None => panic "nil pointer dereference"
                  | None, Some pctx =>
                      let v := MkOperator (op_Options v) (op_BindAddr v) (op_Initialized v)
                                 (option_map (λ c, MkCached (Nodes c) (Some (cl_Spec spec))) (op_CachedCtx v))
                                 (Some (set_Provider pctx)) in
                      err ← AddControllers Funcs;
                      match (err : error) with
                      | Some e => mret (v, spec, Errorf ("add controllers: " +:+ Error e))
                      | None =>
                          err ← perform (Manager "start and sync");
                          match (err : error) with
                          | Some _ => mret (v, spec, Errorf "wait for manager sync")
                          | None => mret (v, spec, None)
                          end
                      end
                  end
              end
          end
      end
  end.

(** The context built from an object's specification points to it, and assigns
    to it, unless the options named a file to load another one from. *)
Definition sharedWith (ctx : Context_) (opts : WdripOptions) (spec : Cluster) : Cluster :=
  match BootCFG ctx with
  | Some boot => if decide (wo_Config opts = EmptyString) then cl_with_Spec boot spec else spec
  | None => spec
  end.

(** [v.CompleteSetting()], less the REST configuration; [n] bounds the waits for
    the custom resources. *)
Definition CompleteSetting (n : nat) (v : Operator) : IO W (Operator * error) :=
  err ← doRegisterCRD n;
  match (err : error) with
  | Some e => panic ("register crds: " +:+ Error e)
  | None =>
      '(spec, err) ← op_cluster v;
      match err with
      | Some e => mret (v, Errorf ("cluster: " +:+ Error e))
      | None =>
          '(ctx, opts, err) ← NewContext (op_Options v) (Some (cl_Spec spec));
          let spec := sharedWith ctx opts spec in
          let v := MkOperator opts (op_BindAddr v) (op_Initialized v)
                     (Some (NewCachedContext (Some (cl_Spec spec)))) (op_Shared v) in
          match err with
          | Some e => mret (v, Wrapf (Some e) "build provider context")
          | None =>
              '(v, _, err) ← startManager v spec;
              match err with
              | Some e => mret (v, Errorf ("run controller: " +:+ Error e))
              | None =>
                  let v := MkOperator (op_Options v) (op_BindAddr v) true (op_CachedCtx v) (op_Shared v) in
                  '(spec, err) ← op_cluster v;
                  match err with
                  | Some e => mret (v, Errorf ("cluster: " +:+ Error e))
                  | None => '(v, _, err) ← initializeClusterResource v spec; mret (v, err)
                  end
              end
          end
      end
  end.

(** [newListener(cfg)]: whether there is a listener; [Server.Start], whose
    goroutine serves on it: without one it brings the process down. *)
Definition newListener (cfg : Configuration) : IO W (bool * error) :=
  if bool_decide (sv_TLSCAPath cfg = EmptyString) || bool_decide (sv_TLSCertPath cfg = EmptyString)
     || bool_decide (sv_TLSKeyPath cfg = EmptyString)
  then err ← perform (Listen (sv_BindAddr cfg)); mret (bool_decide (err = None), err)
  else mret (false, None).
Definition Server_Start (cfg : Configuration) : IO W error :=
  '(listener, err) ← newListener cfg;
  match err with
  | Some e => mret (Errorf ("create listener error with: " +:+ Error e))
  | None => if listener : bool then mret None else panic "nil pointer dereference"
  end.

(** [v.Start()] *)
Definition Operator_Start (n : nat) (v : Operator) : IO W (Operator * error) :=
  if op_Initialized v then mret (v, Errorf "operator server has already started")
  else
    '(v, err) ← CompleteSetting n v;
    match err with
    | Some e => mret (v, Some e)
    | None => err ← Server_Start (MkConfiguration (op_BindAddr v) EmptyString EmptyString EmptyString); mret (v, err)
    end.
End operations.

(** ** pkg/operator/controllers/addon/addon_controller.go *)
Section addons.
Context {W : Type} `{Env W} `{PkgErrors} `{GoFmt} `{MapRange} `{WaitLib W} `{PatchLib}.
Context `{ParseCIDR} `{MetaAccessor} `{Codec} `{ApplyLib}.

(** [patchAddonPhase(kcli, spec)] *)
Definition patchAddonPhase (spec : Cluster) : IO W error :=
  '(ospec, err) ← perform (KGet KCluster EmptyString (cl_Name spec));
  match err with
  | Some e => mret (Errorf ("load bootcfg from apiserver: " +:+ Error e))
  | None => mergeCluster ospec (cl_with_Spec (cs_with_AddonInitialized true (cl_Spec ospec)) ospec)
  end.

(** The addons, in the order the map is ranged over, until one fails. *)
Fixpoint applyInOrder (adds : list (string * string)) : IO W error :=
  match adds with
  | [] => mret None
  | (k, add) :: rest =>
      err ← ApplyInCluster add;
      match (err : error) with Some e => mret (Some e) | None => applyInOrder rest end
  end.

(** [Reconcile(ctx, req)] *)
Definition Addon_Reconcile (pctx : Context_) (ns name : string) : IO W (ReconcileResult * error) :=
  let result := MkResult_ false 0 in
  '(cluster, err) ← perform (KGet KCluster ns name);
  match err with
  | Some e => mret (result, if IsNotFound e then None else Some e)
  | None =>
      if cs_AddonInitialized (cl_Spec cluster) then mret (result, None)
      else if decide (ep_Intranet (cs_Endpoint (cl_Spec cluster)) = EmptyString) then
        mret (result, Errorf "cluster intranet slb endpoint is not initialized, wait next retry")
      else
        '(adds, err) ← DefaultAddons (Some pctx) (cl_Spec cluster);
        match err with
        | Some e => mret (result, Some e)
        | None =>
            err ← applyInOrder (range_order 0 adds);
            match (err : error) with
            | Some e => mret (result, Some e)
            | None => err ← patchAddonPhase cluster; mret (result, err)
            end
        end
  end.
End addons.

(** ** Facts *)
Section facts.
Context {W : Type} `{Env W} `{PkgErrors, !PkgErrorsSpec} `{GoFmt} `{MapRange} `{LocalZone} `{WaitLib W, !WaitSpec W}.
Context `{PatchLib} `{AggErrors} `{Json Members} `{Json (list EndpointStatus)} `{CryptoLib}.
Context `{Yaml ClusterSpec} `{Yaml ContextCFG} `{JM : Json Master}.
Context `{ParseCIDR} `{MetaAccessor} `{Codec} `{ApplyLib}.

(** Only the id of the stack is filled in. *)
Definition same_endpoint (a b : Cluster) : Prop := cs_Endpoint (cl_Spec a) = cs_Endpoint (cl_Spec b).

Lemma LoadStack_endpoint ctx c c' res (s s' : St W) :
  LoadStack ctx c s = (Ret (c', res), s') → same_endpoint c c'.
Proof.
  unfold LoadStack, LoadStackFromSpec. intros ([sp r] & s1 & HB & [= <- _ _])%bind_Ret_inv.
  apply bind_Ret_inv in HB as (f & s2 & Hf & HB). unfold same_endpoint. cbn.
  assert (match f with inr _ => True | inl sp' => cs_Endpoint (cl_Spec c) = cs_Endpoint sp' end) as He.
  { case_decide; [|by injection Hf as <- _]. apply bind_Ret_inv in Hf as ([x [e|]] & s3 & _ & Hf);
      [by injection Hf as <- _|]. apply bind_Ret_inv in Hf as (i & s4 & _ & [= <- _]). done. }
  destruct f as [sp'|e]; [|by injection HB as <- _ _].
  apply bind_Ret_inv in HB as (x & s3 & _ & [= <- _ _]). done.
Qed.

Lemma NewHealet_endpoint c c' g err (s s' : St W) :
  NewHealet (Some c) s = (Ret (Some (c', g), err), s') → same_endpoint c c'.
Proof.
  unfold NewHealet. intros (r & s1 & [= <- <-] & HB)%bind_Ret_inv.
  apply bind_Ret_inv in HB as ((c2 & infra & e) & s2 & HN & HB). destruct e as [e|]; [done|].
  injection HB as -> _ _ _. unfold NewInfraManager in HN.
  apply bind_Ret_inv in HN as (f & s3 & Hf & HN).
  assert (match f with inr _ => True | inl c'' => same_endpoint c c'' end) as He.
  { case_decide; [|by injection Hf as <- _]. apply bind_Ret_inv in Hf as ([x [e|]] & s4 & _ & Hf);
      [by injection Hf as <- _|]. apply bind_Ret_inv in Hf as (i & s5 & _ & [= <- _]). done. }
  destruct f as [c''|e]; [|by injection HN as <- _ _].
  apply bind_Ret_inv in HN as ((c3 & stack & e) & s4 & HL & [= <- _ _]).
  apply LoadStack_endpoint in HL. unfold same_endpoint in *. congruence.
Qed.

Lemma LoadContextIAAS_endpoint c c' r (s s' : St W) :
  LoadContextIAAS c s = (Ret (c', r), s') → same_endpoint c c'.
Proof.
  unfold LoadContextIAAS. intros (f & s1 & Hf & HB)%bind_Ret_inv.
  assert (match f with inr _ => True | inl c'' => same_endpoint c c'' end) as He.
  { case_decide; [|by injection Hf as <- _]. apply bind_Ret_inv in Hf as ([x [e|]] & s4 & _ & Hf);
      [by injection Hf as <- _|]. apply bind_Ret_inv in Hf as (i & s5 & _ & [= <- _]). done. }
  destruct f as [c''|e]; [|by injection HB as <- _ _].
  apply bind_Ret_inv in HB as ([x [e|]] & s2 & _ & [= <- _ _]); done.
Qed.

(** The manager is started on the object it was given, which the cache serves. *)
Lemma startManager_serves v spec v' spec' (s s' : St W) :
  startManager v spec s = (Ret (v', spec', None), s') →
  same_endpoint spec spec' ∧ op_CachedCtx v' = option_map (λ c, MkCached (Nodes c) (Some (cl_Spec spec'))) (op_CachedCtx v) ∧
  op_Options v' = op_Options v ∧ op_BindAddr v' = op_BindAddr v.
Proof.
  unfold startManager. intros ([e|] & s1 & _ & HB)%bind_Ret_inv; [done|].
  apply bind_Ret_inv in HB as ([e|] & s2 & _ & HB); [done|].
  apply bind_Ret_inv in HB as ([e|] & s3 & _ & HB); [done|].
  apply bind_Ret_inv in HB as ([mh [e|]] & s4 & HN & HB).
  { destruct (Wrapf_some e "master heal") as (e' & He & _). rewrite He in HB. by destruct mh. }
  destruct mh as [[c g]|]; [|done]. apply NewHealet_endpoint in HN.
  apply bind_Ret_inv in HB as (u & s5 & _ & HB). apply bind_Ret_inv in HB as (u' & s6 & _ & HB).
  apply bind_Ret_inv in HB as ((c2 & pctx & [e|]) & s7 & HL & HB); [by destruct pctx|].
  apply LoadContextIAAS_endpoint in HL. destruct pctx as [pctx|]; [|done].
  apply bind_Ret_inv in HB as ([e|] & s8 & _ & HB); [done|].
  apply bind_Ret_inv in HB as ([e|] & s9 & _ & HB); [done|]. injection HB as <- <- _.
  unfold same_endpoint in *. split; [congruence|done].
Qed.

Lemma foldl_AddMaster_boot l c : cc_BootCFG (foldl (λ c m, AddMaster m c) c l) = cc_BootCFG c.
Proof. revert c. induction l as [|m l IH]; intros c; [done|]. cbn. by rewrite IH. Qed.

Lemma RefreshNodeCache_boot c c' err (s s' : St W) :
  RefreshNodeCache c s = (Ret (c', err), s') → cc_BootCFG c' = cc_BootCFG c.
Proof.
  unfold RefreshNodeCache. intros ([items [e|]] & s1 & _ & HB)%bind_Ret_inv; [by injection HB as <- _ _|].
  apply bind_Ret_inv in HB as (u & s2 & _ & [= <- _ _]). apply foldl_AddMaster_boot.
Qed.

Lemma emits_mergeCluster (P : call → Prop) ospec nspec :
  P (KPatch (OCluster nspec)) → emits P (mergeCluster ospec nspec : IO W error).
Proof. intros HP. unfold mergeCluster. solve_emits. done. Qed.
Lemma emits_patchEndpoint spec : emits (λ _, True) (patchEndpoint spec : IO W error).
Proof. unfold patchEndpoint. solve_emits; try done. by apply emits_mergeCluster. Qed.
Lemma emits_stackID P resource : emits P (stackID resource : IO W string).
Proof. unfold stackID. solve_emits. Qed.

(** Filling in the cluster object leaves what the server serves. *)
Lemma initializeClusterResource_boot v spec v' spec' err (s s' : St W) :
  initializeClusterResource v spec s = (Ret (v', spec', err), s') →
  option_map cc_BootCFG (op_CachedCtx v') = option_map cc_BootCFG (op_CachedCtx v) ∧ op_Initialized v' = op_Initialized v.
Proof.
  unfold initializeClusterResource. intros ([sp [e|]] & s1 & _ & HB)%bind_Ret_inv; [by injection HB as <- _ _ _|].
  destruct (op_CachedCtx v) as [c|] eqn:Ec; [|done].
  apply bind_Ret_inv in HB as ([c' e] & s2 & HR & [= <- _ _ _]). apply RefreshNodeCache_boot in HR. cbn. by rewrite HR.
Qed.
End facts.

(** ** Properties *)
Section properties.
Context {W : Type} `{Env W} `{PkgErrors, !PkgErrorsSpec} `{GoFmt} `{MapRange, !MapRangeSpec} `{LocalZone}.
Context `{WaitLib W, !WaitSpec W}.
Context `{PatchLib} `{AggErrors} `{Json Members} `{Json (list EndpointStatus)} `{CryptoLib}.
Context `{Yaml ClusterSpec} `{Yaml ContextCFG} `{JM : Json Master}.
Context `{ParseCIDR} `{MetaAccessor} `{Codec} `{ApplyLib}.

Ltac solve_any :=
  solve_emits; try done; first [apply emits_patchEndpoint | apply emits_stackID | by apply emits_mergeCluster].

(** The cluster object is neither read nor written. *)
Definition leaves_cluster (c : call) : Prop :=
  match c with KGet KCluster _ _ | KPatch _ | KStatusPatch _ | KCreate _ => False | _ => True end.

(** What [op_cluster] reads when no file was given. *)
Lemma op_cluster_read v c (s s' : St W) :
  op_cluster v s = (Ret (c, None), s') → of_MetaConfig (wo_OperatorCFG (op_Options v)) = EmptyString →
  let get := KGet KCluster EmptyString "kubernetes-cluster" in
  (env_step get (after [Manager "rest client"] (world s))).1 = (c, None) ∧
  log s' = log s ++ [Manager "rest client"; get].
Proof.
  intros HB Hm. unfold op_cluster in HB. rewrite decide_False in HB by (by intros []). step_perform_in HB.
  destruct (env_step (Manager "rest client") (world s)).1 as [e|]; [done|]. step_perform_in HB.
  cbn [after foldl]. destruct (env_step (KGet KCluster _ _) _).1 as [c' [e|]]; [done|].
  injection HB as <- <-. split; [done|]. cbn [log]. by rewrite <- app_assoc.
Qed.


(** The start writes to the cluster object only when its endpoint or stack
    is missing, and then writes the addresses among the outputs of the stack and
    the stack's id, which is not empty; everything else is as the object was.
    The public address is whatever the outputs say it is, present or not. *)
Theorem initialize_patches v spec o (s : St W) :
  calls (initializeClusterResource v spec) s (KPatch o) →
  (ep_Intranet (cs_Endpoint (cl_Spec spec)) = EmptyString ∨ bi_ResourceId (cs_Bind (cl_Spec spec)) = EmptyString) ∧
  ∃ resource intranet id ospec,
    let outputs := PGetStackOutPuts (NewContextWithCluster (cl_Spec spec))
                     (MkClusterId noType (metaNamed (cs_ClusterID (cl_Spec spec))) zeroClusterIdSpec) in
    (env_step outputs (world s)).1 = (resource, None) ∧
    resource !! "APIServerIntranet" = Some intranet ∧
    v_Val (default zeroValue (resource !! "StackID")) = AStr id ∧ id ≠ EmptyString ∧
    o = OCluster (cl_with_Spec
          (withEndpoint (MkEndpoint (fmt_any (v_Val intranet))
                                    (fmt_any (v_Val (default zeroValue (resource !! "APIServerInternet"))))) id
             (cl_Spec ospec)) ospec).
Proof.
  intros Hc. unfold initializeClusterResource in Hc.
  apply (calls_bind_first (λ c, ∀ o, c ≠ KPatch o)) in Hc; [|solve_any| |by intros Hn; by apply (Hn o)].
  2:{ intros [sp [e|]]; [apply emits_ret|]. unfold RefreshNodeCache. solve_emits; done. }
  destruct (_ || _) eqn:Em; [|by apply calls_ret in Hc]. split.
  { apply orb_true_iff in Em as [?%bool_decide_eq_true|?%bool_decide_eq_true]; auto. }
  calls_step Hc; [|intros; solve_any].
  destruct Hc as [?|Hc]; [done|]. set (outputs := PGetStackOutPuts _ _) in *.
  destruct (env_step outputs (world s)) as [[resource [e|]] w1] eqn:Eo; cbn [fst snd] in Hc; [by apply calls_ret in Hc|].
  unfold op_findEndpoint in Hc. destruct (resource !! "APIServerIntranet") as [intranet|] eqn:Ei; [|by apply calls_ret in Hc].
  apply (calls_bind_inv (λ _, False)) in Hc as (id & s1 & Hid & Hc); [|apply emits_stackID|by intros []|intros; solve_any].
  apply (calls_bind_inv (λ _, False)) in Hc as (u & s2 & Hu & Hc); [|solve_emits|by intros []|intros; solve_any].
  case_decide as Hne; [done|]. clear Hu.
  apply (calls_bind_first (λ _, False)) in Hc; [|solve_any|intros; solve_emits|by intros []].
  unfold patchEndpoint in Hc. calls_step Hc; [|intros; solve_emits; by apply emits_mergeCluster].
  destruct Hc as [?|Hc]; [done|].
  destruct (env_step (KGet KCluster EmptyString "kubernetes-cluster") (world s2)) as [[ospec [e|]] w3]; cbn [fst snd] in Hc;
    [by apply calls_ret in Hc|].
  exists resource, intranet, id, ospec. unfold stackID in Hid.
  destruct (v_Val (default zeroValue (resource !! "StackID"))) as [x| |]; try done. injection Hid as -> _.
  split_and!; try done; [by rewrite Eo|].
  match type of Hc with calls (mergeCluster _ ?b) _ _ =>
    apply (calls_emits (λ c, c = KPatch (OCluster b))) in Hc; [injection Hc as ->; reflexivity|by apply emits_mergeCluster]
  end.
Qed.

(** A start that got as far as running the controllers is final, even when it
    failed afterwards: the next one only says that the operator has started. *)
Lemma started_is_final n v s :
  op_Initialized v = true → Operator_Start n v s = (Ret (v, Errorf "operator server has already started"), s).
Proof. intros Hi. unfold Operator_Start. by rewrite Hi. Qed.

Lemma emits_applyInOrder adds : emits (λ c, ∀ o, c ≠ KPatch o) (applyInOrder adds : IO W error).
Proof.
  induction adds as [|[k add] adds IH]; cbn [applyInOrder]; [apply emits_ret|].
  apply emits_bind; [|intros [e|]; [apply emits_ret|apply IH]].
  unfold ApplyInCluster, doApply, BuildClientGetter.
  assert (∀ g infos, emits (λ c, ∀ o, c ≠ KPatch o) (visitAll g infos : IO W _)) as Hv.
  { intros g infos. induction infos as [|[info err] infos IHi]; cbn [visitAll]; [apply emits_ret|].
    apply emits_bind; [|intros e; apply emits_bind; [apply IHi|intros; apply emits_ret]].
    apply emits_applyOne. by intros c Ht o ->; destruct Ht. }
  solve_emits; try done; apply Hv.
Qed.
End properties.

(** *** The addons *)
Section addon_properties.
Context {W : Type} `{Env W} `{PkgErrors} `{GoFmt} `{MapRange, !MapRangeSpec} `{WaitLib W, !WaitSpec W} `{PatchLib}.
Context `{ParseCIDR} `{MetaAccessor} `{Codec} `{ApplyLib}.

Lemma emits_DefaultAddons ctx spec : emits (λ c, ∀ o, c ≠ KPatch o) (DefaultAddons (Some ctx) spec : IO W _).
Proof.
  unfold DefaultAddons, defaultAddons, deref, SecrityGroup. solve_emits; try done; try apply emits_stackOr.
  all: generalize (∅ : gmap string string); match goal with |- ∀ _, emits _ (renderAddons _ _ _ _ _ ?l _) => induction l as [|x l IH] end;
    intros d; cbn [renderAddons]; solve_emits; try done; apply IH.
Qed.

(** Every addon of the list was applied without an error. *)
Lemma applyInOrder_all adds (s s' : St W) :
  applyInOrder adds s = (Ret None, s') →
  Forall (λ kv, ∃ sa sb, ApplyInCluster kv.2 sa = (Ret None, sb)) adds.
Proof.
  revert s. induction adds as [|[k add] adds IH]; intros s; cbn [applyInOrder]; [constructor|].
  intros ([e|] & s1 & Ha & HB)%bind_Ret_inv; [done|]. constructor; [by exists s, s1|by eapply IH].
Qed.

(** C35: the cluster is marked as having its addons only after every addon was
    applied: the object read had the mark unset and an endpoint set, the default
    addons of its specification could all be rendered, and each of them was
    applied in the cluster without an error, one after the other, right before
    the object is read again; the mark is all that is changed of what this second
    reading found. *)
Theorem addons_marked_after_applied ctx ns name o (s : St W) :
  calls (Addon_Reconcile ctx ns name) s (KPatch o) →
  ∃ cluster adds s1 s2 s3 ospec,
    (env_step (KGet KCluster ns name) (world s)).1 = (cluster, None) ∧
    cs_AddonInitialized (cl_Spec cluster) = false ∧ ep_Intranet (cs_Endpoint (cl_Spec cluster)) ≠ EmptyString ∧
    DefaultAddons (Some ctx) (cl_Spec cluster) s1 = (Ret (adds, None), s2) ∧
    (∀ k add, adds !! k = Some add → ∃ sa sb, ApplyInCluster add sa = (Ret None, sb)) ∧
    applyInOrder (range_order 0 adds) s2 = (Ret None, s3) ∧
    (env_step (KGet KCluster EmptyString (cl_Name cluster)) (world s3)).1 = (ospec, None) ∧
    o = OCluster (cl_with_Spec (cs_with_AddonInitialized true (cl_Spec ospec)) ospec).
Proof.
  intros Hc. unfold Addon_Reconcile in Hc.
  assert (∀ spec, emits (λ _, True) (patchAddonPhase spec : IO W error)) as Hpatch.
  { intros spec. unfold patchAddonPhase. solve_emits; try done. by apply emits_mergeCluster. }
  assert (∀ l, emits (λ _, True) (applyInOrder l : IO W error)) as Happly.
  { intros l. by eapply emits_weaken; [|apply emits_applyInOrder]. }
  calls_step Hc.
  2:{ intros [c [e|]]; solve_emits; first [apply Hpatch | apply Happly | by eapply emits_weaken; [|apply emits_DefaultAddons]]. }
  destruct Hc as [?|Hc]; [done|].
  destruct (env_step (KGet KCluster ns name) (world s)) as [[cluster [e|]] w1] eqn:Eg; cbn [fst snd] in Hc;
    [by apply calls_ret in Hc|].
  destruct (cs_AddonInitialized (cl_Spec cluster)) eqn:Ei; [by apply calls_ret in Hc|].
  case_decide as Hep; [by apply calls_ret in Hc|].
  apply (calls_bind_inv (λ c, ∀ o, c ≠ KPatch o)) in Hc as ([adds [e|]] & s2 & Ed & Hc);
    [by apply calls_ret in Hc| |apply emits_DefaultAddons|by intros Hn; apply (Hn o)|
     intros; solve_emits; first [apply Hpatch | apply Happly]].
  apply (calls_bind_inv (λ c, ∀ o, c ≠ KPatch o)) in Hc as ([e|] & s3 & Ea & Hc);
    [by apply calls_ret in Hc| |apply emits_applyInOrder|by intros Hn; apply (Hn o)|intros; solve_emits; apply Hpatch].
  apply (calls_bind_first (λ _, False)) in Hc; [|apply Hpatch|intros; solve_emits|by intros []].
  unfold patchAddonPhase in Hc. calls_step Hc; [|intros; solve_emits; by apply emits_mergeCluster].
  destruct Hc as [?|Hc]; [done|].
  destruct (env_step (KGet KCluster EmptyString (cl_Name cluster)) (world s3)) as [[ospec [e|]] w4] eqn:Eo; cbn [fst snd] in Hc;
    [by apply calls_ret in Hc|].
  exists cluster, adds, (MkSt w1 (log s ++ [KGet KCluster ns name])), s2, s3, ospec. split_and!; try done.
  - intros k add Hk. apply applyInOrder_all in Ea. rewrite Forall_forall in Ea. apply (Ea (k, add)).
    rewrite (range_order_perm 0 _ adds). by apply elem_of_map_to_list.
  - by rewrite Eo.
  - match type of Hc with calls (mergeCluster _ ?b) _ _ =>
      apply (calls_emits (λ c, c = KPatch (OCluster b))) in Hc; [injection Hc as ->; reflexivity|by apply emits_mergeCluster]
    end.
Qed.
End addon_properties.

(** ** A concrete cluster that starts without an endpoint, for evaluation *)
Module SimOperator.
Import Sim SimEnv SimWait SimPatch SimEtcd SimOp SimNet SimKube.
#[export] Instance yaml_any {A} : Yaml A | 10 := {| YamlMarshal _ := EmptyString; YamlUnmarshal _ x := (x, None) |}.
#[export] Instance json_any {A} : Json A | 10 := {| Marshal _ := EmptyString; Unmarshal _ x := (x, None) |}.

Definition young : ClusterSpec :=
  cs_with_ClusterID "k8s" (cs_with_Bind (set_Bind_Provider (Some (MkProvider "alibaba" "{}")) zeroBindInfra) zeroClusterSpec).
Definition ready : ClusterSpec :=
  UserData.cs_with_Registry "registry-vpc.cn-hangzhou.aliyuncs.com/acs" (cs_with_Endpoint (MkEndpoint "10.0.0.1" "") young).
Definition script (c : call) (t : Z) : option (reply c) :=
  match c with
  | KGet KCluster _ n => Some (cl_with_Spec (if decide (n = "ready") then ready else young) zeroCluster, None)
  | PGetStackOutPuts _ _ =>
      Some ({["APIServerIntranet" := MkValue "APIServerIntranet" (AStr "10.0.0.1"); "StackID" := MkValue "StackID" (AStr "stack-1")]}, None)
  | _ => None
  end.
#[export] Instance operator_env : Env Z := SimEnv.scripted script.
Definition operator : Operator := NewOperatorServer zeroWdripOptions.
Definition shared : Context_ := NewContextWithCluster young.
End SimOperator.

(** ** Witnesses *)
Import Sim SimEnv SimWait SimPatch SimEtcd SimOp SimNet SimKube SimOperator.

Definition fixed : Cluster :=
  cl_with_Spec (withEndpoint (MkEndpoint "10.0.0.1" "%!s(<nil>)") "stack-1" young) zeroCluster.


Lemma initialize_patches_witness :
  ∃ o, (calls (initializeClusterResource (W:=Z)
          (MkOperator zeroWdripOptions "" true (Some (NewCachedContext None)) None) (cl_with_Spec young zeroCluster))
          (start_at 0) (KPatch (OCluster o))) ∧
       ep_Internet (cs_Endpoint (cl_Spec o)) = "%!s(<nil>)".
Proof.
  set (v := MkOperator _ _ _ _ _).
  assert (calls (initializeClusterResource (W:=Z) v (cl_with_Spec young zeroCluster)) (start_at 0) (KPatch (OCluster fixed))) as Hc.
  { eexists. split; [vm_compute; reflexivity|]. apply (list_elem_of_lookup_2 _ 2). by vm_compute. }
  exists fixed. split; [exact Hc|].
  destruct (initialize_patches (W:=Z) v _ _ _ Hc) as (_ & res & intranet & id & ospec & Hr & _ & _ & _ & Ho).
  apply (f_equal (λ x, match x with OCluster c => ep_Internet (cs_Endpoint (cl_Spec c)) | _ => "" end)) in Ho.
  etransitivity; [exact Ho|]. vm_compute in Hr. injection Hr as <-. vm_compute. reflexivity.
Defined.

Lemma addons_marked_after_applied_witness :
  ∃ adds s1 s2, DefaultAddons (W:=Z) (Some shared) ready s1 = (Ret (adds, None), s2) ∧
    ∃ add sa sb, adds !! "coredns" = Some add ∧ Contains add "name: coredns" = true ∧
      ApplyInCluster (W:=Z) add sa = (Ret None, sb).
Proof.
  assert (calls (Addon_Reconcile (W:=Z) shared "" "ready") (start_at 0)
    (KPatch (OCluster (cl_with_Spec (cs_with_AddonInitialized true young) zeroCluster)))) as Hc.
  { eexists. split; [vm_compute; reflexivity|]. apply (list_elem_of_lookup_2 _ 39). by vm_compute. }
  destruct (addons_marked_after_applied (W:=Z) _ _ _ _ _ Hc) as (cl & adds & s1 & s2 & s3 & ospec & Hg & _ & _ & Hd & Ha & _).
  assert (cl = cl_with_Spec ready zeroCluster) as -> by (vm_compute in Hg; injection Hg as <-; vm_compute; reflexivity).
  exists adds, s1, s2. split; [exact Hd|].
  assert (option_map (λ m : gmap string string, option_map (λ t, Contains t "name: coredns") (m !! "coredns"))
    (match (DefaultAddons (W:=Z) (Some shared) ready s1).1 with Ret (m, _) => Some m | _ => None end) = Some (Some true)) as Hm.
  { by vm_compute. }
  change (cl_Spec (cl_with_Spec ready zeroCluster)) with ready in Hd. rewrite Hd in Hm. cbn in Hm.
  destruct (adds !! "coredns") as [add|] eqn:Ea; [|discriminate]. cbn in Hm. injection Hm as Hm.
  destruct (Ha "coredns" add Ea) as (sa & sb & Hap). exists add, sa, sb. split; [reflexivity|]. by split.
Defined.
