(* ===== verification/Build.v ===== *)
(** * Building and publishing packages (cmd/wdrip/build, pkg/actions/file/transfer.go)

    The build command packs the binaries of each component into an archive, and
    uploads it to a bucket per region.  Where it goes is compared with where the
    steps of a node, in [Boot], download it from.  Commands are environment calls; [deepcopy.Copy] of a path is the path. *)
From stdpp Require Import base list gmap strings.
From Stdlib Require Import Lia Ascii.
From S2P Require Import Prelude GoStrings GoTime Api Effects Utils Provider Rest NodeInfo Sign Etcd Iaas Actions NodeActions Post Boot.
Local Open Scope Z_scope.

(** [type flagpole struct], as far as it is read. *)
Record flagpole : Type := MkFlagpole {
  fl_Regions : list string;
  fl_Bucket : string;
  fl_Download : bool;
  fl_DryRun : bool;
  fl_OS : string;
  fl_SourceOS : string;
  fl_Arch : string;
  fl_Project : string;
  fl_NamespaceFrom : string;
  fl_NamespaceTo : string;
  fl_BaseFileServer : string;
  fl_KubernetesVersion : string;
  fl_KubernetesCNIVersion : string;
  fl_DockerVersion : string;
  fl_EtcdVersion : string;
  fl_WdripVersion : string;
  fl_RunScriptVersion : string;
  fl_CloudType : string }.
Record BuildContext : Type := MkBuildContext { b_Ctx : flagpole; b_TempDir : string }.

(** [type Tar struct]; [type Transfer struct], whose functions are always the
    ones of this file. *)
Record Tar : Type := NewTar { t_from : string; t_name : string }.
Definition Location (m : Tar) : string := t_name m.
Record Transfer : Type := MkTransfer {
  tf_Bucket : string;
  tf_Regions : list string;
  tf_From : FilePath;
  tf_To : FilePath;
  tf_Base : string;
  tf_Cache : string;
  tf_Tar : option Tar }.
Definition LocalTarURI (f : Transfer) : string := JoinPath [tf_Cache f; fp_Name (tf_From f)].
Definition LocalURL (f : Transfer) : string := JoinPath [tf_Cache f; fp_URL (tf_From f)].
Definition RemotePath (f : Transfer) : string := JoinPath [tf_Base f; fp_URL (tf_From f)].

(** The paths of the packages: [build_NewEtcd], [NewKubernetes] and so on. *)
Definition newPath (b : BuildContext) (pkg version : string) : FilePath :=
  let c := b_Ctx b in
  MkFilePath (fl_Project c) (fl_NamespaceFrom c) (fl_CloudType c) pkg version (fl_Arch c) (fl_SourceOS c) "bin" "".
Definition build_NewEtcd b := newPath b "etcd" (fl_EtcdVersion (b_Ctx b)).
Definition NewKubernetes b := newPath b "kubernetes" (fl_KubernetesVersion (b_Ctx b)).
Definition NewDocker b := newPath b "docker" (fl_DockerVersion (b_Ctx b)).
Definition NewWdrip b := newPath b "wdrip" (fl_WdripVersion (b_Ctx b)).
Definition NewRun b := newPath b "run" (fl_RunScriptVersion (b_Ctx b)).
Definition NewCNI b := newPath b "kubernetes-cni" (fl_KubernetesCNIVersion (b_Ctx b)).

(** Where a package goes: under the other namespace, for the other system. *)
Definition target (b : BuildContext) (from : FilePath) : FilePath :=
  MkFilePath (fp_Project from) (fl_NamespaceTo (b_Ctx b)) (fp_CType from) (fp_Pkg from) (fp_Version from)
    (fp_Arch from) (fl_OS (b_Ctx b)) (fp_Ftype from) (fp_Destination from).
Definition transferTo (b : BuildContext) (from : FilePath) (t : option Tar) : Transfer :=
  MkTransfer (fl_Bucket (b_Ctx b)) (fl_Regions (b_Ctx b)) from (target b from)
    (fl_BaseFileServer (b_Ctx b)) (b_TempDir b) t.

Section operations.
Context {W : Type} `{Env W}.

Definition endpointOf (region : string) : string := region +:+ ".oss.aliyuncs.com".
Definition runCmd (name : string) (args env : list string) : IO W error :=
  status ← perform (Run name args env); mret (CmdError status).

(** [m.Tar()]: the environment of the process, and a variable. *)
Definition Tar_Tar (m : Tar) : IO W error :=
  '(found, err) ← FileExist (t_from m);
  if (match err with Some _ => true | None => negb found end) then
    mret (Errorf ("file not exist or read file error: " +:+ errText err))
  else runCmd "tar" ["zcvf"; t_name m; "-C"; t_from m; "."] ["COPYFILE_DISABLE=1"].

Definition DownloadFromOSS (f : Transfer) (from to : string) : IO W error :=
  err ← perform (MkdirAll to);
  match (err : error) with
  | Some e => mret (Errorf ("download: [mkdir -p] " +:+ Error e))
  | None =>
      match tf_Regions f with
      | [] => mret (Errorf ("region not specified, [" +:+ fmt_strs [] +:+ "]"))
      | region :: _ =>
          runCmd "ossutil" ["--endpoint"; endpointOf region; "cp"; "-r";
                            "oss://" +:+ tf_Bucket f +:+ "/" +:+ from +:+ "/"; to] []
      end
  end.

Definition build_EnsureBucket (region bucket : string) : IO W error :=
  status ← perform (Run "ossutil" ["--endpoint"; endpointOf region; "ls"] []);
  match CmdError status with
  | Some e => mret (Some e)
  | None =>
      if Contains (Join (c_Stderr status ++ c_Stdout status) EmptyString) bucket then mret None
      else runCmd "ossutil" ["--endpoint"; endpointOf region; "mb"; "oss://" +:+ bucket] []
  end.

(** [Upload2OSS(f, from, to)], region by region until one fails. *)
Definition uploadDir (bucket region to : string) : string := "oss://" +:+ bucket +:+ "-" +:+ region +:+ "/" +:+ to +:+ "/".
Fixpoint uploadTo (bucket : string) (regions : list string) (from to : string) : IO W error :=
  match regions with
  | [] => mret None
  | region :: regions =>
      err ← runCmd "ossutil" ["--endpoint"; endpointOf region; "cp"; "-u"; from; uploadDir bucket region to] [];
      match (err : error) with
      | Some e => mret (Errorf ("upload pkg: " +:+ Error e))
      | None => uploadTo bucket regions from to
      end
  end.
Definition Upload2OSS (f : Transfer) (from to : string) : IO W error := uploadTo (tf_Bucket f) (tf_Regions f) from to.

(** [doBuild(b, from)] *)
Definition doBuild (b : BuildContext) (from : FilePath) : IO W error :=
  let tar := NewTar (JoinPath [b_TempDir b; fp_URL from]) (JoinPath [b_TempDir b; fp_Name from]) in
  let f := transferTo b from (Some tar) in
  err ← Tar_Tar tar;
  match (err : error) with
  | Some e => mret (Some e)
  | None => Upload2OSS f (Location tar) (fp_URL (tf_To f))
  end.

Definition copyRunScript (b : BuildContext) (from : FilePath) (provider : string) : IO W error :=
  let f := transferTo b from None in
  Upload2OSS f ("run/" +:+ ("run." +:+ provider +:+ ".sh")) (fp_URL (tf_To f)).
Fixpoint copyScripts (b : BuildContext) (from : FilePath) (providers : list string) : IO W error :=
  match providers with
  | [] => mret None
  | pro :: providers =>
      err ← copyRunScript b from pro;
      match (err : error) with
      | Some e => mret (Errorf ("build run script fail: " +:+ Error e))
      | None => copyScripts b from providers
      end
  end.
Definition BuildRunScript (b : BuildContext) (from : FilePath) : IO W error :=
  copyScripts b from ["alibaba"; "boot"; "replace"].

(** [doBuildWdrip(b, from)]: the make target and what it builds. *)
Definition wdripTarget (arch : string) : string * string :=
  if decide (arch = "arm64") then ("wdriparm64", "build/bin/wdrip.arm64")
  else if decide (arch = "amd64") then ("wdriplinux", "build/bin/wdrip.amd64")
  else ("wdripmac", "build/bin/wdrip").
Definition doBuildWdrip (b : BuildContext) (from : FilePath) : IO W error :=
  let '(bcmd, target) := wdripTarget (fl_Arch (b_Ctx b)) in
  err ← runCmd "make" [bcmd] [];
  match (err : error) with
  | Some e => mret (Errorf ("build wdrip error: " +:+ Error e))
  | None => let f := transferTo b from None in Upload2OSS f target (JoinPath [fp_URL (tf_To f)])
  end.

(** The packages, in order, with what builds each. *)
Inductive builder : Type := ByArchive | ByScripts | ByMake.
Definition packages (b : BuildContext) : list (FilePath * builder) :=
  [(NewDocker b, ByArchive); (build_NewEtcd b, ByArchive); (NewKubernetes b, ByArchive); (NewCNI b, ByArchive);
   (NewRun b, ByScripts); (NewWdrip b, ByMake)].
Definition runBuilder (b : BuildContext) (how : builder) (pkg : FilePath) : IO W error :=
  match how with
  | ByArchive => doBuild b pkg
  | ByScripts => BuildRunScript b pkg
  | ByMake => doBuildWdrip b pkg
  end.

(** [b.download(f)]: into the working directory. *)
Definition build_download (b : BuildContext) (pkg : FilePath) : IO W error :=
  match fl_Regions (b_Ctx b) with
  | [] => panic "index out of range [0] with length 0"
  | region :: _ =>
      let src := "http://" +:+ fl_Bucket (b_Ctx b) +:+ "-" +:+ region +:+ ".oss.aliyuncs.com" +:+ "/" +:+ fp_URI pkg in
      err ← perform (MkdirAll (fp_URL pkg));
      match (err : error) with
      | Some e => mret (Errorf ("enusre dire " +:+ fp_URL pkg +:+ " : " +:+ Error e))
      | None => runCmd "wget" [src; "-O"; fp_URI pkg] []
      end
  end.

Fixpoint ensureBuckets (bucket : string) (regions : list string) : IO W error :=
  match regions with
  | [] => mret None
  | region :: regions =>
      err ← build_EnsureBucket region bucket;
      match (err : error) with Some e => mret (Some e) | None => ensureBuckets bucket regions end
  end.

(** The loop of [Build] over the packages. *)
Fixpoint buildAll (b : BuildContext) (pkgs : list (FilePath * builder)) : IO W error :=
  match pkgs with
  | [] => mret None
  | (pkg, how) :: pkgs =>
      if fl_DryRun (b_Ctx b) then
        err ← perform (MkdirAll (JoinPath [b_TempDir b; fp_URL_T pkg]));
        match (err : error) with
        | Some _ => mret (Errorf "mkdir example dir failed")
        | None => buildAll b pkgs
        end
      else if decide (fp_Version pkg = EmptyString) then buildAll b pkgs
      else
        err ← (if fl_Download (b_Ctx b) then build_download b pkg else mret None);
        match (err : error) with
        | Some e => mret (Errorf ("download: " +:+ Error e))
        | None =>
            err ← runBuilder b how pkg;
            match (err : error) with
            | Some e => mret (Errorf ("build package with error: " +:+ Error e))
            | None => buildAll b pkgs
            end
        end
  end.

(** [b.Build()]; [os.Exit] ends the process, as a panic does. *)
Definition Build (b : BuildContext) : IO W error :=
  _ ← (if fl_DryRun (b_Ctx b) && bool_decide (fl_Regions (b_Ctx b) = []) then panic "exit status 1" else mret tt);
  err ← ensureBuckets (fl_Bucket (b_Ctx b)) (fl_Regions (b_Ctx b));
  match (err : error) with
  | Some e => mret (Some e)
  | None => buildAll b (packages b)
  end.

(** [InitBuild(flag)] *)
Definition InitBuild (flag : flagpole) : IO W error :=
  home ← perform (Getenv "HOME");
  Build (MkBuildContext flag (home +:+ "/.wdrip/cache")).
End operations.

(** ** Facts *)
Section facts.
Context {W : Type} `{Env W}.

Lemma emits_runCmd (P : call → Prop) name args env : P (Run name args env) → emits P (runCmd name args env : IO W error).
Proof. intros HP. unfold runCmd. by solve_emits. Qed.
Lemma emits_uploadTo bucket regions from to : emits (λ _, True) (uploadTo bucket regions from to : IO W error).
Proof. induction regions as [|r regions IH]; cbn [uploadTo]; solve_emits; try apply emits_runCmd; done. Qed.
Lemma emits_runBuilder b how pkg : emits (λ _, True) (runBuilder b how pkg : IO W error).
Proof.
  destruct how; cbn [runBuilder]; unfold doBuild, Tar_Tar, FileExist, doBuildWdrip, BuildRunScript, copyScripts, copyRunScript, Upload2OSS.
  all: repeat case_match; repeat first [ apply emits_uploadTo | apply emits_runCmd; done | progress solve_emits ]; done.
Qed.
Lemma emits_buildAll b pkgs : emits (λ _, True) (buildAll b pkgs : IO W error).
Proof.
  induction pkgs as [|[pkg how] pkgs IH]; cbn [buildAll]; [apply emits_ret|]. unfold build_download.
  repeat first [ apply emits_runBuilder | apply emits_runCmd; done | progress solve_emits ]; done.
Qed.
Lemma emits_ensureBuckets bucket regions : emits (λ _, True) (ensureBuckets bucket regions : IO W error).
Proof.
  induction regions as [|r regions IH]; cbn [ensureBuckets]; [apply emits_ret|]. unfold build_EnsureBucket.
  repeat first [ apply emits_runCmd; done | progress solve_emits ]; done.
Qed.
Lemma emits_prefix {A} P (m : IO W A) s o s' : emits P m → m s = (o, s') → log s `prefix_of` log s'.
Proof. intros Hm E. destruct (Hm s) as (l & El & _). rewrite E in El. by exists l. Qed.

(** Between the two states a command was run, without an error: right after
    [s1] the log grew by it. *)
Definition ran (name : string) (args env : list string) (s1 s2 : St W) : Prop :=
  ∃ st, perform (Run name args env) s1 = (Ret st, s2) ∧ CmdError st = None.
Lemma runCmd_nil name args env (s s' : St W) : runCmd name args env s = (Ret None, s') → ran name args env s s'.
Proof.
  unfold runCmd. intros (st & s1 & Hp & HB)%bind_Ret_inv. injection HB as HB <-. by exists st.
Qed.
Lemma uploadTo_nil bucket regions from to (s s' : St W) region :
  uploadTo bucket regions from to s = (Ret None, s') → region ∈ regions →
  ∃ s1 s2, log s `prefix_of` log s1 ∧ log s2 `prefix_of` log s' ∧
    ran "ossutil" ["--endpoint"; endpointOf region; "cp"; "-u"; from; uploadDir bucket region to] [] s1 s2.
Proof.
  revert s. induction regions as [|r regions IH]; intros s; cbn [uploadTo]; [by intros _ ?%elem_of_nil|].
  intros ([e|] & s1 & Hr & HB)%bind_Ret_inv Hin; [done|].
  pose proof (emits_prefix (λ _, True) _ _ _ _ (emits_runCmd _ _ _ _ I) Hr) as Hp1.
  pose proof (emits_prefix _ _ _ _ _ (emits_uploadTo _ _ _ _) HB) as Hp2. apply runCmd_nil in Hr.
  apply elem_of_cons in Hin as [->|Hin]; [by exists s, s1|].
  destruct (IH _ HB Hin) as (sa & sb & Ha & Hb & Hu). exists sa, sb. split; [by etransitivity|done].
Qed.

(** An archive that is built is made, and then uploaded in every region. *)
Lemma doBuild_nil b from (s s' : St W) :
  doBuild b from s = (Ret None, s') →
  let tar := JoinPath [b_TempDir b; fp_Name from] in
  ∃ s1 s2, log s `prefix_of` log s1 ∧
    ran "tar" ["zcvf"; tar; "-C"; JoinPath [b_TempDir b; fp_URL from]; "."] ["COPYFILE_DISABLE=1"] s1 s2 ∧
    ∀ region, region ∈ fl_Regions (b_Ctx b) → ∃ s3 s4, log s2 `prefix_of` log s3 ∧ log s4 `prefix_of` log s' ∧
      ran "ossutil" ["--endpoint"; endpointOf region; "cp"; "-u"; tar;
                     uploadDir (fl_Bucket (b_Ctx b)) region (fp_URL (target b from))] [] s3 s4.
Proof.
  intros HB tar. unfold doBuild in HB. apply bind_Ret_inv in HB as ([e|] & s2 & Ht & HB); [done|].
  unfold Tar_Tar in Ht. apply bind_Ret_inv in Ht as ([found err] & s1 & Hf & Ht).
  destruct (match err with Some _ => true | None => negb found end); [done|].
  assert (emits (λ _, True) (FileExist (W:=W) (JoinPath [b_TempDir b; fp_URL from]))) as He
    by (unfold FileExist; solve_emits; done).
  exists s1, s2. split; [by apply (emits_prefix _ _ _ _ _ He Hf)|]. split; [by apply runCmd_nil in Ht|].
  intros region Hr. apply (uploadTo_nil _ _ _ _ _ _ region HB Hr).
Qed.

(** Building until the first error: an end without one has built everything that
    has a version. *)
Lemma buildAll_nil b pkgs (s s' : St W) :
  fl_DryRun (b_Ctx b) = false → buildAll b pkgs s = (Ret None, s') →
  Forall (λ p, fp_Version p.1 ≠ EmptyString → ∃ s1 s2, log s `prefix_of` log s1 ∧ log s2 `prefix_of` log s' ∧
    runBuilder b p.2 p.1 s1 = (Ret None, s2)) pkgs.
Proof.
  intros Hd. revert s. induction pkgs as [|[pkg how] pkgs IH]; intros s; cbn [buildAll]; [constructor|].
  rewrite Hd. case_decide as Hv; [intros Hb; constructor; [done|by eapply IH]|].
  assert (emits (λ _, True) (if fl_Download (b_Ctx b) then build_download b pkg else mret None : IO W error)) as Hdl.
  { unfold build_download. repeat first [ apply emits_runCmd; done | progress solve_emits ]; done. }
  intros ([e|] & s1 & H1 & HB)%bind_Ret_inv; [done|].
  apply bind_Ret_inv in HB as ([e|] & s2 & Hr & HB); [done|].
  pose proof (emits_prefix _ _ _ _ _ Hdl H1) as Hp1.
  pose proof (emits_prefix _ _ _ _ _ (emits_runBuilder _ _ _) Hr) as Hp2.
  pose proof (emits_prefix _ _ _ _ _ (emits_buildAll _ _) HB) as Hp3.
  constructor; [by exists s1, s2|].
  eapply Forall_impl; [by eapply IH|]. intros p Hp Hpv. destruct (Hp Hpv) as (sa & sb & Ha & Hb & Hrun).
  exists sa, sb. split; [|done]. by etransitivity; [|etransitivity].
Qed.
Lemma ensureBuckets_nil bucket regions (s s' : St W) :
  ensureBuckets bucket regions s = (Ret None, s') →
  Forall (λ r, ∃ s1 s2, build_EnsureBucket r bucket s1 = (Ret None, s2)) regions.
Proof.
  revert s. induction regions as [|r regions IH]; intros s; cbn [ensureBuckets]; [constructor|].
  intros ([e|] & s1 & Hr & HB)%bind_Ret_inv; [done|]. constructor; [by exists s, s1|by eapply IH].
Qed.

(** The elements of the path of a package. *)
Definition elements (p : FilePath) : list string :=
  [fp_Project p; fp_Namespace p; fp_CType p; fp_Pkg p; fp_Version p; fp_Arch p; fp_OS p].
Lemma fp_URI_plain p : Forall plain (elements p) → plain (fp_Name p) → fp_URI p = fp_URL p +:+ "/" +:+ fp_Name p.
Proof.
  intros He Hn. unfold fp_URI, fp_URL. fold (elements p). rewrite (JoinPath_plain (elements p)) by done. by apply JoinPath_in.
Qed.
(** A name made of a package and a version is plain when the version is. *)
Lemma plain_Name p : no_byte "/" (fp_Pkg p) → no_byte "/" (fp_Version p) → fp_Pkg p ≠ EmptyString → plain (fp_Name p).
Proof.
  intros Hp Hv Hne. unfold fp_Name. split; [repeat apply no_byte_app; done|].
  destruct (fp_Pkg p) as [|c1 [|c2 r]]; [done|by split_and!|]. split_and!; [done|done|].
  intros [= -> -> E]. destruct r; discriminate E.
Qed.
End facts.

(** ** What the nodes fetch *)
Section fetching.
Context {W : Type} `{Env W} `{PkgErrors} `{GoFmt} `{MapRange} `{CryptoLib} `{PKIX} `{LocalZone}.
Context `{WaitLib W, !WaitSpec W} `{Json Members} `{Json (list EndpointStatus)} `{Json Cluster}.
Context `{BackoffLib (W * string), !VarBackoffSpec W string} `{Spawn}.
Existing Instance var_env.

(** The call fetches nothing but [f], from the bucket of the region the node
    asked for. *)
Definition fetches (f : File) (c : call) : Prop :=
  ∀ args env, c = Run "wget" args env → ∃ r (t1 t2 : St W), NodeRegion t1 = (Ret (r, None), t2) ∧
    args !! 4%nat = Some (wget (fi_with_Region r f)).
Lemma not_wget f c : (∀ args env, c ≠ Run "wget" args env) → fetches f c.
Proof. intros Hc args env E. by apply Hc in E. Qed.
Ltac no_wget := apply not_wget; intros ? ? ?; first [done | set_solver].

Lemma emits_install_fetches f r (t1 t2 : St W) :
  NodeRegion t1 = (Ret (r, None), t2) → emits (fetches f) (install (W:=W) (fi_with_Region r f)).
Proof.
  intros Hr. unfold install, Download, Untar, Install, doBin, doRPM.
  solve_emits; try no_wget.
  - intros args env [= <- _]. by exists r, t1, t2.
  - eapply emits_weaken; [|apply emits_installBin]. intros c Hc. apply not_wget. by intros ? ? ->.
Qed.
Lemma emits_runInstalls f r order errs (t1 t2 : St W) :
  NodeRegion t1 = (Ret (r, None), t2) →
  emits (fetches f) (runInstalls (W:=W) [fi_with_Region r f] order errs).
Proof.
  intros Hr. revert errs. induction order as [|i order IH]; intros errs; cbn [runInstalls]; [apply emits_ret|].
  destruct ([_] !! _) as [g|] eqn:E; [|apply IH]. apply list_elem_of_lookup_2, list_elem_of_singleton in E as ->.
  apply emits_bind; [by eapply emits_install_fetches|intros; apply IH].
Qed.
Lemma emits_fileAction_fetches f ctx : emits (fetches f) (fileAction (W:=W) [f] ctx).
Proof.
  intros s. unfold fileAction. apply run_emits_bind.
  - apply (emits_weaken asks); [|apply emits_metaFirst]. intros c Hc. apply not_wget. by intros ? ? ->.
  - intros [r err] s1 Hr. destruct err as [e|]; [apply emits_ret|]. cbn [negb orb]. rewrite bool_decide_eq_true_2 by done.
    cbn [negb orb]. case_bool_decide; [apply emits_ret|]. cbn [map ensureDirs].
    match goal with |- run_emits ?P ?m _ => enough (emits P m) as He by exact (He s1) end.
    solve_emits; [no_wget|by eapply emits_runInstalls].
Qed.

(** The packages the steps of a node fetch: docker, etcd, kubernetes and the
    network plugins. *)
Definition nodeFiles (spec : ClusterSpec) (bucket : string) : list File :=
  [package spec "docker" (un_Version (cr_Unit (cs_Runtime spec))) "" "" bucket;
   package spec "etcd" (un_Version (es_Unit (cs_Etcd spec))) "" "" bucket;
   package spec "kubernetes" (un_Version (ku_Unit (cs_Kubernetes spec))) "" "pkg/kubernetes/" bucket;
   package spec "kubernetes-cni" "0.8.6" "/opt/cni/bin/" "" bucket].
Definition fetchesNode spec bucket (c : call) : Prop := ∃ f, f ∈ nodeFiles spec bucket ∧ fetches f c.

Lemma emits_bind_ret {A B} P (a : A) (g : A → IO W B) : emits P (g a) → emits P (mret a ≫= g).
Proof. done. Qed.
Lemma emits_fetchesNode spec bucket f ctx : f ∈ nodeFiles spec bucket → emits (fetchesNode spec bucket) (fileAction (W:=W) [f] ctx).
Proof. intros Hf. apply (emits_weaken (fetches f)); [|apply emits_fileAction_fetches]. intros c Hc. by exists f. Qed.
Lemma not_wget_node spec bucket c : (∀ args env, c ≠ Run "wget" args env) → fetchesNode spec bucket c.
Proof. intros Hc. eexists. split; [by left|]. by apply not_wget. Qed.

Lemma emits_NewConcurrentPkgDL spec bucket ctx :
  emits (fetchesNode spec bucket) (NewConcurrentPkgDL (W:=W) spec bucket ctx).
Proof.
  unfold NewConcurrentPkgDL. apply emits_ConcurrentAction.
  intros a [->|[->|Ha%elem_of_nil]%elem_of_cons]%elem_of_cons; [apply emits_fetchesNode..|done];
    unfold nodeFiles; set_solver.
Qed.
Context (ctx : NodeContext) (node : Master) (cfg : Cluster).
Context (Hnode : nc_node ctx = Some (Some node)) (Hcfg : mt_BootCFG (m_Status node) = Some cfg).
Lemma emits_InitContainerRuntime_fetches :
  emits (fetchesNode (cl_Spec cfg) (wo_Bucket (WdripFlags ctx))) (InitContainerRuntime (W:=W) ctx).
Proof.
  unfold InitContainerRuntime, NodeObject, deref. rewrite Hnode. apply emits_bind_ret. rewrite Hcfg. apply emits_bind_ret.
  cbv zeta. case_decide; [apply emits_ret|]. apply emits_keepCtx, emits_RunActions.
  intros b [->|[->|Hb%elem_of_nil]%elem_of_cons]%elem_of_cons; [apply emits_fetchesNode; by left| |done].
  unfold runtimeAction, Systemctl.
  repeat first [ apply emits_writeAll; intros f v; by apply not_wget_node | progress solve_emits ]; by apply not_wget_node.
Qed.
Lemma emits_InitEtcd_fetches :
  emits (fetchesNode (cl_Spec cfg) (wo_Bucket (WdripFlags ctx))) (InitEtcd (W:=W) ctx).
Proof.
  unfold InitEtcd, NodeObject, deref. rewrite Hnode. apply emits_bind_ret. rewrite Hcfg. apply emits_bind_ret.
  cbv zeta. apply emits_keepCtx, emits_RunActions.
  intros b [->|[->|Hb%elem_of_nil]%elem_of_cons]%elem_of_cons; [apply emits_fetchesNode; right; by left| |done].
  unfold etcdAction, NodeObject. solve_emits. apply (emits_weaken (λ c, ¬ setsUp c)); [|apply emits_etcd_runs].
  intros c Hc. apply not_wget_node. intros args env ->. apply Hc. right. by exists args, env.
Qed.
End fetching.

(** The build packs each of these packages, and uploads it to the path it is
    fetched from, when it was told the settings of the cluster. *)
Section matching.
Context (b : BuildContext) (spec : ClusterSpec) (bucket : string).
Definition builtFor : Prop :=
  let fl := b_Ctx b in
  fl_Bucket fl = bucket ∧ fl_Project fl = "wdrip" ∧ fl_NamespaceTo fl = cs_Namespace spec ∧ fl_CloudType fl = cs_CloudType spec ∧
  fl_Arch fl = "amd64" ∧ fl_OS fl = "centos" ∧
  fl_DockerVersion fl = un_Version (cr_Unit (cs_Runtime spec)) ∧ fl_EtcdVersion fl = un_Version (es_Unit (cs_Etcd spec)) ∧
  fl_KubernetesVersion fl = un_Version (ku_Unit (cs_Kubernetes spec)) ∧ fl_KubernetesCNIVersion fl = "0.8.6".
Definition settings : list string :=
  [cs_Namespace spec; cs_CloudType spec; un_Version (cr_Unit (cs_Runtime spec)); un_Version (es_Unit (cs_Etcd spec));
   un_Version (ku_Unit (cs_Kubernetes spec))].

Lemma file_built pkg version dest cache :
  builtFor → plain (cs_Namespace spec) → plain (cs_CloudType spec) → plain version → plain pkg →
  let f := package spec pkg version dest cache bucket in
  let from := newPath b pkg version in
  plain (fp_Name from) ∧ fi_BaseServer f = EmptyString ∧ fi_Bucket f = bucket ∧
  fp_URI (fi_Path f) = fp_URL (target b from) +:+ "/" +:+ fp_Name from.
Proof.
  intros (_ & Hp & Hns & Hct & Har & Hos & _) Pns Pct Pv Pk f from.
  assert (plain (fp_Name from)) as Hn by (apply plain_Name; [apply Pk|apply Pv|apply Pk]).
  split_and!; [done|done|done|].
  assert (fp_URL (fi_Path f) = fp_URL (target b from)) as <-.
  { unfold fp_URL, target, from, newPath. cbn. by rewrite Hp, Hns, Hct, Har, Hos. }
  apply (fp_URI_plain (fi_Path f)); [|done]. repeat apply Forall_cons_2; try done; repeat split; done.
Qed.
Lemma nodeFiles_built f :
  builtFor → Forall plain settings → f ∈ nodeFiles spec bucket →
  ∃ from, (from, ByArchive) ∈ packages b ∧ fp_Version from ≠ EmptyString ∧ plain (fp_Name from) ∧
    fi_BaseServer f = EmptyString ∧ fi_Bucket f = bucket ∧
    fp_URI (fi_Path f) = fp_URL (target b from) +:+ "/" +:+ fp_Name from.
Proof.
  intros Hb Hs Hf. pose proof Hb as (_ & _ & _ & _ & _ & _ & Vd & Ve & Vk & Vc).
  repeat match goal with Hs : Forall _ _ |- _ => apply Forall_cons in Hs as [? Hs] end. clear Hs.
  assert (∀ pkg version dest cache, plain version → plain pkg → f = package spec pkg version dest cache bucket →
    (newPath b pkg version, ByArchive) ∈ packages b → ∃ from, (from, ByArchive) ∈ packages b ∧
      fp_Version from ≠ EmptyString ∧ plain (fp_Name from) ∧ fi_BaseServer f = EmptyString ∧ fi_Bucket f = bucket ∧
      fp_URI (fi_Path f) = fp_URL (target b from) +:+ "/" +:+ fp_Name from) as Hgo.
  { intros pkg version dest cache Pv Pk -> Hin. exists (newPath b pkg version).
    split; [done|]. split; [apply Pv|]. by apply file_built. }
  repeat (apply elem_of_cons in Hf as [Hf|Hf]); 
    [eapply Hgo; [| |exact Hf|];
     [done|by split_and!|unfold packages, NewDocker, build_NewEtcd, NewKubernetes, NewCNI; rewrite Vd, Ve, Vk, Vc; set_solver]..
    |by apply elem_of_nil in Hf].
Qed.
End matching.

(** ** Properties *)
Section properties.
Context {W : Type} `{Env W} `{PkgErrors} `{GoFmt} `{MapRange} `{CryptoLib} `{PKIX} `{LocalZone}.
Context `{WaitLib W, !WaitSpec W} `{Json Members} `{Json (list EndpointStatus)} `{Json Cluster}.
Context `{BackoffLib (W * string), !VarBackoffSpec W string} `{Spawn}.

(** C40: what the nodes download is what a build uploads.  Take a build that
    ends without an error and was told the namespace, cloud type, versions and
    bucket of a cluster (and the system of the nodes, which is fixed).  Every
    file that the container runtime, etcd and kubernetes steps of a node of that
    cluster fetch with wget is asked from the bucket of the region the node found
    itself in, under a key which the build uploaded to the bucket of every one of
    its regions: the archive was made by a tar that succeeded, and after it, for
    each region, a copy of that archive succeeded whose destination directory
    and the archive's name make the key.  The path of the URL has one slash more than the
    key: the base server ends in a slash and another is put before the path. *)
Theorem uploaded_where_downloaded b ctx node cfg (s s' t : St W) args env :
  nc_node ctx = Some (Some node) → mt_BootCFG (m_Status node) = Some cfg →
  let spec := cl_Spec cfg in
  let bucket := wo_Bucket (WdripFlags ctx) in
  Build b s = (Ret None, s') → fl_DryRun (b_Ctx b) = false → builtFor b spec bucket → Forall plain (settings spec) →
  calls (InitContainerRuntime ctx) t (Run "wget" args env) ∨ calls (InitEtcd ctx) t (Run "wget" args env) ∨
  calls (NewConcurrentPkgDL spec bucket ctx) t (Run "wget" args env) →
  ∃ r (t1 t2 : St W) key archive dir s1 s2,
    NodeRegion t1 = (Ret (r, None), t2) ∧
    args !! 4%nat = Some ("http://" +:+ bucket +:+ "-" +:+ r +:+ ".oss-" +:+ r +:+ "-internal.aliyuncs.com/" +:+ "/" +:+ key) ∧
    log s `prefix_of` log s1 ∧ ran "tar" ["zcvf"; archive; "-C"; dir; "."] ["COPYFILE_DISABLE=1"] s1 s2 ∧
    ∀ region, region ∈ fl_Regions (b_Ctx b) → ∃ s3 s4 dst, log s2 `prefix_of` log s3 ∧ log s4 `prefix_of` log s' ∧
      ran "ossutil" ["--endpoint"; region +:+ ".oss.aliyuncs.com"; "cp"; "-u"; archive; dst] [] s3 s4 ∧
      dst +:+ Base archive = "oss://" +:+ bucket +:+ "-" +:+ region +:+ "/" +:+ key.
Proof.
  intros Hn Hc spec bucket HB Hd Hf Hs Hw.
  assert (fetchesNode (W:=W) spec bucket (Run "wget" args env)) as (f & Hin & Hfetch).
  { destruct Hw as [Hw|[Hw|Hw]]; (eapply calls_emits; [|exact Hw]);
      [by eapply emits_InitContainerRuntime_fetches|by eapply emits_InitEtcd_fetches|apply emits_NewConcurrentPkgDL]. }
  destruct (Hfetch _ _ eq_refl) as (r & t1 & t2 & Hr & Ha).
  destruct (nodeFiles_built b spec bucket f Hf Hs Hin) as (from & Hp & Hv & Hname & Hbase & Hbk & HU).
  unfold Build in HB. rewrite Hd in HB. cbn [andb] in HB. rewrite bind_ret_l in HB.
  apply bind_Ret_inv in HB as ([e|] & sb & He & HB); [done|].
  pose proof (emits_prefix _ _ _ _ _ (emits_ensureBuckets _ _) He) as Hpre. apply buildAll_nil in HB; [|done].
  rewrite Forall_forall in HB. destruct (HB _ Hp Hv) as (sc & sd & Hc1 & Hc2 & Hb). apply doBuild_nil in Hb as (s1 & s2 & Hl & Ht & Hup).
  exists r, t1, t2, (fp_URI (fi_Path f)). eexists _, _, s1, s2. split; [done|]. split.
  { rewrite Ha. unfold wget, baseServer, fi_with_Region. cbn [fi_BaseServer fi_Bucket fi_Region fi_Path]. rewrite Hbase, Hbk, decide_True by done. by rewrite ?string_app_assoc. }
  split; [by etransitivity; [|etransitivity]|]. split; [exact Ht|]. intros region Hreg.
  destruct (Hup region Hreg) as (s3 & s4 & Hs3 & Hs4 & Hran). eexists s3, s4, _. split; [done|].
  split; [by etransitivity|]. split; [exact Hran|].
  rewrite Base_JoinPath, HU by done. destruct Hf as (-> & _). unfold uploadDir. by rewrite !string_app_assoc.
Qed.

(** A build that ends without an error has ensured the bucket in every
    region and built every package that has a version, each without an error. *)
Theorem Build_complete b (s s' : St W) :
  Build b s = (Ret None, s') → fl_DryRun (b_Ctx b) = false →
  Forall (λ r, ∃ s1 s2, build_EnsureBucket r (fl_Bucket (b_Ctx b)) s1 = (Ret None, s2)) (fl_Regions (b_Ctx b)) ∧
  Forall (λ p, fp_Version p.1 ≠ EmptyString → ∃ s1 s2, runBuilder b p.2 p.1 s1 = (Ret None, s2)) (packages b).
Proof.
  unfold Build. intros HB Hd. rewrite Hd in HB. cbn [andb] in HB. rewrite bind_ret_l in HB.
  apply bind_Ret_inv in HB as ([e|] & s1 & He & HB); [done|].
  split; [by eapply ensureBuckets_nil|]. apply buildAll_nil in HB; [|done].
  eapply Forall_impl; [exact HB|]. intros p Hp Hv. destruct (Hp Hv) as (sa & sb & _ & _ & Hr). by exists sa, sb.
Qed.

(** What a dry run does: directories for the files, and the buckets. *)
Definition dryCall (b : BuildContext) (c : call) : Prop :=
  match c with
  | MkdirAll d => ∃ p, p ∈ packages b ∧ d = JoinPath [b_TempDir b; fp_URL_T p.1]
  | Run "ossutil" [_; _; "ls"] _ => True
  | Run "ossutil" [_; _; "mb"; dst] _ => dst = "oss://" +:+ fl_Bucket (b_Ctx b)
  | _ => False
  end.

(** A dry run uploads nothing and runs no build: it only makes the example
    directories, and lists and makes buckets, of the plain bucket name.  It does
    make a bucket: when the listing of the first region does not mention it, the
    second command of the run makes it. *)
Theorem dry_run_makes_buckets b (s : St W) :
  fl_DryRun (b_Ctx b) = true →
  emits (dryCall b) (Build b : IO W error) ∧
  ∀ region regions, fl_Regions (b_Ctx b) = region :: regions →
    let ls := Run "ossutil" ["--endpoint"; endpointOf region; "ls"] [] in
    let status := (env_step ls (world s)).1 in
    CmdError status = None →
    Contains (Join (c_Stderr status ++ c_Stdout status) EmptyString) (fl_Bucket (b_Ctx b)) = false →
    calls (Build b) s (Run "ossutil" ["--endpoint"; endpointOf region; "mb"; "oss://" +:+ fl_Bucket (b_Ctx b)] []).
Proof.
  intros Hd.
  assert (∀ regions, emits (dryCall b) (ensureBuckets (fl_Bucket (b_Ctx b)) regions : IO W error)) as He.
  { induction regions as [|r regions IH]; cbn [ensureBuckets]; [apply emits_ret|].
    unfold build_EnsureBucket, runCmd. solve_emits; by first [apply IH | cbn]. }
  assert (∀ pkgs, (∀ p, p ∈ pkgs → p ∈ packages b) → emits (dryCall b) (buildAll b pkgs : IO W error)) as Hb.
  { induction pkgs as [|[pkg how] pkgs IH]; intros Hin; cbn [buildAll]; [apply emits_ret|]. rewrite Hd.
    apply emits_bind; [emits_call; exists (pkg, how); split; [apply Hin; by left|done]|].
    intros [e|]; [apply emits_ret|]. apply IH. intros p Hp. apply Hin. by right. }
  split.
  - unfold Build. solve_emits; [apply He|by apply Hb].
  - intros region regions Hr ls status Hs Hc. unfold Build. rewrite Hd, Hr. rewrite bool_decide_eq_false_2 by done.
    cbn [andb]. rewrite calls_bind_ret. apply calls_bind_l.
    { intros [e|]; [apply emits_ret|]. eapply emits_weaken; [|by apply Hb]. done. }
    cbn [ensureBuckets]. apply calls_bind_l.
    { intros [e|]; [apply emits_ret|]. eapply emits_weaken; [|by apply He]. done. }
    unfold build_EnsureBucket. apply (calls_perform_next ls).
    fold status. rewrite Hs, Hc. unfold runCmd. apply calls_bind_l; [intros; apply emits_ret|]. exact (calls_perform (Run _ _ _) _).
Qed.
End properties.

(** ** A build of one package in two regions, for evaluation *)
Module SimBuild.
Import Sim SimEnv.
Definition flags (dry : bool) : flagpole :=
  MkFlagpole ["cn-hangzhou"; "cn-beijing"] "host-wdrip" false dry "centos" "centos" "amd64" "wdrip" "default" "default"
    "" "" "" "" "v3.4.3" "" "" "public".
Definition context (dry : bool) : BuildContext := MkBuildContext (flags dry) "/root/.wdrip/cache".
(** A build for a cluster, and a node of the cluster that is to run docker. *)
Definition release : BuildContext :=
  MkBuildContext
    (MkFlagpole ["cn-hangzhou"; "cn-beijing"] "bucket" false false "centos" "centos" "amd64" "wdrip" "default" "prod"
       "" "1.18.2" "0.8.6" "19.03.5" "v3.4.3" "" "" "public") "/root/.wdrip/cache".
Definition cluster : Cluster :=
  NewDefaultCluster "kubernetes-cluster"
    (MkClusterSpec (cs_Bind zeroClusterSpec) "k8s" "prod" "public" (cs_Network zeroClusterSpec)
       (MkEtcdSpec (MkUnit "etcd" "v3.4.3" ∅) "" "" None None) (MkContainerRuntime (MkUnit "docker" "19.03.5" ∅))
       (MkKubernetes (MkUnit "kubernetes" "1.18.2" ∅) "" None None None None) false [] "" "" (cs_Endpoint zeroClusterSpec) 0).
Definition worker : Master :=
  MkMaster (MkTypeMeta "NodeObject" "v1") (metaNamed "10.0.0.1") (MkMasterSpec "10.0.0.1" "cn-hangzhou.i-1" "Worker")
    (MkMasterStatus [] (Some cluster) "").
Definition booting : NodeContext :=
  MkNodeContext (SimBoot.options "local" "Worker") None (Some (Some worker)) None.
End SimBuild.

(** ** Witnesses *)
Import Sim SimEnv SimBuild.

Section downloads.
Import SimWait SimBackoff Machine SimBoot.
Existing Instance Machine.machine_env.
Definition docker_url : string :=
  "http://bucket-cn-hangzhou.oss-cn-hangzhou-internal.aliyuncs.com//wdrip/prod/public/docker/19.03.5/amd64/centos/docker-19.03.5.tar.gz".
Lemma uploaded_where_downloaded_witness :
  ∃ r key archive dst s3 s4,
    docker_url = "http://bucket-" +:+ r +:+ ".oss-" +:+ r +:+ "-internal.aliyuncs.com/" +:+ "/" +:+ key ∧
    ran (W:=Z) "ossutil" ["--endpoint"; "cn-beijing.oss.aliyuncs.com"; "cp"; "-u"; archive; dst] [] s3 s4 ∧
    dst +:+ Base archive = "oss://bucket-cn-beijing/" +:+ key.
Proof.
  destruct (Build (W:=Z) release (start_at 0)) as [[[e|]| |] s'] eqn:E;
    [vm_compute in E; discriminate| |vm_compute in E; discriminate..].
  destruct (uploaded_where_downloaded (W:=Z) release booting worker cluster (start_at 0) s' (start_at 0)
    ["--tries"; "10"; "--no-check-certificate"; "-q"; docker_url; "-O"; "cache/docker/docker-19.03.5.tar.gz"] [])
    as (r & t1 & t2 & key & archive & dir & s1 & s2 & _ & Hu & _ & _ & Hreg).
  - reflexivity.
  - reflexivity.
  - exact E.
  - reflexivity.
  - by split_and!.
  - repeat constructor; done.
  - left. exists (log (InitContainerRuntime (W:=Z) booting (start_at 0)).2). split; [reflexivity|].
    apply (list_elem_of_lookup_2 _ 4). by vm_compute.
  - destruct (Hreg "cn-beijing") as (s3 & s4 & dst & _ & _ & Hran & Hdst); [by right; left|].
    exists r, key, archive, dst, s3, s4. split; [exact (f_equal (default EmptyString) Hu)|]. split; [exact Hran|exact Hdst].
Defined.
End downloads.

Lemma Build_complete_witness :
  ∃ s1 s2, doBuild (context false) (build_NewEtcd (context false)) s1 = (Ret (None : error), s2).
Proof.
  destruct (Build (W:=Z) (context false) (start_at 0)) as [[[e|]| |] s'] eqn:E; [vm_compute in E; discriminate| |vm_compute in E; discriminate..].
  destruct (Build_complete (W:=Z) _ _ _ E) as [_ Hp]; [reflexivity|].
  rewrite Forall_forall in Hp. apply (Hp (build_NewEtcd (context false), ByArchive)); [by right; left|done].
Defined.

Lemma dry_run_makes_buckets_witness :
  calls (Build (W:=Z) (context true)) (start_at 0)
    (Run "ossutil" ["--endpoint"; "cn-hangzhou.oss.aliyuncs.com"; "mb"; "oss://host-wdrip"] []).
Proof.
  destruct (dry_run_makes_buckets (W:=Z) (context true) (start_at 0)) as [_ Hb]; [reflexivity|].
  apply (Hb "cn-hangzhou" ["cn-beijing"]); reflexivity.
Defined.
