(* ===== verification/Monkey.v ===== *)
(** * The chaos monkey (cmd/wdrip/monkey, pkg/operator/monit/client.go)

    Once an hour the monkey picks some operations and some masters and stops or
    deletes them, after a backup.  The time of the last round is kept in a config
    map.  Controller-runtime's client for the config map is the untyped object
    client of [Effects]; [rand.Shuffle] is the swapping loop of math/rand. *)
From stdpp Require Import base list gmap strings.
From Stdlib Require Import Lia.
From S2P Require Import Prelude GoStrings GoTime Api Effects Utils Provider Help Sign Etcd Triple Operation Healet Index BackupCtl.
Local Open Scope Z_scope.

(** The error of [time.Parse] on a text it cannot read. *)
Class TimeParse : Type := parse_error : string → goerr.

(** [cm.Data[k]] of a config map. *)
Definition field_of (k : string) (o : json) : json :=
  match o with
  | JObj l => match List.find (λ kv, bool_decide (kv.1 = k)) l with Some (_, v) => v | None => JNull end
  | _ => JNull
  end.
Definition cmData (o : json) (k : string) : string :=
  match field_of k (field_of "data" o) with JStr s => s | _ => EmptyString end.

Definition last_chaos_time : string := "last.chaos.time".
Definition chaosConfig (now : string) : json :=
  JObj [("kind", JStr "ConfigMap"); ("apiVersion", JStr "v1");
        ("metadata", JObj [("name", JStr "chaos.config"); ("namespace", JStr "kube-system")]);
        ("data", JObj [(last_chaos_time, JStr now)])].

(** [type Action interface]: the operations on a machine. *)
Inductive Action : Type :=
| DeleteECS (ClusterName : string)
| StopECS (ClusterName : string)
| StopProcess (ClusterName process : string).
Definition Action_Name (a : Action) : string :=
  match a with
  | DeleteECS _ => "delete.ecs"
  | StopECS _ => "stop.ecs"
  | StopProcess _ process => "stop." +:+ process
  end.
Definition ClusterName (a : Action) : string :=
  match a with DeleteECS n | StopECS n | StopProcess n _ => n end.

Section operations.
Context {W : Type} `{Env W} `{PkgErrors} `{GoFmt} `{MapRange} `{LocalZone} `{WaitLib W} `{Yaml ClusterSpec} `{Yaml ContextCFG}.
Context `{Json Members} `{Json (list EndpointStatus)} `{CryptoLib}.
Context `{JS : Json Snapshot} `{JC : Json ClusterId} `{TimeParse}.

(** ** pkg/operator/monit/client.go *)

(** [NewClusterCtl()]: a cache that does not sync is an error wrapped around
    nil, which is nil. *)
Definition NewClusterCtl : IO W error :=
  err ← perform (Manager "new cluster");
  match (err : error) with
  | Some e => mret (Wrapf (Some e) "new cluster controller")
  | None =>
      err ← perform (Manager "cluster cache sync");
      mret (match (err : error) with Some _ => Wrapf None "wait cache sync:" | None => None end)
  end.

Definition GetSpec : IO W (option (Cluster * list Master) * error) :=
  '(spec, err) ← h_Cluster "kubernetes-cluster";
  match err with
  | Some e => mret (None, Some e)
  | None =>
      '(masters, err) ← MasterCRDS;
      match err with Some e => mret (None, Some e) | None => mret (Some (spec, masters), None) end
  end.

(** [LoadLastChaosTime(mclient)]: [time.Parse] reads the text as UTC. *)
Definition LoadLastChaosTime : IO W (Z * error) :=
  '(cm, err) ← perform (ResGet "configmaps" "kube-system" "chaos.config");
  match err with
  | Some e => if IsNotFound e then now ← perform Now; mret (now - 24 * Hour, None) else mret (0, Some e)
  | None =>
      let text := cmData cm last_chaos_time in
      match parse_at 0 " " EmptyString text with
      | Some t => mret (t, None)
      | None => mret (0, Some (parse_error text))
      end
  end.

(** [SaveLastChaosTime(mclient, now)], in the zone of the process. *)
Definition SaveLastChaosTime (now : Z) : IO W error :=
  let cm := chaosConfig (format_at zone_offset " " EmptyString now) in
  '(_, err) ← perform (ResCreate "configmaps" "kube-system" cm);
  match err with
  | Some _ => perform (ResUpdate "configmaps" "kube-system" cm)
  | None => mret None
  end.

(** ** cmd/wdrip/monkey/jump.go *)
Definition NewOperations (ctx : Context_) : IO W (list Action) :=
  match BootCFG ctx with
  | None => panic "nil pointer dereference"
  | Some bootcfg =>
      let id := cs_ClusterID bootcfg in
      mret [DeleteECS id; StopECS id; StopProcess id "docker"; StopProcess id "etcd"; StopProcess id "kubelet"]
  end.

Definition TriggerBackup (ctx : Context_) : IO W unit :=
  '(spec, err) ← GetSpec;
  match err, spec with
  | Some e, _ => panic ("init master: " +:+ Error e)
  | None, None => panic "nil pointer dereference"
  | None, Some (spec, masters) =>
      let snap := NewBareSnapshot (NewGenericIndexer (cs_ClusterID (cl_Spec spec))) in
      '(_, err) ← br_Backup snap spec masters;
      match (err : error) with
      | Some e => panic ("backup failed: " +:+ Error e)
      | None => mret tt
      end
  end.

(** [rand.Intn(n)] *)
Definition Intn (n : Z) : IO W Z :=
  if decide (n ≤ 0) then panic "invalid argument to Intn" else perform (RandIntn n).

(** What an action does to a machine. *)
Definition mfunc (ctx : Context_) (a : Action) (i : Instance) : IO W error :=
  match a with
  | DeleteECS _ => perform (PDeleteECS ctx (i_Id i))
  | StopECS _ => perform (PStopECS ctx (i_Id i))
  | StopProcess _ process =>
      '(_, err) ← perform (PRunCommand ctx (i_Id i) ("systemctl stop " +:+ process)); mret err
  end.

(** The loop of [doOperate], over the machines in some order, [k] of [n] done. *)
Fixpoint operateOn (ctx : Context_) (a : Action) (n k : Z) (todo : list Instance) : IO W unit :=
  match todo with
  | [] => mret tt
  | i :: todo =>
      if decide (n ≤ k) then mret tt
      else
        err ← mfunc ctx a i;
        _ ← match (err : error) with Some _ => perform (Sleep (10 * Second)) | None => mret tt end;
        operateOn ctx a n (k + 1) todo
  end.
Definition doOperate (ctx : Context_) (a : Action) : IO W (Z * error) :=
  if decide (ClusterName a = EmptyString) then mret (0, Errorf "empty cluster name")
  else
    '(detail, err) ← perform (PScalingGroupDetail ctx EmptyString (MkOption ActionInstanceIDS zeroValue));
    match err with
    | Some e => mret (0, Wrapf (Some e) ("find ecs for master fail: " +:+ Error e))
    | None =>
        let len := Z.of_nat (size (sg_Instances detail)) in
        r ← Intn len;
        let n := r `div` 2 + 1 in
        let n := if decide (len < n) then len else n in
        _ ← operateOn ctx a n 0 (range_vals 0 (sg_Instances detail));
        mret (n, None)
    end.
Definition Execute (ctx : Context_) (a : Action) : IO W (Z * error) := doOperate ctx a.

(** [rand.Shuffle(n, swap)] *)
Definition swap {A} (i j : nat) (l : list A) : IO W (list A) :=
  match l !! i, l !! j with
  | Some x, Some y => mret (<[j := x]> (<[i := y]> l))
  | _, _ => panic "index out of range"
  end.
Fixpoint Shuffle {A} (i : nat) (l : list A) : IO W (list A) :=
  match i with
  | O => mret l
  | S i' => j ← perform (RandIntn (Z.of_nat i + 1)); l ← swap i (Z.to_nat j) l; Shuffle i' l
  end.

Fixpoint runOperations (ctx : Context_) (ops : list Action) : IO W Z :=
  match ops with
  | [] => mret 0
  | a :: ops => '(cnt, _) ← Execute ctx a; rest ← runOperations ctx ops; mret (cnt + rest)
  end.

(** [Jump(ctx, client)] *)
Definition Jump (ctx : Context_) : IO W unit :=
  now ← perform Now;
  err ← SaveLastChaosTime now;
  match (err : error) with
  | Some _ => mret tt
  | None =>
      _ ← TriggerBackup ctx;
      operations ← NewOperations ctx;
      r ← Intn (Z.of_nat (length operations) - 2);
      operations ← Shuffle (length operations - 1) operations;
      _ ← runOperations ctx (take (Z.to_nat (r + 2)) operations);
      mret tt
  end.

Definition NewInitializedPrvdCtx : IO W (option Context_ * error) :=
  err ← NewClusterCtl;
  match (err : error) with
  | Some e => mret (None, Wrapf (Some e) "get cluster spec")
  | None =>
      '(spec, err) ← GetSpec;
      match err, spec with
      | Some e, _ => mret (None, Some e)
      | None, None => panic "nil pointer dereference"
      | None, Some (spec, _) =>
          '(mctx, _, err) ← NewContext zeroWdripOptions (Some (cl_Spec spec));
          match err with
          | Some e => mret (Some mctx, Wrapf (Some e) "new prvd context")
          | None =>
              '(id, err) ← GetCluster (cs_ClusterID (cl_Spec spec)) (cs_ClusterID (cl_Spec spec));
              match err with
              | Some e => mret (Some mctx, Wrapf (Some e) "get cluster id")
              | None =>
                  '(stack, err) ← perform (PGetInfraStack mctx id);
                  match err with
                  | Some e => mret (Some mctx, Wrapf (Some e) "get stack: ")
                  | None => mret (Some (WithStack stack mctx), None)
                  end
              end
          end
      end
  end.

(** The function [ChaosMonkeyJump] repeats: the clock is read for the message
    and for the decision. *)
Definition jump (ctx : Context_) : IO W unit :=
  '(last, err) ← LoadLastChaosTime;
  match err with
  | Some e => panic ("last chaos config: " +:+ Error e)
  | None =>
      _ ← perform Now;
      now ← perform Now;
      if TimeAfter now (last + 1 * Hour) then Jump ctx else mret tt
  end.
(** [wait.Forever(jump, 1*time.Minute)], for [n] rounds. *)
Fixpoint forever (n : nat) (ctx : Context_) : IO W unit :=
  match n with
  | O => hang
  | S n => _ ← jump ctx; _ ← perform (Sleep (1 * Minute)); forever n ctx
  end.
Definition ChaosMonkeyJump (n : nat) : IO W unit :=
  '(ctx, err) ← NewInitializedPrvdCtx;
  match err, ctx with
  | Some e, _ => panic ("initialize provider context:" +:+ Error e)
  | None, None => panic "nil pointer dereference"
  | None, Some ctx => forever n ctx
  end.
End operations.

(** ** Facts *)

(** Something done to a machine. *)
Definition harms (c : call) : Prop :=
  match c with PDeleteECS _ _ | PStopECS _ _ | PRunCommand _ _ _ => True | _ => False end.
#[global] Instance harms_dec c : Decision (harms c).
Proof. destruct c; cbn; apply _. Defined.

Section facts.
Context {W : Type} `{Env W} `{PkgErrors, !PkgErrorsSpec} `{GoFmt} `{MapRange, !MapRangeSpec} `{LocalZone} `{WaitLib W}.
Context `{Yaml ClusterSpec} `{Yaml ContextCFG} `{Json Members} `{Json (list EndpointStatus)} `{CryptoLib}.
Context `{JS : Json Snapshot} `{JC : Json ClusterId} `{TimeParse}.

(** A backup runner without a client cannot back up. *)
Lemma br_Backup_bare g spec masters (s : St W) :
  br_Backup (NewBareSnapshot g) spec masters s = (Panic "nil pointer dereference", s).
Proof. done. Qed.
Lemma TriggerBackup_panics ctx (s : St W) :
  ∃ msg s', TriggerBackup ctx s = (Panic msg, s').
Proof.
  unfold TriggerBackup. rewrite bind_unfold. destruct (GetSpec s) as [[[spec err]| |] s1] eqn:E.
  - destruct err as [e|]; [by do 2 eexists|]. destruct spec as [[spec masters]|]; [|by do 2 eexists].
    rewrite bind_unfold, br_Backup_bare. by do 2 eexists.
  - by do 2 eexists.
  - unfold GetSpec, h_Cluster, MasterCRDS in E. step_perform_in E.
    destruct (env_step _ _) as [[c [e|]] w]; cbn [fst snd] in E; [done|]. step_perform_in E.
    by destruct (env_step _ _) as [[m [e|]] w2].
Qed.
Lemma emits_TriggerBackup ctx : emits (λ c, ¬ harms c) (TriggerBackup ctx : IO W unit).
Proof.
  unfold TriggerBackup, GetSpec, h_Cluster, MasterCRDS. apply emits_bind; [solve_emits; cbn; tauto|].
  intros [spec [e|]]; [apply emits_panic|]. destruct spec as [[spec masters]|]; [|apply emits_panic].
  intros s. exists []. rewrite bind_unfold, br_Backup_bare. by rewrite app_nil_r.
Qed.

(** The machines an action is applied to, when none of the requests hangs: the
    first of the list, as many as are left of [n]. *)
Definition harm (ctx : Context_) (a : Action) (i : Instance) : call :=
  match a with
  | DeleteECS _ => PDeleteECS ctx (i_Id i)
  | StopECS _ => PStopECS ctx (i_Id i)
  | StopProcess _ process => PRunCommand ctx (i_Id i) ("systemctl stop " +:+ process)
  end.
Lemma mfunc_request ctx a i (s : St W) :
  ∃ err w, mfunc ctx a i s = (Ret err, MkSt w (log s ++ [harm ctx a i])).
Proof.
  destruct a as [c|c|c p]; cbn [mfunc harm]; [rewrite perform_eq; by do 2 eexists..|].
  step_perform. destruct (env_step _ _) as [[r e] w]. by do 2 eexists.
Qed.
Lemma operateOn_first ctx a n k todo (s : St W) :
  ∃ s' new, operateOn ctx a n k todo s = (Ret tt, s') ∧ log s' = log s ++ new ∧
    filter harms new = map (harm ctx a) (take (Z.to_nat (n - k)) todo).
Proof.
  revert k s. induction todo as [|i todo IH]; intros k s; cbn [operateOn].
  { exists s, []. rewrite app_nil_r, take_nil. done. }
  case_decide as Hk.
  { exists s, []. rewrite app_nil_r, Z2Nat.nonpos by lia. done. }
  destruct (mfunc_request ctx a i s) as (err & w & Hm). rewrite (bind_Ret _ _ _ _ _ Hm).
  assert (harms (harm ctx a i)) as Hh by (by destruct a).
  replace (Z.to_nat (n - k)) with (S (Z.to_nat (n - (k + 1)))) by lia. cbn [take map].
  destruct err as [e|].
  - step_perform. edestruct (IH (k + 1)) as (s' & new & E & El & Ef). rewrite E. exists s'. eexists. split; [done|].
    rewrite El. cbn [log]. rewrite <- !app_assoc. split; [done|]. cbn [app].
    rewrite filter_cons_True by done. rewrite filter_cons_False by (cbn; tauto). by rewrite Ef.
  - rewrite bind_ret_l. edestruct (IH (k + 1)) as (s' & new & E & El & Ef). rewrite E. exists s'. eexists. split; [done|].
    rewrite El. cbn [log]. rewrite <- !app_assoc. split; [done|]. cbn [app].
    rewrite filter_cons_True by done. by rewrite Ef.
Qed.

(** A text written in the zone of the process and read as UTC. *)
Lemma parse_as_utc offset t :
  let u := t + offset * Second in
  0 ≤ local_year 0 u ≤ 9999 →
  parse_at 0 " " EmptyString (format_at offset " " EmptyString t) = Some (u `div` Second * Second).
Proof.
  intros u Hy. rewrite <- (parse_format 0 " " EmptyString u) by done. f_equal. unfold format_at.
  assert (wall_of offset t = wall_of 0 u) as -> by (unfold wall_of, u; rewrite Z.div_add, Z.add_0_r by done; done).
  done.
Qed.
End facts.

(** ** Properties *)
Section properties.
Context {W : Type} `{Env W} `{PkgErrors, !PkgErrorsSpec} `{GoFmt} `{MapRange, !MapRangeSpec} `{LocalZone} `{WaitLib W}.
Context `{Yaml ClusterSpec} `{Yaml ContextCFG} `{Json Members} `{Json (list EndpointStatus)} `{CryptoLib}.
Context `{JS : Json Snapshot} `{JC : Json ClusterId} `{TimeParse}.

(** A round of the monkey never does anything to a machine: the runner it
    backs up with has no client, so that once the time of the round is saved the
    round ends in a panic, whatever the cluster answers. *)
Theorem monkey_never_harms ctx (s : St W) :
  emits (λ c, ¬ harms c) (Jump ctx : IO W unit) ∧
  let now := (env_step Now (world s)).1 in
  ∃ err s1, SaveLastChaosTime now (MkSt (env_step Now (world s)).2 (log s ++ [Now])) = (Ret err, s1) ∧
    match err with
    | Some _ => Jump ctx s = (Ret tt, s1)
    | None => ∃ msg s', Jump ctx s = (Panic msg, s')
    end.
Proof.
  split.
  - unfold Jump, SaveLastChaosTime. apply emits_bind; [emits_call; cbn; tauto|]. intros now.
    apply emits_bind; [solve_emits; cbn; tauto|]. intros [e|]; [apply emits_ret|].
    intros s0. destruct (TriggerBackup_panics ctx s0) as (msg & s' & E).
    destruct (emits_TriggerBackup ctx s0) as (new & El & F). rewrite bind_unfold. rewrite E in *. by exists new.
  - intros now. set (s0 := MkSt _ _).
    assert (∃ err s1, SaveLastChaosTime now s0 = (Ret err, s1)) as (err & s1 & Es).
    { unfold SaveLastChaosTime. step_perform. destruct (env_step (ResCreate _ _ _) _) as [[o [e|]] w]; cbn [fst snd]; [|by do 2 eexists].
      rewrite perform_eq. by do 2 eexists. }
    exists err, s1. split; [done|]. unfold Jump. step_perform. fold now s0. rewrite (bind_Ret _ _ _ _ _ Es).
    destruct err as [e|]; [done|]. destruct (TriggerBackup_panics ctx s1) as (msg & s' & E).
    rewrite bind_unfold, E. by do 2 eexists.
Qed.

(** An action that is run is applied to at least one machine of the group
    and to no more than half of them, rounded up: to as many of the machines, in
    the order of the map, as it says.  An empty group ends in a panic. *)
Theorem Execute_at_most_half `{!RandSpec W} ctx a detail (s : St W) :
  ClusterName a ≠ EmptyString →
  (env_step (PScalingGroupDetail ctx EmptyString (MkOption ActionInstanceIDS zeroValue)) (world s)).1 = (detail, None) →
  let len := Z.of_nat (size (sg_Instances detail)) in
  match Execute ctx a s with
  | (Ret (n, err), s') =>
      err = None ∧ 1 ≤ n ≤ (len + 1) `div` 2 ∧
      ∃ new, log s' = log s ++ new ∧
        filter harms new = map (harm ctx a) (take (Z.to_nat n) (range_vals 0 (sg_Instances detail)))
  | (Panic _, _) => len = 0
  | (Hang, _) => False
  end.
Proof.
  intros Hn Hd len. assert (0 ≤ len) by apply Nat2Z.is_nonneg. unfold Execute, doOperate. rewrite decide_False by done. step_perform.
  destruct (env_step _ (world s)) as [[d err] w1]. cbn [fst snd] in *. injection Hd as -> ->. fold len.
  unfold Intn. case_decide as Hl; [change (len = 0); lia|]. step_perform.
  pose proof (rand_range len w1 ltac:(lia)) as Hr. destruct (env_step (RandIntn len) w1) as [r w2]. cbn [fst snd] in *.
  pose proof (Z.div_le_mono r (len - 1) 2 ltac:(lia) ltac:(lia)) as Hm.
  assert ((len - 1) `div` 2 + 1 = (len + 1) `div` 2) as Hh by (rewrite <- Z.div_add by lia; f_equal; lia).
  pose proof (Z.div_pos r 2 ltac:(lia) ltac:(lia)).
  rewrite (decide_False (P := len < _)) by (pose proof (Z.div_le_upper_bound (len + 1) 2 len); lia).
  edestruct operateOn_first as (s' & new & E & El & Ef). rewrite (bind_Ret _ _ _ _ _ E). cbn.
  split; [done|]. split; [lia|]. eexists. split; [rewrite El; cbn [log]; rewrite <- !app_assoc; done|].
  cbn [app]. rewrite !filter_cons_False by (cbn; tauto). by rewrite Ef, Z.sub_0_r.
Qed.

(** The time of the last round does not survive being saved: what was saved
    at an instant is read back as that instant, to the second, moved by the
    offset of the process's zone.  East of Greenwich the monkey waits so much
    longer than its hour, and west of it not at all. *)
Theorem chaos_time_shifted cm now (s : St W) :
  let u := now + zone_offset * Second in
  0 ≤ local_year 0 u ≤ 9999 →
  (env_step (ResGet "configmaps" "kube-system" "chaos.config") (world s)).1 = (cm, None) →
  cm = chaosConfig (format_at zone_offset " " EmptyString now) →
  ∃ s', LoadLastChaosTime s = (Ret (u `div` Second * Second, None), s').
Proof.
  intros u Hy Hg ->. unfold LoadLastChaosTime. step_perform.
  destruct (env_step _ (world s)) as [[d err] w1]. cbn [fst snd] in *. injection Hg as -> ->.
  assert (cmData (chaosConfig (format_at zone_offset " " EmptyString now)) last_chaos_time
          = format_at zone_offset " " EmptyString now) as -> by done.
  rewrite parse_as_utc by done. by eexists.
Qed.
End properties.

(** ** A group of three machines, and a time saved at noon in Shanghai, for evaluation *)
Module SimMonkey.
Import Sim SimEnv SimWait SimEtcd SimBackup SimStore.
#[export] Instance time_parse : TimeParse := λ s, GoErr ("parsing time " +:+ s) false.
Definition machine (id : string) : Instance := MkInstance "" id "" [] "" "" "Running".
Definition machines : gmap string Instance :=
  {["i-1" := machine "i-1"; "i-2" := machine "i-2"; "i-3" := machine "i-3"]}.
Definition noon : Z := 1700000000 * Second.
Definition script (c : call) (_ : Z) : option (reply c) :=
  match c with
  | PScalingGroupDetail _ _ _ =>
      Some (MkScaleGroupDetail "asg" machines, None)
  | RandIntn n => Some (n - 1)
  | ResGet _ _ _ => Some (chaosConfig (format_at zone_offset " " EmptyString noon), None)
  | KGet KCluster _ _ => Some (cluster1, None)
  | _ => None
  end.
#[export] Instance monkey_env : Env Z := SimEnv.scripted script.
#[export] Instance monkey_rand : RandSpec Z.
Proof. intros n w Hn. cbn. lia. Qed.
End SimMonkey.

(** ** Witnesses *)
Import Sim SimEnv SimWait SimEtcd SimBackup SimStore SimMonkey.

Lemma Execute_at_most_half_witness :
  ∃ n s', Execute (W:=Z) NewEmptyContext (StopECS "k8s") (start_at 0) = (Ret (n, None), s') ∧ n ≤ 2 ∧
    PStopECS NewEmptyContext "i-1" ∈ log s'.
Proof.
  pose proof (Execute_at_most_half (W:=Z) NewEmptyContext (StopECS "k8s")
    (MkScaleGroupDetail "asg" machines) (start_at 0) ltac:(done) eq_refl) as Hx.
  cbv zeta in Hx. set (x := Execute _ _ _) in *.
  assert (x = (Ret (2, None), x.2)) as E by (by vm_compute). rewrite E in Hx. destruct Hx as (_ & [_ Hn] & _).
  exists 2, x.2. split; [exact E|]. split; [exact Hn|]. apply (list_elem_of_lookup_2 _ 3). by vm_compute.
Defined.

Lemma chaos_time_shifted_witness :
  ∃ s', LoadLastChaosTime (W:=Z) (start_at 0) = (Ret (noon + 8 * Hour, None), s').
Proof.
  pose proof (chaos_time_shifted (W:=Z) (chaosConfig (format_at zone_offset " " EmptyString noon)) noon (start_at 0)) as Hs.
  cbv zeta in Hs.
  replace ((noon + zone_offset * Second) `div` Second * Second) with (noon + 8 * Hour) in Hs by (by vm_compute).
  apply Hs; [vm_compute; split; discriminate|reflexivity|reflexivity].
Defined.
