(* ===== verification/Auth.v ===== *)
(** * Credentials of the cloud provider (pkg/iaas/provider/alibaba/auth.go)

    Which kind of token the configuration file selects, how the next token is
    obtained, and the start of the refreshing loop.  The metadata client of
    aliyungo is a record of its operations; [wait.ExponentialBackoff] asks at
    most [Steps] times and pauses in between. *)
From stdpp Require Import base list gmap strings.
From Stdlib Require Import Lia.
From S2P Require Import Prelude GoStrings GoTime Api Sdk Effects Utils Provider Alibaba.
Local Open Scope Z_scope.

Definition KUBERNETES_NODE_LIFE_CYCLE : string := "ack.wdrip".
Definition TOKEN_RESYNC_PERIOD : Z := 10 * Minute.

Record ProviderConfig : Type := MkProviderConfig {
  pc_Region : string;
  pc_AccessKey : string;
  pc_AccessSecret : string;
  pc_UID : string }.
(** [var CFG = &ProviderConfig{}] *)
Definition CFG0 : ProviderConfig := MkProviderConfig EmptyString EmptyString EmptyString EmptyString.

Record Token : Type := MkToken {
  tk_Region : string;
  tk_AccessSecret : string;
  tk_UID : string;
  tk_Token : string;
  tk_AccessKey : string }.
Definition zeroToken : Token := MkToken EmptyString EmptyString EmptyString EmptyString EmptyString.

(** [metadata.RoleAuth], as far as it is read. *)
Record RoleAuth : Type := MkRoleAuth {
  ra_AccessKeyId : string;
  ra_AccessKeySecret : string;
  ra_SecurityToken : string }.

(** [type IMetaData interface] *)
Record IMetaData (W : Type) : Type := MkIMetaData {
  HostName : IO W (string * error);
  ImageID : IO W (string * error);
  InstanceID : IO W (string * error);
  Mac : IO W (string * error);
  NetworkType : IO W (string * error);
  OwnerAccountID : IO W (string * error);
  PrivateIPv4 : IO W (string * error);
  Region : IO W (string * error);
  SerialNumber : IO W (string * error);
  SourceAddress : IO W (string * error);
  VpcCIDRBlock : IO W (string * error);
  VpcID : IO W (string * error);
  VswitchCIDRBlock : IO W (string * error);
  Zone : IO W (string * error);
  NTPConfigServers : IO W (list string * error);
  RoleName : IO W (string * error);
  RamRoleToken : string → IO W (RoleAuth * error);
  VswitchID : IO W (string * error) }.
Arguments HostName {W} _. Arguments ImageID {W} _. Arguments InstanceID {W} _. Arguments Mac {W} _.
Arguments NetworkType {W} _. Arguments OwnerAccountID {W} _. Arguments PrivateIPv4 {W} _. Arguments Region {W} _.
Arguments SerialNumber {W} _. Arguments SourceAddress {W} _. Arguments VpcCIDRBlock {W} _. Arguments VpcID {W} _.
Arguments VswitchCIDRBlock {W} _. Arguments Zone {W} _. Arguments NTPConfigServers {W} _. Arguments RoleName {W} _.
Arguments RamRoleToken {W} _ _. Arguments VswitchID {W} _.

(** The mock, which answers from another client or not at all. *)
Definition md_unimplemented {W} : IO W (string * error) := mret (EmptyString, Errorf "unimplemented").
Definition fakeMetaData {W} (base : IMetaData W) : IMetaData W :=
  MkIMetaData W md_unimplemented md_unimplemented (mret ("fakedInstanceid", None)) md_unimplemented md_unimplemented md_unimplemented
    md_unimplemented (Region base) md_unimplemented md_unimplemented md_unimplemented (VpcID base) md_unimplemented (Zone base)
    (mret ([EmptyString], Errorf "unimplemented")) (RoleName base) (RamRoleToken base) md_unimplemented.
(** [NewMetaData()]: the mock is switched off. *)
Definition NewMetaData {W} (base : IMetaData W) : IMetaData W := if false then fakeMetaData base else base.

(** [type TokenAuth interface] and its implementations. *)
Inductive TokenAuth : Type :=
| AkAuthToken (ak : Token)
| RamRoleAuth
| ServiceToken (svcak : Token) (execpath : string).

(** [wait.Jitter], which lengthens a pause by up to its length. *)
Class Jitter : Type := jitter : nat → Z → Z.

Section operations.
Context {W : Type} `{Env W} `{Base64} `{Yaml ProviderConfig} `{Json Token} `{Jitter} (meta : IMetaData W).

(** [LoadCfg(cfg)]: into the configuration there is. *)
Definition LoadCfg (file : string) (CFG : ProviderConfig) : IO W (ProviderConfig * error) :=
  '(content, err) ← perform (ReadFile file);
  match (err : error) with
  | Some _ => mret (CFG, Errorf ("read config file: " +:+ content))
  | None => mret (YamlUnmarshal content CFG)
  end.

(** [mgr.Token()] *)
Definition mgr_Token (CFG : ProviderConfig) : IO W TokenAuth :=
  match DecodeString (pc_AccessKey CFG) with
  | (_, Some e) => panic ("ak must be base64 encoded: " +:+ Error e)
  | (key, None) =>
      match DecodeString (pc_AccessSecret CFG) with
      | (_, Some e) => panic ("ak must be base64 encoded: " +:+ Error e)
      | (secret, None) =>
          if bool_decide (key = EmptyString) || bool_decide (secret = EmptyString) then mret RamRoleAuth
          else
            region ← (if decide (pc_Region CFG = EmptyString) then
                        '(region, err) ← Region meta;
                        match (err : error) with
                        | Some e => panic ("region not specified in config, detect region failed: " +:+ Error e)
                        | None => mret region
                        end
                      else mret (pc_Region CFG));
            let inittoken := MkToken region secret (pc_UID CFG) EmptyString key in
            if decide (tk_UID inittoken = EmptyString) then mret (AkAuthToken inittoken)
            else mret (ServiceToken inittoken EmptyString)
      end
  end.

(** [NextToken()] of each; the exit status of the command is not looked at. *)
Definition NextToken (a : TokenAuth) : IO W (option Token * error) :=
  match a with
  | AkAuthToken ak => mret (Some ak, None)
  | RamRoleAuth =>
      '(roleName, err) ← RoleName meta;
      match (err : error) with
      | Some e => mret (None, Errorf ("role name: " +:+ Error e))
      | None =>
          '(role, err) ← RamRoleToken meta roleName;
          match (err : error) with
          | Some e => mret (None, Errorf ("ramrole Token retrieve: " +:+ Error e))
          | None =>
              mret (Some (MkToken EmptyString (ra_AccessKeySecret role) EmptyString (ra_SecurityToken role)
                            (ra_AccessKeyId role)), None)
          end
      end
  | ServiceToken svcak execpath =>
      status ← perform (Run (JoinPath [execpath; "servicetoken"])
                          ["--uid=" +:+ tk_UID svcak; "--key=" +:+ tk_AccessKey svcak; "--secret=" +:+ tk_AccessSecret svcak] []);
      match c_Error status with
      | Some e => mret (None, Errorf ("invoke servicetoken: " +:+ Error e))
      | None =>
          match Unmarshal (Join (c_Stdout status) EmptyString) zeroToken with
          | (token, None) => mret (Some token, None)
          | (_, Some e) =>
              mret (None, Errorf ("unmarshal Token: " +:+ Error e +:+ ", " +:+ fmt_strs (c_Stdout status)
                                  +:+ ", " +:+ fmt_strs (c_Stderr status)))
          end
      end
  end.

(** [RefreshToken(mgr, token)] *)
Definition RefreshToken (token : Token) : IO W error := mret None.

(** [tokenfunc] of [Start]: the configuration, and whether it set
    [initialized]. *)
Definition tokenfunc (file : string) (settoken : Token → IO W error) (CFG : ProviderConfig)
    : IO W (ProviderConfig * bool) :=
  '(CFG, err) ← LoadCfg file CFG;
  match (err : error) with
  | Some _ => mret (CFG, false)
  | None =>
      auth ← mgr_Token CFG;
      '(token, err) ← NextToken auth;
      match (err : error), token with
      | Some _, _ => mret (CFG, false)
      | None, None => panic "nil pointer dereference"
      | None, Some token =>
          err ← settoken token;
          match (err : error) with Some _ => mret (CFG, false) | None => mret (CFG, true) end
      end
  end.

(** The rounds of the goroutine that are through before an attempt of [Start];
    [bg] says how many before each. *)
Fixpoint background (file : string) (settoken : Token → IO W error) (n : nat) (CFG : ProviderConfig) (initialized : bool)
    : IO W (ProviderConfig * bool) :=
  match n with
  | O => mret (CFG, initialized)
  | S n => '(CFG, ok) ← tokenfunc file settoken CFG; background file settoken n CFG (initialized || ok)
  end.
Fixpoint backoff (file : string) (settoken : Token → IO W error) (steps : nat) (duration : Z) (bg : list nat)
    (CFG : ProviderConfig) (initialized : bool) : IO W (ProviderConfig * bool * error) :=
  match steps with
  | O => mret (CFG, initialized, Some ErrWaitTimeout)
  | S steps =>
      '(CFG, initialized) ← background file settoken (hd 0%nat bg) CFG initialized;
      '(CFG, ok) ← tokenfunc file settoken CFG;
      let initialized := initialized || ok in
      if initialized then mret (CFG, initialized, None)
      else if decide (steps = 0%nat) then mret (CFG, initialized, Some ErrWaitTimeout)
      else _ ← perform (Sleep (jitter steps duration)); backoff file settoken steps (2 * duration) (tl bg) CFG initialized
  end.
(** [mgr.Start(settoken)] *)
Definition Auth_Start (file : string) (settoken : Token → IO W error) (bg : list nat) (CFG : ProviderConfig)
    : IO W (ProviderConfig * bool * error) :=
  backoff file settoken 7 (1 * Second) bg CFG false.
End operations.

(** ** Properties *)
Section properties.
Context {W : Type} `{Env W} `{Base64} `{Yaml ProviderConfig} `{Json Token} `{Jitter} (meta : IMetaData W).

(** Some round has set a token. *)
Definition tokenSet (file : string) (settoken : Token → IO W error) : Prop :=
  ∃ CFG CFG' s s', tokenfunc meta file settoken CFG s = (Ret (CFG', true), s').
Lemma background_set file settoken n CFG i CFG' i' (s s' : St W) :
  background meta file settoken n CFG i s = (Ret (CFG', i'), s') → i' = true → i = true ∨ tokenSet file settoken.
Proof.
  revert CFG i s. induction n as [|n IH]; intros CFG i s; cbn [background]; [intros [= _ <- _]; auto|].
  intros ([c1 ok] & s1 & Ht & HB)%bind_Ret_inv Hi. destruct (IH _ _ _ HB Hi) as [[Hx|Hx]%orb_true_iff|?]; subst; auto.
  right. by exists CFG, c1, s, s1.
Qed.

(** A start that returns does so with the flag that says whether a token was
    set, and without an error exactly when one was; then some round has set a
    token without an error. *)
Theorem Auth_Start_sets file settoken bg CFG CFG' i err (s s' : St W) :
  Auth_Start meta file settoken bg CFG s = (Ret (CFG', i, err), s') →
  (i = true ↔ err = None) ∧ (err = None → tokenSet file settoken).
Proof.
  unfold Auth_Start. generalize 7%nat as steps, (1 * Second) as d. intros steps d.
  assert (∀ steps d bg CFG s, backoff meta file settoken steps d bg CFG false s = (Ret (CFG', i, err), s') →
    (i = true ↔ err = None) ∧ (err = None → tokenSet file settoken)) as HG; [|by apply HG].
  clear. intros steps. induction steps as [|k IH]; intros d bg CFG s; cbn [backoff]; [by intros [= _ <- <- _]|].
  intros ([c1 i1] & s1 & Hb & HB)%bind_Ret_inv. apply bind_Ret_inv in HB as ([c2 ok] & s2 & Ht & HB).
  cbv zeta in HB. destruct (i1 || ok) eqn:Eo.
  - injection HB as _ <- <- _. split; [done|]. intros _. apply orb_true_iff in Eo as [->| ->].
    + by destruct (background_set _ _ _ _ _ _ _ _ _ Hb eq_refl).
    + by exists c1, c2, s1, s2.
  - apply orb_false_iff in Eo as [-> ->]. cbn in HB. case_decide; [by injection HB as _ <- <- _|].
    step_perform_in HB. by eapply IH.
Qed.
End properties.
