(* ===== verification/Commands.v ===== *)
(** * Commands with logic of their own (cmd/wdrip/token, cmd/wdrip/operator)

    crypt encrypts a file with AES in counter mode, and decrypts it, which is the
    same; the block cipher is a parameter, the mode is modelled.  operator starts
    the server, and its loading of a boot configuration. *)
From stdpp Require Import base list gmap strings.
From Stdlib Require Import Lia Ascii.
From S2P Require Import Prelude GoStrings GoTime Api Sdk Effects Crd Utils Provider Help Sign Etcd Triple Operation Healet ApiServer Actions Alibaba Stack Post Boot KubeClient Operator.
Local Open Scope Z_scope.

(** ** cmd/wdrip/token/crypt.go *)
Record flagpoleCrypt : Type := MkFlagpoleCrypt { fc_InFile : string; fc_OutFile : string; fc_IV : string }.
Definition crypt_key : string := "XfDiMNXOQTPxxNTA".
Definition MIV : string := "QQ1875KIEUDLLFMX".

(** crypto/aes: the block a key makes of a block. *)
Class BlockCipher : Type := encrypt_block : string → string → string.

(** crypto/cipher's counter mode: byte [i] of the key stream is byte [i mod 16]
    of the block made of the initial vector plus [i / 16], read as a big-endian
    number of 128 bits. *)
Definition BlockSize : nat := 16.
Fixpoint counter_of (s : string) (acc : N) : N :=
  match s with EmptyString => acc | String c s => counter_of s (acc * 256 + N_of_ascii c) end.
Fixpoint bytes_of (n : nat) (v : N) (acc : string) : string :=
  match n with O => acc | S n => bytes_of n (v / 256) (String (ascii_of_N (v mod 256)) acc) end.
Definition keystream `{BlockCipher} (key iv : string) (i : nat) : ascii :=
  let block := encrypt_block key (bytes_of BlockSize ((counter_of iv 0 + N.of_nat (i / BlockSize)) mod 2 ^ 128) EmptyString) in
  default Ascii.zero (String.get (i mod BlockSize) block).
Definition xor_byte (a b : ascii) : ascii :=
  let '(Ascii a0 a1 a2 a3 a4 a5 a6 a7) := a in
  let '(Ascii b0 b1 b2 b3 b4 b5 b6 b7) := b in
  Ascii (xorb a0 b0) (xorb a1 b1) (xorb a2 b2) (xorb a3 b3) (xorb a4 b4) (xorb a5 b5) (xorb a6 b6) (xorb a7 b7).
Fixpoint XORKeyStream (stream : nat → ascii) (i : nat) (data : string) : string :=
  match data with
  | EmptyString => EmptyString
  | String c data => String (xor_byte c (stream i)) (XORKeyStream stream (S i) data)
  end.

Section crypt.
Context {W : Type} `{Env W} `{BlockCipher}.

(** [Crypt(data, flag)]: the key has a length [aes.NewCipher] takes;
    [cipher.NewCTR] panics on a vector that is not a block. *)
Definition Crypt (data : string) (flag : flagpoleCrypt) : IO W (string * error) :=
  if decide (String.length (fc_IV flag) ≠ BlockSize) then panic "cipher.NewCTR: IV length must equal block size"
  else mret (XORKeyStream (keystream crypt_key (fc_IV flag)) 0 data, None).

Definition runCrypt (flags : flagpoleCrypt) : IO W error :=
  let iv := if decide (fc_IV flags = EmptyString) then MIV else fc_IV flags in
  if decide (fc_InFile flags = EmptyString) then mret (Errorf "encrypt file must not be empty")
  else
    '(data, err) ← perform (ReadFile (fc_InFile flags));
    match (err : error) with
    | Some e => mret (Errorf ("read source file: " +:+ Error e))
    | None =>
        let out := if decide (fc_OutFile flags = EmptyString) then fc_InFile flags +:+ ".edata" else fc_OutFile flags in
        '(edata, err) ← Crypt data (MkFlagpoleCrypt (fc_InFile flags) out iv);
        match (err : error) with
        | Some e => mret (Errorf ("encrypt error: " +:+ Error e))
        | None => perform (WriteFile out edata)
        end
    end.

(** cmd/wdrip/token/token.go: the token is printed. *)
Definition token_runE : IO W (option string * error) :=
  '(token, err) ← perform GenerateBootstrapToken;
  match (err : error) with
  | Some e => mret (None, Errorf ("gen token: " +:+ Error e))
  | None => mret (Some token, None)
  end.
End crypt.

(** ** cmd/wdrip/operator/operator.go *)
Section operator.
Context {W : Type} `{Env W} `{PkgErrors} `{GoFmt} `{MapRange} `{LocalZone} `{WaitLib W}.
Context `{PatchLib} `{AggErrors} `{Json Members} `{Json (list EndpointStatus)} `{CryptoLib}.
Context `{Yaml ClusterSpec} `{Yaml ContextCFG} `{JM : Json Master}.

(** [runE(flags, cmd, args)]: a started server is waited for without end. *)
Definition operator_runE (n : nat) (flags : OperatorFlag) : IO W error :=
  let z := zeroWdripOptions in
  let opts := MkWdripOptions (wo_Endpoint z) (wo_Role z) (wo_Token z) (wo_Config z) (wo_Bucket z) (wo_BootType z)
    (wo_Resource z) (wo_TargetCount z) (wo_RecoverFrom z) (wo_ClusterName z) (wo_Default z) (wo_Addons z)
    (wo_ExpectedMasterCnt z) (wo_RecoverMode z) flags in
  '(_, err) ← Operator_Start n (NewOperatorServer opts);
  match (err : error) with
  | Some e => panic ("run apiserver: " +:+ Error e)
  | None => hang
  end.

(** The copy that is printed: every authority masked, through its pointer. *)
Definition maskedCert : KeyCert := MkKeyCert "[MASK]" "[MASK]".
Definition maskBoot (spec : ClusterSpec) : IO W ClusterSpec :=
  let k := cs_Kubernetes spec in
  let e := cs_Etcd spec in
  _ ← deref (ku_RootCA k);
  _ ← deref (ku_FrontProxyCA k);
  _ ← deref (ku_SvcAccountCA k);
  _ ← deref (es_PeerCA e);
  _ ← deref (es_ServerCA e);
  mret (cs_with_Etcd (MkEtcdSpec (es_Unit e) (es_Endpoints e) (es_InitToken e) (Some maskedCert) (Some maskedCert))
          (cs_with_Kubernetes
             (MkKubernetes (ku_Unit k) (ku_KubeadmToken k) (Some maskedCert) (Some maskedCert) (Some maskedCert)
                (option_map (λ _, maskedCert) (ku_ControlRoot k))) spec)).

(** [LoadBootCfgOrDie(filen)]: what is printed, and the specification. *)
Definition required (ca : option KeyCert) (what : string) : IO W unit :=
  match ca with Some _ => mret tt | None => panic ("new self signed cert pair fail " +:+ what) end.
Definition LoadBootCfgOrDie (filen : string) : IO W (ClusterSpec * ClusterSpec) :=
  '(cont, err) ← perform (ReadFile filen);
  match (err : error) with
  | Some e => panic ("load cluster config error: " +:+ Error e)
  | None =>
      match YamlUnmarshal cont zeroClusterSpec with
      | (_, Some e) => panic ("bootcfg file provided,but not valid " +:+ Error e)
      | (spec, None) =>
          output ← maskBoot spec;
          let k := cs_Kubernetes spec in
          let e := cs_Etcd spec in
          _ ← required (ku_RootCA k) "Kubernetes.RootCA";
          _ ← required (ku_FrontProxyCA k) "Kubernetes.FrontProxyCA";
          _ ← required (ku_SvcAccountCA k) "Kubernetes.SvcAccountCA";
          _ ← (if decide (ku_KubeadmToken k = EmptyString) then panic "kubeadm token empty" else mret tt);
          _ ← required (es_ServerCA e) "Etcd.ServerCA";
          _ ← required (es_PeerCA e) "Etcd.PeerCA";
          if decide (es_InitToken e = EmptyString) then
            id ← perform GenerateUUID;
            mret (output, cs_with_Etcd (MkEtcdSpec (es_Unit e) (es_Endpoints e) id (es_PeerCA e) (es_ServerCA e)) spec)
          else mret (output, spec)
      end
  end.
End operator.

(** ** Facts *)
Lemma xor_byte_twice a b : xor_byte (xor_byte a b) b = a.
Proof.
  destruct a as [a0 a1 a2 a3 a4 a5 a6 a7], b as [b0 b1 b2 b3 b4 b5 b6 b7]. cbn.
  by rewrite !xorb_assoc, !xorb_nilpotent, !xorb_false_r.
Qed.
Lemma XORKeyStream_twice stream i data : XORKeyStream stream i (XORKeyStream stream i data) = data.
Proof. revert i. induction data as [|c data IH]; intros i; cbn [XORKeyStream]; [done|]. by rewrite xor_byte_twice, IH. Qed.

Section properties.
Context {W : Type} `{Env W} `{BlockCipher}.

(** Crypt undoes itself: a file is read and one file is written, and a second
    run that reads what the first wrote, with the same vector, writes what the
    first had read. *)
Theorem crypt_twice src mid dst iv data w1 w2 (s1 s2 : St W) :
  src ≠ EmptyString → mid ≠ EmptyString → dst ≠ EmptyString → iv = EmptyString ∨ String.length iv = BlockSize →
  env_step (ReadFile src) (world s1) = ((data, None), w1) →
  ∃ edata s1', runCrypt (MkFlagpoleCrypt src mid iv) s1
                 = (Ret (env_step (WriteFile mid edata) w1).1, s1') ∧
    log s1' = log s1 ++ [ReadFile src; WriteFile mid edata] ∧ String.length edata = String.length data ∧
    (env_step (ReadFile mid) (world s2) = ((edata, None), w2) →
     ∃ s2', runCrypt (MkFlagpoleCrypt mid dst iv) s2 = (Ret (env_step (WriteFile dst data) w2).1, s2') ∧
            log s2' = log s2 ++ [ReadFile mid; WriteFile dst data]).
Proof.
  intros Hs Hm Hd Hiv Hr. set (v := if decide (iv = EmptyString) then MIV else iv).
  assert (String.length v = BlockSize) as Hv.
  { unfold v. case_decide; [done|]. by destruct Hiv. }
  assert (∀ a b x w w' (s : St W), a ≠ EmptyString → b ≠ EmptyString → env_step (ReadFile a) w = ((x, None), w') →
    world s = w → let y := XORKeyStream (keystream crypt_key v) 0 x in
    runCrypt (MkFlagpoleCrypt a b iv) s
    = (Ret (env_step (WriteFile b y) w').1,
       MkSt (env_step (WriteFile b y) w').2 (log s ++ [ReadFile a; WriteFile b y]))) as Hrun.
  { intros a b x w w' s Ha Hb Hrd <- y. unfold runCrypt. cbn [fc_InFile fc_OutFile fc_IV].
    rewrite decide_False by done. step_perform. rewrite Hrd. cbn [fst snd]. rewrite decide_False by done.
    unfold Crypt. cbn [fc_IV]. fold v. case_decide as Hx; [by destruct (Hx Hv)|]. rewrite bind_ret_l, perform_eq.
    cbn [world log]. by rewrite <- app_assoc. }
  eexists _, _. split; [apply (Hrun src mid data _ w1 s1 Hs Hm Hr eq_refl)|]. cbn [log]. split; [done|]. split.
  { clear. generalize 0%nat as i. induction data as [|c data IH]; intros i; cbn; [done|]. by rewrite IH. }
  intros Hr2. eexists. rewrite (Hrun mid dst _ _ _ s2 Hm Hd Hr2 eq_refl), XORKeyStream_twice. done.
Qed.
End properties.

Section boot_properties.
Context {W : Type} `{Env W} `{Yaml ClusterSpec}.

(** What is loaded has every authority and both tokens, and what is printed of it
    has none of the keys. *)
Theorem LoadBootCfgOrDie_complete filen output spec (s s' : St W) :
  (∀ w, (env_step GenerateUUID w).1 ≠ EmptyString) →
  LoadBootCfgOrDie filen s = (Ret (output, spec), s') →
  Forall (λ ca, is_Some ca)
    [ku_RootCA (cs_Kubernetes spec); ku_FrontProxyCA (cs_Kubernetes spec); ku_SvcAccountCA (cs_Kubernetes spec);
     es_ServerCA (cs_Etcd spec); es_PeerCA (cs_Etcd spec)] ∧
  ku_KubeadmToken (cs_Kubernetes spec) ≠ EmptyString ∧ es_InitToken (cs_Etcd spec) ≠ EmptyString ∧
  Forall (λ ca, ca = Some maskedCert ∨ ca = None)
    [ku_RootCA (cs_Kubernetes output); ku_FrontProxyCA (cs_Kubernetes output); ku_SvcAccountCA (cs_Kubernetes output);
     ku_ControlRoot (cs_Kubernetes output); es_ServerCA (cs_Etcd output); es_PeerCA (cs_Etcd output)].
Proof.
  intros Hu. unfold LoadBootCfgOrDie. intros ([cont [e|]] & s1 & _ & HB)%bind_Ret_inv; [done|].
  destruct (YamlUnmarshal cont zeroClusterSpec) as [sp [e|]]; [done|].
  destruct (cs_Kubernetes sp) as [unit token [root|] [front|] [sa|] control] eqn:Ek;
    destruct (cs_Etcd sp) as [eu ep init [peer|] [server|]] eqn:Ee; unfold maskBoot, required in HB;
    rewrite Ek, Ee in HB; try done. cbn in HB.
  destruct (decide (token = EmptyString)) as [Ht|Ht]; [by destruct (decide (init = EmptyString))|].
  assert (∀ c, option_map (λ _ : KeyCert, maskedCert) c = Some maskedCert ∨ option_map (λ _ : KeyCert, maskedCert) c = None) as Hc
    by (intros []; auto).
  destruct (decide (init = EmptyString)) as [Hi|Hi].
  - cbv [mbind M_bind mret M_ret perform deref] in HB. pose proof (Hu (world s1)) as Hn.
    destruct (env_step GenerateUUID (world s1)) as [id w]. injection HB as <- <- _.
    cbn. rewrite Ek. cbn. split_and!; try done; repeat (apply Forall_cons; split; [by eauto|]); constructor.
  - injection HB as <- <- _. cbn. rewrite Ek, Ee. cbn.
    split_and!; try done; repeat (apply Forall_cons; split; [by eauto|]); constructor.
Qed.
End boot_properties.

(** ** A file in memory, for evaluation *)
Module SimCrypt.
Import Sim SimEnv.
#[export] Instance cipher : BlockCipher := λ key block, block.
Definition script (c : call) (_ : Z) : option (reply c) :=
  match c with
  | ReadFile f => Some (if decide (f = "token.tar") then "secret" else "Tvrsmn", None)
  | _ => None
  end.
#[export] Instance crypt_env : Env Z := SimEnv.scripted script.
End SimCrypt.

Import Sim SimEnv SimCrypt.
Lemma crypt_twice_witness :
  ∃ edata, edata ≠ "secret" ∧ String.length edata = 6%nat.
Proof.
  destruct (crypt_twice (W:=Z) "token.tar" "token.edata" "token.out" "" "secret" 0 0 (start_at 0) (start_at 0))
    as (edata & s1' & Hr & Hl & Hn & _); [done..|by left|reflexivity|].
  exists edata. split; [|exact Hn]. intros ->.
  assert (s1' = (runCrypt (W:=Z) (MkFlagpoleCrypt "token.tar" "token.edata" "") (start_at 0)).2) as Hs by (by rewrite Hr).
  rewrite Hs in Hl. vm_compute in Hl. discriminate.
Defined.
